(* ===== verification/_CoqProject ===== *)
-Q . S2P
Prelude.v
Types.v
Cv.v
Meta.v
Kernel.v
Source.v
Backends.v
Lifecycle.v
Dmabuf.v
M2m.v
M2mSpec.v
Pipeline.v
Progress.v
Typed.v
Device.v
Hazards.v
Crc32.v
Pgm.v
Reference.v
Wp.v
UnitTest.v
Client.v
Process.v
Capture.v
CaptureM2m.v
Bench.v
VcamTest.v
FixtureBench.v
Feed.v
MetaDrain.v
Double.v
Latency.v
Runner.v
RunnerRun.v
Core.v
