(* ===== verification/Prelude.v ===== *)
(** * A verification of vpipe

    vpipe is a Linux kernel module that runs tiny computer-vision jobs on
    video frames through the V4L2 mem2mem interface, together with a sideband
    character device that reports one metadata entry per frame, frame sources
    that can fill the OUTPUT buffers, and user-space programs that drive it,
    measure it and check its output. This library models the module and the
    programs function by function and proves the properties that make them
    correct.

    ** Parts and where they are modelled

    The kernel module:

    - [Types]: the structures and constants of [kmod/vpipe.h],
      [kmod/vpipe-internal.h] and [kmod/vpipe-source.h].
    - [Cv]: [kmod/vpipe-cv.c], the ROI clamp, row copy, threshold and dispatch.
    - [Meta]: [kmod/vpipe-meta.c], the metadata ring and its file operations.
    - [Kernel]: the world the driver runs in: typed heap, byte memory, clock,
      allocator, dma-buf descriptors.
    - [Source]: [kmod/vpipe-source.c], the backend registry and the wrappers,
      with the contract [SourceContract] a backend owes the driver.
    - [Backends]: [kmod/vpipe-fixture.c], [kmod/vpipe-synthetic.c],
      [kmod/vpipe-vcam.c], and the proof that they meet the contract.
    - [Lifecycle]: theorems on sources from registration to destruction.
    - [Dmabuf]: the dma-buf callbacks of [kmod/vpipe-vcam.c].
    - [M2m]: [kmod/vpipe-m2m.c], formats, controls, queue operations, the job
      routine and private ioctls, over an interface [M2mFramework] with laws.
    - [M2mSpec]: what each handler does.
    - [Pipeline]: the driver as a transition system under its framework, with
      its invariant; [Progress]: queued frames are processed and reported;
      [Typed]: the members of published entries fit their types.
    - [Device]: open, release, module init and exit with their error paths.
    - [Hazards]: runs in which the driver departs from its intent.

    The helpers and tools of user space:

    - [Crc32], [Pgm], [Client]: [user/vpipe-common.c], with the tools
      [vpipe-dump-pgm.c] and [vpipe-pgm-diff.c] in [Pgm]; [Reference]:
      [vpipe-cv-ref.c]; [UnitTest]: [vpipe-unit-test.c], run over these models.

    The programs that talk to the device:

    - [Wp]: total-correctness weakest preconditions of the monad [F], the rule
      of the counted loop with an early exit.
    - [Process]: the process a program runs in (devices, descriptors, mappings,
      streams, heap blocks, rows of the CSV file), the stages a [main] is made
      of, the helpers most programs define, the assertions their proofs share.
    - [Capture], [CaptureM2m]: the five capture programs; [Feed], [MetaDrain]:
      the fixture feeder and the metadata drain; [Bench], [FixtureBench]: the
      benchmarks; [VcamTest]: the DMABUF test.
    - [Runner], [RunnerRun]: [vpipe-vcam-runner.c], its code and its runs;
      [Double], [Latency]: the type [double] and the percentiles it computes.
    - [Core]: the programs on the driver: [FormatLaws] derived from the handlers
      of [M2m] for any V4L2 core that dispatches to them.

    A [struct] is a [Record] with the source's field names (prefixed where two
    structures share one), a function a [Definition] or [Fixpoint] with the
    source's name, a C return code a [Z]. Code runs in [F kworld], [F vsys],
    [F uworld], [F cproc] or [F pworld]: the result is [None] when the C code
    would touch memory or an object it may not. Handlers are composed as the
    code composes them; the body of a long [main] is cut into stages that work
    on a record of its locals, a failing stage being a [goto cleanup].

    ** Interfaces

    [KernelEnv] / [ClockLaws] (clock, allocation outcomes, dma-buf export),
    [M2mFramework] / [M2mLaws] (v4l2-mem2mem and videobuf2, stated over the
    queues the driver can observe; [fifo_framework] is an instance),
    [DriverEnv] / [DriverTypes] ([crc32_le], the cpu number), [OpenEnv] and
    [InitEnv] (outcomes of registrations), [DmaEnv] (the scatter-gather and DMA
    services), [Posix] / [PosixLaws] / [TestPosix] (file system and [malloc];
    [mem_posix] is an instance) and [V4l2] (the devices, mappings and clock of a
    process) with [V4l2Laws] (signals interrupt an ioctl boundedly often),
    [BufferLaws] (REQBUFS, QUERYBUF, QBUF and DQBUF agree on the buffers of a
    queue), [FormatLaws] (formats hold the lines asked for, buffers hold an
    image) and [MonotonicClock] stand for code outside the repository;
    [Sim.sim] is an instance of the device with its laws proved.
    [SourceContract] is the interface between the driver and the backends:
    [Pipeline] is proved against it and [vpipe_source_contract] discharges it
    for all three. [MetaDrain] composes the drain with the ring of [Meta].
    [DriverCore] says how a V4L2 core dispatches requests to the driver's
    handlers; [driver_formats] derives [FormatLaws] from it, and
    [SimCore.core_driver] is an instance over a file opened by [vpipe_open].

    ** What the theorems show

    - The driver as a whole ([Pipeline], [Progress], [Typed]): in no order of
      events the frameworks allow does it fault; each frame number is published
      once; frames waiting in both queues are processed and reported in order;
      timestamps of an entry are ordered and its members are in range.
    - The job ([Cv], [M2mSpec]): the exact image and counters, both buffers
      returned, the metadata entry of this frame, each failure branch; control
      changes do not reach queued work; formats are always consistent.
    - The sideband ([Meta]): the ring refines an append-only log with a window
      of 256; gaps are flagged; readers are safe under every interleaving as
      long as a descriptor is not shared; two departures are proved too.
    - Sources ([Lifecycle], [Dmabuf]): registration, creation, numbering, drop
      cadence, exported buffers outliving the source and mapped page by page, no
      leak on any path.
    - The device ([Device]): open is all or nothing, release and exit take
      everything back, init unwinds; closing while streaming uses freed memory.
    - Helpers and tools ([Crc32], [Pgm], [Reference], [Client], [UnitTest]): the
      table-driven checksum is CRC-32 and equals the metadata's; the reference
      image is the kernel's output byte for byte; PGM files round-trip and
      hostile ones are handled; the comparison tool reports black exactly on
      equality; buffer setup gives back what it took; an interrupted ioctl is
      repeated until it is answered; the unit tests pass.
    - Programs: on every device that keeps the laws no program touches memory or
      an array element it may not, each gives everything back on every path (the
      exceptions are theorems and findings), and the rows written pair each
      frame's queuing and dequeuing times with its checksum. The runner's ring
      of times is right although it has fewer slots than there are frames, its
      percentiles lie between neighbouring samples and are ordered in spite of
      rounding, and a printed PASS is true of the rows.
    - Both sides together ([Core], [MetaDrain]): the driver keeps the format
      laws the programs rely on, so the runner and the DMABUF test run on it
      with no assumption on formats; the drain copies the ring's log.

    ** Bounds and fuel

    Loops over an index use [for_range] or [floop], which take exactly the
    iterations of the C loop. Fuel appears where recursion is not structural,
    and each use is proved sufficient: [return_all_loop] gets one more than the
    number of buffers and empties the queue; [skip_space_loop] one more than the
    bytes left; [dec_loop] ten digits, enough for 32 bits; [xioctl_loop] one
    more than the bound the environment puts on consecutive interruptions.
    Widths are written out with [u8], [u32], [u64] and [s32].

    ** What is not modelled

    Wake-ups of sleeping readers, represented by the condition they wait for;
    the sleep of the runner's pacer; messages on standard error and usage texts;
    several open files of the video node at once (in [Core] the other files may
    change anything but a file's own context); the contents of the mappings
    of a device, which the device may change at any time; scripts, build files,
    fixtures and documents.

    ** This file

    Machine integers with their wrap-around written out, the byte memory the
    image routines work on, bounded [for] loops with their proof rule, the
    state-and-fault monad of the kernel code, and the automation the component
    files use. *)

From stdpp Require Export base numbers list gmap strings option.
From Stdlib Require Export ZArith Lia.

#[global] Open Scope Z_scope.

(** ** Machine integers *)

Definition u8 (z : Z) : Z := z mod 256.
Definition u16 (z : Z) : Z := z mod 65536.
Definition u32 (z : Z) : Z := z mod 4294967296.
Definition u64 (z : Z) : Z := z mod 18446744073709551616.
Definition s32 (z : Z) : Z := (z + 2147483648) mod 4294967296 - 2147483648.

Definition INT_MAX : Z := 2147483647.
Definition UINT_MAX : Z := 4294967295.
Definition ULONG_MAX : Z := 18446744073709551615.

Definition in_u8 (z : Z) : Prop := 0 <= z < 256.
Definition in_u32 (z : Z) : Prop := 0 <= z < 4294967296.
Definition in_u64 (z : Z) : Prop := 0 <= z < 18446744073709551616.
Definition in_s32 (z : Z) : Prop := -2147483648 <= z <= 2147483647.

Create HintDb widths.
#[export] Hint Unfold in_u8 in_u32 in_u64 in_s32 : widths.

Lemma u8_small z : 0 <= z < 256 -> u8 z = z.
Proof. apply Z.mod_small. Qed.
Lemma u32_small z : 0 <= z < 4294967296 -> u32 z = z.
Proof. apply Z.mod_small. Qed.
Lemma u64_small z : 0 <= z < 18446744073709551616 -> u64 z = z.
Proof. apply Z.mod_small. Qed.
Lemma s32_small z : -2147483648 <= z <= 2147483647 -> s32 z = z.
Proof. intros. unfold s32. rewrite Z.mod_small; lia. Qed.
Lemma u8_range z : 0 <= u8 z < 256.
Proof. apply Z.mod_pos_bound; lia. Qed.
Lemma u32_range z : 0 <= u32 z < 4294967296.
Proof. apply Z.mod_pos_bound; lia. Qed.
Lemma u64_range z : 0 <= u64 z < 18446744073709551616.
Proof. apply Z.mod_pos_bound; lia. Qed.
Lemma s32_range z : -2147483648 <= s32 z <= 2147483647.
Proof.
  unfold s32. pose proof (Z.mod_pos_bound (z + 2147483648) 4294967296). lia.
Qed.

#[export] Hint Resolve u8_range u32_range u64_range s32_range : widths.

(** Rewrites away every wrap-around whose argument is provably in range. *)
Ltac unwrap :=
  repeat match goal with
    | |- context [u8 ?z] => rewrite (u8_small z) by lia
    | |- context [u32 ?z] => rewrite (u32_small z) by lia
    | |- context [u64 ?z] => rewrite (u64_small z) by lia
    | |- context [s32 ?z] => rewrite (s32_small z) by lia
    end.

(** Turns the boolean comparisons of the executable definitions into
    propositions, in the goal and the context. *)
Ltac zbool :=
  repeat match goal with
    | H : context [Z.eqb ?a ?b] |- _ => destruct (Z.eqb_spec a b)
    | H : context [Z.leb ?a ?b] |- _ => destruct (Z.leb_spec a b)
    | H : context [Z.ltb ?a ?b] |- _ => destruct (Z.ltb_spec a b)
    | |- context [Z.eqb ?a ?b] => destruct (Z.eqb_spec a b)
    | |- context [Z.leb ?a ?b] => destruct (Z.leb_spec a b)
    | |- context [Z.ltb ?a ?b] => destruct (Z.ltb_spec a b)
    end; cbn [andb orb negb] in *.

(** A C condition: zero is false. *)
Definition ztrue (z : Z) : bool := negb (z =? 0).

(** ** Error codes

    Kernel functions return [0] or a negated code, as in the source. *)

Definition EINTR : Z := 4.
Definition EAGAIN : Z := 11.
Definition ENOMEM : Z := 12.
Definition EFAULT : Z := 14.
Definition EBUSY : Z := 16.
Definition EEXIST : Z := 17.
Definition ENODEV : Z := 19.
Definition EINVAL : Z := 22.
Definition ENOTTY : Z := 25.
Definition EOPNOTSUPP : Z := 95.
Definition ERESTARTSYS : Z := 512.

(** ** Bounded loops

    [for_range lo hi body s] is [for (i = lo; i < hi; i++) s = body(i, s)];
    a body that faults ([None]) stops the loop. *)

Section Loops.
Context {S : Type}.

Fixpoint for_nat (n : nat) (i : Z) (body : Z -> S -> option S) (s : S) : option S :=
  match n with
  | O => Some s
  | Datatypes.S n' =>
      match body i s with
      | Some s' => for_nat n' (i + 1) body s'
      | None => None
      end
  end.

Definition for_range (lo hi : Z) (body : Z -> S -> option S) (s : S) : option S :=
  for_nat (Z.to_nat (hi - lo)) lo body s.

(** Total-correctness rule: an invariant that every iteration re-establishes
    without a fault holds when the loop is left. *)
Lemma for_range_inv (P : Z -> S -> Prop) lo hi body s :
  lo <= hi ->
  P lo s ->
  (forall i s, lo <= i < hi -> P i s ->
     exists s', body i s = Some s' /\ P (i + 1) s') ->
  exists s', for_range lo hi body s = Some s' /\ P hi s'.
Proof.
  intros Hle H0 Hstep. unfold for_range.
  remember (Z.to_nat (hi - lo)) as n eqn:Hn.
  revert lo s Hle H0 Hstep Hn. induction n as [|n IH]; intros lo s Hle H0 Hstep Hn.
  - exists s. split; [done|]. by replace hi with lo by lia.
  - destruct (Hstep lo s) as (s1 & Hb & HP); [lia|done|].
    cbn. rewrite Hb. apply IH; [lia|done| |lia].
    intros i s' Hi. apply Hstep. lia.
Qed.

Lemma for_range_empty lo hi body s : hi <= lo -> for_range lo hi body s = Some s.
Proof. intros. unfold for_range. by replace (Z.to_nat (hi - lo)) with O by lia. Qed.

Lemma for_range_step lo hi body s :
  lo < hi ->
  for_range lo hi body s =
    match body lo s with
    | Some s' => for_range (lo + 1) hi body s'
    | None => None
    end.
Proof.
  intros. unfold for_range.
  replace (Z.to_nat (hi - lo)) with (Datatypes.S (Z.to_nat (hi - (lo + 1)))) by lia.
  done.
Qed.
End Loops.

(** ** Sums over an index range *)

Definition zsum (f : Z -> Z) (lo hi : Z) : Z :=
  foldr Z.add 0 (f <$> seqZ lo (hi - lo)).

Lemma zsum_nil f lo hi : hi <= lo -> zsum f lo hi = 0.
Proof. intros. unfold zsum. by rewrite seqZ_nil by lia. Qed.

Lemma foldr_add_init l c : foldr Z.add c l = foldr Z.add 0 l + c.
Proof. induction l as [|a l IH]; cbn; lia. Qed.

Lemma zsum_snoc f lo i : lo <= i -> zsum f lo (i + 1) = zsum f lo i + f i.
Proof.
  intros. unfold zsum. replace (i + 1 - lo) with (i - lo + 1) by lia.
  rewrite seqZ_app by lia. rewrite fmap_app, foldr_app.
  rewrite (seqZ_cons (lo + (i - lo))), seqZ_nil by lia. cbn.
  rewrite foldr_add_init. replace (lo + (i - lo)) with i by lia. lia.
Qed.

Lemma zsum_ext f g lo hi :
  (forall i, lo <= i < hi -> f i = g i) -> zsum f lo hi = zsum g lo hi.
Proof.
  intros H. unfold zsum. f_equal. apply list_fmap_ext. intros i x Hx.
  apply lookup_seqZ in Hx. apply H. lia.
Qed.

Lemma zsum_add f g lo hi : zsum f lo hi + zsum g lo hi = zsum (fun i => f i + g i) lo hi.
Proof.
  unfold zsum. induction (seqZ lo (hi - lo)) as [|a l IH]; cbn; lia.
Qed.

Lemma zsum_const f c lo hi :
  (forall i, lo <= i < hi -> f i = c) -> lo <= hi -> zsum f lo hi = (hi - lo) * c.
Proof.
  intros H Hle. rewrite (zsum_ext f (fun _ => c)) by done. clear H f. unfold zsum.
  assert (Hl : Z.of_nat (length (seqZ lo (hi - lo))) = hi - lo)
    by (rewrite length_seqZ; lia).
  rewrite <- Hl at 2. clear Hl Hle.
  induction (seqZ lo (hi - lo)) as [|a l IH]; cbn [length fmap list_fmap foldr]; lia.
Qed.

Lemma zsum_nonneg f lo hi : (forall i, lo <= i < hi -> 0 <= f i) -> 0 <= zsum f lo hi.
Proof.
  intros H. unfold zsum.
  assert (HF : Forall (fun a => 0 <= a) (f <$> seqZ lo (hi - lo))).
  { apply Forall_fmap, Forall_forall. intros x Hx%list_elem_of_In%elem_of_seqZ.
    apply H. lia. }
  induction HF; cbn; lia.
Qed.

(** ** Lists with one more element *)

Lemma elem_of_snoc {A} (x b : A) l : x ∈ l ++ [b] <-> x ∈ l \/ x = b.
Proof. rewrite elem_of_app, list_elem_of_singleton. done. Qed.

Lemma NoDup_snoc {A} (b : A) l : NoDup l -> b ∉ l -> NoDup (l ++ [b]).
Proof.
  intros Hl Hb. apply list.NoDup_app. split; [done|]. split; [|apply list.NoDup_singleton].
  intros x Hx ->%list_elem_of_singleton. done.
Qed.

(** ** Byte memory

    A pointer is a block and an offset; a block is the list of its bytes.
    Accesses outside a block fault. *)

Record ptr := Ptr { p_blk : positive; p_off : Z }.

#[export] Instance ptr_eq_dec : EqDecision ptr.
Proof. solve_decision. Defined.

Definition padd (p : ptr) (n : Z) : ptr := Ptr (p_blk p) (p_off p + n).

Abbreviation mem := (gmap positive (list Z)).

(** Bytes of a block; [-1] for a block that is not allocated. *)
Definition blen (m : mem) (b : positive) : Z :=
  match m !! b with Some l => Z.of_nat (length l) | None => -1 end.

Definition load (m : mem) (p : ptr) : option Z :=
  if 0 <=? p_off p
  then match m !! p_blk p with Some l => l !! Z.to_nat (p_off p) | None => None end
  else None.

Definition store (m : mem) (p : ptr) (v : Z) : option mem :=
  match m !! p_blk p with
  | Some l =>
      if (0 <=? p_off p) && (p_off p <? Z.of_nat (length l))
      then Some (<[p_blk p := <[Z.to_nat (p_off p) := v]> l]> m)
      else None
  | None => None
  end.

(** [memcpy]: a read or write outside a block, or overlapping regions
    (undefined in C), fault. *)
Definition memcpy (m : mem) (d s : ptr) (n : Z) : option mem :=
  match m !! p_blk s, m !! p_blk d with
  | Some sl, Some dl =>
      if (0 <=? n) && (0 <=? p_off s) && (p_off s + n <=? Z.of_nat (length sl))
         && (0 <=? p_off d) && (p_off d + n <=? Z.of_nat (length dl))
         && negb (bool_decide (p_blk s = p_blk d)
                  && (p_off s <? p_off d + n) && (p_off d <? p_off s + n))
      then Some (<[p_blk d :=
                     list_inserts (Z.to_nat (p_off d))
                       (take (Z.to_nat n) (drop (Z.to_nat (p_off s)) sl)) dl]> m)
      else None
  | _, _ => None
  end.

Lemma load_ok m p :
  0 <= p_off p < blen m (p_blk p) <-> exists v, load m p = Some v.
Proof.
  unfold load, blen. destruct (m !! p_blk p) as [l|]; [|split; [lia|]].
  - destruct (Z.leb_spec 0 (p_off p)) as [Hp|Hp].
    + pose proof (lookup_lt_is_Some l (Z.to_nat (p_off p))) as Hl. unfold is_Some in Hl.
      rewrite Hl. lia.
    + split; [lia|]. by intros [? ?].
  - destruct (0 <=? p_off p); by intros [? ?].
Qed.

Lemma load_None m p : ~ (0 <= p_off p < blen m (p_blk p)) -> load m p = None.
Proof.
  intros H. destruct (load m p) as [v|] eqn:E; [|done].
  exfalso. apply H, load_ok. eauto.
Qed.

Lemma store_ok m p v :
  0 <= p_off p < blen m (p_blk p) -> exists m', store m p v = Some m'.
Proof.
  unfold store, blen. destruct (m !! p_blk p) as [l|]; [|lia].
  intros [? ?]. zbool; try lia. eauto.
Qed.

Lemma store_blen m p v m' b : store m p v = Some m' -> blen m' b = blen m b.
Proof.
  unfold store. destruct (m !! p_blk p) as [l|] eqn:E; [|done].
  destruct (_ && _); [|done]. intros [= <-]. unfold blen.
  destruct (decide (p_blk p = b)) as [<-|].
  - by rewrite lookup_insert_eq, E, length_insert.
  - by rewrite lookup_insert_ne.
Qed.

Lemma store_load m p v m' q :
  store m p v = Some m' ->
  load m' q = if decide (q = p) then Some v else load m q.
Proof.
  unfold store. destruct (m !! p_blk p) as [l|] eqn:E; [|done].
  destruct (_ && _) eqn:B; [|done]. intros [= <-]. unfold load.
  apply andb_true_iff in B as [B1 B2].
  destruct (decide (p_blk p = p_blk q)) as [Hb|Hb].
  - rewrite <- Hb, lookup_insert_eq, E. case_decide as Hq.
    + subst q. rewrite B1, list_lookup_insert_eq by lia. done.
    + destruct (Z.leb_spec 0 (p_off q)); [|done].
      apply list_lookup_insert_ne. intros ?. apply Hq. destruct p, q; cbn in *.
      f_equal; [done|lia].
  - rewrite lookup_insert_ne by done. case_decide; [congruence|done].
Qed.

(** Any access pattern that stays inside two different blocks is a valid copy. *)
Lemma memcpy_ok m d s n :
  p_blk s <> p_blk d -> 0 <= n ->
  0 <= p_off s -> p_off s + n <= blen m (p_blk s) ->
  0 <= p_off d -> p_off d + n <= blen m (p_blk d) ->
  exists m', memcpy m d s n = Some m'.
Proof.
  intros Hne. unfold memcpy, blen. rewrite (bool_decide_eq_false_2 _ Hne).
  destruct (m !! p_blk s) as [sl|]; [|lia]. destruct (m !! p_blk d) as [dl|]; [|lia].
  intros. destruct (_ && _) eqn:B; [eauto|]. exfalso. apply not_true_iff_false in B.
  apply B. cbn [andb negb]. lia.
Qed.

Lemma memcpy_blen m d s n m' b : memcpy m d s n = Some m' -> blen m' b = blen m b.
Proof.
  unfold memcpy. destruct (m !! p_blk s) as [sl|]; [|done].
  destruct (m !! p_blk d) as [dl|] eqn:E; [|done].
  destruct (_ && _); [|done]. intros [= <-]. unfold blen.
  destruct (decide (p_blk d = b)) as [<-|].
  - by rewrite lookup_insert_eq, E, length_inserts.
  - by rewrite lookup_insert_ne.
Qed.

(** The copied range of the destination reads as the source did before; every
    other byte is unchanged. *)
Lemma memcpy_load m d s n m' q :
  memcpy m d s n = Some m' ->
  load m' q =
    if bool_decide (p_blk q = p_blk d)
       && (p_off d <=? p_off q) && (p_off q <? p_off d + n)
    then load m (padd s (p_off q - p_off d))
    else load m q.
Proof.
  unfold memcpy. destruct (m !! p_blk s) as [sl|] eqn:Es; [|done].
  destruct (m !! p_blk d) as [dl|] eqn:Ed; [|done].
  destruct (_ && _) eqn:B; [|done]. intros [= <-].
  rewrite !andb_true_iff in B. destruct B as [[[[[Bn Bs] Bsl] Bd] Bdl] _].
  unfold load, padd; cbn [p_blk p_off].
  destruct (decide (p_blk d = p_blk q)) as [Hb|Hb].
  2:{ rewrite lookup_insert_ne by done. by rewrite bool_decide_eq_false_2. }
  rewrite bool_decide_eq_true_2, <- Hb, lookup_insert_eq, Es, Ed by done. cbn [andb].
  assert (Hlen : length (take (Z.to_nat n) (drop (Z.to_nat (p_off s)) sl)) = Z.to_nat n)
    by (rewrite length_take, length_drop; lia).
  destruct (Z.leb_spec (p_off d) (p_off q)); cbn [andb].
  2:{ destruct (Z.leb_spec 0 (p_off q)); [|done].
      by rewrite list_lookup_inserts_lt by lia. }
  destruct (Z.leb_spec 0 (p_off q)); [|lia].
  destruct (Z.ltb_spec (p_off q) (p_off d + n)).
  - destruct (Z.leb_spec 0 (p_off s + (p_off q - p_off d))); [|lia].
    rewrite list_lookup_inserts by lia.
    rewrite lookup_take_lt, lookup_drop by lia. f_equal. lia.
  - rewrite list_lookup_inserts_ge by lia. done.
Qed.

(** Block lengths determine which blocks exist. *)
Lemma blen_dom (m m' : mem) : (forall b, blen m' b = blen m b) -> dom m' = dom m.
Proof.
  intros Hb. apply set_eq. intros b. rewrite !elem_of_dom. specialize (Hb b).
  unfold blen in Hb. destruct (m !! b), (m' !! b); split; intros []; eauto; lia.
Qed.

(** ** State and fault

    [F S A]: a computation over the state [S] that either faults (a memory
    error, a dangling pointer) or returns a value and the new state. *)

Definition F (S A : Type) : Type := S -> option (A * S).

Declare Scope fault_scope.
Delimit Scope fault_scope with F.

Section FaultMonad.
Context {S : Type}.
Definition fret {A} (a : A) : F S A := fun s => Some (a, s).
Definition fbind {A B} (c : F S A) (k : A -> F S B) : F S B :=
  fun s => match c s with Some (a, s') => k a s' | None => None end.
Definition ffail {A} : F S A := fun _ => None.
Definition fget : F S S := fun s => Some (s, s).
Definition fput (s : S) : F S unit := fun _ => Some (tt, s).
Definition fmodify (f : S -> S) : F S unit := fun s => Some (tt, f s).
Definition flift {A} (o : option A) : F S A :=
  fun s => match o with Some a => Some (a, s) | None => None end.
End FaultMonad.

Notation "x <- c ;; k" := (fbind c (fun x => k))
  (at level 100, c at next level, right associativity) : fault_scope.
Notation "c ;; k" := (fbind c (fun _ => k))
  (at level 100, right associativity) : fault_scope.
#[global] Open Scope fault_scope.

Lemma fbind_Some {S A B} (c : F S A) (k : A -> F S B) s r :
  fbind c k s = Some r <-> exists a s', c s = Some (a, s') /\ k a s' = Some r.
Proof.
  unfold fbind. destruct (c s) as [[a s']|]; split.
  - eauto.
  - by intros (? & ? & [= <- <-] & ?).
  - done.
  - by intros (? & ? & ? & ?).
Qed.

(** What a projection of the final state evaluates to. *)
Lemma fmap_run {S A B} (f : S -> B) (r : option (A * S)) a s v :
  r = Some (a, s) -> (f ∘ snd) <$> r = Some v -> f s = v.
Proof. intros -> [= <-]. done. Qed.

(** Runs a computation whose steps are known: unfolds binds against the
    equations in the context. *)
Ltac frun :=
  repeat (unfold fbind, fret, fmodify, fget, fput, flift, ffail in *;
          cbn [fst snd] in *;
          match goal with
          | H : ?c ?s = Some _ |- context [match ?c ?s with _ => _ end] => rewrite H
          end).
