(* ===== verification/Types.v ===== *)
(** * The data of the kernel module

    The structures of [kmod/vpipe.h], [kmod/vpipe-internal.h] and
    [kmod/vpipe-source.h] as records, field by field, with the constants the
    code compares against. *)

From S2P Require Import Prelude.

(** ** UAPI constants, [kmod/vpipe.h] *)

Definition VPIPE_META_VERSION : Z := 2.
Definition VPIPE_META_F_OVERRUN : Z := Z.shiftl 1 0.
Definition VPIPE_META_F_HW_TS : Z := Z.shiftl 1 1.
Definition VPIPE_META_F_DROPPED : Z := Z.shiftl 1 2.

Definition VPIPE_ALGO_NONE : Z := 0.
Definition VPIPE_ALGO_THRESHOLD : Z := 1.
Definition VPIPE_ALGO_MOTION_SCORE : Z := 2.
Definition VPIPE_ALGO_EDGE_DENSITY : Z := 3.
Definition VPIPE_ALGO_DIFF_MAP : Z := 4.

(** [V4L2_CID_USER_BASE] of the V4L2 UAPI is [0x00980900]. *)
Definition VPIPE_CID_BASE : Z := 0x00980900 + 0x1000.
Definition VPIPE_CID_SRC_SEQUENCE : Z := VPIPE_CID_BASE + 0.
Definition VPIPE_CID_ALGO : Z := VPIPE_CID_BASE + 1.
Definition VPIPE_CID_ROI_LEFT : Z := VPIPE_CID_BASE + 2.
Definition VPIPE_CID_ROI_TOP : Z := VPIPE_CID_BASE + 3.
Definition VPIPE_CID_ROI_WIDTH : Z := VPIPE_CID_BASE + 4.
Definition VPIPE_CID_ROI_HEIGHT : Z := VPIPE_CID_BASE + 5.
Definition VPIPE_CID_THRESHOLD : Z := VPIPE_CID_BASE + 6.

(** The private ioctls: those of the metadata device and those of the video
    node. *)
Inductive meta_cmd := VPIPE_META_IOC_QUERY | VPIPE_META_IOC_GET_STATS | META_IOC_OTHER (c : Z).
Inductive vpipe_cmd :=
  | VPIPE_IOC_SET_BACKEND (backend : Z)
  | VPIPE_IOC_EXPORT_SRC_DMABUF
  | VPIPE_IOC_OTHER (c : Z).

(** ** Metadata *)

Record vpipe_meta_entry := MetaEntry {
  version : Z;
  entry_size : Z;
  flags : Z;
  seq : Z;
  src_v4l2_sequence : Z;
  buffer_index : Z;
  source_timestamp_ns : Z;
  qbuf_timestamp_ns : Z;
  capture_done_ns : Z;
  dqbuf_timestamp_ns : Z;
  bytesused : Z;
  crc32 : Z;
  algo_id : Z;
  algo_status : Z;
  roi_left : Z;
  roi_top : Z;
  roi_width : Z;
  roi_height : Z;
  algo_value0 : Z;
  algo_value1 : Z;
  source_backend : Z;
  buffer_type : Z;
  queue_depth : Z;
  cpu_id : Z
}.

#[export] Instance vpipe_meta_entry_eq_dec : EqDecision vpipe_meta_entry.
Proof. solve_decision. Defined.

(** [sizeof(struct vpipe_meta_entry)]: every member is naturally aligned where
    it stands, so there is no padding. *)
Definition sizeof_meta_entry : Z :=
  (2 + 2 + 4) + (8 + 4 + 4) + 4 * 8 + (4 + 4) + (4 + 4) + 4 * 4 + 2 * 8 + 4 * 4.

Definition meta_zero : vpipe_meta_entry :=
  MetaEntry 0 0 0 0 0 0 0 0 0 0 0 0 0 0 0 0 0 0 0 0 0 0 0 0.

Record vpipe_meta_info := MetaInfo {
  info_version : Z; info_entry_size : Z; info_ring_entries : Z;
  info_flags : Z; info_reserved : list Z
}.

Record vpipe_meta_stats := MetaStats {
  stats_published : Z; stats_dropped : Z; stats_reserved : list Z
}.

(** ** Driver-internal structures, [kmod/vpipe-internal.h] *)

Definition VPIPE_DEFAULT_WIDTH : Z := 640.
Definition VPIPE_DEFAULT_HEIGHT : Z := 480.
Definition VPIPE_DEFAULT_THRESHOLD : Z := 127.

Record vpipe_roi := Roi { left : Z; top : Z; width : Z; height : Z }.

#[export] Instance vpipe_roi_eq_dec : EqDecision vpipe_roi.
Proof. solve_decision. Defined.

Record vpipe_q_data := QData {
  q_width : Z; q_height : Z; bytesperline : Z; sizeimage : Z; pixelformat : Z
}.

#[export] Instance vpipe_q_data_eq_dec : EqDecision vpipe_q_data.
Proof. solve_decision. Defined.

Record vpipe_job_desc := Job {
  src : ptr; dst : ptr; job_width : Z; job_height : Z; src_stride : Z; dst_stride : Z
}.

Record vpipe_cv_result := CvResult {
  cv_status : Z; value0 : Z; value1 : Z; cv_roi : vpipe_roi
}.

#[export] Instance vpipe_cv_result_eq_dec : EqDecision vpipe_cv_result.
Proof. solve_decision. Defined.

(** ** Source descriptors, [kmod/vpipe-source.h] *)

Definition VPIPE_BACKEND_NONE : Z := 0.
Definition VPIPE_BACKEND_FIXTURE : Z := 1.
Definition VPIPE_BACKEND_SYNTHETIC : Z := 2.
Definition VPIPE_BACKEND_VCAM_DERIVED : Z := 3.
Definition VPIPE_BACKEND_MAX : Z := 4.

Definition VPIPE_FRAME_FLAG_DROPPED : Z := Z.shiftl 1 0.

Record vpipe_frame_desc := FrameDesc {
  d_source_timestamp_ns : Z;
  d_sequence : Z;
  d_backend_id : Z;
  d_byteused : Z;
  d_flags : Z;
  d_width : Z;
  d_height : Z;
  d_stride : Z
}.

#[export] Instance vpipe_frame_desc_eq_dec : EqDecision vpipe_frame_desc.
Proof. solve_decision. Defined.
