(* ===== verification/Cv.v ===== *)
(** * Tiny CV: [kmod/vpipe-cv.c]

    The ROI clamp, the row copy and the threshold loop over byte memory, and
    what [vpipe_cv_process] guarantees: no access outside the two frames, the
    exact pixels it leaves behind, and the exact counters it reports. *)

From S2P Require Import Prelude Types.

(** ** The code *)

(** [clamp_t(type, val, lo, hi)] of [linux/minmax.h], after the casts. *)
Definition clamp (val lo hi : Z) : Z :=
  if hi <=? val then hi else if val <=? lo then lo else val.

Definition vpipe_clamp_roi (job : vpipe_job_desc) (roi : option vpipe_roi) : vpipe_roi :=
  let fw := s32 (job_width job) in
  let fh := s32 (job_height job) in
  let full := Roi 0 0 fw fh in
  match roi with
  | None => full
  | Some r =>
      if (width r <=? 0) || (height r <=? 0) then full
      else
        let l := clamp (left r) 0 fw in
        let t := clamp (top r) 0 fh in
        let right := s32 (clamp (l + width r) l fw) in
        let bottom := s32 (clamp (t + height r) t fh) in
        Roi l t (s32 (right - l)) (s32 (bottom - t))
  end.

Definition vpipe_copy_frame (job : vpipe_job_desc) (m : mem) : option mem :=
  for_range 0 (job_height job)
    (fun row m =>
       memcpy m (padd (dst job) (u32 (row * dst_stride job)))
                (padd (src job) (u32 (row * src_stride job))) (job_width job))
    m.

(** The inner loop body: rewrite one pixel and count it. *)
Definition threshold_pixel (dst_row src_row : ptr) (threshold x : Z)
    (st : mem * Z * Z) : option (mem * Z * Z) :=
  let '(m, white, black) := st in
  match load m (padd src_row x) with
  | None => None
  | Some v =>
      let pixel := if threshold <? v then 255 else 0 in
      match store m (padd dst_row x) pixel with
      | None => None
      | Some m' =>
          if ztrue pixel then Some (m', u64 (white + 1), black)
          else Some (m', white, u64 (black + 1))
      end
  end.

Definition threshold_row (job : vpipe_job_desc) (threshold : Z) (roi : vpipe_roi)
    (y : Z) (st : mem * Z * Z) : option (mem * Z * Z) :=
  let dst_row := padd (dst job) (u32 (y * dst_stride job)) in
  let src_row := padd (src job) (u32 (y * src_stride job)) in
  for_range (left roi) (s32 (left roi + width roi))
    (threshold_pixel dst_row src_row threshold) st.

Definition vpipe_threshold_frame (job : vpipe_job_desc) (threshold : Z)
    (roi : vpipe_roi) (result : vpipe_cv_result) (m : mem)
    : option (mem * vpipe_cv_result) :=
  match vpipe_copy_frame job m with
  | None => None
  | Some m1 =>
      match for_range (top roi) (s32 (top roi + height roi))
              (threshold_row job threshold roi) (m1, 0, 0) with
      | None => None
      | Some (m2, white, black) => Some (m2, CvResult 0 white black (cv_roi result))
      end
  end.

(** Returns the memory, the result structure and the C return value. *)
Definition vpipe_cv_process (job : vpipe_job_desc) (algo threshold : Z)
    (roi : option vpipe_roi) (m : mem) : option (mem * vpipe_cv_result * Z) :=
  let clamped := vpipe_clamp_roi job roi in
  let result := CvResult 0 0 0 clamped in
  if algo =? VPIPE_ALGO_NONE then
    match vpipe_copy_frame job m with
    | Some m' => Some (m', result, 0)
    | None => None
    end
  else if algo =? VPIPE_ALGO_THRESHOLD then
    match vpipe_threshold_frame job threshold clamped result m with
    | Some (m', result') => Some (m', result', 0)
    | None => None
    end
  else Some (m, result, - EINVAL).

(** ** What a well-formed job is

    The driver only builds jobs of this shape: a positive frame below the
    32-bit limits whose rows fit both planes, and source and destination
    planes that are different blocks. *)
Record job_wf (job : vpipe_job_desc) (m : mem) : Prop := {
  jw_width : 0 < job_width job;
  jw_height : 0 < job_height job;
  jw_sstride : job_width job <= src_stride job;
  jw_dstride : job_width job <= dst_stride job;
  jw_slimit : job_height job * src_stride job <= INT_MAX;
  jw_dlimit : job_height job * dst_stride job <= INT_MAX;
  jw_soff : 0 <= p_off (src job);
  jw_doff : 0 <= p_off (dst job);
  jw_sfit : p_off (src job) + job_height job * src_stride job <= blen m (p_blk (src job));
  jw_dfit : p_off (dst job) + job_height job * dst_stride job <= blen m (p_blk (dst job));
  jw_disj : p_blk (src job) <> p_blk (dst job)
}.

(** Source and destination address of pixel (x, y). *)
Definition src_at (job : vpipe_job_desc) (x y : Z) : ptr :=
  padd (src job) (y * src_stride job + x).
Definition dst_at (job : vpipe_job_desc) (x y : Z) : ptr :=
  padd (dst job) (y * dst_stride job + x).

(** The source pixel (x, y) in [m]. *)
Definition src_px (job : vpipe_job_desc) (m : mem) (x y : Z) : Z :=
  default 0 (load m (src_at job x y)).

Definition in_frame (job : vpipe_job_desc) (x y : Z) : bool :=
  (0 <=? x) && (x <? job_width job) && (0 <=? y) && (y <? job_height job).

Definition in_roi (roi : vpipe_roi) (x y : Z) : bool :=
  (left roi <=? x) && (x <? left roi + width roi)
  && (top roi <=? y) && (y <? top roi + height roi).

(** A region that lies inside the frame. *)
Record roi_in_frame (job : vpipe_job_desc) (r : vpipe_roi) : Prop := {
  rf_left : 0 <= left r;
  rf_top : 0 <= top r;
  rf_width : 0 <= width r;
  rf_height : 0 <= height r;
  rf_right : left r + width r <= job_width job;
  rf_bottom : top r + height r <= job_height job
}.

(** ** The ROI clamp *)

Lemma clamp_bounds v lo hi : lo <= hi -> lo <= clamp v lo hi <= hi.
Proof. unfold clamp. zbool; lia. Qed.

Lemma clamp_min_max v lo hi : lo <= hi -> clamp v lo hi = Z.min hi (Z.max v lo).
Proof. unfold clamp. zbool; lia. Qed.

Lemma clamp_roi_in_frame job roi :
  0 <= job_width job <= INT_MAX -> 0 <= job_height job <= INT_MAX ->
  roi_in_frame job (vpipe_clamp_roi job roi).
Proof.
  unfold INT_MAX. intros Hw Hh. unfold vpipe_clamp_roi.
  rewrite !(s32_small (job_width job)), !(s32_small (job_height job)) by lia.
  destruct roi as [r|]; [|split; cbn; lia].
  destruct (_ || _); [split; cbn; lia|].
  pose proof (clamp_bounds (left r) 0 (job_width job) ltac:(lia)) as Hl.
  pose proof (clamp_bounds (top r) 0 (job_height job) ltac:(lia)) as Ht.
  set (l := clamp (left r) 0 (job_width job)) in *.
  set (t := clamp (top r) 0 (job_height job)) in *.
  pose proof (clamp_bounds (l + width r) l (job_width job) ltac:(lia)) as Hr.
  pose proof (clamp_bounds (t + height r) t (job_height job) ltac:(lia)) as Hb.
  cbv zeta. unwrap. split; cbn; unwrap; lia.
Qed.

(** ** Painting the destination frame

    [painted job m m' P f]: going from [m] to [m'], exactly the destination
    pixels selected by [P] were written, with the values [f]. *)
Record painted (job : vpipe_job_desc) (m m' : mem)
    (P : Z -> Z -> bool) (f : Z -> Z -> Z) : Prop := {
  pt_blen : forall b, blen m' b = blen m b;
  pt_in : forall x y, P x y = true -> load m' (dst_at job x y) = Some (f x y);
  pt_out : forall q, (forall x y, P x y = true -> q <> dst_at job x y) ->
             load m' q = load m q
}.

Lemma painted_refl job m f : painted job m m (fun _ _ => false) f.
Proof. by split. Qed.

Lemma painted_ext job m m' P Q f g :
  (forall x y, P x y = Q x y) ->
  (forall x y, P x y = true -> f x y = g x y) ->
  painted job m m' P f -> painted job m m' Q g.
Proof.
  intros HP Hf [Hb Hi Ho]. split; [done| |].
  - intros x y Hxy. rewrite <- HP in Hxy. by rewrite Hi, Hf.
  - intros q Hq. apply Ho. intros x y Hxy. apply Hq. by rewrite <- HP.
Qed.

Lemma in_frame_spec job x y :
  in_frame job x y = true <-> (0 <= x < job_width job) /\ (0 <= y < job_height job).
Proof. unfold in_frame. lia. Qed.

(** Rows do not overlap: an address determines its pixel. *)
Lemma dst_at_inj job x1 y1 x2 y2 :
  job_width job <= dst_stride job ->
  in_frame job x1 y1 = true -> in_frame job x2 y2 = true ->
  dst_at job x1 y1 = dst_at job x2 y2 -> x1 = x2 /\ y1 = y2.
Proof.
  rewrite !in_frame_spec. intros Hst H1 H2 [= E].
  assert (y1 = y2) by nia. nia.
Qed.

(** One stored pixel extends the painting. *)
Lemma painted_store job m m1 m2 P f x y v :
  job_width job <= dst_stride job ->
  painted job m m1 P f ->
  in_frame job x y = true ->
  (forall x y, P x y = true -> in_frame job x y = true) ->
  store m1 (dst_at job x y) v = Some m2 ->
  painted job m m2 (fun x' y' => P x' y' || ((x' =? x) && (y' =? y)))
    (fun x' y' => if (x' =? x) && (y' =? y) then v else f x' y').
Proof.
  intros Hstr [Hb Hi Ho] Hin HP Hst. split.
  - intros b. by rewrite (store_blen _ _ _ _ b Hst).
  - intros x' y' Hxy. rewrite (store_load _ _ _ _ _ Hst).
    destruct ((x' =? x) && (y' =? y)) eqn:E.
    + rewrite decide_True; [done|]. f_equal; lia.
    + rewrite orb_false_r in Hxy. rewrite decide_False; [by apply Hi|].
      intros Heq. apply dst_at_inj in Heq; [lia|done|by apply HP|done].
  - intros q Hq. rewrite (store_load _ _ _ _ _ Hst). rewrite decide_False.
    + apply Ho. intros x' y' H. apply Hq. by rewrite H.
    + apply Hq. rewrite !Z.eqb_refl. by rewrite orb_true_r.
Qed.

Section Job.
Context (job : vpipe_job_desc) (m : mem) (Hwf : job_wf job m).

(** Every row address of the frame is exact in 32 bits. *)
Lemma row_offset y stride :
  0 <= y < job_height job -> job_width job <= stride ->
  job_height job * stride <= INT_MAX -> u32 (y * stride) = y * stride.
Proof. unfold INT_MAX. intros. pose proof (jw_width _ _ Hwf). apply u32_small. nia. Qed.

Lemma src_row_offset y :
  0 <= y < job_height job -> u32 (y * src_stride job) = y * src_stride job.
Proof. intros. apply row_offset; [done|apply Hwf..]. Qed.

Lemma dst_row_offset y :
  0 <= y < job_height job -> u32 (y * dst_stride job) = y * dst_stride job.
Proof. intros. apply row_offset; [done|apply Hwf..]. Qed.

Lemma dst_at_valid m' x y :
  (forall b, blen m' b = blen m b) -> in_frame job x y = true ->
  0 <= p_off (dst_at job x y) < blen m' (p_blk (dst_at job x y)).
Proof.
  rewrite in_frame_spec. intros Hb [Hx Hy]. rewrite Hb. cbn.
  pose proof (jw_doff _ _ Hwf). pose proof (jw_dfit _ _ Hwf).
  pose proof (jw_dstride _ _ Hwf). nia.
Qed.

Lemma src_px_load x y :
  in_frame job x y = true -> load m (src_at job x y) = Some (src_px job m x y).
Proof.
  rewrite in_frame_spec. intros [Hx Hy]. unfold src_px.
  destruct (proj1 (load_ok m (src_at job x y))) as [v Hv]; [|by rewrite Hv].
  cbn. pose proof (jw_soff _ _ Hwf). pose proof (jw_sfit _ _ Hwf).
  pose proof (jw_sstride _ _ Hwf). nia.
Qed.

(** Writing the destination leaves the source frame alone. *)
Lemma src_preserved m' P f x y :
  painted job m m' P f -> load m' (src_at job x y) = load m (src_at job x y).
Proof.
  intros [_ _ Ho]. apply Ho. intros x' y' _ E.
  apply (jw_disj _ _ Hwf). apply (f_equal p_blk) in E. exact E.
Qed.

(** One copied row extends the painting. *)
Lemma painted_memcpy m1 y :
  painted job m m1 (fun x' y' => in_frame job x' y' && (y' <? y)) (src_px job m) ->
  0 <= y < job_height job ->
  exists m2,
    memcpy m1 (padd (dst job) (u32 (y * dst_stride job)))
      (padd (src job) (u32 (y * src_stride job))) (job_width job) = Some m2 /\
    painted job m m2 (fun x' y' => in_frame job x' y' && (y' <? y + 1)) (src_px job m).
Proof.
  intros Hp Hy. rewrite src_row_offset, dst_row_offset by done.
  destruct Hwf as [W H SS DS SL DL SO DO SF DF DJ]. destruct Hp as [Hb Hi Ho] eqn:E. clear E.
  destruct (memcpy_ok m1 (padd (dst job) (y * dst_stride job))
              (padd (src job) (y * src_stride job)) (job_width job)) as [m2 Hm2];
    cbn; rewrite ?Hb; [done|nia..|].
  exists m2. split; [done|]. split.
  - intros b. by rewrite (memcpy_blen _ _ _ _ _ b Hm2).
  - intros x' y' Hxy. rewrite (memcpy_load _ _ _ _ _ _ Hm2). cbn.
    rewrite bool_decide_eq_true_2 by done. cbn.
    apply andb_true_iff in Hxy as [Hf Hlt]. pose proof (proj1 (in_frame_spec _ x' y') Hf).
    destruct (Z.eq_dec y' y) as [->|Hne].
    + replace (_ && _) with true by lia.
      replace (padd _ _) with (src_at job x' y) by (unfold src_at, padd; cbn; f_equal; lia).
      rewrite (src_preserved _ _ _ _ _ Hp). by apply src_px_load.
    + replace (_ && _) with false by nia. apply Hi.
      rewrite Hf. lia.
  - intros q Hq. rewrite (memcpy_load _ _ _ _ _ _ Hm2). cbn.
    destruct (_ && _ && _) eqn:B.
    + exfalso. apply andb_true_iff in B as [[Bb%bool_decide_eq_true B1]%andb_true_iff B2].
      apply (Hq (p_off q - (p_off (dst job) + y * dst_stride job)) y).
      * unfold in_frame. lia.
      * unfold dst_at, padd. destruct q; cbn in *. f_equal; [done|lia].
    + apply Ho. intros x' y' [H1 H2]%andb_true_iff. apply Hq. rewrite H1. lia.
Qed.

Lemma copy_frame_ok :
  exists m', vpipe_copy_frame job m = Some m' /\
    painted job m m' (in_frame job) (src_px job m).
Proof.
  destruct (for_range_inv
    (fun y m' => painted job m m' (fun x' y' => in_frame job x' y' && (y' <? y)) (src_px job m))
    0 (job_height job)
    (fun row m0 => memcpy m0 (padd (dst job) (u32 (row * dst_stride job)))
       (padd (src job) (u32 (row * src_stride job))) (job_width job)) m)
    as (m' & Hm' & Hp).
  - pose proof (jw_height _ _ Hwf). lia.
  - eapply painted_ext; [| |apply painted_refl]; [|done].
    intros x y. unfold in_frame. lia.
  - intros y m1 Hy Hp. by apply painted_memcpy.
  - exists m'. split; [exact Hm'|]. eapply painted_ext; [| |exact Hp]; [|done].
    intros x y. unfold in_frame. lia.
Qed.
End Job.

(** ** The threshold loop *)

(** The value the threshold writes at (x, y). *)
Definition thr_px (job : vpipe_job_desc) (m : mem) (threshold x y : Z) : Z :=
  if threshold <? src_px job m x y then 255 else 0.

(** How many pixels of the region are above ([b = true]) or not above
    ([b = false]) the threshold. *)
Definition roi_count (job : vpipe_job_desc) (m : mem) (threshold : Z)
    (roi : vpipe_roi) (b : bool) : Z :=
  zsum (fun y =>
    zsum (fun x => Z.b2z (Bool.eqb (threshold <? src_px job m x y) b))
      (left roi) (left roi + width roi))
    (top roi) (top roi + height roi).

(** The image the threshold leaves: thresholded inside the region, the source
    outside it. *)
Definition threshold_image (job : vpipe_job_desc) (m : mem) (threshold : Z)
    (roi : vpipe_roi) (x y : Z) : Z :=
  if in_roi roi x y then thr_px job m threshold x y else src_px job m x y.

Section Threshold.
Context (job : vpipe_job_desc) (m : mem) (Hwf : job_wf job m).
Context (threshold : Z) (roi : vpipe_roi) (Hroi : roi_in_frame job roi).

(** Pixels already processed when the loops are at row [y], column [x], counted
    and painted. *)
Definition row_count (b : bool) (y hi : Z) : Z :=
  zsum (fun x => Z.b2z (Bool.eqb (threshold <? src_px job m x y) b)) (left roi) hi.

Definition done_count (b : bool) (y x : Z) : Z :=
  zsum (fun y' => row_count b y' (left roi + width roi)) (top roi) y + row_count b y x.

Definition done_px (y x x' y' : Z) : bool :=
  in_roi roi x' y' && ((y' <? y) || ((y' =? y) && (x' <? x))).

Definition thr_inv (y x : Z) (st : mem * Z * Z) : Prop :=
  let '(m', white, black) := st in
  painted job m m' (in_frame job)
    (fun x' y' => if done_px y x x' y' then thr_px job m threshold x' y'
                  else src_px job m x' y') /\
  white = done_count true y x /\ black = done_count false y x.

Lemma in_roi_in_frame x y : in_roi roi x y = true -> in_frame job x y = true.
Proof. destruct Hroi. unfold in_roi, in_frame. lia. Qed.

Lemma row_count_total y x :
  left roi <= x -> row_count true y x + row_count false y x = x - left roi.
Proof.
  intros. unfold row_count. rewrite zsum_add, (zsum_const _ 1); [lia| |done].
  intros i _. by destruct (threshold <? _).
Qed.

Lemma done_count_total y x :
  top roi <= y -> left roi <= x ->
  done_count true y x + done_count false y x =
    (y - top roi) * width roi + (x - left roi).
Proof.
  intros Hy Hx. unfold done_count.
  enough (zsum (fun y' => row_count true y' (left roi + width roi)) (top roi) y
          + zsum (fun y' => row_count false y' (left roi + width roi)) (top roi) y
          = (y - top roi) * width roi) by (pose proof (row_count_total y x Hx); lia).
  rewrite zsum_add, (zsum_const _ (width roi)); [lia| |done].
  intros i _. destruct Hroi. rewrite row_count_total; lia.
Qed.

Lemma done_count_nonneg b y x : 0 <= done_count b y x.
Proof.
  unfold done_count, row_count.
  apply Z.add_nonneg_nonneg; apply zsum_nonneg; intros; try apply zsum_nonneg;
    intros; destruct (Bool.eqb _ _); cbn; lia.
Qed.

Lemma done_count_bound b y x :
  top roi <= y < top roi + height roi -> left roi <= x < left roi + width roi ->
  0 <= done_count b y x < INT_MAX.
Proof.
  intros Hy Hx. split; [apply done_count_nonneg|].
  pose proof (done_count_total y x ltac:(lia) ltac:(lia)) as Ht.
  pose proof (done_count_nonneg true y x). pose proof (done_count_nonneg false y x).
  destruct Hroi, Hwf.
  assert (height roi * width roi <= job_height job * job_width job) by nia.
  assert ((y - top roi) * width roi + width roi <= height roi * width roi) by nia.
  assert (job_height job * job_width job <= INT_MAX) by nia.
  destruct b; lia.
Qed.

Lemma done_count_step b y x :
  left roi <= x ->
  done_count b y (x + 1) =
    done_count b y x + Z.b2z (Bool.eqb (threshold <? src_px job m x y) b).
Proof. intros. unfold done_count, row_count. rewrite zsum_snoc by done. lia. Qed.

Lemma row_count_nil b y : row_count b y (left roi) = 0.
Proof. unfold row_count. rewrite zsum_nil; lia. Qed.

(** Ending a row is starting the next one. *)
Lemma done_count_row b y :
  top roi <= y < top roi + height roi ->
  done_count b y (left roi + width roi) = done_count b (y + 1) (left roi).
Proof. intros. unfold done_count. rewrite zsum_snoc, row_count_nil by lia. lia. Qed.

Lemma threshold_pixel_ok y x st :
  top roi <= y < top roi + height roi -> left roi <= x < left roi + width roi ->
  thr_inv y x st ->
  exists st',
    threshold_pixel (padd (dst job) (u32 (y * dst_stride job)))
      (padd (src job) (u32 (y * src_stride job))) threshold x st = Some st' /\
    thr_inv y (x + 1) st'.
Proof.
  intros Hy Hx. destruct st as [[m1 white] black]. intros (Hp & -> & ->).
  assert (Hin : in_roi roi x y = true) by (unfold in_roi; lia).
  pose proof (in_roi_in_frame _ _ Hin) as Hf.
  pose proof (proj1 (in_frame_spec _ _ _) Hf) as [_ Hfy].
  rewrite (src_row_offset job m Hwf), (dst_row_offset job m Hwf) by done.
  unfold threshold_pixel.
  replace (padd (padd (src job) _) x) with (src_at job x y)
    by (unfold src_at, padd; cbn; f_equal; lia).
  replace (padd (padd (dst job) _) x) with (dst_at job x y)
    by (unfold dst_at, padd; cbn; f_equal; lia).
  rewrite (src_preserved job m Hwf m1 _ _ x y Hp), (src_px_load job m Hwf) by done.
  fold (thr_px job m threshold x y).
  destruct (store_ok m1 (dst_at job x y) (thr_px job m threshold x y)) as [m2 Hm2].
  { by apply (dst_at_valid job m Hwf), Hf; apply Hp. }
  rewrite Hm2.
  pose proof (done_count_bound true y x Hy Hx) as Bt.
  pose proof (done_count_bound false y x Hy Hx) as Bf. unfold INT_MAX in *.
  assert (Hp2 : painted job m m2 (in_frame job)
    (fun x' y' => if done_px y (x + 1) x' y' then thr_px job m threshold x' y'
                  else src_px job m x' y')).
  { eapply painted_ext;
      [| |exact (painted_store job m m1 m2 _ _ x y _ (jw_dstride _ _ Hwf) Hp Hf (fun _ _ H => H) Hm2)]; cbv beta.
    - intros x' y'. destruct ((x' =? x) && (y' =? y)) eqn:E; [|by rewrite orb_false_r].
      replace x' with x by lia. replace y' with y by lia. by rewrite Hf.
    - intros x' y' _. destruct ((x' =? x) && (y' =? y)) eqn:E.
      + replace x' with x by lia. replace y' with y by lia.
        replace (done_px y (x + 1) x y) with true; [done|].
        unfold done_px. rewrite Hin. lia.
      + replace (done_px y (x + 1) x' y') with (done_px y x x' y'); [done|].
        unfold done_px. f_equal. lia. }
  unfold thr_px in *.
  destruct (threshold <? src_px job m x y) eqn:Hc; cbn [ztrue negb Z.eqb];
    (eexists; split; [done|]); (split; [exact Hp2|]);
    rewrite !done_count_step, Hc by lia; cbn [Bool.eqb Z.b2z]; unwrap; lia.
Qed.

Lemma threshold_row_ok y st :
  top roi <= y < top roi + height roi -> thr_inv y (left roi) st ->
  exists st', threshold_row job threshold roi y st = Some st' /\
              thr_inv (y + 1) (left roi) st'.
Proof.
  intros Hy Hi. pose proof Hroi as [RL RT RW RH RR RB]. pose proof Hwf as [W H SS DS SL DL _ _ _ _ _].
  unfold INT_MAX in *. assert (job_width job <= 2147483647) by nia.
  unfold threshold_row. rewrite s32_small by lia.
  destruct (for_range_inv (fun x => thr_inv y x) (left roi) (left roi + width roi)
    (threshold_pixel (padd (dst job) (u32 (y * dst_stride job)))
       (padd (src job) (u32 (y * src_stride job))) threshold) st) as (st' & Hst & Hinv);
    [lia|done| |].
  { intros x s Hx. by apply threshold_pixel_ok. }
  exists st'. split; [exact Hst|]. destruct st' as [[m1 white] black].
  destruct Hinv as (Hp & -> & ->). split; [|split].
  - eapply painted_ext; [| |exact Hp]; [done|]. intros x' y' _. cbv beta.
    replace (done_px (y + 1) (left roi) x' y')
      with (done_px y (left roi + width roi) x' y'); [done|].
    unfold done_px, in_roi. lia.
  - by apply done_count_row.
  - by apply done_count_row.
Qed.

Lemma threshold_frame_ok result :
  exists m',
    vpipe_threshold_frame job threshold roi result m =
      Some (m', CvResult 0 (roi_count job m threshold roi true)
                  (roi_count job m threshold roi false) (cv_roi result)) /\
    painted job m m' (in_frame job) (threshold_image job m threshold roi).
Proof.
  destruct (copy_frame_ok job m Hwf) as (m1 & Hc & Hp1).
  unfold vpipe_threshold_frame. rewrite Hc.
  pose proof Hroi as [RL RT RW RH RR RB]. pose proof Hwf as [W H SS DS SL DL _ _ _ _ _].
  unfold INT_MAX in *. assert (job_height job <= 2147483647) by nia.
  rewrite s32_small by lia.
  destruct (for_range_inv (fun y => thr_inv y (left roi)) (top roi) (top roi + height roi)
    (threshold_row job threshold roi) (m1, 0, 0)) as ([[m2 white] black] & Hst & Hinv); [lia| | |].
  - split; [|split].
    + eapply painted_ext; [| |exact Hp1]; [done|]. intros x y _. cbv beta.
      replace (done_px (top roi) (left roi) x y) with false; [done|].
      unfold done_px, in_roi. lia.
    + unfold done_count. by rewrite row_count_nil, zsum_nil by lia.
    + unfold done_count. by rewrite row_count_nil, zsum_nil by lia.
  - intros y st Hy. by apply threshold_row_ok.
  - rewrite Hst. destruct Hinv as (Hp & -> & ->). exists m2. split.
    + unfold done_count. rewrite !row_count_nil, !Z.add_0_r. done.
    + eapply painted_ext; [| |exact Hp]; [done|]. intros x y _. cbv beta.
      unfold threshold_image.
      replace (done_px (top roi + height roi) (left roi) x y) with (in_roi roi x y); [done|].
      unfold done_px, in_roi. lia.
Qed.
End Threshold.

(** ** The theorems *)

Lemma job_dims job m : job_wf job m ->
  0 <= job_width job <= INT_MAX /\ 0 <= job_height job <= INT_MAX.
Proof. intros [W H SS DS SL DL _ _ _ _ _]. unfold INT_MAX in *. nia. Qed.

(** A small frame for the witnesses: a 3x2 source with stride 4 at offset 1 of
    block 1, a destination with stride 3 at the start of block 2. *)
Definition ex_job : vpipe_job_desc := Job (Ptr 1 1) (Ptr 2 0) 3 2 4 3.
Definition ex_mem : mem :=
  <[1%positive := [9; 10; 200; 30; 0; 128; 127; 255; 0]]>
    {[2%positive := [7; 7; 7; 7; 7; 7; 8]]}.

Lemma ex_job_wf : job_wf ex_job ex_mem.
Proof. split; vm_compute; congruence. Defined.

(** C3: for every well-formed job, threshold and requested region,
    [vpipe_cv_process] with [VPIPE_ALGO_THRESHOLD] returns 0 without touching
    memory outside the two frames: the destination frame becomes the source
    with the clamped region thresholded, every other byte (row padding
    included) is unchanged, and [value0]/[value1] are the exact numbers of
    white and black pixels of the region. *)
Theorem cv_process_threshold job m threshold roi (Hwf : job_wf job m) :
  let r := vpipe_clamp_roi job roi in
  exists m',
    vpipe_cv_process job VPIPE_ALGO_THRESHOLD threshold roi m =
      Some (m', CvResult 0 (roi_count job m threshold r true)
                  (roi_count job m threshold r false) r, 0) /\
    painted job m m' (in_frame job) (threshold_image job m threshold r).
Proof.
  destruct (job_dims _ _ Hwf) as [Hw Hh]. cbv zeta.
  destruct (threshold_frame_ok job m Hwf threshold _ (clamp_roi_in_frame job roi Hw Hh)
              (CvResult 0 0 0 (vpipe_clamp_roi job roi))) as (m' & Hm' & Hp).
  exists m'. split; [|done]. unfold vpipe_cv_process. cbn [Z.eqb]. by rewrite Hm'.
Qed.

Lemma cv_process_threshold_witness :
  exists m',
    vpipe_cv_process ex_job VPIPE_ALGO_THRESHOLD 127 (Some (Roi 1 (-3) 9 9)) ex_mem =
      Some (m', CvResult 0 2 2 (Roi 1 0 2 2), 0) /\
    m' !! 2%positive = Some [10; 255; 0; 128; 0; 255; 8].
Proof.
  destruct (cv_process_threshold ex_job ex_mem 127 (Some (Roi 1 (-3) 9 9)) ex_job_wf)
    as (m' & Hm' & _).
  vm_compute in Hm'. exists m'. injection Hm' as <-. split; vm_compute; reflexivity.
Defined.

(** the ROI clamp is correct for every region, not only for those the
    control limits allow: the result lies inside the frame; a region with a
    non-positive extent (or none) selects the whole frame; a region already
    inside the frame is unchanged; and otherwise the origin is moved into the
    frame first and the extent is cut at the far edge. *)
Theorem clamp_roi_spec job roi
    (Hw : 0 <= job_width job <= INT_MAX) (Hh : 0 <= job_height job <= INT_MAX) :
  let c := vpipe_clamp_roi job roi in
  roi_in_frame job c /\
  match roi with
  | None => c = Roi 0 0 (job_width job) (job_height job)
  | Some r =>
      if (0 <? width r) && (0 <? height r)
      then left c = Z.min (job_width job) (Z.max (left r) 0) /\
           top c = Z.min (job_height job) (Z.max (top r) 0) /\
           left c + width c = Z.min (job_width job) (left c + width r) /\
           top c + height c = Z.min (job_height job) (top c + height r) /\
           (roi_in_frame job r -> c = r)
      else c = Roi 0 0 (job_width job) (job_height job)
  end.
Proof.
  split; [by apply clamp_roi_in_frame|]. unfold INT_MAX in *.
  pose proof (clamp_roi_in_frame job roi Hw Hh) as Hc.
  destruct roi as [r|]; [|unfold vpipe_clamp_roi; by rewrite !s32_small by lia].
  unfold vpipe_clamp_roi in *. rewrite !(s32_small (job_width job)), !(s32_small (job_height job)) in * by lia.
  destruct (_ && _) eqn:E.
  - replace (_ || _) with false in * by lia. cbn [left top width height] in *.
    rewrite (clamp_min_max (left r)), (clamp_min_max (top r)) in * by lia.
    rewrite !clamp_min_max by lia. unwrap.
    split; [lia|]. split; [lia|]. split; [lia|]. split; [lia|].
    intros []. destruct r as [l t w h]; cbn in *. f_equal; lia.
  - by replace (_ || _) with true by lia.
Qed.

Lemma clamp_roi_spec_witness :
  roi_in_frame ex_job (vpipe_clamp_roi ex_job (Some (Roi (-5) 1 2147483647 1))) /\
  vpipe_clamp_roi ex_job (Some (Roi (-5) 1 2147483647 1)) = Roi 0 1 3 1.
Proof.
  split; [|vm_compute; reflexivity].
  apply (clamp_roi_spec ex_job (Some (Roi (-5) 1 2147483647 1)));
    vm_compute; split; congruence.
Defined.
