(* ===== verification/Meta.v ===== *)
(** * The metadata device: [kmod/vpipe-meta.c]

    One global ring of 256 entries behind a spinlock, and one read cursor per
    open file. The file operations are modelled one by one; [Log] states what
    the device promises (an append-only log whose last 256 entries a reader can
    still get) and the theorems show that the ring implements it. [Threads]
    puts the read path, split where it drops the lock, under arbitrary
    interleaving. *)

From stdpp Require Import relations.
From S2P Require Import Prelude Types.

(** ** State *)

Definition VPIPE_META_RING_ORDER : Z := 8.
Definition VPIPE_META_RING_SIZE : Z := Z.shiftl 1 VPIPE_META_RING_ORDER.
Definition VPIPE_META_RING_MASK : Z := VPIPE_META_RING_SIZE - 1.

Record vpipe_meta_dev := MetaDev {
  ring : list vpipe_meta_entry;
  head : Z;
  published : Z;
  dropped : Z;
  dying : bool
}.

(** [struct vpipe_meta_file] holds the reader's cursor. *)
Record vpipe_meta_file := MetaFile { tail : Z }.

(** [g_meta] as the loader leaves it: zero-initialised. *)
Definition g_meta0 : vpipe_meta_dev :=
  MetaDev (replicate (Z.to_nat VPIPE_META_RING_SIZE) meta_zero) 0 0 0 false.

(** ** Operations *)

Definition set_header (e : vpipe_meta_entry) : vpipe_meta_entry :=
  MetaEntry VPIPE_META_VERSION sizeof_meta_entry (flags e) (seq e)
    (src_v4l2_sequence e) (buffer_index e) (source_timestamp_ns e)
    (qbuf_timestamp_ns e) (capture_done_ns e) (dqbuf_timestamp_ns e)
    (bytesused e) (crc32 e) (algo_id e) (algo_status e) (roi_left e) (roi_top e)
    (roi_width e) (roi_height e) (algo_value0 e) (algo_value1 e)
    (source_backend e) (buffer_type e) (queue_depth e) (cpu_id e).

Definition or_flags (e : vpipe_meta_entry) (f : Z) : vpipe_meta_entry :=
  MetaEntry (version e) (entry_size e) (Z.lor (flags e) f) (seq e)
    (src_v4l2_sequence e) (buffer_index e) (source_timestamp_ns e)
    (qbuf_timestamp_ns e) (capture_done_ns e) (dqbuf_timestamp_ns e)
    (bytesused e) (crc32 e) (algo_id e) (algo_status e) (roi_left e) (roi_top e)
    (roi_width e) (roi_height e) (algo_value0 e) (algo_value1 e)
    (source_backend e) (buffer_type e) (queue_depth e) (cpu_id e).

Definition slot_of (i : Z) : nat := Z.to_nat (Z.land i VPIPE_META_RING_MASK).

(** The locked section of [vpipe_meta_publish]. *)
Definition vpipe_meta_publish (src : vpipe_meta_entry) (g : vpipe_meta_dev)
    : vpipe_meta_dev :=
  let h := head g in
  let h' := u64 (h + 1) in
  MetaDev (<[slot_of h := set_header src]> (ring g)) h'
    (u64 (published g + 1))
    (if VPIPE_META_RING_SIZE <? h' then h' - VPIPE_META_RING_SIZE else dropped g)
    (dying g).

(** [kzalloc] may fail; on success the cursor starts at the current head. *)
Definition vpipe_meta_open (alloc_ok : bool) (g : vpipe_meta_dev)
    : Z * option vpipe_meta_file :=
  if alloc_ok then (0, Some (MetaFile (head g))) else (- ENOMEM, None).

(** The part of [vpipe_meta_read] under the spinlock. *)
Inductive crit_result :=
  | CritEof
  | CritAgain
  | CritEntry (entry : vpipe_meta_entry) (ctx : vpipe_meta_file).

Definition read_critical (g : vpipe_meta_dev) (ctx : vpipe_meta_file) : option crit_result :=
  if dying g then Some CritEof
  else if tail ctx =? head g then Some CritAgain
  else
    let oldest := if VPIPE_META_RING_SIZE <? head g
                  then head g - VPIPE_META_RING_SIZE else 0 in
    let overrun := tail ctx <? oldest in
    let t := if overrun then oldest else tail ctx in
    match ring g !! slot_of t with
    | Some e =>
        Some (CritEntry (if overrun then or_flags e VPIPE_META_F_OVERRUN else e)
                (MetaFile t))
    | None => None
    end.

(** The condition [vpipe_meta_read] sleeps on. *)
Definition read_ready (g : vpipe_meta_dev) (ctx : vpipe_meta_file) : bool :=
  dying g || negb (head g =? tail ctx).

(** What a call of [read] does: sleep on, or return a code, the new cursor and
    the bytes copied to the caller. *)
Inductive read_result :=
  | ReadSleeps
  | ReadReturns (ret : Z) (ctx : vpipe_meta_file) (out : option vpipe_meta_entry).

(** [signal]: a signal is pending while the call would sleep; [fault]:
    [copy_to_user] fails. *)
Definition vpipe_meta_read (g : vpipe_meta_dev) (ctx : vpipe_meta_file)
    (nonblock : bool) (count : Z) (signal fault : bool) : option read_result :=
  if count <? sizeof_meta_entry then Some (ReadReturns (- EINVAL) ctx None)
  else if negb nonblock && negb (read_ready g ctx) then
    if signal then Some (ReadReturns (- ERESTARTSYS) ctx None) else Some ReadSleeps
  else
    match read_critical g ctx with
    | None => None
    | Some CritEof => Some (ReadReturns 0 ctx None)
    | Some CritAgain => Some (ReadReturns (- EAGAIN) ctx None)
    | Some (CritEntry e ctx') =>
        if fault then Some (ReadReturns (- EFAULT) ctx' None)
        else Some (ReadReturns sizeof_meta_entry (MetaFile (u64 (tail ctx' + 1))) (Some e))
    end.

Inductive ioctl_out := OutInfo (i : vpipe_meta_info) | OutStats (s : vpipe_meta_stats) | OutNone.

Definition vpipe_meta_ioctl (g : vpipe_meta_dev) (cmd : meta_cmd) (fault : bool)
    : Z * ioctl_out :=
  match cmd with
  | VPIPE_META_IOC_QUERY =>
      let info := MetaInfo VPIPE_META_VERSION sizeof_meta_entry VPIPE_META_RING_SIZE 0 [0; 0; 0; 0] in
      if fault then (- EFAULT, OutNone) else (0, OutInfo info)
  | VPIPE_META_IOC_GET_STATS =>
      let stats := MetaStats (published g) (dropped g) [0; 0; 0; 0] in
      if fault then (- EFAULT, OutNone) else (0, OutStats stats)
  | META_IOC_OTHER _ => (- ENOTTY, OutNone)
  end.

(** [EPOLLIN | EPOLLRDNORM], [EPOLLHUP] and 0. *)
Inductive poll_mask := PollNone | PollIn | PollHup.

Definition vpipe_meta_poll (g : vpipe_meta_dev) (ctx : vpipe_meta_file) : poll_mask :=
  if dying g then PollHup
  else if negb (head g =? tail ctx) then PollIn else PollNone.

(** [misc_register] decides the outcome of [vpipe_meta_init]. *)
Definition vpipe_meta_init (misc_register : Z) (g : vpipe_meta_dev) : vpipe_meta_dev * Z :=
  (g, misc_register).

Definition vpipe_meta_exit (g : vpipe_meta_dev) : vpipe_meta_dev :=
  MetaDev (ring g) (head g) (published g) (dropped g) true.

(** ** What the device promises *)

Module Log.

(** The first entry of the log a reader can still get. *)
Definition oldest (log : list vpipe_meta_entry) : Z :=
  Z.max 0 (Z.of_nat (length log) - 256).

(** The ring [g] holds the last entries of [log]. *)
Record ring_log (g : vpipe_meta_dev) (log : list vpipe_meta_entry) : Prop := {
  rl_size : length (ring g) = 256%nat;
  rl_head : head g = Z.of_nat (length log);
  rl_published : published g = Z.of_nat (length log);
  rl_dropped : dropped g = oldest log;
  rl_slots : forall i, oldest log <= i < Z.of_nat (length log) ->
    ring g !! slot_of i = set_header <$> log !! Z.to_nat i
}.

(** The log position a read at cursor [t] takes, and whether it was moved. *)
Definition take_pos (log : list vpipe_meta_entry) (t : Z) : Z := Z.max t (oldest log).
Definition overrun (log : list vpipe_meta_entry) (t : Z) : bool := t <? oldest log.

Definition entry_at (log : list vpipe_meta_entry) (t : Z) : option vpipe_meta_entry :=
  (fun e => if overrun log t then or_flags (set_header e) VPIPE_META_F_OVERRUN
            else set_header e)
  <$> log !! Z.to_nat (take_pos log t).

End Log.
Import Log.

(** ** The ring implements the log *)

Lemma slot_of_mod i : slot_of i = Z.to_nat (i mod 256).
Proof.
  unfold slot_of. f_equal. change VPIPE_META_RING_MASK with (Z.ones 8).
  by rewrite Z.land_ones.
Qed.

Lemma slot_of_lt i : (slot_of i < 256)%nat.
Proof. rewrite slot_of_mod. pose proof (Z.mod_pos_bound i 256). lia. Qed.

(** Within one window of 256 positions, slots do not collide. *)
Lemma slot_of_inj i j : slot_of i = slot_of j -> i - 256 < j <= i -> i = j.
Proof.
  rewrite !slot_of_mod. intros E H.
  assert (Hm : i mod 256 = j mod 256).
  { pose proof (Z.mod_pos_bound i 256). pose proof (Z.mod_pos_bound j 256). lia. }
  pose proof (Z.div_mod i 256). pose proof (Z.div_mod j 256). lia.
Qed.

Lemma ring_log_init : ring_log g_meta0 [].
Proof. split; try done. intros i Hi. unfold oldest in Hi. cbn [length] in Hi. lia. Qed.

Lemma oldest_snoc log e :
  oldest (log ++ [e]) = Z.max 0 (Z.of_nat (length log) - 255).
Proof. unfold oldest. rewrite length_app. cbn. lia. Qed.

Lemma ring_log_publish g log e :
  ring_log g log -> Z.of_nat (length log) + 1 < 18446744073709551616 ->
  ring_log (vpipe_meta_publish e g) (log ++ [e]).
Proof.
  intros [Hsz Hh Hp Hd Hs] Hlim. unfold vpipe_meta_publish.
  rewrite Hh, Hp, !u64_small by lia.
  split; cbn [ring head published dropped]; rewrite ?length_app; cbn [length].
  - by rewrite length_insert.
  - lia.
  - lia.
  - rewrite oldest_snoc. change VPIPE_META_RING_SIZE with 256.
    rewrite Hd. unfold oldest. zbool; lia.
  - rewrite oldest_snoc. intros i Hi.
    destruct (Z.eq_dec i (Z.of_nat (length log))) as [->|Hne].
    + rewrite list_lookup_insert_eq by (pose proof (slot_of_lt (Z.of_nat (length log))); lia).
      rewrite Nat2Z.id, lookup_app_r, Nat.sub_diag by lia. done.
    + rewrite list_lookup_insert_ne.
      * rewrite lookup_app_l by lia. apply Hs. unfold oldest. lia.
      * intros E. apply slot_of_inj in E; lia.
Qed.

Lemma ring_log_exit g log : ring_log g log -> ring_log (vpipe_meta_exit g) log.
Proof. by intros []. Qed.

Lemma ring_log_publish_all es :
  Z.of_nat (length es) < 18446744073709551616 ->
  ring_log (foldl (fun g e => vpipe_meta_publish e g) g_meta0 es) es.
Proof.
  induction es as [|e es IH] using rev_ind; intros Hlim; [apply ring_log_init|].
  rewrite length_app in Hlim. cbn [length] in Hlim.
  rewrite foldl_app. cbn. apply ring_log_publish; [apply IH|]; lia.
Qed.

Create HintDb meta.
#[export] Hint Resolve ring_log_init ring_log_publish ring_log_exit : meta.

(** The locked section serves the log. *)
Lemma read_critical_log g log t :
  ring_log g log -> dying g = false -> 0 <= t < Z.of_nat (length log) ->
  exists e, entry_at log t = Some e /\
    read_critical g (MetaFile t) = Some (CritEntry e (MetaFile (take_pos log t))).
Proof.
  intros [Hsz Hh Hp Hd Hs] Hdy Ht. unfold read_critical. rewrite Hdy. cbn [tail].
  rewrite Hh. destruct (Z.eqb_spec t (Z.of_nat (length log))); [lia|].
  change VPIPE_META_RING_SIZE with 256.
  replace (if 256 <? Z.of_nat (length log) then Z.of_nat (length log) - 256 else 0)
    with (oldest log) by (unfold oldest; zbool; lia).
  fold (overrun log t).
  replace (if overrun log t then oldest log else t) with (take_pos log t)
    by (unfold overrun, take_pos; zbool; lia).
  assert (Hr : oldest log <= take_pos log t < Z.of_nat (length log))
    by (unfold take_pos, oldest; lia).
  rewrite (Hs _ Hr). unfold entry_at.
  destruct (lookup_lt_is_Some_2 log (Z.to_nat (take_pos log t))) as [e He].
  { unfold oldest in Hr. lia. }
  rewrite He. cbn. eauto.
Qed.

(** ** Sequences of publications and reads

    One reader interleaved with publishers, on the ring ([mrun]) and on the log
    ([Log.run]). *)

Inductive meta_op :=
  | OpPublish (e : vpipe_meta_entry)
  | OpRead (nonblock : bool) (count : Z) (signal fault : bool).

Definition is_publish (o : meta_op) : bool :=
  match o with OpPublish _ => true | _ => false end.

Definition no_fault (o : meta_op) : bool :=
  match o with OpRead _ _ _ f => negb f | _ => true end.

Fixpoint mrun (ops : list meta_op) (g : vpipe_meta_dev) (ctx : vpipe_meta_file)
    : option (list read_result * vpipe_meta_dev * vpipe_meta_file) :=
  match ops with
  | [] => Some ([], g, ctx)
  | OpPublish e :: ops' => mrun ops' (vpipe_meta_publish e g) ctx
  | OpRead nb c sg f :: ops' =>
      match vpipe_meta_read g ctx nb c sg f with
      | None => None
      | Some r =>
          let ctx' := match r with ReadReturns _ x _ => x | ReadSleeps => ctx end in
          match mrun ops' g ctx' with
          | Some (rs, g', x) => Some (r :: rs, g', x)
          | None => None
          end
      end
  end.

Module LogRun.

(** [read] on the log. *)
Definition read (log : list vpipe_meta_entry) (t : Z)
    (nonblock : bool) (count : Z) (signal fault : bool) : read_result :=
  if count <? sizeof_meta_entry then ReadReturns (- EINVAL) (MetaFile t) None
  else if t =? Z.of_nat (length log) then
    if nonblock then ReadReturns (- EAGAIN) (MetaFile t) None
    else if signal then ReadReturns (- ERESTARTSYS) (MetaFile t) None else ReadSleeps
  else if fault then ReadReturns (- EFAULT) (MetaFile (take_pos log t)) None
  else ReadReturns sizeof_meta_entry (MetaFile (take_pos log t + 1)) (entry_at log t).

Definition next (r : read_result) (t : Z) : Z :=
  match r with ReadReturns _ x _ => tail x | ReadSleeps => t end.

Fixpoint run (ops : list meta_op) (log : list vpipe_meta_entry) (t : Z)
    : list read_result * list vpipe_meta_entry * Z :=
  match ops with
  | [] => ([], log, t)
  | OpPublish e :: ops' => run ops' (log ++ [e]) t
  | OpRead nb c sg f :: ops' =>
      let r := read log t nb c sg f in
      let '(rs, log', t') := run ops' log (next r t) in
      (r :: rs, log', t')
  end.

(** The entries a run delivered. *)
Fixpoint delivered (rs : list read_result) : list vpipe_meta_entry :=
  match rs with
  | [] => []
  | ReadReturns _ _ (Some e) :: rs' => e :: delivered rs'
  | _ :: rs' => delivered rs'
  end.

(** [chain n ps]: the positions continue from [n]; each is the next one, or a
    later one and marked. *)
Fixpoint chain (n : Z) (ps : list (Z * bool)) : Prop :=
  match ps with
  | [] => True
  | (p, marked) :: ps' => (if marked then n < p else p = n) /\ chain (p + 1) ps'
  end.

(** The entry at position [p] of [log] as a reader sees it. *)
Definition seen (log : list vpipe_meta_entry) (pm : Z * bool) : option vpipe_meta_entry :=
  (fun e => if pm.2 then or_flags (set_header e) VPIPE_META_F_OVERRUN else set_header e)
  <$> log !! Z.to_nat pm.1.

End LogRun.
Import LogRun.

Lemma meta_read_log g log t nb c sg f :
  ring_log g log -> dying g = false -> 0 <= t <= Z.of_nat (length log) ->
  Z.of_nat (length log) < 18446744073709551616 ->
  vpipe_meta_read g (MetaFile t) nb c sg f = Some (read log t nb c sg f).
Proof.
  intros Hr Hdy Ht Hlim. unfold vpipe_meta_read, read.
  destruct (c <? sizeof_meta_entry); [done|].
  unfold read_ready. rewrite Hdy, (rl_head _ _ Hr). cbn [tail orb].
  rewrite (Z.eqb_sym (Z.of_nat _)).
  destruct (Z.eqb_spec t (Z.of_nat (length log))) as [->|Hne].
  - unfold read_critical. rewrite Hdy, (rl_head _ _ Hr). cbn [tail].
    rewrite Z.eqb_refl. by destruct nb, sg.
  - destruct (read_critical_log g log t Hr Hdy) as (e & He & Hc); [lia|].
    rewrite andb_false_r, Hc. destruct f; [done|]. cbn [tail].
    rewrite u64_small, He; [done|]. unfold take_pos, oldest. lia.
Qed.

Lemma read_next_bounds log t nb c sg f :
  0 <= t <= Z.of_nat (length log) ->
  t <= next (read log t nb c sg f) t <= Z.of_nat (length log).
Proof.
  intros Ht. unfold read, next. destruct (_ <? _); [cbn; lia|].
  destruct (Z.eqb_spec t (Z.of_nat (length log))); [destruct nb, sg; cbn; lia|].
  destruct f; cbn; unfold take_pos, oldest; lia.
Qed.

(** Positions published during a run. *)
Definition publishes (ops : list meta_op) : list vpipe_meta_entry :=
  omap (fun o => match o with OpPublish e => Some e | _ => None end) ops.

Lemma mrun_log ops : forall g log t,
  ring_log g log -> dying g = false -> 0 <= t <= Z.of_nat (length log) ->
  Z.of_nat (length log + length (publishes ops)) < 18446744073709551616 ->
  exists g',
    mrun ops g (MetaFile t) =
      Some ((run ops log t).1.1, g', MetaFile (run ops log t).2) /\
    ring_log g' (run ops log t).1.2 /\
    (run ops log t).1.2 = log ++ publishes ops.
Proof.
  induction ops as [|o ops IH]; intros g log t Hr Hdy Ht Hlim.
  { exists g. cbn. by rewrite app_nil_r. }
  destruct o as [e|nb c sg f]; cbn [mrun run publishes omap list_omap] in *.
  - cbn [length] in Hlim.
    destruct (IH (vpipe_meta_publish e g) (log ++ [e]) t) as (g' & H1 & H2 & H3).
    + apply ring_log_publish; [done|lia].
    + done.
    + rewrite length_app. cbn. lia.
    + rewrite length_app. cbn [length]. fold (publishes ops) in *. lia.
    + exists g'. rewrite H1. split; [done|]. split; [done|].
      rewrite H3, <- app_assoc. done.
  - rewrite (meta_read_log g log t) by (done || lia).
    destruct (IH g log (next (read log t nb c sg f) t)) as (g' & H1 & H2 & H3).
    + done.
    + done.
    + pose proof (read_next_bounds log t nb c sg f Ht). lia.
    + done.
    + replace (match read log t nb c sg f with
               | ReadSleeps => MetaFile t | ReadReturns _ x _ => x end)
        with (MetaFile (next (read log t nb c sg f) t))
        by (destruct (read log t nb c sg f) as [|? [] ?]; done).
      rewrite H1. destruct (run ops log _) as [[rs log'] t'] eqn:E. cbn in *. eauto.
Qed.

Lemma seen_prefix log ext pm :
  0 <= pm.1 < Z.of_nat (length log) -> seen (log ++ ext) pm = seen log pm.
Proof. intros. unfold seen. by rewrite lookup_app_l by lia. Qed.

Lemma run_chain ops : forall log t,
  0 <= t <= Z.of_nat (length log) -> forallb no_fault ops = true ->
  exists ps, chain t ps /\
    Some <$> delivered (run ops log t).1.1 = seen (log ++ publishes ops) <$> ps.
Proof.
  induction ops as [|o ops IH]; intros log t Ht Hnf; [by exists []|].
  apply andb_true_iff in Hnf as [Hf Hnf].
  destruct o as [e|nb c sg f]; cbn [run publishes omap list_omap].
  - destruct (IH (log ++ [e]) t) as (ps & Hc & Hd); [rewrite length_app; cbn; lia|done|].
    exists ps. split; [done|]. by rewrite Hd, <- app_assoc.
  - pose proof (read_next_bounds log t nb c sg f Ht) as Hb.
    destruct (IH log (next (read log t nb c sg f) t)) as (ps & Hc & Hd); [lia|done|].
    destruct (run ops log (next (read log t nb c sg f) t)) as [[rs log'] t'] eqn:E.
    cbn [fst snd] in *. fold (publishes ops). clear E IH. revert Hc Hd Hb.
    unfold read. destruct (_ <? _); [by exists ps|].
    destruct (Z.eqb_spec t (Z.of_nat (length log))).
    { destruct nb, sg; by exists ps. }
    cbn in Hf. apply negb_true_iff in Hf as ->.
    cbn [next tail]. intros Hc Hd Hb.
    assert (Hp : 0 <= take_pos log t < Z.of_nat (length log))
      by (unfold take_pos, oldest; lia).
    exists ((take_pos log t, overrun log t) :: ps). split.
    + split; [unfold overrun, take_pos; zbool; lia|done].
    + cbn [fmap list_fmap]. rewrite seen_prefix by done.
      replace (seen log (take_pos log t, overrun log t)) with (entry_at log t) by done.
      destruct (entry_at log t) as [e|] eqn:Ee; cbn [delivered fmap list_fmap].
      * by rewrite Hd.
      * exfalso. unfold entry_at in Ee. apply fmap_None, lookup_ge_None in Ee. lia.
Qed.

(** ** The theorems: one reader *)

(** C6: the ring and cursor implement the log exactly, over any sequence of
    publications and read calls (blocking or not, short buffers, signals and
    bad user pointers included): every call has the outcome the log gives it,
    no call reads outside the ring, and the device still holds the log. *)
Theorem meta_device_refines_log ops g log t
    (Hring : ring_log g log) (Hlive : dying g = false)
    (Ht : 0 <= t <= Z.of_nat (length log))
    (Hlim : Z.of_nat (length log + length (publishes ops)) < 18446744073709551616) :
  let '(rs, log', t') := run ops log t in
  exists g', mrun ops g (MetaFile t) = Some (rs, g', MetaFile t') /\ ring_log g' log'.
Proof.
  destruct (mrun_log ops g log t Hring Hlive Ht Hlim) as (g' & H1 & H2 & _).
  destruct (run ops log t) as [[rs log'] t']. eauto.
Qed.

Definition ex_entry (s : Z) : vpipe_meta_entry :=
  MetaEntry 0 0 0 s 0 0 0 0 0 0 0 0 0 0 0 0 0 0 0 0 0 0 0 0.

Lemma meta_device_refines_log_witness :
  exists g' t',
    mrun [OpPublish (ex_entry 1); OpRead false 120 false false; OpRead true 120 false false]
      g_meta0 (MetaFile 0) =
    Some ([ReadReturns 120 (MetaFile 1) (Some (set_header (ex_entry 1)));
           ReadReturns (-11) (MetaFile 1) None], g', MetaFile t').
Proof.
  destruct (meta_device_refines_log
    [OpPublish (ex_entry 1); OpRead false 120 false false; OpRead true 120 false false]
    g_meta0 [] 0 ring_log_init eq_refl ltac:(cbn; lia) ltac:(cbn; lia)) as (g' & H & _).
  exists g', 1. exact H.
Defined.

(** C9: losses are never silent. Over any run whose copies to user space
    succeed, the delivered entries are log entries, in publication order, none
    twice; an entry follows its predecessor directly exactly when
    [VPIPE_META_F_OVERRUN] was not added to it. *)
Theorem meta_gaps_are_flagged ops g log t rs g' ctx'
    (Hring : ring_log g log) (Hlive : dying g = false)
    (Ht : 0 <= t <= Z.of_nat (length log))
    (Hlim : Z.of_nat (length log + length (publishes ops)) < 18446744073709551616)
    (Hnf : forallb no_fault ops = true)
    (Hrun : mrun ops g (MetaFile t) = Some (rs, g', ctx')) :
  exists ps, chain t ps /\
    Some <$> delivered rs = seen (log ++ publishes ops) <$> ps.
Proof.
  destruct (mrun_log ops g log t Hring Hlive Ht Hlim) as (g2 & H1 & _ & _).
  rewrite Hrun in H1. injection H1 as -> _ _. by apply run_chain.
Qed.

(** 300 publications, then two reads: the first is moved to entry 44 and
    marked, the second continues unmarked. *)
Definition overrun_ops : list meta_op :=
  ((fun i => OpPublish (ex_entry i)) <$> seqZ 0 300) ++
  [OpRead true 120 false false; OpRead true 120 false false].

Lemma meta_gaps_are_flagged_witness :
  exists rs g' ctx' ps,
    mrun overrun_ops g_meta0 (MetaFile 0) = Some (rs, g', ctx') /\
    (seq <$> delivered rs) = [44; 45] /\ (flags <$> delivered rs) = [1; 0] /\
    chain 0 ps.
Proof.
  destruct (mrun overrun_ops g_meta0 (MetaFile 0)) as [[[rs g'] ctx']|] eqn:E;
    [|vm_compute in E; discriminate].
  destruct (meta_gaps_are_flagged overrun_ops g_meta0 [] 0 rs g' ctx' ring_log_init
    eq_refl ltac:(cbn; lia) ltac:(vm_compute; reflexivity) ltac:(vm_compute; reflexivity) E)
    as (ps & Hc & _).
  exists rs, g', ctx', ps. split; [done|].
  vm_compute in E. injection E as <- _ _. vm_compute. split; [done|]. split; [done|].
  exact Hc.
Defined.

(** the statistics ioctl reports the number of publications since load and
    the number of entries already overwritten, and the query ioctl the
    geometry of the ring, for any number of publications below 2^64. *)
Theorem meta_stats_exact es (Hlim : Z.of_nat (length es) < 18446744073709551616) :
  let g := foldl (fun g e => vpipe_meta_publish e g) g_meta0 es in
  vpipe_meta_ioctl g VPIPE_META_IOC_GET_STATS false =
    (0, OutStats (MetaStats (Z.of_nat (length es)) (Z.max 0 (Z.of_nat (length es) - 256))
                    [0; 0; 0; 0])) /\
  vpipe_meta_ioctl g VPIPE_META_IOC_QUERY false =
    (0, OutInfo (MetaInfo 2 120 256 0 [0; 0; 0; 0])).
Proof.
  cbv zeta. split; [|done].
  destruct (ring_log_publish_all es Hlim) as [_ _ Hp Hd _]. cbn. by rewrite Hp, Hd.
Qed.

Lemma meta_stats_exact_witness :
  vpipe_meta_ioctl (foldl (fun g e => vpipe_meta_publish e g) g_meta0
                      (ex_entry <$> seqZ 0 300)) VPIPE_META_IOC_GET_STATS false
  = (0, OutStats (MetaStats 300 44 [0; 0; 0; 0])).
Proof.
  assert (Hl : Z.of_nat (length (ex_entry <$> seqZ 0 300)) < 18446744073709551616)
    by (vm_compute; reflexivity).
  destruct (meta_stats_exact _ Hl) as [H _]. exact H.
Defined.

(** a read that is overrun and then fails in [copy_to_user] has already
    moved the cursor: the next read delivers the oldest entry without
    [VPIPE_META_F_OVERRUN], so the loss of the entries before it is not
    reported. *)
Theorem meta_fault_hides_overrun g log t e
    (Hring : ring_log g log) (Hlive : dying g = false)
    (Hlim : Z.of_nat (length log) < 18446744073709551616)
    (Ht : 0 <= t < oldest log) (He : log !! Z.to_nat (oldest log) = Some e) :
  exists ctx,
    vpipe_meta_read g (MetaFile t) true sizeof_meta_entry false true =
      Some (ReadReturns (- EFAULT) ctx None) /\
    vpipe_meta_read g ctx true sizeof_meta_entry false false =
      Some (ReadReturns sizeof_meta_entry (MetaFile (oldest log + 1)) (Some (set_header e))).
Proof.
  assert (Ho : oldest log < Z.of_nat (length log)) by (unfold oldest in *; lia).
  exists (MetaFile (oldest log)). split.
  - rewrite (meta_read_log g log t) by (done || lia). unfold read.
    rewrite Z.ltb_irrefl. destruct (Z.eqb_spec t (Z.of_nat (length log))); [lia|].
    do 2 f_equal. f_equal. unfold take_pos. lia.
  - rewrite (meta_read_log g log (oldest log)) by (done || lia). unfold read.
    rewrite Z.ltb_irrefl. destruct (Z.eqb_spec (oldest log) (Z.of_nat (length log))); [lia|].
    unfold entry_at, overrun, take_pos. rewrite Z.max_id, Z.ltb_irrefl, He. done.
Qed.

Lemma meta_fault_hides_overrun_witness :
  let g := foldl (fun g e => vpipe_meta_publish e g) g_meta0 (ex_entry <$> seqZ 0 300) in
  exists ctx,
    vpipe_meta_read g (MetaFile 0) true 120 false true = Some (ReadReturns (-14) ctx None) /\
    vpipe_meta_read g ctx true 120 false false =
      Some (ReadReturns 120 (MetaFile 45) (Some (set_header (ex_entry 44)))).
Proof.
  cbv zeta. set (es := ex_entry <$> seqZ 0 300).
  assert (Hl : Z.of_nat (length es) < 18446744073709551616) by (vm_compute; reflexivity).
  pose proof (ring_log_publish_all es Hl) as Hr.
  apply (meta_fault_hides_overrun _ es 0 (ex_entry 44) Hr); vm_compute; intuition congruence.
Defined.

(** ** Interleaved readers

    Any number of threads call [read] on open files while publishers run. A
    call is split where the code is not protected by the lock: the wait, the
    locked section, and the copy to user space with the cursor increment. *)

Module Threads.

Inductive phase :=
  | PWait
  | PLock
  | PCopy (e : vpipe_meta_entry).

Record msys := MSys {
  dev : vpipe_meta_dev;
  files : gmap nat Z;              (** cursor of each open file *)
  threads : gmap nat (nat * phase); (** file and phase of each call under way *)
  log : list vpipe_meta_entry      (** everything published so far *)
}.

Definition msys0 : msys := MSys g_meta0 ∅ ∅ [].

Inductive mstep : msys -> msys -> Prop :=
  | step_publish g fs ts l e :
      mstep (MSys g fs ts l) (MSys (vpipe_meta_publish e g) fs ts (l ++ [e]))
  | step_open g fs ts l f x :
      fs !! f = None -> vpipe_meta_open true g = (0, Some x) ->
      mstep (MSys g fs ts l) (MSys g (<[f := tail x]> fs) ts l)
  | step_call g fs ts l t f c (nonblock : bool) :
      ts !! t = None -> fs !! f = Some c ->
      mstep (MSys g fs ts l)
            (MSys g fs (<[t := (f, if nonblock then PLock else PWait)]> ts) l)
  | step_wake g fs ts l t f c :
      ts !! t = Some (f, PWait) -> fs !! f = Some c ->
      read_ready g (MetaFile c) = true ->
      mstep (MSys g fs ts l) (MSys g fs (<[t := (f, PLock)]> ts) l)
  | step_signal g fs ts l t f :
      ts !! t = Some (f, PWait) ->
      mstep (MSys g fs ts l) (MSys g fs (delete t ts) l)
  | step_lock_none g fs ts l t f c :
      ts !! t = Some (f, PLock) -> fs !! f = Some c ->
      (read_critical g (MetaFile c) = Some CritEof \/
       read_critical g (MetaFile c) = Some CritAgain) ->
      mstep (MSys g fs ts l) (MSys g fs (delete t ts) l)
  | step_lock_entry g fs ts l t f c e x :
      ts !! t = Some (f, PLock) -> fs !! f = Some c ->
      read_critical g (MetaFile c) = Some (CritEntry e x) ->
      mstep (MSys g fs ts l) (MSys g (<[f := tail x]> fs) (<[t := (f, PCopy e)]> ts) l)
  | step_copy_ok g fs ts l t f c e :
      ts !! t = Some (f, PCopy e) -> fs !! f = Some c ->
      mstep (MSys g fs ts l) (MSys g (<[f := u64 (c + 1)]> fs) (delete t ts) l)
  | step_copy_fault g fs ts l t f e :
      ts !! t = Some (f, PCopy e) ->
      mstep (MSys g fs ts l) (MSys g fs (delete t ts) l)
  | step_exit g fs ts l :
      mstep (MSys g fs ts l) (MSys (vpipe_meta_exit g) fs ts l).

(** At most one call per open file: the use the cursor is made for. *)
Definition exclusive (s : msys) : Prop :=
  forall t1 t2 f p1 p2,
    threads s !! t1 = Some (f, p1) -> threads s !! t2 = Some (f, p2) -> t1 = t2.

(** Steps between states of that discipline, below 2^64 publications. *)
Definition xstep (s s' : msys) : Prop :=
  mstep s s' /\ exclusive s' /\ Z.of_nat (length (log s')) < 18446744073709551616.

(** Every cursor is inside the log, and an entry on its way to user space is
    the one at the cursor. *)
Record minv (s : msys) : Prop := {
  mi_ring : ring_log (dev s) (log s);
  mi_cursor : forall f c, files s !! f = Some c ->
    0 <= c <= Z.of_nat (length (log s));
  mi_open : forall t f p, threads s !! t = Some (f, p) -> is_Some (files s !! f);
  mi_copy : forall t f c e,
    threads s !! t = Some (f, PCopy e) -> files s !! f = Some c ->
    c < Z.of_nat (length (log s)) /\ exists b, seen (log s) (c, b) = Some e
}.

Lemma minv_init : minv msys0.
Proof. split; cbn; [apply ring_log_init| | |]; intros *; by rewrite !lookup_empty. Qed.

(** A step that only moves threads into phases other than [PCopy]. *)
Lemma minv_threads g fs ts ts' l :
  minv (MSys g fs ts l) ->
  (forall t f e, ts' !! t = Some (f, PCopy e) -> ts !! t = Some (f, PCopy e)) ->
  (forall t f p, ts' !! t = Some (f, p) -> is_Some (fs !! f)) ->
  minv (MSys g fs ts' l).
Proof. intros [Hr Hc Ho Hp] H H'. split; cbn in *; [done|done|done|]. eauto. Qed.

Lemma minv_delete g fs ts l t :
  minv (MSys g fs ts l) -> minv (MSys g fs (delete t ts) l).
Proof.
  intros Hi. eapply minv_threads; [done| |].
  - intros t' f' e' H. apply lookup_delete_Some in H. tauto.
  - intros t' f' p' H. apply lookup_delete_Some in H as [_ H].
    exact (mi_open _ Hi _ _ _ H).
Qed.

Lemma minv_phase g fs ts l t f c p :
  minv (MSys g fs ts l) -> fs !! f = Some c -> (forall e, p <> PCopy e) ->
  minv (MSys g fs (<[t := (f, p)]> ts) l).
Proof.
  intros Hi Hf Hp. eapply minv_threads; [done| |].
  - intros t' f' e'. rewrite lookup_insert. case_decide; [|done]. intros [= <- ->].
    by destruct (Hp e').
  - intros t' f' p'. rewrite lookup_insert. case_decide; [intros [= <- <-]; eauto|].
    apply (mi_open _ Hi).
Qed.

Lemma minv_publish g fs ts l e :
  minv (MSys g fs ts l) -> Z.of_nat (length l) + 1 < 18446744073709551616 ->
  minv (MSys (vpipe_meta_publish e g) fs ts (l ++ [e])).
Proof.
  intros [Hr Hc Ho Hp] Hlim. cbn in *. split; cbn; rewrite ?length_app; cbn [length].
  - by apply ring_log_publish.
  - intros f c Hf. specialize (Hc f c Hf). lia.
  - done.
  - intros t f c e' Ht Hf. destruct (Hp t f c e' Ht Hf) as (Hlt & b & Hb).
    split; [lia|]. exists b. rewrite seen_prefix; [done|]. cbn.
    specialize (Hc f c Hf). lia.
Qed.

(** Moving the cursor of a file that no other call uses. *)
Lemma minv_cursor g fs ts l t f p c c' o :
  minv (MSys g fs ts l) -> exclusive (MSys g fs ts l) ->
  ts !! t = Some (f, p) -> fs !! f = Some c -> 0 <= c' <= Z.of_nat (length l) ->
  (forall e, o = Some (PCopy e) ->
     c' < Z.of_nat (length l) /\ exists b, seen l (c', b) = Some e) ->
  minv (MSys g (<[f := c']> fs)
    (match o with Some q => <[t := (f, q)]> ts | None => delete t ts end) l).
Proof.
  intros [Hr Hc Ho Hp] Hex Ht Hf Hc' Hcopy. cbn in *.
  assert (Hts : forall t' f' p', t' <> t ->
    match o with Some q => <[t := (f, q)]> ts | None => delete t ts end !! t' = Some (f', p') ->
    ts !! t' = Some (f', p')).
  { intros t' f' p' Hne. destruct o; [by rewrite lookup_insert_ne|by rewrite lookup_delete_ne]. }
  split; cbn; [done| | |].
  - intros f' d. rewrite lookup_insert. case_decide; [by intros [= <-]|apply Hc].
  - intros t' f' p' H. rewrite lookup_insert_is_Some.
    destruct (decide (f = f')); [by left|]. right. split; [done|].
    destruct (decide (t' = t)) as [->|Hne]; [|eapply Ho, Hts; eauto].
    destruct o; [rewrite lookup_insert_eq in H; congruence|by rewrite lookup_delete_eq in H].
  - intros t' f' d e' H. rewrite lookup_insert.
    destruct (decide (t' = t)) as [->|Hne].
    + destruct o as [q|]; [|by rewrite lookup_delete_eq in H].
      rewrite lookup_insert_eq in H. injection H as <- ->.
      rewrite decide_True by done. intros [= <-]. by apply Hcopy.
    + apply Hts in H; [|done]. case_decide as Hff; [|eauto].
      subst f'. exfalso. apply Hne. exact (Hex _ _ _ _ _ H Ht).
Qed.

Lemma minv_step s s' : minv s -> exclusive s -> xstep s s' -> minv s'.
Proof.
  intros Hi Hex (Hst & _ & Hlim). destruct Hst; cbn in *; try by apply minv_delete.
  - apply minv_publish; [done|]. rewrite length_app in Hlim. cbn in Hlim. lia.
  - injection H0 as <-. destruct Hi as [Hr Hc Ho Hp]. cbn in *. split; cbn; [done| | |].
    + intros f' c'. rewrite lookup_insert. case_decide; [|apply Hc].
      intros [= <-]. rewrite (rl_head _ _ Hr). lia.
    + intros t' f' p' Ht. rewrite lookup_insert_is_Some.
      destruct (decide (f = f')); [by left|]. right. eauto.
    + intros t' f' c' e' Ht. rewrite lookup_insert. case_decide; [|eauto].
      subst f'. destruct (Ho _ _ _ Ht). congruence.
  - by apply (minv_phase g fs ts l t f c); destruct nonblock.
  - by apply (minv_phase g fs ts l t f c).
  - pose proof (mi_cursor _ Hi _ _ H0) as Hcb. cbn in Hcb.
    assert (Hdy : dying g = false) by (unfold read_critical in H1; by destruct (dying g)).
    assert (Hlt : c < Z.of_nat (length l)).
    { pose proof (rl_head _ _ (mi_ring _ Hi)) as Hh. cbn in Hh.
      unfold read_critical in H1. rewrite Hdy, Hh in H1. cbn [tail] in H1.
      destruct (Z.eqb_spec c (Z.of_nat (length l))); [done|lia]. }
    destruct (read_critical_log g l c (mi_ring _ Hi) Hdy) as (e2 & He2 & Hc2); [lia|].
    rewrite Hc2 in H1. injection H1 as -> <-. cbn [tail].
    assert (Hpos : 0 <= take_pos l c < Z.of_nat (length l)) by (unfold take_pos, oldest; lia).
    apply (minv_cursor g fs ts l t f PLock c (take_pos l c) (Some (PCopy e)));
      [done..|lia|]. intros e' [= <-]. split; [lia|]. by exists (overrun l c).
  - destruct (mi_copy _ Hi _ _ _ _ H H0) as [Hlt _]. cbn in Hlt.
    pose proof (mi_cursor _ Hi _ _ H0) as Hcb. cbn in Hcb.
    rewrite u64_small by lia.
    by apply (minv_cursor g fs ts l t f (PCopy e) c (c + 1) None); [done..|lia|].
  - destruct Hi. split; cbn in *; try done. by apply ring_log_exit.
Qed.

Lemma minv_reachable s : rtc xstep msys0 s -> minv s /\ exclusive s.
Proof.
  intros H. assert (H0 : minv msys0 /\ exclusive msys0).
  { split; [apply minv_init|]. intros t1 t2 f p1 p2. cbn. by rewrite lookup_empty. }
  induction H as [s|s1 s2 s3 Hst _ IH]; [done|].
  apply IH. destruct H0 as [Hi Hx]. split; [by eapply minv_step|apply Hst].
Qed.

End Threads.

(** ** The theorems: interleaved calls *)

(** C10: under any interleaving of publishers, opens, wake-ups, signals,
    faulting copies and module exit in which each open file has at most one
    read under way, every cursor stays inside the log, the locked section never
    reads outside the ring, and whatever is being copied to user space is the
    published entry at the cursor. *)
Theorem meta_readers_safe s f c (Hreach : rtc Threads.xstep Threads.msys0 s)
    (Hf : Threads.files s !! f = Some c) :
  0 <= c <= head (Threads.dev s) /\
  read_critical (Threads.dev s) (MetaFile c) <> None /\
  (forall t e, Threads.threads s !! t = Some (f, Threads.PCopy e) ->
     exists b, seen (Threads.log s) (c, b) = Some e).
Proof.
  destruct (Threads.minv_reachable s Hreach) as [Hi _].
  pose proof (Threads.mi_cursor _ Hi _ _ Hf) as Hc.
  pose proof (Threads.mi_ring _ Hi) as Hr.
  split; [by rewrite (rl_head _ _ Hr)|]. split.
  - pose proof (rl_size _ _ Hr).
    unfold read_critical. repeat case_match; try done; exfalso;
      match goal with H : _ !! slot_of ?i = None |- _ =>
        apply lookup_ge_None in H; pose proof (slot_of_lt i) end; lia.
  - intros t e Ht. by destruct (Threads.mi_copy _ Hi _ _ _ _ Ht Hf).
Qed.

Lemma meta_readers_safe_witness :
  let s := Threads.MSys (vpipe_meta_publish (ex_entry 1) g_meta0) {[0%nat := 0]} ∅ [ex_entry 1] in
  rtc Threads.xstep Threads.msys0 s /\ 0 <= 0 <= head (Threads.dev s).
Proof.
  assert (Hr : rtc Threads.xstep Threads.msys0
    (Threads.MSys (vpipe_meta_publish (ex_entry 1) g_meta0) {[0%nat := 0]} ∅ [ex_entry 1])).
  { eapply rtc_l; [split; [apply (Threads.step_open g_meta0 ∅ ∅ [] 0 (MetaFile 0)); reflexivity|]|].
    { split; [intros t1 t2 f p1 p2; cbn; by rewrite lookup_empty|vm_compute; reflexivity]. }
    eapply rtc_l; [split; [apply Threads.step_publish|]|apply rtc_refl].
    split; [intros t1 t2 f p1 p2; cbn; by rewrite lookup_empty|vm_compute; reflexivity]. }
  split; [exact Hr|]. apply (meta_readers_safe _ 0%nat 0 Hr). reflexivity.
Defined.

(** two threads reading through one open file break the cursor. Both can
    pass the locked section before either increments it; the entry is then
    delivered twice, the cursor ends beyond the head, and the next call does
    not wait but returns a slot that was never published. *)
Theorem meta_shared_file_overshoots :
  exists s c,
    rtc Threads.mstep Threads.msys0 s /\
    Threads.files s !! 0%nat = Some c /\ head (Threads.dev s) < c /\
    length (Threads.log s) = 1%nat /\
    read_ready (Threads.dev s) (MetaFile c) = true /\
    vpipe_meta_read (Threads.dev s) (MetaFile c) false sizeof_meta_entry false false =
      Some (ReadReturns sizeof_meta_entry (MetaFile 3) (Some meta_zero)).
Proof.
  set (g := vpipe_meta_publish (ex_entry 1) g_meta0).
  exists (Threads.MSys g {[0%nat := 2]} ∅ [ex_entry 1]), 2.
  split; [|repeat split].
  eapply rtc_l; [apply (Threads.step_open g_meta0 ∅ ∅ [] 0 (MetaFile 0)); reflexivity|].
  eapply rtc_l; [apply (Threads.step_publish _ _ _ _ (ex_entry 1))|]. fold g.
  eapply rtc_l; [apply (Threads.step_call _ _ _ _ 1 0 0 true); reflexivity|].
  eapply rtc_l; [apply (Threads.step_call _ _ _ _ 2 0 0 true); reflexivity|].
  eapply rtc_l; [eapply (Threads.step_lock_entry _ _ _ _ 1 0 0); reflexivity|].
  eapply rtc_l; [eapply (Threads.step_lock_entry _ _ _ _ 2 0 0); reflexivity|].
  eapply rtc_l; [eapply (Threads.step_copy_ok _ _ _ _ 1 0 0); reflexivity|].
  eapply rtc_l; [eapply (Threads.step_copy_ok _ _ _ _ 2 0 1); reflexivity|].
  apply rtc_refl.
Qed.
