(* ===== verification/Kernel.v ===== *)
(** * The kernel world the driver runs in

    Objects allocated with [kzalloc] live in a typed heap and byte buffers
    ([vmalloc_user], the planes of video buffers) in the byte memory of the
    prelude; a dangling or mistyped pointer faults. The clock and the outcome
    of each allocation come from the environment. *)

From S2P Require Import Prelude Types.

(** [ktime n]: the [n]-th reading of [CLOCK_MONOTONIC], in nanoseconds;
    [kalloc n]: whether the [n]-th allocation succeeds; [dma_export n],
    [dma_fd n]: the error (negative) of [dma_buf_export] and the descriptor or
    error of [dma_buf_fd] at the [n]-th attempt. *)
Class KernelEnv := {
  ktime : nat -> Z;
  kalloc : nat -> bool;
  dma_export : nat -> Z;
  dma_fd : nat -> Z
}.

(** [CLOCK_MONOTONIC] never goes backwards and has left zero by the time a
    module is loaded. *)
Class ClockLaws `{KernelEnv} := {
  ktime_pos : forall n, 0 < ktime n < 18446744073709551616;
  ktime_mono : forall n m, (n <= m)%nat -> ktime n <= ktime m
}.

(** The registered operation tables: static structures, so a pointer to one is
    its name. *)
Inductive ops_ref := fixture_ops | synthetic_ops | vcam_ops.

#[export] Instance ops_ref_eq_dec : EqDecision ops_ref.
Proof. solve_decision. Defined.

(** [struct vpipe_source]; [priv] points into the heap. *)
Record vpipe_source := Source {
  backend_id : Z;
  ops : option ops_ref;
  priv : option positive;
  s_seq : Z;
  name : string
}.

(** [struct vpipe_synthetic_priv], [kmod/vpipe-synthetic.c]. *)
Record vpipe_synthetic_priv := SynthPriv {
  sy_pattern_offset : Z; sy_frames_produced : Z; sy_drop_every_n : Z
}.

(** [struct vcam_fb] and [struct vpipe_vcam_priv], [kmod/vpipe-vcam.c]. *)
Record vcam_fb := VcamFb { fb_refcount : Z; fb_vaddr : option positive; fb_size : Z }.

Record vpipe_vcam_priv := VcamPriv {
  vc_fb : option positive;
  vc_pattern_offset : Z;
  vc_frames_produced : Z;
  vc_drop_every_n : Z;
  vc_base_ts_ns : Z;
  vc_frame_interval_ns : Z
}.

Inductive kobj :=
  | OSource (s : vpipe_source)
  | OSynth (p : vpipe_synthetic_priv)
  | OVcam (p : vpipe_vcam_priv)
  | OFb (fb : vcam_fb)
  | ODmabuf (fb : positive).   (** a live [struct dma_buf] whose [priv] is the buffer *)

#[export] Instance vpipe_source_eq_dec : EqDecision vpipe_source.
Proof. solve_decision. Defined.
#[export] Instance vpipe_synthetic_priv_eq_dec : EqDecision vpipe_synthetic_priv.
Proof. solve_decision. Defined.
#[export] Instance vcam_fb_eq_dec : EqDecision vcam_fb.
Proof. solve_decision. Defined.
#[export] Instance vpipe_vcam_priv_eq_dec : EqDecision vpipe_vcam_priv.
Proof. solve_decision. Defined.
#[export] Instance kobj_eq_dec : EqDecision kobj.
Proof. solve_decision. Defined.

Record kworld := KWorld {
  kmem : mem;
  kheap : gmap positive kobj;
  knext : positive;              (** the next fresh address *)
  kclock : nat;                  (** clock readings so far *)
  kallocs : nat;                 (** allocations tried so far *)
  backend_ops : list (option ops_ref);   (** [vpipe_backend_ops] *)
  backend_name : list (option string);   (** [vpipe_backend_name] *)
  synthetic_drop_every : Z;      (** module parameters *)
  vcam_fps : Z;
  vcam_drop_every : Z
}.

Definition set_kmem (m : mem) (w : kworld) : kworld :=
  KWorld m (kheap w) (knext w) (kclock w) (kallocs w) (backend_ops w)
    (backend_name w) (synthetic_drop_every w) (vcam_fps w) (vcam_drop_every w).
Definition set_kheap (h : gmap positive kobj) (w : kworld) : kworld :=
  KWorld (kmem w) h (knext w) (kclock w) (kallocs w) (backend_ops w)
    (backend_name w) (synthetic_drop_every w) (vcam_fps w) (vcam_drop_every w).
Definition set_backends (o : list (option ops_ref)) (n : list (option string))
    (w : kworld) : kworld :=
  KWorld (kmem w) (kheap w) (knext w) (kclock w) (kallocs w) o n
    (synthetic_drop_every w) (vcam_fps w) (vcam_drop_every w).

(** Counts one allocation attempt, and takes a fresh address when it succeeds. *)
Definition tick_alloc (ok : bool) (w : kworld) : kworld :=
  KWorld (kmem w) (kheap w) (if ok then Pos.succ (knext w) else knext w) (kclock w)
    (S (kallocs w)) (backend_ops w) (backend_name w) (synthetic_drop_every w)
    (vcam_fps w) (vcam_drop_every w).
Definition tick_clock (w : kworld) : kworld :=
  KWorld (kmem w) (kheap w) (knext w) (S (kclock w)) (kallocs w) (backend_ops w)
    (backend_name w) (synthetic_drop_every w) (vcam_fps w) (vcam_drop_every w).

Section Kernel.
Context `{KernelEnv}.

Definition ktime_get_ns : F kworld Z :=
  fun w => Some (ktime (kclock w), tick_clock w).

(** [kzalloc], initialised as the caller does right after it. *)
Definition kzalloc (o : kobj) : F kworld (option positive) :=
  fun w =>
    if kalloc (kallocs w)
    then Some (Some (knext w), tick_alloc true (set_kheap (<[knext w := o]> (kheap w)) w))
    else Some (None, tick_alloc false w).

(** [kfree]: freeing [NULL] does nothing, freeing twice faults. *)
Definition kfree (p : option positive) : F kworld unit :=
  fun w =>
    match p with
    | None => Some (tt, w)
    | Some q =>
        match kheap w !! q with
        | Some _ => Some (tt, set_kheap (delete q (kheap w)) w)
        | None => None
        end
    end.

(** [vmalloc_user]: zeroed bytes. *)
Definition vmalloc_user (size : Z) : F kworld (option positive) :=
  fun w =>
    if kalloc (kallocs w)
    then Some (Some (knext w),
               tick_alloc true
                 (set_kmem (<[knext w := replicate (Z.to_nat size) 0]> (kmem w)) w))
    else Some (None, tick_alloc false w).

Definition vfree (b : option positive) : F kworld unit :=
  fun w =>
    match b with
    | None => Some (tt, w)
    | Some blk =>
        match kmem w !! blk with
        | Some _ => Some (tt, set_kmem (delete blk (kmem w)) w)
        | None => None
        end
    end.

(** Typed access to heap objects. *)
Definition get_source (p : positive) : F kworld vpipe_source :=
  fun w => match kheap w !! p with Some (OSource s) => Some (s, w) | _ => None end.
Definition get_synth (p : positive) : F kworld vpipe_synthetic_priv :=
  fun w => match kheap w !! p with Some (OSynth s) => Some (s, w) | _ => None end.
Definition get_vcam (p : positive) : F kworld vpipe_vcam_priv :=
  fun w => match kheap w !! p with Some (OVcam s) => Some (s, w) | _ => None end.
Definition get_fb (p : positive) : F kworld vcam_fb :=
  fun w => match kheap w !! p with Some (OFb s) => Some (s, w) | _ => None end.

(** Overwrites an allocated object. *)
Definition put_obj (p : positive) (o : kobj) : F kworld unit :=
  fun w =>
    match kheap w !! p with
    | Some _ => Some (tt, set_kheap (<[p := o]> (kheap w)) w)
    | None => None
    end.

(** Runs a memory operation on the byte memory. *)
Definition on_mem (f : mem -> option mem) : F kworld unit :=
  fun w => match f (kmem w) with Some m => Some (tt, set_kmem m w) | None => None end.

End Kernel.

(** ** Worlds over time *)

(** A plane that can hold [h] rows of [st] bytes, [w] of them pixels. *)
Definition fits (m : mem) (d : ptr) (w h st : Z) : Prop :=
  0 <= w <= st /\ 0 <= h /\ h * st <= INT_MAX /\
  0 <= p_off d /\ p_off d + h * st <= blen m (p_blk d).

(** Addresses at or above [n] are free. *)
Definition fresh_maps (h : gmap positive kobj) (m : mem) (n : positive) : Prop :=
  (forall k, is_Some (h !! k) -> (k < n)%positive) /\
  (forall k, is_Some (m !! k) -> (k < n)%positive).

Definition fresh_above (w : kworld) : Prop := fresh_maps (kheap w) (kmem w) (knext w).

(** What every operation of a source leaves alone: time does not run
    backwards, the registry is constant and the blocks [D] of others keep
    their size. *)
Record keeps (D : gset positive) (w w' : kworld) : Prop := Keeps {
  kp_clock : (kclock w <= kclock w')%nat;
  kp_ops : backend_ops w' = backend_ops w;
  kp_name : backend_name w' = backend_name w;
  kp_blen : forall b, b ∈ D -> blen (kmem w') b = blen (kmem w) b
}.

#[export] Instance keeps_preorder D : PreOrder (keeps D).
Proof.
  split; [by split|]. intros x y z [C1 O1 N1 B1] [C2 O2 N2 B2].
  split; [lia|congruence|congruence|]. intros b Hb. by rewrite B2, B1.
Qed.

(** A concrete environment for the witnesses: the clock advances by 1000 ns at
    each reading and no allocation fails. *)
Definition env_ok : KernelEnv :=
  Build_KernelEnv (fun n => 1000 + 1000 * Z.min (Z.of_nat n) 1000000000000) (fun _ => true)
    (fun _ => 0) (fun n => 3 + Z.of_nat n).

Lemma env_ok_laws : @ClockLaws env_ok.
Proof. split; cbn; lia. Defined.
