(* ===== verification/Source.v ===== *)
(** * The source layer: [kmod/vpipe-source.c]

    The backend registry and the wrappers that dispatch to a backend's
    operation table. A table is a record of optional functions, as
    [struct vpipe_source_ops]; the wrappers are proved against the contract
    [SourceContract], which the backends of [Backends.v] discharge. *)

From S2P Require Import Prelude Types Kernel.

(** ** The operation tables *)

(** What the operations see of [struct vpipe_ctx] and [struct vpipe_buffer]:
    the OUTPUT queue data, and the result of [vb2_plane_vaddr] on plane 0. *)
Record vpipe_source_ops := SourceOps {
  op_start : option (positive -> option vpipe_q_data -> F kworld Z);
  op_stop : option (positive -> F kworld unit);
  op_reset : option (positive -> F kworld Z);
  op_next_frame : option (positive -> option ptr -> vpipe_frame_desc ->
                          F kworld (Z * vpipe_frame_desc));
  op_export_dmabuf : option (positive -> F kworld Z)
}.

(** Dereferencing a pointer to a static table. *)
Class OpsTable := ops_of : ops_ref -> vpipe_source_ops.

(** ** Field updates *)

Definition with_seq (n : Z) (s : vpipe_source) : vpipe_source :=
  Source (backend_id s) (ops s) (priv s) n (name s).
Definition with_priv (q : option positive) (s : vpipe_source) : vpipe_source :=
  Source (backend_id s) (ops s) q (s_seq s) (name s).

Definition desc_zero (w h st : Z) : vpipe_frame_desc := FrameDesc 0 0 0 0 0 w h st.
Definition with_timestamp (t : Z) (d : vpipe_frame_desc) : vpipe_frame_desc :=
  FrameDesc t (d_sequence d) (d_backend_id d) (d_byteused d) (d_flags d)
    (d_width d) (d_height d) (d_stride d).
Definition with_stamp (b n : Z) (d : vpipe_frame_desc) : vpipe_frame_desc :=
  FrameDesc (d_source_timestamp_ns d) n b (d_byteused d) (d_flags d)
    (d_width d) (d_height d) (d_stride d).
Definition with_dropped (d : vpipe_frame_desc) : vpipe_frame_desc :=
  FrameDesc (d_source_timestamp_ns d) (d_sequence d) (d_backend_id d) (d_byteused d)
    (Z.lor (d_flags d) VPIPE_FRAME_FLAG_DROPPED) (d_width d) (d_height d) (d_stride d).
Definition with_byteused (n : Z) (d : vpipe_frame_desc) : vpipe_frame_desc :=
  FrameDesc (d_source_timestamp_ns d) (d_sequence d) (d_backend_id d) n (d_flags d)
    (d_width d) (d_height d) (d_stride d).

(** ** The code *)

Definition vpipe_backend_id_valid (id : Z) : bool :=
  (VPIPE_BACKEND_NONE <? id) && (id <? VPIPE_BACKEND_MAX).

(** A pointer returned through [ERR_PTR]: a value or an error code. *)
Inductive ptr_or_err := GoodPtr (p : positive) | ErrPtr (err : Z).

Section Wrappers.
Context `{KernelEnv} `{OpsTable}.

Definition vpipe_source_register (id : Z) (o : option ops_ref) (nm : option string)
    : F kworld Z :=
  fun w =>
    match o with
    | None => Some (- EINVAL, w)
    | Some r =>
        match op_next_frame (ops_of r) with
        | None => Some (- EINVAL, w)
        | Some _ =>
            if negb (vpipe_backend_id_valid id) then Some (- EINVAL, w)
            else
              match backend_ops w !! Z.to_nat id with
              | None => None
              | Some (Some _) => Some (- EBUSY, w)
              | Some None =>
                  Some (0, set_backends
                             (<[Z.to_nat id := Some r]> (backend_ops w))
                             (<[Z.to_nat id := Some (default "unnamed"%string nm)]>
                                (backend_name w)) w)
              end
        end
    end.

Definition vpipe_source_create (id : Z) : F kworld ptr_or_err :=
  fun w =>
    if negb (vpipe_backend_id_valid id) then Some (ErrPtr (- EINVAL), w)
    else
      match backend_ops w !! Z.to_nat id, backend_name w !! Z.to_nat id with
      | Some None, _ => Some (ErrPtr (- ENODEV), w)
      | Some (Some r), Some n =>
          (p <- kzalloc (OSource (Source id (Some r) None 0 (default "" n)));;
           match p with
           | None => fret (ErrPtr (- ENOMEM))
           | Some q => fret (GoodPtr q)
           end) w
      | _, _ => None
      end.

Definition vpipe_source_stop (src : option positive) : F kworld unit :=
  match src with
  | None => fret tt
  | Some p =>
      s <- get_source p;;
      match ops s with
      | None => fret tt
      | Some r =>
          match op_stop (ops_of r) with
          | Some stop => stop p
          | None => fret tt
          end
      end
  end.

Definition vpipe_source_destroy (src : option positive) : F kworld unit :=
  match src with
  | None => fret tt
  | Some p =>
      s <- get_source p;;
      match ops s with
      | Some r =>
          match op_stop (ops_of r) with
          | Some stop => stop p
          | None => fret tt
          end
      | None => fret tt
      end;;
      kfree (Some p)
  end.

Definition vpipe_source_start (src : option positive) (ctx : option vpipe_q_data)
    : F kworld Z :=
  match src with
  | None => fret (- EINVAL)
  | Some p =>
      s <- get_source p;;
      match ops s with
      | None => fret (- EINVAL)
      | Some r =>
          match op_start (ops_of r) with
          | None => fret 0
          | Some start => start p ctx
          end
      end
  end.

Definition vpipe_source_reset (src : option positive) : F kworld Z :=
  match src with
  | None => fret (- EINVAL)
  | Some p =>
      s <- get_source p;;
      match ops s with
      | None => fret (- EINVAL)
      | Some r =>
          put_obj p (OSource (with_seq 0 s));;
          match op_reset (ops_of r) with
          | None => fret 0
          | Some reset => reset p
          end
      end
  end.

(** [buf]: the buffer, [NULL] or with its plane address; [desc] is updated in
    place. *)
Definition vpipe_source_next_frame (src : option positive) (buf : option (option ptr))
    (desc : vpipe_frame_desc) : F kworld (Z * vpipe_frame_desc) :=
  match src, buf with
  | Some p, Some vaddr =>
      s <- get_source p;;
      match ops s with
      | None => fret (- EINVAL, desc)
      | Some r =>
          match op_next_frame (ops_of r) with
          | None => fret (- EINVAL, desc)
          | Some next_frame =>
              rd <- next_frame p vaddr (desc_zero (d_width desc) (d_height desc) (d_stride desc));;
              let '(ret, d1) := rd in
              if ztrue ret then fret (ret, d1)
              else
                d2 <- (if d_source_timestamp_ns d1 =? 0
                       then t <- ktime_get_ns;; fret (with_timestamp t d1)
                       else fret d1);;
                s' <- get_source p;;
                put_obj p (OSource (with_seq (u32 (s_seq s' + 1)) s'));;
                fret (0, with_stamp (backend_id s') (s_seq s') d2)
          end
      end
  | _, _ => fret (- EINVAL, desc)
  end.

Definition vpipe_source_export_dmabuf (src : option positive) : F kworld Z :=
  match src with
  | None => fret (- EINVAL)
  | Some p =>
      s <- get_source p;;
      match ops s with
      | None => fret (- EINVAL)
      | Some r =>
          match op_export_dmabuf (ops_of r) with
          | None => fret (- EOPNOTSUPP)
          | Some export => export p
          end
      end
  end.

End Wrappers.

(** ** The contract of a backend

    [owned p s hb D w]: the source object at [p] is [s], and everything its
    backend has allocated for it is exactly what [w] holds beyond the heap
    [hb] and the byte blocks [D]. [plane_ok]: the plane a frame is written to
    is a legal target for the geometry of the descriptor. *)

Definition same_geometry (d d' : vpipe_frame_desc) : Prop :=
  d_width d' = d_width d /\ d_height d' = d_height d /\ d_stride d' = d_stride d.

(** A descriptor within the types of its members, with no flag but the one for
    a dropped frame. *)
Record desc_ok (d : vpipe_frame_desc) : Prop := {
  dk_time : in_u64 (d_source_timestamp_ns d);
  dk_seq : in_u32 (d_sequence d);
  dk_backend : 0 <= d_backend_id d < VPIPE_BACKEND_MAX;
  dk_flags : d_flags d = 0 \/ d_flags d = VPIPE_FRAME_FLAG_DROPPED
}.

(** What a backend does to the descriptor of a frame. *)
Definition described (d d' : vpipe_frame_desc) : Prop := same_geometry d d' /\ (desc_ok d -> desc_ok d').

Lemma described_refl d : described d d.
Proof. done. Qed.
Lemma described_dropped_of d d' : described d d' -> described d (with_dropped d').
Proof.
  intros [Hg Hd]. split; [done|]. intros [D1 D2 D3 D4]%Hd. split; try done. right. cbn. by destruct D4 as [->| ->].
Qed.
Lemma described_dropped d : described d (with_dropped d).
Proof. apply described_dropped_of, described_refl. Qed.
Lemma described_byteused n d d' : described d d' -> described d (with_byteused n d').
Proof. intros [Hg Hd]. split; [done|]. intros Hok. by destruct (Hd Hok). Qed.
Lemma described_timestamp t d d' : in_u64 t -> described d d' -> described d (with_timestamp t d').
Proof. intros Ht [Hg Hd]. split; [done|]. intros Hok. by destruct (Hd Hok). Qed.

Section Dispatch.
Context `{KernelEnv} `{OpsTable}.

(** Calling an optional operation: a missing one does nothing. *)
Definition call_start (r : ops_ref) (p : positive) (ctx : option vpipe_q_data) : F kworld Z :=
  match op_start (ops_of r) with Some f => f p ctx | None => fret 0 end.
Definition call_stop (r : ops_ref) (p : positive) : F kworld unit :=
  match op_stop (ops_of r) with Some f => f p | None => fret tt end.
Definition call_reset (r : ops_ref) (p : positive) : F kworld Z :=
  match op_reset (ops_of r) with Some f => f p | None => fret 0 end.
End Dispatch.

Class SourceContract `{KernelEnv} `{OpsTable} := {
  owned : positive -> vpipe_source -> gmap positive kobj -> gset positive -> kworld -> Prop;
  plane_ok : positive -> kworld -> gset positive -> option ptr -> vpipe_frame_desc -> Prop;
  owned_source p s hb D w : owned p s hb D w ->
    kheap w !! p = Some (OSource s) /\ exists r, ops s = Some r;
  owned_seq p s hb D w n : owned p s hb D w ->
    owned p (with_seq n s) hb D (set_kheap (<[p := OSource (with_seq n s)]> (kheap w)) w);
  owned_clock p s hb D w : owned p s hb D w -> owned p s hb D (tick_clock w);
  owned_mem p s hb D w m : owned p s hb D w ->
    (forall b, blen m b = blen (kmem w) b) -> owned p s hb D (set_kmem m w);
  owned_fresh p s hb D w : owned p s hb D w -> fresh_above w;
  owned_base p s hb D w k : owned p s hb D w -> is_Some (hb !! k) -> is_Some (kheap w !! k);
  owned_alloc p s hb D w o : owned p s hb D w ->
    owned p s (<[knext w := o]> hb) D
      (tick_alloc true (set_kheap (<[knext w := o]> (kheap w)) w));
  owned_no_alloc p s hb D w : owned p s hb D w -> owned p s hb D (tick_alloc false w);
  owned_new p s r hb D w : ops s = Some r -> priv s = None -> hb !! p = None ->
    kheap w = <[p := OSource s]> hb -> dom (kmem w) = D -> fresh_above w ->
    owned p s hb D w;
  owned_idle p s hb D w : owned p s hb D w -> priv s = None ->
    kheap w = <[p := OSource s]> hb /\ hb !! p = None /\ dom (kmem w) = D;
  plane_ok_fits p w D v d :
    0 <= d_width d <= d_stride d -> 0 <= d_height d ->
    d_height d * d_stride d <= INT_MAX ->
    (forall q, v = Some q ->
       fits (kmem w) q (d_width d) (d_height d) (d_stride d) /\ p_blk q ∈ D) ->
    plane_ok p w D v d;
  plane_ok_clock p w D v d : plane_ok p w D v d -> plane_ok p (tick_clock w) D v d;
  plane_ok_seq p s w D v d n : kheap w !! p = Some (OSource s) -> plane_ok p w D v d ->
    plane_ok p (set_kheap (<[p := OSource (with_seq n s)]> (kheap w)) w) D v d;
  next_frame_ok p s hb D w r vaddr d :
    owned p s hb D w -> ops s = Some r -> plane_ok p w D vaddr d ->
    exists nf ret d' w',
      op_next_frame (ops_of r) = Some nf /\
      nf p vaddr d w = Some ((ret, d'), w') /\
      owned p s hb D w' /\ described d d' /\ keeps D w w' /\
      (forall v b D', plane_ok p w D' v b -> plane_ok p w' D' v b);
  start_ok p s hb D w r ctx :
    owned p s hb D w -> ops s = Some r -> priv s = None ->
    exists ret w' q,
      call_start r p ctx w = Some (ret, w') /\ owned p (with_priv q s) hb D w' /\
      (ret <> 0 -> q = None) /\
      (forall k, k ∈ D -> kmem w' !! k = kmem w !! k) /\ keeps D w w';
  stop_ok p s hb D w r :
    owned p s hb D w -> ops s = Some r ->
    exists w', call_stop r p w = Some (tt, w') /\ owned p (with_priv None s) hb D w' /\
      keeps D w w';
  reset_ok p s hb D w r :
    owned p s hb D w -> ops s = Some r ->
    exists w', call_reset r p w = Some (0, w') /\ owned p s hb D w'
}.

(** ** The wrappers against the contract *)

Section Client.
Context `{SourceContract}.

Lemma get_source_owned p s hb D w :
  owned p s hb D w -> get_source p w = Some (s, w).
Proof. intros [Hp _]%owned_source. unfold get_source. by rewrite Hp. Qed.

Lemma put_seq_owned p s hb D w n :
  owned p s hb D w ->
  exists w', put_obj p (OSource (with_seq n s)) w = Some (tt, w') /\
    owned p (with_seq n s) hb D w' /\ keeps D w w' /\
    (forall D' v d, plane_ok p w D' v d -> plane_ok p w' D' v d).
Proof.
  intros Ho. pose proof (proj1 (owned_source _ _ _ _ _ Ho)) as Hp.
  unfold put_obj. rewrite Hp. eexists. split; [done|]. split; [by apply owned_seq|].
  split; [done|]. intros. by apply plane_ok_seq.
Qed.

(** What [vpipe_source_next_frame] does, on success and on failure of the
    backend. *)
Definition stamped (s : vpipe_source) (ret : Z) (d d' : vpipe_frame_desc)
    (s' : vpipe_source) : Prop :=
  same_geometry d d' /\
  if ztrue ret
  then s' = s
  else s' = with_seq (u32 (s_seq s + 1)) s /\
       d_sequence d' = s_seq s /\ d_backend_id d' = backend_id s /\
       d_source_timestamp_ns d' <> 0.

(** The number and the identity a source stamps frames with. *)
Definition source_typed (s : vpipe_source) : Prop :=
  in_u32 (s_seq s) /\ 0 <= backend_id s < VPIPE_BACKEND_MAX.

(** The timestamp of a frame whose backend did not set one. *)
Lemma timestamp_ok `{!ClockLaws} p s hb D w d d1 :
  owned p s hb D w -> described d d1 ->
  exists d2 w2,
    (if d_source_timestamp_ns d1 =? 0
     then t <- ktime_get_ns;; fret (with_timestamp t d1) else fret d1) w = Some (d2, w2) /\
    owned p s hb D w2 /\ described d d2 /\ d_source_timestamp_ns d2 <> 0 /\
    keeps D w w2 /\
    (forall D' v d, plane_ok p w D' v d -> plane_ok p w2 D' v d).
Proof.
  intros Ho Hg. destruct (Z.eqb_spec (d_source_timestamp_ns d1) 0) as [E|E].
  - exists (with_timestamp (ktime (kclock w)) d1), (tick_clock w).
    split; [done|]. split; [by apply owned_clock|].
    split; [apply described_timestamp; [pose proof (ktime_pos (kclock w)); unfold in_u64; lia|done]|].
    split; [cbn; pose proof (ktime_pos (kclock w)); lia|].
    split; [split; cbn; [lia|done..]|]. intros. by apply plane_ok_clock.
  - by exists d1, w.
Qed.

Lemma source_next_frame_ok `{!ClockLaws} p s hb D w vaddr d :
  owned p s hb D w ->
  plane_ok p w D vaddr (desc_zero (d_width d) (d_height d) (d_stride d)) ->
  exists ret d' w' s',
    vpipe_source_next_frame (Some p) (Some vaddr) d w = Some ((ret, d'), w') /\
    owned p s' hb D w' /\ stamped s ret d d' s' /\ keeps D w w' /\
    (forall D' v d, plane_ok p w D' v d -> plane_ok p w' D' v d) /\
    (source_typed s -> desc_ok d' /\ source_typed s').
Proof.
  intros Ho Hpl. destruct (owned_source _ _ _ _ _ Ho) as [_ [r Hr]].
  assert (Hz : desc_ok (desc_zero (d_width d) (d_height d) (d_stride d))) by (split; by auto).
  destruct (next_frame_ok _ _ _ _ _ _ _ _ Ho Hr Hpl)
    as (nf & ret & d1 & w1 & Hnf & Hrun & Ho1 & Hg & Hclk & Hp1).
  pose proof Hg as [Hgeo Hok]. specialize (Hok Hz).
  unfold vpipe_source_next_frame, fbind at 1.
  rewrite (get_source_owned _ _ _ _ _ Ho), Hr, Hnf. unfold fbind at 1. rewrite Hrun.
  destruct (ztrue ret) eqn:Er.
  { exists ret, d1, w1, s. unfold stamped. rewrite Er. split; [done|]. split; [done|].
    split; [done|]. split; [done|]. auto. }
  destruct (timestamp_ok p s hb D w1 _ d1 Ho1 Hg)
    as (d2 & w2 & Hts & Ho2 & [Hg2 Hd2] & Hne & Hclk2 & Hp2).
  unfold fbind at 1. rewrite Hts. unfold fbind at 1.
  rewrite (get_source_owned _ _ _ _ _ Ho2). unfold fbind at 1.
  destruct (put_seq_owned p s hb D w2 (u32 (s_seq s + 1)) Ho2) as (w3 & Hp3 & Ho3 & Hc3 & Hpl3).
  rewrite Hp3. exists 0, (with_stamp (backend_id s) (s_seq s) d2), w3, (with_seq (u32 (s_seq s + 1)) s).
  split; [done|]. split; [done|]. split; [done|].
  split; [by do 2 (etrans; [eassumption|])|]. split; [auto|]. intros [T1 T2]. destruct (Hd2 Hz).
  split; [by split|]. split; [|done]. unfold in_u32. cbn. apply u32_range.
Qed.

Lemma source_stop_ok p s hb D w :
  owned p s hb D w ->
  exists w', vpipe_source_stop (Some p) w = Some (tt, w') /\
    owned p (with_priv None s) hb D w' /\ keeps D w w'.
Proof.
  intros Ho. destruct (owned_source _ _ _ _ _ Ho) as [_ [r Hr]].
  destruct (stop_ok _ _ _ _ _ _ Ho Hr) as (w' & Hrun & Ho').
  exists w'. split; [|done]. unfold vpipe_source_stop, fbind.
  rewrite (get_source_owned _ _ _ _ _ Ho), Hr. exact Hrun.
Qed.

Lemma source_start_ok p s hb D w ctx :
  owned p s hb D w -> priv s = None ->
  exists ret w' q, vpipe_source_start (Some p) ctx w = Some (ret, w') /\
    owned p (with_priv q s) hb D w' /\ (ret <> 0 -> q = None) /\
    (forall k, k ∈ D -> kmem w' !! k = kmem w !! k) /\ keeps D w w'.
Proof.
  intros Ho Hn. destruct (owned_source _ _ _ _ _ Ho) as [_ [r Hr]].
  destruct (start_ok _ _ _ _ _ _ ctx Ho Hr Hn) as (ret & w' & q & Hrun & Ho' & Hq).
  exists ret, w', q. split; [|done]. unfold vpipe_source_start, fbind.
  rewrite (get_source_owned _ _ _ _ _ Ho), Hr. exact Hrun.
Qed.

Lemma source_reset_ok p s hb D w :
  owned p s hb D w ->
  exists w', vpipe_source_reset (Some p) w = Some (0, w') /\
    owned p (with_seq 0 s) hb D w'.
Proof.
  intros Ho. destruct (owned_source _ _ _ _ _ Ho) as [_ [r Hr]].
  destruct (put_seq_owned p s hb D w 0 Ho) as (w1 & Hp1 & Ho1 & _).
  destruct (reset_ok p (with_seq 0 s) hb D w1 r Ho1 Hr) as (w' & Hrun & Ho').
  exists w'. split; [|done]. unfold vpipe_source_reset, fbind.
  rewrite (get_source_owned _ _ _ _ _ Ho), Hr, Hp1. exact Hrun.
Qed.

(** Destroying a source gives back everything it owned. *)
Lemma source_destroy_ok p s hb D w :
  owned p s hb D w ->
  exists w', vpipe_source_destroy (Some p) w = Some (tt, w') /\
    kheap w' = hb /\ dom (kmem w') = D /\ fresh_above w' /\ keeps D w w'.
Proof.
  intros Ho. destruct (owned_source _ _ _ _ _ Ho) as [_ [r Hr]].
  destruct (stop_ok _ _ _ _ _ _ Ho Hr) as (w1 & Hrun & Ho1 & Hk1).
  destruct (owned_idle _ _ _ _ _ Ho1 eq_refl) as (Hh & Hn & Hd).
  exists (set_kheap (delete p (kheap w1)) w1). split.
  - unfold vpipe_source_destroy, fbind. rewrite (get_source_owned _ _ _ _ _ Ho), Hr.
    unfold call_stop in Hrun. destruct (op_stop (ops_of r)).
    + rewrite Hrun. unfold kfree. by rewrite Hh, lookup_insert_eq.
    + injection Hrun as <-. unfold kfree, fret. by rewrite Hh, lookup_insert_eq.
  - cbn. split; [rewrite Hh; by apply delete_insert_id|]. split; [done|]. split.
    + destruct (owned_fresh _ _ _ _ _ Ho1) as [Hf1 Hf2]. split; [|done].
      intros k. cbn. rewrite lookup_delete. case_decide; [by intros []|apply Hf1].
    + by destruct Hk1; split.
Qed.
End Client.
