(* ===== verification/Backends.v ===== *)
(** * The source backends: [kmod/vpipe-fixture.c], [kmod/vpipe-synthetic.c],
    [kmod/vpipe-vcam.c]

    Each backend's operations over the kernel world, the operation tables, and
    the proofs that they meet the contract of the source layer. *)

From S2P Require Import Prelude Types Cv Kernel Source.

(** ** Gradient fill

    [synthetic_fill_gradient]; [vcam_fill_gradient] is the same loop followed
    by a store to the first pixel. *)

Definition gradient_px (x y offset : Z) : Z := u8 (Z.land (u32 (u32 (x + y) + offset)) 255).

Definition synthetic_fill_gradient (dst : ptr) (width height stride offset : Z)
    (m : mem) : option mem :=
  for_range 0 height
    (fun y m =>
       let row := padd dst (u32 (y * stride)) in
       for_range 0 width (fun x m => store m (padd row x) (gradient_px x y offset)) m)
    m.

Definition vcam_fill_gradient (dst : ptr) (width height stride offset : Z)
    (m : mem) : option mem :=
  match for_range 0 height
          (fun y m =>
             let row := padd dst (u32 (y * stride)) in
             for_range 0 width (fun x m => store m (padd row x) (gradient_px x y offset)) m)
          m with
  | None => None
  | Some m' => store m' dst (u8 (Z.land offset 255))
  end.

(** ** Fixture *)

Module Fixture.
Definition fixture_next_frame (p : positive) (buf : option ptr) (desc : vpipe_frame_desc)
    : F kworld (Z * vpipe_frame_desc) := fret (0, desc).

Definition fixture_ops_table : vpipe_source_ops :=
  SourceOps None None None (Some fixture_next_frame) None.
End Fixture.

(** ** Synthetic *)

Module Synthetic.
Section Ops.
Context `{KernelEnv}.

Definition synthetic_start (p : positive) (ctx : option vpipe_q_data) : F kworld Z :=
  drop <- (fun w => Some (synthetic_drop_every w, w));;
  q <- kzalloc (OSynth (SynthPriv 0 0 drop));;
  match q with
  | None => fret (- ENOMEM)
  | Some a =>
      s <- get_source p;;
      put_obj p (OSource (with_priv (Some a) s));;
      fret 0
  end.

Definition synthetic_stop (p : positive) : F kworld unit :=
  s <- get_source p;;
  kfree (priv s);;
  s' <- get_source p;;
  put_obj p (OSource (with_priv None s')).

Definition synthetic_reset (p : positive) : F kworld Z :=
  s <- get_source p;;
  match priv s with
  | Some q =>
      v <- get_synth q;;
      put_obj q (OSynth (SynthPriv 0 0 (sy_drop_every_n v)));;
      fret 0
  | None => fret 0
  end.

Definition synthetic_next_frame (p : positive) (buf : option ptr) (desc : vpipe_frame_desc)
    : F kworld (Z * vpipe_frame_desc) :=
  s <- get_source p;;
  match priv s with
  | None => fret (- EINVAL, desc)
  | Some q =>
      if (d_width desc =? 0) || (d_height desc =? 0) || (d_stride desc =? 0)
      then fret (- EINVAL, desc)
      else
        match buf with
        | None => fret (- EFAULT, desc)
        | Some vaddr =>
            v <- get_synth q;;
            let n := u32 (sy_frames_produced v + 1) in
            put_obj q (OSynth (SynthPriv (sy_pattern_offset v) n (sy_drop_every_n v)));;
            if ztrue (sy_drop_every_n v) && (n mod sy_drop_every_n v =? 0)
            then fret (0, with_dropped desc)
            else
              on_mem (synthetic_fill_gradient vaddr (d_width desc) (d_height desc)
                        (d_stride desc) (sy_pattern_offset v));;
              put_obj q (OSynth (SynthPriv (u32 (sy_pattern_offset v + 1)) n
                                   (sy_drop_every_n v)));;
              fret (0, desc)
        end
  end.

Definition synthetic_ops_table : vpipe_source_ops :=
  SourceOps (Some synthetic_start) (Some synthetic_stop) (Some synthetic_reset)
    (Some synthetic_next_frame) None.
End Ops.
End Synthetic.

(** ** vcam-derived *)

Module Vcam.

(** 4 KiB pages, as on the validated guest. *)
Definition PAGE_SHIFT : Z := 12.
Definition PAGE_SIZE : Z := Z.shiftl 1 PAGE_SHIFT.
Definition PAGE_ALIGN (n : Z) : Z := (n + PAGE_SIZE - 1) / PAGE_SIZE * PAGE_SIZE.
Definition NSEC_PER_SEC : Z := 1000000000.

Section Ops.
Context `{KernelEnv}.

Definition vcam_fb_release (f : positive) : F kworld unit :=
  fb <- get_fb f;;
  vfree (fb_vaddr fb);;
  kfree (Some f).

(** [kref_get] and [kref_put]. *)
Definition kref_get (f : positive) : F kworld unit :=
  fb <- get_fb f;;
  put_obj f (OFb (VcamFb (fb_refcount fb + 1) (fb_vaddr fb) (fb_size fb))).

Definition kref_put (f : positive) : F kworld unit :=
  fb <- get_fb f;;
  put_obj f (OFb (VcamFb (fb_refcount fb - 1) (fb_vaddr fb) (fb_size fb)));;
  if fb_refcount fb - 1 =? 0 then vcam_fb_release f else fret tt.

Definition vcam_fb_alloc (bytes : Z) : F kworld (option positive) :=
  o <- kzalloc (OFb (VcamFb 0 None 0));;
  match o with
  | None => fret None
  | Some f =>
      let size := PAGE_ALIGN bytes in
      b <- vmalloc_user size;;
      match b with
      | None => kfree (Some f);; fret None
      | Some blk =>
          put_obj f (OFb (VcamFb 1 (Some blk) size));;
          fret (Some f)
      end
  end.

Definition vcam_start (p : positive) (ctx : option vpipe_q_data) : F kworld Z :=
  match ctx with
  | None => fret (- EINVAL)
  | Some q =>
      if sizeimage q =? 0 then fret (- EINVAL)
      else
        o <- kzalloc (OVcam (VcamPriv None 0 0 0 0 0));;
        match o with
        | None => fret (- ENOMEM)
        | Some a =>
            fb <- vcam_fb_alloc (sizeimage q);;
            match fb with
            | None => kfree (Some a);; fret (- ENOMEM)
            | Some f =>
                w <- fget;;
                t <- ktime_get_ns;;
                put_obj a (OVcam (VcamPriv (Some f) 0 0 (vcam_drop_every w) t
                   (if ztrue (vcam_fps w) then NSEC_PER_SEC / vcam_fps w else 0)));;
                s <- get_source p;;
                put_obj p (OSource (with_priv (Some a) s));;
                fret 0
            end
        end
  end.

Definition vcam_stop (p : positive) : F kworld unit :=
  s <- get_source p;;
  match priv s with
  | None => fret tt
  | Some a =>
      v <- get_vcam a;;
      match vc_fb v with
      | Some f => kref_put f
      | None => fret tt
      end;;
      kfree (Some a);;
      s' <- get_source p;;
      put_obj p (OSource (with_priv None s'))
  end.

Definition vcam_reset (p : positive) : F kworld Z :=
  s <- get_source p;;
  match priv s with
  | None => fret 0
  | Some a =>
      v <- get_vcam a;;
      t <- ktime_get_ns;;
      put_obj a (OVcam (VcamPriv (vc_fb v) 0 0 (vc_drop_every_n v) t
                          (vc_frame_interval_ns v)));;
      fret 0
  end.

Definition vcam_next_frame (p : positive) (buf : option ptr) (desc : vpipe_frame_desc)
    : F kworld (Z * vpipe_frame_desc) :=
  s <- get_source p;;
  match priv s with
  | None => fret (- EINVAL, desc)
  | Some a =>
      v <- get_vcam a;;
      match vc_fb v with
      | None => fret (- EINVAL, desc)
      | Some f =>
          if (d_width desc =? 0) || (d_height desc =? 0) || (d_stride desc =? 0)
          then fret (- EINVAL, desc)
          else
            let frame_bytes := u64 (d_stride desc * d_height desc) in
            fb <- get_fb f;;
            if fb_size fb <? frame_bytes then fret (- EINVAL, desc)
            else
              match buf with
              | None => fret (- EFAULT, desc)
              | Some dst =>
                  let d1 := with_timestamp
                    (u64 (vc_base_ts_ns v
                          + u64 (vc_frames_produced v * vc_frame_interval_ns v))) desc in
                  if ztrue (vc_drop_every_n v)
                     && (vc_frames_produced v mod vc_drop_every_n v =? 0)
                  then
                    put_obj a (OVcam (VcamPriv (vc_fb v) (vc_pattern_offset v)
                      (u32 (vc_frames_produced v + 1)) (vc_drop_every_n v)
                      (vc_base_ts_ns v) (vc_frame_interval_ns v)));;
                    fret (0, with_dropped d1)
                  else
                    blk <- flift (fb_vaddr fb);;
                    let vaddr := Ptr blk 0 in
                    on_mem (vcam_fill_gradient vaddr (d_width desc) (d_height desc)
                              (d_stride desc) (vc_pattern_offset v));;
                    (if decide (dst = vaddr) then fret tt
                     else on_mem (fun m => memcpy m dst vaddr frame_bytes));;
                    put_obj a (OVcam (VcamPriv (vc_fb v) (u32 (vc_pattern_offset v + 1))
                      (u32 (vc_frames_produced v + 1)) (vc_drop_every_n v)
                      (vc_base_ts_ns v) (vc_frame_interval_ns v)));;
                    fret (0, with_byteused (u32 frame_bytes) d1)
              end
      end
  end.

(** [dma_buf_export]: the framework's object, holding the buffer as its
    [priv]; an error leaves nothing behind. *)
Definition dma_buf_export (f : positive) : F kworld ptr_or_err :=
  fun w =>
    let e := dma_export (kallocs w) in
    if e <? 0 then Some (ErrPtr e, tick_alloc false w)
    else Some (GoodPtr (knext w),
               tick_alloc true (set_kheap (<[knext w := ODmabuf f]> (kheap w)) w)).

Definition dma_buf_fd (d : positive) : F kworld Z :=
  fun w => Some (dma_fd (kallocs w), tick_alloc false w).

(** The [release] callback, run when the last user of the dma-buf is gone. *)
Definition vcam_dmabuf_release (d : positive) : F kworld unit :=
  fun w =>
    match kheap w !! d with
    | Some (ODmabuf f) => kref_put f w
    | _ => None
    end.

(** The framework drops its own object after the callback. *)
Definition dma_buf_free (d : positive) : F kworld unit :=
  vcam_dmabuf_release d;; kfree (Some d).

Definition vcam_export_dmabuf (p : positive) : F kworld Z :=
  s <- get_source p;;
  match priv s with
  | None => fret (- EINVAL)
  | Some a =>
      v <- get_vcam a;;
      match vc_fb v with
      | None => fret (- EINVAL)
      | Some f =>
          kref_get f;;
          d <- dma_buf_export f;;
          match d with
          | ErrPtr e => kref_put f;; fret e
          | GoodPtr dmabuf =>
              fd <- dma_buf_fd dmabuf;;
              (if fd <? 0 then dma_buf_free dmabuf else fret tt);;
              fret fd
          end
      end
  end.

Definition vcam_ops_table : vpipe_source_ops :=
  SourceOps (Some vcam_start) (Some vcam_stop) (Some vcam_reset)
    (Some vcam_next_frame) (Some vcam_export_dmabuf).
End Ops.
End Vcam.

#[export] Instance vpipe_ops_table `{KernelEnv} : OpsTable :=
  fun r => match r with
           | fixture_ops => Fixture.fixture_ops_table
           | synthetic_ops => Synthetic.synthetic_ops_table
           | vcam_ops => Vcam.vcam_ops_table
           end.

Definition vpipe_source_fixture_register `{KernelEnv} : F kworld Z :=
  vpipe_source_register VPIPE_BACKEND_FIXTURE (Some fixture_ops) (Some "fixture"%string).
Definition vpipe_source_synthetic_register `{KernelEnv} : F kworld Z :=
  vpipe_source_register VPIPE_BACKEND_SYNTHETIC (Some synthetic_ops) (Some "synthetic"%string).
Definition vpipe_source_vcam_register `{KernelEnv} : F kworld Z :=
  vpipe_source_register VPIPE_BACKEND_VCAM_DERIVED (Some vcam_ops) (Some "vcam-derived"%string).

(** ** The gradient fill is correct *)

(** The destination frame as a job, to state what is painted. *)
Definition fill_job (d : ptr) (w h st : Z) : vpipe_job_desc := Job d d w h st st.

Lemma gradient_px_mod x y offset :
  gradient_px x y offset = (x + y + offset) mod 256.
Proof.
  unfold gradient_px, u8, u32. change 255 with (Z.ones 8). rewrite Z.land_ones by lia.
  change (2 ^ 8) with 256. rewrite Z.mod_mod by lia.
  assert (Hm : forall a, (a mod 4294967296) mod 256 = a mod 256).
  { intros a. apply Z.mod_mod_divide. by exists 16777216. }
  rewrite Hm, <- Zplus_mod_idemp_l, Hm, Zplus_mod_idemp_l. done.
Qed.

Section Fill.
Context (m : mem) (d : ptr) (w h st offset : Z) (Hfit : fits m d w h st).
Let job := fill_job d w h st.

Lemma fill_row_ok y m1 :
  0 <= y < h ->
  painted job m m1 (fun x' y' => in_frame job x' y' && (y' <? y))
    (fun x y => gradient_px x y offset) ->
  exists m2,
    for_range 0 w
      (fun x m => store m (padd (padd d (u32 (y * st))) x) (gradient_px x y offset)) m1
      = Some m2 /\
    painted job m m2 (fun x' y' => in_frame job x' y' && (y' <? y + 1))
      (fun x y => gradient_px x y offset).
Proof.
  intros Hy Hp. destruct Hfit as (Hw & Hh & Hlim & Hoff & Hlen). unfold INT_MAX in Hlim.
  rewrite u32_small by nia.
  destruct (for_range_inv
    (fun x m' => painted job m m'
       (fun x' y' => in_frame job x' y' && ((y' <? y) || ((y' =? y) && (x' <? x))))
       (fun x y => gradient_px x y offset)) 0 w
    (fun x m => store m (padd (padd d (y * st)) x) (gradient_px x y offset)) m1)
    as (m2 & Hm2 & Hp2); [lia| | |].
  - eapply painted_ext; [| |exact Hp]; [|done]. intros x' y'. unfold in_frame. cbn. lia.
  - intros x m' Hx Hp'.
    replace (padd (padd d (y * st)) x) with (dst_at job x y)
      by (unfold dst_at, padd; cbn; f_equal; lia).
    assert (Hin : in_frame job x y = true) by (unfold in_frame; cbn; lia).
    destruct (store_ok m' (dst_at job x y) (gradient_px x y offset)) as [m3 Hm3].
    { cbn. rewrite (pt_blen _ _ _ _ _ Hp'). nia. }
    exists m3. split; [done|].
    eapply painted_ext;
      [| |apply (painted_store job m m' m3 _ _ x y (gradient_px x y offset)
                   (proj2 Hw) Hp' Hin); [|exact Hm3]].
    + intros x' y'. cbv beta. destruct (in_frame job x' y') eqn:E; cbn [andb orb].
      * lia.
      * destruct ((x' =? x) && (y' =? y)) eqn:E2; [|done].
        replace x' with x in E by lia. replace y' with y in E by lia. congruence.
    + intros x' y' _. cbv beta. destruct ((x' =? x) && (y' =? y)) eqn:E; [|done].
      by replace x' with x by lia; replace y' with y by lia.
    + intros x' y' [? _]%andb_true_iff. done.
  - exists m2. split; [done|]. eapply painted_ext; [| |exact Hp2]; [|done].
    intros x' y'. unfold in_frame. cbn. lia.
Qed.

Lemma fill_gradient_ok :
  exists m', synthetic_fill_gradient d w h st offset m = Some m' /\
    painted job m m' (in_frame job) (fun x y => gradient_px x y offset).
Proof.
  destruct (for_range_inv
    (fun y m' => painted job m m' (fun x' y' => in_frame job x' y' && (y' <? y))
       (fun x y => gradient_px x y offset)) 0 h
    (fun y m => for_range 0 w
      (fun x m => store m (padd (padd d (u32 (y * st))) x) (gradient_px x y offset)) m) m)
    as (m' & Hm' & Hp).
  - destruct Hfit. lia.
  - eapply painted_ext; [| |apply painted_refl]; [|done].
    intros x y. unfold in_frame. cbn. lia.
  - intros y m1 Hy. by apply fill_row_ok.
  - exists m'. split; [exact Hm'|]. eapply painted_ext; [| |exact Hp]; [|done].
    intros x y. unfold in_frame. cbn. lia.
Qed.

(** The extra store of the vcam backend rewrites pixel (0,0) with the value it
    already has. *)
Lemma vcam_fill_gradient_ok :
  0 < w -> 0 < h ->
  exists m', vcam_fill_gradient d w h st offset m = Some m' /\
    painted job m m' (in_frame job) (fun x y => gradient_px x y offset).
Proof.
  intros Hw0 Hh0. destruct fill_gradient_ok as (m1 & Hm1 & Hp1).
  unfold vcam_fill_gradient. unfold synthetic_fill_gradient in Hm1. rewrite Hm1.
  destruct Hfit as (Hw & Hh & Hlim & Hoff & Hlen).
  destruct (store_ok m1 d (u8 (Z.land offset 255))) as [m2 Hm2].
  { rewrite (pt_blen _ _ _ _ _ Hp1). nia. }
  exists m2. split; [done|].
  assert (Hd : d = dst_at job 0 0) by (destruct d; unfold dst_at, padd; cbn; f_equal; lia).
  rewrite Hd in Hm2.
  assert (Hin : in_frame job 0 0 = true) by (unfold in_frame; cbn; lia).
  eapply painted_ext;
    [| |apply (painted_store job m m1 m2 _ _ 0 0 _ (proj2 Hw) Hp1 Hin (fun _ _ H => H) Hm2)].
  - intros x y. cbv beta. destruct ((x =? 0) && (y =? 0)) eqn:E; [|by rewrite orb_false_r].
    replace x with 0 by lia. replace y with 0 by lia. by rewrite Hin.
  - intros x y _. cbv beta. destruct ((x =? 0) && (y =? 0)) eqn:E; [|done].
    rewrite gradient_px_mod. replace x with 0 by lia. replace y with 0 by lia.
    unfold u8. change 255 with (Z.ones 8). rewrite Z.land_ones by lia.
    change (2 ^ 8) with 256. by rewrite Z.mod_mod.
Qed.
End Fill.

(** ** What a source owns *)

(** The heap cells of a source beyond [hb], and its byte blocks beyond [D]:
    the object alone when idle, the private state when a synthetic source
    runs, private state, frame buffer object and frame buffer when a vcam
    source runs. *)
Inductive src_owned (p : positive) (s : vpipe_source) (hb : gmap positive kobj)
    (D : gset positive) (w : kworld) : Prop :=
  | own_idle r :
      ops s = Some r -> priv s = None -> hb !! p = None -> fresh_above w ->
      kheap w = <[p := OSource s]> hb -> dom (kmem w) = D ->
      src_owned p s hb D w
  | own_synth a v :
      ops s = Some synthetic_ops -> priv s = Some a ->
      hb !! p = None -> hb !! a = None -> a <> p -> fresh_above w ->
      kheap w = <[a := OSynth v]> (<[p := OSource s]> hb) -> dom (kmem w) = D ->
      src_owned p s hb D w
  | own_vcam a v f b n :
      ops s = Some vcam_ops -> priv s = Some a ->
      hb !! p = None -> hb !! a = None -> hb !! f = None ->
      a <> p -> f <> p -> f <> a -> fresh_above w -> vc_fb v = Some f ->
      kheap w = <[f := OFb (VcamFb 1 (Some b) n)]>
                  (<[a := OVcam v]> (<[p := OSource s]> hb)) ->
      b ∉ D -> dom (kmem w) = {[b]} ∪ D -> n <= blen (kmem w) b ->
      src_owned p s hb D w.

(** The source's own frame buffer, which userspace may import back as the
    OUTPUT buffer. *)
Definition own_fb (p : positive) (w : kworld) (q : ptr) : Prop :=
  exists s a v f fb,
    kheap w !! p = Some (OSource s) /\ priv s = Some a /\
    kheap w !! a = Some (OVcam v) /\ vc_fb v = Some f /\
    kheap w !! f = Some (OFb fb) /\ fb_vaddr fb = Some (p_blk q) /\ p_off q = 0.

Definition src_plane_ok (p : positive) (w : kworld) (D : gset positive)
    (vaddr : option ptr) (d : vpipe_frame_desc) : Prop :=
  0 <= d_width d <= d_stride d /\ 0 <= d_height d /\
  d_height d * d_stride d <= INT_MAX /\
  match vaddr with
  | None => True
  | Some q => fits (kmem w) q (d_width d) (d_height d) (d_stride d) /\
              (p_blk q ∈ D \/ own_fb p w q)
  end.

(** Proves equalities between heaps built from the same updates in different
    orders. *)
Ltac heap_eq :=
  apply map_eq; intros ?k; rewrite ?lookup_insert, ?lookup_delete;
  repeat (rewrite ?lookup_insert, ?lookup_delete; case_decide);
  subst; try congruence; try done.

Lemma fresh_put h m n p o :
  fresh_maps h m n -> is_Some (h !! p) -> fresh_maps (<[p := o]> h) m n.
Proof.
  intros [Hh Hm] Hp. split; [|done]. intros k.
  rewrite lookup_insert. case_decide; [subst; auto|apply Hh].
Qed.

Lemma fresh_delete h m n p : fresh_maps h m n -> fresh_maps (delete p h) m n.
Proof.
  intros [Hh Hm]. split; [|done]. intros k. rewrite lookup_delete.
  case_decide; [by intros []|apply Hh].
Qed.

Lemma fresh_heap_alloc h m n o :
  fresh_maps h m n -> fresh_maps (<[n := o]> h) m (Pos.succ n).
Proof.
  intros [Hh Hm]. split; intros k.
  - rewrite lookup_insert. case_decide; [lia|]. intros ?%Hh. lia.
  - intros ?%Hm. lia.
Qed.

Lemma fresh_mem_alloc h (m : mem) n l :
  fresh_maps h m n -> fresh_maps h (<[n := l]> m) (Pos.succ n).
Proof.
  intros [Hh Hm]. split; intros k.
  - intros ?%Hh. lia.
  - rewrite lookup_insert. case_decide; [lia|]. intros ?%Hm. lia.
Qed.

Lemma fresh_mem_dom h (m m' : mem) n :
  fresh_maps h m n -> dom m' = dom m -> fresh_maps h m' n.
Proof.
  intros [Hh Hm] Hd. split; [done|]. intros k Hk. apply Hm.
  apply elem_of_dom. rewrite <- Hd. by apply elem_of_dom.
Qed.

Lemma fresh_mem_delete h (m : mem) n b : fresh_maps h m n -> fresh_maps h (delete b m) n.
Proof.
  intros [Hh Hm]. split; [done|]. intros k. rewrite lookup_delete.
  case_decide; [by intros []|apply Hm].
Qed.

Lemma fresh_heap_None h m n : fresh_maps h m n -> h !! n = None.
Proof.
  intros [Hh _]. destruct (h !! n) eqn:E; [|done].
  specialize (Hh n). rewrite E in Hh. specialize (Hh ltac:(done)). lia.
Qed.

Lemma fresh_mem_None h (m : mem) n : fresh_maps h m n -> m !! n = None.
Proof.
  intros [_ Hm]. destruct (m !! n) eqn:E; [|done].
  specialize (Hm n). rewrite E in Hm. specialize (Hm ltac:(done)). lia.
Qed.

(** Everything at or above the next address is free. *)
Lemma fresh_ge h (m : mem) n k :
  fresh_maps h m n -> (n <= k)%positive -> h !! k = None /\ m !! k = None.
Proof.
  intros [Hh Hm] Hk. split.
  - destruct (h !! k) eqn:E; [|done]. specialize (Hh k). rewrite E in Hh.
    specialize (Hh ltac:(done)). lia.
  - destruct (m !! k) eqn:E; [|done]. specialize (Hm k). rewrite E in Hm.
    specialize (Hm ltac:(done)). lia.
Qed.

Create HintDb kheap.
#[export] Hint Resolve fresh_put fresh_delete fresh_heap_alloc fresh_mem_alloc
  fresh_mem_delete : kheap.
#[export] Hint Extern 1 (is_Some (_ !! _)) =>
  repeat first [ rewrite lookup_insert_eq | rewrite lookup_insert_ne by congruence
               | rewrite lookup_delete_ne by congruence ]; eauto : kheap.

Section Owned.
Context (p : positive) (s : vpipe_source) (hb : gmap positive kobj) (D : gset positive).

Lemma src_owned_source w : src_owned p s hb D w ->
  kheap w !! p = Some (OSource s) /\ exists r, ops s = Some r.
Proof.
  intros [r|a v|a v f b n]; (split; [|eauto]);
    match goal with H : kheap w = _ |- _ => rewrite H end.
  - by rewrite lookup_insert_eq.
  - by rewrite lookup_insert_ne, lookup_insert_eq by congruence.
  - by do 2 rewrite lookup_insert_ne by congruence; rewrite lookup_insert_eq.
Qed.

Lemma src_owned_fresh w : src_owned p s hb D w -> fresh_above w.
Proof. by intros []. Qed.

Lemma src_owned_seq w n : src_owned p s hb D w ->
  src_owned p (with_seq n s) hb D (set_kheap (<[p := OSource (with_seq n s)]> (kheap w)) w).
Proof.
  intros Ho. pose proof (src_owned_source _ Ho) as [Hp _].
  assert (Hf : fresh_above (set_kheap (<[p := OSource (with_seq n s)]> (kheap w)) w))
    by (apply fresh_put; [exact (src_owned_fresh _ Ho)|eauto]).
  destruct Ho as [r ? ? ? ? Hh|a v ? ? ? ? ? ? Hh|a v f b m ? ? ? ? ? ? ? ? ? ? Hh];
    rewrite Hh in *.
  - eapply own_idle; eauto. cbn. by rewrite insert_insert_eq.
  - eapply (own_synth _ _ _ _ _ a v); eauto. cbn. heap_eq.
  - eapply (own_vcam _ _ _ _ _ a v f b m); eauto. cbn. heap_eq.
Qed.

Lemma src_owned_tick w : src_owned p s hb D w -> src_owned p s hb D (tick_clock w).
Proof.
  intros [r|a v|a v f b m].
  - by eapply own_idle.
  - by eapply (own_synth _ _ _ _ _ a v).
  - by eapply (own_vcam _ _ _ _ _ a v f b m).
Qed.

Lemma src_owned_mem w m : src_owned p s hb D w ->
  (forall b, blen m b = blen (kmem w) b) -> src_owned p s hb D (set_kmem m w).
Proof.
  intros Ho Hb. pose proof (blen_dom _ _ Hb) as Hd.
  assert (Hf : fresh_above (set_kmem m w))
    by (eapply fresh_mem_dom; [exact (src_owned_fresh _ Ho)|exact Hd]).
  destruct Ho as [r|a v|a v f b n].
  - eapply own_idle; try done. cbn. congruence.
  - eapply (own_synth _ _ _ _ _ a v); try done. cbn. congruence.
  - eapply (own_vcam _ _ _ _ _ a v f b n); try done; cbn; [congruence|by rewrite Hb].
Qed.

Lemma src_owned_base w k : src_owned p s hb D w -> is_Some (hb !! k) -> is_Some (kheap w !! k).
Proof.
  intros Ho Hk.
  destruct Ho as [r ? ? ? ? Hh|a v ? ? ? ? ? ? Hh|a v f b m ? ? ? ? ? ? ? ? ? ? Hh];
    rewrite Hh; rewrite ?lookup_insert; by repeat case_decide.
Qed.

(** A new object elsewhere in the heap belongs to the frame. *)
Lemma src_owned_alloc w o : src_owned p s hb D w ->
  src_owned p s (<[knext w := o]> hb) D
    (tick_alloc true (set_kheap (<[knext w := o]> (kheap w)) w)).
Proof.
  intros Ho. pose proof (src_owned_fresh _ Ho) as Hf.
  pose proof (fresh_heap_None _ _ _ Hf) as Hx.
  assert (Hf' : fresh_above (tick_alloc true (set_kheap (<[knext w := o]> (kheap w)) w)))
    by (by apply fresh_heap_alloc).
  destruct Ho as [r ? ? ? ? Hh|a v ? ? ? ? ? ? Hh|a v f b m ? ? ? ? ? ? ? ? ? ? Hh];
    rewrite Hh in Hx; repeat (apply lookup_insert_None in Hx as [Hx ?]).
  - eapply own_idle; try done; [by rewrite lookup_insert_ne|]. cbn. rewrite Hh. heap_eq.
  - eapply (own_synth _ _ _ _ _ a v); try done; [by rewrite lookup_insert_ne..|].
    cbn. rewrite Hh. heap_eq.
  - eapply (own_vcam _ _ _ _ _ a v f b m); try done; [by rewrite lookup_insert_ne..|].
    cbn. rewrite Hh. heap_eq.
Qed.

Lemma src_owned_no_alloc w : src_owned p s hb D w -> src_owned p s hb D (tick_alloc false w).
Proof.
  intros [r|a v|a v f b m].
  - by eapply own_idle.
  - by eapply (own_synth _ _ _ _ _ a v).
  - by eapply (own_vcam _ _ _ _ _ a v f b m).
Qed.

Lemma src_owned_idle w : src_owned p s hb D w -> priv s = None ->
  kheap w = <[p := OSource s]> hb /\ hb !! p = None /\ dom (kmem w) = D.
Proof. by intros [] ?; simplify_eq. Qed.
End Owned.

(** ** The operations keep ownership *)

(** Evaluates the next heap accesses of a running operation. *)
Ltac kcbn :=
  cbn [kheap kmem knext kclock kallocs backend_ops backend_name synthetic_drop_every
       vcam_fps vcam_drop_every set_kheap set_kmem tick_alloc tick_clock fst snd
       fb_refcount fb_vaddr fb_size].
Ltac hlook :=
  kcbn;
  repeat first
    [ rewrite lookup_insert_eq | rewrite lookup_insert_ne by congruence
    | rewrite lookup_delete_eq | rewrite lookup_delete_ne by congruence ];
  kcbn.
Ltac krun :=
  repeat (progress (unfold fbind, fret, fget, flift, get_source, get_synth, get_vcam,
                    get_fb, put_obj, kfree, vfree, on_mem, ktime_get_ns; hlook)).

(** The parts of a world the operation did not reach are the same. *)
Ltac keep := split; kcbn; [lia|done|done|try done].

(** Opens a world whose heap is known. *)
Ltac open_world w :=
  unfold fresh_above in *;
  destruct w as [km kh kn kc ka bo bn sd vf vd];
  cbn [kheap kmem knext kclock kallocs backend_ops backend_name synthetic_drop_every
       vcam_fps vcam_drop_every] in *;
  match goal with H : kh = _ |- _ => rewrite H in *; clear H kh end.

Section Contract.
Context `{KernelEnv}.
Context (p : positive) (s : vpipe_source) (hb : gmap positive kobj) (D : gset positive).

(** The next free address is different from every object in use. *)
Lemma fresh_ne h m n k o : fresh_maps h m n -> h !! k = Some o -> n <> k.
Proof. intros Hf Hk <-. by rewrite (fresh_heap_None _ _ _ Hf) in Hk. Qed.

Lemma synthetic_start_ok w ctx :
  src_owned p s hb D w -> ops s = Some synthetic_ops -> priv s = None ->
  exists ret w' q, Synthetic.synthetic_start p ctx w = Some (ret, w') /\
    src_owned p (with_priv q s) hb D w' /\ (ret <> 0 -> q = None) /\
    (forall k, k ∈ D -> kmem w' !! k = kmem w !! k) /\ keeps D w w'.
Proof.
  intros Ho Hops Hn. destruct Ho as [r _ _ Hp Hf Hh Hd|?|?]; [|congruence..]. open_world w.
  pose proof (fresh_heap_None _ _ _ Hf) as Hx.
  assert (Hxp : kn <> p) by (eapply fresh_ne; [exact Hf|apply lookup_insert_eq]).
  rewrite lookup_insert_ne in Hx by congruence.
  unfold Synthetic.synthetic_start, kzalloc. krun. destruct (kalloc ka).
  - krun. exists 0. eexists. exists (Some kn). split; [reflexivity|].
    split; [|split; [done|split; [done|keep]]].
    eapply (own_synth _ _ _ _ _ kn); try done; unfold fresh_above; kcbn.
    + eauto 6 with kheap.
    + heap_eq.
  - do 3 eexists. split; [reflexivity|]. split; [|split; [intros _; reflexivity|split; [done|keep]]].
    eapply own_idle; try done; kcbn. by destruct s; cbn in *; subst.
Qed.

Lemma synthetic_stop_ok w :
  src_owned p s hb D w -> ops s = Some synthetic_ops ->
  exists w', Synthetic.synthetic_stop p w = Some (tt, w') /\
    src_owned p (with_priv None s) hb D w' /\ keeps D w w'.
Proof.
  intros Ho Hops. destruct Ho as [r _ Hn Hp Hf Hh Hd|a v _ Ha Hp Hab Hne Hf Hh Hd|?];
    [..|congruence]; open_world w; unfold Synthetic.synthetic_stop; krun;
    rewrite ?Hn, ?Ha; krun; (eexists; split; [reflexivity|]); (split; [|keep]);
    (eapply own_idle; try done; unfold fresh_above; kcbn).
  - eauto with kheap.
  - by rewrite insert_insert_eq.
  - eauto 6 with kheap.
  - heap_eq.
Qed.

Lemma synthetic_reset_ok w :
  src_owned p s hb D w -> ops s = Some synthetic_ops ->
  exists w', Synthetic.synthetic_reset p w = Some (0, w') /\ src_owned p s hb D w'.
Proof.
  intros Ho Hops. pose proof Ho as Ho'.
  destruct Ho as [r _ Hn Hp Hf Hh Hd|a v _ Ha Hp Hab Hne Hf Hh Hd|?];
    [..|congruence]; open_world w; unfold Synthetic.synthetic_reset; krun;
    rewrite ?Hn, ?Ha; krun; (eexists; split; [reflexivity|]); [done|].
  eapply (own_synth _ _ _ _ _ a); try done; unfold fresh_above; kcbn.
  - eauto with kheap.
  - by rewrite insert_insert_eq.
Qed.

Lemma fits_blen (m m' : mem) q x y z :
  (forall b, blen m' b = blen m b) -> fits m q x y z -> fits m' q x y z.
Proof. unfold fits. intros Hb. by rewrite Hb. Qed.

Lemma plane_ok_blen w w' D' v d :
  (forall b, blen (kmem w') b = blen (kmem w) b) ->
  (forall q, own_fb p w q -> own_fb p w' q) ->
  src_plane_ok p w D' v d -> src_plane_ok p w' D' v d.
Proof.
  intros Hb Ho (H1 & H2 & H3 & H4). split; [done|]. split; [done|]. split; [done|].
  destruct v as [q|]; [|done]. destruct H4 as [Hf Hq]. split.
  - by eapply fits_blen.
  - destruct Hq; [by left|right; auto].
Qed.

(** What one call does, as a proof obligation of the contract. *)
Definition nf_post (w : kworld) (d : vpipe_frame_desc)
    (r : option ((Z * vpipe_frame_desc) * kworld)) : Prop :=
  exists ret d' w', r = Some ((ret, d'), w') /\
    src_owned p s hb D w' /\ described d d' /\ keeps D w w' /\
    (forall v b D', src_plane_ok p w D' v b -> src_plane_ok p w' D' v b).

Lemma nf_post_refuse w d e :
  src_owned p s hb D w -> nf_post w d (Some ((e, d), w)).
Proof. intros Ho. exists e, d, w. by split_and!. Qed.

Lemma synthetic_next_frame_ok w vaddr d :
  src_owned p s hb D w -> ops s = Some synthetic_ops -> src_plane_ok p w D vaddr d ->
  nf_post w d (Synthetic.synthetic_next_frame p vaddr d w).
Proof.
  intros Ho Hops Hpl. pose proof Ho as Ho'.
  destruct Ho as [r _ Hn Hp Hf Hh Hd|a v _ Ha Hp Hab Hne Hf Hh Hd|?];
    [..|congruence]; open_world w; unfold Synthetic.synthetic_next_frame; krun;
    rewrite ?Hn, ?Ha; [by apply nf_post_refuse|].
  destruct (_ || _ || _); [by apply nf_post_refuse|].
  destruct vaddr as [q|]; [|by apply nf_post_refuse]. krun.
  assert (Hnofb : forall k, own_fb p
    (KWorld km (<[a:=OSynth v]> (<[p:=OSource s]> hb)) kn kc ka bo bn sd vf vd) k -> False).
  { intros k (s2 & a2 & v2 & f2 & fb2 & H1 & H2 & H3 & _). cbn [kheap] in *.
    rewrite lookup_insert_ne, lookup_insert_eq in H1 by congruence. injection H1 as <-.
    rewrite Ha in H2. injection H2 as <-. by rewrite lookup_insert_eq in H3. }
  destruct (ztrue _ && _).
  - do 3 eexists. split; [reflexivity|]. split; [|split; [apply described_dropped|split; [keep|]]].
    + eapply (own_synth _ _ _ _ _ a); try done; unfold fresh_above; kcbn.
      * eauto with kheap.
      * by rewrite insert_insert_eq.
    + intros v' b' D'. apply plane_ok_blen; [done|]. intros k Hk. by destruct (Hnofb k).
  - destruct Hpl as (_ & _ & _ & Hfit & _). cbn [kmem] in Hfit.
    destruct (fill_gradient_ok km q (d_width d) (d_height d) (d_stride d)
                (sy_pattern_offset v) Hfit) as (m' & Hm' & Hpt).
    krun. rewrite Hm'. krun. do 3 eexists. split; [reflexivity|].
    split; [|split; [done|split; [keep; intros b _; apply Hpt|]]].
    + eapply (own_synth _ _ _ _ _ a); try done; unfold fresh_above; kcbn.
      * eapply fresh_mem_dom; [|apply blen_dom, Hpt]. eauto with kheap.
      * by rewrite !insert_insert_eq.
      * rewrite (blen_dom km m'); [done|apply Hpt].
    + intros v' b' D'. apply plane_ok_blen; [apply Hpt|]. intros k Hk. by destruct (Hnofb k).
Qed.

Lemma vcam_start_ok w ctx :
  src_owned p s hb D w -> ops s = Some vcam_ops -> priv s = None ->
  exists ret w' q, Vcam.vcam_start p ctx w = Some (ret, w') /\
    src_owned p (with_priv q s) hb D w' /\ (ret <> 0 -> q = None) /\
    (forall k, k ∈ D -> kmem w' !! k = kmem w !! k) /\ keeps D w w'.
Proof.
  intros Ho Hops Hn.
  assert (Hs : with_priv None s = s) by (destruct s; cbn in *; by subst).
  assert (Hrefuse : forall e, exists ret w' q, Some (e, w) = Some (ret, w') /\
    src_owned p (with_priv q s) hb D w' /\ (ret <> 0 -> q = None) /\
    (forall k, k ∈ D -> kmem w' !! k = kmem w !! k) /\ keeps D w w').
  { intros e. exists e, w, None. rewrite Hs. by split_and!. }
  destruct Ho as [r _ _ Hp Hf Hh Hd|?|?]; [|congruence..].
  unfold Vcam.vcam_start. destruct ctx as [q|]; [|apply Hrefuse].
  destruct (sizeimage q =? 0); [apply Hrefuse|]. clear Hrefuse. open_world w.
  destruct (fresh_ge _ _ _ kn Hf ltac:(lia)) as [Ha0 _].
  destruct (fresh_ge _ _ _ (Pos.succ kn) Hf ltac:(lia)) as [Hf0 _].
  destruct (fresh_ge _ _ _ (Pos.succ (Pos.succ kn)) Hf ltac:(lia)) as [_ Hb0].
  assert (Hap : kn <> p) by (eapply fresh_ne; [exact Hf|apply lookup_insert_eq]).
  assert (Hfp : Pos.succ kn <> p) by (intros E; by rewrite E, lookup_insert_eq in Hf0).
  assert (Hfa : Pos.succ kn <> kn) by lia.
  rewrite lookup_insert_ne in Ha0, Hf0 by congruence.
  unfold Vcam.vcam_fb_alloc, kzalloc, vmalloc_user. krun. destruct (kalloc ka).
  2:{ exists (- ENOMEM). eexists. exists None. split; [reflexivity|].
      split; [|split; [done|split; [done|keep]]]. rewrite Hs. by eapply own_idle. }
  krun. destruct (kalloc (S ka)).
  2:{ krun. exists (- ENOMEM). eexists. exists None. split; [reflexivity|].
      split; [|split; [done|split; [done|keep]]]. rewrite Hs. eapply own_idle; try done; unfold fresh_above; kcbn.
      - eauto with kheap.
      - heap_eq. }
  krun. destruct (kalloc (S (S ka))); krun.
  2:{ exists (- ENOMEM). eexists. exists None. split; [reflexivity|].
      split; [|split; [done|split; [done|keep]]]. rewrite Hs. eapply own_idle; try done; unfold fresh_above; kcbn.
      - eauto 6 with kheap.
      - heap_eq. }
  exists 0. eexists. exists (Some kn). split; [reflexivity|].
  assert (HbD : Pos.succ (Pos.succ kn) ∉ D).
  { intros Hin. rewrite <- Hd in Hin. apply elem_of_dom in Hin as [? ?]. congruence. }
  assert (Hkm : forall k, k ∈ D ->
    <[Pos.succ (Pos.succ kn) := replicate (Z.to_nat (Vcam.PAGE_ALIGN (sizeimage q))) 0]> km !! k
      = km !! k) by (intros k Hk; by rewrite lookup_insert_ne by congruence).
  split; [|split; [done|split; [exact Hkm|keep; intros k Hk; unfold blen; by rewrite Hkm]]].
  eapply (own_vcam _ _ _ _ _ kn
    (VcamPriv (Some (Pos.succ kn)) 0 0 vd (ktime kc)
       (if ztrue vf then Vcam.NSEC_PER_SEC / vf else 0))
    (Pos.succ kn) (Pos.succ (Pos.succ kn)) (Vcam.PAGE_ALIGN (sizeimage q)));
    try done; unfold fresh_above; kcbn.
  - eauto 10 with kheap.
  - heap_eq.
  - by rewrite dom_insert_L, Hd.
  - unfold blen. rewrite lookup_insert_eq, length_replicate. lia.
Qed.

Lemma vcam_stop_ok w :
  src_owned p s hb D w -> ops s = Some vcam_ops ->
  exists w', Vcam.vcam_stop p w = Some (tt, w') /\
    src_owned p (with_priv None s) hb D w' /\ keeps D w w'.
Proof.
  intros Ho Hops.
  destruct Ho as [r _ Hn Hp Hf Hh Hd|?|a v f b n _ Ha Hp Hab Hfb Hap Hfp Hfa Hf Hvf Hh HbD Hd Hn];
    [|congruence|]; open_world w; unfold Vcam.vcam_stop; krun; rewrite ?Hn, ?Ha.
  - eexists. split; [reflexivity|]. split; [|keep]. eapply own_idle; try done; kcbn.
    by destruct s; cbn in *; subst.
  - krun. rewrite Hvf. unfold Vcam.kref_put, Vcam.vcam_fb_release. krun.
    change (1 - 1 =? 0) with true. krun.
    destruct (km !! b) as [l|] eqn:Eb.
    2:{ exfalso. assert (Hin : b ∈ dom km) by (rewrite Hd; set_solver).
        apply elem_of_dom in Hin as [? ?]. congruence. }
    krun. rewrite ?Eb. krun. eexists. split; [reflexivity|].
    split; [|keep; intros k Hk; unfold blen; by rewrite lookup_delete_ne by congruence].
    eapply own_idle; try done; unfold fresh_above; kcbn.
    + eauto 10 with kheap.
    + heap_eq.
    + rewrite dom_delete_L, Hd. set_solver.
Qed.

Lemma vcam_reset_ok w :
  src_owned p s hb D w -> ops s = Some vcam_ops ->
  exists w', Vcam.vcam_reset p w = Some (0, w') /\ src_owned p s hb D w'.
Proof.
  intros Ho Hops. pose proof Ho as Ho'.
  destruct Ho as [r _ Hn Hp Hf Hh Hd|?|a v f b n _ Ha Hp Hab Hfb Hap Hfp Hfa Hf Hvf Hh HbD Hd Hn];
    [|congruence|]; open_world w; unfold Vcam.vcam_reset; krun; rewrite ?Hn, ?Ha.
  - eexists. by split.
  - krun. eexists. split; [reflexivity|].
    eapply (own_vcam _ _ _ _ _ a (VcamPriv (vc_fb v) 0 0 (vc_drop_every_n v) (ktime kc)
              (vc_frame_interval_ns v)) f b n); try done; unfold fresh_above; kcbn.
    + eauto 6 with kheap.
    + heap_eq.
Qed.

(** Replacing the private state of a running vcam source, with bytes written
    only inside existing blocks. *)
Lemma vcam_put_priv km km' kn kc ka bo bn sd vf vd a v v' f b n :
  hb !! p = None -> hb !! a = None -> hb !! f = None ->
  fresh_maps (<[f := OFb (VcamFb 1 (Some b) n)]> (<[a := OVcam v]> (<[p := OSource s]> hb)))
    km kn ->
  b ∉ D -> dom km = {[b]} ∪ D -> n <= blen km b ->
  ops s = Some vcam_ops -> priv s = Some a -> a <> p -> f <> p -> f <> a ->
  vc_fb v = Some f -> vc_fb v' = Some f ->
  (forall x, blen km' x = blen km x) ->
  let w' := KWorld km' (<[a := OVcam v']> (<[f := OFb (VcamFb 1 (Some b) n)]>
              (<[a := OVcam v]> (<[p := OSource s]> hb)))) kn kc ka bo bn sd vf vd in
  src_owned p s hb D w' /\
  (forall q, own_fb p (KWorld km (<[f := OFb (VcamFb 1 (Some b) n)]>
     (<[a := OVcam v]> (<[p := OSource s]> hb))) kn kc ka bo bn sd vf vd) q -> own_fb p w' q).
Proof.
  intros Hp Hab Hfb Hf HbD Hd Hn Hops Ha Hap Hfp Hfa Hv Hv' Hb. split.
  - eapply (own_vcam _ _ _ _ _ a v' f b n); try done; unfold fresh_above in *; kcbn.
    + eapply fresh_mem_dom; [|by apply blen_dom].
      apply fresh_put; [done|]. hlook. eauto.
    + heap_eq.
    + by rewrite (blen_dom km km').
    + by rewrite Hb.
  - intros q (s2 & a2 & v2 & f2 & fb2 & H1 & H2 & H3 & H4 & H5 & H6). cbn [kheap] in *.
    rewrite lookup_insert_ne, lookup_insert_ne, lookup_insert_eq in H1 by congruence.
    injection H1 as <-. rewrite Ha in H2. injection H2 as <-.
    rewrite lookup_insert_ne, lookup_insert_eq in H3 by congruence. injection H3 as <-.
    rewrite Hv in H4. injection H4 as <-. rewrite lookup_insert_eq in H5. injection H5 as <-.
    exists s, a, v', f, (VcamFb 1 (Some b) n). cbn [kheap]. hlook. done.
Qed.

Lemma vcam_next_frame_ok w vaddr d :
  src_owned p s hb D w -> ops s = Some vcam_ops -> src_plane_ok p w D vaddr d ->
  nf_post w d (Vcam.vcam_next_frame p vaddr d w).
Proof.
  intros Ho Hops Hpl. pose proof Ho as Ho'.
  destruct Ho as [r _ Hn Hp Hf Hh Hd|?|a v f b n _ Ha Hp Hab Hfb Hap Hfp Hfa Hf Hvf Hh HbD Hd Hn];
    [|congruence|]; open_world w; unfold Vcam.vcam_next_frame; krun;
    rewrite ?Hn, ?Ha; [by apply nf_post_refuse|].
  krun. rewrite Hvf. destruct (_ || _ || _) eqn:Ez; [by apply nf_post_refuse|]. krun.
  pose proof Hpl as (Hw & Hh & Hlim & Hq). unfold INT_MAX in Hlim.
  rewrite u64_small by nia.
  destruct (Z.ltb_spec n (d_stride d * d_height d)) as [|Hsz]; [by apply nf_post_refuse|].
  destruct vaddr as [q|]; [|by apply nf_post_refuse].
  destruct Hq as [Hfit Hq]. cbn [kmem] in Hfit.
  destruct (ztrue _ && _).
  { krun. do 3 eexists. split; [reflexivity|].
    destruct (vcam_put_priv km km kn kc ka bo bn sd vf vd a v
      (VcamPriv (Some f) (vc_pattern_offset v) (u32 (vc_frames_produced v + 1))
         (vc_drop_every_n v) (vc_base_ts_ns v) (vc_frame_interval_ns v)) f b n)
      as [Ho2 Hfb2]; try done.
    split; [exact Ho2|]. split; [|split; [keep|]].
    - apply (described_dropped_of _ (with_timestamp _ d)). apply described_timestamp; [apply u64_range|done].
    - intros v' b' D'. by apply plane_ok_blen. }
  krun.
  assert (Hfill : fits km (Ptr b 0) (d_width d) (d_height d) (d_stride d))
    by (unfold fits, INT_MAX; cbn; nia).
  destruct (vcam_fill_gradient_ok km (Ptr b 0) _ _ _ (vc_pattern_offset v) Hfill)
    as (m1 & Hm1 & Hpt); [lia..|].
  rewrite Hm1. krun.
  assert (Hcp : exists m2,
    (if decide (q = Ptr b 0) then Some m1
     else memcpy m1 q (Ptr b 0) (d_stride d * d_height d)) = Some m2 /\
    forall x, blen m2 x = blen km x).
  { case_decide as Eq; [exists m1; split; [done|apply Hpt]|].
    destruct (memcpy_ok m1 q (Ptr b 0) (d_stride d * d_height d)) as [m2 Hm2];
      rewrite ?(pt_blen _ _ _ _ _ Hpt); cbn; try (unfold fits in Hfit; nia).
    - destruct Hq as [Hq|(s2 & a2 & v2 & f2 & fb2 & H1 & H2 & H3 & H4 & H5 & H6 & H7)].
      + cbn. congruence.
      + exfalso. apply Eq. cbn [kheap] in *.
        rewrite lookup_insert_ne, lookup_insert_ne, lookup_insert_eq in H1 by congruence.
        injection H1 as <-. rewrite Ha in H2. injection H2 as <-.
        rewrite lookup_insert_ne, lookup_insert_eq in H3 by congruence. injection H3 as <-.
        rewrite Hvf in H4. injection H4 as <-. rewrite lookup_insert_eq in H5.
        injection H5 as <-. destruct q; cbn in *. congruence.
    - exists m2. split; [done|]. intros x.
      rewrite (memcpy_blen _ _ _ _ _ x Hm2). apply Hpt. }
  destruct Hcp as (m2 & Hm2 & Hb2).
  destruct (vcam_put_priv km m2 kn kc ka bo bn sd vf vd a v
    (VcamPriv (Some f) (u32 (vc_pattern_offset v + 1)) (u32 (vc_frames_produced v + 1))
       (vc_drop_every_n v) (vc_base_ts_ns v) (vc_frame_interval_ns v)) f b n)
    as [Ho2 Hfb2]; try done.
  exists 0. do 2 eexists. split.
  - destruct (decide (q = Ptr b 0)) as [Eq|Eq].
    + injection Hm2 as ->. krun. reflexivity.
    + krun. rewrite Hm2. krun. reflexivity.
  - split; [exact Ho2|]. split; [apply described_byteused, described_timestamp; [apply u64_range|done]|].
    split; [keep; intros k _; apply Hb2|].
    intros v' b' D'. by apply plane_ok_blen.
Qed.
End Contract.

(** A source that has not been started stays as it is under the operations a
    backend does not implement. *)
Lemma fixture_idle p s hb D w :
  src_owned p s hb D w -> ops s = Some fixture_ops -> with_priv None s = s.
Proof. intros [] ?; try congruence. by destruct s; cbn in *; subst. Qed.

#[export] Program Instance vpipe_source_contract `{KernelEnv} : SourceContract := {
  owned := src_owned;
  plane_ok := src_plane_ok;
  owned_source p s hb D w Ho := src_owned_source p s hb D w Ho;
  owned_seq p s hb D w n Ho := src_owned_seq p s hb D w n Ho;
  owned_clock p s hb D w Ho := src_owned_tick p s hb D w Ho;
  owned_mem p s hb D w m Ho := src_owned_mem p s hb D w m Ho;
  owned_fresh p s hb D w Ho := src_owned_fresh p s hb D w Ho;
  owned_base p s hb D w k Ho := src_owned_base p s hb D w k Ho;
  owned_alloc p s hb D w o Ho := src_owned_alloc p s hb D w o Ho;
  owned_no_alloc p s hb D w Ho := src_owned_no_alloc p s hb D w Ho;
  owned_new p s r hb D w H1 H2 H3 H4 H5 H6 := own_idle p s hb D w r H1 H2 H3 H6 H4 H5;
  owned_idle p s hb D w Ho := src_owned_idle p s hb D w Ho
}.
Next Obligation.
  intros E p w D v d H1 H2 H3 H4. split; [done|]. split; [done|]. split; [done|].
  destruct v as [q|]; [|done]. destruct (H4 q eq_refl). auto.
Qed.
Next Obligation. intros E p w D v d. by apply plane_ok_blen. Qed.
Next Obligation.
  intros E p s w D v d n Hp. apply plane_ok_blen; [done|].
  intros q (s2 & a & v2 & f & fb & H1 & H2 & H3 & H4 & H5 & H6).
  rewrite Hp in H1. injection H1 as <-.
  exists (with_seq n s), a, v2, f, fb. kcbn.
  rewrite lookup_insert_eq, !lookup_insert_ne by congruence. done.
Qed.
Next Obligation.
  intros E p s hb D w r vaddr d Ho Hr Hpl.
  assert (Hex : exists nf, op_next_frame (ops_of r) = Some nf /\
    nf_post p s hb D w d (nf p vaddr d w)).
  { destruct r; eexists; (split; [reflexivity|]).
    - by apply nf_post_refuse.
    - by apply synthetic_next_frame_ok.
    - by apply vcam_next_frame_ok. }
  destruct Hex as (nf & Hnf & ret & d' & w' & Hrun & H1 & H2 & H3 & H4).
  exists nf, ret, d', w'. done.
Qed.
Next Obligation.
  intros E p s hb D w r ctx Ho Hr Hn. destruct r.
  - exists 0, w, None. rewrite (fixture_idle p s hb D w Ho Hr). by split_and!.
  - by apply synthetic_start_ok.
  - by apply vcam_start_ok.
Qed.
Next Obligation.
  intros E p s hb D w r Ho Hr. destruct r.
  - exists w. rewrite (fixture_idle p s hb D w Ho Hr). by split_and!.
  - by apply synthetic_stop_ok.
  - by apply vcam_stop_ok.
Qed.
Next Obligation.
  intros E p s hb D w r Ho Hr. destruct r.
  - by exists w.
  - by apply synthetic_reset_ok.
  - by apply vcam_reset_ok.
Qed.

(** ** Creating a source *)

(** The registry after module initialisation. *)
Definition registry_ready (w : kworld) : Prop :=
  backend_ops w = [None; Some fixture_ops; Some synthetic_ops; Some vcam_ops] /\
  backend_name w = [None; Some "fixture"; Some "synthetic"; Some "vcam-derived"]%string.

Definition ops_for (id : Z) : ops_ref :=
  if id =? 1 then fixture_ops else if id =? 2 then synthetic_ops else vcam_ops.

Definition name_for (id : Z) : string :=
  if id =? 1 then "fixture"%string
  else if id =? 2 then "synthetic"%string else "vcam-derived"%string.

Lemma backend_id_cases id :
  vpipe_backend_id_valid id = true -> id = 1 \/ id = 2 \/ id = 3.
Proof. unfold vpipe_backend_id_valid, VPIPE_BACKEND_NONE, VPIPE_BACKEND_MAX. lia. Qed.

Lemma source_create_ok `{KernelEnv} id w :
  registry_ready w -> fresh_above w -> vpipe_backend_id_valid id = true ->
  exists r w', vpipe_source_create id w = Some (r, w') /\
    match r with
    | GoodPtr p => p = knext w /\
        src_owned p (Source id (Some (ops_for id)) None 0 (name_for id))
          (kheap w) (dom (kmem w)) w' /\ kmem w' = kmem w
    | ErrPtr e => e = - ENOMEM /\ kheap w' = kheap w /\ kmem w' = kmem w
    end.
Proof.
  intros [Ho Hn] Hf Hid. unfold vpipe_source_create. rewrite Hid, Ho, Hn. cbn [negb].
  pose proof (fresh_heap_None _ _ _ Hf) as Hx.
  destruct (backend_id_cases id Hid) as [->|[->| ->]]; cbn -[fbind kzalloc];
    unfold fbind, kzalloc; (destruct (kalloc (kallocs w));
      [do 2 eexists; split; [reflexivity|]; split; [done|]; split; [|done];
       eapply own_idle; try done; unfold fresh_above; kcbn;
       by apply fresh_heap_alloc
      |do 2 eexists; split; [reflexivity|]; done]).
Qed.
