(* ===== verification/Lifecycle.v ===== *)
(** * Sources from registration to destruction

    Theorems about whole source histories: registration, creation, numbering
    of frames, the drop cadence of each backend, the exported frame buffer, and
    that every allocation is given back. The operations are those of
    [kmod/vpipe-source.c] and of the three backends. *)

From S2P Require Import Prelude Types Cv Kernel Source Backends.

(** ** Registration *)

(** The three calls [vpipe_init] makes, in its order. *)
Definition register_backends `{KernelEnv} : F kworld (Z * Z * Z) :=
  a <- vpipe_source_fixture_register;;
  b <- vpipe_source_synthetic_register;;
  c <- vpipe_source_vcam_register;;
  fret (a, b, c).

(** A world right after the module is loaded, with given parameters. *)
Definition world0 (drop fps vdrop : Z) : kworld :=
  KWorld ∅ ∅ 1 0 0 (replicate 4 None) (replicate 4 None) drop fps vdrop.

(** on an empty registry the three registrations of module initialisation
    succeed and fill exactly the ids 1 to 3; from then on no id can be
    registered again ([-EBUSY]) and an id outside 1..3 is refused
    ([-EINVAL]), both without effect. *)
Theorem registration_spec `{KernelEnv} w
    (Hops : backend_ops w = replicate 4 None) (Hnames : backend_name w = replicate 4 None) :
  exists w',
    register_backends w = Some ((0, 0, 0), w') /\ registry_ready w' /\
    kheap w' = kheap w /\
    forall id r nm,
      vpipe_source_register id (Some r) nm w' =
        Some (if vpipe_backend_id_valid id then - EBUSY else - EINVAL, w').
Proof.
  destruct w as [km kh kn kc ka bo bn sd vf vd]. cbn in *. subst.
  eexists. split; [reflexivity|]. split; [done|]. split; [done|].
  intros id r nm. unfold vpipe_source_register.
  destruct r; cbn [ops_of vpipe_ops_table op_next_frame];
    (destruct (vpipe_backend_id_valid id) eqn:E; [|done]);
    by destruct (backend_id_cases id E) as [->|[->| ->]].
Qed.

Lemma registration_spec_witness :
  exists w', @register_backends env_ok (world0 0 30 0) = Some ((0, 0, 0), w') /\
    registry_ready w'.
Proof.
  destruct (@registration_spec env_ok (world0 0 30 0) eq_refl eq_refl)
    as (w' & H1 & H2 & _).
  exists w'. split; [exact H1|exact H2].
Defined.

(** [vpipe_source_create] refuses ids outside the registry with
    [-EINVAL], reports [-ENOMEM] when the allocation fails, both without
    leaving anything allocated, and otherwise returns a fresh idle source of
    the requested backend, numbered from 0. *)
Theorem source_create_spec `{KernelEnv} id w
    (Hreg : registry_ready w) (Hfresh : fresh_above w) :
  if vpipe_backend_id_valid id
  then exists r w', vpipe_source_create id w = Some (r, w') /\ kmem w' = kmem w /\
       match r with
       | ErrPtr e => e = - ENOMEM /\ kheap w' = kheap w
       | GoodPtr p =>
           kheap w !! p = None /\
           kheap w' = <[p := OSource (Source id (Some (ops_for id)) None 0 (name_for id))]>
                        (kheap w)
       end
  else vpipe_source_create id w = Some (ErrPtr (- EINVAL), w).
Proof.
  destruct (vpipe_backend_id_valid id) eqn:Hid.
  - destruct (source_create_ok id w Hreg Hfresh Hid) as (r & w' & Hrun & Hr).
    exists r, w'. split; [done|]. destruct r as [p|e]; [|naive_solver].
    destruct Hr as (_ & Ho & Hm). split; [done|].
    destruct (src_owned_idle _ _ _ _ _ Ho eq_refl) as (H1 & H2 & _). done.
  - unfold vpipe_source_create. by rewrite Hid.
Qed.

Definition world_ready (drop fps vdrop : Z) : kworld :=
  KWorld ∅ ∅ 1 0 0
    [None; Some fixture_ops; Some synthetic_ops; Some vcam_ops]
    [None; Some "fixture"; Some "synthetic"; Some "vcam-derived"]%string drop fps vdrop.

Lemma world_ready_fresh drop fps vdrop : fresh_above (world_ready drop fps vdrop).
Proof. split; intros k []; set_solver. Defined.

Lemma source_create_spec_witness :
  exists w', @vpipe_source_create env_ok 3 (world_ready 0 30 0) = Some (GoodPtr 1, w') /\
    kmem w' = ∅.
Proof.
  destruct (@source_create_spec env_ok 3 (world_ready 0 30 0) (conj eq_refl eq_refl)
              (world_ready_fresh 0 30 0)) as (r & w' & H1 & H2 & _).
  exists w'. split; [|exact H2]. rewrite H1. vm_compute in H1. injection H1 as <- _.
  reflexivity.
Defined.

(** ** Frames *)

(** [vpipe_source_next_frame], for a source of any backend in any state
    and any legal target plane, never faults and keeps the geometry of the
    descriptor; on success it stamps the backend id, a non-zero timestamp and
    the current sequence number, which it then increments; when the backend
    refuses, the source is unchanged. *)
Theorem next_frame_stamps `{K : KernelEnv} `{L : !ClockLaws} p s hb D w vaddr d
    (Ho : src_owned p s hb D w)
    (Hpl : src_plane_ok p w D vaddr (desc_zero (d_width d) (d_height d) (d_stride d))) :
  exists ret d' w' s',
    vpipe_source_next_frame (Some p) (Some vaddr) d w = Some ((ret, d'), w') /\
    src_owned p s' hb D w' /\ stamped s ret d d' s'.
Proof.
  destruct (@source_next_frame_ok K _ vpipe_source_contract L p s hb D w vaddr d Ho Hpl)
    as (ret & d' & w' & s' & H1 & H2 & H3 & _).
  exists ret, d', w', s'. done.
Qed.

(** An idle fixture source beside one 4-byte plane. *)
Definition fixture_world : kworld :=
  KWorld {[7%positive := [1; 2; 3; 4]]}
    {[1%positive := OSource (Source 1 (Some fixture_ops) None 41 "fixture")]}
    8 0 0 [] [] 0 30 0.

Lemma fixture_world_owned :
  src_owned 1 (Source 1 (Some fixture_ops) None 41 "fixture") ∅ {[7%positive]} fixture_world.
Proof.
  eapply own_idle; try done.
  - split; intros k [x Hk]; cbn in Hk; apply lookup_singleton_Some in Hk as [<- _]; cbn; lia.
Defined.

Lemma next_frame_stamps_witness :
  exists ret d' w' s',
    @vpipe_source_next_frame env_ok (@vpipe_ops_table env_ok) (Some 1%positive) (Some (Some (Ptr 7 0)))
      (desc_zero 2 2 2) fixture_world = Some ((ret, d'), w') /\
    stamped (Source 1 (Some fixture_ops) None 41 "fixture") ret (desc_zero 2 2 2) d' s' /\
    ret = 0 /\ d_sequence d' = 41.
Proof.
  destruct (@next_frame_stamps env_ok env_ok_laws 1%positive _ _ _ fixture_world
    (Some (Ptr 7 0)) (desc_zero 2 2 2) fixture_world_owned) as (ret & d' & w' & s' & H1 & _ & H3).
  { split; [cbn; lia|]. split; [cbn; lia|]. split; [cbn; unfold INT_MAX; lia|].
    split; [vm_compute; intuition congruence|left; set_solver]. }
  exists ret, d', w', s'. split; [exact H1|]. split; [exact H3|].
  vm_compute in H1. injection H1 as <- <- _. split; reflexivity.
Defined.

(** [n] frames produced into the same plane. *)
Fixpoint next_frames `{KernelEnv} (n : nat) (p : positive) (vaddr : option ptr)
    (d : vpipe_frame_desc) : F kworld (list (Z * vpipe_frame_desc)) :=
  match n with
  | O => fret []
  | S n' =>
      r <- vpipe_source_next_frame (Some p) (Some vaddr) d;;
      rs <- next_frames n' p vaddr d;;
      fret (r :: rs)
  end.

(** Sequence numbers of the frames that succeeded. *)
Definition ok_seqs (rs : list (Z * vpipe_frame_desc)) : list Z :=
  omap (fun r => if ztrue r.1 then None else Some (d_sequence r.2)) rs.

(** [n] numbers from [a], wrapping at 32 bits. *)
Definition seqs_from (a : Z) (n : nat) : list Z :=
  (fun i => u32 (a + i)) <$> seqZ 0 (Z.of_nat n).

Lemma seqs_from_S a n :
  in_u32 a -> seqs_from a (S n) = a :: seqs_from (u32 (a + 1)) n.
Proof.
  intros Ha. unfold seqs_from. rewrite seqZ_cons by lia. cbn [fmap list_fmap].
  rewrite Z.add_0_r, u32_small by done. f_equal.
  replace (Z.pred (Z.of_nat (S n))) with (Z.of_nat n) by lia.
  apply list_eq. intros i. rewrite !list_lookup_fmap.
  destruct (decide (i < n)%nat).
  - rewrite !lookup_seqZ_lt by lia. cbn. f_equal. unfold u32.
    rewrite Zplus_mod_idemp_l. f_equal. lia.
  - rewrite !lookup_seqZ_ge by lia. done.
Qed.

Section Frames.
Context `{K : KernelEnv} `{L : !ClockLaws}.

Lemma next_frames_ok p hb D vaddr d n : forall s w,
  src_owned p s hb D w -> in_u32 (s_seq s) ->
  src_plane_ok p w D vaddr (desc_zero (d_width d) (d_height d) (d_stride d)) ->
  exists rs w' s' k,
    next_frames n p vaddr d w = Some (rs, w') /\ length rs = n /\
    src_owned p s' hb D w' /\
    s' = with_seq (u32 (s_seq s + Z.of_nat k)) s /\
    ok_seqs rs = seqs_from (s_seq s) k.
Proof.
  induction n as [|n IH]; intros s w Ho Hs Hpl.
  { exists [], w, s, 0%nat. split; [done|]. split; [done|]. split; [done|].
    rewrite Z.add_0_r, u32_small by done. by destruct s. }
  destruct (@source_next_frame_ok K _ vpipe_source_contract L p s hb D w vaddr d Ho Hpl)
    as (ret & d' & w1 & s1 & Hrun & Ho1 & [Hg Hst] & Hc & Hp1 & _).
  assert (Hs1 : in_u32 (s_seq s1)).
  { destruct (ztrue ret); [by subst|]. destruct Hst as [-> _]. cbn. apply u32_range. }
  destruct (IH s1 w1 Ho1 Hs1 (Hp1 _ _ _ Hpl)) as (rs & w2 & s2 & k & H1 & H2 & H3 & H4 & H5).
  exists ((ret, d') :: rs), w2, s2.
  cbn [next_frames]. unfold fbind at 1. rewrite Hrun. unfold fbind. rewrite H1.
  unfold ok_seqs in *. cbn [omap list_omap fst snd length]. destruct (ztrue ret).
  - subst s1. exists k. split; [done|]. split; [lia|]. split; [done|]. by split.
  - destruct Hst as (-> & Hq & _). exists (S k). split; [done|]. split; [lia|].
    split; [done|]. cbn in H4. split.
    + rewrite H4. unfold with_seq. cbn. f_equal. unfold u32.
      rewrite Zplus_mod_idemp_l. f_equal. lia.
    + rewrite Hq, seqs_from_S by done. f_equal. exact H5.
Qed.

(** A whole life: create, start, [n] frames, stop, destroy. The codes of
    creation (or start) are returned. *)
Definition lifecycle (id : Z) (ctx : option vpipe_q_data) (n : nat)
    (vaddr : option ptr) (d : vpipe_frame_desc) : F kworld (Z * list (Z * vpipe_frame_desc)) :=
  r <- vpipe_source_create id;;
  match r with
  | ErrPtr e => fret (e, [])
  | GoodPtr p =>
      ret <- vpipe_source_start (Some p) ctx;;
      rs <- next_frames n p vaddr d;;
      vpipe_source_stop (Some p);;
      vpipe_source_destroy (Some p);;
      fret (ret, rs)
  end.

(** A plane of the caller: its block exists beforehand and fits the geometry. *)
Definition caller_plane (w : kworld) (vaddr : option ptr) (d : vpipe_frame_desc) : Prop :=
  0 <= d_width d <= d_stride d /\ 0 <= d_height d /\ d_height d * d_stride d <= INT_MAX /\
  match vaddr with
  | None => True
  | Some q => fits (kmem w) q (d_width d) (d_height d) (d_stride d)
  end.

End Frames.

Lemma fits_dom m q w h st : fits m q w h st -> p_blk q ∈ dom m.
Proof.
  intros (H1 & H2 & H3 & H4 & H5). apply elem_of_dom.
  unfold blen in H5. destruct (m !! p_blk q); [eauto|nia].
Qed.

(** A plane of the caller stays a legal target while its block does. *)
Lemma caller_plane_ok p w w' vaddr d :
  caller_plane w vaddr d ->
  (forall k, k ∈ dom (kmem w) -> kmem w' !! k = kmem w !! k) ->
  src_plane_ok p w' (dom (kmem w)) vaddr (desc_zero (d_width d) (d_height d) (d_stride d)).
Proof.
  intros (H1 & H2 & H3 & H4) Hk. split; [done|]. split; [done|]. split; [done|].
  destruct vaddr as [q|]; [|done]. pose proof (fits_dom _ _ _ _ _ H4) as Hd.
  split; [|by left]. unfold fits, blen in *. by rewrite (Hk _ Hd).
Qed.

(** whatever the backend and whichever frames it refuses, the frames it
    does produce are numbered consecutively from the source's counter, modulo
    2^32, with no number skipped or used twice. *)
Theorem frame_numbering `{K : KernelEnv} `{L : !ClockLaws} p s hb D w vaddr d n
    (Ho : src_owned p s hb D w) (Hs : in_u32 (s_seq s))
    (Hpl : src_plane_ok p w D vaddr (desc_zero (d_width d) (d_height d) (d_stride d))) :
  exists rs w',
    next_frames n p vaddr d w = Some (rs, w') /\ length rs = n /\
    ok_seqs rs = seqs_from (s_seq s) (length (ok_seqs rs)).
Proof.
  destruct (next_frames_ok p hb D vaddr d n s w Ho Hs Hpl)
    as (rs & w' & s' & k & H1 & H2 & _ & _ & H5).
  exists rs, w'. split; [done|]. split; [done|].
  assert (Hk : length (seqs_from (s_seq s) k) = k)
    by (unfold seqs_from; rewrite length_fmap, length_seqZ; lia).
  by rewrite H5, Hk.
Qed.

Lemma frame_numbering_witness :
  exists rs w', @next_frames env_ok 3 1 (Some (Ptr 7 0)) (desc_zero 2 2 2) fixture_world
    = Some (rs, w') /\ ok_seqs rs = [41; 42; 43].
Proof.
  destruct (@frame_numbering env_ok env_ok_laws 1%positive _ _ _ fixture_world
    (Some (Ptr 7 0)) (desc_zero 2 2 2) 3 fixture_world_owned) as (rs & w' & H1 & _ & H3).
  - vm_compute. intuition congruence.
  - split; [cbn; lia|]. split; [cbn; lia|]. split; [cbn; unfold INT_MAX; lia|].
    split; [vm_compute; intuition congruence|left; set_solver].
  - exists rs, w'. split; [exact H1|]. vm_compute in H1. injection H1 as <- _. reflexivity.
Defined.

(** C7: no source leaks and none is freed twice. For every backend id, target
    format, frame count and caller plane, and whichever allocations fail, a
    whole life (create, start, frames, stop, destroy) runs without a fault and
    ends with exactly the heap objects and byte blocks it began with. *)
Theorem lifecycle_no_leak `{K : KernelEnv} `{L : !ClockLaws} id ctx n vaddr d w
    (Hreg : registry_ready w) (Hfresh : fresh_above w) (Hpl : caller_plane w vaddr d) :
  exists r w',
    lifecycle id ctx n vaddr d w = Some (r, w') /\
    kheap w' = kheap w /\ dom (kmem w') = dom (kmem w).
Proof.
  unfold lifecycle, fbind at 1. destruct (vpipe_backend_id_valid id) eqn:Hid.
  2:{ unfold vpipe_source_create. rewrite Hid. eexists _, w. done. }
  destruct (source_create_ok id w Hreg Hfresh Hid) as (r & w1 & Hc & Hr). rewrite Hc.
  destruct r as [p|e]; [|destruct Hr as (_ & H1 & H2); eexists _, w1; by rewrite H1, H2].
  destruct Hr as (_ & Ho1 & Hm1).
  destruct (@source_start_ok K _ vpipe_source_contract p _ _ _ w1 ctx Ho1 eq_refl)
    as (ret & w2 & q & H2 & Ho2 & _ & Hm2 & _).
  unfold fbind at 1. rewrite H2.
  destruct (next_frames_ok p (kheap w) (dom (kmem w)) vaddr d n _ w2 Ho2)
    as (rs & w3 & s3 & k & H3 & _ & Ho3 & _ & _).
  { vm_compute. intuition congruence. }
  { apply caller_plane_ok; [done|]. intros b Hb. rewrite <- Hm1. by apply Hm2. }
  unfold fbind at 1. rewrite H3.
  destruct (@source_stop_ok K _ vpipe_source_contract p _ _ _ w3 Ho3) as (w4 & H4 & Ho4 & _).
  unfold fbind at 1. rewrite H4.
  destruct (@source_destroy_ok K _ vpipe_source_contract p _ _ _ w4 Ho4) as (w5 & H5 & Hh5 & Hd5 & _).
  unfold fbind. rewrite H5. eexists _, w5. done.
Qed.

(** The witness's world: the registry is filled and block 1 is a 2x2 plane. *)
Definition world_plane (drop fps vdrop : Z) : kworld :=
  KWorld {[1%positive := [0; 0; 0; 0]]} ∅ 2 0 0
    [None; Some fixture_ops; Some synthetic_ops; Some vcam_ops]
    [None; Some "fixture"; Some "synthetic"; Some "vcam-derived"]%string drop fps vdrop.

Lemma world_plane_fresh drop fps vdrop : fresh_above (world_plane drop fps vdrop).
Proof.
  split; intros k [x Hk]; cbn in Hk; [by rewrite lookup_empty in Hk|].
  apply lookup_singleton_Some in Hk as [<- _]. cbn. lia.
Defined.

Lemma lifecycle_no_leak_witness :
  exists r w',
    @lifecycle env_ok 3 (Some (QData 2 2 2 4 0)) 3 (Some (Ptr 1 0)) (desc_zero 2 2 2)
      (world_plane 0 30 0) = Some (r, w') /\
    kheap w' = ∅ /\ r.1 = 0 /\ kmem w' !! 1%positive = Some [2; 3; 3; 4].
Proof.
  destruct (@lifecycle_no_leak env_ok env_ok_laws 3 (Some (QData 2 2 2 4 0)) 3
    (Some (Ptr 1 0)) (desc_zero 2 2 2) (world_plane 0 30 0) (conj eq_refl eq_refl)
    (world_plane_fresh 0 30 0)) as (r & w' & H1 & H2 & _).
  { vm_compute. intuition congruence. }
  exists r, w'. split; [exact H1|]. split; [exact H2|].
  vm_compute in H1. injection H1 as <- <-. split; reflexivity.
Defined.

(** ** Drop cadence *)

Lemma div_succ n N :
  0 <= N -> 0 <= n ->
  (n + 1) / N = n / N + Z.b2z (ztrue N && ((n + 1) mod N =? 0)).
Proof.
  intros HN Hn. unfold ztrue. destruct (Z.eqb_spec N 0) as [->|]; [by rewrite !Z.div_0_r|].
  cbn [negb andb]. pose proof (Z.div_mod n N). pose proof (Z.mod_pos_bound n N).
  pose proof (Z.div_mod (n + 1) N). pose proof (Z.mod_pos_bound (n + 1) N).
  destruct (Z.eqb_spec ((n + 1) mod N) 0); cbn [Z.b2z]; nia.
Qed.

Section Cadence.
Context `{K : KernelEnv} `{L : !ClockLaws}.

(** The wrapper around a backend call that succeeded. *)
Lemma source_next_frame_run p s hb D w vaddr d r nf d1 w1 :
  src_owned p s hb D w -> ops s = Some r -> op_next_frame (ops_of r) = Some nf ->
  nf p vaddr (desc_zero (d_width d) (d_height d) (d_stride d)) w = Some ((0, d1), w1) ->
  kheap w1 !! p = Some (OSource s) ->
  exists d' w',
    vpipe_source_next_frame (Some p) (Some vaddr) d w = Some ((0, d'), w') /\
    d_flags d' = d_flags d1 /\
    (d_source_timestamp_ns d1 <> 0 -> d_source_timestamp_ns d' = d_source_timestamp_ns d1) /\
    kheap w' = <[p := OSource (with_seq (u32 (s_seq s + 1)) s)]> (kheap w1) /\
    kmem w' = kmem w1.
Proof.
  intros Ho Hr Hnf Hrun Hp1. pose proof (src_owned_source _ _ _ _ _ Ho) as [Hp _].
  unfold vpipe_source_next_frame, fbind, get_source. rewrite Hp, Hr, Hnf, Hrun.
  cbn [ztrue negb Z.eqb].
  destruct (Z.eqb_spec (d_source_timestamp_ns d1) 0) as [E|E];
    unfold fret, ktime_get_ns, put_obj; do 3 (kcbn; rewrite ?Hp1);
    (do 2 eexists; split; [reflexivity|]; done).
Qed.

(** Runs of a source described by an invariant indexed by the frame count. *)
Lemma next_frames_inv (Inv : Z -> kworld -> Prop) (R : Z -> vpipe_frame_desc -> Prop)
    (lim : Z) p vaddr d :
  (forall k w, 0 <= k < lim -> Inv k w ->
     exists d' w', vpipe_source_next_frame (Some p) (Some vaddr) d w = Some ((0, d'), w') /\
       R k d' /\ Inv (k + 1) w') ->
  forall n k w, 0 <= k -> k + Z.of_nat n <= lim -> Inv k w ->
  exists rs w', next_frames n p vaddr d w = Some (rs, w') /\ length rs = n /\
    (forall i r, rs !! i = Some r -> r.1 = 0 /\ R (k + Z.of_nat i) r.2) /\
    Inv (k + Z.of_nat n) w'.
Proof.
  intros Hstep. induction n as [|n IH]; intros k w Hk Hlim Hi.
  { exists [], w. split; [done|]. split; [done|]. split; [done|]. by rewrite Z.add_0_r. }
  destruct (Hstep k w) as (d' & w1 & H1 & HR & Hi1); [lia|done|].
  destruct (IH (k + 1) w1) as (rs & w2 & H2 & Hl & Hrs & Hi2); [lia|lia|done|].
  exists ((0, d') :: rs), w2. cbn [next_frames]. unfold fbind. rewrite H1, H2.
  split; [done|]. split; [cbn; lia|]. split.
  - intros [|i] r; cbn [lookup list_lookup].
    + intros [= <-]. by rewrite Z.add_0_r.
    + intros Hr. destruct (Hrs i r Hr) as [E HR']. split; [done|].
      by replace (k + Z.of_nat (S i)) with (k + 1 + Z.of_nat i) by lia.
  - by replace (k + Z.of_nat (S n)) with (k + 1 + Z.of_nat n) by lia.
Qed.

(** A running synthetic source after [k] frames. *)
Definition synth_at (p a : positive) (hb : gmap positive kobj) (D : gset positive)
    (q : ptr) (d : vpipe_frame_desc) (N k : Z) (w : kworld) : Prop :=
  exists s, src_owned p s hb D w /\ ops s = Some synthetic_ops /\ priv s = Some a /\
    kheap w !! a = Some (OSynth (SynthPriv (k - k / N) k N)) /\
    src_plane_ok p w D (Some q) (desc_zero (d_width d) (d_height d) (d_stride d)).

Lemma synth_at_step p a hb D q d N k w :
  0 <= N -> 0 <= k < 4294967295 -> d_width d <> 0 -> d_height d <> 0 -> d_stride d <> 0 ->
  synth_at p a hb D q d N k w ->
  exists d' w',
    vpipe_source_next_frame (Some p) (Some (Some q)) d w = Some ((0, d'), w') /\
    d_flags d' = Z.b2z (ztrue N && ((k + 1) mod N =? 0)) /\
    synth_at p a hb D q d N (k + 1) w'.
Proof.
  intros HN Hk Hw Hh Hs (s & Ho & Hops & Ha & Hv & Hpl).
  pose proof (src_owned_source _ _ _ _ _ Ho) as [Hp _].
  destruct (@source_next_frame_ok K _ vpipe_source_contract L p s hb D w (Some q) d Ho Hpl)
    as (ret & d' & w' & s' & Hrun & Ho' & Hst & _ & Hpl' & _).
  assert (Hap : a <> p) by congruence.
  assert (Hdiv : 0 <= k / N <= k).
  { destruct (Z.eq_dec N 0) as [->|]; [rewrite Z.div_0_r; lia|].
    split; [apply Z.div_pos; lia|]. apply Z.div_le_upper_bound; nia. }
  assert (Hin : exists d1 w1,
    Synthetic.synthetic_next_frame p (Some q)
      (desc_zero (d_width d) (d_height d) (d_stride d)) w = Some ((0, d1), w1) /\
    d_flags d1 = Z.b2z (ztrue N && ((k + 1) mod N =? 0)) /\
    kheap w1 !! p = Some (OSource s) /\
    kheap w1 !! a = Some (OSynth (SynthPriv (k + 1 - (k + 1) / N) (k + 1) N))).
  { unfold Synthetic.synthetic_next_frame, fbind, get_source, get_synth.
    rewrite Hp, Ha. cbn [d_width d_height d_stride desc_zero].
    replace (_ || _ || _) with false by lia. rewrite Hv. unfold put_obj. rewrite Hv.
    cbn [sy_pattern_offset sy_frames_produced sy_drop_every_n].
    rewrite (u32_small (k + 1)) by lia.
    rewrite (div_succ k N) by lia.
    destruct (ztrue N && _); cbn [Z.b2z].
    - do 2 eexists. split; [reflexivity|]. split; [done|]. kcbn. hlook.
      split; [done|]. do 3 f_equal. lia.
    - destruct Hpl as (_ & _ & _ & Hfit & _). unfold on_mem. kcbn.
      destruct (fill_gradient_ok (kmem w) q (d_width d) (d_height d) (d_stride d)
                  (k - k / N) Hfit) as (m' & Hm' & _).
      rewrite Hm'. hlook. do 2 eexists. split; [reflexivity|]. split; [done|].
      kcbn. hlook. split; [done|]. do 3 f_equal. rewrite u32_small; lia. }
  destruct Hin as (d1 & w1 & H1 & Hf1 & Hp1 & Ha1).
  destruct (source_next_frame_run p s hb D w (Some q) d synthetic_ops
    Synthetic.synthetic_next_frame d1 w1 Ho Hops eq_refl H1 Hp1)
    as (d2 & w2 & H2 & Hf2 & _ & Hh2 & _).
  rewrite Hrun in H2. injection H2 as -> -> ->.
  exists d2, w2. split; [done|]. split; [congruence|].
  destruct Hst as [_ [-> _]].
  exists (with_seq (u32 (s_seq s + 1)) s). split; [exact Ho'|]. split; [done|].
  split; [done|]. split; [|exact (Hpl' _ _ _ Hpl)].
  rewrite Hh2, lookup_insert_ne by congruence. exact Ha1.
Qed.

(** A running vcam source after [k] frames, on a frame buffer that is large
    enough for the geometry. *)
Definition vcam_at (p a : positive) (hb : gmap positive kobj) (D : gset positive)
    (q : ptr) (d : vpipe_frame_desc) (N base intv k : Z) (w : kworld) : Prop :=
  exists s f fb, src_owned p s hb D w /\ ops s = Some vcam_ops /\ priv s = Some a /\
    kheap w !! a = Some (OVcam (VcamPriv (Some f) (k - (k + N - 1) / N) k N base intv)) /\
    kheap w !! f = Some (OFb fb) /\ d_stride d * d_height d <= fb_size fb /\
    src_plane_ok p w D (Some q) (desc_zero (d_width d) (d_height d) (d_stride d)).

(** The dropped frames after [k] more, and one more. *)
Lemma vcam_drops_succ k N :
  0 <= N -> 0 <= k ->
  0 <= (k + N - 1) / N <= k /\
  (k + 1 + N - 1) / N = (k + N - 1) / N + Z.b2z (ztrue N && (k mod N =? 0)).
Proof.
  intros HN Hk. destruct (Z.eq_dec N 0) as [->|Hne].
  { rewrite !Z.div_0_r. cbn. lia. }
  split.
  - split; [apply Z.div_pos; lia|].
    destruct (Z.eq_dec k 0) as [->|]; [rewrite Z.div_small; lia|].
    apply Z.div_le_upper_bound; nia.
  - replace (k + 1 + N - 1) with (k + N - 1 + 1) by lia.
    rewrite div_succ by lia. do 3 f_equal.
    replace (k + N - 1 + 1) with (k + 1 * N) by lia. by rewrite Z.mod_add.
Qed.

(** The backend call of a running vcam source. *)
Lemma vcam_call p s a f fb w q d off k N base intv :
  kheap w !! p = Some (OSource s) -> priv s = Some a ->
  kheap w !! a = Some (OVcam (VcamPriv (Some f) off k N base intv)) ->
  kheap w !! f = Some (OFb fb) ->
  d_width d <> 0 -> d_height d <> 0 -> d_stride d <> 0 ->
  0 <= d_stride d * d_height d <= fb_size fb -> d_stride d * d_height d <= INT_MAX ->
  0 <= off < 4294967295 -> 0 <= k < 4294967295 ->
  0 <= base -> 0 <= intv -> base + k * intv < 18446744073709551616 ->
  forall ret d1 w1, Vcam.vcam_next_frame p (Some q) d w = Some ((ret, d1), w1) ->
  ret = 0 /\ kheap w1 !! p = Some (OSource s) /\ kheap w1 !! f = Some (OFb fb) /\
  d_source_timestamp_ns d1 = base + k * intv /\
  d_flags d1 = (if ztrue N && (k mod N =? 0)
                then Z.lor (d_flags d) VPIPE_FRAME_FLAG_DROPPED else d_flags d) /\
  kheap w1 !! a = Some (OVcam (VcamPriv (Some f)
    (if ztrue N && (k mod N =? 0) then off else off + 1) (k + 1) N base intv)).
Proof.
  intros Hp Ha Hv Hf Hw Hh Hs Hfit Hlim Hoff Hk Hb Hi Hts ret d1 w1 H1.
  assert (Hap : a <> p) by congruence. assert (Hfa : f <> a) by congruence.
  assert (Hfp : f <> p) by congruence. unfold INT_MAX in Hlim.
  revert H1. unfold Vcam.vcam_next_frame, fbind, get_source, get_vcam.
  rewrite Hp, Ha, Hv. cbn [vc_fb vc_pattern_offset vc_frames_produced vc_drop_every_n
    vc_base_ts_ns vc_frame_interval_ns].
  replace (_ || _ || _) with false by lia. unfold get_fb. rewrite Hf.
  rewrite (u64_small (d_stride d * d_height d)) by lia.
  destruct (Z.ltb_spec (fb_size fb) (d_stride d * d_height d)); [lia|].
  rewrite (u64_small (k * intv)), (u64_small (base + k * intv)) by nia.
  rewrite (u32_small (k + 1)), (u32_small (off + 1)) by lia.
  destruct (ztrue N && _); unfold put_obj, fret.
  - rewrite Hv. intros [= <- <- <-]. kcbn. hlook. done.
  - unfold flift. destruct (fb_vaddr fb) as [b|]; [|done].
    unfold on_mem. destruct (vcam_fill_gradient _ _ _ _ _ _); [|done].
    destruct (decide _); kcbn.
    + rewrite Hv. intros [= <- <- <-]. kcbn. hlook. done.
    + destruct (memcpy _ _ _ _); [|done]. kcbn. rewrite Hv.
      intros [= <- <- <-]. kcbn. hlook. done.
Qed.

Lemma vcam_at_step p a hb D q d N base intv k w :
  0 <= N -> 0 <= k < 4294967295 -> 0 < base -> 0 <= intv ->
  base + k * intv < 18446744073709551616 ->
  d_width d <> 0 -> d_height d <> 0 -> d_stride d <> 0 ->
  vcam_at p a hb D q d N base intv k w ->
  exists d' w',
    vpipe_source_next_frame (Some p) (Some (Some q)) d w = Some ((0, d'), w') /\
    (d_flags d' = Z.b2z (ztrue N && (k mod N =? 0)) /\
     d_source_timestamp_ns d' = base + k * intv) /\
    vcam_at p a hb D q d N base intv (k + 1) w'.
Proof.
  intros HN Hk Hb Hi Hts Hw Hh Hs (s & f & fb & Ho & Hops & Ha & Hv & Hf & Hsz & Hpl).
  pose proof (src_owned_source _ _ _ _ _ Ho) as [Hp _].
  destruct (@source_next_frame_ok K _ vpipe_source_contract L p s hb D w (Some q) d Ho Hpl)
    as (ret & d' & w' & s' & Hrun & Ho' & Hst & _ & Hpl' & _).
  destruct (vcam_next_frame_ok p s hb D w (Some q) _ Ho Hops Hpl)
    as (r1 & d1 & w1 & H1 & _).
  destruct (vcam_drops_succ k N HN ltac:(lia)) as [Hdr Hdr1].
  pose proof Hpl as (Hpw & Hph & Hpl3 & _). cbn in Hpw, Hph, Hpl3.
  destruct (vcam_call p s a f fb w q (desc_zero (d_width d) (d_height d) (d_stride d))
    _ k N base intv Hp Ha Hv Hf Hw Hh Hs)
    with (ret := r1) (d1 := d1) (w1 := w1)
    as (-> & Hp1 & Hf1 & Hts1 & Hfl1 & Ha1);
    [cbn; nia|cbn; lia|lia|lia|lia|lia|lia|exact H1|].
  destruct (source_next_frame_run p s hb D w (Some q) d vcam_ops
    Vcam.vcam_next_frame d1 w1 Ho Hops eq_refl H1 Hp1)
    as (d2 & w2 & H2 & Hf2 & Ht2 & Hh2 & _).
  rewrite Hrun in H2. injection H2 as -> -> ->.
  exists d2, w2. split; [done|]. split.
  { rewrite Hf2, Hfl1, Ht2 by nia. split; [by destruct (ztrue N && _)|done]. }
  destruct Hst as [_ [-> _]].
  exists (with_seq (u32 (s_seq s + 1)) s), f, fb. split; [exact Ho'|]. split; [done|].
  split; [done|]. rewrite Hh2. split; [|split; [|split; [done|exact (Hpl' _ _ _ Hpl)]]].
  - rewrite lookup_insert_ne by congruence. rewrite Ha1, Hdr1.
    do 3 f_equal. destruct (ztrue N && _); cbn [Z.b2z]; lia.
  - by rewrite lookup_insert_ne by congruence.
Qed.
End Cadence.

(** a synthetic source started with [synthetic_drop_every = N] drops
    exactly the frames whose 1-based number is a multiple of N (none when N is
    0): over [n] calls, call [i] carries [VPIPE_FRAME_FLAG_DROPPED] iff N
    divides [i + 1], and the gradient has advanced by the [n - n / N] frames
    that were drawn. *)
Theorem synthetic_drop_cadence `{K : KernelEnv} `{L : !ClockLaws} p a s hb D w q d N n
    (Ho : src_owned p s hb D w) (Hops : ops s = Some synthetic_ops) (Ha : priv s = Some a)
    (Hv : kheap w !! a = Some (OSynth (SynthPriv 0 0 N))) (HN : 0 <= N)
    (Hpl : src_plane_ok p w D (Some q) (desc_zero (d_width d) (d_height d) (d_stride d)))
    (Hdim : d_width d <> 0 /\ d_height d <> 0 /\ d_stride d <> 0)
    (Hn : Z.of_nat n <= UINT_MAX) :
  exists rs w',
    next_frames n p (Some q) d w = Some (rs, w') /\ length rs = n /\
    (forall i r, rs !! i = Some r -> r.1 = 0 /\
       d_flags r.2 = Z.b2z (ztrue N && ((Z.of_nat i + 1) mod N =? 0))) /\
    kheap w' !! a = Some (OSynth (SynthPriv (Z.of_nat n - Z.of_nat n / N) (Z.of_nat n) N)).
Proof.
  destruct Hdim as (Hw & Hh & Hst). unfold UINT_MAX in Hn.
  destruct (next_frames_inv (synth_at p a hb D q d N)
    (fun k d' => d_flags d' = Z.b2z (ztrue N && ((k + 1) mod N =? 0))) 4294967295 p (Some q) d)
    with (n := n) (k := 0) (w := w) as (rs & w' & H1 & H2 & H3 & H4);
    [|lia|lia| |].
  - intros k w0 Hk. by apply synth_at_step.
  - exists s. replace (0 - 0 / N) with 0 by (by destruct N). done.
  - exists rs, w'. split; [done|]. split; [done|]. split; [exact H3|].
    by destruct H4 as (s' & _ & _ & _ & Hv' & _).
Qed.

(** a vcam source stamps frame [i] (0-based) with its start time plus [i]
    frame intervals, dropped or not, and with [vcam_drop_every = N] drops
    exactly the frames whose 0-based number is a multiple of N, so the first
    frame of a stream is the first one dropped. *)
Theorem vcam_cadence `{K : KernelEnv} `{L : !ClockLaws} p a f fb s hb D w q d N base intv n
    (Ho : src_owned p s hb D w) (Hops : ops s = Some vcam_ops) (Ha : priv s = Some a)
    (Hv : kheap w !! a = Some (OVcam (VcamPriv (Some f) 0 0 N base intv)))
    (Hf : kheap w !! f = Some (OFb fb)) (Hsz : d_stride d * d_height d <= fb_size fb)
    (HN : 0 <= N) (Hbase : 0 < base) (Hintv : 0 <= intv)
    (Hpl : src_plane_ok p w D (Some q) (desc_zero (d_width d) (d_height d) (d_stride d)))
    (Hdim : d_width d <> 0 /\ d_height d <> 0 /\ d_stride d <> 0)
    (Hn : Z.of_nat n <= UINT_MAX)
    (Hts : base + Z.of_nat n * intv < 18446744073709551616) :
  exists rs w',
    next_frames n p (Some q) d w = Some (rs, w') /\ length rs = n /\
    (forall i r, rs !! i = Some r -> r.1 = 0 /\
       d_flags r.2 = Z.b2z (ztrue N && (Z.of_nat i mod N =? 0)) /\
       d_source_timestamp_ns r.2 = base + Z.of_nat i * intv).
Proof.
  destruct Hdim as (Hw & Hh & Hst). unfold UINT_MAX in Hn.
  destruct (next_frames_inv (vcam_at p a hb D q d N base intv)
    (fun k d' => d_flags d' = Z.b2z (ztrue N && (k mod N =? 0)) /\
                 d_source_timestamp_ns d' = base + k * intv) (Z.of_nat n) p (Some q) d)
    with (n := n) (k := 0) (w := w) as (rs & w' & H1 & H2 & H3 & _);
    [|lia|lia| |].
  - intros k w0 Hk. apply vcam_at_step; try done; [lia|nia].
  - exists s, f, fb. replace (0 - (0 + N - 1) / N) with 0; [done|].
    destruct (Z.eq_dec N 0) as [->|]; [by rewrite Z.div_0_r|rewrite Z.div_small; lia].
  - exists rs, w'. done.
Qed.

(** Running sources for the witnesses: block 1 is the caller's 2x2 plane. *)
Definition synth_world (N : Z) : kworld :=
  KWorld {[1%positive := [0; 0; 0; 0]]}
    (<[3%positive := OSynth (SynthPriv 0 0 N)]>
      {[2%positive := OSource (Source 2 (Some synthetic_ops) (Some 3%positive) 0 "synthetic")]})
    4 0 0 [] [] N 30 0.

Lemma synth_world_owned N :
  src_owned 2 (Source 2 (Some synthetic_ops) (Some 3%positive) 0 "synthetic") ∅
    {[1%positive]} (synth_world N).
Proof.
  eapply (own_synth _ _ _ _ _ 3 (SynthPriv 0 0 N)); try done.
  - split; intros k [x Hk]; cbn in Hk.
    + apply lookup_insert_Some in Hk as [[<- _]|[_ Hk]]; [cbn; lia|].
      apply lookup_singleton_Some in Hk as [<- _]. cbn. lia.
    + apply lookup_singleton_Some in Hk as [<- _]. cbn. lia.
Defined.

Lemma synthetic_drop_cadence_witness :
  exists rs w', @next_frames env_ok 5 2 (Some (Ptr 1 0)) (desc_zero 2 2 2) (synth_world 2)
      = Some (rs, w') /\
    (d_flags ∘ snd <$> rs) = [0; 1; 0; 1; 0] /\
    kheap w' !! 3%positive = Some (OSynth (SynthPriv 3 5 2)).
Proof.
  destruct (@synthetic_drop_cadence env_ok env_ok_laws 2 3 _ _ _ (synth_world 2) (Ptr 1 0)
    (desc_zero 2 2 2) 2 5 (synth_world_owned 2) eq_refl eq_refl eq_refl ltac:(lia))
    as (rs & w' & H1 & _ & _ & H4).
  - split; [cbn; lia|]. split; [cbn; lia|]. split; [cbn; unfold INT_MAX; lia|].
    split; [vm_compute; intuition congruence|left; set_solver].
  - cbn. lia.
  - unfold UINT_MAX. lia.
  - exists rs, w'. split; [exact H1|]. split; [|exact H4].
    vm_compute in H1. injection H1 as <- _. reflexivity.
Defined.

Definition vcam_world (N : Z) : kworld :=
  KWorld (<[5%positive := replicate 16 0]> {[1%positive := [0; 0; 0; 0]]})
    (<[4%positive := OFb (VcamFb 1 (Some 5%positive) 16)]>
      (<[3%positive := OVcam (VcamPriv (Some 4%positive) 0 0 N 1000 500)]>
        {[2%positive := OSource (Source 3 (Some vcam_ops) (Some 3%positive) 0 "vcam")]}))
    6 0 0 [] [] 0 30 N.

Lemma vcam_world_owned N :
  src_owned 2 (Source 3 (Some vcam_ops) (Some 3%positive) 0 "vcam") ∅
    {[1%positive]} (vcam_world N).
Proof.
  eapply (own_vcam _ _ _ _ _ 3 (VcamPriv (Some 4%positive) 0 0 N 1000 500) 4 5 16); try done.
  - split; intros k [x Hk]; cbn in Hk.
    + apply lookup_insert_Some in Hk as [[<- _]|[_ Hk]]; [cbn; lia|].
      apply lookup_insert_Some in Hk as [[<- _]|[_ Hk]]; [cbn; lia|].
      apply lookup_singleton_Some in Hk as [<- _]. cbn. lia.
    + apply lookup_insert_Some in Hk as [[<- _]|[_ Hk]]; [cbn; lia|].
      apply lookup_singleton_Some in Hk as [<- _]. cbn. lia.
Defined.

Lemma vcam_cadence_witness :
  exists rs w', @next_frames env_ok 4 2 (Some (Ptr 1 0)) (desc_zero 2 2 2) (vcam_world 3)
      = Some (rs, w') /\
    (d_flags ∘ snd <$> rs) = [1; 0; 0; 1] /\
    (d_source_timestamp_ns ∘ snd <$> rs) = [1000; 1500; 2000; 2500].
Proof.
  destruct (@vcam_cadence env_ok env_ok_laws 2 3 4 (VcamFb 1 (Some 5%positive) 16) _ _ _
    (vcam_world 3) (Ptr 1 0) (desc_zero 2 2 2) 3 1000 500 4 (vcam_world_owned 3)
    eq_refl eq_refl eq_refl eq_refl ltac:(cbn; lia) ltac:(lia) ltac:(lia) ltac:(lia))
    as (rs & w' & H1 & _ & _).
  - split; [cbn; lia|]. split; [cbn; lia|]. split; [cbn; unfold INT_MAX; lia|].
    split; [vm_compute; intuition congruence|left; set_solver].
  - cbn. lia.
  - unfold UINT_MAX. lia.
  - lia.
  - exists rs, w'. split; [exact H1|].
    vm_compute in H1. injection H1 as <- _. split; reflexivity.
Defined.

(** ** The exported frame buffer *)

(** A running vcam source [s] at [p] whose frame buffer [f] has [r] holders. *)
Record vcam_running (p a f b : positive) (n r : Z) (w : kworld) : Prop := {
  vr_source : exists s, kheap w !! p = Some (OSource s) /\ priv s = Some a;
  vr_priv : exists v, kheap w !! a = Some (OVcam v) /\ vc_fb v = Some f;
  vr_fb : kheap w !! f = Some (OFb (VcamFb r (Some b) n));
  vr_bytes : is_Some (kmem w !! b)
}.

(** Dropping one of [r] references. *)
Lemma kref_put_ok `{KernelEnv} f b n r w :
  kheap w !! f = Some (OFb (VcamFb r (Some b) n)) -> is_Some (kmem w !! b) ->
  exists w', Vcam.kref_put f w = Some (tt, w') /\
    if r =? 1
    then kheap w' = delete f (kheap w) /\ kmem w' = delete b (kmem w)
    else kheap w' = <[f := OFb (VcamFb (r - 1) (Some b) n)]> (kheap w) /\ kmem w' = kmem w.
Proof.
  intros Hf [l Hb]. unfold Vcam.kref_put, Vcam.vcam_fb_release, fbind, get_fb, put_obj.
  rewrite !Hf. cbn [fb_refcount fb_vaddr fb_size].
  replace (r - 1 =? 0) with (r =? 1) by (zbool; lia).
  destruct (r =? 1); [|eexists; split; [reflexivity|done]].
  unfold vfree, kfree. kcbn. hlook. rewrite Hb. kcbn. hlook. eexists. split; [reflexivity|].
  kcbn. split; [|done]. by rewrite delete_insert_eq.
Qed.

Lemma kref_get_ok `{KernelEnv} f b n r w :
  kheap w !! f = Some (OFb (VcamFb r (Some b) n)) ->
  Vcam.kref_get f w =
    Some (tt, set_kheap (<[f := OFb (VcamFb (r + 1) (Some b) n)]> (kheap w)) w).
Proof. intros Hf. unfold Vcam.kref_get, fbind, get_fb, put_obj. by rewrite !Hf. Qed.

(** [vcam_export_dmabuf] on a running source either returns a descriptor,
    with one new dma-buf object and one more reference on the frame buffer, or
    returns the error of the failing stage and leaves the heap exactly as it
    was. *)
Theorem export_dmabuf_refcount `{KernelEnv} p a f b n r w
    (Hrun : vcam_running p a f b n r w) (Hr : 1 <= r) (Hfresh : fresh_above w) :
  exists ret w', Vcam.vcam_export_dmabuf p w = Some (ret, w') /\ kmem w' = kmem w /\
    if 0 <=? ret
    then kheap w' = <[knext w := ODmabuf f]>
                      (<[f := OFb (VcamFb (r + 1) (Some b) n)]> (kheap w))
    else kheap w' = kheap w.
Proof.
  destruct Hrun as [(s & Hp & Ha) (v & Hv & Hvf) Hf Hb].
  pose proof (fresh_heap_None _ _ _ Hfresh) as Hx.
  assert (Hxf : knext w <> f) by congruence.
  assert (Hback : <[f:=OFb (VcamFb (r + 1 - 1) (Some b) n)]>
    (<[f:=OFb (VcamFb (r + 1) (Some b) n)]> (kheap w)) = kheap w).
  { rewrite insert_insert_eq, insert_id; [done|]. rewrite Hf. do 3 f_equal. lia. }
  unfold Vcam.vcam_export_dmabuf. unfold fbind at 1, get_source. rewrite Hp, Ha.
  unfold fbind at 1, get_vcam. rewrite Hv, Hvf. unfold fbind at 1.
  rewrite (kref_get_ok f b n r w Hf). unfold fbind at 1, Vcam.dma_buf_export. kcbn.
  destruct (Z.ltb_spec (dma_export (kallocs w)) 0) as [He|He].
  - unfold fbind.
    destruct (kref_put_ok f b n (r + 1) (tick_alloc false
      (set_kheap (<[f:=OFb (VcamFb (r + 1) (Some b) n)]> (kheap w)) w)))
      as (w' & Hw' & Hpost); [kcbn; by hlook|done|].
    rewrite Hw'. replace (r + 1 =? 1) with false in Hpost by (zbool; lia).
    exists (dma_export (kallocs w)), w'. split; [done|]. destruct Hpost as [Hh Hm].
    split; [done|]. replace (0 <=? dma_export (kallocs w)) with false by (zbool; lia).
    rewrite Hh. exact Hback.
  - unfold fbind at 1, Vcam.dma_buf_fd. kcbn.
    destruct (Z.ltb_spec (dma_fd (S (kallocs w))) 0) as [Hd|Hd].
    + unfold fbind at 1, Vcam.dma_buf_free, Vcam.vcam_dmabuf_release, fbind at 1. kcbn.
      rewrite lookup_insert_eq.
      destruct (kref_put_ok f b n (r + 1) (tick_alloc false (tick_alloc true
        (set_kheap (<[knext w:=ODmabuf f]>
          (<[f:=OFb (VcamFb (r + 1) (Some b) n)]> (kheap w)))
          (set_kheap (<[f:=OFb (VcamFb (r + 1) (Some b) n)]> (kheap w)) w)))))
        as (w' & Hw' & Hpost); [kcbn; by hlook|done|].
      rewrite Hw'. replace (r + 1 =? 1) with false in Hpost by (zbool; lia).
      destruct Hpost as [Hh Hm]. unfold kfree. rewrite Hh. hlook.
      eexists _, _. split; [reflexivity|]. kcbn. split; [done|].
      replace (0 <=? dma_fd (S (kallocs w))) with false by (zbool; lia).
      rewrite ?Hh. kcbn. rewrite insert_insert_ne by congruence.
      rewrite delete_insert_id; [exact Hback|]. hlook. exact Hx.
    + eexists _, _. split; [reflexivity|]. kcbn. split; [done|].
      by replace (0 <=? dma_fd (S (kallocs w))) with true by (zbool; lia).
Qed.

Lemma vcam_world_running N : vcam_running 2 3 4 5 16 1 (vcam_world N).
Proof.
  split; [eexists; split; reflexivity|eexists; split; reflexivity|reflexivity|].
  exists (replicate 16 0). reflexivity.
Defined.

Lemma export_dmabuf_refcount_witness :
  exists ret w', @Vcam.vcam_export_dmabuf env_ok 2 (vcam_world 0) = Some (ret, w') /\
    ret = 4 /\ kheap w' !! 4%positive = Some (OFb (VcamFb 2 (Some 5%positive) 16)).
Proof.
  destruct (@export_dmabuf_refcount env_ok 2 3 4 5 16 1 (vcam_world 0)
    (vcam_world_running 0) ltac:(lia) (src_owned_fresh _ _ _ _ _ (vcam_world_owned 0)))
    as (ret & w' & H1 & _ & _).
  exists ret, w'. split; [exact H1|].
  vm_compute in H1. injection H1 as <- <-. split; reflexivity.
Defined.

(** stopping a vcam source whose frame buffer is still exported leaves
    the buffer and its bytes in place for the importers, and the release of
    the last dma-buf frees both: the bytes are mapped exactly as long as
    somebody holds a reference. *)
Theorem exported_buffer_survives_stop `{KernelEnv} p a f b n w
    (Hrun : vcam_running p a f b n 2 w) (dbuf : positive)
    (Hd : kheap w !! dbuf = Some (ODmabuf f)) (Hne : a <> p) :
  exists w1 w2,
    Vcam.vcam_stop p w = Some (tt, w1) /\
    kheap w1 !! f = Some (OFb (VcamFb 1 (Some b) n)) /\ kmem w1 = kmem w /\
    kheap w1 !! a = None /\
    Vcam.dma_buf_free dbuf w1 = Some (tt, w2) /\
    kheap w2 !! f = None /\ kheap w2 !! dbuf = None /\ kmem w2 = delete b (kmem w).
Proof.
  destruct Hrun as [(s & Hp & Ha) (v & Hv & Hvf) Hf Hb].
  assert (Hfa : f <> a) by congruence. assert (Hfp : f <> p) by congruence.
  assert (Hdf : dbuf <> f) by congruence. assert (Hda : dbuf <> a) by congruence.
  assert (Hdp : dbuf <> p) by congruence.
  destruct (kref_put_ok f b n 2 w Hf Hb) as (w0 & Hw0 & Hh0 & Hm0).
  assert (exists w1, Vcam.vcam_stop p w = Some (tt, w1) /\ kmem w1 = kmem w /\
    kheap w1 = <[p := OSource (with_priv None s)]>
      (delete a (<[f := OFb (VcamFb 1 (Some b) n)]> (kheap w)))) as (w1 & Hw1 & Hm1 & Hh1).
  { unfold Vcam.vcam_stop. unfold fbind at 1, get_source. rewrite Hp, Ha.
    unfold fbind at 1, get_vcam. rewrite Hv, Hvf. unfold fbind at 1. rewrite Hw0.
    unfold fbind, kfree, put_obj. rewrite Hh0. hlook. rewrite Hv. kcbn. hlook. rewrite Hp.
    hlook. rewrite ?Hp. eexists. split; [reflexivity|]. by split. }
  assert (Hf1 : kheap w1 !! f = Some (OFb (VcamFb 1 (Some b) n))) by (rewrite Hh1; by hlook).
  destruct (kref_put_ok f b n 1 w1 Hf1) as (w2 & Hw2 & Hh2 & Hm2); [by rewrite Hm1|].
  exists w1, (set_kheap (delete dbuf (kheap w2)) w2).
  split; [done|]. split; [done|]. split; [done|].
  split; [rewrite Hh1; by hlook|].
  assert (Hd1 : kheap w1 !! dbuf = Some (ODmabuf f)) by (rewrite Hh1; by hlook).
  unfold Vcam.dma_buf_free, Vcam.vcam_dmabuf_release, fbind. rewrite Hd1, Hw2.
  unfold kfree. rewrite Hh2. hlook. rewrite Hd1. rewrite Hm2, Hm1. by hlook.
Qed.

Definition vcam_exported : kworld :=
  set_kheap (<[9%positive := ODmabuf 4]>
    (<[4%positive := OFb (VcamFb 2 (Some 5%positive) 16)]> (kheap (vcam_world 0)))) (vcam_world 0).

Lemma exported_buffer_survives_stop_witness :
  exists w1 w2,
    @Vcam.vcam_stop 2 vcam_exported = Some (tt, w1) /\ is_Some (kmem w1 !! 5%positive) /\
    @Vcam.dma_buf_free 9 w1 = Some (tt, w2) /\ kmem w2 !! 5%positive = None.
Proof.
  destruct (@exported_buffer_survives_stop env_ok 2 3 4 5 16 vcam_exported) with (dbuf := 9%positive)
    as (w1 & w2 & H1 & _ & H3 & _ & H5 & _ & _ & H8).
  - split; [eexists; split; reflexivity|eexists; split; reflexivity|reflexivity|].
    exists (replicate 16 0). reflexivity.
  - reflexivity.
  - discriminate.
  - exists w1, w2. split; [exact H1|]. split; [rewrite H3; exists (replicate 16 0); reflexivity|].
    split; [exact H5|]. rewrite H8. reflexivity.
Defined.
