(* ===== verification/Dmabuf.v ===== *)
(** * The exported frame buffer: [kmod/vpipe-vcam.c], lines 98-193

    The callbacks an importer of the vcam frame buffer reaches through the
    dma-buf framework: mapping its pages for a device and unmapping them,
    mapping it into user space and into the kernel. The theorem: a mapping
    covers exactly the pages of the buffer, and no path leaves a
    scatter-gather table behind. *)

From S2P Require Import Prelude Types Kernel Source Backends.
Import Vcam.

(** ** Scatter-gather tables *)

(** A page of a [vmalloc] block. *)
Definition page : Type := positive * Z.

(** [struct sg_table]: its entries once allocated, and whether the device
    mapping is set up. *)
Record sg_table := Sgt { sgl : option (list (option page)); dma_mapped : bool }.

(** Outcomes of the [n]-th call: 0 or a negative code. *)
Class DmaEnv := {
  sg_alloc_result : nat -> Z;
  dma_map_result : nat -> Z;
  remap_result : nat -> Z
}.

(** The driver's world with the tables handed to importers. *)
Record dmaw := DmaW { dk : kworld; sgts : gmap positive sg_table; dcalls : nat }.

Section Code.
Context `{KernelEnv} `{DmaEnv}.

Definition on_kernel {A} (c : F kworld A) : F dmaw A :=
  fun d => match c (dk d) with
           | Some (a, w) => Some (a, DmaW w (sgts d) (dcalls d))
           | None => None
           end.

Definition get_dmabuf (p : positive) : F kworld positive :=
  fun w => match kheap w !! p with Some (ODmabuf f) => Some (f, w) | _ => None end.

(** [kzalloc(sizeof(struct sg_table))] and [kfree] of it. *)
Definition sgt_zalloc : F dmaw (option positive) :=
  fun d =>
    let w := dk d in
    if kalloc (kallocs w)
    then Some (Some (knext w),
               DmaW (tick_alloc true w) (<[knext w := Sgt None false]> (sgts d)) (dcalls d))
    else Some (None, DmaW (tick_alloc false w) (sgts d) (dcalls d)).
Definition sgt_kfree (t : positive) : F dmaw unit :=
  fun d => match sgts d !! t with
           | Some _ => Some (tt, DmaW (dk d) (delete t (sgts d)) (dcalls d))
           | None => None
           end.

Definition set_sgt (t : positive) (s : sg_table) : F dmaw unit :=
  fun d => match sgts d !! t with
           | Some _ => Some (tt, DmaW (dk d) (<[t := s]> (sgts d)) (dcalls d))
           | None => None
           end.
Definition get_sgt (t : positive) : F dmaw sg_table :=
  fun d => match sgts d !! t with Some s => Some (s, d) | None => None end.
Definition call (r : nat -> Z) : F dmaw Z :=
  fun d => Some (r (dcalls d), DmaW (dk d) (sgts d) (S (dcalls d))).

Definition sg_alloc_table (t : positive) (n : Z) : F dmaw Z :=
  (r <- call sg_alloc_result;;
  if ztrue r then fret r
  else (set_sgt t (Sgt (Some (replicate (Z.to_nat n) None)) false);; fret 0)).

Definition sg_free_table (t : positive) : F dmaw unit :=
  (s <- get_sgt t;; set_sgt t (Sgt None (dma_mapped s))).

(** [sg_set_page] on entry [i]; past the table it faults. *)
Definition sg_set_page (t : positive) (i : Z) (pg : page) : F dmaw unit :=
  (s <- get_sgt t;;
  match sgl s with
  | Some l =>
      if (Z.to_nat i <? length l)%nat
      then set_sgt t (Sgt (Some (<[Z.to_nat i := Some pg]> l)) (dma_mapped s))
      else ffail
  | None => ffail
  end).

Definition dma_map_sgtable (t : positive) : F dmaw Z :=
  (r <- call dma_map_result;;
  if ztrue r then fret r
  else (s <- get_sgt t;; set_sgt t (Sgt (sgl s) true);; fret 0)).

(** Unmapping what is not mapped is a bug of the caller. *)
Definition dma_unmap_sgtable (t : positive) : F dmaw unit :=
  (s <- get_sgt t;;
  if dma_mapped s then set_sgt t (Sgt (sgl s) false) else ffail).

(** [vmalloc_to_page]: the page that holds a byte of a live block. *)
Definition vmalloc_to_page (blk : option positive) (off : Z) : F dmaw (option page) :=
  fun d => match blk with
           | Some b => if (0 <=? off) && (off <? blen (kmem (dk d)) b)
                       then Some (Some (b, Z.shiftr off PAGE_SHIFT), d) else Some (None, d)
           | None => Some (None, d)
           end.

(** ** The callbacks *)

(** The loop over the pages, [n] of them left, from page [i]; [false] after
    its error exit. *)
Fixpoint map_pages (n : nat) (i : Z) (fb : vcam_fb) (t : positive) : F dmaw bool :=
  match n with
  | O => fret true
  | S n' =>
      (pg <- vmalloc_to_page (fb_vaddr fb) (u64 (Z.shiftl i PAGE_SHIFT));;
      match pg with
      | None => (sg_free_table t;; sgt_kfree t;; fret false)
      | Some pg => (sg_set_page t i pg;; map_pages n' (i + 1) fb t)
      end)
  end.

Definition vcam_dmabuf_map (dmabuf : positive) : F dmaw ptr_or_err :=
  (f <- on_kernel (get_dmabuf dmabuf);;
  fb <- on_kernel (get_fb f);;
  let npages := u32 (Z.shiftr (fb_size fb) PAGE_SHIFT) in
  o <- sgt_zalloc;;
  match o with
  | None => fret (ErrPtr (- ENOMEM))
  | Some sgt =>
      (ret <- sg_alloc_table sgt npages;;
      if ztrue ret then (sgt_kfree sgt;; fret (ErrPtr ret))
      else
        (ok <- map_pages (Z.to_nat npages) 0 fb sgt;;
        if negb ok then fret (ErrPtr (- EFAULT))
        else
          (ret <- dma_map_sgtable sgt;;
          if ztrue ret then (sg_free_table sgt;; sgt_kfree sgt;; fret (ErrPtr ret))
          else fret (GoodPtr sgt))))
  end).

Definition vcam_dmabuf_unmap (sgt : positive) : F dmaw unit :=
  (dma_unmap_sgtable sgt;; sg_free_table sgt;; sgt_kfree sgt).

Definition vcam_dmabuf_begin_cpu (dmabuf : positive) : F dmaw Z := fret 0.
Definition vcam_dmabuf_end_cpu (dmabuf : positive) : F dmaw Z := fret 0.

(** The bounds of a user mapping, [vma->vm_start] and [vma->vm_end]. *)
Definition vcam_dmabuf_mmap (dmabuf : positive) (vm_start vm_end : Z) : F dmaw Z :=
  (f <- on_kernel (get_dmabuf dmabuf);;
  fb <- on_kernel (get_fb f);;
  if fb_size fb <? u64 (vm_end - vm_start) then fret (- EINVAL)
  else call remap_result).

(** The address put into the caller's map. *)
Definition vcam_dmabuf_vmap (dmabuf : positive) : F dmaw (Z * option positive) :=
  (f <- on_kernel (get_dmabuf dmabuf);;
  fb <- on_kernel (get_fb f);;
  fret (0, fb_vaddr fb)).
Definition vcam_dmabuf_vunmap (map : option positive) : option positive := None.
End Code.

(** ** Mapping all pages *)

(** The first [n] pages of a block, as table entries. *)
Definition pages (blk : positive) (n : nat) : list (option page) :=
  (fun j => Some (blk, Z.of_nat j)) <$> List.seq 0 n.

Lemma pages_S blk n : pages blk (S n) = pages blk n ++ [Some (blk, Z.of_nat n)].
Proof. unfold pages. by rewrite seq_S, fmap_app. Qed.

Lemma length_pages blk n : length (pages blk n) = n.
Proof. unfold pages. by rewrite length_fmap, length_seq. Qed.

Section Proofs.
Context `{KernelEnv} `{DmaEnv}.

(** Runs table operations on a table the context knows. *)
Ltac sgt_run := unfold fbind, get_sgt, set_sgt, sgt_kfree, fret; cbn [sgts dk dcalls];
  rewrite ?lookup_insert_eq; cbn [sgl dma_mapped sgts dk dcalls]; rewrite ?insert_insert_eq.

Lemma map_pages_ok n i fb t blk w ts k :
  fb_vaddr fb = Some blk -> blen (kmem w) blk = Z.of_nat (i + n) * PAGE_SIZE ->
  Z.of_nat (i + n) * PAGE_SIZE <= ULONG_MAX ->
  map_pages n (Z.of_nat i) fb t
    (DmaW w (<[t := Sgt (Some (pages blk i ++ replicate n None)) false]> ts) k)
  = Some (true, DmaW w (<[t := Sgt (Some (pages blk (i + n))) false]> ts) k).
Proof.
  intros Hv. revert i. induction n as [|n IH]; intros i Hb Hmax.
  - cbn. by rewrite app_nil_r, Nat.add_0_r.
  - cbn [map_pages replicate]. unfold PAGE_SIZE, PAGE_SHIFT, ULONG_MAX in *.
    change (Z.shiftl 1 12) with 4096 in *. rewrite Z.shiftl_mul_pow2 by lia. change (2 ^ 12) with 4096.
    rewrite u64_small by lia. unfold fbind at 1, vmalloc_to_page. rewrite Hv. cbn [dk].
    replace (_ && _) with true by lia. unfold PAGE_SHIFT. rewrite Z.shiftr_div_pow2 by lia.
    change (2 ^ 12) with 4096. rewrite Z.div_mul by lia.
    unfold fbind at 1, sg_set_page. sgt_run.
    rewrite length_app, length_pages. cbn [length]. rewrite length_replicate, Nat2Z.id.
    destruct (Nat.ltb_spec i (i + S n)); [|lia]. sgt_run.
    replace (<[i := Some (blk, Z.of_nat i)]> (pages blk i ++ None :: replicate n None))
      with (pages blk (S i) ++ replicate n None).
    + replace (Z.of_nat i + 1) with (Z.of_nat (S i)) by lia. rewrite IH; [|by rewrite Nat.add_succ_comm..].
      by rewrite Nat.add_succ_comm.
    + rewrite pages_S, <- app_assoc. replace i with (length (pages blk i) + 0)%nat at 3
        by (rewrite length_pages; lia). by rewrite insert_app_r.
Qed.

(** A live frame buffer behind a dma-buf: whole pages of a live block. *)
Record exported (w : kworld) (dmabuf f : positive) (fb : vcam_fb) (blk : positive) (n : nat) : Prop := {
  ex_dmabuf : kheap w !! dmabuf = Some (ODmabuf f);
  ex_fb : kheap w !! f = Some (OFb fb);
  ex_vaddr : fb_vaddr fb = Some blk;
  ex_size : fb_size fb = Z.of_nat n * PAGE_SIZE;
  ex_blen : blen (kmem w) blk = fb_size fb;
  ex_pages : Z.of_nat n < 4294967296
}.

Lemma npages_exact n : Z.of_nat n < 4294967296 ->
  u32 (Z.shiftr (Z.of_nat n * PAGE_SIZE) PAGE_SHIFT) = Z.of_nat n.
Proof.
  intros Hn. unfold PAGE_SIZE, PAGE_SHIFT. rewrite Z.shiftr_div_pow2 by lia.
  change (Z.shiftl 1 12) with 4096. change (2 ^ 12) with 4096. rewrite Z.div_mul by lia.
  apply u32_small. lia.
Qed.

(** What each table operation does to the table at hand. *)
Lemma sgt_kfree_run t s w ts k :
  ts !! t = None -> sgt_kfree t (DmaW w (<[t := s]> ts) k) = Some (tt, DmaW w ts k).
Proof. intros Ht. sgt_run. by rewrite delete_insert_id. Qed.

Lemma sg_free_table_run t s w ts k :
  sg_free_table t (DmaW w (<[t := s]> ts) k)
  = Some (tt, DmaW w (<[t := Sgt None (dma_mapped s)]> ts) k).
Proof. unfold sg_free_table. by repeat sgt_run. Qed.

Lemma sg_alloc_table_run t n s w ts k :
  sg_alloc_table t n (DmaW w (<[t := s]> ts) k) =
    Some (if ztrue (sg_alloc_result k)
          then (sg_alloc_result k, DmaW w (<[t := s]> ts) (S k))
          else (0, DmaW w (<[t := Sgt (Some (replicate (Z.to_nat n) None)) false]> ts) (S k))).
Proof. unfold sg_alloc_table, call. sgt_run. destruct (ztrue _); [done|]. by repeat sgt_run. Qed.

Lemma dma_map_run t s w ts k :
  dma_map_sgtable t (DmaW w (<[t := s]> ts) k) =
    Some (if ztrue (dma_map_result k)
          then (dma_map_result k, DmaW w (<[t := s]> ts) (S k))
          else (0, DmaW w (<[t := Sgt (sgl s) true]> ts) (S k))).
Proof. unfold dma_map_sgtable, call. sgt_run. destruct (ztrue _); [done|]. by repeat sgt_run. Qed.

Lemma unmap_run t l w ts k :
  ts !! t = None ->
  vcam_dmabuf_unmap t (DmaW w (<[t := Sgt l true]> ts) k) = Some (tt, DmaW w ts k).
Proof.
  intros Ht. unfold vcam_dmabuf_unmap, dma_unmap_sgtable, fbind at 1. repeat sgt_run.
  rewrite sg_free_table_run. repeat sgt_run. by rewrite delete_insert_id.
Qed.
End Proofs.

(** ** The theorem *)

(** mapping an exported frame buffer for a device either fails with the
    code of the failing step and leaves every scatter-gather table as it was, or
    hands out one new, mapped table whose entries are exactly the pages of the
    buffer in order, which unmapping takes back; heap, memory and the buffer's
    reference count are untouched throughout. *)
Theorem dmabuf_map_balanced `{KernelEnv} `{DmaEnv} dmabuf f fb blk n w ts k
    (Hx : exported w dmabuf f fb blk n) (Hfresh : ts !! knext w = None) :
  exists r d', vcam_dmabuf_map dmabuf (DmaW w ts k) = Some (r, d') /\
    kheap (dk d') = kheap w /\ kmem (dk d') = kmem w /\
    match r with
    | ErrPtr e => e <> 0 /\ sgts d' = ts
    | GoodPtr t =>
        t = knext w /\ sgts d' = <[t := Sgt (Some (pages blk n)) true]> ts /\
        exists d'', vcam_dmabuf_unmap t d' = Some (tt, d'') /\ sgts d'' = ts /\ dk d'' = dk d'
    end.
Proof.
  destruct Hx as [Hd Hf Hv Hs Hb Hn]. unfold vcam_dmabuf_map, fbind, on_kernel, get_dmabuf, get_fb.
  cbn [dk sgts dcalls]. rewrite Hd. cbn [dk sgts dcalls]. rewrite Hf. cbn [dk sgts dcalls].
  rewrite Hs, npages_exact by done. unfold sgt_zalloc. cbn [dk sgts dcalls].
  destruct (kalloc (kallocs w)); [|by eexists _, _].
  rewrite sg_alloc_table_run. destruct (ztrue (sg_alloc_result k)) eqn:E1.
  { rewrite E1, sgt_kfree_run by done. eexists _, _. split; [done|]. cbn. repeat split.
    unfold ztrue in E1. lia. }
  cbn [ztrue Z.eqb negb]. rewrite Nat2Z.id.
  rewrite (map_pages_ok n 0 fb (knext w) blk);
    [|done|cbn [tick_alloc kmem]; by rewrite Hb, Hs
     |unfold ULONG_MAX; change PAGE_SIZE with 4096; lia].
  cbn [negb]. rewrite dma_map_run. destruct (ztrue (dma_map_result (S k))) eqn:E2.
  { rewrite E2, sg_free_table_run, sgt_kfree_run by done. eexists _, _. split; [done|]. cbn. repeat split.
    unfold ztrue in E2. lia. }
  cbn [ztrue Z.eqb negb sgl]. eexists _, _. split; [reflexivity|]. cbn [dk sgts].
  do 4 (split; [done|]). eexists. split; [by apply unmap_run|]. done.
Qed.

(** A two-page buffer, exported once, on a machine whose second device mapping
    fails. *)
Definition dma_env : DmaEnv :=
  Build_DmaEnv (fun _ => 0) (fun n => if (n <? 2)%nat then 0 else - ENOMEM) (fun _ => 0).
Definition dma_world : kworld :=
  KWorld {[3%positive := replicate (Z.to_nat 8192) 0]}
    (<[4%positive := OFb (VcamFb 2 (Some 3%positive) 8192)]> {[5%positive := ODmabuf 4]})
    6 0 0 [] [] 0 30 0.

Lemma dma_world_exported :
  exported dma_world 5 4 (VcamFb 2 (Some 3%positive) 8192) 3 2.
Proof. split; vm_compute; reflexivity. Defined.

Lemma dmabuf_map_balanced_witness :
  exists d' d'',
    @vcam_dmabuf_map env_ok dma_env 5 (DmaW dma_world ∅ 0) = Some (GoodPtr 6, d') /\
    sgts d' = {[6%positive := Sgt (Some [Some (3%positive, 0); Some (3%positive, 1)]) true]} /\
    vcam_dmabuf_unmap 6 d' = Some (tt, d'') /\ sgts d'' = ∅.
Proof.
  destruct (@dmabuf_map_balanced env_ok dma_env 5 4 _ 3 2 dma_world ∅ 0 dma_world_exported (lookup_empty _))
    as (r & d' & H1 & _ & _ & H2).
  assert (E : r = GoodPtr 6).
  { apply (f_equal (fmap fst)) in H1.
    assert (E : Some r = Some (GoodPtr 6))
      by (etransitivity; [symmetry; exact H1|vm_compute; reflexivity]).
    by injection E. }
  subst r. destruct H2 as (_ & H3 & d'' & H4 & H5 & _). by exists d', d''.
Defined.
