(* ===== verification/M2m.v ===== *)
(** * The mem2mem driver: [kmod/vpipe-m2m.c]

    The format and control ioctls, the videobuf2 queue operations, the job
    routine [vpipe_device_run] and the private ioctls of the video node. The
    v4l2-mem2mem and videobuf2 frameworks are an interface
    ([M2mFramework]) with laws ([M2mLaws]) stated over what the driver can
    observe of them; [fifo_framework] is one implementation. *)

From S2P Require Import Prelude Types Cv Meta Kernel Source.

(** ** The framework *)

(** [V4L2_BUF_TYPE_VIDEO_OUTPUT] and [V4L2_BUF_TYPE_VIDEO_CAPTURE]. *)
Inductive buf_type := OUTPUT | CAPTURE.

#[export] Instance buf_type_eq_dec : EqDecision buf_type.
Proof. solve_decision. Defined.

(** [enum vb2_buffer_state], as far as the driver meets it. *)
Inductive vb2_state := DEQUEUED | PREPARED | ACTIVE | DONE | ERROR.

#[export] Instance vb2_state_eq_dec : EqDecision vb2_state.
Proof. solve_decision. Defined.

(** A buffer handle is the address of its [struct vpipe_buffer]. *)
Class M2mFramework := {
  m2m_ctx : Type;
  m2m_next_buf : buf_type -> m2m_ctx -> option positive;
  m2m_buf_remove : buf_type -> m2m_ctx -> option positive * m2m_ctx;
  m2m_buf_queue : buf_type -> positive -> m2m_ctx -> m2m_ctx;
  m2m_buf_done : positive -> vb2_state -> m2m_ctx -> m2m_ctx;
  m2m_job_finish : m2m_ctx -> m2m_ctx;
  m2m_num_src_bufs_ready : m2m_ctx -> Z;
  vb2_is_busy : buf_type -> m2m_ctx -> bool;
  vb2_is_streaming : buf_type -> m2m_ctx -> bool;
  vb2_set_streaming : buf_type -> bool -> m2m_ctx -> m2m_ctx
}.

(** What can be observed of a context: the two ready queues, the buffers given
    back so far with their state, the number of finished jobs, which queues
    have buffers allocated and which are streaming. *)
Record m2m_view := View {
  v_out : list positive;
  v_cap : list positive;
  v_done : list (positive * vb2_state);
  v_jobs : nat;
  v_busy_out : bool;
  v_busy_cap : bool;
  v_str_out : bool;
  v_str_cap : bool
}.

Definition ready (t : buf_type) (v : m2m_view) : list positive :=
  match t with OUTPUT => v_out v | CAPTURE => v_cap v end.
Definition busy (t : buf_type) (v : m2m_view) : bool :=
  match t with OUTPUT => v_busy_out v | CAPTURE => v_busy_cap v end.
Definition streaming (t : buf_type) (v : m2m_view) : bool :=
  match t with OUTPUT => v_str_out v | CAPTURE => v_str_cap v end.

Definition set_ready (t : buf_type) (l : list positive) (v : m2m_view) : m2m_view :=
  match t with
  | OUTPUT => View l (v_cap v) (v_done v) (v_jobs v) (v_busy_out v) (v_busy_cap v)
                (v_str_out v) (v_str_cap v)
  | CAPTURE => View (v_out v) l (v_done v) (v_jobs v) (v_busy_out v) (v_busy_cap v)
                 (v_str_out v) (v_str_cap v)
  end.
Definition add_done (b : positive) (st : vb2_state) (v : m2m_view) : m2m_view :=
  View (v_out v) (v_cap v) (v_done v ++ [(b, st)]) (v_jobs v) (v_busy_out v)
    (v_busy_cap v) (v_str_out v) (v_str_cap v).
Definition add_job (v : m2m_view) : m2m_view :=
  View (v_out v) (v_cap v) (v_done v) (S (v_jobs v)) (v_busy_out v) (v_busy_cap v)
    (v_str_out v) (v_str_cap v).
Definition set_str (t : buf_type) (x : bool) (v : m2m_view) : m2m_view :=
  View (v_out v) (v_cap v) (v_done v) (v_jobs v) (v_busy_out v) (v_busy_cap v)
    (match t with OUTPUT => x | CAPTURE => v_str_out v end)
    (match t with OUTPUT => v_str_out v | CAPTURE => x end).

(** The documented behaviour the driver relies on: ready queues are first in
    first out, [next] peeks and [remove] pops, giving a buffer back and
    finishing a job touch nothing else. *)
Class M2mLaws `{M2mFramework} := {
  view : m2m_ctx -> m2m_view;
  next_view t m : m2m_next_buf t m = hd_error (ready t (view m));
  remove_view t m : (m2m_buf_remove t m).1 = hd_error (ready t (view m)) /\
    view (m2m_buf_remove t m).2 = set_ready t (tl (ready t (view m))) (view m);
  queue_view t b m :
    view (m2m_buf_queue t b m) = set_ready t (ready t (view m) ++ [b]) (view m);
  done_view b st m : view (m2m_buf_done b st m) = add_done b st (view m);
  finish_view m : view (m2m_job_finish m) = add_job (view m);
  num_view m : m2m_num_src_bufs_ready m = Z.of_nat (length (v_out (view m)));
  busy_view t m : vb2_is_busy t m = busy t (view m);
  streaming_view t m : vb2_is_streaming t m = streaming t (view m);
  set_streaming_view t x m : view (vb2_set_streaming t x m) = set_str t x (view m)
}.

#[export] Instance fifo_framework : M2mFramework := {
  m2m_ctx := m2m_view;
  m2m_next_buf t v := hd_error (ready t v);
  m2m_buf_remove t v := (hd_error (ready t v), set_ready t (tl (ready t v)) v);
  m2m_buf_queue t b v := set_ready t (ready t v ++ [b]) v;
  m2m_buf_done := add_done;
  m2m_job_finish := add_job;
  m2m_num_src_bufs_ready v := Z.of_nat (length (v_out v));
  vb2_is_busy := busy;
  vb2_is_streaming := streaming;
  vb2_set_streaming := set_str
}.

#[export] Instance fifo_laws : M2mLaws.
Proof. by unshelve esplit; [exact id|..]. Defined.

(** The other services of the kernel: the checksum of [lib/crc32] and the
    number of the processor the [n]-th reading of the clock was made on. *)
Class DriverEnv := {
  crc32_le : Z -> list Z -> Z;
  raw_smp_processor_id : nat -> Z
}.

(** ** State *)

(** The framework's part of a buffer ([struct vb2_v4l2_buffer]); [vb_plane] is
    what [vb2_plane_vaddr] returns for plane 0 and [vb_length] its size. *)
Record vb2_v4l2_buffer := Vb {
  vb_type : buf_type;
  vb_index : Z;
  vb_memory : Z;
  vb_plane : option ptr;
  vb_length : Z;
  vb_bytesused : Z;
  vb_timestamp : Z;
  vb_field : Z;
  vb_flags : Z;
  vb_sequence : Z;
  vb_state : vb2_state
}.

(** [struct vpipe_buffer], [kmod/vpipe-internal.h]. *)
Record vpipe_buffer := VBuf {
  m2m_buf : vb2_v4l2_buffer;
  b_src_sequence : Z;
  b_algo_id : Z;
  b_threshold : Z;
  b_roi : vpipe_roi;
  b_src_desc : vpipe_frame_desc;
  b_qbuf_ns : Z;
  b_meta_pending : vpipe_meta_entry
}.

(** [struct vpipe_ctx]: the driver's own members. *)
Record vpipe_ctx := Ctx {
  out_q : vpipe_q_data;
  cap_q : vpipe_q_data;
  c_src_sequence : Z;
  c_algo_id : Z;
  c_threshold : Z;
  c_roi : vpipe_roi;
  c_src : option positive
}.

(** One open context and what it shares with the device: the kernel world, the
    context ([None] once freed), the buffers, the framework's context, the
    device's frame counter and the metadata device. *)
Record vsys `{M2mFramework} := VSys {
  vk : kworld;
  vctx : option vpipe_ctx;
  vbufs : gmap positive vpipe_buffer;
  vm2m : m2m_ctx;
  vseq : Z;
  vmeta : vpipe_meta_dev
}.

Section State.
Context `{M2mFramework}.

Definition set_vk (w : kworld) (s : vsys) : vsys :=
  VSys _ w (vctx s) (vbufs s) (vm2m s) (vseq s) (vmeta s).
Definition set_vctx (c : option vpipe_ctx) (s : vsys) : vsys :=
  VSys _ (vk s) c (vbufs s) (vm2m s) (vseq s) (vmeta s).
Definition set_vbufs (m : gmap positive vpipe_buffer) (s : vsys) : vsys :=
  VSys _ (vk s) (vctx s) m (vm2m s) (vseq s) (vmeta s).
Definition set_vm2m (m : m2m_ctx) (s : vsys) : vsys :=
  VSys _ (vk s) (vctx s) (vbufs s) m (vseq s) (vmeta s).
Definition set_vseq (n : Z) (s : vsys) : vsys :=
  VSys _ (vk s) (vctx s) (vbufs s) (vm2m s) n (vmeta s).
Definition set_vmeta (g : vpipe_meta_dev) (s : vsys) : vsys :=
  VSys _ (vk s) (vctx s) (vbufs s) (vm2m s) (vseq s) g.

(** Runs a computation of the kernel world inside the driver. *)
Definition kern {A} (c : F kworld A) : F vsys A :=
  fun s => match c (vk s) with Some (a, w) => Some (a, set_vk w s) | None => None end.

Definition get_ctx : F vsys vpipe_ctx := fun s => match vctx s with Some c => Some (c, s) | None => None end.
Definition put_ctx (c : vpipe_ctx) : F vsys unit := fmodify (set_vctx (Some c)).
Definition get_buf (b : positive) : F vsys vpipe_buffer :=
  fun s => match vbufs s !! b with Some x => Some (x, s) | None => None end.
Definition put_buf (b : positive) (x : vpipe_buffer) : F vsys unit :=
  fun s => match vbufs s !! b with
           | Some _ => Some (tt, set_vbufs (<[b := x]> (vbufs s)) s)
           | None => None
           end.
Definition on_m2m (f : m2m_ctx -> m2m_ctx) : F vsys unit :=
  fmodify (fun s => set_vm2m (f (vm2m s)) s).
End State.

(** Member updates. *)
Definition with_vb (v : vb2_v4l2_buffer) (x : vpipe_buffer) : vpipe_buffer :=
  VBuf v (b_src_sequence x) (b_algo_id x) (b_threshold x) (b_roi x) (b_src_desc x)
    (b_qbuf_ns x) (b_meta_pending x).
Definition with_pending (e : vpipe_meta_entry) (x : vpipe_buffer) : vpipe_buffer :=
  VBuf (m2m_buf x) (b_src_sequence x) (b_algo_id x) (b_threshold x) (b_roi x)
    (b_src_desc x) (b_qbuf_ns x) e.
Definition with_desc (d : vpipe_frame_desc) (x : vpipe_buffer) : vpipe_buffer :=
  VBuf (m2m_buf x) (b_src_sequence x) (b_algo_id x) (b_threshold x) (b_roi x) d
    (b_qbuf_ns x) (b_meta_pending x).
Definition vb_with_state (st : vb2_state) (v : vb2_v4l2_buffer) : vb2_v4l2_buffer :=
  Vb (vb_type v) (vb_index v) (vb_memory v) (vb_plane v) (vb_length v) (vb_bytesused v)
    (vb_timestamp v) (vb_field v) (vb_flags v) (vb_sequence v) st.
Definition vb_with_payload (n : Z) (v : vb2_v4l2_buffer) : vb2_v4l2_buffer :=
  Vb (vb_type v) (vb_index v) (vb_memory v) (vb_plane v) (vb_length v) n
    (vb_timestamp v) (vb_field v) (vb_flags v) (vb_sequence v) (vb_state v).
Definition with_state (st : vb2_state) (x : vpipe_buffer) : vpipe_buffer :=
  with_vb (vb_with_state st (m2m_buf x)) x.
Definition with_out_q (q : vpipe_q_data) (c : vpipe_ctx) : vpipe_ctx :=
  Ctx q (cap_q c) (c_src_sequence c) (c_algo_id c) (c_threshold c) (c_roi c) (c_src c).
Definition with_cap_q (q : vpipe_q_data) (c : vpipe_ctx) : vpipe_ctx :=
  Ctx (out_q c) q (c_src_sequence c) (c_algo_id c) (c_threshold c) (c_roi c) (c_src c).
Definition with_src (p : option positive) (c : vpipe_ctx) : vpipe_ctx :=
  Ctx (out_q c) (cap_q c) (c_src_sequence c) (c_algo_id c) (c_threshold c) (c_roi c) p.
Definition with_roi (r : vpipe_roi) (c : vpipe_ctx) : vpipe_ctx :=
  Ctx (out_q c) (cap_q c) (c_src_sequence c) (c_algo_id c) (c_threshold c) r (c_src c).

(** ** Formats *)

Definition V4L2_PIX_FMT_GREY : Z := 0x59455247.
Definition V4L2_FIELD_NONE : Z := 1.
Definition V4L2_COLORSPACE_SRGB : Z := 8.
Definition V4L2_YCBCR_ENC_DEFAULT : Z := 0.
Definition V4L2_QUANTIZATION_FULL_RANGE : Z := 1.
Definition V4L2_XFER_FUNC_DEFAULT : Z := 0.
Definition V4L2_CAP_VIDEO_M2M : Z := 0x8000.
Definition V4L2_CAP_STREAMING : Z := 0x4000000.
Definition V4L2_CAP_DEVICE_CAPS : Z := 0x80000000.
Definition V4L2_BUF_FLAG_TIMECODE : Z := 0x100.

(** [struct v4l2_pix_format]; the last two members are left alone. *)
Record v4l2_pix_format := Pix {
  pix_width : Z; pix_height : Z; pix_pixelformat : Z; pix_field : Z;
  pix_bytesperline : Z; pix_sizeimage : Z; pix_colorspace : Z; pix_ycbcr_enc : Z;
  pix_quantization : Z; pix_xfer_func : Z; pix_priv : Z; pix_flags : Z
}.

Definition vpipe_get_q_data (c : vpipe_ctx) (t : buf_type) : vpipe_q_data :=
  match t with OUTPUT => out_q c | CAPTURE => cap_q c end.

Definition vpipe_fill_pix_format (pix : v4l2_pix_format) (width height : Z)
    : v4l2_pix_format :=
  let w := clamp width 1 4096 in
  let h := clamp height 1 4096 in
  Pix w h V4L2_PIX_FMT_GREY V4L2_FIELD_NONE w (u32 (w * h)) V4L2_COLORSPACE_SRGB
    V4L2_YCBCR_ENC_DEFAULT V4L2_QUANTIZATION_FULL_RANGE V4L2_XFER_FUNC_DEFAULT
    (pix_priv pix) (pix_flags pix).

(** [struct v4l2_capability]. *)
Record v4l2_capability := Capability {
  cap_driver : string; cap_card : string; cap_bus_info : string;
  cap_device_caps : Z; cap_capabilities : Z
}.

Definition vpipe_querycap : Z * v4l2_capability :=
  let caps := Z.lor V4L2_CAP_VIDEO_M2M V4L2_CAP_STREAMING in
  (0, Capability "vpipe" "vpipe mem2mem" "platform:vpipe" caps
        (Z.lor caps V4L2_CAP_DEVICE_CAPS)).

(** The format of entry [index], or [-EINVAL]. *)
Definition vpipe_enum_fmt (index : Z) : Z * option Z :=
  if ztrue index then (- EINVAL, None) else (0, Some V4L2_PIX_FMT_GREY).

Section Driver.
Context `{KernelEnv} `{OpsTable} `{M2mFramework} `{DriverEnv}.

Definition vpipe_g_fmt (t : buf_type) (pix : v4l2_pix_format) : F vsys (Z * v4l2_pix_format) :=
  c <- get_ctx;;
  let q := vpipe_get_q_data c t in
  fret (0, vpipe_fill_pix_format pix (q_width q) (q_height q)).

Definition vpipe_try_fmt (pix : v4l2_pix_format) : Z * v4l2_pix_format :=
  (0, vpipe_fill_pix_format pix (pix_width pix) (pix_height pix)).

Definition vpipe_s_fmt (t : buf_type) (pix : v4l2_pix_format) : F vsys (Z * v4l2_pix_format) :=
  s <- fget;;
  c <- get_ctx;;
  if vb2_is_busy t (vm2m s) then fret (- EBUSY, pix)
  else
    let pix' := (vpipe_try_fmt pix).2 in
    let q := QData (pix_width pix') (pix_height pix') (pix_bytesperline pix')
               (pix_sizeimage pix') (pix_pixelformat pix') in
    put_ctx (match t with
             | OUTPUT => with_cap_q q (with_out_q q c)
             | CAPTURE => with_out_q q (with_cap_q q c)
             end);;
    fret (0, pix').

(** ** Queue operations *)

(** Returns the code, the number of buffers, of planes and the plane size. *)
Definition vpipe_queue_setup (t : buf_type) (nbufs nplanes size0 : Z)
    : F vsys (Z * (Z * Z * Z)) :=
  c <- get_ctx;;
  let q := vpipe_get_q_data c t in
  if ztrue nplanes && (size0 <? sizeimage q) then fret (- EINVAL, (nbufs, nplanes, size0))
  else
    let '(np, sz) := if ztrue nplanes then (nplanes, size0) else (1, sizeimage q) in
    fret (0, (if nbufs <? 2 then 2 else nbufs, np, sz)).

Definition vpipe_buf_prepare (b : positive) : F vsys Z :=
  x <- get_buf b;;
  c <- get_ctx;;
  let q := vpipe_get_q_data c (vb_type (m2m_buf x)) in
  if vb_length (m2m_buf x) <? sizeimage q then fret (- EINVAL)
  else
    put_buf b (with_vb (vb_with_payload (sizeimage q) (m2m_buf x)) x);;
    fret 0.

Definition vpipe_buf_queue (b : positive) : F vsys unit :=
  x <- get_buf b;;
  c <- get_ctx;;
  match vb_type (m2m_buf x) with
  | OUTPUT =>
      let d := b_src_desc x in
      let hints := FrameDesc (d_source_timestamp_ns d) (d_sequence d) (d_backend_id d)
                     (d_byteused d) (d_flags d) (q_width (out_q c)) (q_height (out_q c))
                     (bytesperline (out_q c)) in
      t <- kern ktime_get_ns;;
      let x1 := VBuf (m2m_buf x) (c_src_sequence c) (c_algo_id c) (c_threshold c) (c_roi c)
                  hints t (b_meta_pending x) in
      rd <- kern (vpipe_source_next_frame (c_src c) (Some (vb_plane (m2m_buf x))) hints);;
      put_buf b (with_desc rd.2 x1)
  | CAPTURE => fret tt
  end;;
  on_m2m (m2m_buf_queue (vb_type (m2m_buf x)) b).

Definition vpipe_start_streaming (t : buf_type) : F vsys Z :=
  c <- get_ctx;;
  match t with
  | OUTPUT => kern (vpipe_source_start (c_src c) (Some (out_q c)))
  | CAPTURE => fret 0
  end.

(** [v4l2_m2m_buf_done]: the framework takes the buffer back in state [st]. *)
Definition v4l2_m2m_buf_done (b : positive) (st : vb2_state) : F vsys unit :=
  x <- get_buf b;;
  put_buf b (with_state st x);;
  on_m2m (m2m_buf_done b st).

(** [v4l2_m2m_src_buf_remove] and [v4l2_m2m_dst_buf_remove]. *)
Definition v4l2_m2m_buf_remove (t : buf_type) : F vsys (option positive) :=
  fun s => let '(o, m) := m2m_buf_remove t (vm2m s) in Some (o, set_vm2m m s).

(** The loop ends when the queue is empty; [fuel] bounds its turns. *)
Fixpoint return_all_loop (fuel : nat) (t : buf_type) : F vsys unit :=
  match fuel with
  | O => ffail
  | S n =>
      o <- v4l2_m2m_buf_remove t;;
      match o with
      | None => fret tt
      | Some b => v4l2_m2m_buf_done b ERROR;; return_all_loop n t
      end
  end.

(** One turn more than there are buffers is enough
    ([return_all_buffers_ok]). *)
Definition vpipe_return_all_buffers (t : buf_type) : F vsys unit :=
  fun s => return_all_loop (S (size (vbufs s))) t s.

Definition vpipe_stop_streaming (t : buf_type) : F vsys unit :=
  c <- get_ctx;;
  match t with
  | OUTPUT => kern (vpipe_source_stop (c_src c))
  | CAPTURE => fret tt
  end;;
  vpipe_return_all_buffers t.

Definition with_dqbuf (t : Z) (e : vpipe_meta_entry) : vpipe_meta_entry :=
  MetaEntry (version e) (entry_size e) (flags e) (seq e) (src_v4l2_sequence e)
    (buffer_index e) (source_timestamp_ns e) (qbuf_timestamp_ns e) (capture_done_ns e) t
    (bytesused e) (crc32 e) (algo_id e) (algo_status e) (roi_left e) (roi_top e)
    (roi_width e) (roi_height e) (algo_value0 e) (algo_value1 e) (source_backend e)
    (buffer_type e) (queue_depth e) (cpu_id e).
Definition with_meta_seq (n : Z) (e : vpipe_meta_entry) : vpipe_meta_entry :=
  MetaEntry (version e) (entry_size e) (flags e) n (src_v4l2_sequence e)
    (buffer_index e) (source_timestamp_ns e) (qbuf_timestamp_ns e) (capture_done_ns e)
    (dqbuf_timestamp_ns e) (bytesused e) (crc32 e) (algo_id e) (algo_status e) (roi_left e)
    (roi_top e) (roi_width e) (roi_height e) (algo_value0 e) (algo_value1 e)
    (source_backend e) (buffer_type e) (queue_depth e) (cpu_id e).

Definition vpipe_buf_finish (b : positive) : F vsys unit :=
  x <- get_buf b;;
  match vb_type (m2m_buf x) with
  | OUTPUT => fret tt
  | CAPTURE =>
      if seq (b_meta_pending x) =? 0 then fret tt
      else
        t <- kern ktime_get_ns;;
        let e := with_dqbuf t (b_meta_pending x) in
        fmodify (fun s => set_vmeta (vpipe_meta_publish e (vmeta s)) s);;
        put_buf b (with_pending (with_meta_seq 0 e) x)
  end.

(** ** Controls *)

Definition vpipe_s_ctrl (id val : Z) : F vsys Z :=
  c <- get_ctx;;
  let r := c_roi c in
  if id =? VPIPE_CID_SRC_SEQUENCE then
    put_ctx (Ctx (out_q c) (cap_q c) (u32 val) (c_algo_id c) (c_threshold c) r (c_src c));; fret 0
  else if id =? VPIPE_CID_ALGO then
    put_ctx (Ctx (out_q c) (cap_q c) (c_src_sequence c) (u32 val) (c_threshold c) r (c_src c));; fret 0
  else if id =? VPIPE_CID_ROI_LEFT then
    put_ctx (with_roi (Roi val (top r) (width r) (height r)) c);; fret 0
  else if id =? VPIPE_CID_ROI_TOP then
    put_ctx (with_roi (Roi (left r) val (width r) (height r)) c);; fret 0
  else if id =? VPIPE_CID_ROI_WIDTH then
    put_ctx (with_roi (Roi (left r) (top r) val (height r)) c);; fret 0
  else if id =? VPIPE_CID_ROI_HEIGHT then
    put_ctx (with_roi (Roi (left r) (top r) (width r) val) c);; fret 0
  else if id =? VPIPE_CID_THRESHOLD then
    put_ctx (Ctx (out_q c) (cap_q c) (c_src_sequence c) (c_algo_id c) (u32 val) r (c_src c));; fret 0
  else fret (- EINVAL).

End Driver.

(** [struct v4l2_ctrl_config] of the seven controls. *)
Inductive v4l2_ctrl_type := V4L2_CTRL_TYPE_INTEGER | V4L2_CTRL_TYPE_MENU (qmenu : list string).

Record v4l2_ctrl_config := CtrlConfig {
  ctrl_id : Z; ctrl_name : string; ctrl_type : v4l2_ctrl_type;
  ctrl_min : Z; ctrl_max : Z; ctrl_step : Z; ctrl_def : Z
}.

Definition vpipe_algo_qmenu : list string := ["none"; "threshold"]%string.

Definition vpipe_ctrl_src_sequence : v4l2_ctrl_config :=
  CtrlConfig VPIPE_CID_SRC_SEQUENCE "Source V4L2 Sequence" V4L2_CTRL_TYPE_INTEGER
    0 INT_MAX 1 0.
Definition vpipe_ctrl_algo : v4l2_ctrl_config :=
  CtrlConfig VPIPE_CID_ALGO "Algorithm" (V4L2_CTRL_TYPE_MENU vpipe_algo_qmenu)
    VPIPE_ALGO_NONE VPIPE_ALGO_THRESHOLD 0 VPIPE_ALGO_NONE.
Definition vpipe_ctrl_roi_left : v4l2_ctrl_config :=
  CtrlConfig VPIPE_CID_ROI_LEFT "ROI Left" V4L2_CTRL_TYPE_INTEGER 0 4096 1 0.
Definition vpipe_ctrl_roi_top : v4l2_ctrl_config :=
  CtrlConfig VPIPE_CID_ROI_TOP "ROI Top" V4L2_CTRL_TYPE_INTEGER 0 4096 1 0.
Definition vpipe_ctrl_roi_width : v4l2_ctrl_config :=
  CtrlConfig VPIPE_CID_ROI_WIDTH "ROI Width" V4L2_CTRL_TYPE_INTEGER 0 4096 1
    VPIPE_DEFAULT_WIDTH.
Definition vpipe_ctrl_roi_height : v4l2_ctrl_config :=
  CtrlConfig VPIPE_CID_ROI_HEIGHT "ROI Height" V4L2_CTRL_TYPE_INTEGER 0 4096 1
    VPIPE_DEFAULT_HEIGHT.
Definition vpipe_ctrl_threshold : v4l2_ctrl_config :=
  CtrlConfig VPIPE_CID_THRESHOLD "Threshold" V4L2_CTRL_TYPE_INTEGER 0 255 1
    VPIPE_DEFAULT_THRESHOLD.

(** The controls [vpipe_open] registers, in its order. *)
Definition vpipe_ctrls : list v4l2_ctrl_config :=
  [vpipe_ctrl_src_sequence; vpipe_ctrl_algo; vpipe_ctrl_roi_left; vpipe_ctrl_roi_top;
   vpipe_ctrl_roi_width; vpipe_ctrl_roi_height; vpipe_ctrl_threshold].

(** ** The job *)

(** [n] bytes at [p]. *)
Definition read_bytes (m : mem) (p : ptr) (n : Z) : option (list Z) :=
  match m !! p_blk p with
  | Some l =>
      if (0 <=? n) && (0 <=? p_off p) && (p_off p + n <=? Z.of_nat (length l))
      then Some (take (Z.to_nat n) (drop (Z.to_nat (p_off p)) l))
      else None
  | None => None
  end.

(** [~crc32_le(~0, buf, len)] on 32 bits. *)
Definition meta_crc `{DriverEnv} (l : list Z) : Z :=
  Z.lxor (crc32_le 0xffffffff l) 0xffffffff.

Section Run.
Context `{KernelEnv} `{OpsTable} `{M2mFramework} `{DriverEnv}.

(** The job [vpipe_device_run] builds for two plane addresses. *)
Definition run_job (c : vpipe_ctx) (s d : ptr) : vpipe_job_desc :=
  Job s d (q_width (out_q c)) (q_height (out_q c)) (bytesperline (out_q c))
    (bytesperline (cap_q c)).

(** The sideband entry of one processed frame. *)
Definition run_meta (c : vpipe_ctx) (sx dx : vpipe_buffer) (n now : Z)
    (crc : Z) (r : vpipe_cv_result) (depth cpu : Z) : vpipe_meta_entry :=
  MetaEntry VPIPE_META_VERSION sizeof_meta_entry
    (if ztrue (Z.land (d_flags (b_src_desc sx)) VPIPE_FRAME_FLAG_DROPPED)
     then Z.lor 0 VPIPE_META_F_DROPPED else 0)
    n (b_src_sequence sx) (vb_index (m2m_buf dx))
    (d_source_timestamp_ns (b_src_desc sx)) (b_qbuf_ns sx) now 0
    (sizeimage (cap_q c)) crc (b_algo_id sx) (cv_status r)
    (left (cv_roi r)) (top (cv_roi r)) (width (cv_roi r)) (height (cv_roi r))
    (value0 r) (value1 r) (d_backend_id (b_src_desc sx)) (vb_memory (m2m_buf sx))
    depth cpu.

(** The destination buffer's header after a successful job. *)
Definition run_vb (c : vpipe_ctx) (sv dv : vb2_v4l2_buffer) (n now : Z) : vb2_v4l2_buffer :=
  Vb (vb_type dv) (vb_index dv) (vb_memory dv) (vb_plane dv) (vb_length dv)
    (sizeimage (cap_q c)) now V4L2_FIELD_NONE
    (Z.land (vb_flags sv) V4L2_BUF_FLAG_TIMECODE) (u32 n) (vb_state dv).

(** [vpipe_cv_process] on the kernel's memory. *)
Definition run_cv (job : vpipe_job_desc) (algo threshold : Z) (roi : vpipe_roi)
    : F vsys (vpipe_cv_result * Z) :=
  fun s =>
    match vpipe_cv_process job algo threshold (Some roi) (kmem (vk s)) with
    | Some (m, r, ret) => Some ((r, ret), set_vk (set_kmem m (vk s)) s)
    | None => None
    end.

(** Removes both buffers, gives them back with an error and finishes the job. *)
Definition fail_job : F vsys unit :=
  so <- v4l2_m2m_buf_remove OUTPUT;;
  d <- v4l2_m2m_buf_remove CAPTURE;;
  sb <- flift so;;
  db <- flift d;;
  v4l2_m2m_buf_done sb ERROR;;
  v4l2_m2m_buf_done db ERROR;;
  on_m2m m2m_job_finish.

Definition vpipe_device_run : F vsys unit :=
  s0 <- fget;;
  c <- get_ctx;;
  match m2m_next_buf OUTPUT (vm2m s0), m2m_next_buf CAPTURE (vm2m s0) with
  | Some sb, Some db =>
      sx <- get_buf sb;;
      dx <- get_buf db;;
      match vb_plane (m2m_buf sx), vb_plane (m2m_buf dx) with
      | Some src_addr, Some dst_addr =>
          rr <- run_cv (run_job c src_addr dst_addr) (b_algo_id sx) (b_threshold sx) (b_roi sx);;
          let '(r, ret) := rr in
          if ztrue ret then fail_job
          else
            so <- v4l2_m2m_buf_remove OUTPUT;;
            d <- v4l2_m2m_buf_remove CAPTURE;;
            sb' <- flift so;;
            db' <- flift d;;
            fmodify (fun s => set_vseq (u64 (vseq s + 1)) s);;
            s1 <- fget;;
            now <- kern ktime_get_ns;;
            sv <- get_buf sb';;
            dv <- get_buf db';;
            bytes <- flift (read_bytes (kmem (vk s1)) dst_addr (sizeimage (cap_q c)));;
            put_buf db' (with_pending
              (run_meta c sx dv (vseq s1) now (meta_crc bytes) r
                 (m2m_num_src_bufs_ready (vm2m s1)) (raw_smp_processor_id (kclock (vk s1))))
              (with_vb (run_vb c (m2m_buf sv) (m2m_buf dv) (vseq s1) now) dv));;
            v4l2_m2m_buf_done sb' DONE;;
            v4l2_m2m_buf_done db' DONE;;
            on_m2m m2m_job_finish
      | _, _ => fail_job
      end
  | _, _ => fret tt
  end.

Definition vpipe_job_abort : F vsys unit := on_m2m m2m_job_finish.

(** ** Private ioctls

    Returns the code and, for an export, the descriptor written back. *)
Definition vpipe_default_ioctl (cmd : vpipe_cmd) : F vsys (Z * option Z) :=
  c <- get_ctx;;
  match cmd with
  | VPIPE_IOC_SET_BACKEND id =>
      s <- fget;;
      if vb2_is_streaming OUTPUT (vm2m s) || vb2_is_streaming CAPTURE (vm2m s)
      then fret (- EBUSY, None)
      else
        o <- kern (vpipe_source_create id);;
        match o with
        | ErrPtr e => fret (e, None)
        | GoodPtr p =>
            kern (vpipe_source_destroy (c_src c));;
            put_ctx (with_src (Some p) c);;
            fret (0, None)
        end
  | VPIPE_IOC_EXPORT_SRC_DMABUF =>
      fd <- kern (vpipe_source_export_dmabuf (c_src c));;
      if fd <? 0 then fret (fd, None) else fret (0, Some fd)
  | VPIPE_IOC_OTHER _ => fret (- ENOTTY, None)
  end.

End Run.

(** Evaluates accesses to the driver's state. *)
Ltac vcbn :=
  unfold set_vk, set_vctx, set_vbufs, set_vm2m, set_vseq, set_vmeta, set_kmem, set_kheap,
    tick_clock;
  cbn [vk vctx vbufs vm2m vseq vmeta kmem kheap knext kclock kallocs backend_ops backend_name
       synthetic_drop_every vcam_fps vcam_drop_every fst snd].
Ltac vrun := unfold fbind, fret, fget, flift, fmodify, kern, get_ctx, put_ctx, get_buf, put_buf,
                    on_m2m, ktime_get_ns; vcbn.
