(* ===== verification/M2mSpec.v ===== *)
(** * What the handlers of [kmod/vpipe-m2m.c] do

    The format the driver negotiates, the job routine on every branch, the
    independence of queued work from later control changes, the return of
    buffers when streaming stops, and the publication of metadata. *)

From S2P Require Import Prelude Types Cv Meta Kernel Source M2m.

(** ** Formats *)

(** The data of a negotiated format: 1 to 4096 in both directions, packed rows
    and an exact image size. *)
Record fmt_ok (q : vpipe_q_data) : Prop := {
  fq_width : 1 <= q_width q <= 4096;
  fq_height : 1 <= q_height q <= 4096;
  fq_line : bytesperline q = q_width q;
  fq_size : sizeimage q = q_width q * q_height q;
  fq_grey : pixelformat q = V4L2_PIX_FMT_GREY
}.

(** Both queues of a context carry the same negotiated format. *)
Definition ctx_fmt_ok (c : vpipe_ctx) : Prop := fmt_ok (out_q c) /\ cap_q c = out_q c.

Lemma ctx_fmt_get c t : ctx_fmt_ok c -> vpipe_get_q_data c t = out_q c.
Proof. intros [_ H]. by destruct t. Qed.

(** The queue data of a pixel format. *)
Definition pix_q (p : v4l2_pix_format) : vpipe_q_data :=
  QData (pix_width p) (pix_height p) (pix_bytesperline p) (pix_sizeimage p) (pix_pixelformat p).

Lemma clamp_range v lo hi : lo <= hi -> lo <= clamp v lo hi <= hi.
Proof. unfold clamp. zbool; lia. Qed.

Lemma clamp_id v lo hi : lo <= v <= hi -> clamp v lo hi = v.
Proof. unfold clamp. zbool; lia. Qed.

Lemma fill_pix_ok p w h : fmt_ok (pix_q (vpipe_fill_pix_format p w h)).
Proof.
  pose proof (clamp_range w 1 4096 ltac:(lia)). pose proof (clamp_range h 1 4096 ltac:(lia)).
  split; cbn; try done. rewrite u32_small by nia. done.
Qed.

(** The filled format is the requested one when that is legal. *)
Lemma fill_pix_id p w h :
  1 <= w <= 4096 -> 1 <= h <= 4096 ->
  pix_q (vpipe_fill_pix_format p w h) = QData w h w (w * h) V4L2_PIX_FMT_GREY.
Proof.
  intros. unfold pix_q, vpipe_fill_pix_format. cbn.
  rewrite !clamp_id by lia. by rewrite u32_small by nia.
Qed.

Section Format.
Context `{M2mFramework} `{!M2mLaws}.

Lemma s_fmt_run t pix s c :
  vctx s = Some c ->
  vpipe_s_fmt t pix s =
    if busy t (view (vm2m s)) then Some ((- EBUSY, pix), s)
    else
      let pix' := (vpipe_try_fmt pix).2 in
      let q := pix_q pix' in
      Some ((0, pix'), set_vctx (Some (with_cap_q q (with_out_q q c))) s).
Proof.
  intros Hc. unfold vpipe_s_fmt, fbind, fget, get_ctx. rewrite Hc, busy_view.
  destruct (busy _ _); [done|]. by destruct t.
Qed.
End Format.

(** C12: [VIDIOC_S_FMT] refuses with [-EBUSY] and no effect while its queue has
    buffers; otherwise it gives both queues one and the same format whose
    sides are clamped to 1..4096, whose rows are packed and whose image size
    is exact, and [VIDIOC_G_FMT] on either queue, and a second [VIDIOC_S_FMT]
    or [VIDIOC_TRY_FMT], return that format again. *)
Theorem s_fmt_spec `{M2mFramework} `{!M2mLaws} t pix s c (Hc : vctx s = Some c) :
  if vb2_is_busy t (vm2m s)
  then vpipe_s_fmt t pix s = Some ((- EBUSY, pix), s)
  else exists pix' c',
    vpipe_s_fmt t pix s = Some ((0, pix'), set_vctx (Some c') s) /\
    ctx_fmt_ok c' /\ out_q c' = pix_q pix' /\
    pix_width pix' = Z.min 4096 (Z.max 1 (pix_width pix)) /\
    pix_height pix' = Z.min 4096 (Z.max 1 (pix_height pix)) /\
    vpipe_try_fmt pix' = (0, pix') /\
    (forall t', vpipe_g_fmt t' pix (set_vctx (Some c') s)
                = Some ((0, pix'), set_vctx (Some c') s)) /\
    (c_src c' = c_src c /\ c_roi c' = c_roi c /\ c_threshold c' = c_threshold c /\
     c_algo_id c' = c_algo_id c /\ c_src_sequence c' = c_src_sequence c).
Proof.
  rewrite (s_fmt_run t pix s c Hc), busy_view. destruct (busy _ _); [done|].
  pose proof (fill_pix_ok pix (pix_width pix) (pix_height pix)) as Hok.
  eexists _, _. split; [reflexivity|]. split; [by split|]. split; [done|].
  cbn [vpipe_try_fmt snd]. split; [cbn; unfold clamp; zbool; lia|].
  split; [cbn; unfold clamp; zbool; lia|].
  assert (Hid : forall v, clamp (clamp v 1 4096) 1 4096 = clamp v 1 4096)
    by (intros; apply clamp_id, clamp_range; lia).
  split.
  - unfold vpipe_try_fmt, vpipe_fill_pix_format. cbn. by rewrite !Hid.
  - split; [|done]. intros t'. unfold vpipe_g_fmt, fbind, get_ctx. cbn [vctx set_vctx].
    unfold fret. do 3 f_equal. unfold vpipe_fill_pix_format.
    destruct t'; cbn; by rewrite !Hid.
Qed.

(** ** A small system for the witnesses

    A 3x2 frame in block 1, its destination in block 2, buffer 10 waiting on
    the OUTPUT queue and buffer 11 on the CAPTURE queue. *)
Definition ex_q : vpipe_q_data := QData 3 2 3 6 V4L2_PIX_FMT_GREY.
Definition ex_ctx : vpipe_ctx := Ctx ex_q ex_q 5 0 127 (Roi 0 0 3 2) None.

Definition ex_world : kworld :=
  KWorld (<[1%positive := [10; 200; 30; 128; 127; 255]]>
            {[2%positive := [0; 0; 0; 0; 0; 0; 99]]}) ∅ 20 0 0 [] [] 0 0 0.

Definition ex_desc : vpipe_frame_desc := FrameDesc 700 3 1 0 0 3 2 3.
Definition ex_buf (t : buf_type) (blk : positive) (algo : Z) : vpipe_buffer :=
  VBuf (Vb t 0 1 (Some (Ptr blk 0)) 6 6 0 0 0x100 0 ACTIVE) 5 algo 127 (Roi 1 0 2 2) ex_desc
    800 meta_zero.

Definition ex_sys (algo : Z) : vsys :=
  VSys _ ex_world (Some ex_ctx)
    (<[10%positive := ex_buf OUTPUT 1 algo]> {[11%positive := ex_buf CAPTURE 2 0]})
    (View [10%positive] [11%positive] [] 0 true true true true) 41 g_meta0.

(** An environment whose checksum is the sum of the bytes. *)
Definition env_sum : DriverEnv :=
  Build_DriverEnv (fun c l => foldr Z.add c l) (fun _ => 3).

Lemma s_fmt_spec_witness :
  let idle := set_vm2m (View [] [] [] 0 false false false false) (ex_sys 1) in
  exists pix' c',
    vpipe_s_fmt CAPTURE (Pix 100000 0 7 7 7 7 7 7 7 7 7 7) idle
      = Some ((0, pix'), set_vctx (Some c') idle) /\
    out_q c' = QData 4096 1 4096 4096 V4L2_PIX_FMT_GREY /\ cap_q c' = out_q c'.
Proof.
  cbv zeta.
  destruct (s_fmt_spec CAPTURE (Pix 100000 0 7 7 7 7 7 7 7 7 7 7)
    (set_vm2m (View [] [] [] 0 false false false false : @m2m_ctx fifo_framework) (ex_sys 1))
    ex_ctx eq_refl)
    as (pix' & c' & H1 & [_ H2] & _).
  exists pix', c'. split; [exact H1|]. split; [|exact H2].
  vm_compute in H1. injection H1 as <- <-. reflexivity.
Defined.

(** ** The job routine *)

Lemma read_bytes_ok m p n :
  0 <= n -> 0 <= p_off p -> p_off p + n <= blen m (p_blk p) ->
  exists l, read_bytes m p n = Some l /\ length l = Z.to_nat n /\
    forall i, 0 <= i < n -> l !! Z.to_nat i = load m (padd p i).
Proof.
  intros Hn Ho Hb. unfold read_bytes, blen, load in *. cbn [padd p_blk p_off].
  destruct (m !! p_blk p) as [l|]; [|lia].
  replace (_ && _ && _) with true by lia. eexists. split; [reflexivity|].
  split; [rewrite length_take, length_drop; lia|]. intros i Hi.
  rewrite lookup_take_lt, lookup_drop by lia.
  destruct (Z.leb_spec 0 (p_off p + i)); [|lia]. f_equal. lia.
Qed.

(** The frame a job leaves, by algorithm. *)
Definition out_image (job : vpipe_job_desc) (m : mem) (algo threshold : Z) (r : vpipe_roi)
    (x y : Z) : Z :=
  if algo =? VPIPE_ALGO_THRESHOLD then threshold_image job m threshold r x y
  else src_px job m x y.

(** The result structure of a supported algorithm. *)
Definition out_result (job : vpipe_job_desc) (m : mem) (algo threshold : Z) (r : vpipe_roi)
    : vpipe_cv_result :=
  if algo =? VPIPE_ALGO_THRESHOLD
  then CvResult 0 (roi_count job m threshold r true) (roi_count job m threshold r false) r
  else CvResult 0 0 0 r.

Definition algo_ok (a : Z) : bool := (a =? VPIPE_ALGO_NONE) || (a =? VPIPE_ALGO_THRESHOLD).

Lemma cv_process_supported job m algo threshold roi :
  job_wf job m -> algo_ok algo = true ->
  let r := vpipe_clamp_roi job (Some roi) in
  exists m',
    vpipe_cv_process job algo threshold (Some roi) m
      = Some (m', out_result job m algo threshold r, 0) /\
    painted job m m' (in_frame job) (out_image job m algo threshold r).
Proof.
  intros Hwf Ha. destruct (job_dims _ _ Hwf) as [Hw Hh].
  unfold algo_ok in Ha. unfold vpipe_cv_process, out_result, out_image.
  destruct (Z.eqb_spec algo VPIPE_ALGO_NONE) as [->|_].
  - cbn [Z.eqb]. destruct (copy_frame_ok job m Hwf) as (m' & Hm' & Hp).
    rewrite Hm'. by exists m'.
  - cbn [orb] in Ha. rewrite Ha.
    destruct (threshold_frame_ok job m Hwf threshold _
      (clamp_roi_in_frame job (Some roi) Hw Hh)
      (CvResult 0 0 0 (vpipe_clamp_roi job (Some roi)))) as (m' & Hm' & Hp).
    rewrite Hm'. by exists m'.
Qed.

Lemma run_job_wf c sp dp m :
  ctx_fmt_ok c -> p_blk sp <> p_blk dp -> 0 <= p_off sp -> 0 <= p_off dp ->
  p_off sp + sizeimage (out_q c) <= blen m (p_blk sp) ->
  p_off dp + sizeimage (out_q c) <= blen m (p_blk dp) ->
  job_wf (run_job c sp dp) m.
Proof.
  intros [[Hw Hh Hl Hs _] Hq] Hne Hos Hod Hbs Hbd.
  split; cbn; rewrite ?Hq, ?Hl; unfold INT_MAX; try lia; nia.
Qed.

Section Run.
Context `{KernelEnv} `{OpsTable} `{M2mFramework} `{!M2mLaws} `{DriverEnv}.

(** The queues with both heads taken. *)
Definition popped (v : m2m_view) : m2m_view :=
  set_ready CAPTURE (tl (v_cap v)) (set_ready OUTPUT (tl (v_out v)) v).

(** The buffers heading the two ready queues, and their planes. *)
Record run_ready (s : vsys) (c : vpipe_ctx) (sb db : positive) (sx dx : vpipe_buffer)
    (sp dp : ptr) : Prop := {
  rr_ctx : vctx s = Some c;
  rr_src : hd_error (v_out (view (vm2m s))) = Some sb;
  rr_dst : hd_error (v_cap (view (vm2m s))) = Some db;
  rr_sbuf : vbufs s !! sb = Some sx;
  rr_dbuf : vbufs s !! db = Some dx;
  rr_ne : sb <> db;
  rr_splane : vb_plane (m2m_buf sx) = Some sp;
  rr_dplane : vb_plane (m2m_buf dx) = Some dp
}.

(** The state a successful job leaves. *)
Definition run_post (s : vsys) (c : vpipe_ctx) (sb db : positive) (sx dx : vpipe_buffer)
    (r : vpipe_cv_result) (bytes : list Z) (m : mem) (q : m2m_ctx) : vsys :=
  let n := u64 (vseq s + 1) in
  let now := ktime (kclock (vk s)) in
  VSys _ (tick_clock (set_kmem m (vk s))) (Some c)
    (<[db := with_state DONE
        (with_pending (run_meta c sx dx n now (meta_crc bytes) r
           (Z.of_nat (length (tl (v_out (view (vm2m s))))))
           (raw_smp_processor_id (kclock (vk s))))
           (with_vb (run_vb c (m2m_buf sx) (m2m_buf dx) n now) dx))]>
      (<[sb := with_state DONE sx]> (vbufs s)))
    q n (vmeta s).

Lemma remove_run t s :
  exists m, v4l2_m2m_buf_remove t s = Some (hd_error (ready t (view (vm2m s))), set_vm2m m s) /\
    view m = set_ready t (tl (ready t (view (vm2m s)))) (view (vm2m s)).
Proof.
  unfold v4l2_m2m_buf_remove. destruct (remove_view t (vm2m s)) as [Hb Hv].
  destruct (m2m_buf_remove t (vm2m s)) as [o m]. cbn in *. subst o. by exists m.
Qed.

Lemma buf_done_run b st s x :
  vbufs s !! b = Some x ->
  v4l2_m2m_buf_done b st s =
    Some (tt, set_vm2m (m2m_buf_done b st (vm2m s))
                (set_vbufs (<[b := with_state st x]> (vbufs s)) s)).
Proof.
  intros Hb. unfold v4l2_m2m_buf_done, fbind, get_buf, put_buf. by rewrite !Hb.
Qed.

Lemma device_run_ok s c sb db sx dx sp dp :
  run_ready s c sb db sx dx sp dp -> ctx_fmt_ok c -> algo_ok (b_algo_id sx) = true ->
  p_blk sp <> p_blk dp -> 0 <= p_off sp -> 0 <= p_off dp ->
  p_off sp + sizeimage (out_q c) <= blen (kmem (vk s)) (p_blk sp) ->
  p_off dp + sizeimage (out_q c) <= blen (kmem (vk s)) (p_blk dp) ->
  let job := run_job c sp dp in
  let roi := vpipe_clamp_roi job (Some (b_roi sx)) in
  exists m bytes q,
    vpipe_device_run s = Some (tt, run_post s c sb db sx dx
      (out_result job (kmem (vk s)) (b_algo_id sx) (b_threshold sx) roi) bytes m q) /\
    view q = add_job (add_done db DONE (add_done sb DONE (popped (view (vm2m s))))) /\
    painted job (kmem (vk s)) m (in_frame job)
      (out_image job (kmem (vk s)) (b_algo_id sx) (b_threshold sx) roi) /\
    read_bytes m dp (sizeimage (out_q c)) = Some bytes.
Proof.
  destruct s as [w co bufs q n g].
  intros [Hc Hs Hd Hsb Hdb Hne Hsp Hdp] Hf Ha Hblk Hos Hod Hbs Hbd job roi.
  cbn [vctx vk vbufs vm2m] in *. subst co. destruct w as [km kh kn kc ka bo bn sd vf vd].
  cbn [kmem] in *.
  pose proof (run_job_wf c sp dp _ Hf Hblk Hos Hod Hbs Hbd) as Hwf.
  destruct (cv_process_supported job _ (b_algo_id sx) (b_threshold sx) (b_roi sx) Hwf Ha)
    as (m & Hcv & Hp). fold roi in Hcv, Hp.
  destruct (read_bytes_ok m dp (sizeimage (out_q c))) as (bytes & Hbytes & _ & _).
  { destruct Hf as [[? ? ? -> ?] _]. nia. } { done. }
  { by rewrite (pt_blen _ _ _ _ _ Hp). }
  destruct Hf as [_ Hcq]. exists m, bytes.
  destruct (remove_run OUTPUT (VSys _ (KWorld m kh kn kc ka bo bn sd vf vd) (Some c) bufs q n g)) as (q1 & Hr1 & Hv1).
  destruct (remove_run CAPTURE (VSys _ (KWorld m kh kn kc ka bo bn sd vf vd) (Some c) bufs q1 n g)) as (q2 & Hr2 & Hv2).
  cbn [vm2m set_vm2m ready vk vctx vbufs vseq vmeta set_kmem] in Hr1, Hr2, Hv1, Hv2.
  exists (m2m_job_finish (m2m_buf_done db DONE (m2m_buf_done sb DONE q2))).
  split; [|split; [by rewrite finish_view, !done_view, Hv2, Hv1|done]].
  unfold vpipe_device_run. vrun. rewrite !next_view. cbn [ready]. rewrite Hs, Hd.
  vcbn. rewrite Hsb. vcbn. rewrite Hdb, Hsp, Hdp. unfold run_cv. vcbn. fold job. rewrite Hcv.
  cbn [ztrue Z.eqb negb]. vcbn.
  rewrite Hr1. vcbn. rewrite Hr2.
  rewrite Hv1, Hs. cbn [v_cap set_ready]. rewrite Hd. vcbn. rewrite Hsb. vcbn.
  rewrite Hdb. vcbn. rewrite Hcq, Hbytes. vcbn. rewrite Hdb. vcbn.
  rewrite (buf_done_run sb DONE _ sx) by (vcbn; by rewrite lookup_insert_ne by done).
  vcbn. erewrite buf_done_run by (vcbn; by rewrite lookup_insert_ne, lookup_insert_eq by done).
  vcbn. unfold run_post. vcbn. rewrite num_view, Hv2, Hv1. vcbn. do 3 f_equal.
  rewrite (insert_insert_ne _ sb db), insert_insert_eq by done. done.
Qed.
End Run.

(** The packed bytes of a painted frame are its pixels in row order. *)
Lemma frame_bytes c sp dp m m' f bytes :
  ctx_fmt_ok c -> 0 <= p_off dp ->
  p_off dp + sizeimage (out_q c) <= blen m (p_blk dp) ->
  painted (run_job c sp dp) m m' (in_frame (run_job c sp dp)) f ->
  read_bytes m' dp (sizeimage (out_q c)) = Some bytes ->
  length bytes = Z.to_nat (sizeimage (out_q c)) /\
  forall x y, in_frame (run_job c sp dp) x y = true ->
    bytes !! Z.to_nat (y * q_width (out_q c) + x) = Some (f x y).
Proof.
  intros [[Hw Hh Hl Hs _] Hq] Hod Hbd Hp Hb.
  destruct (read_bytes_ok m' dp (sizeimage (out_q c))) as (l & Hl' & Hlen & Hi).
  { rewrite Hs. nia. } { done. } { by rewrite (pt_blen _ _ _ _ _ Hp). }
  rewrite Hb in Hl'. injection Hl' as <-. split; [done|]. intros x y Hxy.
  pose proof (pt_in _ _ _ _ _ Hp x y Hxy) as Hload.
  apply in_frame_spec in Hxy as [Hx Hy]. cbn in Hx, Hy.
  rewrite Hi by (rewrite Hs; nia). rewrite <- Hload. unfold dst_at. cbn. by rewrite Hq, Hl.
Qed.

(** C4: a job on a well-formed pair of buffers (planes of two different blocks
    that hold the negotiated image, a supported algorithm) runs to completion:
    the destination plane holds the processed image and no other byte of
    memory changes; both buffers leave the ready queues and are given back as
    done, source first, and the job is finished once; the frame counter
    advances by one; and the destination buffer carries the metadata entry of
    exactly this frame, whose checksum is that of the image in row order. *)
Theorem device_run_processes `{KernelEnv} `{OpsTable} `{M2mFramework} `{!M2mLaws} `{DriverEnv}
    s c sb db sx dx sp dp (Hrr : run_ready s c sb db sx dx sp dp) (Hf : ctx_fmt_ok c)
    (Ha : algo_ok (b_algo_id sx) = true) (Hne : p_blk sp <> p_blk dp)
    (Hos : 0 <= p_off sp) (Hod : 0 <= p_off dp)
    (Hbs : p_off sp + sizeimage (out_q c) <= blen (kmem (vk s)) (p_blk sp))
    (Hbd : p_off dp + sizeimage (out_q c) <= blen (kmem (vk s)) (p_blk dp)) :
  let job := run_job c sp dp in
  let roi := vpipe_clamp_roi job (Some (b_roi sx)) in
  let image := out_image job (kmem (vk s)) (b_algo_id sx) (b_threshold sx) roi in
  let result := out_result job (kmem (vk s)) (b_algo_id sx) (b_threshold sx) roi in
  exists m bytes q,
    vpipe_device_run s = Some (tt, run_post s c sb db sx dx result bytes m q) /\
    painted job (kmem (vk s)) m (in_frame job) image /\
    length bytes = Z.to_nat (q_width (out_q c) * q_height (out_q c)) /\
    (forall x y, in_frame job x y = true ->
       bytes !! Z.to_nat (y * q_width (out_q c) + x) = Some (image x y)) /\
    view q = add_job (add_done db DONE (add_done sb DONE (popped (view (vm2m s))))).
Proof.
  destruct (device_run_ok s c sb db sx dx sp dp Hrr Hf Ha Hne Hos Hod Hbs Hbd)
    as (m & bytes & q & Hrun & Hv & Hp & Hb). cbv zeta.
  destruct (frame_bytes _ _ _ _ _ _ _ Hf Hod Hbd Hp Hb) as [Hlen Hpx].
  exists m, bytes, q. split; [done|]. split; [done|].
  split; [|done]. destruct Hf as [[? ? ? <- ?] _]. done.
Qed.

Lemma ex_sys_ready algo :
  @run_ready fifo_framework fifo_laws (ex_sys algo) ex_ctx 10 11 (ex_buf OUTPUT 1 algo)
    (ex_buf CAPTURE 2 0) (Ptr 1 0) (Ptr 2 0).
Proof. split; (reflexivity || discriminate). Defined.

Lemma ex_ctx_fmt : ctx_fmt_ok ex_ctx.
Proof. split; [|reflexivity]. split; cbn; (lia || reflexivity). Defined.

(** A table without operations: the job routine calls none. *)
Definition no_ops : OpsTable := fun _ => SourceOps None None None None None.

Lemma device_run_processes_witness :
  exists s', @vpipe_device_run env_ok fifo_framework env_sum (ex_sys 1) = Some (tt, s') /\
    (kmem (vk s') !! 2%positive, vseq s',
     seq ∘ b_meta_pending <$> vbufs s' !! 11%positive,
     algo_value0 ∘ b_meta_pending <$> vbufs s' !! 11%positive)
    = (Some [10; 255; 0; 128; 0; 255; 99], 42, Some 42, Some 2).
Proof.
  destruct (@device_run_processes env_ok no_ops fifo_framework fifo_laws env_sum (ex_sys 1)
    ex_ctx 10 11 (ex_buf OUTPUT 1 1) (ex_buf CAPTURE 2 0) (Ptr 1 0) (Ptr 2 0)
    (ex_sys_ready 1) ex_ctx_fmt eq_refl)
    as (m & bytes & q & H1 & _); [discriminate|cbn; lia..| | |].
  - vm_compute. congruence.
  - vm_compute. congruence.
  - eexists. split; [exact H1|].
    apply (fmap_run (fun s' => (kmem (vk s') !! 2%positive, vseq s',
      seq ∘ b_meta_pending <$> vbufs s' !! 11%positive,
      algo_value0 ∘ b_meta_pending <$> vbufs s' !! 11%positive)) _ _ _ _ H1).
    vm_compute. reflexivity.
Defined.

Section Errors.
Context `{KernelEnv} `{OpsTable} `{M2mFramework} `{!M2mLaws} `{DriverEnv}.

(** The state after a job that failed before touching memory. *)
Definition fail_post (s : vsys) (sb db : positive) (sx dx : vpipe_buffer) (q : m2m_ctx) : vsys :=
  set_vm2m q (set_vbufs (<[db := with_state ERROR dx]> (<[sb := with_state ERROR sx]> (vbufs s))) s).

Lemma fail_job_ok s sb db sx dx :
  hd_error (v_out (view (vm2m s))) = Some sb -> hd_error (v_cap (view (vm2m s))) = Some db ->
  vbufs s !! sb = Some sx -> vbufs s !! db = Some dx -> sb <> db ->
  exists q, fail_job s = Some (tt, fail_post s sb db sx dx q) /\
    view q = add_job (add_done db ERROR (add_done sb ERROR (popped (view (vm2m s))))).
Proof.
  destruct s as [w co bufs q n g]. cbn [vbufs vm2m]. intros Hs Hd Hsb Hdb Hne.
  destruct (remove_run OUTPUT (VSys _ w co bufs q n g)) as (q1 & Hr1 & Hv1).
  destruct (remove_run CAPTURE (VSys _ w co bufs q1 n g)) as (q2 & Hr2 & Hv2).
  cbn [vm2m set_vm2m ready vk vctx vbufs vseq vmeta] in Hr1, Hr2, Hv1, Hv2.
  exists (m2m_job_finish (m2m_buf_done db ERROR (m2m_buf_done sb ERROR q2))).
  split; [|by rewrite finish_view, !done_view, Hv2, Hv1].
  unfold fail_job, fbind at 1. rewrite Hr1. unfold fbind at 1. vcbn. rewrite Hr2, Hv1, Hs.
  cbn [v_cap set_ready]. rewrite Hd. vrun.
  rewrite (buf_done_run sb ERROR _ sx) by done. vcbn.
  erewrite buf_done_run by (vcbn; by rewrite lookup_insert_ne by done).
  vcbn. done.
Qed.
(** The failing branches with two buffers at hand. *)
Lemma device_run_fail s c sb db sx dx :
  vctx s = Some c -> hd_error (v_out (view (vm2m s))) = Some sb ->
  hd_error (v_cap (view (vm2m s))) = Some db ->
  vbufs s !! sb = Some sx -> vbufs s !! db = Some dx -> sb <> db ->
  (vb_plane (m2m_buf sx) = None \/ vb_plane (m2m_buf dx) = None \/
   algo_ok (b_algo_id sx) = false) ->
  exists q, vpipe_device_run s = Some (tt, fail_post s sb db sx dx q) /\
    view q = add_job (add_done db ERROR (add_done sb ERROR (popped (view (vm2m s))))).
Proof.
  intros Hc Hs Hd Hsb Hdb Hne Hbad.
  destruct (fail_job_ok s sb db sx dx Hs Hd Hsb Hdb Hne) as (q & Hq & Hv).
  exists q. split; [|done].
  unfold vpipe_device_run, fbind at 1, fget, fbind at 1, get_ctx. rewrite Hc, !next_view.
  cbn [ready]. rewrite Hs, Hd. unfold fbind at 1, get_buf at 1. rewrite Hsb.
  unfold fbind at 1, get_buf at 1. rewrite Hdb.
  destruct (vb_plane (m2m_buf sx)) as [sp|]; [|done].
  destruct (vb_plane (m2m_buf dx)) as [dp|]; [|done].
  destruct Hbad as [|[|Hbad]]; [done..|].
  apply orb_false_iff in Hbad as [Hn Ht].
  unfold fbind at 1, run_cv, vpipe_cv_process. rewrite Hn, Ht. cbn [ztrue Z.eqb negb Z.opp].
  destruct s as [[]]. exact Hq.
Qed.
End Errors.

(** C33: the branches of the job routine that do not process. With an empty
    ready queue it returns with no effect at all; when a plane has no kernel
    address, or the source buffer carries an unsupported algorithm, both
    buffers are given back with an error, the job is finished once, and no
    byte of memory, no counter and no metadata change. *)
Theorem device_run_failures `{KernelEnv} `{OpsTable} `{M2mFramework} `{!M2mLaws} `{DriverEnv}
    s c (Hc : vctx s = Some c) :
  match hd_error (v_out (view (vm2m s))), hd_error (v_cap (view (vm2m s))) with
  | Some sb, Some db =>
      forall sx dx, vbufs s !! sb = Some sx -> vbufs s !! db = Some dx -> sb <> db ->
      (vb_plane (m2m_buf sx) = None \/ vb_plane (m2m_buf dx) = None \/
       algo_ok (b_algo_id sx) = false) ->
      exists q, vpipe_device_run s = Some (tt, fail_post s sb db sx dx q) /\
        view q = add_job (add_done db ERROR (add_done sb ERROR (popped (view (vm2m s)))))
  | _, _ => vpipe_device_run s = Some (tt, s)
  end.
Proof.
  destruct (hd_error (v_out _)) as [sb|] eqn:Hs; [destruct (hd_error (v_cap _)) as [db|] eqn:Hd|].
  2,3: unfold vpipe_device_run, fbind, fget, get_ctx; rewrite Hc, !next_view; cbn [ready];
       by rewrite Hs, ?Hd.
  intros sx dx Hsb Hdb Hne Hbad. by apply (device_run_fail s c).
Qed.

Lemma device_run_failures_witness :
  exists q, @vpipe_device_run env_ok fifo_framework env_sum (ex_sys 4)
    = Some (tt, fail_post (ex_sys 4) 10 11 (ex_buf OUTPUT 1 4) (ex_buf CAPTURE 2 0) q) /\
    v_done q = [(10%positive, ERROR); (11%positive, ERROR)] /\ v_jobs q = 1%nat.
Proof.
  destruct (@device_run_failures env_ok no_ops fifo_framework fifo_laws env_sum (ex_sys 4)
    ex_ctx eq_refl (ex_buf OUTPUT 1 4) (ex_buf CAPTURE 2 0) eq_refl eq_refl)
    as (q & H1 & H2); [discriminate|auto|].
  exists q. split; [exact H1|]. cbn in H2. rewrite H2. split; reflexivity.
Defined.

(** ** Queued work and later controls *)

Section Frame.
Context `{KernelEnv} `{OpsTable} `{M2mFramework} `{!M2mLaws} `{DriverEnv}.
Context (c' : vpipe_ctx).

(** [g] run with the context replaced does what [f] does, and leaves the
    replaced context. *)
Definition framed {A} (f g : F vsys A) : Prop :=
  forall s, g (set_vctx (Some c') s) = (fun r => (r.1, set_vctx (Some c') r.2)) <$> f s.

Lemma framed_bind {A B} (f g : F vsys A) (k h : A -> F vsys B) :
  framed f g -> (forall a, framed (k a) (h a)) -> framed (fbind f k) (fbind g h).
Proof.
  intros Hf Hk s. unfold fbind. rewrite Hf. destruct (f s) as [[a s']|]; [|done].
  apply Hk.
Qed.

Lemma framed_get {B} (k h : vsys -> F vsys B) :
  (forall s, framed (k s) (h (set_vctx (Some c') s))) -> framed (fbind fget k) (fbind fget h).
Proof. intros Hk s. unfold fbind, fget. apply Hk. Qed.

Lemma framed_ret {A} (a : A) : framed (fret a) (fret a).
Proof. by intros s. Qed.
Lemma framed_fail {A} : framed (@ffail vsys A) ffail.
Proof. by intros s. Qed.
Lemma framed_lift {A} (o : option A) : framed (flift o) (flift o).
Proof. intros s. by destruct o. Qed.
Lemma framed_modify f :
  (forall s, f (set_vctx (Some c') s) = set_vctx (Some c') (f s)) -> framed (fmodify f) (fmodify f).
Proof. intros Hf s. unfold fmodify. by rewrite Hf. Qed.
Lemma framed_kern {A} (k : F kworld A) : framed (kern k) (kern k).
Proof. intros s. unfold kern. cbn. by destruct (k (vk s)) as [[]|]. Qed.
Lemma framed_get_buf b : framed (get_buf b) (get_buf b).
Proof. intros s. unfold get_buf. cbn. by destruct (vbufs s !! b). Qed.
Lemma framed_put_buf b x : framed (put_buf b x) (put_buf b x).
Proof. intros s. unfold put_buf. cbn. by destruct (vbufs s !! b). Qed.
Lemma framed_m2m f : framed (on_m2m f) (on_m2m f).
Proof. by apply framed_modify. Qed.
Lemma framed_remove t : framed (v4l2_m2m_buf_remove t) (v4l2_m2m_buf_remove t).
Proof. intros s. unfold v4l2_m2m_buf_remove. cbn. by destruct (m2m_buf_remove t (vm2m s)). Qed.
Lemma framed_cv job a t r : framed (run_cv job a t r) (run_cv job a t r).
Proof.
  intros s. unfold run_cv. cbn.
  by destruct (vpipe_cv_process job a t (Some r) (kmem (vk s))) as [[[]]|].
Qed.
End Frame.

Create HintDb framed.
#[export] Hint Resolve framed_ret framed_fail framed_lift framed_kern framed_get_buf
  framed_put_buf framed_m2m framed_remove framed_cv : framed.
#[export] Hint Extern 1 (framed _ (fmodify _) _) => by apply framed_modify : framed.

(** Walks through a computation bind by bind. *)
Ltac framed :=
  repeat match goal with
    | |- framed _ (fbind fget _) _ => apply framed_get; intros ?
    | |- framed _ (fbind _ _) _ => apply framed_bind; [|intros ?]
    | |- framed _ (match ?x with _ => _ end) (match ?x with _ => _ end) => destruct x
    | |- framed _ _ _ => solve [eauto with framed]
    end.

Section Snapshot.
Context `{KernelEnv} `{OpsTable} `{M2mFramework} `{!M2mLaws} `{DriverEnv}.

Lemma framed_done c' b st : framed c' (v4l2_m2m_buf_done b st) (v4l2_m2m_buf_done b st).
Proof. unfold v4l2_m2m_buf_done. framed. Qed.
Lemma framed_fail_job c' : framed c' fail_job fail_job.
Proof. unfold fail_job. framed; apply framed_done. Qed.

Lemma open_ctx {A} (k : vsys -> vpipe_ctx -> F vsys A) s c :
  vctx s = Some c -> (s0 <- fget;; c0 <- get_ctx;; k s0 c0) s = k s c s.
Proof. intros Hc. unfold fbind, fget, get_ctx. by rewrite Hc. Qed.

(** The job routine looks at the formats of the context only. *)
Lemma device_run_frame s c c' :
  vctx s = Some c -> out_q c' = out_q c -> cap_q c' = cap_q c ->
  vpipe_device_run (set_vctx (Some c') s) =
    (fun r => (r.1, set_vctx (Some c') r.2)) <$> vpipe_device_run s.
Proof.
  intros Hc Ho Hq. unfold vpipe_device_run.
  rewrite (open_ctx _ s c Hc), (open_ctx _ (set_vctx (Some c') s) c' eq_refl).
  destruct c as [oq cq ? ? ? ? ?], c' as [oq' cq' ? ? ? ? ?]. cbn in Ho, Hq. subst oq' cq'.
  match goal with |- ?g _ = _ <$> ?f _ => enough (Hfr : framed _ f g) by exact (Hfr s) end.
  cbn [vm2m set_vctx out_q cap_q].
  framed; auto using framed_fail_job, framed_done.
Qed.
End Snapshot.

(** A series of control changes; their return codes are dropped. *)
Fixpoint set_ctrls `{M2mFramework} (l : list (Z * Z)) : F vsys unit :=
  match l with
  | [] => fret tt
  | (id, v) :: l' => vpipe_s_ctrl id v;; set_ctrls l'
  end.

Section Controls.
Context `{KernelEnv} `{OpsTable} `{M2mFramework} `{!M2mLaws} `{DriverEnv}.

Lemma s_ctrl_run id v s c :
  vctx s = Some c ->
  exists ret c', vpipe_s_ctrl id v s = Some (ret, set_vctx (Some c') s) /\
    out_q c' = out_q c /\ cap_q c' = cap_q c /\ c_src c' = c_src c /\
    (ret = 0 \/ ret = - EINVAL /\ c' = c).
Proof.
  intros Hc. unfold vpipe_s_ctrl, fbind at 1, get_ctx. rewrite Hc.
  repeat (destruct (id =? _); [eexists _, _; split; [reflexivity|]; split_and!; auto|]).
  exists (- EINVAL), c. split; [|split_and!; auto]. destruct s. cbn in Hc. by subst.
Qed.

Lemma set_ctrls_run l : forall s c,
  vctx s = Some c ->
  exists c', set_ctrls l s = Some (tt, set_vctx (Some c') s) /\
    out_q c' = out_q c /\ cap_q c' = cap_q c.
Proof.
  induction l as [|[id v] l IH]; intros s c Hc; cbn [set_ctrls].
  - exists c. split; [|done]. destruct s. cbn in Hc. by subst.
  - destruct (s_ctrl_run id v s c Hc) as (ret & c1 & Hr & Ho & Hq & _).
    unfold fbind. rewrite Hr. destruct (IH (set_vctx (Some c1) s) c1 eq_refl)
      as (c2 & Hr2 & Ho2 & Hq2).
    exists c2. split; [by rewrite Hr2|]. split; congruence.
Qed.

(** Control changes do not read anything but the context. *)
Lemma set_ctrls_ctx l c c' : forall s s',
  vctx s = Some c -> vctx s' = Some c ->
  set_ctrls l s = Some (tt, set_vctx (Some c') s) ->
  exists c2, set_ctrls l s' = Some (tt, set_vctx (Some c2) s') /\ c2 = c'.
Proof.
  revert c. induction l as [|[id v] l IH]; intros c s s' Hs Hs'; cbn [set_ctrls].
  - intros [= E]. exists c. split; [destruct s'; cbn in Hs'; by subst|].
    assert (E2 : vctx s = Some c') by (rewrite E; done). congruence.
  - assert (Hone : forall s, vctx s = Some c -> exists ret c1, forall s,
      vctx s = Some c -> vpipe_s_ctrl id v s = Some (ret, set_vctx (Some c1) s)).
    { intros s0 _. unfold vpipe_s_ctrl, fbind at 1, get_ctx.
      repeat (destruct (id =? _);
        [eexists 0, _; intros s1 Hs1; rewrite Hs1; reflexivity|]).
      exists (- EINVAL), c. intros s1 Hs1. rewrite Hs1. destruct s1. cbn in Hs1. by subst. }
    destruct (Hone s Hs) as (ret & c1 & Hc1). unfold fbind. rewrite (Hc1 s Hs), (Hc1 s' Hs').
    intros E. apply (IH c1 (set_vctx (Some c1) s) (set_vctx (Some c1) s') eq_refl eq_refl E).
Qed.
End Controls.

(** C32: what is queued is self-contained. Any series of control changes made
    after a buffer was queued commutes with the job that processes it: running
    the job before or after the changes gives the same outcome, a fault
    included, and the same final state, so neither the image nor the metadata
    entry of a queued frame can be altered by them. *)
Theorem controls_miss_queued_work `{KernelEnv} `{OpsTable} `{M2mFramework} `{!M2mLaws}
    `{DriverEnv} l s :
  (set_ctrls l;; vpipe_device_run) s =
  (r <- vpipe_device_run;; set_ctrls l;; fret r) s.
Proof.
  destruct (vctx s) as [c|] eqn:Hc.
  2:{ unfold vpipe_device_run, fbind, fget, get_ctx. rewrite Hc.
      destruct l as [|[id v] l]; cbn [set_ctrls fret]; [by rewrite Hc|].
      unfold fbind, vpipe_s_ctrl, fbind, get_ctx. by rewrite Hc. }
  destruct (set_ctrls_run l s c Hc) as (c' & Hl & Ho & Hq).
  unfold fbind. rewrite Hl, (device_run_frame s c c' Hc Ho Hq).
  destruct (vpipe_device_run s) as [[[] s']|] eqn:Hrun; [|done]. cbn.
  assert (Hc2 : vctx s' = Some c).
  { pose proof (device_run_frame s c c Hc eq_refl eq_refl) as Hfr.
    replace (set_vctx (Some c) s) with s in Hfr by (destruct s; cbn in Hc; by subst).
    rewrite Hrun in Hfr. injection Hfr as ->. done. }
  destruct (set_ctrls_ctx l c c' s s' Hc Hc2 Hl) as (c2 & -> & ->). done.
Qed.

Lemma controls_miss_queued_work_witness :
  let l := [(VPIPE_CID_ALGO, 0); (VPIPE_CID_THRESHOLD, 0); (VPIPE_CID_ROI_WIDTH, 0)] in
  exists s', (set_ctrls l;; @vpipe_device_run env_ok fifo_framework env_sum) (ex_sys 1)
      = Some (tt, s') /\
    (kmem (vk s') !! 2%positive, c_threshold <$> vctx s')
    = (Some [10; 255; 0; 128; 0; 255; 99], Some 0).
Proof.
  cbv zeta.
  rewrite (@controls_miss_queued_work env_ok no_ops fifo_framework fifo_laws env_sum
    [(VPIPE_CID_ALGO, 0); (VPIPE_CID_THRESHOLD, 0); (VPIPE_CID_ROI_WIDTH, 0)] (ex_sys 1)).
  eexists. split; vm_compute; reflexivity.
Defined.

(** ** Giving buffers back *)

Section Return.
Context `{KernelEnv} `{OpsTable} `{M2mFramework} `{!M2mLaws} `{DriverEnv}.

(** The buffers of [l] in state [st]. *)
Definition mark (st : vb2_state) (l : list positive) (m : gmap positive vpipe_buffer)
    : gmap positive vpipe_buffer :=
  map_imap (fun b x => Some (if decide (b ∈ l) then with_state st x else x)) m.

Lemma mark_lookup st l m b :
  mark st l m !! b = (fun x => if decide (b ∈ l) then with_state st x else x) <$> m !! b.
Proof. unfold mark. rewrite map_lookup_imap. by destruct (m !! b). Qed.

Lemma mark_cons st a l m x :
  a ∉ l -> m !! a = Some x -> mark st l (<[a := with_state st x]> m) = mark st (a :: l) m.
Proof.
  intros Hn Ha. apply map_eq. intros b. rewrite !mark_lookup.
  destruct (decide (b = a)) as [->|Hb].
  - rewrite lookup_insert_eq, Ha. cbn. rewrite decide_False by done.
    by rewrite decide_True by set_solver.
  - rewrite lookup_insert_ne by done. destruct (m !! b); [|done]. cbn.
    f_equal. destruct (decide (b ∈ l)), (decide (b ∈ a :: l)); set_solver.
Qed.

Lemma return_all_loop_ok t fuel : forall s l,
  ready t (view (vm2m s)) = l -> (length l < fuel)%nat -> NoDup l ->
  (forall b, b ∈ l -> is_Some (vbufs s !! b)) ->
  exists q, return_all_loop fuel t s = Some (tt, set_vm2m q (set_vbufs (mark ERROR l (vbufs s)) s)) /\
    view q = set_ready t [] (foldl (fun v b => add_done b ERROR v) (view (vm2m s)) l).
Proof.
  induction fuel as [|fuel IH]; intros s l Hl Hlen Hnd Hin; [lia|].
  cbn [return_all_loop]. unfold fbind at 1.
  destruct (remove_run t s) as (q & Hr & Hv). rewrite Hr, Hl.
  rewrite Hl in Hv. destruct l as [|b l]; cbn [hd_error list.head].
  - exists q. split; [|by rewrite Hv]. unfold fret. do 2 f_equal.
    replace (mark ERROR [] (vbufs s)) with (vbufs s); [by destruct s|].
    apply map_eq. intros k. rewrite mark_lookup. by destruct (vbufs s !! k).
  - destruct (Hin b ltac:(set_solver)) as [x Hx]. apply list.NoDup_cons in Hnd as [Hb Hnd].
    unfold fbind at 1. rewrite (buf_done_run b ERROR _ x) by done.
    destruct s as [w co bufs q0 n g]. cbn [vbufs vm2m] in *. vcbn.
    destruct (IH (VSys _ w co (<[b := with_state ERROR x]> bufs) (m2m_buf_done b ERROR q) n g) l)
      as (q' & Hrun & Hq').
    + cbn [vm2m]. rewrite done_view, Hv. by destruct t.
    + cbn in Hlen. lia.
    + done.
    + intros k Hk. cbn [vbufs]. rewrite lookup_insert. case_decide; [done|]. apply Hin. set_solver.
    + exists q'. rewrite Hrun. vcbn. split; [by rewrite (mark_cons ERROR b l bufs x)|].
      rewrite Hq'. cbn [vm2m foldl]. rewrite done_view, Hv.
      generalize (view q0). clear. intros v.
      assert (Hgen : forall v1 v2, set_ready t [] v1 = set_ready t [] v2 ->
        set_ready t [] (foldl (fun v b => add_done b ERROR v) v1 l) =
        set_ready t [] (foldl (fun v b => add_done b ERROR v) v2 l)).
      { induction l as [|a l IH]; intros v1 v2 E; [done|]. cbn. apply IH.
        destruct t; injection E as ? ? ? ? ? ? ?; unfold set_ready, add_done; cbn; congruence. }
      apply Hgen. by destruct t, v.
Qed.

Lemma NoDup_length_size (l : list positive) (m : gmap positive vpipe_buffer) :
  NoDup l -> (forall b, b ∈ l -> is_Some (m !! b)) -> (length l <= size m)%nat.
Proof.
  intros Hnd Hin. rewrite <- (size_list_to_set (C := gset positive) l Hnd), <- size_dom.
  apply subseteq_size. intros b Hb. apply elem_of_dom, Hin. set_solver.
Qed.

Lemma return_all_buffers_ok t s l :
  ready t (view (vm2m s)) = l -> NoDup l ->
  (forall b, b ∈ l -> is_Some (vbufs s !! b)) ->
  exists q, vpipe_return_all_buffers t s
      = Some (tt, set_vm2m q (set_vbufs (mark ERROR l (vbufs s)) s)) /\
    view q = set_ready t [] (foldl (fun v b => add_done b ERROR v) (view (vm2m s)) l).
Proof.
  intros Hl Hnd Hin. apply return_all_loop_ok; try done.
  pose proof (NoDup_length_size _ _ Hnd Hin). lia.
Qed.

(** [vpipe_buf_finish], branch by branch. *)
Lemma buf_finish_run b s x :
  vbufs s !! b = Some x ->
  vpipe_buf_finish b s =
    if decide (vb_type (m2m_buf x) = CAPTURE) then
      if seq (b_meta_pending x) =? 0 then Some (tt, s)
      else
        let e := with_dqbuf (ktime (kclock (vk s))) (b_meta_pending x) in
        Some (tt, VSys _ (tick_clock (vk s)) (vctx s)
          (<[b := with_pending (with_meta_seq 0 e) x]> (vbufs s)) (vm2m s) (vseq s)
          (vpipe_meta_publish e (vmeta s)))
    else Some (tt, s).
Proof.
  intros Hb. unfold vpipe_buf_finish, fbind at 1, get_buf. rewrite Hb.
  destruct (vb_type (m2m_buf x)); [done|]. cbn [decide buf_type_eq_dec].
  case_decide; [|done]. destruct (seq _ =? 0); [done|]. vrun. by rewrite Hb.
Qed.
End Return.
