(* ===== verification/Pipeline.v ===== *)
(** * The driver under its framework

    The callbacks of [kmod/vpipe-m2m.c] as events in any order the frameworks
    allow, an invariant that every event preserves, and what follows from it:
    no event faults, every processed frame is published exactly once, and the
    timestamps of a published entry are ordered. *)

From S2P Require Import Prelude Types Cv Meta Kernel Source Backends M2m M2mSpec.

(** ** Events *)

Inductive event :=
  | EvSFmt (t : buf_type) (pix : v4l2_pix_format)   (** [VIDIOC_S_FMT] *)
  | EvCtrl (id val : Z)                             (** [VIDIOC_S_CTRL] *)
  | EvPrepare (b : positive)                        (** [VIDIOC_QBUF], first half *)
  | EvQueue (b : positive)                          (** the buffer reaches the driver *)
  | EvRun                                           (** the job runs *)
  | EvFinish (b : positive)                         (** [VIDIOC_DQBUF] *)
  | EvStart (t : buf_type)                          (** [VIDIOC_STREAMON] *)
  | EvStop (t : buf_type)                           (** [VIDIOC_STREAMOFF] *)
  | EvBackend (id : Z).                             (** [VPIPE_IOC_SET_BACKEND] *)

Section Events.
Context `{KernelEnv} `{OpsTable} `{M2mFramework} `{DriverEnv}.

(** The framework's own bookkeeping of a buffer's state. *)
Definition set_state (b : positive) (st : vb2_state) : F vsys unit :=
  x <- get_buf b;; put_buf b (with_state st x).

Definition exec (e : event) : F vsys unit :=
  match e with
  | EvSFmt t pix => vpipe_s_fmt t pix;; fret tt
  | EvCtrl id val => vpipe_s_ctrl id val;; fret tt
  | EvPrepare b =>
      r <- vpipe_buf_prepare b;;
      if ztrue r then fret tt else set_state b PREPARED
  | EvQueue b => set_state b ACTIVE;; vpipe_buf_queue b
  | EvRun => vpipe_device_run
  | EvFinish b => vpipe_buf_finish b;; set_state b DEQUEUED
  | EvStart t =>
      r <- vpipe_start_streaming t;;
      if ztrue r then fret tt else on_m2m (vb2_set_streaming t true)
  | EvStop t => vpipe_stop_streaming t;; on_m2m (vb2_set_streaming t false)
  | EvBackend id => vpipe_default_ioctl (VPIPE_IOC_SET_BACKEND id);; fret tt
  end.

Fixpoint exec_all (es : list event) : F vsys unit :=
  match es with
  | [] => fret tt
  | e :: es' => exec e;; exec_all es'
  end.
End Events.

(** The control framework accepts a value of a registered control within its
    declared range. *)
Definition ctrl_in_range (id val : Z) : bool :=
  existsb (fun cfg => (ctrl_id cfg =? id) && (ctrl_min cfg <=? val) && (val <=? ctrl_max cfg))
    vpipe_ctrls.

(** When the frameworks deliver an event. Buffers go through
    dequeued, prepared, active, done or error, dequeued; a job runs when both
    queues have a buffer; the control framework checks the declared range;
    and the application sets the format while both queues are in the same
    condition, that is before it requests the first buffers. *)
Definition enabled `{M2mFramework} `{!M2mLaws} (e : event) (s : vsys) : Prop :=
  let st b := vb_state ∘ m2m_buf <$> vbufs s !! b in
  let v := view (vm2m s) in
  match e with
  | EvSFmt _ _ => v_busy_out v = v_busy_cap v
  | EvCtrl id val => ctrl_in_range id val = true
  | EvPrepare b => st b = Some DEQUEUED
  | EvQueue b => st b = Some PREPARED
  | EvRun => v_out v <> [] /\ v_cap v <> [] /\ vseq s + 1 <= ULONG_MAX
  | EvFinish b => st b = Some PREPARED \/ st b = Some DONE \/ st b = Some ERROR
  | EvStart t => streaming t v = false
  | EvStop t => streaming t v = true
  | EvBackend _ => True
  end.

(** ** The invariant *)

(** The timestamps a frame collects in the driver, up to [now]. *)
Definition ordered (e : vpipe_meta_entry) (now : Z) : Prop :=
  qbuf_timestamp_ns e <= capture_done_ns e <= now.

(** One buffer, given the blocks [D] of the planes, the memory, the image size,
    the observable framework, the clock, the frame counter and the published
    entries. *)
Record buf_inv (D : gset positive) (m : mem) (sz : Z) (v : m2m_view) (now n : Z)
    (log : list vpipe_meta_entry) (b : positive) (x : vpipe_buffer) : Prop := {
  bi_busy : busy (vb_type (m2m_buf x)) v = true;
  bi_plane : forall q, vb_plane (m2m_buf x) = Some q ->
    p_blk q ∈ D /\ 0 <= p_off q /\ p_off q + vb_length (m2m_buf x) <= blen m (p_blk q);
  bi_size : vb_state (m2m_buf x) = PREPARED \/ vb_state (m2m_buf x) = ACTIVE ->
    sz <= vb_length (m2m_buf x);
  bi_active : vb_state (m2m_buf x) = ACTIVE <-> b ∈ ready (vb_type (m2m_buf x)) v;
  bi_work : vb_type (m2m_buf x) = OUTPUT -> vb_state (m2m_buf x) = ACTIVE ->
    algo_ok (b_algo_id x) = true /\ b_qbuf_ns x <= now;
  bi_pend : seq (b_meta_pending x) <> 0 ->
    vb_type (m2m_buf x) = CAPTURE /\ vb_state (m2m_buf x) = DONE /\
    1 <= seq (b_meta_pending x) <= n /\ (seq (b_meta_pending x) ∉ (seq <$> log)) /\
    ordered (b_meta_pending x) now
}.

(** The buffers together: planes of different buffers are different blocks,
    no frame number is pending twice, and the ready queues hold buffers of
    their type, each once. *)
Record bufs_inv (D : gset positive) (m : mem) (sz : Z) (v : m2m_view) (now n : Z)
    (log : list vpipe_meta_entry) (bufs : gmap positive vpipe_buffer) : Prop := {
  bs_each : forall b x, bufs !! b = Some x -> buf_inv D m sz v now n log b x;
  bs_disj : forall b b' x x' q q', bufs !! b = Some x -> bufs !! b' = Some x' -> b <> b' ->
    vb_plane (m2m_buf x) = Some q -> vb_plane (m2m_buf x') = Some q' -> p_blk q <> p_blk q';
  bs_pend : forall b b' x x', bufs !! b = Some x -> bufs !! b' = Some x' ->
    seq (b_meta_pending x) <> 0 -> seq (b_meta_pending x) = seq (b_meta_pending x') -> b = b';
  bs_ready : forall t b, b ∈ ready t v -> exists x, bufs !! b = Some x /\ vb_type (m2m_buf x) = t;
  bs_nodup : forall t, NoDup (ready t v)
}.

(** The published entries: numbered once each, with ordered timestamps; and
    every number handed out so far is published or pending. *)
Record log_inv (n : Z) (g : vpipe_meta_dev) (log : list vpipe_meta_entry)
    (bufs : gmap positive vpipe_buffer) : Prop := {
  li_ring : Log.ring_log g log;
  li_range : 0 <= n <= ULONG_MAX;
  li_nodup : NoDup (seq <$> log);
  li_each : forall e, e ∈ log -> 1 <= seq e <= n /\ ordered e (dqbuf_timestamp_ns e);
  li_all : forall i, 1 <= i <= n ->
    i ∈ (seq <$> log) \/ exists b x, bufs !! b = Some x /\ seq (b_meta_pending x) = i
}.

Record ctx_inv (c : vpipe_ctx) : Prop := {
  ci_fmt : ctx_fmt_ok c;
  ci_algo : algo_ok (c_algo_id c) = true;
  ci_thr : 0 <= c_threshold c <= 255
}.

Section Invariant.
Context `{SourceContract} `{!ClockLaws} `{M2mFramework} `{!M2mLaws} `{DriverEnv}.

Definition reg_ok (w : kworld) : Prop :=
  length (backend_ops w) = 4%nat /\ length (backend_name w) = 4%nat.

Record Inv (hb : gmap positive kobj) (D : gset positive) (c : vpipe_ctx) (p : positive)
    (so : vpipe_source) (log : list vpipe_meta_entry) (s : vsys) : Prop := MkInv {
  iv_ctx : vctx s = Some c;
  iv_src : c_src c = Some p;
  iv_own : owned p so hb D (vk s);
  iv_idle : streaming OUTPUT (view (vm2m s)) = false -> priv so = None;
  iv_reg : reg_ok (vk s);
  iv_cinv : ctx_inv c;
  iv_bufs : bufs_inv D (kmem (vk s)) (sizeimage (out_q c)) (view (vm2m s))
              (ktime (kclock (vk s))) (vseq s) log (vbufs s);
  iv_log : log_inv (vseq s) (vmeta s) log (vbufs s)
}.

(** The invariant of a reachable state. *)
Definition inv (hb : gmap positive kobj) (D : gset positive) (s : vsys) : Prop :=
  exists c p so log, Inv hb D c p so log s.

(** ** Small steps towards preservation *)

Lemma buf_inv_mono D m m' sz v now now' n n' log b x :
  (forall k, k ∈ D -> blen m' k = blen m k) -> now <= now' -> n <= n' ->
  buf_inv D m sz v now n log b x -> buf_inv D m' sz v now' n' log b x.
Proof.
  intros Hb Ht Hn [I1 I2 I3 I4 I5 I6]. split; try done.
  - intros q Hq. destruct (I2 q Hq) as (? & ? & ?). by rewrite Hb.
  - intros Hty Hst. destruct (I5 Hty Hst). split; [done|lia].
  - intros Hp. destruct (I6 Hp) as (? & ? & ? & ? & ? & ?). unfold ordered.
    split_and!; (done || lia).
Qed.

Lemma bufs_inv_mono D m m' sz v now now' n n' log bufs :
  (forall k, k ∈ D -> blen m' k = blen m k) -> now <= now' -> n <= n' ->
  bufs_inv D m sz v now n log bufs -> bufs_inv D m' sz v now' n' log bufs.
Proof.
  intros Hb Ht Hn [I1 I2 I3 I4 I5]. split; try done.
  intros b x Hx. eapply buf_inv_mono; eauto.
Qed.

(** Replacing a buffer by one with the same queue, plane and pending entry. *)
Lemma bufs_inv_put D m sz v now n log bufs b x x' :
  bufs !! b = Some x -> vb_type (m2m_buf x') = vb_type (m2m_buf x) ->
  vb_plane (m2m_buf x') = vb_plane (m2m_buf x) ->
  seq (b_meta_pending x') = seq (b_meta_pending x) ->
  buf_inv D m sz v now n log b x' ->
  bufs_inv D m sz v now n log bufs -> bufs_inv D m sz v now n log (<[b := x']> bufs).
Proof.
  intros Hx Hty Hpl Hsq Hb [I1 I2 I3 I4 I5].
  assert (Hback : forall k y, <[b := x']> bufs !! k = Some y -> exists y0,
    bufs !! k = Some y0 /\ vb_type (m2m_buf y) = vb_type (m2m_buf y0) /\
    vb_plane (m2m_buf y) = vb_plane (m2m_buf y0) /\
    seq (b_meta_pending y) = seq (b_meta_pending y0)).
  { intros k y. rewrite lookup_insert. case_decide as E; [|eauto]. subst k.
    intros [= <-]. eauto. }
  split; [| | | |done].
  - intros k y. rewrite lookup_insert. case_decide as E; [|eauto]. subst k.
    intros [= <-]. done.
  - intros k k' y y' q q' (y0 & Hy0 & _ & -> & _)%Hback (y1 & Hy1 & _ & -> & _)%Hback. eauto.
  - intros k k' y y' (y0 & Hy0 & _ & _ & ->)%Hback (y1 & Hy1 & _ & _ & ->)%Hback. eauto.
  - intros t k Hk. destruct (I4 t k Hk) as (y & Hy & Ht). rewrite lookup_insert.
    case_decide as E; [|eauto]. subst k. exists x'. split; [done|]. congruence.
Qed.

Lemma log_inv_put n g log bufs b x x' :
  bufs !! b = Some x -> seq (b_meta_pending x') = seq (b_meta_pending x) ->
  log_inv n g log bufs -> log_inv n g log (<[b := x']> bufs).
Proof.
  intros Hx Hsq [I1 I2 I3 I4 I5]. split; try done. intros i Hi.
  destruct (I5 i Hi) as [|(k & y & Hy & He)]; [by left|right].
  destruct (decide (k = b)) as [->|Hne].
  - exists b, x'. rewrite lookup_insert_eq. split; [done|]. congruence.
  - exists k, y. by rewrite lookup_insert_ne.
Qed.

(** Changes that reach neither the buffers' view of the world nor the log. *)
Lemma Inv_world hb D c p so so' log s w :
  Inv hb D c p so log s -> owned p so' hb D w -> keeps D (vk s) w ->
  (streaming OUTPUT (view (vm2m s)) = false -> priv so' = None) ->
  Inv hb D c p so' log (set_vk w s).
Proof.
  intros [I1 I2 I3 I4 I5 I6 I7 I8] Ho [K1 K2 K3 K4] Hi. split; try done.
  - unfold reg_ok. cbn. by rewrite K2, K3.
  - cbn. eapply bufs_inv_mono; [exact K4|by apply ktime_mono|done|exact I7].
Qed.

Lemma Inv_ctx hb D c c' p so log s :
  Inv hb D c p so log s -> c_src c' = Some p -> ctx_inv c' ->
  (out_q c' = out_q c \/ vbufs s = ∅) -> Inv hb D c' p so log (set_vctx (Some c') s).
Proof.
  intros [I1 I2 I3 I4 I5 I6 I7 I8] Hs Hc Hq. split; try done. cbn.
  destruct Hq as [->|Hq]; [done|]. rewrite Hq in *. destruct I7 as [B1 B2 B3 B4 B5].
  by split.
Qed.

Lemma s_fmt_inv hb D t pix s :
  inv hb D s -> v_busy_out (view (vm2m s)) = v_busy_cap (view (vm2m s)) ->
  exists s', (vpipe_s_fmt t pix;; fret tt) s = Some (tt, s') /\ inv hb D s'.
Proof.
  intros (c & p & so & log & HI) Hb. pose proof HI as [Hc Hs _ _ _ Hci Hbufs _].
  unfold fbind. rewrite (s_fmt_run t pix s c Hc).
  destruct (busy t (view (vm2m s))) eqn:Hbt.
  - exists s. split; [done|]. by exists c, p, so, log.
  - eexists. split; [reflexivity|]. eexists _, p, so, log.
    apply (Inv_ctx _ _ c); [done|done| |right].
    + split; [|apply Hci..]. split; [apply fill_pix_ok|done].
    + apply map_empty. intros b. destruct (vbufs s !! b) as [x|] eqn:Hx; [|done].
      pose proof (bi_busy _ _ _ _ _ _ _ _ _ (bs_each _ _ _ _ _ _ _ _ Hbufs b x Hx)) as Hbx.
      destruct t, (vb_type (m2m_buf x)); cbn in *; congruence.
Qed.

Lemma ctrl_inv hb D id val s :
  inv hb D s -> ctrl_in_range id val = true ->
  exists s', (vpipe_s_ctrl id val;; fret tt) s = Some (tt, s') /\ inv hb D s'.
Proof.
  intros (c & p & so & log & HI) Hex. pose proof HI as [Hc Hs _ _ _ [Hf Ha Ht] _ _].
  assert (Hrun : exists ret c', vpipe_s_ctrl id val s = Some (ret, set_vctx (Some c') s) /\
    c_src c' = Some p /\ ctx_inv c' /\ out_q c' = out_q c).
  { unfold vpipe_s_ctrl, fbind at 1, get_ctx. rewrite Hc.
    apply existsb_exists in Hex as (cfg & Hin%list_elem_of_In & Hr).
    rewrite !andb_true_iff, Z.eqb_eq, !Z.leb_le in Hr. destruct Hr as [[<- Hlo] Hhi].
    repeat (apply elem_of_cons in Hin as [->|Hin]); [..|by apply elem_of_nil in Hin];
      cbn in Hlo, Hhi; unfold INT_MAX, VPIPE_ALGO_NONE, VPIPE_ALGO_THRESHOLD in *;
      (eexists 0, _; split; [reflexivity|]; split; [done|]; split; [|done]); split; cbn;
      try done.
    - rewrite u32_small by lia. unfold algo_ok, VPIPE_ALGO_NONE, VPIPE_ALGO_THRESHOLD. lia.
    - rewrite u32_small; lia. }
  destruct Hrun as (ret & c' & Hrun & Hs' & Hc' & Hq). unfold fbind. rewrite Hrun.
  eexists. split; [reflexivity|]. exists c', p, so, log. eapply Inv_ctx; eauto.
Qed.

Lemma set_state_run b st s x :
  vbufs s !! b = Some x ->
  set_state b st s = Some (tt, set_vbufs (<[b := with_state st x]> (vbufs s)) s).
Proof. intros Hx. unfold set_state, fbind, get_buf, put_buf. by rewrite !Hx. Qed.

Lemma Inv_put hb D c p so log s b x x' :
  Inv hb D c p so log s -> vbufs s !! b = Some x ->
  vb_type (m2m_buf x') = vb_type (m2m_buf x) -> vb_plane (m2m_buf x') = vb_plane (m2m_buf x) ->
  seq (b_meta_pending x') = seq (b_meta_pending x) ->
  buf_inv D (kmem (vk s)) (sizeimage (out_q c)) (view (vm2m s)) (ktime (kclock (vk s)))
    (vseq s) log b x' ->
  Inv hb D c p so log (set_vbufs (<[b := x']> (vbufs s)) s).
Proof.
  intros [I1 I2 I3 I4 I5 I6 I7 I8] Hx Ht Hp Hs Hb. split; try done.
  - by eapply bufs_inv_put.
  - by eapply log_inv_put.
Qed.

(** Buffers see the framework only through their own membership. *)
Lemma buf_inv_view D m sz v v' now n log b x :
  (forall t, busy t v' = busy t v) ->
  (b ∈ ready (vb_type (m2m_buf x)) v' <-> b ∈ ready (vb_type (m2m_buf x)) v) ->
  buf_inv D m sz v now n log b x -> buf_inv D m sz v' now n log b x.
Proof.
  intros Hb Hr [I1 I2 I3 I4 I5 I6]. split; try done; [by rewrite Hb|by rewrite Hr].
Qed.

Lemma prepare_inv hb D b s :
  inv hb D s -> vb_state ∘ m2m_buf <$> vbufs s !! b = Some DEQUEUED ->
  exists s', exec (EvPrepare b) s = Some (tt, s') /\ inv hb D s'.
Proof.
  intros (c & p & so & log & HI) Hst. pose proof HI as [Hc _ _ _ _ [Hf _ _] Hbufs _].
  destruct (vbufs s !! b) as [x|] eqn:Hx; [|done]. injection Hst as Hst.
  cbn [exec]. unfold vpipe_buf_prepare, fbind at 1 2 3, get_buf, get_ctx. rewrite Hx, Hc.
  rewrite ctx_fmt_get by done. destruct (Z.ltb_spec (vb_length (m2m_buf x)) (sizeimage (out_q c))).
  { exists s. split; [done|]. by exists c, p, so, log. }
  unfold fbind, put_buf. rewrite Hx. cbn [ztrue Z.eqb negb fret].
  erewrite set_state_run by (cbn; by rewrite lookup_insert_eq).
  eexists. split; [reflexivity|]. exists c, p, so, log. vcbn. rewrite insert_insert_eq.
  eapply (Inv_put _ _ _ _ _ _ s b x); try done.
  destruct (bs_each _ _ _ _ _ _ _ _ Hbufs b x Hx) as [I1 I2 I3 I4 I5 I6].
  split; cbn; try done.
  - rewrite <- I4, Hst. done.
  - intros Hp. destruct (I6 Hp) as (_ & E & _). congruence.
Qed.

(** A prepared buffer enters its ready queue. *)
Lemma Inv_queue hb D c p so log s q b x x' :
  Inv hb D c p so log s -> vbufs s !! b = Some x -> vb_state (m2m_buf x) = PREPARED ->
  vb_type (m2m_buf x') = vb_type (m2m_buf x) -> vb_plane (m2m_buf x') = vb_plane (m2m_buf x) ->
  vb_length (m2m_buf x') = vb_length (m2m_buf x) -> vb_state (m2m_buf x') = ACTIVE ->
  b_meta_pending x' = b_meta_pending x ->
  (vb_type (m2m_buf x) = OUTPUT ->
     algo_ok (b_algo_id x') = true /\ b_qbuf_ns x' <= ktime (kclock (vk s))) ->
  view q = set_ready (vb_type (m2m_buf x)) (ready (vb_type (m2m_buf x)) (view (vm2m s)) ++ [b])
             (view (vm2m s)) ->
  Inv hb D c p so log (set_vm2m q (set_vbufs (<[b := x']> (vbufs s)) s)).
Proof.
  intros [I1 I2 I3 I4 I5 I6 [B1 B2 B3 B4 B5] I8] Hx Hst Hty Hpl Hln Hst' Hpd Hwork Hv.
  set (t := vb_type (m2m_buf x)) in *. set (v := view (vm2m s)) in *.
  destruct (B1 b x Hx) as [X1 X2 X3 X4 X5 X6]. fold t in X1, X4.
  assert (Hnot : b ∉ ready t v) by (rewrite <- X4; congruence).
  assert (Hbusy : forall t', busy t' (view q) = busy t' v) by (intros []; rewrite Hv; by destruct t).
  assert (Hready : forall t', ready t' (view q) = if decide (t' = t) then ready t v ++ [b]
                                                  else ready t' v)
    by (intros []; rewrite Hv; destruct t; done).
  assert (Hx' : buf_inv D (kmem (vk s)) (sizeimage (out_q c)) (view q)
    (ktime (kclock (vk s))) (vseq s) log b x').
  { split.
    - by rewrite Hty, Hbusy.
    - intros a. rewrite Hpl, Hln. apply X2.
    - intros _. rewrite Hln. apply X3. by left.
    - rewrite Hty, Hst', Hready, decide_True, elem_of_snoc by done. tauto.
    - rewrite Hty. intros Ho _. by apply Hwork.
    - rewrite Hpd. intros Hp. destruct (X6 Hp) as (_ & E & _). congruence. }
  assert (Hold : bufs_inv D (kmem (vk s)) (sizeimage (out_q c)) v
    (ktime (kclock (vk s))) (vseq s) log (vbufs s)) by done.
  split; try done; vcbn.
  - rewrite Hv. by destruct t.
  - split.
    + intros k y. rewrite lookup_insert. case_decide as E; [subst k; by intros [= <-]|].
      intros Hy. eapply buf_inv_view; [exact Hbusy| |by apply B1].
      rewrite Hready. case_decide as Et; [|done]. rewrite Et, elem_of_snoc. intuition congruence.
    + intros k k' y y' a a'. rewrite !lookup_insert.
      case_decide; case_decide; intros; simplify_eq; rewrite ?Hpl in *; eauto.
    + intros k k' y y'. rewrite !lookup_insert.
      case_decide; case_decide; intros; simplify_eq; rewrite ?Hpd in *; eauto.
    + intros t' k. rewrite Hready, lookup_insert. case_decide as Et; [subst t'|].
      * intros Hk. case_decide as Ek; [subst k; by exists x'|].
        apply elem_of_snoc in Hk as [Hk| ->]; [by apply B4|done].
      * intros Hk. case_decide as Ek; [|by apply B4]. subst k.
        destruct (B4 t' b Hk) as (y & Hy & E). rewrite Hx in Hy. by simplify_eq.
    + intros t'. rewrite Hready. case_decide; [|apply B5]. by apply NoDup_snoc.
  - eapply log_inv_put; [exact Hx|by rewrite Hpd|done].
Qed.

(** The plane of a buffer that holds the image is a legal target of a frame. *)
Lemma plane_target hb D c p so log s b x (w : kworld) :
  Inv hb D c p so log s -> vbufs s !! b = Some x -> vb_state (m2m_buf x) = PREPARED ->
  kmem w = kmem (vk s) ->
  plane_ok p w D (vb_plane (m2m_buf x))
    (desc_zero (q_width (out_q c)) (q_height (out_q c)) (bytesperline (out_q c))).
Proof.
  intros HI Hx Hst Hm. pose proof HI as [_ _ _ _ _ [[[Hw Hh Hl Hs _] _] _ _] Hbufs _].
  destruct (bs_each _ _ _ _ _ _ _ _ Hbufs b x Hx) as [_ X2 X3 _ _ _].
  specialize (X3 (or_introl Hst)).
  apply plane_ok_fits; cbn; rewrite ?Hl; unfold INT_MAX; try (lia || nia).
  intros q Hq. destruct (X2 q Hq) as (HD & Ho & Hb). split; [|done].
  unfold fits, INT_MAX. rewrite Hm. split_and!; (lia || nia).
Qed.

Lemma Inv_tick hb D c p so log s :
  Inv hb D c p so log s -> Inv hb D c p so log (set_vk (tick_clock (vk s)) s).
Proof.
  intros HI. pose proof HI as [_ _ Ho Hi _ _ _ _].
  eapply Inv_world; [done|by apply owned_clock| |done]. split; cbn; (lia || done).
Qed.

Lemma stamped_priv so ret d d' so' : stamped so ret d d' so' -> priv so' = priv so.
Proof. intros [_ Hst]. destruct (ztrue ret); [by subst|]. by destruct Hst as [-> _]. Qed.

Lemma queue_inv hb D b s :
  inv hb D s -> vb_state ∘ m2m_buf <$> vbufs s !! b = Some PREPARED ->
  exists s', exec (EvQueue b) s = Some (tt, s') /\ inv hb D s'.
Proof.
  intros (c & p & so & log & HI) Hst. pose proof HI as [Hc Hsrc Ho Hidle _ [_ Ha _] _ _].
  destruct (vbufs s !! b) as [x|] eqn:Hx; [|done]. injection Hst as Hst.
  cbn [exec]. unfold fbind at 1. rewrite (set_state_run b ACTIVE s x Hx).
  unfold vpipe_buf_queue, fbind at 1, get_buf. vcbn. rewrite lookup_insert_eq.
  unfold fbind at 1, get_ctx. vcbn. rewrite Hc. cbn [m2m_buf with_state with_vb vb_with_state vb_type].
  destruct (vb_type (m2m_buf x)) eqn:Hty.
  - set (hints := FrameDesc _ _ _ _ _ _ _ _).
    pose proof (Inv_tick _ _ _ _ _ _ _ HI) as HI1.
    destruct (source_next_frame_ok p so hb D (tick_clock (vk s)) (vb_plane (m2m_buf x)) hints)
      as (ret & d' & w' & so' & Hrun & Ho' & Hstamp & Hk & _).
    { by apply owned_clock. } { by eapply plane_target. }
    pose proof (Inv_world _ _ _ _ _ so' _ _ w' HI1 Ho' Hk) as HI2.
    rewrite (stamped_priv _ _ _ _ _ Hstamp) in HI2. specialize (HI2 Hidle).
    unfold fbind at 1. unfold fbind at 1. unfold kern at 1, ktime_get_ns. vcbn.
    unfold fbind at 1, kern at 1. vcbn. rewrite Hsrc.
    change (vb_plane (vb_with_state _ _)) with (vb_plane (m2m_buf x)).
    unfold tick_clock in Hrun. rewrite Hrun.
    unfold put_buf. vcbn. rewrite lookup_insert_eq. eexists. split; [reflexivity|].
    exists c, p, so', log. vcbn. rewrite insert_insert_eq, <- Hc.
    eapply (Inv_queue _ _ _ _ _ _ (set_vk w' s) _ b x); try done.
    + cbn. intros _. split; [done|]. apply ktime_mono. destruct Hk as [Hk _ _ _]. cbn in Hk. lia.
    + rewrite Hty. apply queue_view.
  - unfold fbind, fret, on_m2m, fmodify. vcbn. eexists. split; [reflexivity|].
    exists c, p, so, log. rewrite <- Hc.
    eapply (Inv_queue _ _ _ _ _ _ s _ b x); try done; rewrite Hty; [done|].
    apply queue_view.
Qed.

(** Changes of the framework that touch neither the ready queues nor the
    allocation of buffers. *)
Lemma Inv_view hb D c p so log s q :
  Inv hb D c p so log s ->
  (forall t, ready t (view q) = ready t (view (vm2m s))) ->
  (forall t, busy t (view q) = busy t (view (vm2m s))) ->
  (streaming OUTPUT (view q) = false -> priv so = None) ->
  Inv hb D c p so log (set_vm2m q s).
Proof.
  intros [I1 I2 I3 I4 I5 I6 [B1 B2 B3 B4 B5] I8] Hr Hb Hs. split; try done. vcbn. split; try done.
  - intros b x Hx. eapply buf_inv_view; [done| |by apply B1]. by rewrite Hr.
  - intros t b. rewrite Hr. apply B4.
  - intros t. rewrite Hr. apply B5.
Qed.

Lemma Inv_streaming hb D c p so log s t x :
  Inv hb D c p so log s -> (t = OUTPUT -> x = false -> priv so = None) ->
  Inv hb D c p so log (set_vm2m (vb2_set_streaming t x (vm2m s)) s).
Proof.
  intros HI Hp. apply Inv_view; [done|..]; rewrite set_streaming_view; [by intros []..|].
  pose proof (iv_idle _ _ _ _ _ _ _ HI) as Hi. destruct t; cbn in *; auto.
Qed.

Lemma start_inv hb D t s :
  inv hb D s -> streaming t (view (vm2m s)) = false ->
  exists s', exec (EvStart t) s = Some (tt, s') /\ inv hb D s'.
Proof.
  intros (c & p & so & log & HI) Hst. pose proof HI as [Hc Hsrc Ho Hidle _ _ _ _].
  cbn [exec]. unfold vpipe_start_streaming, fbind, get_ctx. rewrite Hc.
  destruct t; cbn in Hst; unfold kern, fret, on_m2m, fmodify.
  - destruct (source_start_ok p so hb D (vk s) (Some (out_q c)) Ho (Hidle Hst))
      as (ret & w' & q & Hrun & Ho' & Hq & _ & Hk).
    rewrite Hsrc, Hrun. destruct (ztrue ret) eqn:Er; (eexists; split; [reflexivity|]).
    + exists c, p, (with_priv q so), log. eapply Inv_world; eauto. intros _. cbn.
      apply Hq. unfold ztrue in Er. lia.
    + exists c, p, (with_priv q so), log.
      (* the queue is streaming before the source's state is looked at again *)
      assert (HI' : Inv hb D c p (with_priv q so) log
        (set_vk w' (set_vm2m (vb2_set_streaming OUTPUT true (vm2m s)) s))).
      { eapply (Inv_world _ _ _ _ so); [|exact Ho'|exact Hk|].
        - apply Inv_streaming; [done|]. by intros.
        - cbn. by rewrite set_streaming_view. }
      exact HI'.
  - cbn [ztrue Z.eqb negb]. eexists. split; [reflexivity|]. exists c, p, so, log.
    by apply Inv_streaming.
Qed.

(** Every buffer of a queue is given back. *)
Lemma Inv_return hb D c p so log s t q :
  Inv hb D c p so log s ->
  view q = set_ready t [] (foldl (fun v b => add_done b ERROR v) (view (vm2m s))
                             (ready t (view (vm2m s)))) ->
  Inv hb D c p so log
    (set_vm2m q (set_vbufs (mark ERROR (ready t (view (vm2m s))) (vbufs s)) s)).
Proof.
  intros [I1 I2 I3 I4 I5 I6 [B1 B2 B3 B4 B5] I8] Hv.
  assert (Hfold : forall l v, let v' := foldl (fun v b => add_done b ERROR v) v l in
    v_out v' = v_out v /\ v_cap v' = v_cap v /\ v_busy_out v' = v_busy_out v /\
    v_busy_cap v' = v_busy_cap v /\ v_str_out v' = v_str_out v).
  { induction l as [|a l IH]; intros v; [done|]. cbn. apply (IH (add_done a ERROR v)). }
  destruct (Hfold (ready t (view (vm2m s))) (view (vm2m s))) as (F1 & F2 & F3 & F4 & F5).
  remember (ready t (view (vm2m s))) as l eqn:El.
  assert (Hr : forall t', ready t' (view q) = if decide (t' = t) then [] else
      ready t' (view (vm2m s))).
  { intros t'. rewrite Hv. destruct t', t; case_decide; cbn; congruence. }
  assert (Hmark : forall k y, mark ERROR l (vbufs s) !! k = Some y -> exists y0,
    vbufs s !! k = Some y0 /\ y = if decide (k ∈ l) then with_state ERROR y0 else y0).
  { intros k y. rewrite mark_lookup. destruct (vbufs s !! k); [|done]. intros [= <-]. eauto. }
  assert (Hsame : forall k y y0, y = (if decide (k ∈ l) then with_state ERROR y0 else y0) ->
    vb_type (m2m_buf y) = vb_type (m2m_buf y0) /\ vb_plane (m2m_buf y) = vb_plane (m2m_buf y0) /\
    b_meta_pending y = b_meta_pending y0).
  { intros k y y0 ->. by case_decide. }
  split; try done; vcbn.
  - rewrite Hv. destruct t; cbn; by rewrite F5.
  - split.
    + intros k y (y0 & Hy0 & Ey)%Hmark. destruct (B1 k y0 Hy0) as [X1 X2 X3 X4 X5 X6].
      assert (Hb : forall t', busy t' (view q) = busy t' (view (vm2m s)))
        by (intros []; rewrite Hv; destruct t; cbn; congruence).
      case_decide as Ek; subst y.
      * rewrite El in Ek. destruct (B4 t k Ek) as (y1 & Hy1 & Et). rewrite Hy0 in Hy1. injection Hy1 as <-.
        assert (Hact : vb_state (m2m_buf y0) = ACTIVE) by (apply X4; by rewrite Et).
        split; cbn; rewrite ?Et, ?Hb, ?Hr; try done.
        -- by rewrite <- Et.
        -- intros []; done.
        -- rewrite decide_True by done. split; [done|]. by intros ?%elem_of_nil.
        -- intros Hp. destruct (X6 Hp) as (_ & E & _). congruence.
      * eapply buf_inv_view; [exact Hb| |by split]. rewrite Hr. case_decide as Et; [|done].
        rewrite Et, <- El. split; [by intros ?%elem_of_nil|done].
    + intros k k' y y' a a' (y0 & Hy0 & Ey)%Hmark (y1 & Hy1 & Ey')%Hmark.
      destruct (Hsame _ _ _ Ey) as (_ & -> & _), (Hsame _ _ _ Ey') as (_ & -> & _). eauto.
    + intros k k' y y' (y0 & Hy0 & Ey)%Hmark (y1 & Hy1 & Ey')%Hmark.
      destruct (Hsame _ _ _ Ey) as (_ & _ & ->), (Hsame _ _ _ Ey') as (_ & _ & ->). eauto.
    + intros t' k. rewrite Hr. case_decide; [by intros ?%elem_of_nil|]. intros Hk.
      destruct (B4 t' k Hk) as (y0 & Hy0 & Et). rewrite mark_lookup, Hy0. cbn.
      eexists. split; [done|]. by case_decide.
    + intros t'. rewrite Hr. case_decide; [apply NoDup_nil_2|apply B5].
  - destruct I8 as [L1 L2 L3 L4 L5]. split; try done. intros i Hi.
    destruct (L5 i Hi) as [|(k & y & Hy & E)]; [by left|right]. exists k.
    rewrite mark_lookup, Hy. cbn. eexists. split; [done|]. by case_decide.
Qed.

Lemma stop_inv hb D t s :
  inv hb D s ->
  exists s', exec (EvStop t) s = Some (tt, s') /\ inv hb D s'.
Proof.
  intros (c & p & so & log & HI). pose proof HI as [Hc Hsrc Ho Hidle _ _ _ _].
  assert (Hsrcstop : exists so' w', match t with
      | OUTPUT => kern (vpipe_source_stop (c_src c)) | CAPTURE => fret tt end s
        = Some (tt, set_vk w' s) /\ Inv hb D c p so' log (set_vk w' s) /\
      (t = OUTPUT -> priv so' = None)).
  { destruct t.
    - destruct (source_stop_ok p so hb D (vk s) Ho) as (w' & Hrun & Ho' & Hk).
      exists (with_priv None so), w'. unfold kern. rewrite Hsrc, Hrun. split; [done|].
      split; [|done]. by eapply Inv_world.
    - exists so, (vk s). destruct s. done. }
  destruct Hsrcstop as (so' & w' & Hrun & HI' & Hpriv).
  pose proof (iv_bufs _ _ _ _ _ _ _ HI') as [_ _ _ B4 B5].
  destruct (return_all_buffers_ok t (set_vk w' s) _ eq_refl (B5 t)) as (q & Hq & Hv).
  { intros b Hb. destruct (B4 t b Hb) as (x & Hx & _). eauto. }
  cbn [exec]. unfold vpipe_stop_streaming, fbind, get_ctx. rewrite Hc, Hrun, Hq.
  unfold on_m2m, fmodify. eexists. split; [reflexivity|]. exists c, p, so', log.
  pose proof (Inv_return _ _ _ _ _ _ _ t q HI' Hv) as HI2.
  apply (Inv_streaming _ _ _ _ _ _ _ t false HI2). auto.
Qed.

(** Creating a source, whatever the registry holds. *)
Lemma create_cases id w :
  reg_ok w ->
  exists r w', vpipe_source_create id w = Some (r, w') /\
    match r with
    | ErrPtr e => e < 0 /\ (w' = w \/ w' = tick_alloc false w)
    | GoodPtr q => q = knext w /\ exists so r, ops so = Some r /\ priv so = None /\
        w' = tick_alloc true (set_kheap (<[q := OSource so]> (kheap w)) w)
    end.
Proof.
  intros [Ho Hn]. unfold vpipe_source_create.
  destruct (vpipe_backend_id_valid id) eqn:Hid; cbn [negb]; [|eexists _, w; split; [reflexivity|by split; [|left]]].
  unfold vpipe_backend_id_valid, VPIPE_BACKEND_NONE, VPIPE_BACKEND_MAX in Hid.
  destruct (lookup_lt_is_Some_2 (backend_ops w) (Z.to_nat id)) as [o Ho']; [lia|].
  destruct (lookup_lt_is_Some_2 (backend_name w) (Z.to_nat id)) as [nm Hn']; [lia|].
  rewrite Ho', Hn'. destruct o as [r|]; [|eexists _, w; split; [reflexivity|by split; [|left]]].
  unfold fbind, kzalloc. destruct (kalloc (kallocs w)); (eexists _, _; split; [reflexivity|]).
  - split; [done|]. eexists _, r. split; [|split; [|reflexivity]]; done.
  - by split; [|right].
Qed.

Lemma backend_inv hb D id s :
  inv hb D s ->
  exists s', exec (EvBackend id) s = Some (tt, s') /\ inv hb D s'.
Proof.
  intros (c & p & so & log & HI). pose proof HI as [Hc Hsrc Ho Hidle Hreg Hci _ _].
  cbn [exec]. unfold vpipe_default_ioctl, fbind at 1 2, get_ctx. rewrite Hc.
  unfold fbind at 1, fget. rewrite !streaming_view.
  destruct (streaming OUTPUT (view (vm2m s)) || streaming CAPTURE (view (vm2m s))).
  { exists s. split; [done|]. by exists c, p, so, log. }
  destruct (create_cases id (vk s) Hreg) as (r & w1 & Hcr & Hr).
  unfold fbind at 1, kern at 1. rewrite Hcr. destruct r as [q|e].
  2:{ eexists. split; [reflexivity|]. exists c, p, so, log.
      eapply Inv_world; [done|..|done]; destruct Hr as [_ [->| ->]]; try done.
      by apply owned_no_alloc. }
  destruct Hr as (-> & so1 & r1 & Hops & Hpr & ->).
  set (w1 := tick_alloc true _).
  destruct (source_destroy_ok p so (<[knext (vk s) := OSource so1]> hb) D w1)
    as (w2 & Hd & Hh2 & Hd2 & Hf2 & Hk2); [by apply owned_alloc|].
  unfold fbind, kern. vcbn. rewrite Hsrc, Hd. unfold put_ctx, fmodify, fret.
  eexists. split; [reflexivity|].
  assert (Hn : hb !! knext (vk s) = None).
  { destruct (hb !! knext (vk s)) eqn:E; [|done]. exfalso.
    destruct (owned_fresh _ _ _ _ _ Ho) as [Hf _].
    pose proof (Hf (knext (vk s)) (owned_base _ _ _ _ _ _ Ho ltac:(eauto))). lia. }
  assert (Hnew : owned (knext (vk s)) so1 hb D w2) by (by eapply owned_new).
  exists (with_src (Some (knext (vk s))) c), (knext (vk s)), so1, log.
  destruct HI as [I1 I2 I3 I4 I5 I6 I7 I8]. destruct Hk2 as [K1 K2 K3 K4].
  split; try done; vcbn.
  - unfold reg_ok. rewrite K2, K3. exact I5.
  - destruct I6. by split.
  - eapply bufs_inv_mono; [exact K4|by apply ktime_mono|done|exact I7].
Qed.

(** Distinct numbers up to [n], and one more, are at most [n]. *)
Lemma nodup_bound (l : list Z) a n :
  NoDup l -> (forall x, x ∈ l -> 1 <= x <= n) -> a ∉ l -> 1 <= a <= n ->
  Z.of_nat (length l) + 1 <= n.
Proof.
  intros Hl Hr Ha Han.
  assert (Hsub : a :: l ⊆+ seqZ 1 n).
  { apply NoDup_submseteq; [by apply list.NoDup_cons|]. intros x.
    rewrite elem_of_cons, elem_of_seqZ. intros [->|Hx%Hr]; lia. }
  apply submseteq_length in Hsub. rewrite length_seqZ in Hsub. cbn in Hsub. lia.
Qed.

Lemma finish_inv hb D b s :
  inv hb D s ->
  (let st := vb_state ∘ m2m_buf <$> vbufs s !! b in
   st = Some PREPARED \/ st = Some DONE \/ st = Some ERROR) ->
  exists s', exec (EvFinish b) s = Some (tt, s') /\ inv hb D s'.
Proof.
  intros (c & p & so & log & HI) Hst.
  destruct (vbufs s !! b) as [x|] eqn:Hx; [|by destruct Hst as [|[|]]].
  assert (Hna : vb_state (m2m_buf x) <> ACTIVE) by (destruct Hst as [E|[E|E]]; injection E as E; rewrite E; discriminate).
  pose proof HI as [_ _ _ _ _ _ Hbufs [L1 L2 L3 L4 L5]].
  pose proof (bs_each _ _ _ _ _ _ _ _ Hbufs b x Hx) as [X1 X2 X3 X4 X5 X6].
  cbn [exec]. unfold fbind. rewrite (buf_finish_run b s x Hx).
  assert (Hquiet : seq (b_meta_pending x) = 0 ->
    exists s', set_state b DEQUEUED s = Some (tt, s') /\ inv hb D s').
  { intros Hz. rewrite (set_state_run b DEQUEUED s x Hx). eexists. split; [reflexivity|].
    exists c, p, so, log. eapply Inv_put; try done. split; cbn; try done.
    - by intros [].
    - split; [done|]. rewrite <- X4. done. }
  destruct (Z.eqb_spec (seq (b_meta_pending x)) 0) as [Hz|Hnz].
  { destruct (Hquiet Hz) as (s' & ? & ?). case_decide; by exists s'. }
  destruct (X6 Hnz) as (Hcap & Hdone & Hrange & Hfresh & Hord).
  rewrite decide_True by done. cbv zeta.
  set (now := ktime (kclock (vk s))) in *. set (e := with_dqbuf now (b_meta_pending x)).
  cbv beta iota. erewrite set_state_run by (cbn; by rewrite lookup_insert_eq).
  eexists. split; [reflexivity|]. vcbn. rewrite insert_insert_eq.
  exists c, p, so, (log ++ [e]).
  pose proof (Inv_tick _ _ _ _ _ _ _ HI) as [I1 I2 I3 I4 I5 I6 [B1 B2 B3 B4 B5] _].
  cbn [vbufs set_vk] in B1, B2, B3, B4.
  assert (Hlen : Z.of_nat (length log) + 1 <= vseq s).
  { rewrite <- (length_fmap seq log). eapply nodup_bound; try done.
    intros i (e0 & -> & He0)%list_elem_of_fmap. by apply L4. }
  split; try done; vcbn.
  - split.
    + intros k y. rewrite lookup_insert. case_decide as E.
      * subst k. intros [= <-]. split; cbn; try done; [by intros []|].
        split; [done|]. rewrite <- X4. done.
      * intros Hy. destruct (B1 k y Hy) as [Y1 Y2 Y3 Y4 Y5 Y6]. split; try done.
        intros Hp. destruct (Y6 Hp) as (? & ? & ? & Hnot & ?).
        do 3 (split; [done|]). split; [|done].
        rewrite fmap_app, elem_of_app. intros [?|Heq%list_elem_of_singleton]; [done|].
        apply E. symmetry. eapply B3; eauto.
    + intros k k' y y' a a'. rewrite !lookup_insert.
      case_decide; case_decide; intros; simplify_eq; eauto.
    + intros k k' y y'. rewrite !lookup_insert.
      case_decide; case_decide; intros; simplify_eq; cbn in *; try done; eauto.
    + intros t k Hk. destruct (B4 t k Hk) as (y & Hy & Et). rewrite lookup_insert.
      case_decide as E; [|eauto]. subst k. rewrite Hx in Hy. injection Hy as <-.
      eexists. by split.
    + exact B5.
  - split.
    + apply ring_log_publish; [done|]. unfold ULONG_MAX in L2. lia.
    + done.
    + rewrite fmap_app. apply NoDup_snoc; [done|exact Hfresh].
    + intros e0. rewrite elem_of_snoc. intros [?| ->]; [by apply L4|]. by split.
    + intros i Hi. rewrite fmap_app, elem_of_app.
      destruct (L5 i Hi) as [|(k & y & Hy & Eq)]; [by left; left|].
      destruct (decide (k = b)) as [->|Hne].
      * left. right. apply list_elem_of_singleton. rewrite Hx in Hy. by injection Hy as <-.
      * right. exists k, y. by rewrite lookup_insert_ne.
Qed.

(** Both heads leave their queues, the destination possibly with a new pending
    entry. *)
Lemma bufs_inv_pop D m sz v v' now n log bufs sb db sx dx sx' dx' :
  bufs_inv D m sz v now n log bufs ->
  hd_error (v_out v) = Some sb -> hd_error (v_cap v) = Some db ->
  bufs !! sb = Some sx -> bufs !! db = Some dx ->
  vb_type (m2m_buf sx) = OUTPUT -> vb_type (m2m_buf dx) = CAPTURE ->
  v_out v' = tl (v_out v) -> v_cap v' = tl (v_cap v) -> (forall t, busy t v' = busy t v) ->
  (exists st, st <> ACTIVE /\ st <> PREPARED /\ sx' = with_state st sx) ->
  vb_type (m2m_buf dx') = CAPTURE -> vb_plane (m2m_buf dx') = vb_plane (m2m_buf dx) ->
  vb_length (m2m_buf dx') = vb_length (m2m_buf dx) ->
  vb_state (m2m_buf dx') <> ACTIVE -> vb_state (m2m_buf dx') <> PREPARED ->
  (seq (b_meta_pending dx') = 0 \/
   (vb_state (m2m_buf dx') = DONE /\ 1 <= seq (b_meta_pending dx') <= n /\
    (seq (b_meta_pending dx') ∉ (seq <$> log)) /\ ordered (b_meta_pending dx') now /\
    forall k y, bufs !! k = Some y -> seq (b_meta_pending y) <> seq (b_meta_pending dx'))) ->
  bufs_inv D m sz v' now n log (<[db := dx']> (<[sb := sx']> bufs)).
Proof.
  intros [B1 B2 B3 B4 B5] Hs Hd Hsx Hdx Hst Hdt Ho Hc Hb (st & Hn1 & Hn2 & ->) Ht' Hp' Hl'
    Hna Hnp Hpend.
  destruct (v_out v) as [|? so_rest] eqn:Eo; [done|]. injection Hs as ->.
  destruct (v_cap v) as [|? sc_rest] eqn:Ec; [done|]. injection Hd as ->. cbn in Ho, Hc.
  pose proof (B5 OUTPUT) as N1. pose proof (B5 CAPTURE) as N2. cbn in N1, N2.
  rewrite Eo in N1. rewrite Ec in N2. apply list.NoDup_cons in N1 as [N1 M1].
  apply list.NoDup_cons in N2 as [N2 M2].
  assert (Hne : sb <> db) by congruence.
  pose proof (B1 sb sx Hsx) as [X1 X2 X3 X4 X5 X6].
  pose proof (B1 db dx Hdx) as [Y1 Y2 Y3 Y4 Y5 Y6].
  assert (Hsz : seq (b_meta_pending sx) = 0).
  { destruct (Z.eq_dec (seq (b_meta_pending sx)) 0) as [|E]; [done|].
    destruct (X6 E) as [E1 _]. congruence. }
  assert (Hback : forall k y, <[db := dx']> (<[sb := with_state st sx]> bufs) !! k = Some y ->
    k = db /\ y = dx' \/ k <> db /\ exists y0, bufs !! k = Some y0 /\
      vb_plane (m2m_buf y) = vb_plane (m2m_buf y0) /\ b_meta_pending y = b_meta_pending y0).
  { intros k y. rewrite !lookup_insert. case_decide; [left|case_decide; right]; simplify_eq; eauto. }
  split.
  - intros k y. rewrite !lookup_insert. case_decide as Ekd; [subst k|case_decide as Eks; [subst k|]].
    + intros [= <-]. split; rewrite ?Ht'.
      * rewrite Hb. by rewrite Hdt in Y1.
      * intros q. rewrite Hp', Hl'. apply Y2.
      * by intros [].
      * cbn [ready]. rewrite Hc. by split.
      * done.
      * intros Hnz. destruct Hpend as [|(P1 & P2 & P3 & P4 & _)]; done.
    + intros [= <-].
      split; cbn [m2m_buf with_state with_vb vb_with_state vb_type vb_state]; try done.
      * by rewrite Hb.
      * by intros [].
      * rewrite Hst. cbn [ready]. rewrite Ho. by split.
    + intros Hy. pose proof (B1 k y Hy) as Hbi. eapply buf_inv_view; [exact Hb| |exact Hbi].
      destruct (vb_type (m2m_buf y)); cbn; rewrite ?Ho, ?Hc, ?Eo, ?Ec, elem_of_cons;
        intuition congruence.
  - intros k k' y y' q q' Hk Hk' Hkk.
    destruct (Hback _ _ Hk) as [[-> ->]|[? (y0 & Hy0 & -> & _)]],
             (Hback _ _ Hk') as [[-> ->]|[? (y1 & Hy1 & -> & _)]]; rewrite ?Hp'; eauto.
  - intros k k' y y' Hk Hk' Hnz Heq.
    destruct (Hback _ _ Hk) as [[-> ->]|[? (y0 & Hy0 & _ & E0)]],
             (Hback _ _ Hk') as [[-> ->]|[? (y1 & Hy1 & _ & E1)]]; [done|..];
      rewrite ?E0, ?E1 in *.
    + destruct Hpend as [|(_ & _ & _ & _ & P)]; [done|]. by destruct (P _ _ Hy1).
    + destruct Hpend as [|(_ & _ & _ & _ & P)]; [congruence|]. by destruct (P _ _ Hy0).
    + eauto.
  - intros t k Hk.
    assert (Hin : k ∈ ready t v) by (destruct t; cbn in *; rewrite ?Eo, ?Ec, ?Ho, ?Hc in *;
      by apply elem_of_cons; right).
    destruct (B4 t k Hin) as (y & Hy & Et). rewrite !lookup_insert.
    case_decide as E1; [subst k|case_decide as E2; [subst k|eauto]].
    + exists dx'. split; [done|]. congruence.
    + exists (with_state st sx). split; [done|]. cbn. congruence.
  - intros []; cbn; rewrite ?Ho, ?Hc; done.
Qed.

(** The pair of buffers a job takes. *)
Lemma run_pair hb D c p so log s :
  Inv hb D c p so log s -> v_out (view (vm2m s)) <> [] -> v_cap (view (vm2m s)) <> [] ->
  exists sb db sx dx,
    hd_error (v_out (view (vm2m s))) = Some sb /\ hd_error (v_cap (view (vm2m s))) = Some db /\
    vbufs s !! sb = Some sx /\ vbufs s !! db = Some dx /\
    vb_type (m2m_buf sx) = OUTPUT /\ vb_type (m2m_buf dx) = CAPTURE /\
    vb_state (m2m_buf sx) = ACTIVE /\ vb_state (m2m_buf dx) = ACTIVE.
Proof.
  intros HI Ho Hc. pose proof (iv_bufs _ _ _ _ _ _ _ HI) as [B1 _ _ B4 _].
  destruct (v_out (view (vm2m s))) as [|sb l] eqn:Eo; [done|].
  destruct (v_cap (view (vm2m s))) as [|db l'] eqn:Ec; [done|].
  assert (Hs : sb ∈ ready OUTPUT (view (vm2m s))) by (cbn; rewrite Eo; apply list_elem_of_here).
  assert (Hd : db ∈ ready CAPTURE (view (vm2m s))) by (cbn; rewrite Ec; apply list_elem_of_here).
  destruct (B4 _ _ Hs) as (sx & Hsx & Est), (B4 _ _ Hd) as (dx & Hdx & Edt).
  exists sb, db, sx, dx. do 6 (split; [done|]). split.
  - apply (bi_active _ _ _ _ _ _ _ _ _ (B1 _ _ Hsx)). by rewrite Est.
  - apply (bi_active _ _ _ _ _ _ _ _ _ (B1 _ _ Hdx)). by rewrite Edt.
Qed.

Lemma pending_zero hb D c p so log s b x :
  Inv hb D c p so log s -> vbufs s !! b = Some x -> vb_state (m2m_buf x) = ACTIVE ->
  seq (b_meta_pending x) = 0.
Proof.
  intros HI Hx Ha. destruct (Z.eq_dec (seq (b_meta_pending x)) 0) as [|E]; [done|].
  destruct (bi_pend _ _ _ _ _ _ _ _ _
    (bs_each _ _ _ _ _ _ _ _ (iv_bufs _ _ _ _ _ _ _ HI) b x Hx) E) as (_ & E2 & _). congruence.
Qed.

(** A log does not notice that two buffers without pending entry changed. *)
Lemma log_inv_two n g log bufs sb db sx dx sx' dx' :
  log_inv n g log bufs -> sb <> db -> bufs !! sb = Some sx -> bufs !! db = Some dx ->
  seq (b_meta_pending sx) = 0 -> seq (b_meta_pending dx) = 0 ->
  log_inv n g log (<[db := dx']> (<[sb := sx']> bufs)).
Proof.
  intros [L1 L2 L3 L4 L5] Hne Hs Hd Zs Zd. split; try done. intros i Hi.
  destruct (L5 i Hi) as [|(k & y & Hy & E)]; [by left|right]. exists k, y.
  rewrite !lookup_insert_ne; [done| |]; intros ->; rewrite ?Hs, ?Hd in Hy;
    injection Hy as <-; lia.
Qed.

Lemma run_fail_inv hb D c p so log s sb db sx dx q :
  Inv hb D c p so log s ->
  hd_error (v_out (view (vm2m s))) = Some sb -> hd_error (v_cap (view (vm2m s))) = Some db ->
  vbufs s !! sb = Some sx -> vbufs s !! db = Some dx ->
  vb_type (m2m_buf sx) = OUTPUT -> vb_type (m2m_buf dx) = CAPTURE ->
  vb_state (m2m_buf sx) = ACTIVE -> vb_state (m2m_buf dx) = ACTIVE ->
  view q = add_job (add_done db ERROR (add_done sb ERROR (popped (view (vm2m s))))) ->
  Inv hb D c p so log (fail_post s sb db sx dx q).
Proof.
  intros HI Hs Hd Hsx Hdx Est Edt Eas Ead Hv.
  pose proof (pending_zero _ _ _ _ _ _ _ _ _ HI Hsx Eas) as Zs.
  pose proof (pending_zero _ _ _ _ _ _ _ _ _ HI Hdx Ead) as Zd.
  destruct HI as [I1 I2 I3 I4 I5 I6 I7 I8]. unfold fail_post. split; try done; vcbn.
  - by rewrite Hv.
  - eapply (bufs_inv_pop D _ _ (view (vm2m s)) _ _ _ _ _ sb db sx dx); eauto; try done.
    + by rewrite Hv.
    + by rewrite Hv.
    + rewrite Hv. by intros [].
    + by exists ERROR.
  - eapply log_inv_two; eauto. congruence.
Qed.

Lemma run_inv hb D s :
  inv hb D s ->
  v_out (view (vm2m s)) <> [] -> v_cap (view (vm2m s)) <> [] -> vseq s + 1 <= ULONG_MAX ->
  exists s', exec EvRun s = Some (tt, s') /\ inv hb D s'.
Proof.
  intros (c & p & so & log & HI) Ho Hc Hn.
  destruct (run_pair _ _ _ _ _ _ _ HI Ho Hc)
    as (sb & db & sx & dx & Hs & Hd & Hsx & Hdx & Est & Edt & Eas & Ead).
  assert (Hne : sb <> db) by congruence. cbn [exec].
  destruct (vb_plane (m2m_buf sx)) as [sp|] eqn:Hsp;
    [destruct (vb_plane (m2m_buf dx)) as [dp|] eqn:Hdp|].
  2,3: destruct (device_run_fail s c sb db sx dx) as (q & Hrun & Hv);
       [apply HI|done|done|done|done|done|auto|];
       (exists (fail_post s sb db sx dx q); split; [done|]; exists c, p, so, log;
        by apply run_fail_inv).
  pose proof (pending_zero _ _ _ _ _ _ _ _ _ HI Hsx Eas) as Zs.
  pose proof (pending_zero _ _ _ _ _ _ _ _ _ HI Hdx Ead) as Zd.
  pose proof HI as [I1 I2 I3 I4 I5 I6 I7 I8]. pose proof (ci_fmt _ I6) as Hf.
  destruct (bs_each _ _ _ _ _ _ _ _ I7 sb sx Hsx) as [_ X2 X3 _ X5 _].
  destruct (bs_each _ _ _ _ _ _ _ _ I7 db dx Hdx) as [_ Y2 Y3 _ _ _].
  destruct (X2 sp Hsp) as (XD & XO & XL), (Y2 dp Hdp) as (YD & YO & YL).
  specialize (X3 (or_intror Eas)). specialize (Y3 (or_intror Ead)).
  destruct (X5 Est Eas) as [Xa Xq].
  destruct (device_run_ok s c sb db sx dx sp dp) as (m & bytes & q & Hrun & Hv & Hp & _).
  { by split. } { done. } { done. }
  { eapply (bs_disj _ _ _ _ _ _ _ _ I7 sb db); eauto. } { done. } { done. } { lia. } { lia. }
  eexists. split; [exact Hrun|]. exists c, p, so, log.
  pose proof I8 as [L1 L2 L3 L4 L5].
  assert (Hseq : u64 (vseq s + 1) = vseq s + 1) by (apply u64_small; unfold ULONG_MAX in *; lia).
  unfold run_post. rewrite Hseq. split; try done; vcbn.
  - change (KWorld _ _ _ _ _ _ _ _ _ _) with (tick_clock (set_kmem m (vk s))).
    apply owned_clock, owned_mem; [done|apply Hp].
  - by rewrite Hv.
  - eapply (bufs_inv_pop D _ _ (view (vm2m s)) _ _ _ _ _ sb db sx dx);
      [|done..| | | |by exists DONE|done|done|done|done|done|]; rewrite ?Hv; try done.
    + eapply bufs_inv_mono; [|by apply ktime_mono, Nat.le_succ_diag_r| |exact I7]; [|lia].
      intros k _. apply Hp.
    + right. cbn. split; [done|]. split; [lia|]. split; [|split].
      * intros (e & Ee & He)%list_elem_of_fmap. destruct (L4 e He). lia.
      * unfold ordered. cbn. split; [done|]. apply ktime_mono. lia.
      * intros k y Hy. destruct (Z.eq_dec (seq (b_meta_pending y)) 0) as [->|E]; [lia|].
        destruct (bi_pend _ _ _ _ _ _ _ _ _ (bs_each _ _ _ _ _ _ _ _ I7 k y Hy) E)
          as (_ & _ & ? & _). lia.
  - split; try done; [lia| |].
    + intros e He. destruct (L4 e He). split; [lia|done].
    + intros i Hi. destruct (Z.eq_dec i (vseq s + 1)) as [->|Hlt].
      * right. eexists db, _. by rewrite lookup_insert_eq.
      * apply (li_all _ _ _ _ (log_inv_two (vseq s) (vmeta s) log (vbufs s) sb db sx dx
          _ _ I8 Hne Hsx Hdx Zs Zd)). lia.
Qed.

(** Every event the frameworks can deliver runs, and keeps the invariant. *)
Lemma exec_inv hb D e s :
  inv hb D s -> enabled e s -> exists s', exec e s = Some (tt, s') /\ inv hb D s'.
Proof.
  intros HI He. destruct e; cbn in He.
  - by apply s_fmt_inv.
  - by apply ctrl_inv.
  - by apply prepare_inv.
  - by apply queue_inv.
  - destruct He as (? & ? & ?). by apply run_inv.
  - by apply finish_inv.
  - by apply start_inv.
  - by apply stop_inv.
  - by apply backend_inv.
Qed.

End Invariant.

(** ** What holds of every run *)

(** Each event is delivered only when the frameworks allow it. *)
Fixpoint allowed `{KernelEnv} `{OpsTable} `{M2mFramework} `{!M2mLaws} `{DriverEnv}
    (es : list event) (s : vsys) : Prop :=
  match es with
  | [] => True
  | e :: es' => enabled e s /\ match exec e s with Some (_, s') => allowed es' s' | None => True end
  end.

Lemma exec_all_inv `{SourceContract} `{!ClockLaws} `{M2mFramework} `{!M2mLaws} `{DriverEnv}
    hb D es : forall s,
  inv hb D s -> allowed es s -> exists s', exec_all es s = Some (tt, s') /\ inv hb D s'.
Proof.
  induction es as [|e es IH]; intros s HI Ha; [by exists s|].
  destruct Ha as [He Ha]. destruct (exec_inv hb D e s HI He) as (s1 & H1' & HI1).
  cbn [exec_all]. unfold fbind. rewrite H1' in *. by apply IH.
Qed.

(** A device whose context has just been opened with the fixture backend, for
    a 3x2 format: OUTPUT buffer 10 on block 1, CAPTURE buffer 11 on block 2. *)
Definition pipe_ctx : vpipe_ctx := Ctx ex_q ex_q 5 1 127 (Roi 1 0 2 2) (Some 3%positive).
Definition pipe_src : vpipe_source := Source 1 (Some fixture_ops) None 0 "fixture".
Definition pipe_world : kworld :=
  KWorld (<[1%positive := [10; 200; 30; 128; 127; 255]]>
            {[2%positive := [0; 0; 0; 0; 0; 0; 99]]})
    {[3%positive := OSource pipe_src]} 20 0 0
    [None; Some fixture_ops; Some synthetic_ops; Some vcam_ops]
    [None; Some "fixture"; Some "synthetic"; Some "vcam-derived"]%string 0 30 0.
Definition pipe_buf (t : buf_type) (blk : positive) : vpipe_buffer :=
  VBuf (Vb t 0 1 (Some (Ptr blk 0)) 6 0 0 0 0 0 DEQUEUED) 0 0 0 (Roi 0 0 0 0)
    (desc_zero 0 0 0) 0 meta_zero.
Definition pipe_sys : vsys :=
  VSys _ pipe_world (Some pipe_ctx)
    (<[10%positive := pipe_buf OUTPUT 1]> {[11%positive := pipe_buf CAPTURE 2]})
    (View [] [] [] 0 true true false false) 0 g_meta0.

Lemma pipe_bufs b x :
  vbufs pipe_sys !! b = Some x ->
  b = 10%positive /\ x = pipe_buf OUTPUT 1 \/ b = 11%positive /\ x = pipe_buf CAPTURE 2.
Proof.
  cbn. intros [[<- <-]|[_ [<- <-]%lookup_singleton_Some]]%lookup_insert_Some; auto.
Defined.

Lemma pipe_sys_inv : @inv env_ok _ vpipe_source_contract fifo_framework fifo_laws ∅
  {[1%positive; 2%positive]} pipe_sys.
Proof.
  exists pipe_ctx, 3%positive, pipe_src, []. split; try done.
  - apply (own_idle _ _ _ _ _ fixture_ops); try done.
    split; intros k [y Hk]; cbn in Hk.
    + apply lookup_singleton_Some in Hk as [<- _]. cbn. lia.
    + apply lookup_insert_Some in Hk as [[<- _]|[_ [<- _]%lookup_singleton_Some]]; cbn; lia.
  - split.
    + intros b x [[-> ->]|[-> ->]]%pipe_bufs; (split; cbn; try done;
        [intros q [= <-]; cbn; split; [set_solver|vm_compute; intuition congruence]
        |split; [done|by intros ?%elem_of_nil]]).
    + intros b b' x x' q q' [[-> ->]|[-> ->]]%pipe_bufs [[-> ->]|[-> ->]]%pipe_bufs Hne;
        cbn; intros [= <-] [= <-]; (done || by destruct Hne).
    + intros b b' x x' [[-> ->]|[-> ->]]%pipe_bufs Hb' Hnz; by destruct Hnz.
    + by intros [] b ?%elem_of_nil.
    + intros []; apply NoDup_nil_2.
  - split; cbn; [apply ring_log_init|unfold ULONG_MAX; lia|apply NoDup_nil_2| |lia].
    by intros e ?%elem_of_nil.
Qed.

(** One frame from [VIDIOC_QBUF] to [VIDIOC_DQBUF]. *)
Definition pipe_events : list event :=
  [EvCtrl VPIPE_CID_THRESHOLD 127; EvPrepare 10; EvPrepare 11; EvStart OUTPUT; EvStart CAPTURE;
   EvQueue 10; EvQueue 11; EvRun; EvCtrl VPIPE_CID_ALGO 0; EvFinish 11; EvFinish 10].

Lemma pipe_allowed :
  @allowed env_ok (@vpipe_ops_table env_ok) fifo_framework fifo_laws env_sum pipe_events pipe_sys.
Proof. vm_compute. intuition discriminate. Qed.



(** C2: every processed frame is reported exactly once. After any allowed run
    the metadata device holds a log in which no frame number occurs twice, and
    each number the driver handed out so far is either in that log or pending
    in exactly one buffer that has not been dequeued yet, never both; nothing
    else is in the log. *)
Theorem frames_reported_once `{SourceContract} `{!ClockLaws} `{M2mFramework} `{!M2mLaws}
    `{DriverEnv} hb D es s (HI : inv hb D s) (Ha : allowed es s) :
  exists s' log, exec_all es s = Some (tt, s') /\ Log.ring_log (vmeta s') log /\
    NoDup (seq <$> log) /\
    (forall i, 1 <= i <= vseq s' <->
       (i ∈ (seq <$> log)) \/
       i <> 0 /\ exists b x, vbufs s' !! b = Some x /\ seq (b_meta_pending x) = i) /\
    (forall b x, vbufs s' !! b = Some x -> seq (b_meta_pending x) <> 0 ->
       (seq (b_meta_pending x) ∉ (seq <$> log)) /\
       forall b' x', vbufs s' !! b' = Some x' ->
         seq (b_meta_pending x') = seq (b_meta_pending x) -> b' = b).
Proof.
  destruct (exec_all_inv hb D es s HI Ha) as (s' & Hrun & c & p & so & log & HI').
  exists s', log. destruct HI' as [_ _ _ _ _ _ [B1 B2 B3 B4 B5] [L1 L2 L3 L4 L5]].
  split; [done|]. split; [done|]. split; [done|]. split.
  - intros i. split.
    + intros Hi. destruct (L5 i Hi) as [|E]; [by left|right]. split; [lia|done].
    + intros [(e & -> & He)%list_elem_of_fmap|(Hnz & b & x & Hx & <-)]; [by apply L4|].
      by destruct (bi_pend _ _ _ _ _ _ _ _ _ (B1 b x Hx) Hnz) as (_ & _ & ? & _).
  - intros b x Hx Hnz. split.
    + by destruct (bi_pend _ _ _ _ _ _ _ _ _ (B1 b x Hx) Hnz) as (_ & _ & _ & ? & _).
    + intros b' x' Hx' Heq. apply (B3 b' b x' x); [done|done|lia|done].
Qed.

Lemma frames_reported_once_witness :
  exists s' log, @exec_all env_ok (@vpipe_ops_table env_ok) fifo_framework env_sum
      pipe_events pipe_sys = Some (tt, s') /\ Log.ring_log (vmeta s') log /\
    NoDup (seq <$> log) /\ vseq s' = 1 /\ (seq <$> ring (vmeta s') !! 0%nat) = Some 1.
Proof.
  destruct (@frames_reported_once env_ok (@vpipe_ops_table env_ok) vpipe_source_contract
    env_ok_laws fifo_framework fifo_laws env_sum _ _ pipe_events pipe_sys pipe_sys_inv
    pipe_allowed) as (s' & log & H1 & H2 & H3 & _).
  exists s', log. split; [exact H1|]. split; [exact H2|]. split; [exact H3|]. split.
  - apply (fmap_run (fun s' : @vsys fifo_framework => vseq s') _ _ _ _ H1).
    vm_compute. reflexivity.
  - apply (fmap_run (fun s' : @vsys fifo_framework => seq <$> ring (vmeta s') !! 0%nat)
      _ _ _ _ H1). vm_compute. reflexivity.
Defined.

(** C25: the timeline of a published entry is ordered. After any allowed run,
    every entry the metadata device still holds was queued no later than its
    frame was captured and captured no later than it was dequeued. *)
Theorem published_timeline_ordered `{SourceContract} `{!ClockLaws} `{M2mFramework} `{!M2mLaws}
    `{DriverEnv} hb D es s (HI : inv hb D s) (Ha : allowed es s) :
  exists s', exec_all es s = Some (tt, s') /\
    forall i, 0 <= head (vmeta s') - i <= 256 -> 0 <= i < head (vmeta s') ->
    exists e, ring (vmeta s') !! slot_of i = Some e /\
      qbuf_timestamp_ns e <= capture_done_ns e <= dqbuf_timestamp_ns e /\ 1 <= seq e <= vseq s'.
Proof.
  destruct (exec_all_inv hb D es s HI Ha) as (s' & Hrun & c & p & so & log & HI').
  exists s'. split; [done|]. destruct HI' as [_ _ _ _ _ _ _ [[R1 R2 R3 R4 R5] L2 L3 L4 L5]].
  intros i Hw Hi. rewrite R2 in *.
  destruct (lookup_lt_is_Some_2 log (Z.to_nat i)) as [e He]; [lia|].
  exists (set_header e). rewrite R5 by (unfold Log.oldest; lia). rewrite He. split; [done|].
  destruct (L4 e (list_elem_of_lookup_2 _ _ _ He)) as [Hr Ho]. cbn. by split.
Qed.

Lemma published_timeline_ordered_witness :
  exists s', @exec_all env_ok (@vpipe_ops_table env_ok) fifo_framework env_sum
      pipe_events pipe_sys = Some (tt, s') /\
    ((fun e => [qbuf_timestamp_ns e; source_timestamp_ns e; capture_done_ns e;
                dqbuf_timestamp_ns e]) <$> ring (vmeta s') !! slot_of 0)
    = Some [1000; 2000; 3000; 4000].
Proof.
  destruct (@published_timeline_ordered env_ok (@vpipe_ops_table env_ok) vpipe_source_contract
    env_ok_laws fifo_framework fifo_laws env_sum _ _ pipe_events pipe_sys pipe_sys_inv
    pipe_allowed) as (s' & H1 & _).
  exists s'. split; [exact H1|].
  apply (fmap_run (fun s' : @vsys fifo_framework =>
    (fun e => [qbuf_timestamp_ns e; source_timestamp_ns e; capture_done_ns e;
                dqbuf_timestamp_ns e]) <$> ring (vmeta s') !! slot_of 0) _ _ _ _ H1).
  vm_compute. reflexivity.
Defined.
