(* ===== verification/Progress.v ===== *)
(** * Queued frames are processed and reported

    Progress of the driver of [kmod/vpipe-m2m.c]: with buffers waiting in both
    ready queues, that many jobs hand all of them back in the order they were
    queued, and dequeuing the CAPTURE buffers publishes one entry per frame, in
    that order. *)

From S2P Require Import Prelude Types Cv Meta Kernel Source Backends M2m M2mSpec Pipeline.

Lemma take_in {A} n (l : list A) b : b ∈ take n l -> b ∈ l.
Proof. intros Hb. rewrite <- (take_drop n l). apply elem_of_app. by left. Qed.

Section Progress.
Context `{SourceContract} `{!ClockLaws} `{M2mFramework} `{!M2mLaws} `{DriverEnv}.

(** The buffer exists and its plane has an address. *)
Definition mapped (s : vsys) (b : positive) : Prop :=
  exists x q, vbufs s !! b = Some x /\ vb_plane (m2m_buf x) = Some q.

(** The buffer was handed back with frame [k] pending. *)
Definition awaiting (s : vsys) (b : positive) (k : Z) : Prop :=
  exists x, vbufs s !! b = Some x /\ vb_type (m2m_buf x) = CAPTURE /\ vb_state (m2m_buf x) = DONE /\
    seq (b_meta_pending x) = k.

Definition in_state (s : vsys) (b : positive) (st : vb2_state) : Prop :=
  exists x, vbufs s !! b = Some x /\ vb_state (m2m_buf x) = st.

(** ** One job *)

Lemma run_success hb D c p so log s sb db sx dx sp dp :
  Inv hb D c p so log s ->
  hd_error (v_out (view (vm2m s))) = Some sb -> hd_error (v_cap (view (vm2m s))) = Some db ->
  vbufs s !! sb = Some sx -> vbufs s !! db = Some dx ->
  vb_type (m2m_buf sx) = OUTPUT -> vb_type (m2m_buf dx) = CAPTURE ->
  vb_state (m2m_buf sx) = ACTIVE -> vb_state (m2m_buf dx) = ACTIVE ->
  vb_plane (m2m_buf sx) = Some sp -> vb_plane (m2m_buf dx) = Some dp ->
  algo_ok (b_algo_id sx) = true /\
  exists m bytes q, exec EvRun s = Some (tt, run_post s c sb db sx dx
      (out_result (run_job c sp dp) (kmem (vk s)) (b_algo_id sx) (b_threshold sx)
         (vpipe_clamp_roi (run_job c sp dp) (Some (b_roi sx)))) bytes m q) /\
    view q = add_job (add_done db DONE (add_done sb DONE (popped (view (vm2m s))))).
Proof.
  intros HI Hs Hd Hsx Hdx Est Edt Eas Ead Hsp Hdp. assert (Hne : sb <> db) by congruence.
  pose proof HI as [I1 I2 I3 I4 I5 I6 I7 I8]. pose proof (ci_fmt _ I6) as Hf.
  destruct (bs_each _ _ _ _ _ _ _ _ I7 sb sx Hsx) as [_ X2 X3 _ X5 _].
  destruct (bs_each _ _ _ _ _ _ _ _ I7 db dx Hdx) as [_ Y2 Y3 _ _ _].
  destruct (X2 sp Hsp) as (XD & XO & XL), (Y2 dp Hdp) as (YD & YO & YL).
  specialize (X3 (or_intror Eas)). specialize (Y3 (or_intror Ead)). destruct (X5 Est Eas) as [Xa Xq].
  destruct (device_run_ok s c sb db sx dx sp dp) as (m & bytes & q & Hrun & Hv & _).
  { by split. } { done. } { done. }
  { eapply (bs_disj _ _ _ _ _ _ _ _ I7 sb db); eauto. } { done. } { done. } { lia. } { lia. }
  split; [done|]. by exists m, bytes, q.
Qed.

(** What a job that takes [sb] and [db] leaves. *)
Record ran (sb db : positive) (s s' : vsys) : Prop := {
  rn_view : view (vm2m s') = add_job (add_done db DONE (add_done sb DONE (popped (view (vm2m s)))));
  rn_seq : vseq s' = vseq s + 1;
  rn_meta : vmeta s' = vmeta s;
  rn_src : in_state s' sb DONE;
  rn_dst : awaiting s' db (vseq s + 1);
  rn_rest : forall b, b <> sb -> b <> db -> vbufs s' !! b = vbufs s !! b
}.

Lemma run_step hb D s sb outs db caps :
  inv hb D s -> v_out (view (vm2m s)) = sb :: outs -> v_cap (view (vm2m s)) = db :: caps ->
  mapped s sb -> mapped s db -> vseq s + 1 <= ULONG_MAX ->
  enabled EvRun s /\ exists s', exec EvRun s = Some (tt, s') /\ inv hb D s' /\ ran sb db s s'.
Proof.
  intros Hinv Eo Ec (sx & sp & Hsx & Hsp) (dx & dp & Hdx & Hdp) Hn.
  assert (Ho : v_out (view (vm2m s)) <> []) by (by rewrite Eo).
  assert (Hc : v_cap (view (vm2m s)) <> []) by (by rewrite Ec).
  split; [done|]. destruct (run_inv hb D s Hinv Ho Hc Hn) as (s' & Hrun & Hinv').
  exists s'. split; [done|]. split; [done|]. destruct Hinv as (c & p & so & log & HI).
  destruct (run_pair _ _ _ _ _ _ _ HI Ho Hc) as (sb' & db' & sx' & dx' & Hs & Hd & Hsx' & Hdx' & Est & Edt & Eas & Ead).
  assert (sb' = sb) as -> by (rewrite Eo in Hs; by injection Hs).
  assert (db' = db) as -> by (rewrite Ec in Hd; by injection Hd).
  assert (sx' = sx) as -> by congruence. assert (dx' = dx) as -> by congruence.
  destruct (run_success hb D c p so log s sb db sx dx sp dp) as (_ & m & bytes & q & Hrun' & Hv); [done..|].
  rewrite Hrun' in Hrun. injection Hrun as <-. assert (Hne : sb <> db) by congruence.
  pose proof (li_range _ _ _ _ (iv_log _ _ _ _ _ _ _ HI)) as Hrg. unfold ULONG_MAX in *.
  assert (Hseq : u64 (vseq s + 1) = vseq s + 1) by (apply u64_small; lia).
  unfold run_post. split; vcbn; rewrite ?Hseq; try done.
  - eexists. vcbn. rewrite lookup_insert_ne, lookup_insert_eq by done. by split.
  - eexists. vcbn. rewrite lookup_insert_eq. split; [done|]. done.
  - intros b Hb1 Hb2. by rewrite !lookup_insert_ne.
Qed.

(** ** As many jobs as both queues have buffers *)

(** The buffers [n] jobs hand back, in order. *)
Definition returned (outs caps : list positive) : list (positive * vb2_state) :=
  concat (zip_with (fun sb db => [(sb, DONE); (db, DONE)]) outs caps).

Record drained (n : nat) (s s' : vsys) : Prop := {
  dr_out : v_out (view (vm2m s')) = drop n (v_out (view (vm2m s)));
  dr_cap : v_cap (view (vm2m s')) = drop n (v_cap (view (vm2m s)));
  dr_done : v_done (view (vm2m s')) =
    v_done (view (vm2m s)) ++ returned (take n (v_out (view (vm2m s)))) (take n (v_cap (view (vm2m s))));
  dr_jobs : v_jobs (view (vm2m s')) = (n + v_jobs (view (vm2m s)))%nat;
  dr_seq : vseq s' = vseq s + Z.of_nat n;
  dr_meta : vmeta s' = vmeta s;
  dr_src : forall b, b ∈ take n (v_out (view (vm2m s))) -> in_state s' b DONE;
  dr_dst : forall i b, (i < n)%nat -> v_cap (view (vm2m s)) !! i = Some b ->
    awaiting s' b (vseq s + 1 + Z.of_nat i);
  dr_rest : forall b, b ∉ take n (v_out (view (vm2m s))) -> b ∉ take n (v_cap (view (vm2m s))) ->
    vbufs s' !! b = vbufs s !! b
}.

Lemma drained_0 s : drained 0 s s.
Proof.
  split; rewrite ?take_0, ?drop_0; try done; try lia.
  - by rewrite app_nil_r.
  - by intros b ?%elem_of_nil.
Qed.

(** A first job, then [n] more. *)
Lemma drained_S n s s1 s' sb outs db caps :
  v_out (view (vm2m s)) = sb :: outs -> v_cap (view (vm2m s)) = db :: caps ->
  sb ∉ outs -> db ∉ caps -> sb ∉ caps -> db ∉ outs ->
  ran sb db s s1 -> drained n s1 s' -> drained (S n) s s'.
Proof.
  intros Eo Ec N1 N2 N3 N4 [V1 V2 V3 V4 V5 V6] [D1 D2 D3 D4 D5 D6 D7 D8 D9]. rewrite V1 in *. rewrite V2 in *.
  unfold popped in *. cbn in D1, D2, D3, D4, D7, D8, D9. rewrite Eo, Ec in *. cbn in *.
  assert (Hout : forall (b : positive) l, b ∉ l -> b ∉ take n l) by (intros b l Hb Hin; by apply Hb, (take_in n)).
  split; rewrite ?Eo, ?Ec; cbn [take drop].
  - done.
  - done.
  - rewrite D3. unfold returned. cbn. by rewrite <- !app_assoc.
  - lia.
  - lia.
  - congruence.
  - intros b [->|Hb]%elem_of_cons; [|by apply D7]. destruct V4 as (x & Hx & Hst). exists x. split; [|done].
    rewrite D9; [done|by apply Hout|by apply Hout].
  - intros [|i] b Hi Hb; cbn in Hb.
    + injection Hb as <-. destruct V5 as (x & Hx & Hst). exists x. rewrite Z.add_0_r. split; [|done].
      rewrite D9; [done|by apply Hout|by apply Hout].
    + replace (vseq s + 1 + Z.of_nat (S i)) with (vseq s + 1 + 1 + Z.of_nat i) by lia. apply D8; [lia|done].
  - intros b Hb1 Hb2. rewrite not_elem_of_cons in Hb1, Hb2. destruct Hb1, Hb2. rewrite D9 by done. by apply V6.
Qed.

(** The queues hold different buffers. *)
Lemma heads_differ hb D s sb outs db caps :
  inv hb D s -> v_out (view (vm2m s)) = sb :: outs -> v_cap (view (vm2m s)) = db :: caps ->
  sb ∉ outs /\ db ∉ caps /\ sb ∉ caps /\ db ∉ outs /\ sb <> db.
Proof.
  intros (c & p & so & log & HI) Eo Ec. pose proof (iv_bufs _ _ _ _ _ _ _ HI) as [_ _ _ B4 B5].
  pose proof (B5 OUTPUT) as N1. pose proof (B5 CAPTURE) as N2. cbn in N1, N2. rewrite Eo in N1. rewrite Ec in N2.
  apply list.NoDup_cons in N1 as [N1 _]. apply list.NoDup_cons in N2 as [N2 _].
  assert (Hno : forall b, b ∈ v_out (view (vm2m s)) -> b ∉ v_cap (view (vm2m s))).
  { intros b Hb Hb'. destruct (B4 OUTPUT b Hb) as (x & Hx & E). destruct (B4 CAPTURE b Hb') as (x' & Hx' & E'). congruence. }
  rewrite Eo, Ec in Hno. split; [done|]. split; [done|].
  assert (H1' := Hno sb (list_elem_of_here _ _)). rewrite not_elem_of_cons in H1'. destruct H1' as [H1a H1b].
  split; [done|]. split; [|done]. intros Hdb. apply (Hno db); [by apply list_elem_of_further|apply list_elem_of_here].
Qed.

Lemma mapped_rest s s' b : vbufs s' !! b = vbufs s !! b -> mapped s b -> mapped s' b.
Proof. intros E (x & q & Hx & Hq). exists x, q. by rewrite E. Qed.

Lemma run_all hb D n : forall s,
  inv hb D s -> (n <= length (v_out (view (vm2m s))))%nat -> (n <= length (v_cap (view (vm2m s))))%nat ->
  (forall b, b ∈ take n (v_out (view (vm2m s))) ++ take n (v_cap (view (vm2m s))) -> mapped s b) ->
  vseq s + Z.of_nat n <= ULONG_MAX ->
  allowed (replicate n EvRun) s /\
  exists s', exec_all (replicate n EvRun) s = Some (tt, s') /\ inv hb D s' /\ drained n s s'.
Proof.
  induction n as [|n IH]; intros s Hinv Ho Hc Hm Hn.
  { split; [done|]. exists s. split; [done|]. split; [done|]. apply drained_0. }
  destruct (v_out (view (vm2m s))) as [|sb outs] eqn:Eo; [cbn in Ho; lia|].
  destruct (v_cap (view (vm2m s))) as [|db caps] eqn:Ec; [cbn in Hc; lia|]. cbn in Ho, Hc, Hm.
  destruct (heads_differ _ _ _ _ _ _ _ Hinv Eo Ec) as (N1 & N2 & N3 & N4 & Hne).
  destruct (run_step hb D s sb outs db caps) as (Hen & s1 & Hrun & Hinv1 & Hran);
    [done|done|done|apply Hm; set_solver|apply Hm; set_solver|lia|].
  pose proof Hran as [V1 V2 V3 V4 V5 V6].
  assert (Eo1 : v_out (view (vm2m s1)) = outs) by (rewrite V1; cbn; by rewrite Eo).
  assert (Ec1 : v_cap (view (vm2m s1)) = caps) by (rewrite V1; cbn; by rewrite Ec).
  destruct (IH s1) as (Hall & s' & Hrun' & Hinv' & Hdr).
  - done.
  - rewrite Eo1. lia.
  - rewrite Ec1. lia.
  - rewrite Eo1, Ec1. intros b Hb. apply (mapped_rest s); [|apply Hm; set_solver].
    assert (b <> sb /\ b <> db) as [? ?]; [|by apply V6].
    apply elem_of_app in Hb as [Hb%take_in|Hb%take_in]; split; intros ->; done.
  - lia.
  - cbn [replicate allowed exec_all]. unfold fbind. rewrite Hrun. split; [by split|].
    exists s'. split; [done|]. split; [done|]. by eapply drained_S.
Qed.

(** ** Dequeuing *)

Record finished (b : positive) (k : Z) (s s' : vsys) : Prop := {
  fi_meta : exists e, seq e = k /\ vmeta s' = vpipe_meta_publish e (vmeta s) /\ head (vmeta s) + 1 <= ULONG_MAX;
  fi_state : in_state s' b DEQUEUED;
  fi_view : vm2m s' = vm2m s;
  fi_seq : vseq s' = vseq s;
  fi_rest : forall b', b' <> b -> vbufs s' !! b' = vbufs s !! b'
}.

Lemma finish_step hb D b k s :
  inv hb D s -> awaiting s b k -> k <> 0 ->
  enabled (EvFinish b) s /\ exists s', exec (EvFinish b) s = Some (tt, s') /\ inv hb D s' /\ finished b k s s'.
Proof.
  intros Hinv (x & Hx & Ht & Hst & <-) Hk.
  assert (Hen : enabled (EvFinish b) s) by (cbn; rewrite Hx; right; left; cbn; congruence).
  split; [done|]. destruct (exec_inv hb D (EvFinish b) s Hinv Hen) as (s' & Hrun & Hinv').
  exists s'. split; [done|]. split; [done|]. destruct Hinv as (c & p & so & log & HI).
  destruct HI as [_ _ _ _ _ _ Hbufs [L1 L2 L3 L4 L5]].
  destruct (bi_pend _ _ _ _ _ _ _ _ _ (bs_each _ _ _ _ _ _ _ _ Hbufs b x Hx) Hk) as (_ & _ & Hrange & Hfresh & _).
  assert (Hlen : Z.of_nat (length log) + 1 <= vseq s).
  { rewrite <- (length_fmap seq log). eapply nodup_bound; try done.
    intros i (e0 & -> & He0)%list_elem_of_fmap. by apply L4. }
  cbn [exec] in Hrun. unfold fbind in Hrun. rewrite (buf_finish_run b s x Hx), decide_True in Hrun by done.
  destruct (Z.eqb_spec (seq (b_meta_pending x)) 0) as [|_]; [done|]. cbv zeta beta iota in Hrun.
  erewrite set_state_run in Hrun by (cbn; by rewrite lookup_insert_eq). injection Hrun as <-. vcbn.
  split; vcbn; try done.
  - exists (with_dqbuf (ktime (kclock (vk s))) (b_meta_pending x)). split; [done|]. split; [done|].
    rewrite (Log.rl_head _ _ L1). lia.
  - eexists. vcbn. rewrite lookup_insert_eq. by split.
  - intros b' Hb'. by rewrite insert_insert_eq, lookup_insert_ne.
Qed.

(** The log grows by the frames of the buffers, in the order of dequeuing. *)
Lemma finish_all hb D bs : forall ks s log,
  inv hb D s -> NoDup bs -> Forall2 (awaiting s) bs ks -> Forall (fun k => k <> 0) ks -> Log.ring_log (vmeta s) log ->
  allowed (EvFinish <$> bs) s /\
  exists s' es, exec_all (EvFinish <$> bs) s = Some (tt, s') /\ inv hb D s' /\ seq <$> es = ks /\
    Log.ring_log (vmeta s') (log ++ es) /\ vm2m s' = vm2m s /\ vseq s' = vseq s /\
    (forall b, b ∈ bs -> in_state s' b DEQUEUED) /\ (forall b, b ∉ bs -> vbufs s' !! b = vbufs s !! b).
Proof.
  induction bs as [|b bs IH]; intros ks s log Hinv Hnd Haw Hk Hlog.
  { inversion Haw; subst. split; [done|]. exists s, []. rewrite app_nil_r. do 6 (split; [done|]).
    split; [by intros b ?%elem_of_nil|done]. }
  inversion Haw as [|? k ? ks' Hb Hbs]; subst. apply list.NoDup_cons in Hnd as [Hnot Hnd].
  apply Forall_cons_1 in Hk as [Hk0 Hk].
  destruct (finish_step hb D b k s Hinv Hb Hk0) as (Hen & s1 & Hrun & Hinv1 & [(e & Ee & Em & Hhead) F2 F3 F4 F5]).
  assert (Hlog1 : Log.ring_log (vmeta s1) (log ++ [e])).
  { rewrite Em. apply ring_log_publish; [done|]. rewrite (Log.rl_head _ _ Hlog) in Hhead. unfold ULONG_MAX in Hhead. lia. }
  destruct (IH ks' s1 (log ++ [e])) as (Hall & s' & es & Hrun' & Hinv' & Es & Hlog' & Ev & Eq & Hst & Hrest); [done|done| |done|done|].
  { apply Forall2_same_length_lookup_2; [by eapply Forall2_length|]. intros i b' k' Hb' Hk'.
    destruct (Forall2_lookup_lr _ _ _ _ _ _ Hbs Hb' Hk') as (x & Hx & Hrest). exists x. split; [|done].
    rewrite F5; [done|]. intros ->. by apply Hnot, (list_elem_of_lookup_2 _ i). }
  cbn [fmap list_fmap allowed exec_all]. unfold fbind. rewrite Hrun. split; [by split|].
  exists s', (e :: es). split; [done|]. split; [done|]. split; [cbn; congruence|].
  split; [by rewrite <- app_assoc in Hlog'|]. split; [congruence|]. split; [congruence|]. split.
  - intros b' [->|Hb']%elem_of_cons; [|by apply Hst]. destruct F2 as (x & Hx & Hx'). exists x. split; [|done].
    by rewrite Hrest.
  - intros b' Hb'. rewrite not_elem_of_cons in Hb'. destruct Hb'. rewrite Hrest by done. by apply F5.
Qed.

(** ** Jobs, then dequeuing *)

Lemma exec_all_app es es' s s1 :
  exec_all es s = Some (tt, s1) -> exec_all (es ++ es') s = exec_all es' s1.
Proof.
  revert s. induction es as [|e es IH]; intros s; cbn [exec_all app]; [by intros [= ->]|]. unfold fbind.
  destruct (exec e s) as [[[] s2]|]; [|done]. apply IH.
Qed.

Lemma allowed_app es es' s s1 :
  allowed es s -> exec_all es s = Some (tt, s1) -> allowed es' s1 -> allowed (es ++ es') s.
Proof.
  revert s. induction es as [|e es IH]; intros s; cbn [exec_all allowed app]; [by intros _ [= ->]|]. unfold fbind.
  intros [He Ha] Hrun Hn. split; [done|]. destruct (exec e s) as [[[] s2]|]; [|done]. by eapply IH.
Qed.

Lemma processed_frames_reported hb D n s log :
  inv hb D s -> (n <= length (v_out (view (vm2m s))))%nat -> (n <= length (v_cap (view (vm2m s))))%nat ->
  (forall b, b ∈ take n (v_out (view (vm2m s))) ++ take n (v_cap (view (vm2m s))) -> mapped s b) ->
  vseq s + Z.of_nat n <= ULONG_MAX -> Log.ring_log (vmeta s) log ->
  let caps := take n (v_cap (view (vm2m s))) in
  let events := replicate n EvRun ++ (EvFinish <$> caps) in
  allowed events s /\
  exists s' es, exec_all events s = Some (tt, s') /\ inv hb D s' /\
    Log.ring_log (vmeta s') (log ++ es) /\ seq <$> es = seqZ (vseq s + 1) (Z.of_nat n) /\
    v_out (view (vm2m s')) = drop n (v_out (view (vm2m s))) /\ v_cap (view (vm2m s')) = drop n (v_cap (view (vm2m s))) /\
    v_done (view (vm2m s')) = v_done (view (vm2m s)) ++ returned (take n (v_out (view (vm2m s)))) caps /\
    v_jobs (view (vm2m s')) = (n + v_jobs (view (vm2m s)))%nat /\
    (forall b, b ∈ take n (v_out (view (vm2m s))) -> in_state s' b DONE) /\
    (forall b, b ∈ caps -> in_state s' b DEQUEUED).
Proof.
  intros Hinv Ho Hc Hm Hn Hlog caps events.
  destruct (run_all hb D n s Hinv Ho Hc Hm Hn) as (Ha1 & s1 & Hrun1 & Hinv1 & [D1 D2 D3 D4 D5 D6 D7 D8 D9]).
  assert (Hlen : length caps = n) by (unfold caps; rewrite length_take; lia).
  pose proof Hinv as (c & p & so & log0 & [_ _ _ _ _ _ [_ _ _ B4 B5] [_ L2 _ _ _]]).
  assert (Hnd : NoDup caps).
  { eapply (sublist_NoDup _ (v_cap (view (vm2m s)))); [apply (B5 CAPTURE)|apply sublist_take]. }
  destruct (finish_all hb D caps (seqZ (vseq s + 1) (Z.of_nat n)) s1 log)
    as (Ha2 & s' & es & Hrun2 & Hinv2 & Es & Hlog' & Ev & Eq & Hst & Hrest); [done|done| | |by rewrite D6|].
  { apply Forall2_same_length_lookup_2; [rewrite length_seqZ; lia|]. intros i b k Hb Hk.
    apply lookup_seqZ in Hk as [-> Hk]. apply lookup_take_Some in Hb as [Hb Hi]. by apply D8. }
  { apply Forall_lookup. intros i k [-> _]%lookup_seqZ. lia. }
  split; [by eapply allowed_app|]. exists s', es. unfold events. rewrite (exec_all_app _ _ _ _ Hrun1).
  split; [done|]. split; [done|]. split; [done|]. split; [done|]. rewrite Ev.
  do 4 (split; [done|]). split; [|done]. intros b Hb. destruct (D7 b Hb) as (x & Hx & Hst'). exists x.
  split; [|done]. rewrite Hrest; [done|]. intros Hb'. apply take_in in Hb, Hb'.
  destruct (B4 OUTPUT b Hb) as (y & Hy & E), (B4 CAPTURE b Hb') as (y' & Hy' & E'). congruence.
Qed.
End Progress.

(** C5: every queued frame is processed and reported. From any state a run of
    the driver reaches, with [n] buffers or more waiting in both ready queues
    and their planes mapped, [n] jobs followed by dequeuing the first [n]
    CAPTURE buffers are events the frameworks may deliver, and they all return;
    the jobs hand back both buffers of each pair as done, pair by pair in the
    order of queuing; the metadata log grows by exactly [n] entries, numbered
    consecutively in that order; the CAPTURE buffers can be queued again and
    the OUTPUT buffers dequeued. *)
Theorem queued_frames_reported `{SourceContract} `{!ClockLaws} `{M2mFramework} `{!M2mLaws} `{DriverEnv}
    hb D es0 s0 n (HI : inv hb D s0) (Ha : allowed es0 s0) :
  exists s, exec_all es0 s0 = Some (tt, s) /\
    let outs := take n (v_out (view (vm2m s))) in
    let caps := take n (v_cap (view (vm2m s))) in
    let events := replicate n EvRun ++ (EvFinish <$> caps) in
    (length outs = n -> length caps = n -> (forall b, b ∈ outs ++ caps -> mapped s b) ->
     vseq s + Z.of_nat n <= ULONG_MAX ->
     allowed events s /\
     exists s' log es, exec_all events s = Some (tt, s') /\
       Log.ring_log (vmeta s) log /\ Log.ring_log (vmeta s') (log ++ es) /\
       seq <$> es = seqZ (vseq s + 1) (Z.of_nat n) /\
       v_out (view (vm2m s')) = drop n (v_out (view (vm2m s))) /\
       v_cap (view (vm2m s')) = drop n (v_cap (view (vm2m s))) /\
       v_done (view (vm2m s')) = v_done (view (vm2m s)) ++ returned outs caps /\
       v_jobs (view (vm2m s')) = (n + v_jobs (view (vm2m s)))%nat /\
       (forall b, b ∈ outs -> in_state s' b DONE) /\ (forall b, b ∈ caps -> in_state s' b DEQUEUED)).
Proof.
  destruct (exec_all_inv hb D es0 s0 HI Ha) as (s & Hrun & Hinv). exists s. split; [done|].
  intros outs caps events Ho Hc Hm Hn. unfold outs, caps in *. rewrite length_take in Ho, Hc.
  pose proof Hinv as (c & p & so & log & [_ _ _ _ _ _ _ [L1 _ _ _ _]]).
  destruct (processed_frames_reported hb D n s log) as (Hall & s' & es & H1' & _ & H2' & H3' & Hrest);
    [done|lia|lia|done|done|done|].
  split; [done|]. exists s', log, es. by do 4 (split; [done|]).
Qed.

(** A frame waits in the queues. *)
Definition busy_events : list event :=
  [EvPrepare 10; EvPrepare 11; EvStart OUTPUT; EvStart CAPTURE; EvQueue 10; EvQueue 11].

Lemma queued_frames_reported_witness :
  exists s s', @exec_all env_ok (@vpipe_ops_table env_ok) fifo_framework env_sum busy_events pipe_sys = Some (tt, s) /\
    v_out (vm2m s) = [10%positive] /\ v_cap (vm2m s) = [11%positive] /\
    @exec_all env_ok (@vpipe_ops_table env_ok) fifo_framework env_sum [EvRun; EvFinish 11] s = Some (tt, s') /\
    v_done (vm2m s') = [(10%positive, DONE); (11%positive, DONE)] /\ v_out (vm2m s') = [].
Proof.
  assert (Hal : @allowed env_ok (@vpipe_ops_table env_ok) fifo_framework fifo_laws env_sum busy_events pipe_sys)
    by (vm_compute; intuition discriminate).
  destruct (@queued_frames_reported env_ok (@vpipe_ops_table env_ok) vpipe_source_contract
    env_ok_laws fifo_framework fifo_laws env_sum _ _ busy_events pipe_sys 1 pipe_sys_inv Hal) as (s & Hs & Hq).
  exists s.
  assert (E : (v_out (vm2m s), v_cap (vm2m s), vseq s) = ([10%positive], [11%positive], 0)).
  { apply (fmap_run (fun s' : @vsys fifo_framework => (v_out (vm2m s'), v_cap (vm2m s'), vseq s')) _ _ _ _ Hs).
    vm_compute. reflexivity. }
  injection E as Eo Ec En. cbn [view fifo_laws id] in Hq. rewrite Eo, Ec, En in Hq.
  assert (Em : forall b, b ∈ [10%positive; 11%positive] ->
    is_Some (x ← vbufs s !! b; vb_plane (m2m_buf x))).
  { assert (E2 : ((x ← vbufs s !! 10%positive; vb_plane (m2m_buf x)), (x ← vbufs s !! 11%positive; vb_plane (m2m_buf x)))
      = (Some (Ptr 1 0), Some (Ptr 2 0))).
    { apply (fmap_run (fun s' : @vsys fifo_framework => ((x ← vbufs s' !! 10%positive; vb_plane (m2m_buf x)),
        (x ← vbufs s' !! 11%positive; vb_plane (m2m_buf x)))) _ _ _ _ Hs). vm_compute. reflexivity. }
    injection E2 as E3 E4.
    intros b [->|[->|?%elem_of_nil]%elem_of_cons]%elem_of_cons; [rewrite E3|rewrite E4|done]; by eexists. }
  destruct Hq as (_ & s' & log & es & H1 & _ & _ & _ & H2 & _ & H3 & _); [done|done| |done|].
  { intros b Hb. destruct (Em b Hb) as [q Hq]. destruct (vbufs s !! b) as [x|] eqn:Ex; [|done]. by exists x, q. }
  exists s'. split; [done|]. split; [done|]. split; [done|]. split; [exact H1|]. split; [|exact H2].
  rewrite H3. change (v_done (id (vm2m s))) with (v_done (vm2m s)).
  assert (E5 : v_done (vm2m s) = []).
  { apply (fmap_run (fun s' : @vsys fifo_framework => v_done (vm2m s')) _ _ _ _ Hs). vm_compute. reflexivity. }
  by rewrite E5.
Defined.
