(* ===== verification/Typed.v ===== *)
(** * Published entries are well formed

    The members of [struct vpipe_meta_entry] have fixed widths; the model keeps
    them as integers. For every run of the driver of [kmod/vpipe-m2m.c], the
    entries it publishes fit those widths and are consistent: a supported
    algorithm, a region inside the frame whose pixels the two counts add up to,
    a registered backend, no unknown flag. *)

From S2P Require Import Prelude Types Cv Meta Kernel Source Backends M2m M2mSpec Pipeline Progress.

(** The return types of the kernel services. *)
Class DriverTypes `{DriverEnv} := {
  crc32_le_u32 c l : in_u32 (crc32_le c l);
  processor_u32 k : in_u32 (raw_smp_processor_id k)
}.

Record entry_ok (e : vpipe_meta_entry) : Prop := {
  eo_header : version e = VPIPE_META_VERSION /\ entry_size e = sizeof_meta_entry;
  eo_flags : flags e = 0 \/ flags e = VPIPE_META_F_DROPPED;
  eo_seq : in_u64 (seq e);
  eo_times : Forall in_u64 [source_timestamp_ns e; qbuf_timestamp_ns e; capture_done_ns e; dqbuf_timestamp_ns e];
  eo_words : Forall in_u32 [src_v4l2_sequence e; buffer_index e; crc32 e; buffer_type e; queue_depth e; cpu_id e];
  eo_algo : algo_ok (algo_id e) = true /\ algo_status e = 0;
  eo_roi : exists w h, 1 <= w <= 4096 /\ 1 <= h <= 4096 /\ bytesused e = w * h /\
    0 <= roi_left e /\ 0 <= roi_top e /\ 0 <= roi_width e /\ 0 <= roi_height e /\
    roi_left e + roi_width e <= w /\ roi_top e + roi_height e <= h;
  eo_counts : 0 <= algo_value0 e /\ 0 <= algo_value1 e /\
    algo_value0 e + algo_value1 e = if algo_id e =? VPIPE_ALGO_THRESHOLD then roi_width e * roi_height e else 0;
  eo_backend : 0 <= source_backend e < VPIPE_BACKEND_MAX
}.

Record buf_typed (x : vpipe_buffer) : Prop := {
  bt_seq : in_u32 (b_src_sequence x);
  bt_time : in_u64 (b_qbuf_ns x);
  bt_desc : desc_ok (b_src_desc x);
  bt_index : in_u32 (vb_index (m2m_buf x));
  bt_memory : in_u32 (vb_memory (m2m_buf x));
  bt_pend : seq (b_meta_pending x) <> 0 -> entry_ok (b_meta_pending x)
}.

(** The parts of the state: context, kernel heap, buffers, metadata device. *)
Record typed_parts (co : option vpipe_ctx) (h : gmap positive kobj) (bufs : gmap positive vpipe_buffer)
    (g : vpipe_meta_dev) : Prop := {
  ty_ctx : forall c, co = Some c -> in_u32 (c_src_sequence c);
  ty_src : forall c p so, co = Some c -> c_src c = Some p -> h !! p = Some (OSource so) -> source_typed so;
  ty_buf : forall b x, bufs !! b = Some x -> buf_typed x;
  ty_size : Z.of_nat (size bufs) < 4294967296;
  ty_ring : Forall (fun e => e = meta_zero \/ entry_ok e) (ring g)
}.
Definition typed `{M2mFramework} (s : vsys) : Prop := typed_parts (vctx s) (kheap (vk s)) (vbufs s) (vmeta s).

Lemma lxor_u32 a b : in_u32 a -> in_u32 b -> in_u32 (Z.lxor a b).
Proof.
  unfold in_u32. intros Ha Hb. split; [apply Z.lxor_nonneg; lia|].
  destruct (Z.eq_dec (Z.lxor a b) 0) as [->|Hne]; [lia|].
  assert (Hp : 0 < Z.lxor a b) by (pose proof (proj2 (Z.lxor_nonneg a b)); lia).
  change 4294967296 with (2 ^ 32). apply Z.log2_lt_pow2; [done|].
  pose proof (Z.log2_lxor a b ltac:(lia) ltac:(lia)).
  assert (Hl : forall x, 0 <= x < 2 ^ 32 -> Z.log2 x < 32).
  { intros x Hx. destruct (Z.eq_dec x 0) as [->|]; [done|]. apply Z.log2_lt_pow2; lia. }
  pose proof (Hl a ltac:(lia)). pose proof (Hl b ltac:(lia)). lia.
Qed.

(** ** Changing one part *)

Section Parts.
Context (co : option vpipe_ctx) (h : gmap positive kobj) (bufs : gmap positive vpipe_buffer) (g : vpipe_meta_dev)
  (Ht : typed_parts co h bufs g).

Lemma typed_put b x x' : bufs !! b = Some x -> buf_typed x' -> typed_parts co h (<[b := x']> bufs) g.
Proof.
  intros Hx Hx'. destruct Ht as [T1 T2 T3 T4 T5]. split; try done.
  - intros k y. rewrite lookup_insert. case_decide; [by intros [= <-]|apply T3].
  - by rewrite map_size_insert_Some.
Qed.

Lemma typed_heap h' c p so :
  co = Some c -> c_src c = Some p -> h' !! p = Some (OSource so) -> source_typed so -> typed_parts co h' bufs g.
Proof.
  intros Hc Hp Hh Hs. destruct Ht as [T1 T2 T3 T4 T5]. split; try done. intros c' p' so' Hc' Hp' Hh'.
  assert (c' = c) as -> by congruence. assert (p' = p) as -> by congruence. assert (so' = so) as -> by congruence. done.
Qed.

Lemma typed_ctx c c' :
  co = Some c -> c_src c' = c_src c -> in_u32 (c_src_sequence c') -> typed_parts (Some c') h bufs g.
Proof.
  intros Hc Hp Hs. destruct Ht as [T1 T2 T3 T4 T5]. split; try done; [by intros ? [= <-]|].
  intros c0 p so [= <-] Hc0. apply (T2 c); [done|congruence].
Qed.

Lemma typed_publish e : entry_ok e -> typed_parts co h bufs (vpipe_meta_publish e g).
Proof.
  intros He. destruct Ht as [T1 T2 T3 T4 T5]. split; try done. cbn [vpipe_meta_publish ring].
  apply Forall_insert; [done|]. right. by destruct He.
Qed.
End Parts.

(** What the framework changes of a buffer leaves its types alone. *)
Lemma buf_typed_state st x : buf_typed x -> buf_typed (with_state st x).
Proof. by intros []. Qed.

Lemma mark_size st l m : size (mark st l m) = size m.
Proof.
  rewrite <- !size_dom. f_equal. apply set_eq. intros b. rewrite !elem_of_dom, mark_lookup.
  by rewrite fmap_is_Some.
Qed.

(** The pixels a threshold counts. *)
Lemma roi_count_total job m t r :
  0 <= width r -> 0 <= height r ->
  0 <= roi_count job m t r true /\ 0 <= roi_count job m t r false /\
  roi_count job m t r true + roi_count job m t r false = width r * height r.
Proof.
  intros Hw Hh. assert (Hb : forall b, 0 <= roi_count job m t r b).
  { intros b. apply zsum_nonneg. intros y _. apply zsum_nonneg. intros x _. destruct (Bool.eqb _ _); cbn; lia. }
  split; [done|]. split; [done|]. unfold roi_count. rewrite zsum_add, (zsum_const _ (width r)); [lia| |lia].
  intros y _. rewrite zsum_add, (zsum_const _ 1); [lia| |lia]. intros x _. by destruct (t <? src_px job m x y).
Qed.

(** A source just created counts from 0 and has a valid identity. *)
Lemma create_typed `{KernelEnv} id w so :
  match vpipe_source_create id w with
  | Some (GoodPtr q, w') => kheap w' !! q = Some (OSource so) -> source_typed so
  | _ => True
  end.
Proof.
  unfold vpipe_source_create. destruct (vpipe_backend_id_valid id) eqn:Hid; cbn [negb]; [|done].
  unfold vpipe_backend_id_valid, VPIPE_BACKEND_NONE in Hid.
  destruct (backend_ops w !! Z.to_nat id) as [[r|]|]; [|done|by destruct (backend_name w !! Z.to_nat id)].
  destruct (backend_name w !! Z.to_nat id); [|done].
  unfold fbind, kzalloc. destruct (kalloc (kallocs w)); cbn; [|done]. rewrite lookup_insert_eq. intros [= <-].
  unfold source_typed. cbn. split; [done|]. lia.
Qed.

(** ** Every event keeps the types *)

Section Events.
Context `{SourceContract} `{!ClockLaws} `{M2mFramework} `{!M2mLaws} `{DriverEnv} `{!DriverTypes}.

Lemma clock_u64 k : in_u64 (ktime k).
Proof. pose proof (ktime_pos k). unfold in_u64. lia. Qed.

Ltac all_typed := repeat (apply Forall_cons_2; [first [assumption|apply clock_u64|done|unfold in_u64; lia]|]); apply Forall_nil_2.

Lemma run_entry_ok c sx dx n now bytes m sp dp depth cpu :
  ctx_fmt_ok c -> buf_typed sx -> in_u32 (vb_index (m2m_buf dx)) -> algo_ok (b_algo_id sx) = true ->
  in_u64 n -> in_u64 now -> in_u32 depth -> in_u32 cpu ->
  entry_ok (run_meta c sx dx n now (meta_crc bytes)
    (out_result (run_job c sp dp) m (b_algo_id sx) (b_threshold sx)
       (vpipe_clamp_roi (run_job c sp dp) (Some (b_roi sx)))) depth cpu).
Proof.
  intros [[Hw Hh Hl Hs _] Hq] [B1 B2 [K1 K2 K3 K4] B4 B5 _] Hi Ha Hn Hnow Hd Hc.
  set (r := vpipe_clamp_roi _ _). assert (Hr : roi_in_frame (run_job c sp dp) r).
  { apply clamp_roi_in_frame; unfold INT_MAX; cbn; lia. }
  destruct Hr as [R1 R2 R3 R4 R5 R6]. cbn [run_job job_width job_height] in R5, R6.
  set (res := out_result _ _ _ _ _). assert (Eres : cv_roi res = r /\ cv_status res = 0 /\
    0 <= value0 res /\ 0 <= value1 res /\
    value0 res + value1 res = if b_algo_id sx =? VPIPE_ALGO_THRESHOLD then width r * height r else 0).
  { unfold res, out_result. destruct (b_algo_id sx =? VPIPE_ALGO_THRESHOLD); cbn; [|done].
    by pose proof (roi_count_total (run_job c sp dp) m (b_threshold sx) r R3 R4). }
  destruct Eres as (E1 & E2 & E3). clearbody res.
  split; cbn [run_meta version entry_size flags seq source_timestamp_ns qbuf_timestamp_ns capture_done_ns dqbuf_timestamp_ns
    src_v4l2_sequence buffer_index crc32 buffer_type queue_depth cpu_id algo_id algo_status bytesused roi_left roi_top
    roi_width roi_height algo_value0 algo_value1 source_backend]; rewrite ?E1; try done.
  - destruct K4 as [->| ->]; [left|right]; done.
  - all_typed.
  - assert (in_u32 (meta_crc bytes)) by (apply lxor_u32; [apply crc32_le_u32|done]). all_typed.
  - exists (q_width (out_q c)), (q_height (out_q c)). rewrite Hq. done.
Qed.

Lemma ready_small hb D c p so log s t :
  Inv hb D c p so log s -> typed s -> in_u32 (Z.of_nat (length (ready t (view (vm2m s))))).
Proof.
  intros HI Ht. pose proof (iv_bufs _ _ _ _ _ _ _ HI) as [_ _ _ B4 B5]. pose proof (ty_size _ _ _ _ Ht) as Hs.
  assert (Hle : (length (ready t (view (vm2m s))) <= size (vbufs s))%nat).
  { apply NoDup_length_size; [apply B5|]. intros b Hb. destruct (B4 t b Hb) as (x & Hx & _). by exists x. }
  unfold in_u32. lia.
Qed.

Lemma run_typed hb D s s' :
  inv hb D s -> enabled EvRun s -> exec EvRun s = Some (tt, s') -> typed s -> typed s'.
Proof.
  intros (c & p & so & log & HI) (Ho & Hc & Hn) Hrun Ht. unfold typed in *.
  destruct (run_pair _ _ _ _ _ _ _ HI Ho Hc) as (sb & db & sx & dx & Hs & Hd & Hsx & Hdx & Est & Edt & Eas & Ead).
  assert (Hne : sb <> db) by congruence. pose proof HI as [I1 _ _ _ _ I6 _ _].
  pose proof (ty_buf _ _ _ _ Ht sb sx Hsx) as Tsx. pose proof (ty_buf _ _ _ _ Ht db dx Hdx) as Tdx.
  assert (Hfail : vb_plane (m2m_buf sx) = None \/ vb_plane (m2m_buf dx) = None -> typed s').
  { intros Hpl. destruct (device_run_fail s c sb db sx dx) as (q & Hrun' & _); [done..|tauto|].
    cbn [exec] in Hrun. rewrite Hrun' in Hrun. injection Hrun as <-. unfold typed, fail_post. vcbn.
    eapply typed_put; [|by rewrite lookup_insert_ne|by apply buf_typed_state].
    eapply typed_put; [exact Ht|exact Hsx|by apply buf_typed_state]. }
  destruct (vb_plane (m2m_buf sx)) as [sp|] eqn:Hsp; [|by apply Hfail; left].
  destruct (vb_plane (m2m_buf dx)) as [dp|] eqn:Hdp; [|by apply Hfail; right]. clear Hfail.
  destruct (run_success hb D c p so log s sb db sx dx sp dp) as (Ha & m & bytes & q & Hrun' & _); [done..|].
  rewrite Hrun' in Hrun. injection Hrun as <-. unfold run_post. vcbn. rewrite <- I1.
  eapply typed_put; [|by rewrite lookup_insert_ne|].
  { eapply typed_put; [exact Ht|exact Hsx|by apply buf_typed_state]. }
  destruct Tdx as [X1 X2 X3 X4 X5 X6]. split; cbn; try done. intros _. apply run_entry_ok; try done.
  - apply I6.
  - apply u64_range.
  - apply clock_u64.
  - pose proof (ready_small hb D c p so log s OUTPUT HI Ht) as Hlen. unfold in_u32 in *. cbn in Hlen.
    destruct (v_out (view (vm2m s))); cbn in *; lia.
  - apply processor_u32.
Qed.

Lemma finish_typed b s s' :
  exec (EvFinish b) s = Some (tt, s') -> typed s -> typed s'.
Proof.
  intros Hrun Ht. unfold typed in *. cbn [exec] in Hrun. unfold fbind in Hrun.
  destruct (vbufs s !! b) as [x|] eqn:Hx; [|unfold vpipe_buf_finish, fbind, get_buf in Hrun; by rewrite Hx in Hrun].
  rewrite (buf_finish_run b s x Hx) in Hrun. pose proof (ty_buf _ _ _ _ Ht b x Hx) as Tx.
  assert (Hq : set_state b DEQUEUED s = Some (tt, s') -> typed s').
  { rewrite (set_state_run b DEQUEUED s x Hx). intros [= <-]. unfold typed. vcbn.
    eapply typed_put; [exact Ht|exact Hx|by apply buf_typed_state]. }
  case_decide; [|by apply Hq]. destruct (Z.eqb_spec (seq (b_meta_pending x)) 0) as [|Hnz]; [by apply Hq|]. clear Hq.
  cbv zeta beta iota in Hrun. erewrite set_state_run in Hrun by (cbn; by rewrite lookup_insert_eq).
  injection Hrun as <-. vcbn. destruct Tx as [X1 X2 X3 X4 X5 X6]. specialize (X6 Hnz).
  assert (He : entry_ok (with_dqbuf (ktime (kclock (vk s))) (b_meta_pending x))).
  { destruct X6 as [E1 E2 E3 E4 E5 E6 E7 E8 E9]. split; try done. cbn.
    repeat (apply Forall_cons_1 in E4 as [? E4]). all_typed. }
  rewrite insert_insert_eq. eapply typed_put; [|exact Hx|by split]. by apply typed_publish.
Qed.

Lemma prepare_typed b s s' : exec (EvPrepare b) s = Some (tt, s') -> typed s -> typed s'.
Proof.
  intros Hrun Ht. unfold typed in *. cbn [exec] in Hrun.
  unfold vpipe_buf_prepare, fbind at 1 2 3, get_buf, get_ctx in Hrun.
  destruct (vbufs s !! b) as [x|] eqn:Hx; [|done]. destruct (vctx s) as [c|] eqn:Hc; [|done].
  destruct (_ <? _); [by injection Hrun as <-; rewrite Hc|]. unfold fbind, put_buf in Hrun. rewrite Hx in Hrun.
  cbn [ztrue Z.eqb negb fret] in Hrun. erewrite set_state_run in Hrun by (cbn; by rewrite lookup_insert_eq).
  injection Hrun as <-. vcbn. rewrite insert_insert_eq, Hc. eapply typed_put; [exact Ht|exact Hx|].
  by destruct (ty_buf _ _ _ _ Ht b x Hx).
Qed.

Lemma queue_typed hb D b s s' :
  inv hb D s -> enabled (EvQueue b) s -> exec (EvQueue b) s = Some (tt, s') -> typed s -> typed s'.
Proof.
  intros (c & p & so & log & HI) Hst Hrun Ht. pose proof HI as [Hc Hsrc Ho _ _ _ _ _]. unfold typed in *. cbn in Hst.
  destruct (vbufs s !! b) as [x|] eqn:Hx; [|done]. injection Hst as Hst.
  pose proof (ty_buf _ _ _ _ Ht b x Hx) as [X1 X2 X3 X4 X5 X6].
  revert Hrun. cbn [exec]. unfold fbind at 1. rewrite (set_state_run b ACTIVE s x Hx).
  unfold vpipe_buf_queue, fbind at 1, get_buf. vcbn. rewrite lookup_insert_eq.
  unfold fbind at 1, get_ctx. vcbn. rewrite Hc. cbn [m2m_buf with_state with_vb vb_with_state vb_type].
  pose proof (ty_ctx _ _ _ _ Ht c Hc) as Tc.
  pose proof (ty_src _ _ _ _ Ht c p so Hc Hsrc (proj1 (owned_source _ _ _ _ _ Ho))) as Ts.
  destruct (vb_type (m2m_buf x)) eqn:Hty.
  - set (hints := FrameDesc _ _ _ _ _ _ _ _).
    destruct (source_next_frame_ok p so hb D (tick_clock (vk s)) (vb_plane (m2m_buf x)) hints)
      as (ret & d' & w' & so' & Hrun & Ho' & _ & _ & _ & Htyp).
    { by apply owned_clock. } { by eapply plane_target. }
    destruct (Htyp Ts) as [Hd' Ts'].
    unfold fbind at 1. unfold fbind at 1. unfold kern at 1, ktime_get_ns. vcbn.
    unfold fbind at 1, kern at 1. vcbn. rewrite Hsrc.
    change (vb_plane (vb_with_state _ _)) with (vb_plane (m2m_buf x)).
    unfold tick_clock in Hrun. rewrite Hrun. unfold put_buf. vcbn. rewrite lookup_insert_eq.
    intros [= <-]. vcbn. rewrite insert_insert_eq, <- Hc. eapply typed_put; [|exact Hx|].
    + eapply typed_heap; [exact Ht|exact Hc|exact Hsrc|apply (owned_source _ _ _ _ _ Ho')|done].
    + split; cbn; try done. apply clock_u64.
  - unfold fbind, fret, on_m2m, fmodify. vcbn. intros [= <-]. vcbn. rewrite <- Hc.
    eapply typed_put; [exact Ht|exact Hx|]. by split.
Qed.

Lemma ctrl_typed id val s s' : exec (EvCtrl id val) s = Some (tt, s') -> typed s -> typed s'.
Proof.
  intros Hrun Ht. unfold typed in *. cbn [exec] in Hrun.
  unfold fbind, vpipe_s_ctrl, fbind, get_ctx, put_ctx, fmodify, fret in Hrun.
  destruct (vctx s) as [c|] eqn:Hc; [|done]. pose proof (ty_ctx _ _ _ _ Ht c eq_refl) as Tc.
  repeat match type of Hrun with context [if ?b then _ else _] => destruct b end; injection Hrun as <-;
    try (by rewrite Hc); vcbn; (eapply typed_ctx; [exact Ht|reflexivity|done|]); cbn; try done; apply u32_range.
Qed.

Lemma s_fmt_typed hb D t pix s s' :
  inv hb D s -> exec (EvSFmt t pix) s = Some (tt, s') -> typed s -> typed s'.
Proof.
  intros (c & p & so & log & HI) Hrun Ht. pose proof (iv_ctx _ _ _ _ _ _ _ HI) as Hc. unfold typed in *.
  cbn [exec] in Hrun. unfold fbind in Hrun. rewrite (s_fmt_run t pix s c Hc) in Hrun.
  destruct (busy _ _); injection Hrun as <-; [done|]. vcbn.
  eapply typed_ctx; [exact Ht|exact Hc|done|]. by apply (ty_ctx _ _ _ _ Ht c).
Qed.

Lemma start_typed hb D t s s' :
  inv hb D s -> enabled (EvStart t) s -> exec (EvStart t) s = Some (tt, s') -> typed s -> typed s'.
Proof.
  intros (c & p & so & log & HI) Hst Hrun Ht. pose proof HI as [Hc Hsrc Ho Hidle _ _ _ _]. unfold typed in *.
  pose proof (ty_src _ _ _ _ Ht c p so Hc Hsrc (proj1 (owned_source _ _ _ _ _ Ho))) as Ts.
  revert Hrun. cbn [exec enabled] in *. unfold vpipe_start_streaming, fbind, get_ctx. rewrite Hc.
  destruct t; unfold kern, fret, on_m2m, fmodify.
  - destruct (source_start_ok p so hb D (vk s) (Some (out_q c)) Ho (Hidle Hst)) as (ret & w' & q & Hrun & Ho' & _).
    rewrite Hsrc, Hrun. destruct (ztrue ret); intros [= <-]; vcbn;
      (eapply typed_heap; [exact Ht|exact Hc|exact Hsrc|apply (owned_source _ _ _ _ _ Ho')|exact Ts]).
  - cbn [ztrue Z.eqb negb]. by intros [= <-].
Qed.

Lemma stop_typed hb D t s s' :
  inv hb D s -> exec (EvStop t) s = Some (tt, s') -> typed s -> typed s'.
Proof.
  intros (c & p & so & log & HI) Hrun Ht. pose proof HI as [Hc Hsrc Ho _ _ _ [_ _ _ B4 B5] _]. unfold typed in *.
  pose proof (ty_src _ _ _ _ Ht c p so Hc Hsrc (proj1 (owned_source _ _ _ _ _ Ho))) as Ts.
  assert (Hstop : exists w', match t with OUTPUT => kern (vpipe_source_stop (c_src c)) | CAPTURE => fret tt end s
      = Some (tt, set_vk w' s) /\ typed_parts (vctx s) (kheap w') (vbufs s) (vmeta s)).
  { destruct t.
    - destruct (source_stop_ok p so hb D (vk s) Ho) as (w' & Hrun' & Ho' & _). exists w'. unfold kern. rewrite Hsrc, Hrun'.
      split; [done|]. eapply typed_heap; [exact Ht|exact Hc|exact Hsrc|apply (owned_source _ _ _ _ _ Ho')|exact Ts].
    - exists (vk s). by destruct s. }
  destruct Hstop as (w' & Hstop & Ht').
  destruct (return_all_buffers_ok t (set_vk w' s) _ eq_refl (B5 t)) as (q & Hq & _).
  { intros b Hb. destruct (B4 t b Hb) as (x & Hx & _). by exists x. }
  cbn [exec] in Hrun. unfold vpipe_stop_streaming, fbind, get_ctx in Hrun. rewrite Hc, Hstop, Hq in Hrun.
  unfold on_m2m, fmodify in Hrun. injection Hrun as <-. vcbn. destruct Ht' as [T1 T2 T3 T4 T5]. split; try done.
  - intros b x. rewrite mark_lookup. destruct (vbufs s !! b) as [x0|] eqn:E; [|done]. cbn. intros [= <-].
    pose proof (T3 b x0 E). case_decide; [by apply buf_typed_state|done].
  - by rewrite mark_size.
Qed.

(** A new source takes the place of the old one. *)
Lemma backend_typed hb D id s s' :
  inv hb D s -> exec (EvBackend id) s = Some (tt, s') -> typed s -> typed s'.
Proof.
  intros (c & p & so & log & HI) Hrun Ht. pose proof HI as [Hc Hsrc Ho Hidle Hreg _ _ _]. unfold typed in *.
  revert Hrun. cbn [exec]. unfold vpipe_default_ioctl, fbind at 1 2, get_ctx. rewrite Hc.
  unfold fbind at 1, fget. rewrite !streaming_view.
  destruct (streaming OUTPUT (view (vm2m s)) || streaming CAPTURE (view (vm2m s))); [by intros [= <-]|].
  pose proof (create_typed id (vk s)) as Hty.
  destruct (create_cases id (vk s) Hreg) as (r & w1 & Hcr & Hr). rewrite Hcr in Hty.
  unfold fbind at 1, kern at 1. rewrite Hcr. destruct r as [q|e].
  2:{ intros [= <-]. vcbn. by destruct Hr as [_ [->| ->]]. }
  destruct Hr as (-> & so1 & r1 & Hops & Hpr & ->). set (w1 := tick_alloc true _) in *.
  destruct (source_destroy_ok p so (<[knext (vk s) := OSource so1]> hb) D w1)
    as (w2 & Hd & Hh2 & Hd2 & Hf2 & Hk2); [by apply owned_alloc|].
  unfold fbind, kern. vcbn. rewrite Hsrc, Hd. unfold put_ctx, fmodify, fret. intros [= <-]. vcbn.
  destruct Ht as [T1 T2 T3 T4 T5]. split; try done.
  - intros c' [= <-]. by apply (T1 c).
  - intros c' p' so' [= <-] [= <-]. cbn. rewrite Hh2, lookup_insert_eq. intros [= <-].
    apply (Hty so1). cbn. by rewrite lookup_insert_eq.
Qed.

Lemma exec_typed hb D e s s' :
  inv hb D s -> enabled e s -> exec e s = Some (tt, s') -> typed s -> typed s'.
Proof.
  intros HI He Hrun Ht. destruct e.
  - by eapply s_fmt_typed.
  - by eapply ctrl_typed.
  - by eapply prepare_typed.
  - by eapply queue_typed.
  - by eapply run_typed.
  - by eapply finish_typed.
  - by eapply start_typed.
  - by eapply stop_typed.
  - by eapply backend_typed.
Qed.

Lemma exec_all_typed hb D es : forall s,
  inv hb D s -> allowed es s -> typed s -> exists s', exec_all es s = Some (tt, s') /\ inv hb D s' /\ typed s'.
Proof.
  induction es as [|e es IH]; intros s HI Ha Ht; [by exists s|]. destruct Ha as [He Ha].
  destruct (exec_inv hb D e s HI He) as (s1 & Hrun & HI1).
  pose proof (exec_typed hb D e s s1 HI He Hrun Ht) as Ht1. cbn [exec_all]. unfold fbind. rewrite Hrun in *.
  by apply IH.
Qed.
End Events.


(** A checksum that fits 32 bits. *)
Definition env_mod : DriverEnv := Build_DriverEnv (fun c l => u32 (foldr Z.add c l)) (fun _ => 3).
#[local] Instance env_mod_types : @DriverTypes env_mod.
Proof. split; intros; [apply u32_range|done]. Qed.

Lemma pipe_sys_typed : typed pipe_sys.
Proof.
  split.
  - by intros c [= <-].
  - intros c p so [= <-] [= <-] E. vm_compute in E. injection E as <-. done.
  - intros b x [[-> ->]|[-> ->]]%pipe_bufs; (split; try done; split; by auto).
  - done.
  - apply Forall_replicate. by left.
Qed.

Lemma pipe_allowed_mod :
  @allowed env_ok (@vpipe_ops_table env_ok) fifo_framework fifo_laws env_mod pipe_events pipe_sys.
Proof. vm_compute. intuition discriminate. Qed.

