(* ===== verification/Device.v ===== *)
(** * The device's life: open, release, load and unload

    [vpipe_open], [vpipe_release], [vpipe_init] and [vpipe_exit] of
    [kmod/vpipe-m2m.c] with every error path. What a framework has been asked
    to keep (a control handler, a file handle, an m2m context, a registered
    device) is part of the state, and asking to drop something that is not
    there faults, so that a double or missing cleanup shows. *)

From S2P Require Import Prelude Types Cv Meta Kernel Source Backends M2m M2mSpec Pipeline.

(** ** Opening and releasing the video node *)

(** The queue descriptions [vpipe_queue_init] fills in. *)
Record vb2_queue := Vq {
  vq_type : buf_type;
  vq_io_modes : Z;
  vq_timestamp_flags : Z
}.

Definition VB2_MMAP : Z := Z.shiftl 1 0.
Definition VB2_DMABUF : Z := Z.shiftl 1 4.
Definition V4L2_BUF_FLAG_TIMESTAMP_MONOTONIC : Z := 0x2000.

(** The services of the frameworks while a file is opened: the outcome of
    registering a control, of initialising a queue, and of creating an m2m
    context whose queue initialisation returned the given code. *)
Class OpenEnv `{M2mFramework} := {
  ctrl_new_custom : v4l2_ctrl_config -> Z;
  vb2_queue_init : vb2_queue -> Z;
  m2m_ctx_init : Z -> Z * m2m_ctx
}.

(** [v4l2_m2m_ctx_init] hands out an idle context or a negative error, an error
    of the queue initialisation included. *)
Class OpenLaws `{OpenEnv} `{!M2mLaws} := {
  ctrl_new_code cfg : ctrl_new_custom cfg <= 0;
  queue_init_code q : vb2_queue_init q <= 0;
  ctx_init_code n : n <= 0 -> (m2m_ctx_init n).1 <= 0;
  ctx_init_error n : n < 0 -> (m2m_ctx_init n).1 < 0;
  ctx_init_idle n : (m2m_ctx_init n).1 = 0 ->
    view (m2m_ctx_init n).2 = View [] [] [] 0 false false false false
}.

(** A file of the node: the driver's state and what the frameworks keep for it. *)
Record vfile `{M2mFramework} := VFile {
  fsys : vsys;
  f_handler : option (list v4l2_ctrl_config);
  f_fh_init : bool;
  f_fh_added : bool;
  f_m2m : bool
}.

Section Open.
Context `{KernelEnv} `{OpsTable} `{OpenEnv}.

(** Runs a computation of the driver on the file. *)
Definition drv {A} (c : F vsys A) : F vfile A :=
  fun f => match c (fsys f) with
           | Some (a, s) => Some (a, VFile _ s (f_handler f) (f_fh_init f) (f_fh_added f) (f_m2m f))
           | None => None
           end.

Definition vpipe_queue_init : Z * list vb2_queue :=
  let io := Z.lor VB2_MMAP VB2_DMABUF in
  let src_vq := Vq OUTPUT io V4L2_BUF_FLAG_TIMESTAMP_MONOTONIC in
  let dst_vq := Vq CAPTURE io V4L2_BUF_FLAG_TIMESTAMP_MONOTONIC in
  let ret := vb2_queue_init src_vq in
  if ztrue ret then (ret, [src_vq])
  else (vb2_queue_init dst_vq, [src_vq; dst_vq]).

(** [kzalloc] and [kfree] of the context. *)
Definition ctx_alloc (c : vpipe_ctx) : F vsys bool :=
  fun s =>
    let ok := kalloc (kallocs (vk s)) in
    Some (ok, VSys _ (tick_alloc ok (vk s)) (if ok then Some c else vctx s) (vbufs s) (vm2m s)
                (vseq s) (vmeta s)).
Definition ctx_free : F vsys unit :=
  get_ctx;; fmodify (set_vctx None).

Definition v4l2_ctrl_handler_init : F vfile unit :=
  fun f => match f_handler f with
           | None => Some (tt, VFile _ (fsys f) (Some []) (f_fh_init f) (f_fh_added f) (f_m2m f))
           | Some _ => None
           end.
Definition v4l2_ctrl_handler_free : F vfile unit :=
  fun f => match f_handler f with
           | Some _ => Some (tt, VFile _ (fsys f) None (f_fh_init f) (f_fh_added f) (f_m2m f))
           | None => None
           end.

(** The handler keeps the first error; a control after it is not added.
    Returns [ctrl_handler.error]. *)
Fixpoint new_customs (cfgs : list v4l2_ctrl_config) : F vfile Z :=
  match cfgs with
  | [] => fret 0
  | cfg :: cfgs' =>
      fun f =>
        match f_handler f with
        | None => None
        | Some l =>
            if ctrl_new_custom cfg =? 0
            then new_customs cfgs' (VFile _ (fsys f) (Some (l ++ [cfg])) (f_fh_init f)
                                      (f_fh_added f) (f_m2m f))
            else Some (ctrl_new_custom cfg, f)
        end
  end.

Definition v4l2_fh_init_add : F vfile unit :=
  fun f => if f_fh_init f || f_fh_added f then None
           else Some (tt, VFile _ (fsys f) (f_handler f) true true (f_m2m f)).
Definition v4l2_fh_del : F vfile unit :=
  fun f => if f_fh_added f
           then Some (tt, VFile _ (fsys f) (f_handler f) (f_fh_init f) false (f_m2m f)) else None.
Definition v4l2_fh_exit : F vfile unit :=
  fun f => if f_fh_init f && negb (f_fh_added f)
           then Some (tt, VFile _ (fsys f) (f_handler f) false (f_fh_added f) (f_m2m f)) else None.

(** [v4l2_m2m_ctx_release] stops the queues that are still streaming through
    the driver's [stop_streaming], CAPTURE first, and drops the context. *)
Definition stop_if_streaming (t : buf_type) : F vsys unit :=
  s <- fget;;
  if vb2_is_streaming t (vm2m s)
  then vpipe_stop_streaming t;; on_m2m (vb2_set_streaming t false)
  else fret tt.

Definition v4l2_m2m_ctx_release : F vfile unit :=
  fun f =>
    if f_m2m f then
      (drv (stop_if_streaming CAPTURE);; drv (stop_if_streaming OUTPUT);;
       fmodify (fun f => VFile _ (fsys f) (f_handler f) (f_fh_init f) (f_fh_added f) false)) f
    else None.

(** The context as [vpipe_open] sets it up. *)
Definition ctx_default : vpipe_ctx :=
  let q := QData VPIPE_DEFAULT_WIDTH VPIPE_DEFAULT_HEIGHT VPIPE_DEFAULT_WIDTH
             (VPIPE_DEFAULT_WIDTH * VPIPE_DEFAULT_HEIGHT) V4L2_PIX_FMT_GREY in
  Ctx q q 0 VPIPE_ALGO_NONE VPIPE_DEFAULT_THRESHOLD
    (Roi 0 0 VPIPE_DEFAULT_WIDTH VPIPE_DEFAULT_HEIGHT) None.

Definition vpipe_open : F vfile Z :=
  ok <- drv (ctx_alloc ctx_default);;
  if negb ok then fret (- ENOMEM)
  else
    v4l2_ctrl_handler_init;;
    err <- new_customs vpipe_ctrls;;
    if ztrue err then
      v4l2_ctrl_handler_free;; drv ctx_free;; fret err
    else
      v4l2_fh_init_add;;
      let '(code, q) := m2m_ctx_init vpipe_queue_init.1 in
      if ztrue code then
        v4l2_fh_del;; v4l2_fh_exit;; v4l2_ctrl_handler_free;; drv ctx_free;; fret code
      else
        fmodify (fun f => VFile _ (set_vm2m q (fsys f)) (f_handler f) (f_fh_init f)
                            (f_fh_added f) true);;
        o <- drv (kern (vpipe_source_create VPIPE_BACKEND_FIXTURE));;
        match o with
        | ErrPtr e =>
            v4l2_m2m_ctx_release;; v4l2_fh_del;; v4l2_fh_exit;; v4l2_ctrl_handler_free;;
            drv ctx_free;; fret e
        | GoodPtr p =>
            c <- drv get_ctx;;
            drv (put_ctx (with_src (Some p) c));;
            fret 0
        end.

Definition vpipe_release : F vfile Z :=
  c <- drv get_ctx;;
  drv (kern (vpipe_source_destroy (c_src c)));;
  v4l2_m2m_ctx_release;;
  v4l2_ctrl_handler_free;;
  v4l2_fh_del;;
  v4l2_fh_exit;;
  drv ctx_free;;
  fret 0.

End Open.

(** Nothing is kept for the file. *)
Definition closed `{M2mFramework} (f : vfile) : Prop :=
  vctx (fsys f) = None /\ f_handler f = None /\ f_fh_init f = false /\
  f_fh_added f = false /\ f_m2m f = false.

Section OpenSpec.
Context `{SourceContract} `{!ClockLaws} `{OpenEnv} `{!M2mLaws} `{!OpenLaws}.

Lemma new_customs_run cfgs : forall l s i a m,
  exists err l', new_customs cfgs (VFile _ s (Some l) i a m) = Some (err, VFile _ s (Some l') i a m) /\
    err <= 0 /\ (err = 0 -> l' = l ++ cfgs).
Proof.
  induction cfgs as [|cfg cfgs IH]; intros l s i a m; cbn [new_customs].
  - exists 0, l. split; [done|]. split; [done|]. by rewrite app_nil_r.
  - cbn [f_handler fsys f_fh_init f_fh_added f_m2m].
    destruct (Z.eqb_spec (ctrl_new_custom cfg) 0) as [|Hne].
    + destruct (IH (l ++ [cfg]) s i a m) as (err & l' & Hr & Hle & Hl).
      exists err, l'. split; [done|]. split; [done|]. intros E. rewrite (Hl E), <- app_assoc. done.
    + exists (ctrl_new_custom cfg), l. split; [done|].
      pose proof (ctrl_new_code cfg). split; [done|]. lia.
Qed.

(** The state of the driver right after a successful open. *)
Lemma opened_inv w w' so r q n g log :
  fresh_above w -> reg_ok w -> log_inv n g log ∅ ->
  view q = View [] [] [] 0 false false false false ->
  ops so = Some r -> priv so = None ->
  w' = tick_alloc true (set_kheap (<[knext w := OSource so]> (kheap w)) w) ->
  inv (kheap w) (dom (kmem w))
    (VSys _ w' (Some (with_src (Some (knext w)) ctx_default)) ∅ q n g).
Proof.
  intros [Hf1 Hf2] Hreg Hlog Hq Hops Hpr ->.
  exists (with_src (Some (knext w)) ctx_default), (knext w), so, log.
  split; cbn [vctx vk vbufs vm2m vseq vmeta]; try done.
  - eapply owned_new; try done.
    + destruct (kheap w !! knext w) eqn:E; [|done]. specialize (Hf1 (knext w)).
      rewrite E in Hf1. specialize (Hf1 ltac:(done)). lia.
    + split; cbn.
      * intros k. rewrite lookup_insert. case_decide; [lia|]. intros ?%Hf1. lia.
      * intros k ?%Hf2. lia.
  - rewrite Hq. split; try done.
    + intros [] b; cbn; by intros ?%elem_of_nil.
    + intros []; apply NoDup_nil_2.
Qed.

(** Nothing is streaming in a fresh context, so releasing it only drops it. *)
Lemma release_idle f :
  f_m2m f = true ->
  view (vm2m (fsys f)) = View [] [] [] 0 false false false false ->
  v4l2_m2m_ctx_release f = Some (tt, VFile _ (fsys f) (f_handler f) (f_fh_init f) (f_fh_added f) false).
Proof.
  intros Hm Hv. unfold v4l2_m2m_ctx_release. rewrite Hm.
  unfold fbind at 1, drv at 1, stop_if_streaming, fbind at 1, fget.
  rewrite streaming_view, Hv. cbn [streaming v_str_cap]. unfold fret.
  unfold fbind, drv, fget. cbn [fsys]. rewrite streaming_view, Hv. by cbn.
Qed.
End OpenSpec.


(** A framework in which every step of opening succeeds. *)
Definition open_ok : @OpenEnv fifo_framework :=
  @Build_OpenEnv fifo_framework (fun _ => 0) (fun _ => 0)
    (fun n => (n, View [] [] [] 0 false false false false)).

Lemma open_ok_laws : @OpenLaws fifo_framework open_ok fifo_laws.
Proof. split; cbn; (lia || done). Defined.

(** A loaded module and a file that nobody has opened. *)
Definition idle_world : kworld :=
  KWorld ∅ ∅ 1 0 0 [None; Some fixture_ops; Some synthetic_ops; Some vcam_ops]
    [None; Some "fixture"; Some "synthetic"; Some "vcam-derived"]%string 0 30 0.
Definition idle_file : @vfile fifo_framework :=
  VFile _ (VSys _ idle_world None ∅ (View [] [] [] 0 false false false false) 0 g_meta0)
    None false false false.

Lemma idle_log : log_inv 0 g_meta0 [] ∅.
Proof.
  split; [apply ring_log_init|unfold ULONG_MAX; lia|apply NoDup_nil_2| |lia].
  by intros e ?%elem_of_nil.
Defined.

Lemma idle_fresh : fresh_above idle_world.
Proof. split; intros k [x Hk]; cbn in Hk; by rewrite lookup_empty in Hk. Defined.


Section Release.
Context `{SourceContract} `{!ClockLaws} `{OpenEnv} `{!M2mLaws}.

(** An open file in a reachable state. *)
Definition opened (hb : gmap positive kobj) (D : gset positive) (f : vfile) : Prop :=
  inv hb D (fsys f) /\ is_Some (f_handler f) /\ f_fh_init f = true /\ f_fh_added f = true /\
  f_m2m f = true.

(** Releasing up to the point where the OUTPUT queue is looked at: the source
    is gone and the CAPTURE queue is stopped. *)
Lemma release_prefix hb D s :
  inv hb D s ->
  exists c p s2,
    vctx s = Some c /\ c_src c = Some p /\
    (kern (vpipe_source_destroy (c_src c));; stop_if_streaming CAPTURE) s = Some (tt, s2) /\
    vctx s2 = Some c /\ kheap (vk s2) = hb /\ hb !! p = None /\ dom (kmem (vk s2)) = D /\
    streaming OUTPUT (view (vm2m s2)) = streaming OUTPUT (view (vm2m s)).
Proof.
  intros (c & p & so & log & HI). pose proof HI as [Hc Hsrc Ho _ _ _ [_ _ _ B4 B5] _].
  destruct (source_destroy_ok p so hb D (vk s) Ho) as (w' & Hd & Hh & HD & _ & _).
  assert (Hp : hb !! p = None).
  { destruct (source_stop_ok p so hb D (vk s) Ho) as (w2 & _ & Ho2 & _).
    by destruct (owned_idle _ _ _ _ _ Ho2 eq_refl) as (_ & ? & _). }
  exists c, p. unfold fbind, kern. rewrite Hsrc, Hd.
  unfold stop_if_streaming, fbind at 1, fget. cbn [vm2m set_vk]. rewrite streaming_view.
  destruct (streaming CAPTURE (view (vm2m s))).
  2:{ exists (set_vk w' s). by repeat split. }
  destruct (return_all_buffers_ok CAPTURE (set_vk w' s) _ eq_refl (B5 CAPTURE)) as (q & Hq & Hv).
  { intros b Hb. destruct (B4 CAPTURE b Hb) as (x & Hx & _). eauto. }
  unfold vpipe_stop_streaming, fbind, get_ctx, fret. cbn [vctx set_vk]. rewrite Hc, Hq.
  eexists. split; [done|]. split; [done|]. split; [reflexivity|].
  cbn [vctx vk vm2m set_vm2m set_vbufs set_vk]. do 4 (split; [done|]).
  rewrite set_streaming_view, Hv. cbn.
  assert (Hfold : forall l v,
    v_str_out (foldl (fun v b => add_done b ERROR v) v l) = v_str_out v).
  { induction l as [|b l IH]; intros v; [done|]. cbn. by rewrite IH. }
  apply Hfold.
Qed.
End Release.

(** C29: closing a file that is not streaming on its OUTPUT queue gives
    everything back: [vpipe_release] returns 0 without a fault, nothing is kept
    for the file, and the heap and the byte blocks are exactly those from
    before the source was created. *)
Theorem release_gives_back `{SourceContract} `{!ClockLaws} `{OpenEnv} `{!M2mLaws}
    hb D f (Ho : opened hb D f) (Hs : vb2_is_streaming OUTPUT (vm2m (fsys f)) = false) :
  exists f', vpipe_release f = Some (0, f') /\ closed f' /\
    kheap (vk (fsys f')) = hb /\ dom (kmem (vk (fsys f'))) = D.
Proof.
  destruct f as [s h i a m]. destruct Ho as (HI & [l Hh] & Hi & Ha & Hm).
  cbn [fsys f_handler f_fh_init f_fh_added f_m2m] in *. subst.
  destruct (release_prefix hb D s HI) as (c & p & s2 & Hc & Hsrc & Hrun & Hc2 & Hh2 & _ & HD2 & Hst).
  rewrite streaming_view in Hs. rewrite Hs in Hst.
  apply fbind_Some in Hrun as (u & s1 & Hd & Hstop).
  unfold vpipe_release, fbind, drv, get_ctx, v4l2_m2m_ctx_release.
  cbn [fsys f_handler f_fh_init f_fh_added f_m2m]. rewrite Hc. cbn [fsys]. rewrite Hd.
  cbn [fsys f_handler f_fh_init f_fh_added f_m2m]. unfold fbind, drv. cbn [fsys]. rewrite Hstop.
  cbn [fsys]. unfold stop_if_streaming at 1, fbind at 1, fget. rewrite streaming_view, Hst.
  unfold v4l2_ctrl_handler_free, v4l2_fh_del, v4l2_fh_exit, ctx_free, fbind, get_ctx, fmodify, fret.
  cbn -[closed]. rewrite Hc2. cbn -[closed].
  eexists. split; [reflexivity|]. by cbn.
Qed.

Lemma release_gives_back_witness :
  exists f', @vpipe_release (@vpipe_ops_table env_ok) fifo_framework
      (VFile _ pipe_sys (Some []) true true true) = Some (0, f') /\ closed f' /\
    kheap (vk (fsys f')) = ∅.
Proof.
  destruct (@release_gives_back env_ok (@vpipe_ops_table env_ok) vpipe_source_contract
    env_ok_laws fifo_framework open_ok fifo_laws ∅ {[1%positive; 2%positive]}
    (VFile _ pipe_sys (Some []) true true true)) as (f' & H1 & H2 & H3 & _).
  - split; [exact pipe_sys_inv|]. cbn. eauto.
  - reflexivity.
  - exists f'. auto.
Defined.

(** C31: closing a file while its OUTPUT queue is streaming uses freed memory.
    [vpipe_release] destroys the source before it releases the m2m context,
    whose release stops the queue through [vpipe_stop_streaming], which
    dereferences the freed source: from every reachable streaming state the
    call faults. *)
Theorem release_streaming_faults `{SourceContract} `{!ClockLaws} `{OpenEnv} `{!M2mLaws}
    hb D f (Ho : opened hb D f) (Hs : vb2_is_streaming OUTPUT (vm2m (fsys f)) = true) :
  vpipe_release f = None.
Proof.
  destruct f as [s h i a m]. destruct Ho as (HI & [l Hh] & Hi & Ha & Hm).
  cbn [fsys f_handler f_fh_init f_fh_added f_m2m] in *. subst.
  destruct (release_prefix hb D s HI) as (c & p & s2 & Hc & Hsrc & Hrun & Hc2 & Hh2 & Hp & _ & Hst).
  rewrite streaming_view in Hs. rewrite Hs in Hst.
  apply fbind_Some in Hrun as (u & s1 & Hd & Hstop).
  unfold vpipe_release, fbind, drv, get_ctx, v4l2_m2m_ctx_release.
  cbn [fsys f_handler f_fh_init f_fh_added f_m2m]. rewrite Hc. cbn [fsys]. rewrite Hd.
  cbn [fsys f_handler f_fh_init f_fh_added f_m2m]. unfold fbind, drv. cbn [fsys]. rewrite Hstop.
  cbn [fsys]. unfold stop_if_streaming at 1, fbind at 1, fget. rewrite streaming_view, Hst.
  unfold vpipe_stop_streaming, fbind, get_ctx. rewrite Hc2. unfold kern. rewrite Hsrc.
  unfold vpipe_source_stop, fbind, get_source. by rewrite Hh2, Hp.
Qed.

Lemma release_streaming_faults_witness :
  exists s, @exec_all env_ok (@vpipe_ops_table env_ok) fifo_framework env_sum
      [EvStart OUTPUT] pipe_sys = Some (tt, s) /\
    @vpipe_release (@vpipe_ops_table env_ok) fifo_framework
      (VFile _ s (Some []) true true true) = None.
Proof.
  destruct (@exec_all_inv env_ok (@vpipe_ops_table env_ok) vpipe_source_contract
    env_ok_laws fifo_framework fifo_laws env_sum ∅ {[1%positive; 2%positive]} [EvStart OUTPUT]
    pipe_sys pipe_sys_inv) as (s & H1 & H2); [by vm_compute|].
  exists s. split; [exact H1|].
  apply (@release_streaming_faults env_ok (@vpipe_ops_table env_ok) vpipe_source_contract
    env_ok_laws fifo_framework open_ok fifo_laws ∅ {[1%positive; 2%positive]}).
  - split; [exact H2|]. cbn. eauto.
  - apply (fmap_run (fun s' : @vsys fifo_framework => vb2_is_streaming OUTPUT (vm2m s'))
      _ _ _ _ H1). vm_compute. reflexivity.
Defined.

(** ** Loading and unloading the module *)

(** The codes the frameworks return at load time: 0 or a negative error
    ([v4l2_m2m_init] through [PTR_ERR]). *)
Class InitEnv := {
  misc_register : Z;
  v4l2_device_register : Z;
  v4l2_m2m_init : Z;
  video_register_device : Z
}.

(** What [vpipe_init] sets of [struct video_device]. *)
Record video_device := VideoDevice {
  vfd_name : string; vfd_m2m_dir : bool; vfd_device_caps : Z
}.

(** The module's globals, and what is registered with the kernel. *)
Record vmod := VMod {
  md_world : kworld;
  md_meta : vpipe_meta_dev;
  md_seq : Z;
  md_vfd : option video_device;
  md_misc : bool;
  md_v4l2 : bool;
  md_m2m : bool;
  md_video : bool
}.

Section Load.
Context `{KernelEnv} `{OpsTable} `{InitEnv}.

Definition mod_kern {A} (c : F kworld A) : F vmod A :=
  fun d => match c (md_world d) with
           | Some (a, w) => Some (a, VMod w (md_meta d) (md_seq d) (md_vfd d) (md_misc d)
                                       (md_v4l2 d) (md_m2m d) (md_video d))
           | None => None
           end.

Definition meta_init : F vmod Z :=
  fun d =>
    let '(g, ret) := vpipe_meta_init misc_register (md_meta d) in
    Some (ret, VMod (md_world d) g (md_seq d) (md_vfd d) (md_misc d || (ret =? 0)) (md_v4l2 d)
                 (md_m2m d) (md_video d)).
(** Unregistering something that is not registered faults. *)
Definition meta_exit : F vmod unit :=
  fun d => if md_misc d
           then Some (tt, VMod (md_world d) (vpipe_meta_exit (md_meta d)) (md_seq d) (md_vfd d)
                            false (md_v4l2 d) (md_m2m d) (md_video d))
           else None.
Definition v4l2_device_unregister : F vmod unit :=
  fun d => if md_v4l2 d
           then Some (tt, VMod (md_world d) (md_meta d) (md_seq d) (md_vfd d) (md_misc d) false
                            (md_m2m d) (md_video d))
           else None.
Definition v4l2_m2m_release : F vmod unit :=
  fun d => if md_m2m d
           then Some (tt, VMod (md_world d) (md_meta d) (md_seq d) (md_vfd d) (md_misc d)
                            (md_v4l2 d) false (md_video d))
           else None.
Definition video_unregister_device : F vmod unit :=
  fun d => if md_video d
           then Some (tt, VMod (md_world d) (md_meta d) (md_seq d) (md_vfd d) (md_misc d)
                            (md_v4l2 d) (md_m2m d) false)
           else None.

(** A registration that returned [code]. *)
Definition reg_v4l2 : F vmod Z :=
  fun d => Some (v4l2_device_register,
    VMod (md_world d) (md_meta d) (md_seq d) (md_vfd d) (md_misc d)
      (md_v4l2 d || (v4l2_device_register =? 0)) (md_m2m d) (md_video d)).
Definition reg_m2m : F vmod Z :=
  fun d => Some (v4l2_m2m_init,
    VMod (md_world d) (md_meta d) (md_seq d) (md_vfd d) (md_misc d) (md_v4l2 d)
      (md_m2m d || (v4l2_m2m_init =? 0)) (md_video d)).
Definition reg_video (v : video_device) : F vmod Z :=
  fun d => Some (video_register_device,
    VMod (md_world d) (md_meta d) (md_seq d) (Some v) (md_misc d) (md_v4l2 d) (md_m2m d)
      (md_video d || (video_register_device =? 0))).

Definition vpipe_init : F vmod Z :=
  ret <- meta_init;;
  if ztrue ret then fret ret else
  ret <- mod_kern vpipe_source_fixture_register;;
  if ztrue ret then meta_exit;; fret ret else
  ret <- mod_kern vpipe_source_synthetic_register;;
  if ztrue ret then meta_exit;; fret ret else
  ret <- mod_kern vpipe_source_vcam_register;;
  if ztrue ret then meta_exit;; fret ret else
  fmodify (fun d => VMod (md_world d) (md_meta d) 0 (md_vfd d) (md_misc d) (md_v4l2 d)
                      (md_m2m d) (md_video d));;
  ret <- reg_v4l2;;
  if ztrue ret then meta_exit;; fret ret else
  ret <- reg_m2m;;
  if ztrue ret then v4l2_device_unregister;; meta_exit;; fret ret else
  ret <- reg_video (VideoDevice "vpipe" true (Z.lor V4L2_CAP_VIDEO_M2M V4L2_CAP_STREAMING));;
  if ztrue ret then
    v4l2_m2m_release;; v4l2_device_unregister;; meta_exit;; fret ret
  else fret 0.

Definition vpipe_exit : F vmod unit :=
  video_unregister_device;; v4l2_m2m_release;; v4l2_device_unregister;; meta_exit.
End Load.

(** Nothing is registered. *)
Definition unloaded (d : vmod) : Prop :=
  md_misc d = false /\ md_v4l2 d = false /\ md_m2m d = false /\ md_video d = false.

(** The first code that is not 0, or 0. *)
Fixpoint first_error (l : list Z) : Z :=
  match l with
  | [] => 0
  | c :: l' => if c =? 0 then first_error l' else c
  end.

(** The module image as the loader leaves it. *)
Definition mod0 (w : kworld) : vmod := VMod w g_meta0 0 None false false false false.

(** The registrations of the three backends on an empty registry. *)
Lemma register_all `{KernelEnv} w :
  backend_ops w = replicate 4 None -> backend_name w = replicate 4 None ->
  exists w1 w2 w3, vpipe_source_fixture_register w = Some (0, w1) /\
    vpipe_source_synthetic_register w1 = Some (0, w2) /\
    vpipe_source_vcam_register w2 = Some (0, w3) /\ registry_ready w3.
Proof.
  destruct w as [km kh kn kc ka bo bn sd vf vd]. cbn [backend_ops backend_name]. intros -> ->.
  do 3 eexists. split; [reflexivity|]. split; [reflexivity|]. split; [reflexivity|].
  by split.
Qed.

Ltac mcbn :=
  cbn [md_world md_meta md_seq md_vfd md_misc md_v4l2 md_m2m md_video orb Z.eqb negb].

(** C38: [vpipe_init] unwinds in order. On a fresh module it never
    unregisters anything that is not registered: it returns the code of the
    first registration that failed with nothing left registered (and pending
    readers of the metadata device woken), or 0 with the three backends in
    their slots, the frame counter at 0 and the four registrations made, all of
    which [vpipe_exit] takes back. *)
Theorem init_unwinds `{KernelEnv} `{InitEnv} w
    (Ho : backend_ops w = replicate 4 None) (Hn : backend_name w = replicate 4 None) :
  exists d, vpipe_init (mod0 w)
      = Some (first_error [misc_register; v4l2_device_register; v4l2_m2m_init;
                           video_register_device], d) /\
    if first_error [misc_register; v4l2_device_register; v4l2_m2m_init; video_register_device] =? 0
    then (md_misc d && md_v4l2 d && md_m2m d && md_video d = true) /\ md_seq d = 0 /\
         registry_ready (md_world d) /\ dying (md_meta d) = false /\
         exists d', vpipe_exit d = Some (tt, d') /\ unloaded d' /\ dying (md_meta d') = true
    else unloaded d /\ dying (md_meta d) = (misc_register =? 0).
Proof.
  destruct (register_all w Ho Hn) as (w1 & w2 & w3 & R1 & R2 & R3 & Hready).
  destruct H0 as [a b c e].
  unfold vpipe_init, meta_init, reg_v4l2, reg_m2m, reg_video, fbind, fret, fmodify, mod_kern, ztrue,
    mod0, vpipe_meta_init.
  assert (Hg : dying g_meta0 = false) by reflexivity. revert Hg. generalize g_meta0. intros g Hg.
  cbn [misc_register v4l2_device_register v4l2_m2m_init video_register_device first_error].
  destruct (a =? 0) eqn:Ea; cbn [negb].
  2:{ eexists. split; [reflexivity|]. rewrite Ea. split; [by repeat split|exact Hg]. }
  cbn [md_world md_meta md_seq md_vfd md_misc md_v4l2 md_m2m md_video orb].
  rewrite R1. cbn [md_world Z.eqb negb]. rewrite R2. cbn [md_world Z.eqb negb]. rewrite R3.
  mcbn.
  destruct (b =? 0) eqn:Eb; mcbn.
  2:{ eexists. split; [reflexivity|]. rewrite Eb. split; [by repeat split|reflexivity]. }
  destruct (c =? 0) eqn:Ec; mcbn.
  2:{ eexists. split; [reflexivity|]. rewrite Ec. split; [by repeat split|reflexivity]. }
  destruct (e =? 0) eqn:Ee; mcbn.
  2:{ unfold v4l2_m2m_release, v4l2_device_unregister, meta_exit. mcbn.
      eexists. split; [reflexivity|]. rewrite Ee. split; [by repeat split|reflexivity]. }
  eexists. split; [reflexivity|]. change (0 =? 0) with true. cbv iota.
  mcbn.
  split; [reflexivity|]. split; [reflexivity|]. split; [exact Hready|]. split; [exact Hg|].
  unfold vpipe_exit, fbind, video_unregister_device, v4l2_m2m_release, v4l2_device_unregister,
    meta_exit. mcbn.
  eexists. split; [reflexivity|]. split; [by repeat split|reflexivity].
Qed.

(** A load that fails at its last step. *)
Definition init_fails : InitEnv := Build_InitEnv 0 0 0 (- EBUSY).

Lemma init_unwinds_witness :
  exists d, @vpipe_init env_ok init_fails (mod0 (KWorld ∅ ∅ 1 0 0
      [None; None; None; None] [None; None; None; None] 0 30 0)) = Some (- EBUSY, d) /\ unloaded d.
Proof.
  destruct (@init_unwinds env_ok init_fails (KWorld ∅ ∅ 1 0 0
    [None; None; None; None] [None; None; None; None] 0 30 0) eq_refl eq_refl)
    as (d & H1 & H2 & _).
  exists d. split; [exact H1|exact H2].
Defined.
