(* ===== verification/Hazards.v ===== *)
(** * Where the driver departs from its intent

    Runs of the driver that its comments rule out or that touch memory they
    should not, each with the state it starts from. *)

From S2P Require Import Prelude Types Cv Meta Kernel Source Backends M2m M2mSpec Pipeline.

(** ** A format change behind a queued buffer *)

(** A device with a 1x1 format whose only buffer is OUTPUT buffer 10, one byte
    long; block 2 will become the CAPTURE buffer's plane. *)
Definition tiny_q : vpipe_q_data := QData 1 1 1 1 V4L2_PIX_FMT_GREY.
Definition tiny_sys : @vsys fifo_framework :=
  VSys _ (set_kmem (<[1%positive := [7]]> {[2%positive := [0; 0; 0; 0; 0; 0]]}) pipe_world)
    (Some (Ctx tiny_q tiny_q 0 0 127 (Roi 0 0 1 1) (Some 3%positive)))
    {[10%positive := VBuf (Vb OUTPUT 0 1 (Some (Ptr 1 0)) 1 0 0 0 0 0 DEQUEUED) 0 0 0
        (Roi 0 0 0 0) (desc_zero 0 0 0) 0 meta_zero]}
    (View [] [] [] 0 true false false false) 0 g_meta0.

(** [VIDIOC_REQBUFS] on the CAPTURE queue, with the size [vpipe_queue_setup]
    answers. *)
Definition request_capture (s : @vsys fifo_framework) : @vsys fifo_framework :=
  match vpipe_queue_setup CAPTURE 1 0 0 s with
  | Some ((0, (_, _, sz)), s') =>
      set_vbufs (<[11%positive := VBuf (Vb CAPTURE 0 1 (Some (Ptr 2 0)) sz 0 0 0 0 0 DEQUEUED)
        0 0 0 (Roi 0 0 0 0) (desc_zero 0 0 0) 0 meta_zero]> (vbufs s'))
        (set_vm2m (View (v_out (vm2m s')) (v_cap (vm2m s')) (v_done (vm2m s')) (v_jobs (vm2m s'))
                     (v_busy_out (vm2m s')) true (v_str_out (vm2m s')) (v_str_cap (vm2m s'))) s')
  | _ => s
  end.


(** ** Stamps *)

Section Stamps.
Context `{KernelEnv} `{M2mFramework} `{DriverEnv}.

(** An OUTPUT buffer [x] about to be queued with source [so]. *)
Record to_queue (s : vsys) (c : vpipe_ctx) (p b : positive) (so : vpipe_source)
    (x : vpipe_buffer) : Prop := {
  tq_ctx : vctx s = Some c;
  tq_src : c_src c = Some p;
  tq_obj : kheap (vk s) !! p = Some (OSource so);
  tq_buf : vbufs s !! b = Some x;
  tq_type : vb_type (m2m_buf x) = OUTPUT
}.

(** What queueing does once the source has answered. *)
Lemma queue_with s c p b so x ret d w' :
  to_queue s c p b so x ->
  vpipe_source_next_frame (Some p) (Some (vb_plane (m2m_buf x)))
    (FrameDesc (d_source_timestamp_ns (b_src_desc x)) (d_sequence (b_src_desc x))
       (d_backend_id (b_src_desc x)) (d_byteused (b_src_desc x)) (d_flags (b_src_desc x))
       (q_width (out_q c)) (q_height (out_q c)) (bytesperline (out_q c)))
    (tick_clock (vk s)) = Some ((ret, d), w') ->
  exists s' x', exec (EvQueue b) s = Some (tt, s') /\ vbufs s' !! b = Some x' /\
    b_src_desc x' = d /\ b_qbuf_ns x' = ktime (kclock (vk s)) /\ vk s' = w'.
Proof.
  intros [Hc Hp Ho Hx Ht] Hn. cbn [exec]. unfold fbind at 1. rewrite (set_state_run b ACTIVE s x Hx).
  unfold vpipe_buf_queue, fbind at 1, get_buf. vcbn. rewrite lookup_insert_eq.
  unfold fbind at 1, get_ctx. vcbn. rewrite Hc.
  cbn [m2m_buf with_state with_vb vb_with_state vb_type]. rewrite Ht.
  unfold fbind at 1. unfold fbind at 1. unfold kern at 1, ktime_get_ns. vcbn.
  unfold fbind at 1, kern at 1. vcbn. rewrite Hp.
  change (vb_plane (vb_with_state _ _)) with (vb_plane (m2m_buf x)).
  unfold tick_clock in Hn. cbn [b_src_desc with_state with_vb]. rewrite Hn.
  unfold put_buf. vcbn. rewrite lookup_insert_eq. eexists _, _. split; [reflexivity|]. vcbn.
  rewrite lookup_insert_eq. split; [reflexivity|]. by split.
Qed.
End Stamps.

(** a buffer queued before [VIDIOC_STREAMON] on a synthetic or vcam source
    (the frameworks hand queued buffers to the driver before they start it)
    is not stamped: the source refuses, the refusal is dropped, and the buffer
    enters the ready queue with backend id, sequence and timestamp 0 and with
    its plane unfilled. *)
Theorem queued_before_start_unstamped `{KernelEnv} `{M2mFramework} `{DriverEnv}
    s c p b so x (Hq : to_queue s c p b so x) (Hidle : priv so = None)
    (Hops : ops so = Some synthetic_ops \/ ops so = Some vcam_ops) :
  exists s' x', exec (EvQueue b) s = Some (tt, s') /\ vbufs s' !! b = Some x' /\
    b_src_desc x' = desc_zero (q_width (out_q c)) (q_height (out_q c)) (bytesperline (out_q c)) /\
    kmem (vk s') = kmem (vk s).
Proof.
  edestruct (queue_with s c p b so x (- EINVAL)) as (s' & x' & H1' & H2' & H3' & _ & H5'); [done| |].
  - unfold vpipe_source_next_frame, fbind at 1, get_source. cbn [kheap tick_clock].
    rewrite (tq_obj _ _ _ _ _ _ Hq).
    destruct Hops as [-> | ->]; cbn [ops_of vpipe_ops_table op_next_frame Synthetic.synthetic_ops_table
      Vcam.vcam_ops_table]; unfold fbind, Synthetic.synthetic_next_frame, Vcam.vcam_next_frame,
      fbind, get_source; cbn [kheap tick_clock]; rewrite (tq_obj _ _ _ _ _ _ Hq), Hidle; reflexivity.
  - exists s', x'. split; [done|]. split; [done|]. split; [by rewrite H3'|]. by rewrite H5'.
Qed.

(** The device of [Pipeline] with an idle synthetic source. *)
Definition synth_sys : @vsys fifo_framework :=
  set_vk (set_kheap {[3%positive := OSource (Source 2 (Some synthetic_ops) None 0 "synthetic")]}
            pipe_world) pipe_sys.

Lemma queued_before_start_unstamped_witness :
  exists s' x', @exec env_ok (@vpipe_ops_table env_ok) fifo_framework env_sum (EvQueue 10) synth_sys
      = Some (tt, s') /\ vbufs s' !! 10%positive = Some x' /\
    d_backend_id (b_src_desc x') = 0 /\ v_out (vm2m s') = [10%positive].
Proof.
  destruct (@queued_before_start_unstamped env_ok fifo_framework env_sum synth_sys pipe_ctx 3 10
    (Source 2 (Some synthetic_ops) None 0 "synthetic") (pipe_buf OUTPUT 1))
    as (s' & x' & H1 & H2 & H3 & _).
  - split; reflexivity.
  - reflexivity.
  - left. reflexivity.
  - exists s', x'. split; [exact H1|]. split; [exact H2|]. split; [by rewrite H3|].
    apply (fmap_run (fun s' : @vsys fifo_framework => v_out (vm2m s')) _ _ _ _ H1).
    vm_compute. reflexivity.
Defined.

(** with the fixture backend the source timestamp of a frame is read after
    its queueing time, by the next reading of the clock, so in the published
    timeline [source] never comes before [qbuf]. *)
Theorem fixture_source_after_qbuf `{KernelEnv} `{!ClockLaws} `{M2mFramework} `{DriverEnv}
    s c p b so x (Hq : to_queue s c p b so x) (Hops : ops so = Some fixture_ops) :
  exists s' x', exec (EvQueue b) s = Some (tt, s') /\ vbufs s' !! b = Some x' /\
    b_qbuf_ns x' = ktime (kclock (vk s)) /\
    d_source_timestamp_ns (b_src_desc x') = ktime (S (kclock (vk s))) /\
    b_qbuf_ns x' <= d_source_timestamp_ns (b_src_desc x').
Proof.
  pose proof (tq_obj _ _ _ _ _ _ Hq) as Ho.
  edestruct (queue_with s c p b so x 0) as (s' & x' & H1' & H2' & H3' & H4' & _); [done| |].
  - unfold vpipe_source_next_frame, fbind at 1, get_source. cbn [kheap tick_clock]. rewrite Ho, Hops.
    cbn [ops_of vpipe_ops_table op_next_frame Fixture.fixture_ops_table].
    unfold fbind at 1, Fixture.fixture_next_frame, fret. cbn [ztrue Z.eqb negb].
    cbn [d_source_timestamp_ns desc_zero Z.eqb]. unfold fbind, ktime_get_ns, get_source, put_obj.
    cbn [kheap tick_clock kclock]. rewrite !Ho. cbn [kheap tick_clock]. rewrite Ho. reflexivity.
  - exists s', x'. split; [done|]. split; [done|]. split; [done|]. rewrite H3', H4'.
    split; [done|]. cbn. apply ktime_mono. lia.
Qed.

Lemma fixture_source_after_qbuf_witness :
  exists s' x', @exec env_ok (@vpipe_ops_table env_ok) fifo_framework env_sum (EvQueue 10) pipe_sys
      = Some (tt, s') /\ vbufs s' !! 10%positive = Some x' /\
    b_qbuf_ns x' = 1000 /\ d_source_timestamp_ns (b_src_desc x') = 2000.
Proof.
  destruct (@fixture_source_after_qbuf env_ok env_ok_laws fifo_framework env_sum pipe_sys pipe_ctx
    3 10 pipe_src (pipe_buf OUTPUT 1)) as (s' & x' & H1 & H2 & H3 & H4 & _).
  - split; reflexivity.
  - reflexivity.
  - exists s', x'. split; [exact H1|]. split; [exact H2|]. split; [exact H3|exact H4].
Defined.
