(* ===== verification/Crc32.v ===== *)
(** * The checksum of the user-space tools: [user/vpipe-common.c], lines 164-199

    The lazily built table and the table-driven loop, proved equal to the
    bit-by-bit definition of CRC-32; the loop detects every change of a single
    byte; and, for a kernel whose [crc32_le] is the documented one, the
    checksum in a metadata entry is the one the tools recompute. *)

From S2P Require Import Prelude Types Cv Kernel Source M2m M2mSpec.

(** ** The code *)

(** The statics [crc32_table] and [crc32_ready]. *)
Record crc_state := CrcState { crc32_table : list Z; crc32_ready : bool }.

Definition crc_state0 : crc_state := CrcState (replicate 256 0) false.

(** One turn of the inner loop. *)
Definition crc_bit (c : Z) : Z :=
  if ztrue (Z.land c 1) then Z.lxor 0xedb88320 (Z.shiftr c 1) else Z.shiftr c 1.

(** The table entry for [i]. *)
Definition crc_entry (i : Z) : option Z := for_range 0 8 (fun _ c => Some (crc_bit c)) i.

Definition vpipe_crc32_init (st : crc_state) : option crc_state :=
  if crc32_ready st then Some st
  else
    match for_range 0 256
            (fun i tab =>
               match crc_entry i with
               | Some c =>
                   if (Z.to_nat i <? length tab)%nat then Some (<[Z.to_nat i := c]> tab) else None
               | None => None
               end) (crc32_table st) with
    | Some tab => Some (CrcState tab true)
    | None => None
    end.

(** Reading the table or the data out of range faults. *)
Definition vpipe_crc32 (data : list Z) (len : Z) (st : crc_state) : option (Z * crc_state) :=
  match vpipe_crc32_init st with
  | None => None
  | Some st' =>
      match for_range 0 len
              (fun i crc =>
                 match data !! Z.to_nat i with
                 | None => None
                 | Some p =>
                     match crc32_table st' !! Z.to_nat (Z.land (Z.lxor crc p) 0xff) with
                     | None => None
                     | Some t => Some (Z.lxor t (Z.shiftr crc 8))
                     end
                 end) 0xffffffff with
      | None => None
      | Some crc => Some (Z.lxor crc 0xffffffff, st')
      end
  end.

(** ** The reference: one bit at a time *)

Definition crc_bits (n : nat) (c : Z) : Z := Nat.iter n crc_bit c.
Definition crc_byte (c b : Z) : Z := crc_bits 8 (Z.lxor c b).
Definition crc_ref (l : list Z) : Z := Z.lxor (foldl crc_byte 0xffffffff l) 0xffffffff.

(** ** The step is linear *)

Lemma land_1_lxor a b : Z.land (Z.lxor a b) 1 = Z.lxor (Z.land a 1) (Z.land b 1).
Proof. apply Z.bits_inj'. intros n Hn. rewrite ?Z.lxor_spec, ?Z.land_spec, ?Z.lxor_spec.
  destruct (Z.testbit a n), (Z.testbit b n), (Z.testbit 1 n); done. Qed.

Lemma land_1_cases a : Z.land a 1 = 0 \/ Z.land a 1 = 1.
Proof.
  change 1 with (Z.ones 1) at 1 2. rewrite Z.land_ones by lia. change (2 ^ 1) with 2.
  pose proof (Z.mod_pos_bound a 2). lia.
Qed.

Lemma odd_lxor a b :
  ztrue (Z.land (Z.lxor a b) 1) = xorb (ztrue (Z.land a 1)) (ztrue (Z.land b 1)).
Proof.
  rewrite land_1_lxor.
  destruct (land_1_cases a) as [-> | ->], (land_1_cases b) as [-> | ->]; reflexivity.
Qed.

Lemma crc_bit_lxor a b : crc_bit (Z.lxor a b) = Z.lxor (crc_bit a) (crc_bit b).
Proof.
  unfold crc_bit. rewrite odd_lxor, Z.shiftr_lxor. generalize 0xedb88320 as k. intros k.
  apply Z.bits_inj'. intros n Hn.
  destruct (ztrue (Z.land a 1)), (ztrue (Z.land b 1)); cbn [xorb]; rewrite ?Z.lxor_spec;
    destruct (Z.testbit k n), (Z.testbit (Z.shiftr a 1) n), (Z.testbit (Z.shiftr b 1) n); done.
Qed.

Lemma crc_bits_lxor n a b : crc_bits n (Z.lxor a b) = Z.lxor (crc_bits n a) (crc_bits n b).
Proof.
  induction n as [|n IH]; [done|]. change (crc_bit (crc_bits n (Z.lxor a b)) =
    Z.lxor (crc_bit (crc_bits n a)) (crc_bit (crc_bits n b))). by rewrite IH, crc_bit_lxor.
Qed.

(** A byte of zeros is shifted out unchanged. *)
Lemma crc_bits_shift n x : crc_bits n (Z.shiftl x (Z.of_nat n)) = x.
Proof.
  revert x. induction n as [|n IH]; intros x; [cbn; apply Z.shiftl_0_r|].
  unfold crc_bits in *. rewrite Nat.iter_succ_r.
  replace (crc_bit (Z.shiftl x (Z.of_nat (S n)))) with (Z.shiftl x (Z.of_nat n)); [apply IH|].
  unfold crc_bit.
  assert (Hl : Z.land (Z.shiftl x (Z.of_nat (S n))) 1 = 0).
  { apply Z.bits_inj'. intros k Hk. rewrite Z.land_spec, Z.shiftl_spec, Z.bits_0 by lia.
    destruct (Z.eq_dec k 0) as [->|].
    - rewrite Z.testbit_neg_r by lia. done.
    - change 1 with (Z.ones 1). rewrite (Z.ones_spec_high 1 k) by lia. by rewrite andb_false_r. }
  rewrite Hl. cbn [ztrue Z.eqb negb]. rewrite Z.shiftr_shiftl_l by lia. f_equal. lia.
Qed.

Lemma low_high c : 0 <= c -> c = Z.lxor (Z.land c 0xff) (Z.shiftl (Z.shiftr c 8) 8).
Proof.
  intros Hc. apply Z.bits_inj'. intros n Hn. rewrite Z.lxor_spec, Z.land_spec.
  change 0xff with (Z.ones 8). destruct (Z.ltb_spec n 8).
  - rewrite Z.ones_spec_low, Z.shiftl_spec_low by lia. by rewrite andb_true_r, xorb_false_r.
  - rewrite Z.ones_spec_high, Z.shiftl_spec, Z.shiftr_spec by lia.
    rewrite andb_false_r. cbn. f_equal. lia.
Qed.

(** The table lookup replaces eight bit steps. *)
Lemma crc_bits_table c :
  0 <= c -> crc_bits 8 c = Z.lxor (crc_bits 8 (Z.land c 0xff)) (Z.shiftr c 8).
Proof.
  intros Hc. rewrite (low_high c Hc) at 1. rewrite crc_bits_lxor.
  by rewrite (crc_bits_shift 8).
Qed.

(** ** Bounds *)

Lemma u32_bits c : in_u32 c -> forall n, 32 <= n -> Z.testbit c n = false.
Proof.
  intros Hc n Hn. rewrite <- (Z.mod_small c (2 ^ 32)) by exact Hc. apply Z.mod_pow2_bits_high. lia.
Qed.

Lemma u32_lxor a b : in_u32 a -> in_u32 b -> in_u32 (Z.lxor a b).
Proof.
  intros Ha Hb. assert (H0 : 0 <= Z.lxor a b) by (apply Z.lxor_nonneg; unfold in_u32 in *; lia).
  split; [done|]. destruct (Z.eq_dec (Z.lxor a b) 0) as [->|]; [lia|].
  apply (Z.log2_lt_pow2 _ 32); [lia|]. apply Z.nle_gt. intros Hl.
  pose proof (Z.bit_log2 (Z.lxor a b) ltac:(lia)) as Ht. rewrite Z.lxor_spec in Ht.
  by rewrite (u32_bits a Ha), (u32_bits b Hb) in Ht.
Qed.

Lemma crc_bit_u32 c : in_u32 c -> in_u32 (crc_bit c).
Proof.
  intros Hc. assert (in_u32 (Z.shiftr c 1)).
  { rewrite Z.shiftr_div_pow2 by lia. change (2 ^ 1) with 2. unfold in_u32 in *.
    split; [apply Z.div_pos; lia|apply Z.div_lt_upper_bound; lia]. }
  unfold crc_bit. destruct (ztrue _); [|done]. by apply u32_lxor.
Qed.

Lemma crc_bits_u32 n c : in_u32 c -> in_u32 (crc_bits n c).
Proof. intros Hc. induction n as [|n IH]; [done|]. by apply crc_bit_u32. Qed.

Lemma u8_u32 b : in_u8 b -> in_u32 b.
Proof. unfold in_u8, in_u32. lia. Qed.

Lemma crc_byte_u32 c b : in_u32 c -> in_u8 b -> in_u32 (crc_byte c b).
Proof. intros Hc Hb. apply crc_bits_u32, u32_lxor; [done|by apply u8_u32]. Qed.

Lemma crc_fold_u32 l c : in_u32 c -> Forall in_u8 l -> in_u32 (foldl crc_byte c l).
Proof.
  intros Hc Hl. revert c Hc. induction Hl as [|b l Hb Hl IH]; intros c Hc; [done|].
  cbn [foldl]. apply IH. by apply crc_byte_u32.
Qed.

(** ** The table *)

Definition the_table : list Z := (fun n => crc_bits 8 (Z.of_nat n)) <$> List.seq 0 256.

(** The statics between calls: the table has its length, and once marked ready
    its contents. *)
Definition table_ok (st : crc_state) : Prop :=
  length (crc32_table st) = 256%nat /\ (crc32_ready st = true -> crc32_table st = the_table).

Lemma the_table_lookup i : 0 <= i < 256 -> the_table !! Z.to_nat i = Some (crc_bits 8 i).
Proof.
  intros Hi. unfold the_table. rewrite list_lookup_fmap, lookup_seq_lt by lia.
  cbn [fmap option_fmap option_map]. do 2 f_equal. lia.
Qed.

Lemma crc32_init_ok st :
  table_ok st -> vpipe_crc32_init st = Some (CrcState the_table true).
Proof.
  destruct st as [tab rdy]. intros [Hl Hr]. cbn in Hl, Hr. unfold vpipe_crc32_init. cbn [crc32_ready].
  destruct rdy; [by rewrite Hr|]. cbn [crc32_table].
  destruct (for_range_inv (fun i t => length t = 256%nat /\
      forall j, 0 <= j < i -> t !! Z.to_nat j = Some (crc_bits 8 j)) 0 256
    (fun i tab => match crc_entry i with
       | Some c => if (Z.to_nat i <? length tab)%nat then Some (<[Z.to_nat i := c]> tab) else None
       | None => None end) tab) as (t & -> & Ht & Hj); [lia|split; [done|lia]| |].
  - intros i t Hi [Ht Hj]. replace (crc_entry i) with (Some (crc_bits 8 i)) by reflexivity.
    rewrite Ht. destruct (Nat.ltb_spec (Z.to_nat i) 256); [|lia]. eexists. split; [done|].
    rewrite length_insert. split; [done|]. intros j Hlt. destruct (Z.eq_dec j i) as [->|].
    + by apply list_lookup_insert_eq; lia.
    + rewrite list_lookup_insert_ne by lia. apply Hj. lia.
  - f_equal. f_equal. apply list_eq_same_length with (n := 256%nat); [done|done|].
    intros k x y Hk Hx Hy. specialize (Hj (Z.of_nat k) ltac:(lia)).
    pose proof (the_table_lookup (Z.of_nat k) ltac:(lia)) as Hk'. rewrite Nat2Z.id in *. congruence.
Qed.

Lemma table_ok_ready : table_ok (CrcState the_table true).
Proof. done. Qed.

Lemma table_ok_0 : table_ok crc_state0.
Proof. done. Qed.

(** One turn of the table-driven loop. *)
Lemma crc_step c b :
  in_u32 c -> in_u8 b ->
  the_table !! Z.to_nat (Z.land (Z.lxor c b) 0xff) = Some (crc_bits 8 (Z.land (Z.lxor c b) 0xff)) /\
  Z.lxor (crc_bits 8 (Z.land (Z.lxor c b) 0xff)) (Z.shiftr c 8) = crc_byte c b.
Proof.
  intros Hc Hb. split.
  - apply the_table_lookup. change 0xff with (Z.ones 8). rewrite Z.land_ones by lia.
    apply Z.mod_pos_bound. lia.
  - unfold crc_byte. rewrite (crc_bits_table (Z.lxor c b)).
    + f_equal. rewrite Z.shiftr_lxor. rewrite (Z.shiftr_div_pow2 b) by lia.
      rewrite (Z.div_small b) by exact Hb. by rewrite Z.lxor_0_r.
    + apply u32_lxor; [done|by apply u8_u32].
Qed.

Lemma crc32_ok data len st :
  table_ok st -> Forall in_u8 data -> 0 <= len <= Z.of_nat (length data) ->
  vpipe_crc32 data len st =
    Some (crc_ref (take (Z.to_nat len) data), CrcState the_table true).
Proof.
  intros Hst Hd Hlen. unfold vpipe_crc32. rewrite crc32_init_ok by done. cbn [crc32_table].
  destruct (for_range_inv
    (fun i c => c = foldl crc_byte 0xffffffff (take (Z.to_nat i) data)) 0 len
    (fun i crc => match data !! Z.to_nat i with
       | Some p => match the_table !! Z.to_nat (Z.land (Z.lxor crc p) 0xff) with
                   | Some t => Some (Z.lxor t (Z.shiftr crc 8)) | None => None end
       | None => None end) 0xffffffff) as (c & -> & ->); [lia|done| |done].
  intros i c Hi ->.
  destruct (lookup_lt_is_Some_2 data (Z.to_nat i)) as [b Hb]; [lia|]. rewrite Hb.
  assert (Hu : in_u32 (foldl crc_byte 0xffffffff (take (Z.to_nat i) data))).
  { apply crc_fold_u32; [done|]. by apply Forall_take. }
  destruct (crc_step _ b Hu) as [-> Hs]; [by eapply Forall_lookup_1|].
  eexists. split; [done|]. rewrite Hs.
  replace (Z.to_nat (i + 1)) with (S (Z.to_nat i)) by lia.
  by rewrite (take_S_r _ _ b Hb), foldl_app.
Qed.

(** ** Error detection *)

(** Bytes as a little-endian number. *)
Fixpoint le_word (l : list Z) : Z :=
  match l with [] => 0 | b :: l' => b + 256 * le_word l' end.

Lemma le_word_lxor b w : in_u8 b -> b + 256 * w = Z.lxor b (Z.shiftl w 8).
Proof.
  intros Hb. rewrite Z.shiftl_mul_pow2 by lia. change (2 ^ 8) with 256. rewrite (Z.mul_comm w).
  apply Z.add_nocarry_lxor. apply Z.bits_inj'. intros n Hn. rewrite Z.land_spec, Z.bits_0.
  change 256 with (2 ^ 8). rewrite Z.mul_comm. destruct (Z.ltb_spec n 8).
  - by rewrite Z.mul_pow2_bits_low, andb_false_r by lia.
  - rewrite <- (Z.mod_small b (2 ^ 8)) by exact Hb. by rewrite Z.mod_pow2_bits_high by lia.
Qed.

Lemma le_word_bound l : Forall in_u8 l -> 0 <= le_word l < 256 ^ Z.of_nat (length l).
Proof.
  induction 1 as [|b l Hb Hl IH]; [cbn; lia|]. cbn [le_word length].
  rewrite Nat2Z.inj_succ, Z.pow_succ_r by lia. unfold in_u8 in Hb. lia.
Qed.

Lemma le_word_inj l1 l2 :
  Forall in_u8 l1 -> Forall in_u8 l2 -> length l1 = length l2 -> le_word l1 = le_word l2 -> l1 = l2.
Proof.
  intros H1. revert l2. induction H1 as [|b l Hb Hl IH]; intros [|b2 l2] H2 Hlen E; try done.
  inversion H2 as [|? ? Hb2 H2' ]; subst. cbn in E, Hlen. unfold in_u8 in *.
  f_equal; [lia|]. apply IH; [done|lia..].
Qed.

(** A run of bytes is one long shift of the state mixed with the bytes. *)
Lemma crc_fold_bits l c :
  Forall in_u8 l -> foldl crc_byte c l = crc_bits (length l * 8) (Z.lxor c (le_word l)).
Proof.
  intros Hl. revert c. induction Hl as [|b l Hb Hl IH]; intros c; [cbn; by rewrite Z.lxor_0_r|].
  cbn [foldl length le_word]. rewrite IH, le_word_lxor by done. unfold crc_byte.
  rewrite <- (crc_bits_shift 8 (le_word l)) at 1. change (Z.of_nat 8) with 8.
  rewrite <- crc_bits_lxor, Z.lxor_assoc. unfold crc_bits. rewrite <- Nat.iter_add.
  by rewrite (Nat.add_comm (length l * 8)).
Qed.

Lemma crc_bit_zero c : in_u32 c -> crc_bit c = 0 -> c = 0.
Proof.
  intros Hc. unfold crc_bit, ztrue. rewrite Z.shiftr_div_pow2 by lia. change (2 ^ 1) with 2.
  change 1 with (Z.ones 1) at 1. rewrite Z.land_ones by lia. change (2 ^ 1) with 2.
  unfold in_u32 in Hc. pose proof (Z.div_mod c 2). pose proof (Z.mod_pos_bound c 2).
  destruct (Z.eqb_spec (c mod 2) 0) as [E|E]; cbn [negb]; intros Hz; [lia|].
  apply Z.lxor_eq in Hz. lia.
Qed.

Lemma crc_bits_inj n a b : in_u32 a -> in_u32 b -> crc_bits n a = crc_bits n b -> a = b.
Proof.
  intros Ha Hb E. apply Z.lxor_eq. pose proof (u32_lxor _ _ Ha Hb) as Hx.
  assert (H0 : crc_bits n (Z.lxor a b) = 0) by (by rewrite crc_bits_lxor, E, Z.lxor_nilpotent).
  clear E. induction n as [|n IH]; [done|]. apply IH.
  apply crc_bit_zero; [by apply crc_bits_u32|done].
Qed.

Lemma lxor_cancel_r a b c : Z.lxor a c = Z.lxor b c -> a = b.
Proof.
  intros E. apply (f_equal (fun x => Z.lxor x c)) in E.
  by rewrite !Z.lxor_assoc, Z.lxor_nilpotent, !Z.lxor_0_r in E.
Qed.

(** Whatever follows, different states stay different. *)
Lemma crc_fold_inj l a b :
  Forall in_u8 l -> in_u32 a -> in_u32 b -> foldl crc_byte a l = foldl crc_byte b l -> a = b.
Proof.
  intros Hl. revert a b. induction Hl as [|x l Hx Hl IH]; intros a b Ha Hb E; [done|].
  cbn [foldl] in E. apply IH in E; [|by apply crc_byte_u32..].
  pose proof (u8_u32 _ Hx). apply crc_bits_inj in E; [|by apply u32_lxor..].
  by apply lxor_cancel_r in E.
Qed.

(** ** The theorems *)

(** A literal list of bytes is one. *)
Ltac bytes_ok := repeat (constructor; [unfold in_u8; lia|]); constructor.


(** C27: [vpipe_crc32] is CRC-32: whether or not the table has been built by
    an earlier call, on [len] bytes it returns the value of the bit-by-bit
    definition (reflected polynomial 0xedb88320, initial and final inversion)
    and leaves the table built; no access leaves the table or the data. *)
Theorem crc32_is_reference data len st (Hst : table_ok st) (Hd : Forall in_u8 data)
    (Hlen : 0 <= len <= Z.of_nat (length data)) :
  exists st', vpipe_crc32 data len st = Some (crc_ref (take (Z.to_nat len) data), st') /\
    table_ok st' /\ crc32_ready st' = true.
Proof. eexists. split; [by apply crc32_ok|done]. Qed.

(** The check value of CRC-32: "123456789" gives 0xcbf43926. *)
Lemma crc32_is_reference_witness :
  exists st', vpipe_crc32 [49; 50; 51; 52; 53; 54; 55; 56; 57] 9 crc_state0
    = Some (0xcbf43926, st') /\ crc32_ready st' = true.
Proof.
  destruct (crc32_is_reference [49; 50; 51; 52; 53; 54; 55; 56; 57] 9 crc_state0 table_ok_0)
    as (st' & H1 & _ & H2).
  - bytes_ok.
  - cbn. lia.
  - exists st'. split; [|done]. rewrite H1. vm_compute. reflexivity.
Defined.

(** a checksum match rules out every corruption confined to four
    consecutive bytes: two frames of the same length that differ only there
    have different checksums. *)
Theorem crc32_detects_burst p a b q st (Hst : table_ok st)
    (Hp : Forall in_u8 p) (Ha : Forall in_u8 a) (Hb : Forall in_u8 b) (Hq : Forall in_u8 q)
    (Hlen : length a = length b) (Hfour : (length a <= 4)%nat) (Hne : a <> b) :
  let n := Z.of_nat (length (p ++ a ++ q)) in
  fst <$> vpipe_crc32 (p ++ a ++ q) n st <> fst <$> vpipe_crc32 (p ++ b ++ q) n st.
Proof.
  cbv zeta. intros E. apply Hne. apply le_word_inj; [done..|].
  rewrite !crc32_ok in E; rewrite ?length_app in *; try lia; try done; try (by rewrite !Forall_app).
  cbn in E. injection E as E. rewrite !take_ge in E by (rewrite !length_app; lia).
  apply lxor_cancel_r in E. rewrite !foldl_app in E.
  assert (Hw : forall l, Forall in_u8 l -> (length l <= 4)%nat -> in_u32 (le_word l)).
  { intros l Hl H4. pose proof (le_word_bound l Hl). split; [lia|].
    apply (Z.lt_le_trans _ (256 ^ Z.of_nat (length l))); [lia|].
    apply (Z.pow_le_mono_r 256 _ 4); lia. }
  pose proof (crc_fold_u32 p 0xffffffff ltac:(done) Hp) as Hc.
  pose proof (Hw a Ha Hfour) as Wa. pose proof (Hw b Hb ltac:(lia)) as Wb.
  apply crc_fold_inj in E; [|done|by apply crc_fold_u32..].
  rewrite (crc_fold_bits a), (crc_fold_bits b), Hlen in E by done.
  apply crc_bits_inj in E; [|by apply u32_lxor..].
  rewrite !(Z.lxor_comm (foldl _ _ _)) in E. by apply lxor_cancel_r in E.
Qed.

Lemma crc32_detects_burst_witness :
  fst <$> vpipe_crc32 [1; 2; 3; 4; 5; 6] 6 crc_state0
    <> fst <$> vpipe_crc32 [1; 2; 0; 0; 5; 6] 6 crc_state0.
Proof.
  apply (crc32_detects_burst [1; 2] [3; 4] [0; 0] [5; 6] crc_state0 table_ok_0);
    [bytes_ok..|done|cbn; lia|discriminate].
Defined.

(** ** The checksum in the metadata *)

(** A kernel whose [crc32_le] is the documented one: the reflected CRC of the
    bytes from the given seed, without inversions. *)
Definition crc32_le_spec (E : DriverEnv) : Prop :=
  forall c l, in_u32 c -> Forall in_u8 l -> crc32_le c l = foldl crc_byte c l.

Lemma out_image_u8 job m algo threshold r x y :
  in_u8 (src_px job m x y) -> in_u8 (out_image job m algo threshold r x y).
Proof.
  intros Hs. unfold out_image, threshold_image, thr_px. repeat case_match; unfold in_u8 in *; lia.
Qed.

(** The bytes of a processed frame are bytes when the source's are. *)
Lemma frame_bytes_u8 c sp dp m m' f bytes :
  ctx_fmt_ok c -> 0 <= p_off dp ->
  p_off dp + sizeimage (out_q c) <= blen m (p_blk dp) ->
  painted (run_job c sp dp) m m' (in_frame (run_job c sp dp)) f ->
  read_bytes m' dp (sizeimage (out_q c)) = Some bytes ->
  (forall x y, in_frame (run_job c sp dp) x y = true -> in_u8 (f x y)) ->
  length bytes = Z.to_nat (sizeimage (out_q c)) /\ Forall in_u8 bytes.
Proof.
  intros Hf Hod Hbd Hp Hb Hu.
  destruct (frame_bytes _ _ _ _ _ _ _ Hf Hod Hbd Hp Hb) as [Hlen Hpx]. split; [done|].
  destruct Hf as [[Hw Hh _ Hs _] _].
  apply Forall_lookup_2. intros k v Hk. pose proof (lookup_lt_Some _ _ _ Hk) as Hlt.
  rewrite Hlen, Hs in Hlt. set (w := q_width (out_q c)) in *.
  pose proof (Z.div_mod (Z.of_nat k) w). pose proof (Z.mod_pos_bound (Z.of_nat k) w).
  assert (Hi : in_frame (run_job c sp dp) (Z.of_nat k mod w) (Z.of_nat k / w) = true).
  { apply in_frame_spec. cbn. fold w. split; [lia|]. split; [apply Z.div_pos; lia|].
    apply Z.div_lt_upper_bound; lia. }
  specialize (Hpx _ _ Hi). fold w in Hpx.
  replace (Z.to_nat (Z.of_nat k / w * w + Z.of_nat k mod w)) with k in Hpx by lia.
  rewrite Hk in Hpx. injection Hpx as ->. by apply Hu.
Qed.

(** C26: the checksum a job puts into the metadata is the one a consumer
    recomputes: for a kernel with the documented [crc32_le], [vpipe_crc32] over
    the [bytesused] bytes of the finished destination plane equals the entry's
    [crc32]. *)
Theorem metadata_crc_checks `{KernelEnv} `{OpsTable} `{M2mFramework} `{!M2mLaws} `{E : DriverEnv}
    s c sb db sx dx sp dp st (Hcrc : crc32_le_spec E) (Hst : table_ok st)
    (Hrr : run_ready s c sb db sx dx sp dp) (Hf : ctx_fmt_ok c)
    (Ha : algo_ok (b_algo_id sx) = true) (Hne : p_blk sp <> p_blk dp)
    (Hos : 0 <= p_off sp) (Hod : 0 <= p_off dp)
    (Hbs : p_off sp + sizeimage (out_q c) <= blen (kmem (vk s)) (p_blk sp))
    (Hbd : p_off dp + sizeimage (out_q c) <= blen (kmem (vk s)) (p_blk dp))
    (Hpx : forall x y, in_frame (run_job c sp dp) x y = true ->
             in_u8 (src_px (run_job c sp dp) (kmem (vk s)) x y)) :
  exists s' x bytes,
    vpipe_device_run s = Some (tt, s') /\ vbufs s' !! db = Some x /\
    read_bytes (kmem (vk s')) dp (bytesused (b_meta_pending x)) = Some bytes /\
    fst <$> vpipe_crc32 bytes (bytesused (b_meta_pending x)) st
      = Some (crc32 (b_meta_pending x)).
Proof.
  destruct (device_run_ok s c sb db sx dx sp dp Hrr Hf Ha Hne Hos Hod Hbs Hbd)
    as (m & bytes & q & Hrun & _ & Hp & Hb).
  destruct (frame_bytes_u8 _ _ _ _ _ _ _ Hf Hod Hbd Hp Hb) as [Hlen Hu].
  { intros x y Hxy. by apply out_image_u8, Hpx. }
  destruct Hf as [[? ? _ Hs _] Hcq].
  eexists _, _, bytes. split; [exact Hrun|]. unfold run_post. cbn [vbufs vk].
  split; [by apply lookup_insert_eq|]. cbn. rewrite Hcq. split; [done|].
  rewrite crc32_ok; [|done|done|nia]. cbn. rewrite take_ge by lia.
  unfold meta_crc, crc_ref. by rewrite Hcrc.
Qed.

Definition env_crc : DriverEnv := Build_DriverEnv (fun c l => foldl crc_byte c l) (fun _ => 0).

Lemma metadata_crc_checks_witness :
  exists s' x bytes,
    @vpipe_device_run env_ok fifo_framework env_crc (ex_sys 1) = Some (tt, s') /\
    vbufs s' !! 11%positive = Some x /\
    read_bytes (kmem (vk s')) (Ptr 2 0) (bytesused (b_meta_pending x)) = Some bytes /\
    fst <$> vpipe_crc32 bytes (bytesused (b_meta_pending x)) crc_state0
      = Some (crc32 (b_meta_pending x)).
Proof.
  apply (@metadata_crc_checks env_ok no_ops fifo_framework fifo_laws env_crc (ex_sys 1)
    ex_ctx 10 11 (ex_buf OUTPUT 1 1) (ex_buf CAPTURE 2 0) (Ptr 1 0) (Ptr 2 0) crc_state0);
    [by intros ? ?|apply table_ok_0|exact (ex_sys_ready 1)|exact ex_ctx_fmt|done|discriminate|cbn; lia..| | |].
  - vm_compute. congruence.
  - vm_compute. congruence.
  - intros x y [Hx Hy]%in_frame_spec. cbn in Hx, Hy.
    assert (x = 0 \/ x = 1 \/ x = 2) as Hx3 by lia. assert (y = 0 \/ y = 1) as Hy2 by lia.
    destruct Hx3 as [-> | [-> | ->]], Hy2 as [-> | ->]; vm_compute; split; congruence.
Defined.
