(* ===== verification/Pgm.v ===== *)
(** * Images and files of the user-space tools: [user/vpipe-common.c], lines 46-61
    and 201-379, and the tools [vpipe-dump-pgm.c] and [vpipe-pgm-diff.c]

    The PGM writer, the PGM reader with its scanner, the difference image and
    the directory helper, over a file system that is a parameter. The theorems:
    what is written is read back; the reader accepts only images of at most
    4096x4096 pixels with exactly their bytes, and gives back its file handle
    and its buffer on every path; the comparison tool writes a black image
    exactly when the two images agree. *)

From S2P Require Import Prelude.

(** ** The operating system and the C library

    A path is its bytes. [mkdir] answers 0 or the error number; [fopen_read]
    is the contents of a file that can be opened; [fappend] writes to an open
    file and answers how many bytes it took; [malloc_ok k n] tells whether the
    [k]-th allocation, of [n] bytes, succeeds. *)
Class Posix := {
  fs : Type;
  mkdir : list Z -> fs -> Z * fs;
  fopen_read : list Z -> fs -> option (list Z);
  fopen_write : list Z -> fs -> option fs;
  fappend : list Z -> list Z -> fs -> Z * fs;
  malloc_ok : Z -> Z -> bool
}.

(** A process: the files, the allocations made, the heap blocks it holds and
    the streams it has open. *)
Record uworld `{Posix} := UWorld { ufs : fs; ucalls : Z; ulive : Z; uopen : Z }.
Arguments UWorld {_} _ _ _ _.

Section Libc.
Context `{Posix}.

Definition malloc (size : Z) : F uworld bool :=
  fun w =>
    let ok := malloc_ok (ucalls w) size in
    Some (ok, UWorld (ufs w) (ucalls w + 1) (if ok then ulive w + 1 else ulive w) (uopen w)).

Definition free : F uworld unit :=
  fun w => Some (tt, UWorld (ufs w) (ucalls w) (ulive w - 1) (uopen w)).

Definition do_mkdir (path : list Z) : F uworld Z :=
  fun w => let '(e, f) := mkdir path (ufs w) in
           Some (e, UWorld f (ucalls w) (ulive w) (uopen w)).

(** [fopen(path, "rb")]: the bytes the stream will deliver. *)
Definition fopen_rb (path : list Z) : F uworld (option (list Z)) :=
  fun w => match fopen_read path (ufs w) with
           | Some l => Some (Some l, UWorld (ufs w) (ucalls w) (ulive w) (uopen w + 1))
           | None => Some (None, w)
           end.

Definition fopen_wb (path : list Z) : F uworld bool :=
  fun w => match fopen_write path (ufs w) with
           | Some f => Some (true, UWorld f (ucalls w) (ulive w) (uopen w + 1))
           | None => Some (false, w)
           end.

Definition fwrite (path data : list Z) : F uworld Z :=
  fun w => let '(n, f) := fappend path data (ufs w) in
           Some (n, UWorld f (ucalls w) (ulive w) (uopen w)).

Definition fclose : F uworld unit :=
  fun w => Some (tt, UWorld (ufs w) (ucalls w) (ulive w) (uopen w - 1)).
End Libc.

(** The end-of-file value, and character classes of the C locale. *)
Definition EOF : Z := -1.
Definition isspace (c : Z) : bool := (c =? 32) || ((9 <=? c) && (c <=? 13)).
Definition isdigit (c : Z) : bool := (48 <=? c) && (c <=? 57).

(** An input stream is the bytes it has left. *)
Definition fgetc (l : list Z) : Z * list Z :=
  match l with [] => (EOF, []) | c :: l' => (c, l') end.
Definition ungetc (c : Z) (l : list Z) : list Z := if c =? EOF then l else c :: l.

(** ["%u"] of [fprintf]: the decimal digits, most significant first. *)
Fixpoint dec_loop (fuel : nat) (n : Z) (acc : list Z) : list Z :=
  match fuel with
  | O => acc
  | S fuel' =>
      if n <? 10 then (48 + n) :: acc else dec_loop fuel' (n / 10) ((48 + n mod 10) :: acc)
  end.
Definition print_u (n : Z) : list Z := dec_loop 10 n [].

(** ["%u"] of [fscanf] as glibc does it: leading white space, an optional
    sign, the longest run of digits; the value saturates at 64 bits and is cut
    to 32. [None] is a matching failure. *)
Fixpoint skip_ws (l : list Z) : list Z :=
  match l with c :: l' => if isspace c then skip_ws l' else l | [] => [] end.
Fixpoint digits (l : list Z) (acc : Z) : Z * list Z :=
  match l with
  | c :: l' => if isdigit c then digits l' (acc * 10 + (c - 48)) else (acc, l)
  | [] => (acc, [])
  end.
Definition starts_digit (l : list Z) : bool :=
  match l with c :: _ => isdigit c | [] => false end.
Definition strtoul10 (neg : bool) (d : Z) : Z :=
  if ULONG_MAX <? d then ULONG_MAX else if neg then u64 (- d) else d.
Definition scan_u (l : list Z) : option (Z * list Z) :=
  let l1 := skip_ws l in
  let '(neg, l2) := match l1 with
                    | c :: r => if c =? 45 then (true, r) else if c =? 43 then (false, r) else (false, l1)
                    | [] => (false, [])
                    end in
  if starts_digit l2 then let '(d, r) := digits l2 0 in Some (u32 (strtoul10 neg d), r)
  else None.

(** [strtoul(s, NULL, 0)]: white space, a sign, then a hexadecimal number
    after "0x", an octal one after "0", a decimal one otherwise; the longest
    prefix of digits counts, an empty one is 0. *)
Definition digit_val (c : Z) : Z :=
  if isdigit c then c - 48
  else if (97 <=? c) && (c <=? 102) then c - 87
  else if (65 <=? c) && (c <=? 70) then c - 55
  else 99.
Fixpoint base_digits (base : Z) (l : list Z) (acc : Z) : Z :=
  match l with
  | c :: l' => if digit_val c <? base then base_digits base l' (acc * base + digit_val c) else acc
  | [] => acc
  end.
Definition strtoul0 (l : list Z) : Z :=
  let l1 := skip_ws l in
  let '(neg, l2) := match l1 with
                    | c :: r => if c =? 45 then (true, r) else if c =? 43 then (false, r) else (false, l1)
                    | [] => (false, [])
                    end in
  strtoul10 neg
    match l2 with
    | 48 :: x :: c :: r =>
        if ((x =? 120) || (x =? 88)) && (digit_val c <? 16) then base_digits 16 (c :: r) 0
        else base_digits 8 l2 0
    | 48 :: _ => base_digits 8 l2 0
    | _ => base_digits 10 l2 0
    end.

(** A string literal as bytes. *)
Fixpoint lit (s : string) : list Z :=
  match s with
  | String a s' => Z.of_N (Ascii.N_of_ascii a) :: lit s'
  | EmptyString => []
  end.

(** ** The code: directories *)

Section Dirs.
Context `{Posix}.

(** [strrchr(path, '/')], as an index. *)
Fixpoint strrchr_slash (l : list Z) : option nat :=
  match l with
  | [] => None
  | c :: l' =>
      match strrchr_slash l' with
      | Some n => Some (S n)
      | None => if c =? 47 then Some O else None
      end
  end.

(** The loop over the separators of the directory name: [pre] is what lies
    before [p], [rest] what [p] still has to visit. *)
Fixpoint mkdir_loop (pre rest : list Z) : F uworld Z :=
  match rest with
  | [] => fret 0
  | c :: rest' =>
      if negb (c =? 47) then mkdir_loop (pre ++ [c]) rest'
      else
        (e <- do_mkdir pre;;
        if ztrue e && negb (e =? EEXIST) then fret (-1)
        else mkdir_loop (pre ++ [c]) rest')
  end.

Definition vpipe_ensure_parent_dir (path : list Z) : F uworld Z :=
  (copy <- malloc (Z.of_nat (length path) + 1);;
  if negb copy then fret (-1)
  else
    match strrchr_slash path with
    | None => (free;; fret 0)
    | Some slash =>
        let dir := take slash path in
        match dir with
        | [] => (free;; fret 0)
        | _ =>
            (r <- mkdir_loop (take 1 dir) (drop 1 dir);;
            if r <? 0 then (free;; fret (-1))
            else
              (e <- do_mkdir dir;;
              if ztrue e && negb (e =? EEXIST) then (free;; fret (-1))
              else (free;; fret 0)))
        end
    end).

(** Creates a CSV file with its header line; [false] is a null stream. *)
Definition vpipe_open_csv (path : list Z) (header : option (list Z)) : F uworld bool :=
  (r <- vpipe_ensure_parent_dir path;;
  if r <? 0 then fret false
  else
    (fp <- fopen_wb path;;
    if negb fp then fret false
    else match header with
         | Some h => (fwrite path (h ++ [10]);; fret true)
         | None => fret true
         end)).
End Dirs.

(** ** The code: images *)

(** [pixels] is the heap block, [None] a null pointer. *)
Record vpipe_pgm_image :=
  PgmImage { i_width : Z; i_height : Z; pixels : option (list Z); i_size : Z }.
Definition pgm_zero : vpipe_pgm_image := PgmImage 0 0 None 0.

Definition VPIPE_PGM_MAX_DIM : Z := 4096.

(** ["P5\n%u %u\n255\n"]. *)
Definition pgm_header (width height : Z) : list Z :=
  [80; 53; 10] ++ print_u width ++ [32] ++ print_u height ++ [10; 50; 53; 53; 10].

(** The inner loop of the scanner: from '#' to the end of the line. *)
Fixpoint skip_line (l : list Z) : Z * list Z :=
  match l with
  | [] => (EOF, [])
  | c :: l' => if c =? 10 then (c, l') else skip_line l'
  end.

(** The [do ... while] of [vpipe_skip_space]. *)
Fixpoint skip_space_loop (fuel : nat) (l : list Z) : option (Z * list Z) :=
  match fuel with
  | O => None
  | S fuel' =>
      let '(c, l1) := fgetc l in
      let '(c, l1) := if c =? 35 then skip_line l1 else (c, l1) in
      if isspace c then skip_space_loop fuel' l1 else Some (c, l1)
  end.

(** Every turn but the last consumes a byte. *)
Definition vpipe_skip_space (l : list Z) : option (Z * list Z) :=
  skip_space_loop (S (length l)) l.

Section Images.
Context `{Posix}.

(** Reading the caller's block past its end faults. *)
Definition vpipe_write_pgm (path : list Z) (data : option (list Z)) (width height : Z)
    : F uworld Z :=
  let size := u64 (width * height) in
  (r <- vpipe_ensure_parent_dir path;;
  if r <? 0 then fret (-1)
  else
    (fp <- fopen_wb path;;
    if negb fp then fret (-1)
    else
      (fwrite path (pgm_header width height);;
      let d := default [] data in
      if Z.of_nat (length d) <? size then ffail
      else
        (n <- fwrite path (take (Z.to_nat size) d);;
        if negb (n =? size) then (fclose;; fret (-1)) else (fclose;; fret 0))))).

(** [fclose(fp); return -1] with the image as it stands. *)
Definition read_fail (img : vpipe_pgm_image) : F uworld (Z * vpipe_pgm_image) :=
  (fclose;; fret (-1, img)).

(** The part of [vpipe_read_pgm] after the header. *)
Definition read_pixels (img : vpipe_pgm_image) (l : list Z) : F uworld (Z * vpipe_pgm_image) :=
  let size := u64 (i_width img * i_height img) in
  (ok <- malloc size;;
  if negb ok then read_fail img
  else
    if Z.of_nat (length l) <? size
    then (free;; read_fail (PgmImage (i_width img) (i_height img) None (i_size img)))
    else (fclose;; fret (0,
           PgmImage (i_width img) (i_height img) (Some (take (Z.to_nat size) l)) size))).

Definition vpipe_read_pgm (path : list Z) : F uworld (Z * vpipe_pgm_image) :=
  (fp <- fopen_rb path;;
  match fp with
  | None => fret (-1, pgm_zero)
  | Some l0 =>
      let '(c0, l1) := fgetc l0 in
      if negb (c0 =? 80) then read_fail pgm_zero
      else
        let '(c1, l2) := fgetc l1 in
        if negb (c1 =? 53) then read_fail pgm_zero
        else
          match vpipe_skip_space l2 with
          | None => ffail
          | Some (c, l3) =>
              match scan_u (ungetc c l3) with
              | None => read_fail pgm_zero
              | Some (w, l4) =>
                  match scan_u (skip_ws l4) with
                  | None => read_fail (PgmImage w 0 None 0)
                  | Some (h, l5) =>
                      let img := PgmImage w h None 0 in
                      if (w =? 0) || (h =? 0) || (VPIPE_PGM_MAX_DIM <? w)
                         || (VPIPE_PGM_MAX_DIM <? h) then read_fail img
                      else
                        match vpipe_skip_space l5 with
                        | None => ffail
                        | Some (c', l6) =>
                            match scan_u (ungetc c' l6) with
                            | None => read_fail img
                            | Some (maxval, l7) =>
                                if negb (maxval =? 255) then read_fail img
                                else read_pixels img (snd (fgetc l7))
                            end
                        end
                  end
              end
          end
  end).

Definition vpipe_free_pgm (image : vpipe_pgm_image) : F uworld vpipe_pgm_image :=
  match pixels image with
  | Some _ => (free;; fret pgm_zero)
  | None => fret pgm_zero
  end.

(** One difference pixel. *)
Definition diff_px (a b : Z) : Z := let delta := a - b in u8 (if delta <? 0 then - delta else delta).

Definition diff_loop (lp rp : list Z) (size : Z) : option (list Z) :=
  for_range 0 size
    (fun i out =>
       match lp !! Z.to_nat i, rp !! Z.to_nat i with
       | Some a, Some b =>
           if (Z.to_nat i <? length out)%nat then Some (<[Z.to_nat i := diff_px a b]> out) else None
       | _, _ => None
       end) (replicate (Z.to_nat size) 0).

Definition vpipe_write_diff_pgm (path : list Z) (lhs rhs : vpipe_pgm_image) : F uworld Z :=
  if negb (i_width lhs =? i_width rhs) || negb (i_height lhs =? i_height rhs) then fret (-1)
  else
    (ok <- malloc (i_size lhs);;
    if negb ok then fret (-1)
    else
      match diff_loop (default [] (pixels lhs)) (default [] (pixels rhs)) (i_size lhs) with
      | None => ffail
      | Some out =>
          (ret <- vpipe_write_pgm path (Some out) (i_width lhs) (i_height lhs);;
           vpipe_free_pgm (PgmImage (i_width lhs) (i_height lhs) (Some out) (i_size lhs));;
           fret ret)
      end).

(** [vpipe-dump-pgm]: [args] is [argv] without the program name, the result
    the exit status. *)
Definition dump_pgm_main (args : list (list Z)) : F uworld Z :=
  let output := default (lit "dump.pgm") (args !! 1%nat) in
  let width := match args !! 2%nat with Some a => u32 (strtoul0 a) | None => 640 end in
  let height := match args !! 3%nat with Some a => u32 (strtoul0 a) | None => 480 end in
  let size := u64 (width * height) in
  match args !! 0%nat with
  | None => fret 1
  | Some input =>
      (fp <- fopen_rb input;;
      match fp with
      | None => fret 1
      | Some l =>
          (data <- malloc size;;
          if negb data then (fclose;; fret 1)
          else if Z.of_nat (length l) <? size then (fclose;; free;; fret 1)
          else
            (fclose;;
            r <- vpipe_write_pgm output (Some (take (Z.to_nat size) l)) width height;;
            if r <? 0 then fret 1 else (free;; fret 0)))
      end)
  end.

(** [vpipe-pgm-diff]: the exit status. *)
Definition pgm_diff_main (args : list (list Z)) : F uworld Z :=
  match args with
  | [l; r; d] =>
      (left <- vpipe_read_pgm l;;
      let '(rl, lhs) := left in
      if rl <? 0 then fret 1
      else
        (right <- vpipe_read_pgm r;;
        let '(rr, rhs) := right in
        if rr <? 0 then fret 1
        else
          (rd <- vpipe_write_diff_pgm d lhs rhs;;
          if rd <? 0 then fret 1
          else
            (vpipe_free_pgm lhs;; vpipe_free_pgm rhs;; fret 0))))
  | _ => fret 1
  end.
End Images.

(** ** Printing and scanning numbers *)

Lemma dec_loop_app fuel n acc : dec_loop fuel n acc = dec_loop fuel n [] ++ acc.
Proof.
  revert n acc. induction fuel as [|fuel IH]; intros n acc; [done|]. cbn [dec_loop].
  destruct (n <? 10); [done|]. rewrite IH, (IH _ [_]), <- app_assoc. done.
Qed.

Lemma dec_loop_digits fuel n : 0 <= n -> Forall (fun c => isdigit c = true) (dec_loop fuel n []).
Proof.
  revert n. induction fuel as [|fuel IH]; intros n Hn; [constructor|]. cbn [dec_loop].
  destruct (Z.ltb_spec n 10); [repeat constructor; unfold isdigit; lia|].
  rewrite dec_loop_app. apply Forall_app. split; [apply IH, Z.div_pos; lia|].
  pose proof (Z.mod_pos_bound n 10). repeat constructor. unfold isdigit. lia.
Qed.

Definition dec_val (a : Z) (l : list Z) : Z := foldl (fun a c => a * 10 + (c - 48)) a l.

Lemma dec_loop_val fuel n : 0 <= n < 10 ^ Z.of_nat fuel -> dec_val 0 (dec_loop fuel n []) = n.
Proof.
  revert n. induction fuel as [|fuel IH]; intros n Hn; [cbn in *; lia|]. cbn [dec_loop].
  destruct (Z.ltb_spec n 10); [cbn; lia|]. rewrite dec_loop_app. unfold dec_val. rewrite foldl_app.
  fold (dec_val 0 (dec_loop fuel (n / 10) [])). rewrite Nat2Z.inj_succ, Z.pow_succ_r in Hn by lia.
  rewrite IH by (split; [apply Z.div_pos|apply Z.div_lt_upper_bound]; lia).
  cbn [foldl]. pose proof (Z.div_mod n 10). lia.
Qed.

Lemma digits_app l r a :
  Forall (fun c => isdigit c = true) l -> starts_digit r = false ->
  digits (l ++ r) a = (dec_val a l, r).
Proof.
  intros Hl Hr. revert a. induction Hl as [|c l Hc Hl IH]; intros a; cbn [app].
  - destruct r as [|c r]; [done|]. cbn in *. by rewrite Hr.
  - cbn [digits]. rewrite Hc. apply IH.
Qed.

Lemma dec_loop_nonempty fuel n : dec_loop (S fuel) n [] <> [].
Proof.
  cbn [dec_loop]. destruct (n <? 10); [done|]. rewrite dec_loop_app.
  intros [_ ?]%app_eq_nil. done.
Qed.

Lemma print_u_starts n : 0 <= n -> exists c l, print_u n = c :: l /\ isdigit c = true.
Proof.
  intros Hn. pose proof (dec_loop_digits 10 n Hn) as Hd. unfold print_u in *.
  destruct (dec_loop 10 n []) as [|c l] eqn:E; [by apply dec_loop_nonempty in E|].
  inversion Hd; subst. eauto.
Qed.

Lemma isdigit_other c : isdigit c = true ->
  isspace c = false /\ (c =? 45) = false /\ (c =? 43) = false /\ (c =? 35) = false /\ (c =? EOF) = false.
Proof. unfold isdigit, isspace, EOF. lia. Qed.

Lemma starts_digit_skip l : starts_digit l = true -> skip_ws l = l.
Proof. destruct l as [|c l]; [done|]. intros H%isdigit_other. cbn. by destruct H as [-> _]. Qed.

Lemma starts_print n r : 0 <= n -> starts_digit (print_u n ++ r) = true.
Proof. intros Hn. destruct (print_u_starts n Hn) as (c & l & -> & Hc). done. Qed.

(** What is printed is scanned back, up to the next character. *)
Lemma scan_print n r :
  in_u32 n -> starts_digit r = false -> scan_u (print_u n ++ r) = Some (n, r).
Proof.
  intros Hn Hr. pose proof (starts_print n r ltac:(unfold in_u32 in Hn; lia)) as Hs.
  unfold scan_u. rewrite starts_digit_skip by done.
  destruct (print_u_starts n ltac:(unfold in_u32 in Hn; lia)) as (c & l & E & Hc).
  rewrite E in *. cbn [app]. destruct (isdigit_other c Hc) as (_ & -> & -> & _).
  change (c :: l ++ r) with ((c :: l) ++ r). rewrite Hs, <- E. unfold print_u.
  rewrite digits_app, dec_loop_val; [|unfold in_u32 in Hn; cbn; lia| |done].
  - unfold strtoul10, ULONG_MAX. unfold in_u32 in Hn.
    destruct (Z.ltb_spec 18446744073709551615 n); [lia|]. by rewrite u32_small.
  - apply dec_loop_digits. unfold in_u32 in Hn. lia.
Qed.

(** ** The scanner of white space and comments *)

Lemma suffix_tail {A} (a : A) l l' : l' `suffix_of` l -> l' `suffix_of` a :: l.
Proof. intros Hs. by apply suffix_cons_r. Qed.
#[local] Hint Resolve suffix_tail suffix_nil : core.

Lemma skip_line_suffix l c l' : skip_line l = (c, l') ->
  l' `suffix_of` l /\ (length l' <= length l)%nat /\ (c = EOF \/ c = 10 /\ (length l' < length l)%nat).
Proof.
  revert c l'. induction l as [|a l IH]; intros c l' E; cbn in E; [injection E as <- <-; auto|].
  destruct (Z.eqb_spec a 10) as [->|].
  - injection E as <- <-. cbn. auto with lia.
  - destruct (IH _ _ E) as (? & ? & ?). split; [auto|]. cbn. lia.
Qed.

Lemma skip_space_total fuel l : (length l < fuel)%nat ->
  exists c l', skip_space_loop fuel l = Some (c, l') /\ ungetc c l' `suffix_of` l.
Proof.
  revert l. induction fuel as [|fuel IH]; intros l Hf; [lia|]. cbn [skip_space_loop].
  destruct l as [|a l]; cbn [fgetc]; [by eexists _, _|]. cbn in Hf.
  destruct (a =? 35).
  - destruct (skip_line l) as [c l1] eqn:E. destruct (skip_line_suffix _ _ _ E) as (Hs & Hl & Hc).
    destruct Hc as [-> | [-> _]]; cbn [isspace Z.eqb orb andb Z.leb Z.compare].
    + eexists _, _. split; [done|]. cbn. auto.
    + destruct (IH l1) as (c & l' & E' & Hs'); [lia|]. exists c, l'. split; [done|].
      apply suffix_tail. by etrans.
  - destruct (isspace a).
    + destruct (IH l) as (c & l' & E' & Hs'); [lia|]. exists c, l'. auto.
    + exists a, l. split; [done|]. unfold ungetc. destruct (a =? EOF); auto.
Qed.

(** One white-space character before a number. *)
Lemma skip_space_digit a l : isspace a = true -> starts_digit l = true ->
  exists c l', vpipe_skip_space (a :: l) = Some (c, l') /\ ungetc c l' = l.
Proof.
  intros Ha Hl. destruct l as [|c l]; [done|]. destruct (isdigit_other c Hl) as (H1 & _ & _ & H2 & H3).
  exists c, l. unfold vpipe_skip_space. cbn [length skip_space_loop fgetc].
  assert ((a =? 35) = false) as -> by (unfold isspace in Ha; lia). rewrite Ha.
  cbn [skip_space_loop fgetc]. rewrite H2, H1.
  unfold ungetc. by rewrite H3.
Qed.

Lemma scan_u_suffix l n r : scan_u l = Some (n, r) -> r `suffix_of` l /\ in_u32 n.
Proof.
  assert (Hws : forall l, skip_ws l `suffix_of` l).
  { clear. induction l as [|c l IH]; cbn; [done|]. destruct (isspace c); auto. }
  assert (Hdig : forall l a, snd (digits l a) `suffix_of` l).
  { clear. induction l as [|c l IH]; intros a; cbn; [done|]. destruct (isdigit c); auto. }
  unfold scan_u. specialize (Hws l). destruct (skip_ws l) as [|c k].
  - cbn. done.
  - destruct (if c =? 45 then _ else _) as [neg l2] eqn:E. destruct (starts_digit l2); [|done].
    specialize (Hdig l2 0). destruct (digits l2 0) as [d r']. intros [= <- <-].
    split; [|apply u32_range]. cbn in Hdig. etrans; [exact Hdig|]. etrans; [|exact Hws].
    destruct (c =? 45), (c =? 43); injection E as _ <-; auto.
Qed.

Lemma skip_ws_suffix l : skip_ws l `suffix_of` l.
Proof. induction l as [|c l IH]; cbn; [done|]. destruct (isspace c); auto. Qed.

Lemma fgetc_suffix l : snd (fgetc l) `suffix_of` l.
Proof. destruct l; cbn; auto. Qed.

(** ** Directories *)

(** The directories the helper has to make, in order: every non-empty prefix
    of the directory name that ends before a separator, then the name. *)
Fixpoint inner_dirs (pre rest : list Z) : list (list Z) :=
  match rest with
  | [] => []
  | c :: rest' => if c =? 47 then pre :: inner_dirs (pre ++ [c]) rest' else inner_dirs (pre ++ [c]) rest'
  end.
Definition parent_dirs (path : list Z) : list (list Z) :=
  match strrchr_slash path with
  | None => []
  | Some n => match take n path with
              | [] => []
              | dir => inner_dirs (take 1 dir) (drop 1 dir) ++ [dir]
              end
  end.

Section DirProofs.
Context `{Posix}.

(** [mkdir -p]: make each in turn, stop at the first real failure. *)
Fixpoint mkdir_all (ps : list (list Z)) (f : fs) : bool * fs :=
  match ps with
  | [] => (true, f)
  | p :: ps' =>
      let '(e, f') := mkdir p f in
      if ztrue e && negb (e =? EEXIST) then (false, f') else mkdir_all ps' f'
  end.

Lemma mkdir_all_app ps qs f :
  mkdir_all (ps ++ qs) f =
    let '(ok, f') := mkdir_all ps f in if ok then mkdir_all qs f' else (false, f').
Proof.
  revert f. induction ps as [|p ps IH]; intros f; cbn; [by destruct (mkdir_all qs f)|].
  destruct (mkdir p f) as [e f']. destruct (ztrue e && _); [done|apply IH].
Qed.

Lemma mkdir_loop_run pre rest f k v o :
  mkdir_loop pre rest (UWorld f k v o) =
    Some (let '(ok, f') := mkdir_all (inner_dirs pre rest) f in
          (if ok then 0 else -1, UWorld f' k v o)).
Proof.
  revert pre f. induction rest as [|c rest IH]; intros pre f; [done|].
  cbn [mkdir_loop inner_dirs]. destruct (c =? 47); cbn [negb]; [|apply IH].
  cbn [mkdir_all]. unfold fbind, do_mkdir. cbn [ufs ucalls ulive uopen].
  destruct (mkdir pre f) as [e f']. destruct (ztrue e && _); [done|apply IH].
Qed.

Lemma ensure_parent_run path f k v o :
  vpipe_ensure_parent_dir path (UWorld f k v o) =
    Some (if malloc_ok k (Z.of_nat (length path) + 1) then
            let '(ok, f') := mkdir_all (parent_dirs path) f in
            (if ok then 0 else -1, UWorld f' (k + 1) v o)
          else (-1, UWorld f (k + 1) v o)).
Proof.
  unfold vpipe_ensure_parent_dir, fbind at 1, malloc. cbn [ufs ucalls ulive uopen].
  destruct (malloc_ok _ _); cbn [negb]; [|done]. unfold parent_dirs.
  assert (Hv : v + 1 - 1 = v) by lia.
  destruct (strrchr_slash path) as [n|]; [|cbn; by rewrite Hv].
  destruct (take n path) as [|c dir]; [cbn; by rewrite Hv|].
  unfold fbind at 1. rewrite mkdir_loop_run, mkdir_all_app.
  destruct (mkdir_all (inner_dirs _ _) f) as [[] f1]; cbn; [|by rewrite Hv].
  unfold fbind, do_mkdir. cbn. destruct (mkdir (c :: dir) f1) as [e f2].
  destruct (ztrue e && _); cbn; by rewrite Hv.
Qed.
End DirProofs.

(** ** What the file system promises *)

(** [dir_there p f]: the name [p] exists. A successful [mkdir] (or one that
    finds the name taken) leaves it existing and removes nothing; a file
    opened for writing is empty; a complete write appends. *)
Class PosixLaws `{Posix} := {
  there : list Z -> fs -> Prop;
  mkdir_there p f : forall e f', mkdir p f = (e, f') -> e = 0 \/ e = EEXIST -> there p f';
  mkdir_keeps p q f : forall e f', mkdir p f = (e, f') -> there q f -> there q f';
  write_truncates p f : forall f', fopen_write p f = Some f' -> fopen_read p f' = Some [];
  append_all p d f : forall l f', fopen_read p f = Some l ->
    fappend p d f = (Z.of_nat (length d), f') -> fopen_read p f' = Some (l ++ d)
}.

Section LawProofs.
Context `{PosixLaws}.

Lemma mkdir_all_there ps f f' :
  mkdir_all ps f = (true, f') ->
  (forall q, there q f -> there q f') /\ forall p, p ∈ ps -> there p f'.
Proof.
  revert f. induction ps as [|p ps IH]; intros f E; cbn in E.
  - injection E as <-. split; [done|]. by intros p ?%not_elem_of_nil.
  - destruct (mkdir p f) as [e f1] eqn:Em. destruct (ztrue e && _) eqn:Ee; [done|].
    destruct (IH _ E) as [Hk Hp]. split.
    + intros q Hq. apply Hk. by eapply mkdir_keeps.
    + intros q [->|Hq]%elem_of_cons; [|by apply Hp]. apply Hk. eapply mkdir_there; [done|].
      unfold ztrue in Ee. lia.
Qed.
End LawProofs.

(** ** Writing *)

Lemma length_take_size {A} (d : list A) n :
  0 <= n <= Z.of_nat (length d) -> Z.of_nat (length (take (Z.to_nat n) d)) = n.
Proof. intros. rewrite length_take. lia. Qed.

Section Write.
Context `{PosixLaws}.

(** Everything the writer needs from its surroundings: memory for the path,
    the directories, a file that opens, and a disk that takes every byte. *)
Record writable (path : list Z) (f : fs) (k : Z) : Prop := {
  wr_mem : malloc_ok k (Z.of_nat (length path) + 1) = true;
  wr_dirs : fst (mkdir_all (parent_dirs path) f) = true;
  wr_open : forall f', is_Some (fopen_write path f');
  wr_disk : forall d f', fst (fappend path d f') = Z.of_nat (length d)
}.

Lemma write_pgm_ok path d w h f k v o :
  writable path f k -> 0 <= w <= VPIPE_PGM_MAX_DIM -> 0 <= h <= VPIPE_PGM_MAX_DIM ->
  w * h <= Z.of_nat (length d) ->
  exists f', vpipe_write_pgm path (Some d) w h (UWorld f k v o) = Some (0, UWorld f' (k + 1) v o) /\
    fopen_read path f' = Some (pgm_header w h ++ take (Z.to_nat (w * h)) d).
Proof.
  unfold VPIPE_PGM_MAX_DIM. intros [Hm Hd Ho Hk] Hw Hh Hl. unfold vpipe_write_pgm, fbind at 1.
  rewrite ensure_parent_run, Hm. destruct (mkdir_all _ f) as [ok f1]. cbn in Hd. subst ok.
  destruct (Ho f1) as [f2 Hf2]. unfold fbind, fopen_wb, fwrite, fclose, fret.
  cbn [Z.ltb Z.compare ufs ucalls ulive uopen negb]. rewrite Hf2.
  cbn [ufs ucalls ulive uopen negb default id]. pose proof (Hk (pgm_header w h) f2) as H1.
  destruct (fappend path (pgm_header w h) f2) as [n3 f3] eqn:E3. cbn [fst] in H1. subst n3.
  rewrite u64_small by nia. destruct (Z.ltb_spec (Z.of_nat (length d)) (w * h)); [lia|].
  cbn [ufs ucalls ulive uopen].
  pose proof (Hk (take (Z.to_nat (w * h)) d) f3) as H2.
  destruct (fappend path (take _ d) f3) as [n4 f4] eqn:E4. cbn [fst] in H2. subst n4.
  rewrite length_take_size, Z.eqb_refl by nia. cbn [negb ufs ucalls ulive uopen].
  exists f4. split; [do 3 f_equal; lia|].
  apply (append_all path _ f3); [|done].
  by apply (append_all path (pgm_header w h) f2 [] f3), E3; apply (write_truncates _ f1).
Qed.
End Write.

(** ** Reading *)

Section Read.
Context `{Posix}.

Lemma read_pixels_ok img l f k v o :
  0 <= i_width img <= VPIPE_PGM_MAX_DIM -> 0 <= i_height img <= VPIPE_PGM_MAX_DIM ->
  pixels img = None ->
  let size := i_width img * i_height img in
  read_pixels img l (UWorld f k v (o + 1)) =
    Some (if malloc_ok k size && (size <=? Z.of_nat (length l))
          then ((0, PgmImage (i_width img) (i_height img) (Some (take (Z.to_nat size) l)) size),
                UWorld f (k + 1) (v + 1) o)
          else ((-1, img), UWorld f (k + 1) v o)).
Proof.
  unfold VPIPE_PGM_MAX_DIM. destruct img as [w h p s]. cbn [i_width i_height pixels i_size].
  intros Hw Hh ->. unfold read_pixels, read_fail, fbind, malloc, free, fclose, fret.
  cbn [ufs ucalls ulive uopen i_width i_height i_size].
  rewrite u64_small by nia. destruct (malloc_ok k (w * h)); cbn [negb andb ufs ucalls ulive uopen];
    [|do 3 f_equal; lia].
  destruct (Z.ltb_spec (Z.of_nat (length l)) (w * h)), (Z.leb_spec (w * h) (Z.of_nat (length l)));
    try lia; cbn [ufs ucalls ulive uopen]; do 3 f_equal; lia.
Qed.

(** A file the writer produced is read back. *)
Lemma read_pgm_ok path d w h f k v o :
  1 <= w <= VPIPE_PGM_MAX_DIM -> 1 <= h <= VPIPE_PGM_MAX_DIM ->
  fopen_read path f = Some (pgm_header w h ++ d) ->
  malloc_ok k (w * h) = true -> w * h <= Z.of_nat (length d) ->
  vpipe_read_pgm path (UWorld f k v o) =
    Some ((0, PgmImage w h (Some (take (Z.to_nat (w * h)) d)) (w * h)),
          UWorld f (k + 1) (v + 1) o).
Proof.
  intros Hw Hh Hf Hm Hl. assert (Hw' : in_u32 w) by (unfold VPIPE_PGM_MAX_DIM, in_u32 in *; lia).
  assert (Hh' : in_u32 h) by (unfold VPIPE_PGM_MAX_DIM, in_u32 in *; lia).
  unfold vpipe_read_pgm, fbind at 1, fopen_rb. cbn [ufs ucalls ulive uopen]. rewrite Hf.
  unfold pgm_header. rewrite <- !app_assoc. cbn [app fgetc Z.eqb Pos.eqb negb].
  match goal with |- context [vpipe_skip_space (10 :: ?l)] =>
    destruct (skip_space_digit 10 l) as (c & l' & -> & ->); [done|by apply starts_print; lia|] end.
  rewrite scan_print by done. cbn [skip_ws isspace Z.eqb Pos.eqb orb].
  rewrite starts_digit_skip by (apply starts_print; lia). rewrite scan_print by done.
  assert ((w =? 0) || (h =? 0) || (VPIPE_PGM_MAX_DIM <? w) || (VPIPE_PGM_MAX_DIM <? h) = false)
    as -> by lia.
  match goal with |- context [vpipe_skip_space (10 :: ?l)] =>
    destruct (skip_space_digit 10 l) as (c' & l'' & -> & ->); [done|done|] end.
  change (50 :: 53 :: 53 :: 10 :: d) with (print_u 255 ++ 10 :: d).
  rewrite (scan_print 255 (10 :: d) ltac:(unfold in_u32; lia) eq_refl).
  cbn [Z.eqb Pos.eqb negb fgetc snd]. rewrite read_pixels_ok by (cbn [i_width i_height pixels]; done || lia).
  cbn [i_width i_height]. rewrite Hm. destruct (Z.leb_spec (w * h) (Z.of_nat (length d))); [done|lia].
Qed.

(** The outcome of reading any file. *)
Definition read_outcome (l : list Z) (f : fs) (v o : Z)
    (r : Z) (img : vpipe_pgm_image) (w' : uworld) : Prop :=
  ufs w' = f /\ uopen w' = o /\
  ((r = -1 /\ pixels img = None /\ ulive w' = v) \/
   (r = 0 /\ 1 <= i_width img <= VPIPE_PGM_MAX_DIM /\ 1 <= i_height img <= VPIPE_PGM_MAX_DIM /\
    i_size img = i_width img * i_height img /\ ulive w' = v + 1 /\
    exists pre px post, pixels img = Some px /\ Z.of_nat (length px) = i_size img /\
      l = [80; 53] ++ pre ++ px ++ post)).

Lemma read_fail_outcome l f k v o img :
  pixels img = None ->
  exists r img' w', read_fail img (UWorld f k v (o + 1)) = Some ((r, img'), w') /\
    read_outcome l f v o r img' w'.
Proof.
  intros Hi. eexists _, _, _. split; [reflexivity|]. split; [done|]. cbn. split; [lia|]. by left.
Qed.

Lemma read_pixels_outcome l l' img f k v o :
  1 <= i_width img <= VPIPE_PGM_MAX_DIM -> 1 <= i_height img <= VPIPE_PGM_MAX_DIM ->
  pixels img = None -> l' `suffix_of` l ->
  exists r img' w', read_pixels img l' (UWorld f k v (o + 1)) = Some ((r, img'), w') /\
    read_outcome ([80; 53] ++ l) f v o r img' w'.
Proof.
  intros Hw Hh Hi [pre ->]. pose proof (read_pixels_ok img l' f k v o) as E. cbv zeta in E.
  rewrite E by (done || lia). set (n := i_width img * i_height img).
  destruct (malloc_ok k n && (n <=? Z.of_nat (length l'))) eqn:C.
  - eexists _, _, _. split; [reflexivity|]. do 2 (split; [done|]). right. do 5 (split; [done|]).
    exists pre, (take (Z.to_nat n) l'), (drop (Z.to_nat n) l'). cbn [pixels i_size].
    split; [done|]. split; [apply length_take_size; nia|]. by rewrite take_drop.
  - eexists _, _, _. split; [reflexivity|]. do 2 (split; [done|]). by left.
Qed.
End Read.

(** ** The difference image *)

Lemma diff_px_zero a b : in_u8 a -> in_u8 b -> (diff_px a b = 0 <-> a = b).
Proof.
  unfold in_u8, diff_px. intros Ha Hb. cbv zeta.
  destruct (Z.ltb_spec (a - b) 0); rewrite u8_small by lia; lia.
Qed.

Lemma diff_loop_ok lp rp size :
  0 <= size -> Z.of_nat (length lp) = size -> Z.of_nat (length rp) = size ->
  diff_loop lp rp size = Some (zip_with diff_px lp rp).
Proof.
  intros H0 Hl Hr. unfold diff_loop.
  destruct (for_range_inv (fun i out => length out = Z.to_nat size /\
      forall j, 0 <= j < i -> out !! Z.to_nat j = zip_with diff_px lp rp !! Z.to_nat j) 0 size
    (fun i out => match lp !! Z.to_nat i, rp !! Z.to_nat i with
       | Some a, Some b =>
           if (Z.to_nat i <? length out)%nat then Some (<[Z.to_nat i := diff_px a b]> out) else None
       | _, _ => None end) (replicate (Z.to_nat size) 0)) as (out & -> & Ho & Hj).
  - done.
  - rewrite length_replicate. split; [done|lia].
  - intros i out Hi [Ho Hj].
    destruct (lookup_lt_is_Some_2 lp (Z.to_nat i)) as [a Ha]; [lia|].
    destruct (lookup_lt_is_Some_2 rp (Z.to_nat i)) as [b Hb]; [lia|]. rewrite Ha, Hb, Ho.
    destruct (Nat.ltb_spec (Z.to_nat i) (Z.to_nat size)); [|lia]. eexists. split; [done|].
    rewrite length_insert. split; [done|]. intros j Hlt. destruct (Z.eq_dec j i) as [->|].
    + rewrite list_lookup_insert_eq by lia. by rewrite lookup_zip_with, Ha, Hb.
    + rewrite list_lookup_insert_ne by lia. apply Hj. lia.
  - f_equal. apply list_eq. intros k. destruct (Nat.lt_ge_cases k (Z.to_nat size)).
    + specialize (Hj (Z.of_nat k) ltac:(lia)). by rewrite Nat2Z.id in Hj.
    + rewrite !lookup_ge_None_2; [done|rewrite length_zip_with; lia|lia].
Qed.

Lemma zip_diff_zero lp rp :
  Forall in_u8 lp -> Forall in_u8 rp -> length lp = length rp ->
  (Forall (fun d => d = 0) (zip_with diff_px lp rp) <-> lp = rp).
Proof.
  intros Hl. revert rp. induction Hl as [|a lp Ha Hl IH]; intros [|b rp] Hr Hlen; try done.
  inversion Hr as [|? ? Hb Hr']; subst. cbn in Hlen |- *. rewrite Forall_cons_iff.
  rewrite diff_px_zero, IH by (done || lia). split; [intros [-> ->]; done|by intros [= -> ->]].
Qed.

(** A well-formed image in memory, as the reader makes it. *)
Record image_ok (img : vpipe_pgm_image) (px : list Z) : Prop := {
  im_px : pixels img = Some px;
  im_size : i_size img = i_width img * i_height img;
  im_len : Z.of_nat (length px) = i_size img;
  im_w : 1 <= i_width img <= VPIPE_PGM_MAX_DIM;
  im_h : 1 <= i_height img <= VPIPE_PGM_MAX_DIM
}.

Section Diff.
Context `{PosixLaws}.

Lemma write_diff_ok path lhs rhs lp rp f k v o :
  image_ok lhs lp -> image_ok rhs rp ->
  i_width lhs = i_width rhs -> i_height lhs = i_height rhs ->
  malloc_ok k (i_size lhs) = true -> writable path f (k + 1) ->
  exists f', vpipe_write_diff_pgm path lhs rhs (UWorld f k v o)
    = Some (0, UWorld f' (k + 1 + 1) v o) /\
    fopen_read path f' = Some (pgm_header (i_width lhs) (i_height lhs) ++ zip_with diff_px lp rp).
Proof.
  intros [Hl1 Hl2 Hl3 Hl4 Hl5] [Hr1 Hr2 Hr3 Hr4 Hr5] Ew Eh Hm Hw.
  unfold vpipe_write_diff_pgm. rewrite <- Ew, <- Eh, !Z.eqb_refl. cbn [negb orb].
  unfold fbind at 1, malloc. cbn [ucalls ufs ulive uopen]. rewrite Hm. cbn [negb].
  rewrite Hl1, Hr1. cbn [default id]. rewrite diff_loop_ok by (nia || congruence).
  assert (Hz : Z.of_nat (length (zip_with diff_px lp rp)) = i_width lhs * i_height lhs)
    by (rewrite length_zip_with; nia).
  destruct (write_pgm_ok path (zip_with diff_px lp rp) (i_width lhs) (i_height lhs) f (k + 1)
    (v + 1) o Hw) as (f' & E & Hf'); [lia|lia|lia|].
  exists f'. unfold fbind at 1. rewrite E. split.
  - unfold vpipe_free_pgm, fbind, free, fret. cbn. do 3 f_equal. lia.
  - by rewrite take_ge in Hf' by lia.
Qed.
End Diff.

(** ** A file system in memory, for the witnesses *)

Record memfs := MemFs { mdirs : gset (list Z); mfiles : gmap (list Z) (list Z) }.

#[export] Instance mem_posix : Posix := {
  fs := memfs;
  mkdir p f :=
    if bool_decide (p ∈ mdirs f) then (EEXIST, f)
    else (0, MemFs ({[p]} ∪ mdirs f) (mfiles f));
  fopen_read p f := mfiles f !! p;
  fopen_write p f := Some (MemFs (mdirs f) (<[p := []]> (mfiles f)));
  fappend p d f :=
    (Z.of_nat (length d),
     MemFs (mdirs f) (<[p := default [] (mfiles f !! p) ++ d]> (mfiles f)));
  malloc_ok _ _ := true
}.

#[export] Program Instance mem_laws : PosixLaws := {
  there p f := p ∈ mdirs f
}.
Next Obligation.
  intros p f e f' Hm _. cbn in Hm. case_bool_decide; injection Hm as <- <-; [done|]. cbn. set_solver.
Qed.
Next Obligation.
  intros p q f e f' Hm Hq. cbn in Hm. case_bool_decide; injection Hm as <- <-; [done|]. cbn. set_solver.
Qed.
Next Obligation. intros p f f' [= <-]. cbn. apply lookup_insert_eq. Qed.
Next Obligation.
  intros p d f l f' Hl E. cbn in E. injection E as <-. cbn in *. rewrite Hl. apply lookup_insert_eq.
Qed.

Lemma mkdir_all_mem ps f : fst (@mkdir_all mem_posix ps f) = true.
Proof.
  revert f. induction ps as [|p ps IH]; intros f; [done|]. cbn. case_bool_decide; apply IH.
Qed.

Lemma writable_mem path f k : @writable mem_posix path f k.
Proof. split; [done|apply mkdir_all_mem|cbn; eauto|done]. Qed.

Lemma read_pgm_outcome `{Posix} path f k v o l :
  fopen_read path f = Some l ->
  exists r img w', vpipe_read_pgm path (UWorld f k v o) = Some ((r, img), w') /\
    read_outcome l f v o r img w'.
Proof.
  intros Hf. unfold vpipe_read_pgm, fbind at 1, fopen_rb. cbn [ufs ucalls ulive uopen]. rewrite Hf.
  destruct l as [|c0 l1]; [by apply read_fail_outcome|]. cbn [fgetc].
  destruct (Z.eqb_spec c0 80) as [->|]; cbn [negb]; [|by apply read_fail_outcome].
  destruct l1 as [|c1 l2]; [by apply read_fail_outcome|]. cbn [fgetc].
  destruct (Z.eqb_spec c1 53) as [->|]; cbn [negb]; [|by apply read_fail_outcome].
  destruct (skip_space_total (S (length l2)) l2) as (c & l3 & E & S3); [lia|].
  unfold vpipe_skip_space at 1. rewrite E.
  destruct (scan_u (ungetc c l3)) as [[w l4]|] eqn:Ew; [|by apply read_fail_outcome].
  apply scan_u_suffix in Ew as [S4 Hw].
  destruct (scan_u (skip_ws l4)) as [[h l5]|] eqn:Eh; [|by apply read_fail_outcome].
  apply scan_u_suffix in Eh as [S5 Hh].
  destruct ((w =? 0) || _ || _ || _) eqn:Ed; [by apply read_fail_outcome|].
  destruct (skip_space_total (S (length l5)) l5) as (c' & l6 & E' & S6); [lia|].
  unfold vpipe_skip_space. rewrite E'.
  destruct (scan_u (ungetc c' l6)) as [[mv l7]|] eqn:Em; [|by apply read_fail_outcome].
  apply scan_u_suffix in Em as [S7 _].
  destruct (mv =? 255); cbn [negb]; [|by apply read_fail_outcome].
  change (80 :: 53 :: l2) with ([80; 53] ++ l2).
  apply read_pixels_outcome; cbn [i_width i_height pixels]; [unfold in_u32 in *; lia..|done|].
  do 2 (etrans; [apply fgetc_suffix || exact S7|]). do 2 (etrans; [exact S6 || exact S5|]).
  do 2 (etrans; [apply skip_ws_suffix || exact S4|]). exact S3.
Qed.

(** ** The theorems *)

(** C36: what [vpipe_write_pgm] writes, [vpipe_read_pgm] reads back: for every
    image of 1x1 to 4096x4096 pixels, writing succeeds when the directories
    can be made, the file opened and the bytes stored, and reading that file
    gives the same width, height and pixels; the writer leaves no open file
    and no heap block behind, the reader exactly the image's block. *)
Theorem pgm_roundtrip `{PosixLaws} path data w h f k v o
    (Hw : 1 <= w <= VPIPE_PGM_MAX_DIM) (Hh : 1 <= h <= VPIPE_PGM_MAX_DIM)
    (Hlen : w * h <= Z.of_nat (length data)) (Hok : writable path f k) :
  exists f',
    vpipe_write_pgm path (Some data) w h (UWorld f k v o) = Some (0, UWorld f' (k + 1) v o) /\
    forall k' v' o', malloc_ok k' (w * h) = true ->
      vpipe_read_pgm path (UWorld f' k' v' o') =
        Some ((0, PgmImage w h (Some (take (Z.to_nat (w * h)) data)) (w * h)),
              UWorld f' (k' + 1) (v' + 1) o').
Proof.
  destruct (write_pgm_ok path data w h f k v o Hok) as (f' & Hrun & Hf'); [lia|lia|done|].
  exists f'. split; [done|]. intros k' v' o' Hm.
  rewrite (read_pgm_ok path (take (Z.to_nat (w * h)) data) w h)
    by (done || rewrite length_take_size by nia; lia).
  by rewrite take_take, Nat.min_id.
Qed.

(** A 12x1 image under "a/b/i". *)
Lemma pgm_roundtrip_witness :
  let data := [0; 35; 10; 32; 255; 80; 53; 49; 50; 9; 13; 7] in
  exists f',
    vpipe_write_pgm [97; 47; 98; 47; 105] (Some data) 12 1 (UWorld (MemFs ∅ ∅) 0 0 0)
      = Some (0, UWorld f' 1 0 0) /\
    vpipe_read_pgm [97; 47; 98; 47; 105] (UWorld f' 1 0 0)
      = Some ((0, PgmImage 12 1 (Some data) 12), UWorld f' 2 1 0).
Proof.
  cbv zeta.
  destruct (@pgm_roundtrip mem_posix mem_laws [97; 47; 98; 47; 105] [0; 35; 10; 32; 255; 80; 53; 49; 50; 9; 13; 7]
    12 1 (MemFs ∅ ∅) 0 0 0) as (f' & H1 & H2);
    [unfold VPIPE_PGM_MAX_DIM; lia..|cbn; lia|apply writable_mem|].
  exists f'. split; [exact H1|]. apply (H2 1 0 0). reflexivity.
Defined.

(** C35: on every file, whatever its bytes, [vpipe_read_pgm] returns and
    closes its stream. Either it fails with -1, holds no memory and leaves a
    null pixel pointer; or it returns 0 with both dimensions in 1..4096, a size
    that is their product, and a block of exactly that many bytes, which are
    consecutive bytes of the file after the "P5" magic. *)
Theorem read_pgm_sound `{Posix} path f k v o l (Hf : fopen_read path f = Some l) :
  exists r img w',
    vpipe_read_pgm path (UWorld f k v o) = Some ((r, img), w') /\
    read_outcome l f v o r img w'.
Proof. by apply read_pgm_outcome. Qed.

(** A file with comments that is accepted, though its width is written as
    4294967298: the scanner cuts it to 2. *)
Lemma read_pgm_sound_witness :
  let file := [80; 53; 10; 35; 120; 10; 52; 50; 57; 52; 57; 54; 55; 50; 57; 56; 32; 49; 10;
               50; 53; 53; 10; 8; 9; 77] in
  exists w', vpipe_read_pgm [105] (UWorld (MemFs ∅ {[ [105] := file ]}) 0 5 3)
      = Some ((0, PgmImage 2 1 (Some [8; 9]) 2), w') /\
    uopen w' = 3 /\ ulive w' = 6.
Proof.
  cbv zeta.
  match goal with |- context [UWorld (MemFs ∅ {[_ := ?l]})] =>
    destruct (@read_pgm_sound mem_posix [105] (MemFs ∅ {[ [105] := l ]}) 0 5 3 l) as (r & img & w' & H1 & H2)
  end; [reflexivity|].
  assert (E : r = 0 /\ img = PgmImage 2 1 (Some [8; 9]) 2).
  { apply (f_equal (fmap fst)) in H1.
    assert (E : Some (r, img) = Some (0, PgmImage 2 1 (Some [8; 9]) 2))
      by (etransitivity; [symmetry; exact H1|vm_compute; reflexivity]).
    injection E as -> ->. done. }
  destruct E as [-> ->]. exists w'. split; [exact H1|].
  destruct H2 as (_ & Ho & [[? _]|(_ & _ & _ & _ & Hv & _)]); [discriminate|done].
Defined.

(** C37: [vpipe-pgm-diff] on two images the writer could have produced: if
    their dimensions agree it exits 0 and leaves an image of the absolute
    differences, which is black exactly when the images are equal, and holds no
    memory or stream; if they do not it exits 1 and writes nothing. *)
Theorem pgm_diff_compares `{PosixLaws} l r d lp rp w h w2 h2 f k v o
    (Hw : 1 <= w <= VPIPE_PGM_MAX_DIM) (Hh : 1 <= h <= VPIPE_PGM_MAX_DIM)
    (Hw2 : 1 <= w2 <= VPIPE_PGM_MAX_DIM) (Hh2 : 1 <= h2 <= VPIPE_PGM_MAX_DIM)
    (Hl : fopen_read l f = Some (pgm_header w h ++ lp)) (Hlp : Z.of_nat (length lp) = w * h)
    (Hr : fopen_read r f = Some (pgm_header w2 h2 ++ rp)) (Hrp : Z.of_nat (length rp) = w2 * h2)
    (Hlb : Forall in_u8 lp) (Hrb : Forall in_u8 rp)
    (Hm : forall k n, malloc_ok k n = true) (Hok : writable d f (k + 1 + 1 + 1)) :
  if (w =? w2) && (h =? h2)
  then exists f', pgm_diff_main [l; r; d] (UWorld f k v o) = Some (0, UWorld f' (k + 4) v o) /\
         fopen_read d f' = Some (pgm_header w h ++ zip_with diff_px lp rp) /\
         (Forall (fun x => x = 0) (zip_with diff_px lp rp) <-> lp = rp)
  else exists w', pgm_diff_main [l; r; d] (UWorld f k v o) = Some (1, w') /\ ufs w' = f.
Proof.
  unfold pgm_diff_main, fbind.
  rewrite (read_pgm_ok l lp w h) by (done || lia). cbn [Z.ltb Z.compare].
  rewrite (read_pgm_ok r rp w2 h2) by (done || lia). cbn [Z.ltb Z.compare].
  rewrite !take_ge by lia.
  assert (Li : image_ok (PgmImage w h (Some lp) (w * h)) lp) by (split; cbn; lia || done).
  assert (Ri : image_ok (PgmImage w2 h2 (Some rp) (w2 * h2)) rp) by (split; cbn; lia || done).
  destruct ((w =? w2) && (h =? h2)) eqn:E.
  - assert (w2 = w) as -> by lia. assert (h2 = h) as -> by lia.
    destruct (write_diff_ok d _ _ lp rp f (k + 1 + 1) (v + 1 + 1) o Li Ri eq_refl eq_refl)
      as (f' & -> & Hf'); [done|done|].
    exists f'. split; [|split; [done|apply zip_diff_zero; done || lia]].
    unfold vpipe_free_pgm, fbind, free, fret. cbn. do 3 f_equal; lia.
  - unfold vpipe_write_diff_pgm. cbn [i_width i_height].
    assert (negb (w =? w2) || negb (h =? h2) = true) as -> by lia.
    eexists. split; [reflexivity|done].
Qed.

Definition diff_fs : memfs :=
  MemFs ∅ (<[ [1] := pgm_header 2 1 ++ [10; 255] ]> {[ [2] := pgm_header 2 1 ++ [13; 0] ]}).

Lemma pgm_diff_compares_witness :
  exists f', pgm_diff_main [[1]; [2]; [3]] (UWorld diff_fs 0 0 0) = Some (0, UWorld f' 4 0 0) /\
    fopen_read [3] f' = Some (pgm_header 2 1 ++ [3; 255]).
Proof.
  assert (H1 : 1 <= 1 <= VPIPE_PGM_MAX_DIM) by done.
  assert (H2 : 1 <= 2 <= VPIPE_PGM_MAX_DIM) by done.
  destruct (@pgm_diff_compares mem_posix mem_laws [1] [2] [3] [10; 255] [13; 0] 2 1 2 1 diff_fs
    0 0 0 H2 H1 H2 H1) as (f' & E1 & E2 & _);
    [vm_compute; reflexivity|reflexivity|vm_compute; reflexivity|reflexivity
    |repeat (constructor; [unfold in_u8; lia|]); constructor
    |repeat (constructor; [unfold in_u8; lia|]); constructor
    |by intros|apply writable_mem|].
  exists f'. split; [exact E1|exact E2].
Defined.
