(* ===== verification/Reference.v ===== *)
(** * The user-space reference image: [user/vpipe-common.c], lines 381-434, and
    the tool [vpipe-cv-ref.c]

    [vpipe_threshold_reference] recomputes the kernel's threshold output from
    an image in memory; it is proved to give the bytes the kernel's
    [vpipe_cv_process] leaves in the destination buffer, for every frame,
    threshold and region. *)

From S2P Require Import Prelude Types Cv Pgm.

(** ** The code *)

(** The region as absolute bounds: left, top, right, bottom. *)
Definition reference_bounds (w h roi_left roi_top roi_width roi_height : Z) : Z * Z * Z * Z :=
  if (roi_width <=? 0) || (roi_height <=? 0) then (0, 0, w, h)
  else
    let left := if roi_left <? 0 then 0 else if w <? u32 roi_left then w else u32 roi_left in
    let top := if roi_top <? 0 then 0 else if h <? u32 roi_top then h else u32 roi_top in
    let right := if u32 (w - left) <? u32 roi_width then w else u32 (left + u32 roi_width) in
    let bottom := if u32 (h - top) <? u32 roi_height then h else u32 (top + u32 roi_height) in
    (left, top, right, bottom).

(** The body of the inner loop. *)
Definition reference_pixel (w threshold : Z) (src : list Z) (y x : Z) (dst : list Z)
    : option (list Z) :=
  let idx := Z.to_nat (u64 (y * w + x)) in
  match src !! idx with
  | None => None
  | Some v =>
      if (idx <? length dst)%nat then Some (<[idx := if threshold <? v then 255 else 0]> dst)
      else None
  end.

Definition reference_loops (w threshold : Z) (src : list Z) (bounds : Z * Z * Z * Z) (dst : list Z)
    : option (list Z) :=
  let '(l, t, r, b) := bounds in
  for_range t b (fun y => for_range l r (reference_pixel w threshold src y)) dst.

(** The status and the destination image; [memcpy] reads [size] bytes of the
    source. *)
Definition vpipe_threshold_reference `{Posix} (src : vpipe_pgm_image)
    (threshold roi_left roi_top roi_width roi_height : Z) : F uworld (Z * vpipe_pgm_image) :=
  (ok <- malloc (i_size src);;
  if negb ok then fret (-1, pgm_zero)
  else
    let sp := default [] (pixels src) in
    if Z.of_nat (length sp) <? i_size src then ffail
    else
      match reference_loops (i_width src) threshold sp
              (reference_bounds (i_width src) (i_height src) roi_left roi_top roi_width roi_height)
              (take (Z.to_nat (i_size src)) sp) with
      | None => ffail
      | Some dst => fret (0, PgmImage (i_width src) (i_height src) (Some dst) (i_size src))
      end).

(** [vpipe-cv-ref]: the exit status. *)
Definition cv_ref_main `{Posix} (args : list (list Z)) : F uworld Z :=
  let input := default (lit "tests/fixtures/ramp.pgm") (args !! 0%nat) in
  let output := default (lit "bench/ramp.reference.pgm") (args !! 1%nat) in
  let threshold := match args !! 2%nat with Some a => u32 (strtoul0 a) | None => 127 end in
  (read <- vpipe_read_pgm input;;
  let '(r, src) := read in
  if r <? 0 then fret 1
  else
    (ref <- vpipe_threshold_reference src (u8 threshold) 0 0 (s32 (i_width src))
              (s32 (i_height src));;
    let '(r, dst) := ref in
    if r <? 0 then (vpipe_free_pgm src;; fret 1)
    else
      (r <- vpipe_write_pgm output (pixels dst) (i_width dst) (i_height dst);;
      if r <? 0 then (vpipe_free_pgm dst;; vpipe_free_pgm src;; fret 1)
      else (vpipe_free_pgm dst;; vpipe_free_pgm src;; fret 0)))).

(** ** The bounds are the kernel's region *)

(** A region as bounds. *)
Definition roi_bounds (r : vpipe_roi) : Z * Z * Z * Z :=
  (left r, top r, left r + width r, top r + height r).

Lemma reference_bounds_clamp job r :
  1 <= job_width job <= INT_MAX -> 1 <= job_height job <= INT_MAX ->
  in_s32 (left r) -> in_s32 (top r) -> in_s32 (width r) -> in_s32 (height r) ->
  reference_bounds (job_width job) (job_height job) (left r) (top r) (width r) (height r)
    = roi_bounds (vpipe_clamp_roi job (Some r)).
Proof.
  unfold INT_MAX, in_s32. intros Hw Hh Hl Ht Hrw Hrh.
  unfold reference_bounds, vpipe_clamp_roi.
  rewrite !(s32_small (job_width job)), !(s32_small (job_height job)) by lia.
  destruct (_ || _) eqn:E; [unfold roi_bounds; cbn [left top width height]; f_equal; f_equal|].
  set (w := job_width job) in *. set (h := job_height job) in *.
  assert (E1 : (if left r <? 0 then 0 else if w <? u32 (left r) then w else u32 (left r))
               = clamp (left r) 0 w).
  { rewrite clamp_min_max by lia. destruct (Z.ltb_spec (left r) 0); [lia|].
    rewrite u32_small by lia. zbool; lia. }
  assert (E2 : (if top r <? 0 then 0 else if h <? u32 (top r) then h else u32 (top r))
               = clamp (top r) 0 h).
  { rewrite clamp_min_max by lia. destruct (Z.ltb_spec (top r) 0); [lia|].
    rewrite u32_small by lia. zbool; lia. }
  cbv zeta. rewrite E1, E2.
  pose proof (clamp_bounds (left r) 0 w ltac:(lia)) as Bl.
  pose proof (clamp_bounds (top r) 0 h ltac:(lia)) as Bt.
  set (l := clamp (left r) 0 w) in *. set (t := clamp (top r) 0 h) in *.
  unfold roi_bounds. cbn [left top width height].
  rewrite !clamp_min_max by lia. unwrap. f_equal; [f_equal|]; zbool; unwrap; lia.
Qed.

(** ** The loops *)

Section Loops.
Context (w h threshold : Z) (sp : list Z) (roi : vpipe_roi).
Context (Hw : 1 <= w <= INT_MAX) (Hh : 1 <= h <= INT_MAX).
Context (Hlen : Z.of_nat (length sp) = w * h).
Context (H0l : 0 <= left roi) (H0t : 0 <= top roi) (H0w : 0 <= width roi) (H0h : 0 <= height roi).
Context (Hr : left roi + width roi <= w) (Hb : top roi + height roi <= h).

Definition at_px (l : list Z) (x y : Z) : option Z := l !! Z.to_nat (y * w + x).

Definition ref_inv (y x : Z) (dst : list Z) : Prop :=
  length dst = length sp /\
  forall x' y', 0 <= x' < w -> 0 <= y' < h ->
    at_px dst x' y' =
      (fun v => if done_px roi y x x' y' then (if threshold <? v then 255 else 0) else v)
        <$> at_px sp x' y'.

Lemma px_inj x1 y1 x2 y2 :
  0 <= x1 < w -> 0 <= x2 < w -> 0 <= y1 -> 0 <= y2 ->
  Z.to_nat (y2 * w + x2) = Z.to_nat (y1 * w + x1) -> x1 = x2 /\ y1 = y2.
Proof.
  intros H1 H2 H3 H4 E. assert (y2 * w + x2 = y1 * w + x1) by nia.
  assert (y1 = y2) by nia. subst. lia.
Qed.

Lemma reference_pixel_ok y x dst :
  top roi <= y < top roi + height roi -> left roi <= x < left roi + width roi ->
  ref_inv y x dst ->
  exists dst', reference_pixel w threshold sp y x dst = Some dst' /\ ref_inv y (x + 1) dst'.
Proof.
  unfold INT_MAX in *. intros Hy Hx [Hl Hi]. unfold reference_pixel. rewrite u64_small by nia.
  destruct (lookup_lt_is_Some_2 sp (Z.to_nat (y * w + x))) as [v Hv]; [nia|]. rewrite Hv.
  destruct (Nat.ltb_spec (Z.to_nat (y * w + x)) (length dst)); [|nia].
  eexists. split; [done|]. split; [by rewrite length_insert|]. intros x' y' Hx' Hy'.
  unfold at_px. destruct (decide (x' = x /\ y' = y)) as [[-> ->]|Hne].
  - rewrite list_lookup_insert_eq, Hv by done. cbn.
    replace (done_px roi y (x + 1) x y) with true; [done|]. unfold done_px, in_roi. lia.
  - assert (Z.to_nat (y * w + x) <> Z.to_nat (y' * w + x')).
    { intros E. apply Hne, (px_inj x' y' x y); try lia; try nia. }
    rewrite list_lookup_insert_ne by done. fold (at_px dst x' y') (at_px sp x' y').
    rewrite Hi by done.
    replace (done_px roi y (x + 1) x' y') with (done_px roi y x x' y'); [done|].
    unfold done_px. f_equal. lia.
Qed.

Lemma reference_row_ok y dst :
  top roi <= y < top roi + height roi -> ref_inv y (left roi) dst ->
  exists dst', for_range (left roi) (left roi + width roi) (reference_pixel w threshold sp y) dst
    = Some dst' /\ ref_inv (y + 1) (left roi) dst'.
Proof.
  intros Hy Hi.
  destruct (for_range_inv (fun x => ref_inv y x) (left roi) (left roi + width roi)
    (reference_pixel w threshold sp y) dst) as (dst' & E & Hl & Hi'); [lia|done| |].
  { intros x d Hx. by apply reference_pixel_ok. }
  exists dst'. split; [done|]. split; [done|]. intros x' y' Hx' Hy'. rewrite Hi' by done.
  replace (done_px roi (y + 1) (left roi) x' y')
    with (done_px roi y (left roi + width roi) x' y'); [done|].
  unfold done_px, in_roi. lia.
Qed.

Lemma reference_loops_ok :
  exists dst, reference_loops w threshold sp (roi_bounds roi) sp = Some dst /\
    length dst = length sp /\
    forall x y, 0 <= x < w -> 0 <= y < h ->
      at_px dst x y =
        (fun v => if in_roi roi x y then (if threshold <? v then 255 else 0) else v) <$> at_px sp x y.
Proof.
  unfold reference_loops, roi_bounds.
  destruct (for_range_inv (fun y => ref_inv y (left roi)) (top roi) (top roi + height roi)
    (fun y => for_range (left roi) (left roi + width roi) (reference_pixel w threshold sp y)) sp)
    as (dst & E & Hl & Hi); [lia| | |].
  - split; [done|]. intros x y Hx Hy.
    replace (done_px roi (top roi) (left roi) x y) with false by (unfold done_px, in_roi; lia).
    by destruct (at_px sp x y).
  - intros y d Hy. by apply reference_row_ok.
  - exists dst. split; [done|]. split; [done|]. intros x y Hx Hy. rewrite Hi by done.
    replace (done_px roi (top roi + height roi) (left roi) x y) with (in_roi roi x y); [done|].
    unfold done_px, in_roi. lia.
Qed.
End Loops.

(** ** The theorem *)

(** The image [src] holds the frame at the job's source. *)
Record loaded (job : vpipe_job_desc) (m : mem) (src : vpipe_pgm_image) (sp : list Z) : Prop := {
  ld_w : i_width src = job_width job;
  ld_h : i_height src = job_height job;
  ld_size : i_size src = job_width job * job_height job;
  ld_px : pixels src = Some sp;
  ld_len : Z.of_nat (length sp) = job_width job * job_height job;
  ld_at : forall x y, in_frame job x y = true ->
            sp !! Z.to_nat (y * job_width job + x) = Some (src_px job m x y)
}.

Record roi_s32 (r : vpipe_roi) : Prop := {
  rs_left : in_s32 (left r);
  rs_top : in_s32 (top r);
  rs_width : in_s32 (width r);
  rs_height : in_s32 (height r)
}.

(** C8: the kernel's threshold output and the user-space reference agree byte
    for byte: for every well-formed job (any strides), threshold and requested
    region of 32-bit integers, [vpipe_threshold_reference] on the image of the
    source frame succeeds, and its pixel (x, y) is the byte
    [vpipe_cv_process] left at (x, y) of the destination. *)
Theorem reference_matches_kernel `{Posix} job m threshold r src sp f k v o
    (Hwf : job_wf job m) (Hr : roi_s32 r) (Hs : loaded job m src sp)
    (Hm : malloc_ok k (i_size src) = true) :
  exists m' res dp,
    vpipe_cv_process job VPIPE_ALGO_THRESHOLD threshold (Some r) m = Some (m', res, 0) /\
    vpipe_threshold_reference src threshold (left r) (top r) (width r) (height r) (UWorld f k v o)
      = Some ((0, PgmImage (job_width job) (job_height job) (Some dp) (i_size src)),
              UWorld f (k + 1) (v + 1) o) /\
    length dp = length sp /\
    forall x y, in_frame job x y = true ->
      load m' (dst_at job x y) = dp !! Z.to_nat (y * job_width job + x).
Proof.
  destruct (job_dims _ _ Hwf) as [Hw Hh]. destruct Hs as [Ew Eh Es Ep El Ha], Hr as [R1 R2 R3 R4].
  pose proof (jw_width _ _ Hwf). pose proof (jw_height _ _ Hwf).
  pose proof (clamp_roi_in_frame job (Some r) Hw Hh) as Hc.
  destruct (threshold_frame_ok job m Hwf threshold _ Hc
    (CvResult 0 0 0 (vpipe_clamp_roi job (Some r)))) as (m' & Hm' & Hp).
  destruct Hc as [C1 C2 C3 C4 C5 C6].
  destruct (reference_loops_ok (job_width job) (job_height job) threshold sp
    (vpipe_clamp_roi job (Some r)) ltac:(lia) ltac:(lia) El C1 C2 C3 C4 C5 C6)
    as (dp & Hd & Hl & Hpx).
  eexists m', _, dp. split; [unfold vpipe_cv_process; cbn [Z.eqb]; by rewrite Hm'|].
  split.
  - unfold vpipe_threshold_reference, fbind, malloc. cbn [ufs ucalls ulive uopen].
    rewrite Hm, Ep, Es, Ew, Eh. cbn [negb default id].
    destruct (Z.ltb_spec (Z.of_nat (length sp)) (job_width job * job_height job)); [lia|].
    rewrite reference_bounds_clamp, take_ge by (done || lia). by rewrite Hd.
  - split; [done|]. intros x y Hxy. rewrite (pt_in _ _ _ _ _ Hp x y Hxy).
    pose proof (proj1 (in_frame_spec _ _ _) Hxy) as [Hx Hy].
    specialize (Hpx x y Hx Hy). unfold at_px in Hpx. rewrite Hpx, (Ha x y Hxy). cbn.
    unfold threshold_image, thr_px. done.
Qed.

Definition ex_image : vpipe_pgm_image := PgmImage 3 2 (Some [10; 200; 30; 128; 127; 255]) 6.

Lemma ex_loaded : loaded ex_job ex_mem ex_image [10; 200; 30; 128; 127; 255].
Proof.
  split; try reflexivity. intros x y [Hx Hy]%in_frame_spec. cbn in Hx, Hy.
  assert (x = 0 \/ x = 1 \/ x = 2) as Hx3 by lia. assert (y = 0 \/ y = 1) as Hy2 by lia.
  destruct Hx3 as [-> | [-> | ->]], Hy2 as [-> | ->]; reflexivity.
Defined.

Lemma reference_matches_kernel_witness :
  exists m' res dp,
    vpipe_cv_process ex_job VPIPE_ALGO_THRESHOLD 127 (Some (Roi 1 (-3) 9 9)) ex_mem
      = Some (m', res, 0) /\
    vpipe_threshold_reference ex_image 127 1 (-3) 9 9 (UWorld (MemFs ∅ ∅) 0 0 0)
      = Some ((0, PgmImage 3 2 (Some dp) 6), UWorld (MemFs ∅ ∅) 1 1 0) /\
    load m' (dst_at ex_job 2 1) = dp !! 5%nat /\ dp = [10; 255; 0; 128; 0; 255].
Proof.
  assert (Hr : roi_s32 (Roi 1 (-3) 9 9)) by (split; cbn; unfold in_s32; lia).
  destruct (@reference_matches_kernel mem_posix ex_job ex_mem 127 (Roi 1 (-3) 9 9) ex_image
    [10; 200; 30; 128; 127; 255] (MemFs ∅ ∅) 0 0 0 ex_job_wf Hr ex_loaded eq_refl)
    as (m' & res & dp & H1 & H2 & _ & H3).
  exists m', res, dp. split; [exact H1|]. split; [exact H2|]. split; [exact (H3 2 1 eq_refl)|].
  assert (E : fst <$> @vpipe_threshold_reference mem_posix ex_image 127 1 (-3) 9 9
      (UWorld (MemFs ∅ ∅) 0 0 0)
    = Some (0, PgmImage 3 2 (Some [10; 255; 0; 128; 0; 255]) 6)) by (vm_compute; reflexivity).
  cbn [left top width height] in H2. rewrite H2 in E. cbn in E. congruence.
Defined.
