(* ===== verification/Wp.v ===== *)
(** * A program logic for the user-space programs

    Total-correctness weakest preconditions of the state-and-fault monad: a
    computation satisfies [wp c Q s] when from [s] it returns, without a fault,
    a value and a state in [Q]. The rules for sequencing, consequence and the
    counted loop with an early exit, and the tactic that applies them. *)

From S2P Require Import Prelude.

Section Wp.
Context {S : Type}.

Definition wp {A} (c : F S A) (Q : A -> S -> Prop) (s : S) : Prop :=
  match c s with Some (a, s') => Q a s' | None => False end.

Lemma wp_run {A} (c : F S A) Q s : wp c Q s <-> exists a s', c s = Some (a, s') /\ Q a s'.
Proof.
  unfold wp. destruct (c s) as [[a s']|]; split.
  - eauto.
  - by intros (? & ? & [= <- <-] & ?).
  - done.
  - by intros (? & ? & ? & ?).
Qed.

Lemma wp_ret {A} (a : A) (Q : A -> S -> Prop) s : Q a s -> wp (fret a) Q s.
Proof. done. Qed.

Lemma wp_bind {A B} (c : F S A) (k : A -> F S B) Q s :
  wp c (fun a => wp (k a) Q) s -> wp (fbind c k) Q s.
Proof. unfold wp, fbind. by destruct (c s) as [[a s']|]. Qed.

Lemma wp_mono {A} (c : F S A) (P Q : A -> S -> Prop) s :
  wp c P s -> (forall a s', P a s' -> Q a s') -> wp c Q s.
Proof. unfold wp. destruct (c s) as [[a s']|]; auto. Qed.

Lemma wp_eq {A} (c c' : F S A) (Q : A -> S -> Prop) s : c s = c' s -> wp c' Q s -> wp c Q s.
Proof. unfold wp. by intros ->. Qed.

(** Runs are deterministic, so what is shown separately holds together. *)
Lemma wp_conj {A} (c : F S A) (P Q : A -> S -> Prop) s :
  wp c P s -> wp c Q s -> wp c (fun a s' => P a s' /\ Q a s') s.
Proof. unfold wp. by destruct (c s) as [[a s']|]. Qed.

(** A known run. *)
Lemma wp_of {A} (c : F S A) Q s a s' : c s = Some (a, s') -> Q a s' -> wp c Q s.
Proof. unfold wp. by intros ->. Qed.
End Wp.

#[export] Instance wp_proper {S A} (c : F S A) :
  Proper (pointwise_relation A (pointwise_relation S impl) ==> pointwise_relation S impl) (wp c).
Proof. intros P Q HPQ s H. eapply wp_mono; [exact H|]. intros a s'. apply HPQ. Qed.

(** ** The counted loop

    [for (i = lo; n more turns; i++)] whose body may leave it: the body answers
    whether to go on, with the loop's variables. *)
Section Loop.
Context {S V : Type}.

Fixpoint floop (n : nat) (i : Z) (body : Z -> V -> F S (bool * V)) (v : V) : F S (bool * V) :=
  match n with
  | O => fret (true, v)
  | Datatypes.S n' =>
      (r <- body i v;;
      if fst r then floop n' (i + 1) body (snd r) else fret (false, snd r))
  end.

(** The loop terminates whatever the body does, so its rule is total: an
    invariant for the turns that go on, a postcondition for the early exit. *)
Lemma wp_floop (I : Z -> V -> S -> Prop) (E : V -> S -> Prop) (n : nat) i body v s :
  I i v s ->
  (forall j v s, i <= j < i + Z.of_nat n -> I j v s ->
     wp (body j v) (fun r s' => if fst r : bool then I (j + 1) (snd r) s' else E (snd r) s') s) ->
  wp (floop n i body v)
     (fun r s' => if fst r : bool then I (i + Z.of_nat n) (snd r) s' else E (snd r) s') s.
Proof.
  revert i v s. induction n as [|n IH]; intros i v s HI Hbody.
  - cbn. by rewrite Z.add_0_r.
  - cbn [floop]. apply wp_bind. eapply wp_mono; [apply Hbody; [lia|done]|].
    intros [[] v'] s'; cbn; intros H; [|done].
    eapply wp_mono; [apply IH; [exact H|]|].
    + intros j u t Hj. apply Hbody. lia.
    + intros [[] u] t; cbn; [|done]. by replace (i + 1 + Z.of_nat n) with (i + Z.of_nat (Datatypes.S n)) by lia.
Qed.
End Loop.

(** ** Running a part of the state *)

Section Zoom.
Context {S T : Type} (get : T -> S) (put : S -> T -> T).

Definition zoom {A} (c : F S A) : F T A :=
  fun t => match c (get t) with Some (a, s) => Some (a, put s t) | None => None end.

Lemma wp_zoom {A} (c : F S A) Q t : wp c (fun a s => Q a (put s t)) (get t) -> wp (zoom c) Q t.
Proof. unfold wp, zoom. by destruct (c (get t)) as [[a s]|]. Qed.
End Zoom.

(** Takes the computation apart down to its primitive operations. *)
Ltac wstep :=
  lazymatch goal with
  | |- wp (fbind _ _) _ _ => apply wp_bind
  | |- wp (fret _) _ _ => apply wp_ret; cbn [fst snd]
  | |- wp (if ?b then _ else _) _ _ => let E := fresh "E" in destruct b eqn:E
  | |- wp (let '(_, _) := ?p in _) _ _ => let E := fresh "E" in destruct p eqn:E
  end.
