(* ===== verification/UnitTest.v ===== *)
(** * The unit tests: [user/vpipe-unit-test.c]

    The test program of the user-space helpers, run over the models of the
    functions it calls. The file system adds to [Posix] what only the tests
    use: [mkdtemp], [stat] asked for a directory, and [system]. *)

From S2P Require Import Prelude Types Crc32 Pgm Reference Wp.

Class TestPosix `{Posix} := {
  mkdtemp : list Z -> fs -> option (list Z * fs);
  is_dir : list Z -> fs -> bool;
  system : list Z -> fs -> Z * fs
}.

Module UnitTest.

(** The process: files and heap, the CRC table, and [g_failures]. *)
Record tworld `{Posix} := TWorld { tu : uworld; tcrc : crc_state; g_failures : Z }.
Arguments TWorld {_} _ _ _.

Section UnitTest.
Context `{TestPosix}.

Definition ulib {A} : F uworld A -> F tworld A := zoom tu (fun u w => TWorld u (tcrc w) (g_failures w)).

(** [EXPECT(cond)]. *)
Definition EXPECT (cond : bool) : F tworld unit :=
  if negb cond then fmodify (fun w => TWorld (tu w) (tcrc w) (u32 (g_failures w + 1))) else fret tt.

Definition crc32_of (s : string) (len : Z) : F tworld Z :=
  fun w => match vpipe_crc32 (lit s) len (tcrc w) with
           | Some (c, st) => Some (c, TWorld (tu w) st (g_failures w))
           | None => None
           end.

(** [snprintf(path, sizeof(path), "%s<suffix>", root)]. *)
Definition sub_path (root : list Z) (suffix : string) : list Z := take 255 (root ++ lit suffix).

(** [stat(path, &st) == 0 && S_ISDIR(st.st_mode)]. *)
Definition stat_isdir (path : list Z) : F tworld bool := fun w => Some (is_dir path (ufs (tu w)), w).

(** [p[i]] through a pointer that may be null. *)
Definition px (img : vpipe_pgm_image) (i : Z) : F tworld Z :=
  flift (default [] (pixels img) !! Z.to_nat i).

Definition test_crc32 : F tworld unit :=
  (c <- crc32_of "" 0;; EXPECT (c =? 0);;
  c <- crc32_of "a" 1;; EXPECT (c =? 0xe8b7be43);;
  c <- crc32_of "123456789" 9;; EXPECT (c =? 0xcbf43926);;
  c <- crc32_of "The quick brown fox jumps over the lazy dog" 43;; EXPECT (c =? 0x414fa339)).

Definition test_ensure_parent_dir (root : list Z) : F tworld unit :=
  (r <- ulib (vpipe_ensure_parent_dir (sub_path root "/a/b/c/file.txt"));; EXPECT (r =? 0);;
  d <- stat_isdir (sub_path root "/a/b/c");; EXPECT d;;
  r <- ulib (vpipe_ensure_parent_dir (sub_path root "/a/b/c/file.txt"));; EXPECT (r =? 0);;
  r <- ulib (vpipe_ensure_parent_dir (lit "file.txt"));; EXPECT (r =? 0)).

(** [img.pixels && memcmp(img.pixels, pixels, 16) == 0]. *)
Definition same_pixels (img : vpipe_pgm_image) (data : list Z) : F tworld bool :=
  match pixels img with
  | None => fret false
  | Some p => if Z.of_nat (length p) <? 16 then ffail
              else fret (bool_decide (take 16 p = take 16 data))
  end.

Definition round_pixels : list Z := (fun i => u8 (i * 17)) <$> seqZ 0 16.

Definition test_pgm_roundtrip (root : list Z) : F tworld unit :=
  (let path := sub_path root "/round.pgm" in
  r <- ulib (vpipe_write_pgm path (Some round_pixels) 4 4);; EXPECT (r =? 0);;
  r <- ulib (vpipe_read_pgm path);; EXPECT (fst r =? 0);;
  let img := snd r in
  EXPECT (i_width img =? 4);; EXPECT (i_height img =? 4);; EXPECT (i_size img =? 16);;
  b <- same_pixels img round_pixels;; EXPECT b;;
  ulib (vpipe_free_pgm img);; fret tt).

(** A file with a header whose dimensions the reader must refuse. *)
Definition rejects (path header : list Z) : F tworld unit :=
  (fp <- ulib (fopen_wb path);; EXPECT fp;;
  if fp
  then
    (ulib (fwrite path header);;
    ulib fclose;;
    r <- ulib (vpipe_read_pgm path);; EXPECT (fst r <? 0))
  else fret tt).

Definition zero_header : list Z := lit "P5" ++ [10] ++ lit "0 0" ++ [10] ++ lit "255" ++ [10].
Definition huge_header : list Z := lit "P5" ++ [10] ++ lit "100000 100000" ++ [10] ++ lit "255" ++ [10].

Definition test_pgm_rejects_bad_dims (root : list Z) : F tworld unit :=
  (rejects (sub_path root "/zero.pgm") zero_header;;
  rejects (sub_path root "/huge.pgm") huge_header).

(** [EXPECT(dst.pixels[i] == v)] for consecutive [i]. *)
Fixpoint expect_pixels (img : vpipe_pgm_image) (i : Z) (expected : list Z) : F tworld unit :=
  match expected with
  | [] => fret tt
  | v :: rest => (x <- px img i;; EXPECT (x =? v);; expect_pixels img (i + 1) rest)
  end.

(** The common text of the four threshold tests. *)
Definition threshold_test (width height : Z) (data : list Z) (threshold left top roi_w roi_h : Z)
    (expected : list Z) : F tworld unit :=
  (let src := PgmImage width height (Some data) (width * height) in
  r <- ulib (vpipe_threshold_reference src threshold left top roi_w roi_h);; EXPECT (fst r =? 0);;
  expect_pixels (snd r) 0 expected;;
  ulib (vpipe_free_pgm (snd r));; fret tt).

Definition test_threshold_full : F tworld unit :=
  threshold_test 3 3 [0; 50; 100; 127; 128; 200; 255; 10; 250] 127 0 0 3 3
    [0; 0; 0; 0; 255; 255; 255; 0; 255].
Definition test_threshold_roi_subset : F tworld unit :=
  threshold_test 3 3 [200; 200; 200; 200; 200; 200; 200; 200; 200] 100 1 0 1 3
    [200; 255; 200; 200; 255; 200; 200; 255; 200].
Definition test_threshold_roi_clamp : F tworld unit :=
  threshold_test 2 2 [10; 200; 200; 10] 100 (-5) (-5) 1000 1000 [0; 255; 255; 0].
Definition test_threshold_invalid_roi : F tworld unit :=
  threshold_test 2 2 [10; 200; 200; 10] 100 0 0 0 0 [0; 255; 255; 0].

Definition do_mkdtemp (tmpl : list Z) : F uworld (option (list Z)) :=
  fun w => match mkdtemp tmpl (ufs w) with
           | Some (root, f) => Some (Some root, UWorld f (ucalls w) (ulive w) (uopen w))
           | None => Some (None, w)
           end.
Definition do_system (cmd : list Z) : F uworld Z :=
  fun w => let '(r, f) := system cmd (ufs w) in Some (r, UWorld f (ucalls w) (ulive w) (uopen w)).

Definition template : list Z := lit "/tmp/vpipe-unit-test.XXXXXX".

(** The exit status; a failed clean-up is only warned about. *)
Definition main : F tworld Z :=
  (root <- ulib (do_mkdtemp template);;
  match root with
  | None => fret 1
  | Some root =>
      (test_crc32;;
      test_ensure_parent_dir root;;
      test_pgm_roundtrip root;;
      test_pgm_rejects_bad_dims root;;
      test_threshold_full;;
      test_threshold_roi_subset;;
      test_threshold_roi_clamp;;
      test_threshold_invalid_roi;;
      ulib (do_system (take 255 (lit "rm -rf '" ++ root ++ lit "'")));;
      n <- (fun w => Some (g_failures w, w));;
      fret (if ztrue n then 1 else 0))
  end).
End UnitTest.

(** ** The tests pass *)

(** A file system with room: memory is there, directories can be made (and are
    directories then), files open and take every byte. *)
Record roomy `{TestPosix} : Prop := {
  ro_mem : forall k n, malloc_ok k n = true;
  ro_mkdir : forall p f, fst (mkdir p f) = 0 \/ fst (mkdir p f) = EEXIST;
  ro_dir : forall p f, is_dir p (snd (mkdir p f)) = true;
  ro_open : forall p f, is_Some (fopen_write p f);
  ro_disk : forall p d f, fst (fappend p d f) = Z.of_nat (length d)
}.

Section Proofs.
Context `{TestPosix} `{!PosixLaws} (Hroomy : roomy).

(** No failure so far, [v] heap blocks and [o] streams in use. *)
Definition passing (v o : Z) (w : tworld) : Prop :=
  exists f k st, w = TWorld (UWorld f k v o) st 0 /\ table_ok st.

Lemma wp_ulib {A} (c : F uworld A) (Q : A -> tworld -> Prop) u st n a u' :
  c u = Some (a, u') -> Q a (TWorld u' st n) -> wp (ulib c) Q (TWorld u st n).
Proof. intros E HQ. apply wp_zoom. by eapply wp_of. Qed.

Lemma wp_expect b (Q : unit -> tworld -> Prop) w : b = true -> Q tt w -> wp (EXPECT b) Q w.
Proof. by intros ->. Qed.

Lemma wp_crc32_of s len c (Q : Z -> tworld -> Prop) u st n :
  table_ok st -> Forall in_u8 (lit s) -> 0 <= len <= Z.of_nat (length (lit s)) ->
  crc_ref (take (Z.to_nat len) (lit s)) = c ->
  (forall st', table_ok st' -> Q c (TWorld u st' n)) -> wp (crc32_of s len) Q (TWorld u st n).
Proof.
  intros Hst Hb Hl <- HQ. eapply wp_of; [unfold crc32_of; cbn [tcrc]; by rewrite crc32_ok|].
  apply HQ, table_ok_ready.
Qed.

Lemma test_crc32_ok v o w : passing v o w -> wp test_crc32 (fun _ => passing v o) w.
Proof.
  intros (f & k & st & -> & Hst). unfold test_crc32.
  do 3 (apply wp_bind; eapply wp_crc32_of;
    [done|repeat constructor; done|cbn; lia|vm_compute; reflexivity|];
    clear st Hst; intros st Hst; apply wp_bind, wp_expect; [done|]).
  apply wp_bind; eapply wp_crc32_of; [done|repeat constructor; done|cbn; lia|vm_compute; reflexivity|].
  intros st' Hst'. apply wp_expect; [done|]. by exists f, k, st'.
Qed.

Lemma mkdir_all_roomy ps f : fst (mkdir_all ps f) = true.
Proof.
  revert f. induction ps as [|p ps IH]; intros f; [done|]. cbn. pose proof (ro_mkdir Hroomy p f) as Hm.
  destruct (mkdir p f) as [e f']. cbn in Hm. destruct (ztrue e && _) eqn:E; [unfold ztrue in E; lia|apply IH].
Qed.

Lemma ensure_parent_roomy path f k v o :
  vpipe_ensure_parent_dir path (UWorld f k v o) =
    Some (0, UWorld (snd (mkdir_all (parent_dirs path) f)) (k + 1) v o).
Proof.
  rewrite ensure_parent_run, (ro_mem Hroomy). pose proof (mkdir_all_roomy (parent_dirs path) f) as Hm.
  destruct (mkdir_all _ f) as [ok f']. cbn in *. by subst ok.
Qed.

Lemma writable_roomy path f k : writable path f k.
Proof.
  split; [apply (ro_mem Hroomy)|apply mkdir_all_roomy|intros; apply (ro_open Hroomy)|intros; apply (ro_disk Hroomy)].
Qed.

Lemma strrchr_snoc a b : Forall (fun c => c <> 47) b -> strrchr_slash (a ++ 47 :: b) = Some (length a).
Proof.
  intros Hb. induction a as [|c a IH]; cbn [app strrchr_slash length]; [|by rewrite IH].
  assert (strrchr_slash b = None) as ->; [|done]. induction Hb as [|c b Hc Hb IH]; [done|].
  cbn. rewrite IH. by destruct (Z.eqb_spec c 47).
Qed.

(** The last directory made is the one asked about. *)
Lemma mkdirs_last d b f :
  d <> [] -> Forall (fun c => c <> 47) b ->
  is_dir d (snd (mkdir_all (parent_dirs (d ++ 47 :: b)) f)) = true.
Proof.
  intros Hd Hb. unfold parent_dirs. rewrite strrchr_snoc by done.
  rewrite take_app_length. destruct d as [|c d]; [done|]. rewrite mkdir_all_app.
  pose proof (mkdir_all_roomy (inner_dirs (take 1 (c :: d)) (drop 1 (c :: d))) f) as Hm.
  destruct (mkdir_all (inner_dirs _ _) f) as [ok f1]. cbn in Hm. subst ok. cbn [mkdir_all].
  pose proof (ro_mkdir Hroomy (c :: d) f1) as He. pose proof (ro_dir Hroomy (c :: d) f1) as Hi.
  destruct (mkdir (c :: d) f1) as [e f2]. cbn [fst snd] in *. by destruct (ztrue e && _).
Qed.

Lemma sub_path_whole root suffix :
  length root = 27%nat -> (length (lit suffix) <= 228)%nat -> sub_path root suffix = root ++ lit suffix.
Proof. intros Hr Hs. unfold sub_path. apply take_ge. rewrite length_app. lia. Qed.

Lemma test_ensure_parent_dir_ok root v o w :
  length root = 27%nat -> passing v o w -> wp (test_ensure_parent_dir root) (fun _ => passing v o) w.
Proof.
  intros Hr (f & k & st & -> & Hst). unfold test_ensure_parent_dir.
  assert (E : sub_path root "/a/b/c/file.txt" = sub_path root "/a/b/c" ++ 47 :: lit "file.txt").
  { rewrite !sub_path_whole by (done || cbn; lia). by rewrite <- app_assoc. }
  rewrite E. set (d := sub_path root "/a/b/c").
  assert (Hd : d <> []) by (unfold d; rewrite sub_path_whole by (done || cbn; lia); by destruct root).
  assert (Hb : Forall (fun c => c <> 47) (lit "file.txt")) by (repeat constructor; done).
  apply wp_bind. eapply wp_ulib; [apply ensure_parent_roomy|]. apply wp_bind, wp_expect; [done|].
  apply wp_bind. eapply wp_of; [reflexivity|]. apply wp_bind, wp_expect; [by apply mkdirs_last|].
  do 2 (apply wp_bind; eapply wp_ulib; [apply ensure_parent_roomy|]; try apply wp_bind; apply wp_expect; [done|]).
  by eexists _, _, _.
Qed.

Lemma test_pgm_roundtrip_ok root v o w :
  passing v o w -> wp (test_pgm_roundtrip root) (fun _ => passing v o) w.
Proof.
  intros (f & k & st & -> & Hst). unfold test_pgm_roundtrip. set (path := sub_path root "/round.pgm").
  destruct (write_pgm_ok path round_pixels 4 4 f k v o) as (f1 & Ew & Ef);
    [apply writable_roomy|unfold VPIPE_PGM_MAX_DIM; lia..|vm_compute; done|].
  apply wp_bind. eapply wp_ulib; [exact Ew|]. apply wp_bind, wp_expect; [done|].
  apply wp_bind. eapply wp_ulib.
  { apply (read_pgm_ok path (take (Z.to_nat (4 * 4)) round_pixels) 4 4); [unfold VPIPE_PGM_MAX_DIM; lia..|exact Ef|apply (ro_mem Hroomy)|vm_compute; done]. }
  do 4 (apply wp_bind, wp_expect; [done|]). apply wp_bind, wp_ret, wp_bind, wp_expect; [by vm_compute|].
  apply wp_bind. eapply wp_ulib; [reflexivity|]. apply wp_ret. eexists _, _, _.
  split; [|exact Hst]. cbn. by replace (v + 1 - 1) with v by lia.
Qed.

(** A header with refused dimensions: nothing is allocated. *)
Lemma rejects_ok path header img v o w :
  (forall f k v o, fopen_read path f = Some header ->
     vpipe_read_pgm path (UWorld f k v o) = read_fail img (UWorld f k v (o + 1))) ->
  passing v o w -> wp (rejects path header) (fun _ => passing v o) w.
Proof.
  intros Hread (f & k & st & -> & Hst). unfold rejects. destruct (ro_open Hroomy path f) as [f1 E1].
  apply wp_bind. eapply wp_ulib; [unfold fopen_wb; cbn [ufs ucalls ulive uopen]; by rewrite E1|].
  apply wp_bind, wp_expect; [done|]. pose proof (ro_disk Hroomy path header f1) as Hn.
  destruct (fappend path header f1) as [n f2] eqn:E2. cbn in Hn. subst n.
  assert (Hf : fopen_read path f2 = Some header) by (by apply (append_all path header f1 [] f2), E2; eapply write_truncates).
  apply wp_bind. eapply wp_ulib; [unfold fwrite; cbn [ufs ucalls ulive uopen]; by rewrite E2|].
  apply wp_bind. eapply wp_ulib; [reflexivity|]. apply wp_bind. eapply wp_ulib; [by rewrite Hread|].
  apply wp_expect; [done|]. eexists _, _, _. split; [|exact Hst]. cbn. by replace (o + 1 - 1 + 1 - 1) with o by lia.
Qed.

Lemma test_rejects_ok root v o w :
  passing v o w -> wp (test_pgm_rejects_bad_dims root) (fun _ => passing v o) w.
Proof.
  intros Hw. unfold test_pgm_rejects_bad_dims. apply wp_bind.
  eapply wp_mono; [eapply (rejects_ok _ zero_header (PgmImage 0 0 None 0)); [|exact Hw]|].
  { intros f k v' o' E. unfold vpipe_read_pgm, fbind at 1, fopen_rb. cbn [ufs ucalls ulive uopen]. rewrite E. reflexivity. }
  intros [] w1 Hw1. apply (rejects_ok _ huge_header (PgmImage 100000 100000 None 0)); [|exact Hw1].
  intros f k v' o' E. unfold vpipe_read_pgm, fbind at 1, fopen_rb. cbn [ufs ucalls ulive uopen]. rewrite E. reflexivity.
Qed.

Lemma expect_pixels_ok img l i expected (Q : unit -> tworld -> Prop) w :
  pixels img = Some l -> 0 <= i -> drop (Z.to_nat i) l = expected -> Q tt w -> wp (expect_pixels img i expected) Q w.
Proof.
  intros Hl. revert i. induction expected as [|x rest IH]; intros i Hi Hd HQ; [by apply wp_ret|].
  assert (Hx : l !! Z.to_nat i = Some x) by (by rewrite <- (Nat.add_0_r (Z.to_nat i)), <- lookup_drop, Hd).
  cbn [expect_pixels]. apply wp_bind. eapply wp_of; [unfold px, flift; by rewrite Hl; cbn; rewrite Hx|].
  apply wp_bind, wp_expect; [lia|]. apply IH; [lia| |done].
  rewrite Z2Nat.inj_add by lia. rewrite <- drop_drop, Hd. done.
Qed.

Lemma threshold_test_ok width height data threshold left top rw rh expected v o w :
  Z.of_nat (length data) = width * height ->
  reference_loops width threshold data (reference_bounds width height left top rw rh) data = Some expected ->
  passing v o w -> wp (threshold_test width height data threshold left top rw rh expected) (fun _ => passing v o) w.
Proof.
  intros Hlen Hrun (f & k & st & -> & Hst). unfold threshold_test. apply wp_bind. eapply wp_ulib.
  { unfold vpipe_threshold_reference, fbind, malloc. cbn [ufs ucalls ulive uopen i_size i_width i_height pixels].
    change (default [] (Some data)) with data.
    rewrite (ro_mem Hroomy). cbn [negb]. rewrite <- Hlen, Z.ltb_irrefl, Nat2Z.id, firstn_all, Hrun. reflexivity. }
  apply wp_bind, wp_expect; [done|]. apply wp_bind. eapply (expect_pixels_ok _ expected); [done|lia|done|].
  apply wp_bind. eapply wp_ulib; [reflexivity|]. apply wp_ret. eexists _, _, _. split; [|exact Hst].
  cbn. by replace (v + 1 - 1) with v by lia.
Qed.

(** A test that keeps the process passing, and the rest. *)
Lemma wp_test (c : F tworld unit) {B} (k : F tworld B) v o (Q : B -> tworld -> Prop) w :
  (forall w, passing v o w -> wp c (fun _ => passing v o) w) -> passing v o w ->
  (forall w, passing v o w -> wp k Q w) -> wp (fbind c (fun _ => k)) Q w.
Proof. intros Hc Hw Hk. apply wp_bind. eapply wp_mono; [by apply Hc|]. intros [] w' Hw'. by apply Hk. Qed.
End Proofs.

(** ** The theorem *)


(** The file system in memory; the command is not run. *)
Definition temp_root : list Z := lit "/tmp/vpipe-unit-test.a1B2c3".
#[local] Instance mem_test : TestPosix := {
  mkdtemp _ f := Some (temp_root, MemFs ({[temp_root]} ∪ mdirs f) (mfiles f));
  is_dir p f := bool_decide (p ∈ mdirs f);
  system _ f := (0, f)
}.

Lemma mem_roomy : roomy.
Proof.
  split; [done| | |cbn; eauto|done]; intros p f; cbn; destruct (bool_decide (p ∈ mdirs f)) eqn:E; auto; cbn.
  apply bool_decide_eq_true_2. set_solver.
Qed.

End UnitTest.
