(* ===== verification/Client.v ===== *)
(** * Talking to V4L2 devices: [user/vpipe-common.c], lines 26-44 and 63-162

    The retrying ioctl, format negotiation and the request, mapping, queueing
    and unmapping of MMAP buffers, over devices that are a parameter, and the
    small wrappers several programs define for themselves. The theorem:
    whichever step fails, [vpipe_unmap_buffers] gives back exactly the mappings
    [vpipe_request_mmap_buffers] made. *)

From S2P Require Import Prelude Types M2m Wp.


(** ** Devices and the process *)

(** [struct v4l2_buffer] as a program fills it in for [VIDIOC_QBUF]; [q_m] is
    the union [m] (offset, descriptor or user pointer). *)
Record qbuf_arg := Qbuf {
  q_type : buf_type; q_memory : Z; q_index : Z; q_m : Z; q_bytesused : Z; q_length : Z
}.

Inductive request :=
| S_FMT (t : buf_type) (width height pixelformat field : Z)
| G_FMT (t : buf_type)
| REQBUFS (t : buf_type) (count memory : Z)
| QUERYBUF (t : buf_type) (index memory : Z)
| QBUF (b : qbuf_arg)
| DQBUF (t : buf_type) (memory : Z)
| EXPBUF (t : buf_type) (index : Z)
| STREAMON (t : buf_type)
| STREAMOFF (t : buf_type)
| S_CTRL (id value : Z)
| SET_BACKEND (id : Z)
| EXPORT_SRC_DMABUF
| DMA_HEAP_ALLOC (len : Z).

(** What an ioctl returns, and the fields the programs read of its argument
    afterwards; [a_m] is the union [m] or the descriptor written back. *)
Record answer := Answer {
  a_ret : Z; a_errno : Z;
  a_sizeimage : Z; a_bytesperline : Z; a_count : Z;
  a_index : Z; a_length : Z; a_m : Z; a_bytesused : Z; a_sequence : Z;
  a_sec : Z; a_usec : Z
}.

(** The requests whose success installs a descriptor in the process. *)
Definition makes_fd (r : request) : bool :=
  match r with EXPBUF _ _ | EXPORT_SRC_DMABUF | DMA_HEAP_ALLOC _ => true | _ => false end.

(** The ioctl was interrupted by a signal. *)
Definition interrupted (a : answer) : bool := (a_ret a <? 0) && (a_errno a =? EINTR).

(** The kernel a program runs on: the ioctls and reads of its devices, the
    memory behind a mapping ([byte_at], [poke]), which [open] and [mmap] calls
    succeed, the readings of the monotonic clock (seconds
    and nanoseconds), the minor faults of the
    process, and a bound on how often in a row a signal interrupts an ioctl. *)
Class V4l2 := {
  dev : Type;
  ioctl : Z -> request -> dev -> answer * dev;
  read_dev : Z -> Z -> dev -> (Z * list Z) * dev;
  read_entry : Z -> dev -> (Z * vpipe_meta_entry) * dev;
  byte_at : dev -> Z -> Z -> Z;
  poke : Z -> list Z -> dev -> dev;
  open_ok : list Z -> nat -> bool;
  mmap_ok : nat -> Z -> Z -> Z -> bool;
  now : nat -> Z * Z;
  minflt : nat -> Z;
  eintr_max : nat
}.

Fixpoint after_attempts `{V4l2} (n : nat) (fd : Z) (r : request) (d : dev) : dev :=
  match n with O => d | S n' => after_attempts n' fd r (snd (ioctl fd r d)) end.

(** The answers an ioctl that is retried while interrupted comes back with. *)
Inductive answers `{V4l2} (fd : Z) (r : request) : dev -> answer -> dev -> Prop :=
| answers_now d a d' : ioctl fd r d = (a, d') -> interrupted a = false -> answers fd r d a d'
| answers_retry d a0 d1 a d' :
    ioctl fd r d = (a0, d1) -> interrupted a0 = true -> answers fd r d1 a d' -> answers fd r d a d'.

(** Signals do not interrupt an ioctl forever. *)
Class V4l2Laws `{V4l2} := {
  eintr_bounded fd r d :
    exists n, (n <= eintr_max)%nat /\
      interrupted (fst (ioctl fd r (after_attempts n fd r d))) = false
}.

(** The V4L2 buffer interface: [bufs_of d fd t] are the lengths of the buffers
    allocated on a queue. REQBUFS replaces them, never by more than were asked
    for (two or more); QUERYBUF tells their lengths; DQBUF answers with one of
    them, filled at most to its length; QBUF refuses any other index; nothing
    else changes them. *)
Definition is_reqbufs (r : request) : bool := match r with REQBUFS _ _ _ => true | _ => false end.

Class BufferLaws `{V4l2} := {
  bufs_of : dev -> Z -> buf_type -> list Z;
  bufs_unsigned d fd t : Forall (Z.le 0) (bufs_of d fd t);
  reqbufs_grants fd t c m d a d' :
    ioctl fd (REQBUFS t c m) d = (a, d') -> 0 <= a_ret a ->
    Z.of_nat (length (bufs_of d' fd t)) = a_count a /\ (2 <= c -> a_count a <= c);
  reqbufs_other fd t c m d a d' :
    ioctl fd (REQBUFS t c m) d = (a, d') ->
    forall fd' t', (fd', t') <> (fd, t) \/ a_ret a < 0 -> bufs_of d' fd' t' = bufs_of d fd' t';
  querybuf_length fd t i m d a d' :
    ioctl fd (QUERYBUF t i m) d = (a, d') -> 0 <= a_ret a ->
    bufs_of d fd t !! Z.to_nat i = Some (a_length a);
  dqbuf_index fd t m d a d' :
    ioctl fd (DQBUF t m) d = (a, d') -> 0 <= a_ret a ->
    0 <= a_index a /\ exists len, bufs_of d fd t !! Z.to_nat (a_index a) = Some len /\
      (m = 1 -> 0 <= a_bytesused a <= len);
  qbuf_index fd b d a d' :
    ioctl fd (QBUF b) d = (a, d') -> 0 <= a_ret a ->
    is_Some (bufs_of d fd (q_type b) !! Z.to_nat (q_index b));
  ioctl_keeps fd r d a d' :
    is_reqbufs r = false -> ioctl fd r d = (a, d') -> bufs_of d' = bufs_of d;
  poke_keeps x l d : bufs_of (poke x l d) = bufs_of d;
  read_keeps fd n d : bufs_of (snd (read_dev fd n d)) = bufs_of d;
  entry_keeps fd d : bufs_of (snd (read_entry fd d)) = bufs_of d
}.

(** The process: its devices, the next address and descriptor the kernel hands
    out, the live mappings with their lengths, the open descriptors, and the
    calls and clock readings made so far. *)
Record cproc `{V4l2} := CProc {
  cdev : dev; cnext : Z; cmaps : gmap Z Z; cfdn : Z; cfds : gset Z; ccalls : nat; cclock : nat
}.
Arguments CProc {_} _ _ _ _ _ _ _.

Definition MAP_FAILED : Z := -1.
Definition V4L2_MEMORY_MMAP : Z := 1.
Definition V4L2_MEMORY_USERPTR : Z := 2.
Definition V4L2_MEMORY_DMABUF : Z := 4.

Section Calls.
Context `{V4l2}.

Definition set_cdev (d : dev) (p : cproc) : cproc :=
  CProc d (cnext p) (cmaps p) (cfdn p) (cfds p) (ccalls p) (cclock p).

(** [a] with the installed descriptor in place of the device's number. *)
Definition with_m (m : Z) (a : answer) : answer :=
  Answer (a_ret a) (a_errno a) (a_sizeimage a) (a_bytesperline a) (a_count a) (a_index a)
    (a_length a) m (a_bytesused a) (a_sequence a) (a_sec a) (a_usec a).

Definition do_ioctl (fd : Z) (r : request) : F cproc answer :=
  fun p =>
    let '(a, d) := ioctl fd r (cdev p) in
    if makes_fd r && (0 <=? a_ret a) && (0 <=? a_m a)
    then Some (with_m (cfdn p) a,
               CProc d (cnext p) (cmaps p) (cfdn p + 1) ({[cfdn p]} ∪ cfds p) (ccalls p) (cclock p))
    else Some (a, set_cdev d p).

(** A descriptor not in use, or -1; none is handed out twice. *)
Definition open (path : list Z) : F cproc Z :=
  fun p =>
    if open_ok path (ccalls p)
    then Some (cfdn p, CProc (cdev p) (cnext p) (cmaps p) (cfdn p + 1) ({[cfdn p]} ∪ cfds p)
                         (S (ccalls p)) (cclock p))
    else Some (-1, CProc (cdev p) (cnext p) (cmaps p) (cfdn p) (cfds p) (S (ccalls p)) (cclock p)).

Definition close (fd : Z) : F cproc unit :=
  fun p => Some (tt, CProc (cdev p) (cnext p) (cmaps p) (cfdn p) (cfds p ∖ {[fd]}) (ccalls p)
                       (cclock p)).

Definition mmap (len fd off : Z) : F cproc Z :=
  fun p =>
    if mmap_ok (ccalls p) len fd off
    then Some (cnext p, CProc (cdev p) (cnext p + 1) (<[cnext p := len]> (cmaps p)) (cfdn p) (cfds p)
                          (S (ccalls p)) (cclock p))
    else Some (MAP_FAILED, CProc (cdev p) (cnext p) (cmaps p) (cfdn p) (cfds p) (S (ccalls p))
                             (cclock p)).

Definition munmap (addr : Z) : F cproc unit :=
  fun p => Some (tt, CProc (cdev p) (cnext p) (delete addr (cmaps p)) (cfdn p) (cfds p) (ccalls p)
                       (cclock p)).

(** Reading or writing through a pointer into a mapping; outside one it
    faults. *)
Definition load_bytes (addr n : Z) : F cproc (list Z) :=
  fun p =>
    match cmaps p !! addr with
    | Some len =>
        if (0 <=? n) && (n <=? len)
        then Some ((fun i => u8 (byte_at (cdev p) addr i)) <$> seqZ 0 n, p) else None
    | None => None
    end.
Definition store_bytes (addr : Z) (l : list Z) : F cproc unit :=
  fun p =>
    match cmaps p !! addr with
    | Some len =>
        if Z.of_nat (length l) <=? len then Some (tt, set_cdev (poke addr l (cdev p)) p) else None
    | None => None
    end.

(** The [k]-th reading in nanoseconds. *)
Definition reading (k : nat) : Z := let '(sec, nsec) := now k in u64 (u64 (sec * 1000000000) + nsec).

Definition vpipe_now_monotonic_ns : F cproc Z :=
  fun p => Some (reading (cclock p),
                 CProc (cdev p) (cnext p) (cmaps p) (cfdn p) (cfds p) (ccalls p) (S (cclock p))).

(** ** The code *)

(** [do ... while (ret < 0 && errno == EINTR)]. *)
Fixpoint xioctl_loop (fuel : nat) (fd : Z) (r : request) : F cproc answer :=
  match fuel with
  | O => ffail
  | S fuel' =>
      (a <- do_ioctl fd r;;
      if interrupted a then xioctl_loop fuel' fd r else fret a)
  end.
Definition vpipe_xioctl (fd : Z) (r : request) : F cproc answer := xioctl_loop (S eintr_max) fd r.

Definition vpipe_set_format (fd : Z) (t : buf_type) (width height pixelformat : Z) : F cproc Z :=
  (a <- vpipe_xioctl fd (S_FMT t width height pixelformat V4L2_FIELD_NONE);;
  if a_ret a <? 0 then fret (-1) else fret 0).

Definition vpipe_get_sizeimage (fd : Z) (t : buf_type) : F cproc Z :=
  (a <- vpipe_xioctl fd (G_FMT t);;
  if a_ret a <? 0 then fret 0 else fret (a_sizeimage a)).

Record vpipe_mmap_buffer := MmapBuf { addr : Z; b_length : Z; dmabuf_fd : Z }.

(** [buffers[i].f = v]; outside the caller's array it faults. *)
Definition set_buf (i : Z) (f : vpipe_mmap_buffer -> vpipe_mmap_buffer)
    (bufs : list vpipe_mmap_buffer) : F cproc (list vpipe_mmap_buffer) :=
  match bufs !! Z.to_nat i with
  | Some b => fret (<[Z.to_nat i := f b]> bufs)
  | None => ffail
  end.

(** The loop over the granted buffers, [n] of them left, from index [i]. *)
Fixpoint request_loop (n : nat) (i fd : Z) (t : buf_type) (bufs : list vpipe_mmap_buffer)
    : F cproc (Z * list vpipe_mmap_buffer) :=
  match n with
  | O => fret (0, bufs)
  | S n' =>
      (a <- vpipe_xioctl fd (QUERYBUF t i V4L2_MEMORY_MMAP);;
      if a_ret a <? 0 then fret (-1, bufs)
      else
        (bufs1 <- set_buf i (fun b => MmapBuf (addr b) (a_length a) (-1)) bufs;;
        m <- mmap (a_length a) fd (a_m a);;
        bufs2 <- set_buf i (fun b => MmapBuf m (b_length b) (dmabuf_fd b)) bufs1;;
        if m =? MAP_FAILED then fret (-1, bufs2)
        else request_loop n' (i + 1) fd t bufs2))
  end.

(** The result and the caller's array. *)
Definition vpipe_request_mmap_buffers (fd : Z) (t : buf_type) (count : Z)
    (bufs : list vpipe_mmap_buffer) : F cproc (Z * list vpipe_mmap_buffer) :=
  (a <- vpipe_xioctl fd (REQBUFS t count V4L2_MEMORY_MMAP);;
  if a_ret a <? 0 then fret (-1, bufs)
  else
    (r <- request_loop (Z.to_nat (a_count a)) 0 fd t bufs;;
    if fst r <? 0 then fret r else fret (s32 (a_count a), snd r))).

Definition vpipe_queue_mmap_buffer (fd : Z) (t : buf_type) (memory index dfd : Z) : F cproc Z :=
  (a <- vpipe_xioctl fd
          (QBUF (Qbuf t memory index (if memory =? V4L2_MEMORY_DMABUF then dfd else 0) 0 0));;
  fret (a_ret a)).

(** The body of the unmapping loop. *)
Definition unmap_one (b : vpipe_mmap_buffer) : F cproc unit :=
  ((if ztrue (addr b) && negb (addr b =? MAP_FAILED) then munmap (addr b) else fret tt);;
  if 0 <=? dmabuf_fd b then close (dmabuf_fd b) else fret tt).

Fixpoint unmap_loop (n : nat) (i : Z) (bufs : list vpipe_mmap_buffer) : F cproc unit :=
  match n with
  | O => fret tt
  | S n' =>
      match bufs !! Z.to_nat i with
      | None => ffail
      | Some b => (unmap_one b;; unmap_loop n' (i + 1) bufs)
      end
  end.
Definition vpipe_unmap_buffers (bufs : list vpipe_mmap_buffer) (count : Z) : F cproc unit :=
  unmap_loop (Z.to_nat count) 0 bufs.
End Calls.

(** ** What a process holds

    [held p0 p fds maps]: compared with [p0], the process [p] has exactly the
    descriptors [fds] and the mappings [maps] in addition; all of them are
    newer than [p0]. Entries that stand for "none" (a negative descriptor, a
    null or failed address) do not count. *)

Definition owns_fd (x : Z) (fds : list Z) : Prop := 0 <= x /\ x ∈ fds.
Definition owns_map (a : Z) (maps : list Z) : Prop := 0 < a /\ a ∈ maps.

Record held `{V4l2} (p0 p : cproc) (fds maps : list Z) : Prop := {
  h_fds : forall x, ~ owns_fd x fds -> (x ∈ cfds p <-> x ∈ cfds p0);
  h_newfd : forall x, owns_fd x fds -> cfdn p0 <= x < cfdn p;
  h_fdn : cfdn p0 <= cfdn p;
  h_maps : forall a, ~ owns_map a maps -> cmaps p !! a = cmaps p0 !! a;
  h_newmap : forall a, owns_map a maps -> cnext p0 <= a < cnext p;
  h_next : cnext p0 <= cnext p
}.

(** A process to start from. *)
Record proc_ok `{V4l2} (p : cproc) : Prop := {
  po_next : 0 < cnext p;
  po_fdn : 0 <= cfdn p;
  po_maps : forall a, is_Some (cmaps p !! a) -> 0 < a < cnext p;
  po_fds : forall x, x ∈ cfds p -> x < cfdn p
}.

Section Held.
Context `{V4l2}.
Implicit Types p : cproc.

Lemma held_refl p : held p p [] [].
Proof. split; try done; intros ? [_ ?%not_elem_of_nil]; done. Qed.

(** Holding depends only on what counts. *)
Lemma held_ext p0 p fds fds' maps maps' :
  held p0 p fds maps ->
  (forall x, 0 <= x -> (x ∈ fds' <-> x ∈ fds)) -> (forall a, 0 < a -> (a ∈ maps' <-> a ∈ maps)) ->
  held p0 p fds' maps'.
Proof.
  intros [H1 H2 H3 H4 H5 H6] Hf Hm.
  assert (Ef : forall x, owns_fd x fds' <-> owns_fd x fds)
    by (intros x; unfold owns_fd; split; intros [? ?]; split; try done; by apply Hf).
  assert (Em : forall a, owns_map a maps' <-> owns_map a maps)
    by (intros a; unfold owns_map; split; intros [? ?]; split; try done; by apply Hm).
  split; try done; intros x; rewrite ?Ef, ?Em; auto.
Qed.

(** Steps that do not touch the descriptors or mappings. *)
Lemma held_frame p0 p p' fds maps :
  held p0 p fds maps -> cfds p' = cfds p -> cfdn p' = cfdn p -> cmaps p' = cmaps p ->
  cnext p' = cnext p -> held p0 p' fds maps.
Proof. intros [] E1 E2 E3 E4. split; rewrite ?E1, ?E2, ?E3, ?E4; auto. Qed.

(** At the end nothing is held. *)
Lemma held_nil p0 p : held p0 p [] [] -> cfds p = cfds p0 /\ cmaps p = cmaps p0.
Proof.
  intros [H1 _ _ H4 _ _]. split.
  - apply set_eq. intros x. apply H1. by intros [_ ?%not_elem_of_nil].
  - apply map_eq. intros a. apply H4. by intros [_ ?%not_elem_of_nil].
Qed.

Lemma held_newfd p0 p fds maps d c k :
  held p0 p fds maps -> 0 <= cfdn p0 ->
  held p0 (CProc d (cnext p) (cmaps p) (cfdn p + 1) ({[cfdn p]} ∪ cfds p) c k) (cfdn p :: fds) maps.
Proof.
  intros [H1 H2 H3 H4 H5 H6] H0. split; cbn; try done; try lia.
  - intros x Hx. rewrite elem_of_union, elem_of_singleton, <- H1.
    + split; [|auto]. intros [->|]; [|done]. exfalso. apply Hx. split; [lia|set_solver].
    + intros [Hx0 Hx1]. apply Hx. split; [done|set_solver].
  - intros x [Hx0 [->|Hx]%elem_of_cons]; [lia|]. pose proof (H2 x (conj Hx0 Hx)). lia.
Qed.

Lemma held_newmap p0 p fds maps d len c k :
  held p0 p fds maps -> 0 < cnext p0 ->
  held p0 (CProc d (cnext p + 1) (<[cnext p := len]> (cmaps p)) (cfdn p) (cfds p) c k) fds
    (cnext p :: maps).
Proof.
  intros [H1 H2 H3 H4 H5 H6] H0. split; cbn; try done; try lia.
  - intros a Ha. rewrite lookup_insert_ne, H4; [done| |].
    + intros [Ha0 Ha1]. apply Ha. split; [done|set_solver].
    + intros <-. apply Ha. split; [lia|set_solver].
  - intros a [Ha0 [->|Ha]%elem_of_cons]; [lia|]. pose proof (H5 a (conj Ha0 Ha)). lia.
Qed.

Lemma held_close p0 p x fds maps :
  proc_ok p0 -> held p0 p (x :: fds) maps -> 0 <= x ->
  held p0 (CProc (cdev p) (cnext p) (cmaps p) (cfdn p) (cfds p ∖ {[x]}) (ccalls p) (cclock p)) fds maps.
Proof.
  intros [_ _ _ Hfd] [H1 H2 H3 H4 H5 H6] H0. split; cbn; try done.
  - intros y Hy. rewrite elem_of_difference, elem_of_singleton. destruct (decide (y = x)) as [->|Hne].
    + split; [tauto|]. intros Hx%Hfd. pose proof (H2 x). unfold owns_fd in *. set_solver by lia.
    + rewrite <- H1; [tauto|]. intros [? [->|?]%elem_of_cons]; [done|]. by apply Hy.
  - intros y [Hy0 Hy]. apply H2. split; [done|set_solver].
Qed.

Lemma held_drop_map p0 p a fds maps :
  held p0 p fds (a :: maps) -> a <= 0 -> held p0 p fds maps.
Proof.
  intros Hh Ha. eapply held_ext; [exact Hh|done|]. intros b Hb. rewrite elem_of_cons.
  split; [auto|]. intros [->|]; [lia|done].
Qed.

Lemma held_munmap p0 p a fds maps :
  proc_ok p0 -> held p0 p fds (a :: maps) ->
  held p0 (CProc (cdev p) (cnext p) (delete a (cmaps p)) (cfdn p) (cfds p) (ccalls p) (cclock p)) fds maps.
Proof.
  intros [_ _ Hm _] Hh. pose proof Hh as [H1 H2 H3 H4 H5 H6].
  assert (Hnone : cmaps p0 !! a = None).
  { destruct (cmaps p0 !! a) as [l|] eqn:E; [|done]. pose proof (Hm a ltac:(eauto)).
    pose proof (H5 a). unfold owns_map in *. set_solver by lia. }
  split; cbn; try done.
  - intros b Hb. destruct (decide (b = a)) as [->|Hne]; [by rewrite lookup_delete_eq|].
    rewrite lookup_delete_ne by done. apply H4. intros [? [->|?]%elem_of_cons]; [done|]. by apply Hb.
  - intros b [Hb0 Hb]. apply H5. split; [done|set_solver].
Qed.
End Held.

(** ** Ioctls *)

Section Ioctls.
Context `{V4l2Laws}.

Lemma answers_done fd r d a d' : answers fd r d a d' -> interrupted a = false.
Proof. by induction 1. Qed.

(** The process after an answer: a new descriptor, or just the device. *)
Definition installs (r : request) (a : answer) : bool :=
  makes_fd r && (0 <=? a_ret a) && (0 <=? a_m a).

Lemma xioctl_loop_wp n fuel fd r (Q : answer -> cproc -> Prop) p :
  (n < fuel)%nat -> interrupted (fst (ioctl fd r (after_attempts n fd r (cdev p)))) = false ->
  (forall a d', answers fd r (cdev p) a d' ->
     if installs r a
     then Q (with_m (cfdn p) a) (CProc d' (cnext p) (cmaps p) (cfdn p + 1) ({[cfdn p]} ∪ cfds p)
                                   (ccalls p) (cclock p))
     else Q a (set_cdev d' p)) ->
  wp (xioctl_loop fuel fd r) Q p.
Proof.
  revert fuel p. induction n as [|n IH]; intros [|fuel] p Hn Hi HQ; try lia;
    cbn [xioctl_loop]; apply wp_bind; unfold wp at 1, do_ioctl; cbn [after_attempts] in Hi;
    destruct (ioctl fd r (cdev p)) as [a d] eqn:E; destruct (interrupted a) eqn:Ei.
  - cbn in Hi. congruence.
  - specialize (HQ a d ltac:(by constructor)). unfold installs in HQ.
    destruct (makes_fd r && _ && _); unfold interrupted in *; cbn [with_m a_ret a_errno]; by rewrite Ei.
  - assert (Hm : makes_fd r && (0 <=? a_ret a) && (0 <=? a_m a) = false)
      by (unfold interrupted in Ei; lia).
    rewrite Hm, Ei. apply IH; [lia|done|]. cbn [set_cdev cdev cnext cmaps cfdn cfds ccalls cclock].
    intros a' d' Ha. apply HQ. by eapply answers_retry.
  - specialize (HQ a d ltac:(by constructor)). unfold installs in HQ.
    destruct (makes_fd r && _ && _); unfold interrupted in *; cbn [with_m a_ret a_errno]; by rewrite Ei.
Qed.

Lemma wp_xioctl_gen fd r (Q : answer -> cproc -> Prop) p :
  (forall a d', answers fd r (cdev p) a d' ->
     if installs r a
     then Q (with_m (cfdn p) a) (CProc d' (cnext p) (cmaps p) (cfdn p + 1) ({[cfdn p]} ∪ cfds p)
                                   (ccalls p) (cclock p))
     else Q a (set_cdev d' p)) ->
  wp (vpipe_xioctl fd r) Q p.
Proof.
  destruct (eintr_bounded fd r (cdev p)) as (n & Hn & Hi).
  by apply (xioctl_loop_wp n); [lia|].
Qed.

(** An ioctl always comes back with an answer that is not an interruption,
    and changes only the device. *)
Lemma wp_xioctl fd r (Q : answer -> cproc -> Prop) p :
  makes_fd r = false ->
  (forall a d', answers fd r (cdev p) a d' -> Q a (set_cdev d' p)) ->
  wp (vpipe_xioctl fd r) Q p.
Proof.
  intros Hr HQ. apply wp_xioctl_gen. intros a d' Ha. unfold installs. rewrite Hr. by apply HQ.
Qed.
(** The loop with enough fuel makes the first [k] attempts, all interrupted,
    and returns the next one's answer; with less it is still retrying. *)
Lemma xioctl_loop_exact k fuel fd r p :
  (forall j, (j < k)%nat -> interrupted (fst (ioctl fd r (after_attempts j fd r (cdev p)))) = true) ->
  interrupted (fst (ioctl fd r (after_attempts k fd r (cdev p)))) = false ->
  xioctl_loop fuel fd r p =
    if (fuel <=? k)%nat then None else do_ioctl fd r (set_cdev (after_attempts k fd r (cdev p)) p).
Proof.
  revert fuel p. induction k as [|k IH]; intros [|fuel] p Hi Hd; [done| |done|].
  - cbn [xioctl_loop Nat.leb after_attempts] in *. unfold fbind, do_ioctl, set_cdev.
    cbn [cdev cnext cmaps cfdn cfds ccalls cclock]. destruct (ioctl fd r (cdev p)) as [a d].
    unfold interrupted in *. cbn [fst] in Hd.
    destruct (makes_fd r && _ && _); cbn [with_m a_ret a_errno]; by rewrite Hd.
  - cbn [xioctl_loop Nat.leb]. unfold fbind, do_ioctl at 1.
    specialize (Hi 0%nat ltac:(lia)) as Hfst. cbn [after_attempts] in Hfst.
    pose proof (fun j Hj => Hi (S j) Hj) as Hi'. cbn [after_attempts] in Hi', Hd |- *.
    destruct (ioctl fd r (cdev p)) as [a d] eqn:E. cbn [fst snd] in Hfst, Hi', Hd |- *.
    assert (Hm : makes_fd r && (0 <=? a_ret a) && (0 <=? a_m a) = false)
      by (unfold interrupted in Hfst; lia).
    rewrite Hm, Hfst. apply (IH fuel (set_cdev d p)); [|done]. intros j Hj. apply Hi'. lia.
Qed.

Lemma after_attempts_S k fd r d :
  after_attempts (S k) fd r d = snd (ioctl fd r (after_attempts k fd r d)).
Proof. revert d. induction k as [|k IH]; intros d; [done|]. cbn [after_attempts]. apply IH. Qed.

(** The first attempt that is not interrupted. *)
Lemma first_answer fd r d :
  exists k, (k <= eintr_max)%nat /\
    (forall j, (j < k)%nat -> interrupted (fst (ioctl fd r (after_attempts j fd r d))) = true) /\
    interrupted (fst (ioctl fd r (after_attempts k fd r d))) = false.
Proof.
  destruct (eintr_bounded fd r d) as (n & Hn & Hd). revert Hn Hd.
  induction n as [n IH] using lt_wf_ind. intros Hn Hd.
  destruct (decide (Exists (fun j => interrupted (fst (ioctl fd r (after_attempts j fd r d))) = false)
                      (List.seq 0 n))) as [(j & Hj & Ej)%List.Exists_exists|Hall].
  - apply in_seq in Hj. apply (IH j); [lia|lia|done].
  - exists n. split; [done|]. split; [|done]. intros j Hj.
    apply not_false_is_true. intros E. apply Hall. apply List.Exists_exists. exists j.
    split; [apply in_seq; lia|exact E].
Qed.
End Ioctls.

Section Buffers.
Context `{BufferLaws}.

Lemma answers_keeps fd r d a d' : is_reqbufs r = false -> answers fd r d a d' -> bufs_of d' = bufs_of d.
Proof.
  intros Hr. induction 1 as [d a d' E _|d a0 d1 a d' E _ _ IH]; [by eapply ioctl_keeps|].
  rewrite IH. by eapply ioctl_keeps.
Qed.

Lemma answers_reqbufs fd t c m d a d' : answers fd (REQBUFS t c m) d a d' ->
  (0 <= a_ret a -> Z.of_nat (length (bufs_of d' fd t)) = a_count a /\ (2 <= c -> a_count a <= c)) /\
  (forall fd' t', (fd', t') <> (fd, t) -> bufs_of d' fd' t' = bufs_of d fd' t').
Proof.
  remember (REQBUFS t c m) as r eqn:Er.
  induction 1 as [d a d' E _|d a0 d1 a d' E _ _ [IH1 IH2]]; subst r.
  - split; [by eapply reqbufs_grants|]. intros. eapply reqbufs_other; eauto.
  - split; [by apply IH1|]. intros fd' t' Hne. rewrite IH2 by done. eapply reqbufs_other; eauto.
Qed.

Lemma answers_querybuf fd t i m d a d' : answers fd (QUERYBUF t i m) d a d' -> 0 <= a_ret a ->
  bufs_of d fd t !! Z.to_nat i = Some (a_length a).
Proof.
  remember (QUERYBUF t i m) as r eqn:Er.
  induction 1 as [d a d' E _|d a0 d1 a d' E _ _ IH]; subst r; intros Ha; [by eapply querybuf_length|].
  rewrite <- (IH Ha). by rewrite (ioctl_keeps _ _ _ _ _ (eq_refl : is_reqbufs (QUERYBUF t i m) = false) E).
Qed.

Lemma answers_dqbuf fd t m d a d' : answers fd (DQBUF t m) d a d' -> 0 <= a_ret a ->
  0 <= a_index a /\ exists len, bufs_of d fd t !! Z.to_nat (a_index a) = Some len /\
    (m = 1 -> 0 <= a_bytesused a <= len).
Proof.
  remember (DQBUF t m) as r eqn:Er.
  induction 1 as [d a d' E _|d a0 d1 a d' E _ _ IH]; subst r; intros Ha; [by eapply dqbuf_index|].
  destruct (IH Ha) as (Hi & len & Hl & Hb). split; [done|]. exists len.
  by rewrite <- (ioctl_keeps _ _ _ _ _ (eq_refl : is_reqbufs (DQBUF t m) = false) E).
Qed.

Lemma answers_qbuf fd b d a d' : answers fd (QBUF b) d a d' -> 0 <= a_ret a ->
  is_Some (bufs_of d fd (q_type b) !! Z.to_nat (q_index b)).
Proof.
  remember (QBUF b) as r eqn:Er.
  induction 1 as [d a d' E _|d a0 d1 a d' E _ _ IH]; subst r; intros Ha; [by eapply qbuf_index|].
  rewrite <- (ioctl_keeps _ _ _ _ _ (eq_refl : is_reqbufs (QBUF b) = false) E). by apply IH.
Qed.
End Buffers.

(** ** Buffer arrays *)

Definition fds_of (bufs : list vpipe_mmap_buffer) : list Z := dmabuf_fd <$> bufs.
Definition maps_of (bufs : list vpipe_mmap_buffer) : list Z := addr <$> bufs.

(** An entry not used yet, with no descriptor. *)
Definition unmapped (b : vpipe_mmap_buffer) : Prop := addr b = 0.
Definition blank (b : vpipe_mmap_buffer) : Prop := addr b = 0 /\ dmabuf_fd b = -1.

(** Replacing an entry's fields adds the new values to what the array names,
    when the old ones did not count. *)
Lemma elem_fmap_insert {A} (f : A -> Z) (l : list A) i x y z :
  l !! i = Some x -> z <> f x -> (z ∈ f <$> <[i := y]> l <-> z = f y \/ z ∈ f <$> l).
Proof.
  intros Hi Hz. pose proof (lookup_lt_Some _ _ _ Hi) as Hlt.
  rewrite list_fmap_insert, !list_elem_of_lookup. split.
  - intros [j Hj]. destruct (decide (j = i)) as [->|].
    + rewrite list_lookup_insert_eq in Hj by (by rewrite length_fmap). left. congruence.
    + rewrite list_lookup_insert_ne in Hj by done. right. eauto.
  - intros [->|[j Hj]].
    + exists i. apply list_lookup_insert_eq. by rewrite length_fmap.
    + exists j. rewrite list_lookup_insert_ne; [done|]. intros <-.
      rewrite list_lookup_fmap, Hi in Hj. cbn in Hj. congruence.
Qed.

(** The array mirrors the buffers the queue has: each is mapped, with its
    length. *)
Definition synced `{BufferLaws} (fd : Z) (t : buf_type) (bufs : list vpipe_mmap_buffer)
    (p : cproc) : Prop :=
  forall i len, bufs_of (cdev p) fd t !! i = Some len ->
    exists b, bufs !! i = Some b /\ b_length b = len /\ cmaps p !! addr b = Some len.

Section Held2.
Context `{V4l2}.

Lemma held_fresh p0 p fds maps :
  proc_ok p0 -> held p0 p fds maps -> cmaps p !! cnext p = None.
Proof.
  intros [Hn _ Hm _] [_ _ _ H4 H5 H6]. rewrite H4.
  - destruct (cmaps p0 !! cnext p) eqn:E; [|done]. pose proof (Hm (cnext p) ltac:(eauto)). lia.
  - intros Ho%H5. lia.
Qed.

Lemma held_cons_bad p0 p fds maps x a :
  held p0 p fds maps -> x < 0 -> a <= 0 -> held p0 p (x :: fds) (a :: maps).
Proof.
  intros Hh Hx Ha. eapply held_ext; [exact Hh| |]; intros y Hy; rewrite elem_of_cons; split;
    try tauto; intros [->|]; try done; lia.
Qed.
End Held2.

Section Arrays.
Context `{V4l2Laws} `{!BufferLaws}.
Implicit Types p : cproc.

Lemma synced_mono fd t bufs p p' :
  synced fd t bufs p -> bufs_of (cdev p') fd t = bufs_of (cdev p) fd t -> cmaps p ⊆ cmaps p' ->
  synced fd t bufs p'.
Proof.
  intros Hs Eb Hm i len Hi. rewrite Eb in Hi. destruct (Hs i len Hi) as (b & Hb & Hl & Hc).
  exists b. split; [done|]. split; [done|]. by eapply lookup_weaken.
Qed.

(** What the request leaves for its caller. *)
Record requested (p0 p p' : cproc) (fd : Z) (t : buf_type) (n : nat)
    (bufs bufs' : list vpipe_mmap_buffer) (fds maps : list Z) (ok : bool) : Prop := {
  rq_held : held p0 p' fds (maps_of (take n bufs') ++ maps);
  rq_fd : forall j b, bufs' !! j = Some b -> bufs !! j = Some b \/ dmabuf_fd b = -1;
  rq_len : length bufs' = length bufs;
  rq_rest : drop n bufs' = drop n bufs;
  rq_maps : cmaps p ⊆ cmaps p';
  rq_keep : forall fd' t', (fd', t') <> (fd, t) -> bufs_of (cdev p') fd' t' = bufs_of (cdev p) fd' t';
  rq_calls : cclock p' = cclock p;
  rq_sync : ok = true -> synced fd t bufs' p' /\ (length (bufs_of (cdev p') fd t) <= n)%nat /\
    (forall j b, (j < length (bufs_of (cdev p') fd t))%nat -> bufs' !! j = Some b -> dmabuf_fd b = -1) /\
    (forall j, (length (bufs_of (cdev p') fd t) <= j)%nat -> bufs' !! j = bufs !! j)
}.

(** The invariant of the mapping loop before entry [i]. *)
Record mapping (p0 p p' : cproc) (fd : Z) (t : buf_type) (n i : nat)
    (bufs bufs' : list vpipe_mmap_buffer) (fds maps : list Z) : Prop := {
  mp_held : held p0 p' fds (maps_of (take n bufs') ++ maps);
  mp_fd : forall j b, bufs' !! j = Some b -> bufs !! j = Some b \/ dmabuf_fd b = -1;
  mp_len : length bufs' = length bufs;
  mp_rest : drop n bufs' = drop n bufs;
  mp_maps : cmaps p ⊆ cmaps p';
  mp_keep : bufs_of (cdev p') = bufs_of (cdev p);
  mp_calls : cclock p' = cclock p;
  mp_blank : forall j b, (i <= j < n)%nat -> bufs' !! j = Some b -> unmapped b;
  mp_same : forall j, (i <= j)%nat -> bufs' !! j = bufs !! j;
  mp_done : forall j len, (j < i)%nat -> bufs_of (cdev p') fd t !! j = Some len ->
     exists b, bufs' !! j = Some b /\ b_length b = len /\ dmabuf_fd b = -1 /\ cmaps p' !! addr b = Some len
}.

(** One entry filled in after a [mmap], successful or not. *)
Lemma mapping_entry p0 p p1 fd t n i bufs bufs' fds maps len off c (Q : Z -> cproc -> Prop) :
  proc_ok p0 -> mapping p0 p p1 fd t n i bufs bufs' fds maps -> (i < n <= length bufs)%nat ->
  bufs_of (cdev p1) fd t !! i = Some len -> c = fd ->
  (forall m p2, let bufs2 := <[i := MmapBuf m len (-1)]> bufs' in
     (m = MAP_FAILED ->
        held p0 p2 fds (maps_of (take n bufs2) ++ maps) /\
        (forall j b, bufs2 !! j = Some b -> bufs !! j = Some b \/ dmabuf_fd b = -1) /\
        cmaps p2 = cmaps p1 /\ cdev p2 = cdev p1 /\ cclock p2 = cclock p1) ->
     (m <> MAP_FAILED -> mapping p0 p p2 fd t n (S i) bufs bufs2 fds maps) -> Q m p2) ->
  wp (mmap len c off) Q p1.
Proof.
  intros Hok [M1 M9 M2 M3 M4 M5 M6 M7 M0 M8] Hi Hlen -> HQ.
  destruct (lookup_lt_is_Some_2 bufs' i) as [b Hb]; [lia|].
  pose proof (M7 i b ltac:(lia) Hb) as Ba. unfold unmapped in Ba.
  assert (Htk : take n bufs' !! i = Some b) by (by rewrite lookup_take_lt by lia).
  assert (Hfd : forall m j b', <[i := MmapBuf m len (-1)]> bufs' !! j = Some b' ->
    bufs !! j = Some b' \/ dmabuf_fd b' = -1).
  { intros m j b' Hj. apply list_lookup_insert_Some in Hj as [(_ & <- & _)|[_ Hj]]; [by right|by apply M9]. }
  assert (Hmp : forall m a, 0 < a ->
    (a ∈ maps_of (take n (<[i := MmapBuf m len (-1)]> bufs')) ++ maps
      <-> a = m \/ a ∈ maps_of (take n bufs') ++ maps)).
  { intros m a Ha. rewrite take_insert_lt by lia. unfold maps_of. rewrite !elem_of_app.
    rewrite (elem_fmap_insert _ _ i b _ a Htk) by lia. cbn [addr]. tauto. }
  pose proof (held_fresh _ _ _ _ Hok M1) as Hfr. destruct Hok as [Hn0 _ _ _].
  unfold wp, mmap. destruct (mmap_ok _ _ _ _); apply HQ; intros Hm; [|clear Hm| |done].
  - pose proof (h_next _ _ _ _ M1). unfold MAP_FAILED in Hm. lia.
  - split.
    + eapply held_ext; [by apply held_newmap|done|].
      intros a Ha. rewrite Hmp, elem_of_cons by done. done.
    + apply Hfd.
    + by rewrite length_insert.
    + by rewrite drop_insert_lt by lia.
    + etrans; [exact M4|]. by apply insert_subseteq.
    + done.
    + done.
    + intros j c Hj. rewrite list_lookup_insert_ne by lia. apply M7. lia.
    + intros j Hj. rewrite list_lookup_insert_ne by lia. apply M0. lia.
    + cbn [cdev cmaps]. intros j l Hj Hl. destruct (decide (j = i)) as [->|].
      * exists (MmapBuf (cnext p1) len (-1)). rewrite list_lookup_insert_eq by lia.
        split; [done|]. split; [cbn; congruence|]. split; [done|]. cbn. rewrite lookup_insert_eq. congruence.
      * destruct (M8 j l ltac:(lia) Hl) as (b' & Hb' & Hl' & Hd' & Hc').
        exists b'. rewrite list_lookup_insert_ne by done. split; [done|]. split; [done|]. split; [done|].
        rewrite lookup_insert_ne; [done|]. congruence.
  - cbn. split; [|split; [apply Hfd|done]]. eapply held_ext.
    + eapply held_frame; [exact M1|done..].
    + done.
    + intros a Ha. rewrite Hmp by done. unfold MAP_FAILED. split; [intros [->|]; [lia|done]|auto].
Qed.

Lemma wp_request_loop p0 p fd t n k i bufs bufs' fds maps p1
    (Q : Z * list vpipe_mmap_buffer -> cproc -> Prop) :
  proc_ok p0 -> mapping p0 p p1 fd t n i bufs bufs' fds maps ->
  (i + k <= n <= length bufs)%nat -> (i + k = length (bufs_of (cdev p1) fd t))%nat ->
  (forall bufs2 p2, mapping p0 p p2 fd t n (i + k) bufs bufs2 fds maps -> Q (0, bufs2) p2) ->
  (forall bufs2 p2,
     held p0 p2 fds (maps_of (take n bufs2) ++ maps) ->
     (forall j b, bufs2 !! j = Some b -> bufs !! j = Some b \/ dmabuf_fd b = -1) ->
     length bufs2 = length bufs -> drop n bufs2 = drop n bufs -> cmaps p ⊆ cmaps p2 ->
     bufs_of (cdev p2) = bufs_of (cdev p) -> cclock p2 = cclock p -> Q (-1, bufs2) p2) ->
  wp (request_loop k (Z.of_nat i) fd t bufs') Q p1.
Proof.
  intros Hok. revert i bufs' p1. induction k as [|k IH]; intros i bufs' p1 Hmp Hn Hk Hgood Hbad.
  - cbn. apply Hgood. by rewrite Nat.add_0_r.
  - cbn [request_loop]. apply wp_bind. apply wp_xioctl; [done|]. intros a d' Ha.
    pose proof (answers_keeps _ _ _ _ _ (eq_refl : is_reqbufs (QUERYBUF t (Z.of_nat i) _) = false) Ha) as Hkeep.
    assert (Hmp1 : mapping p0 p (set_cdev d' p1) fd t n i bufs bufs' fds maps).
    { destruct Hmp as [M1 M9 M2 M3 M4 M5 M6 M7 M0 M8]. split; cbn; try done.
      - eapply held_frame; [exact M1|done..].
      - by rewrite Hkeep.
      - intros j l Hj. rewrite Hkeep. by apply M8. }
    destruct (Z.ltb_spec (a_ret a) 0) as [|Hr].
    { cbn. destruct Hmp1. apply Hbad; done. }
    pose proof (answers_querybuf _ _ _ _ _ _ _ Ha ltac:(lia)) as Hlen. rewrite Nat2Z.id in Hlen.
    apply wp_bind. unfold set_buf at 1. rewrite Nat2Z.id.
    destruct (lookup_lt_is_Some_2 bufs' i) as [b Hb]; [rewrite (mp_len _ _ _ _ _ _ _ _ _ _ _ Hmp); lia|].
    rewrite Hb. apply wp_ret, wp_bind.
    eapply (mapping_entry p0 p _ fd t n i bufs bufs' fds maps); [done|exact Hmp1|lia| |done|].
    { cbn. by rewrite Hkeep. }
    intros m p2 bufs2 Hfail Hgo. apply wp_bind. unfold set_buf. rewrite Nat2Z.id.
    rewrite list_lookup_insert_eq by (by eapply lookup_lt_Some). apply wp_ret. cbn [b_length dmabuf_fd].
    rewrite list_insert_insert_eq. fold bufs2. destruct (Z.eqb_spec m MAP_FAILED) as [Em|Em].
    + apply wp_ret. destruct (Hfail Em) as (F1 & F5 & F2 & F3 & F4). destruct Hmp1 as [M1 M9 M2 M3 M4 M5 M6 M7 M0 M8].
      apply Hbad; rewrite ?F2, ?F3, ?F4; try done.
      * unfold bufs2. by rewrite length_insert.
      * unfold bufs2. by rewrite drop_insert_lt by lia.
    + replace (Z.of_nat i + 1) with (Z.of_nat (S i)) by lia. specialize (Hgo Em).
      apply IH; [done|lia| | |done].
      * rewrite (mp_keep _ _ _ _ _ _ _ _ _ _ _ Hgo), <- (mp_keep _ _ _ _ _ _ _ _ _ _ _ Hmp). lia.
      * intros bufs3 p3. rewrite Nat.add_succ_comm. apply Hgood.
Qed.

(** Requesting [n] buffers into the first [n], unused, entries of an array. *)
Lemma wp_request p0 p fd t n bufs fds maps (Q : Z * list vpipe_mmap_buffer -> cproc -> Prop) :
  proc_ok p0 -> held p0 p fds maps -> (2 <= n <= length bufs)%nat -> Forall unmapped (take n bufs) ->
  (forall r bufs' p', requested p0 p p' fd t n bufs bufs' fds maps (0 <=? r) ->
     (r = -1 \/ r = s32 (Z.of_nat (length (bufs_of (cdev p') fd t)))) -> Q (r, bufs') p') ->
  wp (vpipe_request_mmap_buffers fd t (Z.of_nat n) bufs) Q p.
Proof.
  intros Hok Hh Hn Hbl HQ. unfold vpipe_request_mmap_buffers. apply wp_bind, wp_xioctl; [done|].
  intros a d' Ha. destruct (answers_reqbufs _ _ _ _ _ _ _ Ha) as [Hg Ho].
  assert (Hh1 : held p0 (set_cdev d' p) fds (maps_of (take n bufs) ++ maps)).
  { eapply held_ext; [eapply held_frame; [exact Hh|done..]|done|]. intros x Hx. rewrite elem_of_app.
    split; [|by auto]. intros [Hin|]; [|done]. exfalso. apply list_elem_of_fmap in Hin as (b & -> & Hin).
    apply list_elem_of_lookup in Hin as [j Hj]. rewrite Forall_lookup in Hbl.
    specialize (Hbl j b Hj). unfold unmapped in Hbl. lia. }
  destruct (Z.ltb_spec (a_ret a) 0) as [|Hr].
  { apply wp_ret, HQ; [|by left]. split; try done. auto. }
  destruct (Hg ltac:(lia)) as [Hc Hle]. specialize (Hle ltac:(lia)).
  apply wp_bind. change 0 with (Z.of_nat 0) at 1.
  eapply (wp_request_loop p0 (set_cdev d' p) fd t n _ 0 bufs bufs fds maps);
    [done| |cbn; lia|cbn; lia| |].
  - split; try done; [auto| |lia]. intros j b Hj Hb. rewrite Forall_lookup in Hbl. apply (Hbl j).
    by rewrite lookup_take_lt by lia.
  - cbn [Nat.add fst snd Z.ltb Z.compare]. intros bufs2 p2 [M1 M9 M2 M3 M4 M5 M6 M7 M0 M8]. apply wp_ret, HQ.
    + split; try done.
      * intros fd' t' Hne. rewrite M5. by apply Ho.
      * intros _. rewrite M5 in *. cbn [set_cdev cdev] in *. split; [|split; [lia|]].
        -- intros i len Hi. rewrite M5 in Hi. pose proof (lookup_lt_Some _ _ _ Hi) as Hlt.
           destruct (M8 i len ltac:(cbn in *; lia) Hi) as (b & ? & ? & _ & ?). eauto.
        -- split; [|intros j Hj; apply M0; lia]. intros j b Hj Hb.
           destruct (lookup_lt_is_Some_2 _ _ Hj) as [len Hlen].
           destruct (M8 j len ltac:(lia) Hlen) as (b' & ? & _ & ? & _). congruence.
    + right. rewrite M5. cbn [set_cdev cdev]. f_equal. lia.
  - intros bufs2 p2 F1 F0 F2 F3 F4 F5 F6. cbn [fst Z.ltb Z.compare]. apply wp_ret, HQ; [|by left].
    split; try done. intros fd' t' Hne. rewrite F5. by apply Ho.
Qed.

(** An array whose entries name no descriptor still names none. *)
Lemma no_fd_array n bufs bufs' :
  Forall blank (take n bufs) ->
  (forall j b, bufs' !! j = Some b -> bufs !! j = Some b \/ dmabuf_fd b = -1) ->
  forall x, 0 <= x -> x ∉ fds_of (take n bufs').
Proof.
  intros Hbl Hd x Hx Hin. apply list_elem_of_fmap in Hin as (b & -> & Hin).
  apply list_elem_of_lookup in Hin as [j Hj]. apply lookup_take_Some in Hj as [Hj Hlt].
  destruct (Hd j b Hj) as [Hb|]; [|lia].
  rewrite Forall_lookup in Hbl. destruct (Hbl j b) as [_ ?]; [|lia]. by rewrite lookup_take_lt.
Qed.

Lemma wp_unmap_loop p0 k i bufs fds maps p (Q : unit -> cproc -> Prop) :
  proc_ok p0 -> (i + k <= length bufs)%nat ->
  held p0 p (fds_of (take k (drop i bufs)) ++ fds) (maps_of (take k (drop i bufs)) ++ maps) ->
  (forall p', held p0 p' fds maps -> cdev p' = cdev p -> cclock p' = cclock p -> Q tt p') ->
  wp (unmap_loop k (Z.of_nat i) bufs) Q p.
Proof.
  intros Hok. revert i p. induction k as [|k IH]; intros i p Hlen Hh HQ.
  - cbn. by apply HQ.
  - cbn [unmap_loop]. rewrite Nat2Z.id.
    destruct (lookup_lt_is_Some_2 bufs i) as [b Hb]; [lia|]. rewrite Hb.
    rewrite (drop_S _ b _ Hb) in Hh. cbn [take fds_of maps_of fmap list_fmap app] in Hh.
    fold (fds_of (take k (drop (S i) bufs))) (maps_of (take k (drop (S i) bufs))) in Hh.
    apply wp_bind. unfold unmap_one. apply wp_bind.
    assert (Hrest : forall p', held p0 p' (dmabuf_fd b :: fds_of (take k (drop (S i) bufs)) ++ fds)
        (maps_of (take k (drop (S i) bufs)) ++ maps) -> cdev p' = cdev p -> cclock p' = cclock p ->
      wp (if 0 <=? dmabuf_fd b then close (dmabuf_fd b) else fret tt)
        (fun _ => wp (unmap_loop k (Z.of_nat i + 1) bufs) Q) p').
    { intros p' Hh' Ed Ec. replace (Z.of_nat i + 1) with (Z.of_nat (S i)) by lia.
      destruct (Z.leb_spec 0 (dmabuf_fd b)); (apply IH; [lia| |]).
      - by apply held_close.
      - cbn. intros p'' Hp Ed' Ec'. apply HQ; congruence || done.
      - eapply held_ext; [exact Hh'| |done]. intros x Hx. rewrite elem_of_cons. split; [auto|].
        intros [->|]; [lia|done].
      - intros p'' Hp Ed' Ec'. apply HQ; congruence || done. }
    destruct (ztrue (addr b) && negb (addr b =? MAP_FAILED)) eqn:E; unfold ztrue in E.
    + apply Hrest; [|done..]. by apply held_munmap.
    + apply Hrest; [|done..]. eapply held_drop_map; [exact Hh|]. unfold MAP_FAILED in E. lia.
Qed.
(** Unmapping the first [n] entries gives back what they name. *)
Lemma wp_unmap p0 n bufs fds maps p (Q : unit -> cproc -> Prop) :
  proc_ok p0 -> (n <= length bufs)%nat ->
  held p0 p (fds_of (take n bufs) ++ fds) (maps_of (take n bufs) ++ maps) ->
  (forall p', held p0 p' fds maps -> cdev p' = cdev p -> cclock p' = cclock p -> Q tt p') ->
  wp (vpipe_unmap_buffers bufs (Z.of_nat n)) Q p.
Proof.
  intros Hok Hn Hh HQ. unfold vpipe_unmap_buffers. rewrite Nat2Z.id.
  by apply (wp_unmap_loop p0 n 0 bufs fds maps p Q).
Qed.
End Arrays.

(** ** The balance of buffer setup *)


(** C24: [vpipe_xioctl] terminates. The loop repeats the ioctl exactly as long
    as the kernel reports EINTR: there is a first attempt [k], within the bound
    on consecutive signals, that is not interrupted; with fuel for more than
    [k] attempts the loop returns that attempt's answer, made on the device as
    the interrupted attempts left it, and with less it has not returned, so the
    fuel [vpipe_xioctl] is given never cuts it short and it returns an answer
    that is not EINTR. *)
Theorem xioctl_retries `{V4l2Laws} fd r p :
  exists k, (k <= eintr_max)%nat /\
    (forall j, (j < k)%nat -> interrupted (fst (ioctl fd r (after_attempts j fd r (cdev p)))) = true) /\
    (forall fuel, xioctl_loop fuel fd r p =
       if (fuel <=? k)%nat then None
       else do_ioctl fd r (set_cdev (after_attempts k fd r (cdev p)) p)) /\
    exists a p', vpipe_xioctl fd r p = Some (a, p') /\ interrupted a = false /\
      cdev p' = after_attempts (S k) fd r (cdev p).
Proof.
  destruct (first_answer fd r (cdev p)) as (k & Hk & Hi & Hd).
  pose proof (fun fuel => xioctl_loop_exact k fuel fd r p Hi Hd) as Hx.
  exists k. do 3 (split; [done|]). unfold vpipe_xioctl. rewrite Hx.
  destruct (Nat.leb_spec (S eintr_max) k); [lia|].
  rewrite after_attempts_S. unfold do_ioctl. cbn [set_cdev cdev cnext cmaps cfdn cfds ccalls cclock].
  destruct (ioctl fd r (after_attempts k fd r (cdev p))) as [a d]. unfold interrupted in *.
  case_match; eauto.
Qed.

(** ** A device to run programs on

    Queues that grant at most [cap t] buffers, of [len] bytes, and hand back
    queued buffers in order; every ioctl is interrupted once before it answers,
    and the ones [fault] names, the [mmap] calls [nomap] names and the opens
    [noopen] names fail. *)
Record simdev := SimDev {
  s_intr : bool; s_count : nat; s_bufs : gmap (Z * bool) (list Z); s_fifo : gmap (Z * bool) (list (Z * Z))
}.

Module Sim.
Section Sim.
Context (len : Z) (cap : buf_type -> Z) (fault nomap noopen : nat -> bool) (pix : Z -> Z -> Z).

Definition qkey (fd : Z) (t : buf_type) : Z * bool := (fd, bool_decide (t = OUTPUT)).
Definition fine (count i l m seq : Z) : answer := Answer 0 0 len 640 count i l m l seq 0 0.
Definition wrong (e : Z) : answer := Answer (-1) e 0 0 0 0 0 0 0 0 0 0.
Definition lens (d : simdev) (fd : Z) (t : buf_type) : list Z :=
  Z.max 0 <$> default [] (s_bufs d !! qkey fd t).
Definition fifo (d : simdev) (fd : Z) (t : buf_type) : list (Z * Z) := default [] (s_fifo d !! qkey fd t).

Definition answer_to (fd : Z) (r : request) (d : simdev) : answer * simdev :=
  let seq := Z.of_nat (s_count d) in
  let d1 := SimDev true (S (s_count d)) (s_bufs d) (s_fifo d) in
  match r with
  | REQBUFS t c _ =>
      (fine (Z.max 0 (Z.min c (cap t))) 0 0 0 seq,
       SimDev true (S (s_count d)) (<[qkey fd t := replicate (Z.to_nat (Z.min c (cap t))) len]> (s_bufs d))
         (<[qkey fd t := []]> (s_fifo d)))
  | QUERYBUF t i _ =>
      match lens d fd t !! Z.to_nat i with
      | Some l => (fine 0 i l (i * len) seq, d1)
      | None => (wrong 22, d1)
      end
  | QBUF b =>
      match lens d fd (q_type b) !! Z.to_nat (q_index b) with
      | Some l =>
          (fine 0 (q_index b) l 0 seq,
           SimDev true (S (s_count d)) (s_bufs d)
             (<[qkey fd (q_type b) := fifo d fd (q_type b) ++ [(q_index b, q_m b)]]> (s_fifo d)))
      | None => (wrong 22, d1)
      end
  | DQBUF t _ =>
      match fifo d fd t with
      | (i, m) :: rest =>
          let d2 := SimDev true (S (s_count d)) (s_bufs d) (<[qkey fd t := rest]> (s_fifo d)) in
          match lens d fd t !! Z.to_nat i with
          | Some l => if (0 <=? i) && (0 <=? l) then (fine 0 i l m seq, d2) else (wrong 22, d2)
          | None => (wrong 22, d2)
          end
      | [] => (wrong EAGAIN, d1)
      end
  | _ => (fine 0 0 0 0 seq, d1)
  end.

(** Allocation from a dma-heap is not interrupted. *)
Definition interrupts (r : request) (d : simdev) : bool :=
  match r with DMA_HEAP_ALLOC _ => false | _ => s_intr d end.

Definition sim_ioctl (fd : Z) (r : request) (d : simdev) : answer * simdev :=
  if interrupts r d then (wrong EINTR, SimDev false (s_count d) (s_bufs d) (s_fifo d))
  else if fault (s_count d)
  then (wrong 22, SimDev true (S (s_count d)) (s_bufs d) (s_fifo d))
  else answer_to fd r d.

#[local] Instance sim : V4l2 := {
  dev := simdev;
  ioctl := sim_ioctl;
  read_dev _ n d := ((Z.min n len, replicate (Z.to_nat (Z.min n len)) 7), d);
  read_entry _ d := ((sizeof_meta_entry, meta_zero), d);
  byte_at _ := pix;
  poke _ _ d := d;
  open_ok _ k := negb (noopen k);
  mmap_ok k _ _ _ := negb (nomap k);
  now k := (Z.min (Z.of_nat k) 1000000, 0);
  minflt _ := 0;
  eintr_max := 1
}.

Lemma answer_to_done fd r d : interrupted (fst (answer_to fd r d)) = false.
Proof. destruct r; cbn; repeat case_match; done. Qed.

#[local] Instance sim_laws : V4l2Laws.
Proof.
  assert (Hrun : forall fd r d, interrupts r d = false -> interrupted (fst (sim_ioctl fd r d)) = false).
  { intros fd r d E. unfold sim_ioctl. rewrite E. case_match; [done|apply answer_to_done]. }
  constructor. intros fd r d. destruct (interrupts r d) eqn:E; [exists 1%nat|exists 0%nat].
  - split; [cbn; lia|]. cbn. apply Hrun. unfold sim_ioctl. rewrite E. by destruct r.
  - split; [cbn; lia|]. by apply Hrun.
Qed.

(** Only REQBUFS writes the table of buffers, and only its own queue. *)
Lemma sim_keeps fd r d : is_reqbufs r = false -> s_bufs (snd (sim_ioctl fd r d)) = s_bufs d.
Proof.
  intros Hr. unfold sim_ioctl. case_match; [done|]. case_match; [done|].
  destruct r; try done; cbn; repeat case_match; done.
Qed.

Lemma qkey_inj fd t fd' t' : qkey fd t = qkey fd' t' -> (fd', t') = (fd, t).
Proof. unfold qkey. intros [= -> E]. destruct t, t'; repeat case_bool_decide; done. Qed.

#[local] Instance sim_bufs : BufferLaws.
Proof.
  refine {| bufs_of := lens : dev -> Z -> buf_type -> list Z |}; try done.
  - intros d fd t. apply Forall_fmap, Forall_true. intros x. unfold compose. lia.
  - intros fd t c m d a d' E Ha. cbn in E. unfold sim_ioctl in E.
    destruct (interrupts _ _); [injection E as <- <-; cbn in Ha; lia|].
    destruct (fault _); [injection E as <- <-; cbn in Ha; lia|]. injection E as <- <-. cbn.
    unfold lens. cbn. rewrite lookup_insert_eq. cbn. rewrite length_fmap, length_replicate. lia.
  - intros fd t c m d a d' E fd' t' Hne. cbn in E. unfold sim_ioctl in E.
    destruct (interrupts _ _); [by injection E as <- <-|].
    destruct (fault _); [by injection E as <- <-|]. injection E as <- <-.
    unfold lens. cbn. rewrite lookup_insert_ne; [done|]. intros Ek%qkey_inj.
    destruct Hne as [Hne|Hlt]; [done|cbn in Hlt; lia].
  - intros fd t i m d a d' E Ha. cbn in E. unfold sim_ioctl in E.
    destruct (interrupts _ _); [injection E as <- <-; cbn in Ha; lia|].
    destruct (fault _); [injection E as <- <-; cbn in Ha; lia|]. cbn in E.
    destruct (lens d fd t !! Z.to_nat i); injection E as <- <-; [done|cbn in Ha; lia].
  - intros fd t m d a d' E Ha. cbn in E. unfold sim_ioctl in E.
    destruct (interrupts _ _); [injection E as <- <-; cbn in Ha; lia|].
    destruct (fault _); [injection E as <- <-; cbn in Ha; lia|]. cbn in E.
    destruct (fifo d fd t) as [|[i m'] rest]; [injection E as <- <-; cbn in Ha; lia|].
    destruct (lens d fd t !! Z.to_nat i) as [l|] eqn:El; [|injection E as <- <-; cbn in Ha; lia].
    destruct ((0 <=? i) && (0 <=? l)) eqn:Eb; injection E as <- <-; cbn in *; [|lia].
    split; [lia|]. exists l. split; [done|lia].
  - intros fd b d a d' E Ha. cbn in E. unfold sim_ioctl in E.
    destruct (interrupts _ _); [injection E as <- <-; cbn in Ha; lia|].
    destruct (fault _); [injection E as <- <-; cbn in Ha; lia|]. cbn in E.
    destruct (lens d fd (q_type b) !! Z.to_nat (q_index b)); [eauto|injection E as <- <-; cbn in Ha; lia].
  - intros fd r d a d' Hr E. unfold lens. pose proof (sim_keeps fd r d Hr) as Hk. cbn in E.
    rewrite E in Hk. cbn in Hk. by rewrite Hk.
Defined.
End Sim.

(** A process with standard streams open and nothing mapped. *)
Definition start {V : V4l2} (d : dev) : cproc :=
  CProc d 4096 ∅ 3 {[0; 1; 2]} 0 0.

Lemma start_ok {V : V4l2} (d : dev) : proc_ok (start d).
Proof.
  split; cbn; try lia.
  - intros a [x Hx]. by rewrite lookup_empty in Hx.
  - intros x. set_solver by lia.
Qed.

Definition sim0 : simdev := SimDev true 0 ∅ ∅.
End Sim.

(** Two buffers are granted and the second mapping fails. *)
#[local] Instance shaky_dev : V4l2 := Sim.sim 4096 (fun _ => 32) (fun _ => false) (Nat.eqb 1) (fun _ => false) (fun _ _ => 0).
#[local] Instance shaky_laws : V4l2Laws := Sim.sim_laws _ _ _ _ _ _.
#[local] Instance shaky_bufs : BufferLaws := Sim.sim_bufs _ _ _ _ _ _.


(** On a device that interrupts every call once, the second attempt answers. *)
Lemma xioctl_retries_witness :
  exists k, k = 1%nat /\
    xioctl_loop k 5 (G_FMT CAPTURE) (Sim.start (V := shaky_dev) Sim.sim0) = None /\
    exists a p', vpipe_xioctl 5 (G_FMT CAPTURE) (Sim.start (V := shaky_dev) Sim.sim0) = Some (a, p') /\
      interrupted a = false.
Proof.
  destruct (xioctl_retries 5 (G_FMT CAPTURE) (Sim.start (V := shaky_dev) Sim.sim0))
    as (k & Hk & Hj & Hf & a & p' & Hr & Ha & _).
  assert (E : k = 1%nat).
  { destruct k as [|[|k]]; [|done|cbn in Hk; lia]. specialize (Hf 1%nat). discriminate Hf. }
  exists k. split; [exact E|]. split; [rewrite Hf, E; reflexivity|]. exists a, p'. auto.
Defined.
