(* ===== verification/Process.v ===== *)
(** * User-space programs

    What the programs under [user/] have in common: the process they run in
    (devices and descriptors, the C library's world, the rows written to the
    CSV file, the statics of the CRC), the stages a [main] is made of, the
    helpers every program defines for itself, and the assertions their proofs
    use: what the process holds, which mappings are known, which buffers a
    queue has, how often the clock was read. *)

From S2P Require Import Prelude Types M2m Crc32 Pgm Wp Client.

(** ** The process *)

(** [prow]: the rows of the CSV file, as the values of their fields. *)
Record pworld `{V4l2} `{Posix} := PWorld {
  pc : cproc; pu : uworld; prow : list (list Z); pcrc : crc_state
}.
Arguments PWorld {_ _} _ _ _ _.

(** Decimal [strtoul] with its end pointer: the value, the characters left and
    whether [errno] is set. *)
Definition strtoul_end (s : list Z) : Z * list Z * bool :=
  let l1 := skip_ws s in
  let '(neg, l2) := match l1 with
                    | c :: r => if c =? 45 then (true, r) else if c =? 43 then (false, r) else (false, l1)
                    | [] => (false, [])
                    end in
  if starts_digit l2 then
    let '(d, rest) := digits l2 0 in (strtoul10 neg d, rest, ULONG_MAX <? d)
  else (0, s, false).

(** The programs' [parse_uint_range]: [None] is the result -1. *)
Definition parse_uint_range (s : list Z) (min max : Z) : option Z :=
  match s with
  | [] => None
  | c :: _ =>
      if c =? 45 then None
      else
        let '(v, rest, range) := strtoul_end s in
        match rest with
        | [] => if range || (v <? min) || (max <? v) then None else Some v
        | _ => None
        end
  end.

(** [if (argc > k + 1 && parse_uint_range(argv[k + 1], min, max, &v) < 0) return 1],
    where [v] starts at [dflt]. *)
Definition uint_arg (args : list (list Z)) (k : nat) (min max dflt : Z) : option Z :=
  match args !! k with Some a => parse_uint_range a min max | None => Some dflt end.

Lemma parse_uint_range_in s min max v : parse_uint_range s min max = Some v -> min <= v <= max.
Proof.
  unfold parse_uint_range. destruct s as [|c s]; [done|]. destruct (c =? 45); [done|].
  destruct (strtoul_end _) as [[x []] r]; [|done]. destruct (r || _ || _) eqn:E; [done|].
  intros [= <-]. lia.
Qed.

Lemma uint_arg_in args k min max dflt v :
  uint_arg args k min max dflt = Some v -> min <= dflt <= max -> min <= v <= max.
Proof.
  unfold uint_arg. destruct (args !! k); [intros E _; by eapply parse_uint_range_in|congruence].
Qed.

(** [strcmp(s, name) == 0]. *)
Definition is_name (s : list Z) (name : string) : bool := bool_decide (s = lit name).

Section Programs.
Context `{V4l2} `{Posix}.

Definition sys {A} : F cproc A -> F pworld A :=
  zoom pc (fun c w => PWorld c (pu w) (prow w) (pcrc w)).
Definition lib {A} : F uworld A -> F pworld A :=
  zoom pu (fun u w => PWorld (pc w) u (prow w) (pcrc w)).

(** [fprintf(fp, ...)] of a row. *)
Definition emit (row : list Z) : F pworld unit :=
  fmodify (fun w => PWorld (pc w) (pu w) (prow w ++ [row]) (pcrc w)).

(** [vpipe_crc32(addr, len)] of a mapping. *)
Definition crc32_list (data : list Z) (len : Z) : F pworld Z :=
  fun w => match vpipe_crc32 data len (pcrc w) with
           | Some (c, st) => Some (c, PWorld (pc w) (pu w) (prow w) st)
           | None => None
           end.
Definition crc32_at (a len : Z) : F pworld Z := (data <- sys (load_bytes a len);; crc32_list data len).

(** [read] of a device: a negative result, or the bytes, at most as many as
    asked for. *)
Definition read (fd n : Z) : F cproc (Z * list Z) :=
  fun p =>
    let '((r, l), d) := read_dev fd n (cdev p) in
    if r <? 0 then Some ((r, []), set_cdev d p)
    else
      let bytes := u8 <$> take (Z.to_nat n) l in
      Some ((Z.of_nat (length bytes), bytes), set_cdev d p).

(** [read(fd, &entry, sizeof(entry))]. *)
Definition read_meta_entry (fd : Z) : F cproc (Z * vpipe_meta_entry) :=
  fun p => let '((r, e), d) := read_entry fd (cdev p) in Some ((r, e), set_cdev d p).

(** [getrusage]: the minor faults so far. *)
Definition getrusage_minflt : F cproc Z :=
  fun p => Some (minflt (ccalls p),
                 CProc (cdev p) (cnext p) (cmaps p) (cfdn p) (cfds p) (S (ccalls p)) (cclock p)).

(** ** The stages of a program

    A stage works on the locals of [main] and answers whether to go on; the
    answer [false] is a [goto cleanup]. *)
Definition stage (L : Type) : Type := L -> F pworld (bool * L).

Definition go {L} (f : L) : F pworld (bool * L) := fret (true, f).
Definition quit {L} (f : L) : F pworld (bool * L) := fret (false, f).

Definition andthen {L} (s1 s2 : stage L) : stage L :=
  fun f => (r <- s1 f;; if fst r then s2 (snd r) else fret r).

(** [for (i = 0; i < n; i++)]. *)
Definition for_each {L} (n : Z) (body : Z -> stage L) : stage L := floop (Z.to_nat n) 0 body.

(** A copy between mappings; a copy of nothing touches no memory. *)
Definition memcpy_maps (dst src n : Z) : F pworld unit :=
  if n =? 0 then fret tt else (data <- sys (load_bytes src n);; sys (store_bytes dst data)).

(** ** Helpers that most programs define *)

Definition set_ctrl (fd id value : Z) : F cproc Z :=
  (a <- vpipe_xioctl fd (S_CTRL id (s32 value));; fret (a_ret a)).

Definition dqbuf (fd : Z) (t : buf_type) (memory : Z) : F cproc answer := vpipe_xioctl fd (DQBUF t memory).

(** [VIDIOC_QBUF] of a buffer as [VIDIOC_DQBUF] filled it in. *)
Definition requeue (fd : Z) (t : buf_type) (memory : Z) (a : answer) : F cproc Z :=
  (r <- vpipe_xioctl fd (QBUF (Qbuf t memory (a_index a) (a_m a) (a_bytesused a) (a_length a)));;
  fret (a_ret r)).

Definition export_dmabuf (fd : Z) (t : buf_type) (index : Z) : F cproc Z :=
  (a <- vpipe_xioctl fd (EXPBUF t index);;
  if a_ret a <? 0 then fret (-1) else fret (a_m a)).

(** Not retried: a plain [ioctl]. *)
Definition dma_heap_alloc_fd (heap_path : list Z) (len : Z) : F cproc Z :=
  (heap_fd <- open heap_path;;
  if heap_fd <? 0 then fret (-1)
  else
    (a <- do_ioctl heap_fd (DMA_HEAP_ALLOC len);;
    if a_ret a <? 0 then (close heap_fd;; fret (-1))
    else (close heap_fd;; fret (a_m a)))).

Definition queue_dmabuf (fd index dfd bytesused length : Z) : F cproc Z :=
  (a <- vpipe_xioctl fd
          (QBUF (Qbuf OUTPUT V4L2_MEMORY_DMABUF index dfd (u32 bytesused) (u32 length)));;
  fret (a_ret a)).

(** [if (flag) (void) vpipe_xioctl(fd, VIDIOC_STREAMOFF, &type)]. *)
Definition streamoff_if (flag : bool) (fd : Z) (t : buf_type) : F cproc unit :=
  if flag then (vpipe_xioctl fd (STREAMOFF t);; fret tt) else fret tt.

Definition close_if (fd : Z) : F cproc unit := if 0 <=? fd then close fd else fret tt.
Definition fclose_if (fp : bool) : F uworld unit := if fp then fclose else fret tt.

(** [free(p)] of a pointer that may be null. *)
Definition free_if (p : bool) : F uworld unit := if p then free else fret tt.

(** [a[i]] and [a[i] = v], faulting outside the array. *)
Definition aget {A} (l : list A) (i : Z) : F pworld A :=
  if i <? 0 then ffail else flift (l !! Z.to_nat i).
Definition aset {A} (l : list A) (i : Z) (v : A) : F pworld (list A) :=
  if (0 <=? i) && (i <? Z.of_nat (length l)) then fret (<[Z.to_nat i := v]> l) else ffail.
End Programs.

(** [parse_algo]: [None] is the result -1. *)
Definition parse_algo (value : list Z) : option Z :=
  if is_name value "none" then Some VPIPE_ALGO_NONE
  else if is_name value "threshold" then Some VPIPE_ALGO_THRESHOLD
  else None.

(** ** Formats

    What the programs rely on when they negotiate a size: [fmt_of d fd t] is
    the line length and image size of a queue. The size asked for determines
    the GREY format a device sets ([geometry]), which holds the lines asked for
    when the driver supports them ([supported w h]); setting the format of one
    queue may set the other queue of the device as well, as the driver of
    [kmod/] does; MMAP buffers are at least as long as an image. *)
Class FormatLaws `{BufferLaws} := {
  fmt_of : dev -> Z -> buf_type -> Z * Z;
  supported : Z -> Z -> bool;
  fmt_u32 d fd t : in_u32 (snd (fmt_of d fd t));
  geometry : Z -> Z -> Z -> Z * Z;
  geometry_holds fd w h : supported w h = true ->
    w <= fst (geometry fd w h) /\ fst (geometry fd w h) * h <= snd (geometry fd w h);
  s_fmt_sets fd t w h d a d' :
    ioctl fd (S_FMT t w h V4L2_PIX_FMT_GREY V4L2_FIELD_NONE) d = (a, d') -> 0 <= a_ret a ->
    fmt_of d' fd t = geometry fd w h /\
    forall t', fmt_of d' fd t' = fmt_of d fd t' \/ fmt_of d' fd t' = geometry fd w h;
  g_fmt_tells fd t d a d' :
    ioctl fd (G_FMT t) d = (a, d') -> 0 <= a_ret a ->
    (a_bytesperline a, a_sizeimage a) = fmt_of d fd t;
  reqbufs_holds fd t c d a d' :
    ioctl fd (REQBUFS t c V4L2_MEMORY_MMAP) d = (a, d') -> 0 <= a_ret a ->
    Forall (fun len => snd (fmt_of d fd t) <= len) (bufs_of d' fd t);
  s_fmt_other fd t w h px fl d a d' :
    ioctl fd (S_FMT t w h px fl) d = (a, d') ->
    forall fd' t', fd' <> fd \/ a_ret a < 0 -> fmt_of d' fd' t' = fmt_of d fd' t';
  fmt_keeps fd r d a d' :
    match r with S_FMT _ _ _ _ _ => False | _ => True end ->
    ioctl fd r d = (a, d') -> fmt_of d' = fmt_of d;
  poke_fmt x l d : fmt_of (poke x l d) = fmt_of d;
  read_fmt fd n d : fmt_of (snd (read_dev fd n d)) = fmt_of d;
  entry_fmt fd d : fmt_of (snd (read_entry fd d)) = fmt_of d
}.

(** ** The clock

    The readings of the monotonic clock never decrease, and stay below [2^62]
    ns, 146 years. *)
Class MonotonicClock `{V4l2} := {
  reading_mono i j : (i <= j)%nat -> reading i <= reading j;
  reading_range i : 0 <= reading i <= 2 ^ 62
}.

(** ** What is known of a running program

    [g_fds], [g_maps]: the descriptors and mappings it holds; [g_opens],
    [g_blocks]: streams and heap blocks; [g_known]: mappings with their
    lengths; [g_queues], [g_fmts]: the buffers and formats of queues;
    [g_clock]: readings of the clock; [g_rows]: the rows written. *)
Record ghost := Ghost {
  g_fds : list Z; g_maps : list Z; g_opens : Z; g_blocks : Z;
  g_known : list (Z * Z);
  g_queues : list (Z * buf_type * list Z);
  g_fmts : list (Z * buf_type * (Z * Z));
  g_clock : nat; g_rows : list (list Z)
}.

Definition add_fd (x : Z) (g : ghost) : ghost :=
  Ghost (x :: g_fds g) (g_maps g) (g_opens g) (g_blocks g) (g_known g) (g_queues g) (g_fmts g)
    (g_clock g) (g_rows g).
Definition set_held (fds maps : list Z) (g : ghost) : ghost :=
  Ghost fds maps (g_opens g) (g_blocks g) (g_known g) (g_queues g) (g_fmts g) (g_clock g) (g_rows g).
Definition add_map (a len : Z) (g : ghost) : ghost :=
  Ghost (g_fds g) (a :: g_maps g) (g_opens g) (g_blocks g) ((a, len) :: g_known g) (g_queues g)
    (g_fmts g) (g_clock g) (g_rows g).
Definition add_lib (o l : Z) (g : ghost) : ghost :=
  Ghost (g_fds g) (g_maps g) (g_opens g + o) (g_blocks g + l) (g_known g) (g_queues g) (g_fmts g)
    (g_clock g) (g_rows g).
Definition tick (g : ghost) : ghost :=
  Ghost (g_fds g) (g_maps g) (g_opens g) (g_blocks g) (g_known g) (g_queues g) (g_fmts g)
    (S (g_clock g)) (g_rows g).
Definition add_row (r : list Z) (g : ghost) : ghost :=
  Ghost (g_fds g) (g_maps g) (g_opens g) (g_blocks g) (g_known g) (g_queues g) (g_fmts g)
    (g_clock g) (g_rows g ++ [r]).
Definition add_fmt (f : Z * buf_type * (Z * Z)) (g : ghost) : ghost :=
  Ghost (g_fds g) (g_maps g) (g_opens g) (g_blocks g) (g_known g) (g_queues g) (f :: g_fmts g)
    (g_clock g) (g_rows g).
Definition add_queue (q : Z * buf_type * list Z) (known : list (Z * Z)) (g : ghost) : ghost :=
  Ghost (g_fds g) (g_maps g) (g_opens g) (g_blocks g) (known ++ g_known g) (q :: g_queues g)
    (g_fmts g) (g_clock g) (g_rows g).

Record running `{FormatLaws} `{Posix} (w0 w : pworld) (g : ghost) : Prop := {
  r_held : held (pc w0) (pc w) (g_fds g) (g_maps g);
  r_open : uopen (pu w) = uopen (pu w0) + g_opens g;
  r_live : ulive (pu w) = ulive (pu w0) + g_blocks g;
  r_known : forall a len, (a, len) ∈ g_known g -> cmaps (pc w) !! a = Some len;
  r_queues : forall fd t lens, (fd, t, lens) ∈ g_queues g -> bufs_of (cdev (pc w)) fd t = lens;
  r_fmts : forall fd t f, (fd, t, f) ∈ g_fmts g -> fmt_of (cdev (pc w)) fd t = f;
  r_clock : cclock (pc w) = g_clock g;
  r_rows : prow w = g_rows g;
  r_crc : table_ok (pcrc w)
}.

(** A program to start, and what it holds then. *)
Record start_ok `{V4l2} `{Posix} (w : pworld) : Prop := {
  st_proc : proc_ok (pc w);
  st_crc : table_ok (pcrc w)
}.
Definition nothing `{V4l2} `{Posix} (w : pworld) : ghost :=
  Ghost [] [] 0 0 [] [] [] (cclock (pc w)) (prow w).

(** At the end everything was given back. *)
Record balanced `{V4l2} `{Posix} (w w' : pworld) : Prop := {
  b_fds : cfds (pc w') = cfds (pc w);
  b_maps : cmaps (pc w') = cmaps (pc w);
  b_open : uopen (pu w') = uopen (pu w);
  b_live : ulive (pu w') = ulive (pu w)
}.

(** The array of buffers mirrors a queue: entry [i] is mapped with the length
    of buffer [i]. *)
Definition shows (bufs : list vpipe_mmap_buffer) (lens : list Z) (known : list (Z * Z)) : Prop :=
  forall i len, lens !! i = Some len ->
    exists b, bufs !! i = Some b /\ b_length b = len /\ (addr b, len) ∈ known.

Lemma shows_mono bufs lens known known' :
  shows bufs lens known -> known ⊆ known' -> shows bufs lens known'.
Proof. intros Hs Hk i len Hi. destruct (Hs i len Hi) as (b & ? & ? & ?). exists b. auto. Qed.

Lemma balanced_refl `{V4l2} `{Posix} w : balanced w w.
Proof. done. Qed.

Section Specs.
Context `{V4l2Laws} `{!BufferLaws} `{!FormatLaws} `{Posix}.
Context (w0 : pworld) (Hok : proc_ok (pc w0)).
Implicit Types g : ghost.
Implicit Types w : pworld.

Lemma running_start : table_ok (pcrc w0) -> running w0 w0 (nothing w0).
Proof.
  intros Hc. split; cbn; try done; try lia; try (by intros * ?%not_elem_of_nil). apply held_refl.
Qed.

Lemma running_end w g :
  running w0 w g -> (forall x, 0 <= x -> x ∉ g_fds g) -> (forall a, 0 < a -> a ∉ g_maps g) ->
  g_opens g = 0 -> g_blocks g = 0 -> balanced w0 w.
Proof.
  intros [R1 R2 R3 _ _ _ _ _ _] Hf Hm Ho Hl.
  destruct (held_nil (pc w0) (pc w)) as [E1 E2].
  { eapply held_ext; [exact R1| |]; intros x Hx; split; try (by intros ?%not_elem_of_nil);
      intros Hin; exfalso; [by apply (Hf x)|by apply (Hm x)]. }
  split; [done|done|lia|lia].
Qed.

(** Then another program can start where this one ended. *)
Lemma running_restart w g :
  running w0 w g -> (forall x, 0 <= x -> x ∉ g_fds g) -> (forall a, 0 < a -> a ∉ g_maps g) -> start_ok w.
Proof.
  intros [[R1 _ R3 R4 _ R6] _ _ _ _ _ _ _ R9] Hf Hm. destruct Hok as [P1 P2 P3 P4]. split; [|done]. split.
  - lia.
  - lia.
  - intros a Ha. rewrite R4 in Ha by (intros [? Hin]; by eapply Hm). apply P3 in Ha. lia.
  - intros x Hx. rewrite R1 in Hx by (intros [? Hin]; by eapply Hf). apply P4 in Hx. lia.
Qed.

(** What is held may be listed in any way, and knowledge forgotten. *)
Lemma running_weaken w g g' :
  running w0 w g ->
  (forall x, 0 <= x -> (x ∈ g_fds g' <-> x ∈ g_fds g)) -> (forall a, 0 < a -> (a ∈ g_maps g' <-> a ∈ g_maps g)) ->
  g_opens g' = g_opens g -> g_blocks g' = g_blocks g ->
  g_known g' ⊆ g_known g -> g_queues g' ⊆ g_queues g -> g_fmts g' ⊆ g_fmts g ->
  g_clock g' = g_clock g -> g_rows g' = g_rows g -> running w0 w g'.
Proof.
  intros [R1 R2 R3 R4 R5 R6 R7 R8 R9] Hf Hm Eo El Hk Hq Hs Ec Er. split.
  - by eapply held_ext.
  - congruence.
  - congruence.
  - intros a len Ha. by apply R4, Hk.
  - intros fd t lens Hl. by apply R5, Hq.
  - intros fd t f Hl. by apply R6, Hs.
  - congruence.
  - congruence.
  - done.
Qed.

(** Steps of the devices that leave queues and formats alone. *)
Lemma running_dev w g d :
  running w0 w g -> bufs_of d = bufs_of (cdev (pc w)) -> fmt_of d = fmt_of (cdev (pc w)) ->
  running w0 (PWorld (set_cdev d (pc w)) (pu w) (prow w) (pcrc w)) g.
Proof.
  intros [R1 R2 R3 R4 R5 R6 R7 R8 R9] Eb Ef. split; cbn [pc pu prow pcrc set_cdev cmaps cclock cdev]; try done.
  - eapply held_frame; [exact R1|done..].
  - intros fd t lens Hl. rewrite Eb. auto.
  - intros fd t f Hl. rewrite Ef. auto.
Qed.

Definition is_s_fmt (r : request) : bool := match r with S_FMT _ _ _ _ _ => true | _ => false end.
Definition plain (r : request) : bool := negb (makes_fd r) && negb (is_reqbufs r) && negb (is_s_fmt r).

Lemma answers_fmt fd r d a d' : is_s_fmt r = false -> answers fd r d a d' -> fmt_of d' = fmt_of d.
Proof.
  intros Hr. assert (Hk : match r with S_FMT _ _ _ _ _ => False | _ => True end) by (by destruct r).
  induction 1 as [d a d' E _|d a0 d1 a d' E _ _ IH]; [by eapply fmt_keeps|].
  rewrite IH. by eapply fmt_keeps.
Qed.

Lemma wp_sys_xioctl fd r Q w g :
  running w0 w g -> plain r = true ->
  (forall a w' d', answers fd r (cdev (pc w)) a d' -> running w0 w' g -> Q a w') ->
  wp (sys (vpipe_xioctl fd r)) Q w.
Proof.
  intros Hr Hp HQ. unfold plain in Hp. apply wp_zoom, wp_xioctl.
  { destruct (makes_fd r); [done|done]. }
  intros a d' Ha. eapply HQ; [exact Ha|]. apply running_dev; [done| |].
  - eapply answers_keeps; [|exact Ha]. by destruct (makes_fd r), (is_reqbufs r).
  - eapply answers_fmt; [|exact Ha]. by destruct (makes_fd r), (is_reqbufs r), (is_s_fmt r).
Qed.

Lemma wp_sys_bind {A B} (c : F cproc A) (k : A -> F cproc B) Q w :
  wp (sys c) (fun a => wp (sys (k a)) Q) w -> wp (sys (fbind c k)) Q w.
Proof.
  unfold wp, sys, zoom, fbind. destruct (c (pc w)) as [[a s]|]; [|done]. cbn [pc pu prow pcrc].
  by destruct (k a s) as [[b s']|].
Qed.

Lemma wp_lib_bind {A B} (c : F uworld A) (k : A -> F uworld B) Q w :
  wp (lib c) (fun a => wp (lib (k a)) Q) w -> wp (lib (fbind c k)) Q w.
Proof.
  unfold wp, lib, zoom, fbind. destruct (c (pu w)) as [[a s]|]; [|done]. cbn [pc pu prow pcrc].
  by destruct (k a s) as [[b s']|].
Qed.

(** Calls that change nothing a program keeps track of. *)
Definition quiet {A} (c : F cproc A) : Prop :=
  forall w g (Q : A -> pworld -> Prop), running w0 w g ->
    (forall a w', running w0 w' g -> Q a w') -> wp (sys c) Q w.

Lemma quiet_ret {A} (a : A) : quiet (fret a).
Proof. intros [] g Q Hr HQ. by apply HQ. Qed.

Lemma quiet_bind {A B} (c : F cproc A) (k : A -> F cproc B) :
  quiet c -> (forall a, quiet (k a)) -> quiet (fbind c k).
Proof. intros Hc Hk w g Q Hr HQ. apply wp_sys_bind, (Hc w g); [done|]. intros a w' Hr'. by apply (Hk a w' g). Qed.

Lemma quiet_xioctl fd r : plain r = true -> quiet (vpipe_xioctl fd r).
Proof. intros Hp w g Q Hr HQ. eapply wp_sys_xioctl; [exact Hr|done|]. eauto. Qed.

Lemma quiet_set_ctrl fd i v : quiet (set_ctrl fd i v).
Proof. apply quiet_bind; [by apply quiet_xioctl|]. intros. apply quiet_ret. Qed.
Lemma quiet_queue_dmabuf fd i x b l : quiet (queue_dmabuf fd i x b l).
Proof. apply quiet_bind; [by apply quiet_xioctl|]. intros. apply quiet_ret. Qed.
Lemma quiet_requeue fd t m a : quiet (requeue fd t m a).
Proof. apply quiet_bind; [by apply quiet_xioctl|]. intros. apply quiet_ret. Qed.
Lemma quiet_streamoff b fd t : quiet (streamoff_if b fd t).
Proof.
  destruct b; [|apply quiet_ret]. apply quiet_bind; [by apply quiet_xioctl|]. intros. apply quiet_ret.
Qed.
Lemma quiet_sizeimage fd t : quiet (vpipe_get_sizeimage fd t).
Proof.
  apply quiet_bind; [by apply quiet_xioctl|]. intros a. destruct (_ <? _); apply quiet_ret.
Qed.

Lemma quiet_meta fd : quiet (read_meta_entry fd).
Proof.
  intros w g Q Hr HQ. apply wp_zoom. unfold wp, read_meta_entry.
  pose proof (entry_keeps fd (cdev (pc w))) as E1. pose proof (entry_fmt fd (cdev (pc w))) as E2.
  destruct (read_entry fd (cdev (pc w))) as [[r e] d]. apply HQ. by apply running_dev.
Qed.

Lemma wp_sys_read fd n Q w g :
  running w0 w g ->
  (forall r l w', running w0 w' g -> Forall in_u8 l ->
     (r < 0 \/ r = Z.of_nat (length l) /\ (length l <= Z.to_nat n)%nat) -> Q (r, l) w') ->
  wp (sys (read fd n)) Q w.
Proof.
  intros Hr HQ. apply wp_zoom. unfold wp, read.
  pose proof (read_keeps fd n (cdev (pc w))) as E1. pose proof (read_fmt fd n (cdev (pc w))) as E2.
  destruct (read_dev fd n (cdev (pc w))) as [[r l] d]. destruct (Z.ltb_spec r 0).
  - apply HQ; [by apply running_dev|done|by left].
  - apply HQ; [by apply running_dev| |right].
    + apply Forall_fmap, Forall_true. intros x. unfold in_u8, compose, u8. apply Z.mod_pos_bound. lia.
    + split; [done|]. rewrite length_fmap, length_take. lia.
Qed.

Lemma quiet_minflt : quiet getrusage_minflt.
Proof.
  intros w g Q [R1 R2 R3 R4 R5 R6 R7 R8 R9] HQ. apply wp_zoom. unfold wp, getrusage_minflt. apply HQ.
  split; cbn [pc pu prow pcrc cmaps cclock cdev]; try done. eapply held_frame; [exact R1|done..].
Qed.

Lemma wp_sys_now Q w g :
  running w0 w g -> (forall w', running w0 w' (tick g) -> Q (reading (g_clock g)) w') ->
  wp (sys vpipe_now_monotonic_ns) Q w.
Proof.
  intros [R1 R2 R3 R4 R5 R6 R7 R8 R9] HQ. apply wp_zoom. unfold wp, vpipe_now_monotonic_ns.
  rewrite R7. apply HQ. split; cbn [pc pu prow pcrc cmaps cclock cdev]; try done.
  eapply held_frame; [exact R1|done..].
Qed.

(** The same knowledge at a later reading of the clock. *)
Definition at_clock (c : nat) (g : ghost) : ghost :=
  Ghost (g_fds g) (g_maps g) (g_opens g) (g_blocks g) (g_known g) (g_queues g) (g_fmts g) c (g_rows g).

(** *** Descriptors *)

Lemma wp_sys_open path Q w g :
  running w0 w g ->
  (forall r w', running w0 w' (add_fd r g) -> (forall x, 0 <= x -> x ∈ g_fds g -> r <> x) -> Q r w') ->
  wp (sys (open path)) Q w.
Proof.
  intros [R1 R2 R3 R4 R5 R6 R7 R8 R9] HQ. apply wp_zoom. unfold wp, open.
  destruct (open_ok path _); (apply HQ; [|intros x Hx Hin; pose proof (h_newfd _ _ _ _ R1 x (conj Hx Hin)); lia]);
    (split; cbn [pc pu prow pcrc cmaps cclock cdev g_opens g_blocks g_known g_queues g_fmts g_clock g_rows
       add_fd g_fds g_maps]; try done).
  - apply held_newfd; [done|]. apply Hok.
  - eapply held_ext; [eapply held_frame; [exact R1|done..]| |done].
    intros x Hx. rewrite elem_of_cons. split; [|auto]. intros [->|]; [lia|done].
Qed.

(** A request that installs a descriptor. *)
Lemma wp_sys_fd_ioctl (c : Z -> request -> F cproc answer) fd r Q w g :
  c = vpipe_xioctl \/ c = do_ioctl ->
  running w0 w g -> makes_fd r = true ->
  (forall a w', running w0 w' (add_fd (if a_ret a <? 0 then -1 else a_m a) g) -> Q a w') ->
  wp (sys (c fd r)) Q w.
Proof.
  intros Hc [R1 R2 R3 R4 R5 R6 R7 R8 R9] Hm HQ. apply wp_zoom.
  assert (Hk : forall a d', bufs_of d' = bufs_of (cdev (pc w)) -> fmt_of d' = fmt_of (cdev (pc w)) ->
    if installs r a
    then Q (with_m (cfdn (pc w)) a) (PWorld (CProc d' (cnext (pc w)) (cmaps (pc w)) (cfdn (pc w) + 1)
           ({[cfdn (pc w)]} ∪ cfds (pc w)) (ccalls (pc w)) (cclock (pc w))) (pu w) (prow w) (pcrc w))
    else Q a (PWorld (set_cdev d' (pc w)) (pu w) (prow w) (pcrc w))).
  { intros a d' Eb Ef. unfold installs. rewrite Hm. cbn [andb].
    destruct ((0 <=? a_ret a) && (0 <=? a_m a)) eqn:E; apply HQ;
      (split; cbn [pc pu prow pcrc cmaps cclock cdev g_opens g_blocks g_known g_queues g_fmts g_clock g_rows
         add_fd g_fds g_maps set_cdev]; try done; try (intros *; rewrite ?Eb, ?Ef; auto)).
    - cbn [with_m a_ret a_m]. destruct (Z.ltb_spec (a_ret a) 0); [lia|]. apply held_newfd; [done|apply Hok].
    - eapply held_ext; [eapply held_frame; [exact R1|done..]| |done].
      intros x Hx. rewrite elem_of_cons. split; [|auto]. intros [->|]; [|done].
      destruct (Z.ltb_spec (a_ret a) 0); lia. }
  assert (Hrq : is_reqbufs r = false /\ is_s_fmt r = false) by (by destruct r). destruct Hrq as [Hrb Hsf].
  destruct Hc as [-> | ->].
  - apply wp_xioctl_gen. intros a d' Ha. apply Hk.
    + by eapply answers_keeps.
    + by eapply answers_fmt.
  - unfold wp, do_ioctl. destruct (ioctl fd r (cdev (pc w))) as [a d'] eqn:E.
    specialize (Hk a d'). unfold installs in Hk.
    destruct (makes_fd r && _ && _); apply Hk;
      (by eapply ioctl_keeps) || (eapply fmt_keeps; [|exact E]; by destruct r).
Qed.

Lemma wp_sys_export fd t i Q w g :
  running w0 w g -> (forall x w', running w0 w' (add_fd x g) -> Q x w') ->
  wp (sys (export_dmabuf fd t i)) Q w.
Proof.
  intros Hr HQ. apply wp_sys_bind. eapply (wp_sys_fd_ioctl vpipe_xioctl); [by left|exact Hr|done|].
  intros a [c u rw cs] Hr'. destruct (a_ret a <? 0); by apply HQ.
Qed.

(** Closing a descriptor the program holds. *)
Lemma wp_sys_close fd fds Q w g :
  running w0 w g -> 0 <= fd -> (forall x, 0 <= x -> (x ∈ fd :: fds <-> x ∈ g_fds g)) ->
  (forall w', running w0 w' (set_held fds (g_maps g) g) -> Q tt w') ->
  wp (sys (close fd)) Q w.
Proof.
  intros Hr Hfd Hx HQ. apply wp_zoom. unfold wp, close. apply HQ.
  destruct Hr as [R1 R2 R3 R4 R5 R6 R7 R8 R9].
  split; cbn [pc pu prow pcrc cmaps cclock cdev g_opens g_blocks g_known g_queues g_fmts g_clock g_rows
    set_held g_fds g_maps]; try done.
  apply held_close; [done| |done]. eapply held_ext; [exact R1|done|done].
Qed.

Lemma wp_sys_close_if fd fds Q w g :
  running w0 w g -> (forall x, 0 <= x -> (x ∈ fd :: fds <-> x ∈ g_fds g)) ->
  (forall w', running w0 w' (set_held fds (g_maps g) g) -> Q tt w') ->
  wp (sys (close_if fd)) Q w.
Proof.
  intros Hr Hx HQ. unfold close_if. destruct (Z.leb_spec 0 fd); [by eapply wp_sys_close|].
  destruct w as [c u rw cs]. apply HQ. eapply running_weaken; [exact Hr|try done..]. cbn.
  intros x Hx0. rewrite <- Hx by done. rewrite elem_of_cons. split; [auto|]. intros [->|]; [lia|done].
Qed.

Lemma wp_sys_heap_alloc path len Q w g :
  running w0 w g -> (forall x w', running w0 w' (add_fd x g) -> Q x w') ->
  wp (sys (dma_heap_alloc_fd path len)) Q w.
Proof.
  intros Hr HQ. apply wp_sys_bind. eapply wp_sys_open; [exact Hr|]. clear Hr.
  intros h w1 Hr _. destruct (Z.ltb_spec h 0) as [Hh|Hh].
  { destruct w1 as [c u rw cs]. apply HQ. eapply running_weaken; [exact Hr|try done..]. cbn. intros x Hx.
    rewrite !elem_of_cons. intuition lia. }
  apply wp_sys_bind. eapply (wp_sys_fd_ioctl do_ioctl); [by right|exact Hr|done|]. clear Hr. intros a w2 Hr.
  destruct (Z.ltb_spec (a_ret a) 0); apply wp_sys_bind;
    [eapply (wp_sys_close h (-1 :: g_fds g))|eapply (wp_sys_close h (a_m a :: g_fds g))];
    [exact Hr|done|cbn; intros x Hx; rewrite !elem_of_cons; tauto|
     |exact Hr|done|cbn; intros x Hx; rewrite !elem_of_cons; tauto|];
    (clear Hr; intros [c u rw cs] Hr; by apply HQ).
Qed.

(** *** Formats and buffers *)

Definition not_in {B} (fd : Z) (t : buf_type) (l : list (Z * buf_type * B)) : Prop :=
  forall b, (fd, t, b) ∉ l.

Lemma answers_s_fmt fd t x y d a d' : answers fd (S_FMT t x y V4L2_PIX_FMT_GREY V4L2_FIELD_NONE) d a d' ->
  (forall fd' t', fd' <> fd \/ a_ret a < 0 -> fmt_of d' fd' t' = fmt_of d fd' t') /\
  (0 <= a_ret a -> fmt_of d' fd t = geometry fd x y /\
   forall t', fmt_of d' fd t' = fmt_of d fd t' \/ fmt_of d' fd t' = geometry fd x y).
Proof.
  remember (S_FMT t x y V4L2_PIX_FMT_GREY V4L2_FIELD_NONE) as r eqn:Er.
  induction 1 as [d a d' E _|d a0 d1 a d' E Hi _ [IH1 IH2]]; subst r; split.
  - by eapply s_fmt_other.
  - intros Ha. by eapply s_fmt_sets.
  - intros fd' t' Hne. rewrite IH1 by done. eapply s_fmt_other; [done|]. right.
    unfold interrupted in Hi. lia.
  - intros Ha. destruct (IH2 Ha) as [Hs Ho]. split; [done|]. intros t'.
    rewrite <- (s_fmt_other fd t x y _ _ _ _ _ E fd t'); [by apply Ho|]. right. unfold interrupted in Hi. lia.
Qed.

(** The formats known of the device have to be the ones this call sets. *)
Lemma wp_sys_set_format fd t x y Q w g :
  running w0 w g -> (forall t' f, (fd, t', f) ∈ g_fmts g -> f = geometry fd x y) ->
  (forall w', running w0 w' g -> Q (-1) w') ->
  (forall w' bpl si, (bpl, si) = geometry fd x y -> running w0 w' (add_fmt (fd, t, (bpl, si)) g) ->
     (supported x y = true -> x <= bpl /\ bpl * y <= si) -> in_u32 si -> Q 0 w') ->
  wp (sys (vpipe_set_format fd t x y V4L2_PIX_FMT_GREY)) Q w.
Proof.
  intros [R1 R2 R3 R4 R5 R6 R7 R8 R9] Hn Hbad Hgood. apply wp_sys_bind, wp_zoom, wp_xioctl; [done|].
  intros a d' Ha. destruct (answers_s_fmt _ _ _ _ _ _ _ Ha) as [Ho Hset].
  assert (Hr' : running w0 (PWorld (set_cdev d' (pc w)) (pu w) (prow w) (pcrc w)) g).
  { split; cbn [pc pu prow pcrc set_cdev cmaps cclock cdev]; try done.
    - eapply held_frame; [exact R1|done..].
    - intros fd' t' lens Hl. rewrite (answers_keeps _ _ _ _ _ (eq_refl : is_reqbufs (S_FMT _ _ _ _ _) = false) Ha).
      by apply R5.
    - intros fd' t' f Hl. destruct (Z.eq_dec fd' fd) as [->|]; [|rewrite Ho by auto; by apply R6].
      destruct (Z.ltb_spec (a_ret a) 0) as [Hlt|Hge]; [rewrite Ho by auto; by apply R6|].
      destruct (Hset Hge) as [_ Hq]. rewrite (Hn t' f Hl). specialize (Hn t' f Hl). subst f.
      destruct (Hq t') as [E | E]; rewrite E; [by apply R6|done]. }
  destruct (Z.ltb_spec (a_ret a) 0) as [Hlt|Hge]; [by apply Hbad|]. destruct (Hset Hge) as [Hs _].
  apply (Hgood _ (fst (geometry fd x y)) (snd (geometry fd x y))).
  - by destruct (geometry fd x y).
  - destruct Hr' as [S1 S2 S3 S4 S5 S6 S7 S8 S9]. split; try done. cbn.
    intros fd' t' f [[= -> -> ->]|Hin]%elem_of_cons; [rewrite Hs; by destruct (geometry fd x y)|by apply S6].
  - apply geometry_holds.
  - rewrite <- Hs. apply fmt_u32.
Qed.

(** The geometry a queue reports. *)
Lemma wp_sys_g_fmt fd t Q w g :
  running w0 w g ->
  (forall a w', running w0 w' g ->
     (forall f, 0 <= a_ret a -> (fd, t, f) ∈ g_fmts g -> (a_bytesperline a, a_sizeimage a) = f) -> Q a w') ->
  wp (sys (vpipe_xioctl fd (G_FMT t))) Q w.
Proof.
  intros Hr HQ. eapply wp_sys_xioctl; [exact Hr|done|]. intros a w' d' Ha Hr'. apply HQ; [done|].
  intros f Hge Hin. apply (r_fmts _ _ _ Hr) in Hin as <-. clear Hr' HQ Hr w'.
  remember (G_FMT t) as r eqn:Er.
  induction Ha as [d a d' E _|d a0 d1 a d' E Hi _ IH]; subst r; [by eapply g_fmt_tells|].
  rewrite (IH Hge). erewrite (fmt_keeps fd (G_FMT t)); done.
Qed.

Lemma wp_sys_sizeimage fd t Q w g f :
  running w0 w g -> (fd, t, f) ∈ g_fmts g ->
  (forall w', running w0 w' g -> Q 0 w') -> (forall w', running w0 w' g -> Q (snd f) w') ->
  wp (sys (vpipe_get_sizeimage fd t)) Q w.
Proof.
  intros Hr Hin Hz Hs. apply wp_sys_bind. eapply wp_sys_g_fmt; [exact Hr|]. intros a w' Hr' Ha.
  destruct w' as [c u rw cs]. destruct (Z.ltb_spec (a_ret a) 0) as [|Hge]; [by apply Hz|].
  specialize (Ha f Hge Hin). subst f. by apply Hs.
Qed.

(** A bare [VIDIOC_REQBUFS]. *)
Lemma wp_sys_reqbufs fd t n m Q w g :
  running w0 w g -> not_in fd t (g_queues g) ->
  (forall a w', running w0 w' g -> Q a w') ->
  wp (sys (vpipe_xioctl fd (REQBUFS t n m))) Q w.
Proof.
  intros [R1 R2 R3 R4 R5 R6 R7 R8 R9] Hn HQ. apply wp_zoom, wp_xioctl; [done|]. intros a d' Ha.
  destruct (answers_reqbufs _ _ _ _ _ _ _ Ha) as [_ Ho]. apply HQ.
  split; cbn [pc pu prow pcrc set_cdev cmaps cclock cdev]; try done.
  - eapply held_frame; [exact R1|done..].
  - intros fd' t' lens Hl. rewrite Ho; [by apply R5|]. intros [= -> ->]. by apply (Hn lens).
  - intros fd' t' f Hl. rewrite (answers_fmt _ _ _ _ _ (eq_refl : is_s_fmt (REQBUFS _ _ _) = false) Ha).
    by apply R6.
Qed.

Lemma answers_reqbufs_fmt fd t c d a d' : answers fd (REQBUFS t c V4L2_MEMORY_MMAP) d a d' ->
  0 <= a_ret a -> Forall (fun len => snd (fmt_of d fd t) <= len) (bufs_of d' fd t).
Proof.
  remember (REQBUFS t c V4L2_MEMORY_MMAP) as r eqn:Er.
  induction 1 as [d a d' E _|d a0 d1 a d' E Hi _ IH]; subst r; intros Ha; [by eapply reqbufs_holds|].
  erewrite <- (fmt_keeps fd (REQBUFS t c V4L2_MEMORY_MMAP)); [by apply IH|done|done].
Qed.

Lemma wp_sys_dqbuf fd t m Q w g :
  running w0 w g ->
  (forall a w', running w0 w' g -> (0 <= a_ret a -> 0 <= a_index a) ->
     (forall lens, 0 <= a_ret a -> (fd, t, lens) ∈ g_queues g ->
        0 <= a_index a /\ exists len, lens !! Z.to_nat (a_index a) = Some len /\
          (m = V4L2_MEMORY_MMAP -> 0 <= a_bytesused a <= len)) -> Q a w') ->
  wp (sys (dqbuf fd t m)) Q w.
Proof.
  intros Hr HQ. unfold dqbuf. eapply wp_sys_xioctl; [exact Hr|done|]. intros a w' d' Ha Hr'.
  apply HQ; [done|intros Hge; by destruct (answers_dqbuf _ _ _ _ _ _ Ha Hge)|].
  intros lens Hge Hin. apply (r_queues _ _ _ Hr) in Hin as <-.
  by eapply answers_dqbuf.
Qed.

Lemma wp_sys_queue fd t m i x Q w g :
  running w0 w g ->
  (forall r w', running w0 w' g ->
     (forall lens, 0 <= r -> (fd, t, lens) ∈ g_queues g -> is_Some (lens !! Z.to_nat i)) -> Q r w') ->
  wp (sys (vpipe_queue_mmap_buffer fd t m i x)) Q w.
Proof.
  intros Hr HQ. apply wp_sys_bind. eapply wp_sys_xioctl; [exact Hr|done|]. intros a w' d' Ha Hr'.
  destruct w' as [c u rw cs]. apply HQ; [done|]. intros lens Hge Hin.
  apply (r_queues _ _ _ Hr) in Hin as <-. exact (answers_qbuf _ _ _ _ _ Ha Hge).
Qed.

(** *** Memory *)

Lemma wp_aget {A} (l : list A) i x (Q : A -> pworld -> Prop) w :
  0 <= i -> l !! Z.to_nat i = Some x -> Q x w -> wp (aget l i) Q w.
Proof.
  intros Hi Hl HQ. unfold aget. destruct (Z.ltb_spec i 0); [lia|]. unfold wp, flift. by rewrite Hl.
Qed.

Lemma wp_aset {A} (l : list A) i v (Q : list A -> pworld -> Prop) w :
  0 <= i < Z.of_nat (length l) -> Q (<[Z.to_nat i := v]> l) w -> wp (aset l i v) Q w.
Proof. intros Hi HQ. unfold aset. destruct ((0 <=? i) && (i <? Z.of_nat (length l))) eqn:E; [done|lia]. Qed.

Lemma wp_sys_mmap len fd off Q w g :
  running w0 w g ->
  (forall w', running w0 w' g -> Q MAP_FAILED w') ->
  (forall m w', 0 < m -> running w0 w' (add_map m len g) -> Q m w') ->
  wp (sys (mmap len fd off)) Q w.
Proof.
  intros [R1 R2 R3 R4 R5 R6 R7 R8 R9] Hbad Hgood. pose proof (held_fresh _ _ _ _ Hok R1) as Hfr.
  pose proof (h_next _ _ _ _ R1) as Hnx. pose proof (po_next _ Hok) as Hn0.
  apply wp_zoom. unfold wp, mmap. destruct (mmap_ok _ _ _ _); [apply Hgood; [lia|]|apply Hbad];
    (split; cbn [pc pu prow pcrc cmaps cclock cdev g_opens g_blocks g_known g_queues g_fmts g_clock g_rows
       add_map g_fds g_maps]; try done).
  - by apply held_newmap.
  - intros a l [[= -> ->]|Hin]%elem_of_cons; [by rewrite lookup_insert_eq|].
    rewrite lookup_insert_ne; [by apply R4|]. intros <-. apply R4 in Hin. congruence.
  - eapply held_frame; [exact R1|done..].
Qed.

(** Unmapping a mapping the program holds; what was known of mappings has to
    be forgotten first. *)
Lemma wp_sys_munmap a maps Q w g :
  running w0 w g -> g_known g = [] -> (forall b, 0 < b -> (b ∈ a :: maps <-> b ∈ g_maps g)) ->
  (forall w', running w0 w' (set_held (g_fds g) maps g) -> Q tt w') ->
  wp (sys (munmap a)) Q w.
Proof.
  intros [R1 R2 R3 R4 R5 R6 R7 R8 R9] Hk Hm HQ. apply wp_zoom. unfold wp, munmap. apply HQ.
  split; cbn [pc pu prow pcrc cmaps cclock cdev g_opens g_blocks g_known g_queues g_fmts g_clock g_rows
    set_held g_fds g_maps]; try done.
  - apply held_munmap; [done|]. by eapply held_ext.
  - rewrite Hk. by intros ? ? ?%not_elem_of_nil.
Qed.

Lemma wp_sys_load a n len Q w g :
  running w0 w g -> (a, len) ∈ g_known g -> 0 <= n <= len ->
  (forall l w', running w0 w' g -> length l = Z.to_nat n -> Forall in_u8 l -> Q l w') ->
  wp (sys (load_bytes a n)) Q w.
Proof.
  intros Hr Hin Hn HQ. apply wp_zoom. unfold wp, load_bytes. rewrite (r_known _ _ _ Hr _ _ Hin).
  assert ((0 <=? n) && (n <=? len) = true) as -> by lia. destruct w as [c u rw cs]. apply HQ; [done| |].
  - rewrite length_fmap, length_seqZ. lia.
  - apply Forall_fmap, Forall_true. intros x. unfold in_u8, compose, u8. apply Z.mod_pos_bound. lia.
Qed.

Lemma wp_sys_store a l len Q w g :
  running w0 w g -> (a, len) ∈ g_known g -> Z.of_nat (length l) <= len ->
  (forall w', running w0 w' g -> Q tt w') -> wp (sys (store_bytes a l)) Q w.
Proof.
  intros Hr Hin Hn HQ. apply wp_zoom. unfold wp, store_bytes. rewrite (r_known _ _ _ Hr _ _ Hin).
  assert ((Z.of_nat (length l) <=? len) = true) as -> by lia. apply HQ.
  apply running_dev; [done|apply poke_keeps|apply poke_fmt].
Qed.

Lemma wp_memcpy_maps dst src n ld ls Q w g :
  running w0 w g -> 0 <= n -> (n <> 0 -> (src, ls) ∈ g_known g /\ (dst, ld) ∈ g_known g /\ n <= ls /\ n <= ld) ->
  (forall w', running w0 w' g -> Q tt w') -> wp (memcpy_maps dst src n) Q w.
Proof.
  intros Hr Hn Hk HQ. unfold memcpy_maps. destruct (Z.eqb_spec n 0) as [->|Hne]; [by apply HQ|].
  destruct (Hk Hne) as (Hs & Hd & H1s & H1d). apply wp_bind.
  eapply wp_sys_load; [exact Hr|exact Hs|lia|]. clear Hr. intros l w' Hr Hl _.
  eapply wp_sys_store; [exact Hr|exact Hd|lia|done].
Qed.

Lemma wp_crc32_list data len Q w g :
  running w0 w g -> Forall in_u8 data -> 0 <= len <= Z.of_nat (length data) ->
  (forall w', running w0 w' g -> Q (crc_ref (take (Z.to_nat len) data)) w') ->
  wp (crc32_list data len) Q w.
Proof.
  intros [R1 R2 R3 R4 R5 R6 R7 R8 R9] Hd Hl HQ. unfold wp, crc32_list. rewrite crc32_ok by done.
  by apply HQ.
Qed.

Lemma wp_crc32_at a n len Q w g :
  running w0 w g -> (a, len) ∈ g_known g -> 0 <= n <= len ->
  (forall l w', running w0 w' g -> Z.of_nat (length l) = n -> Forall in_u8 l -> Q (crc_ref l) w') ->
  wp (crc32_at a n) Q w.
Proof.
  intros Hr Hin Hn HQ. unfold crc32_at. apply wp_bind. eapply wp_sys_load; [exact Hr|exact Hin|done|].
  intros l w' Hr' Hl Hu. eapply wp_crc32_list; [exact Hr'|done|lia|]. rewrite <- Hl, firstn_all.
  intros w2 Hr2. apply HQ; [done|lia|done].
Qed.

Lemma wp_emit row Q w g :
  running w0 w g -> (forall w', running w0 w' (add_row row g) -> Q tt w') -> wp (emit row) Q w.
Proof.
  intros [R1 R2 R3 R4 R5 R6 R7 R8 R9] HQ. unfold wp, emit, fmodify. apply HQ.
  split; cbn; try done. by rewrite R8.
Qed.

(** *** Buffer arrays *)

Definition own_maps (n : nat) (bufs : list vpipe_mmap_buffer) (g : ghost) : ghost :=
  set_held (g_fds g) (maps_of (take n bufs) ++ g_maps g) g.
Definition own_array (n : nat) (bufs : list vpipe_mmap_buffer) (g : ghost) : ghost :=
  set_held (fds_of (take n bufs) ++ g_fds g) (maps_of (take n bufs) ++ g_maps g) g.

(** Requesting buffers leaves the formats alone, and the buffers hold an image
    of the queue's format. *)
Lemma request_loop_fmt k i fd t bufs p :
  (Z.to_nat i + k <= length bufs)%nat -> 0 <= i ->
  wp (request_loop k i fd t bufs)
     (fun _ p' => fmt_of (cdev p') = fmt_of (cdev p) /\ bufs_of (cdev p') = bufs_of (cdev p)) p.
Proof.
  revert i bufs p. induction k as [|k IH]; intros i bufs p Hk Hi; [done|].
  cbn [request_loop]. apply wp_bind, wp_xioctl; [done|]. intros a d' Ha.
  pose proof (answers_fmt _ _ _ _ _ (eq_refl : is_s_fmt (QUERYBUF t i _) = false) Ha) as Ef.
  pose proof (answers_keeps _ _ _ _ _ (eq_refl : is_reqbufs (QUERYBUF t i _) = false) Ha) as Eb.
  destruct (_ <? _); [done|]. destruct (lookup_lt_is_Some_2 bufs (Z.to_nat i)) as [b Hb]; [lia|].
  apply wp_bind. unfold set_buf at 1. rewrite Hb. apply wp_ret, wp_bind.
  unfold wp at 1, mmap. destruct (mmap_ok _ _ _ _); apply wp_bind; unfold set_buf;
    rewrite list_lookup_insert_eq by lia; apply wp_ret; (destruct (Z.eqb _ _); [by apply wp_ret|]).
  all: eapply wp_mono; [apply IH; [rewrite !length_insert; lia|lia]|]; cbn; intros ? ? [-> ->]; done.
Qed.

Lemma request_fmt fd t n bufs p :
  (2 <= n <= length bufs)%nat ->
  wp (vpipe_request_mmap_buffers fd t (Z.of_nat n) bufs)
     (fun r p' => fmt_of (cdev p') = fmt_of (cdev p) /\
        (0 <= fst r -> Forall (fun len => snd (fmt_of (cdev p) fd t) <= len) (bufs_of (cdev p') fd t))) p.
Proof.
  intros Hn. unfold vpipe_request_mmap_buffers. apply wp_bind, wp_xioctl; [done|]. intros a d' Ha.
  pose proof (answers_fmt _ _ _ _ _ (eq_refl : is_s_fmt (REQBUFS t (Z.of_nat n) _) = false) Ha) as Ef.
  destruct (answers_reqbufs _ _ _ _ _ _ _ Ha) as [Hc _].
  destruct (Z.ltb_spec (a_ret a) 0) as [|Hge]; [by apply wp_ret|].
  destruct (Hc Hge) as [_ Hle]. apply wp_bind. eapply wp_mono; [apply request_loop_fmt; lia|].
  cbn [set_cdev cdev]. intros r p' [E1 E2]. destruct (fst r <? 0) eqn:Er; apply wp_ret; cbn [fst].
  - split; [congruence|lia].
  - split; [congruence|]. intros _. rewrite E2. by eapply answers_reqbufs_fmt.
Qed.

Lemma wp_sys_request0 fd t n bufs Q w g :
  running w0 w g -> not_in fd t (g_queues g) -> (2 <= n <= length bufs)%nat -> Forall unmapped (take n bufs) ->
  (forall r bufs' w', r < 0 -> length bufs' = length bufs -> drop n bufs' = drop n bufs ->
     (forall j b, bufs' !! j = Some b -> bufs !! j = Some b \/ dmabuf_fd b = -1) ->
     running w0 w' (own_maps n bufs' g) -> Q (r, bufs') w') ->
  (forall r bufs' w' lens known, 0 <= r -> length bufs' = length bufs -> drop n bufs' = drop n bufs ->
     (forall j b, bufs' !! j = Some b -> bufs !! j = Some b \/ dmabuf_fd b = -1) ->
     (forall j b, (j < length lens)%nat -> bufs' !! j = Some b -> dmabuf_fd b = -1) ->
     (forall j, (length lens <= j)%nat -> bufs' !! j = bufs !! j) ->
     running w0 w' (add_queue (fd, t, lens) known (own_maps n bufs' g)) ->
     shows bufs' lens known -> (length lens <= n)%nat /\ Forall (Z.le 0) lens ->
     (forall f, (fd, t, f) ∈ g_fmts g -> Forall (fun len => snd f <= len) lens) -> Q (r, bufs') w') ->
  wp (sys (vpipe_request_mmap_buffers fd t (Z.of_nat n) bufs)) Q w.
Proof.
  intros [R1 R2 R3 R4 R5 R6 R7 R8 R9] Hni Hn Hbl Hbad Hgood. apply wp_zoom.
  eapply wp_mono; [apply wp_conj; [apply (request_fmt fd t n bufs); done|]|].
  { eapply (wp_request (pc w0) (pc w) fd t n bufs); [done|exact R1|done|done|].
    intros r bufs' p' Hq _. exact (Hq : (fun a p' => requested (pc w0) (pc w) p' fd t n bufs (snd a)
      (g_fds g) (g_maps g) (0 <=? fst a)) (r, bufs') p'). }
  intros [r bufs'] p' [[Ef Hf] [Q1 Q0 Q2 Q3 Q4 Q5 Q6 Q7]]. cbn [fst snd] in *.
  assert (Hr' : running w0 (PWorld p' (pu w) (prow w) (pcrc w)) (own_maps n bufs' g)).
  { split; cbn; try done.
    - intros a len Ha. by eapply lookup_weaken; [apply R4|].
    - intros fd' t' lens Hl. rewrite Q5; [by apply R5|]. intros [= -> ->]. by apply (Hni lens).
    - rewrite Ef. done.
    - congruence. }
  destruct (Z.leb_spec 0 r) as [Hge|Hlt]; [|by apply Hbad]. destruct (Q7 eq_refl) as (Hs & Hl & Hd & Hsm).
  set (lens := bufs_of (cdev p') fd t) in *.
  apply (Hgood r bufs' _ lens ((fun b => (addr b, b_length b)) <$> take (length lens) bufs'));
    [done|done|done|done|done|done| | |split; [done|apply bufs_unsigned]|].
  - destruct Hr' as [S1 S2 S3 S4 S5 S6 S7 S8 S9]. split; try done; cbn.
    + intros a len [Hin|Hin]%elem_of_app; [|by apply S4].
      apply list_elem_of_fmap in Hin as (b & [= -> ->] & Hb). apply list_elem_of_lookup in Hb as [i Hi].
      apply lookup_take_Some in Hi as [Hi Hlt]. destruct (lookup_lt_is_Some_2 lens i Hlt) as [len Hlen].
      destruct (Hs i len Hlen) as (b' & Hb' & <- & Hm). congruence.
    + intros fd' t' ls [[= -> -> ->]|Hin]%elem_of_cons; [done|by apply S5].
  - intros i len Hlen. destruct (Hs i len Hlen) as (b & Hb & Hbl' & _). exists b. split; [done|].
    split; [done|]. apply list_elem_of_fmap. exists b. split; [by rewrite Hbl'|].
    apply list_elem_of_lookup. exists i. apply lookup_take_Some. split; [done|]. by eapply lookup_lt_Some.
  - intros f Hin. apply R6 in Hin as <-. by apply Hf.
Qed.

Lemma own_array_maps n bufs g w :
  (forall x, 0 <= x -> x ∉ fds_of (take n bufs)) -> running w0 w (own_maps n bufs g) ->
  running w0 w (own_array n bufs g).
Proof.
  intros Hn Hr. eapply running_weaken; [exact Hr|try done..]. cbn. intros x Hx.
  rewrite elem_of_app. split; [|auto]. intros [Hin|]; [|done]. by apply Hn in Hin.
Qed.

Lemma wp_sys_request fd t n bufs Q w g :
  running w0 w g -> not_in fd t (g_queues g) -> (2 <= n <= length bufs)%nat -> Forall blank (take n bufs) ->
  (forall r bufs' w', r < 0 -> length bufs' = length bufs -> drop n bufs' = drop n bufs ->
     running w0 w' (own_array n bufs' g) -> Q (r, bufs') w') ->
  (forall r bufs' w' lens known, 0 <= r -> length bufs' = length bufs -> drop n bufs' = drop n bufs ->
     running w0 w' (add_queue (fd, t, lens) known (own_array n bufs' g)) ->
     shows bufs' lens known -> (length lens <= n)%nat /\ Forall (Z.le 0) lens ->
     (forall f, (fd, t, f) ∈ g_fmts g -> Forall (fun len => snd f <= len) lens) ->
     (forall x, 0 <= x -> x ∉ fds_of (take n bufs')) ->
     (forall j, (length lens <= j)%nat -> bufs' !! j = bufs !! j) -> Q (r, bufs') w') ->
  wp (sys (vpipe_request_mmap_buffers fd t (Z.of_nat n) bufs)) Q w.
Proof.
  intros Hr Hni Hn Hbl Hbad Hgood. apply (wp_sys_request0 fd t n bufs Q w g); [done|done|done| | |].
  - eapply Forall_impl; [|exact Hbl]. by intros b [? _].
  - intros r bufs' w' Hlt Hl Hd Hf Hr'. apply Hbad; [done|done|done|].
    apply own_array_maps; [by eapply no_fd_array|done].
  - intros r bufs' w' lens known Hge Hl Hd Hf _ Hsm Hr' Hs Hle Hfm.
    eapply Hgood; [done|done|done| |exact Hs|done|done|by eapply no_fd_array|done].
    eapply running_weaken; [exact Hr'|try done..]. cbn. intros x Hx. rewrite elem_of_app.
    split; [|auto]. intros [Hin|]; [|done]. by eapply no_fd_array in Hin.
Qed.

Lemma wp_sys_unmap n bufs fds maps Q w g :
  running w0 w g -> g_known g = [] -> (n <= length bufs)%nat ->
  (forall x, 0 <= x -> (x ∈ fds_of (take n bufs) ++ fds <-> x ∈ g_fds g)) ->
  (forall a, 0 < a -> (a ∈ maps_of (take n bufs) ++ maps <-> a ∈ g_maps g)) ->
  (forall w', running w0 w' (set_held fds maps g) -> Q tt w') ->
  wp (sys (vpipe_unmap_buffers bufs (Z.of_nat n))) Q w.
Proof.
  intros [R1 R2 R3 R4 R5 R6 R7 R8 R9] Hk Hn Hf Hm HQ. apply wp_zoom.
  eapply (wp_unmap (pc w0) n bufs fds maps); [done|done|by eapply held_ext|].
  intros p' Hh Ed Ec. apply HQ. split; cbn; try done; try congruence.
  - rewrite Hk. by intros ? ? ?%not_elem_of_nil.
  - rewrite Ed. done.
  - rewrite Ed. done.
Qed.

(** *** The C library *)

Lemma running_lib w g u o l :
  running w0 w g -> uopen u = uopen (pu w) + o -> ulive u = ulive (pu w) + l ->
  running w0 (PWorld (pc w) u (prow w) (pcrc w)) (add_lib o l g).
Proof.
  intros [R1 R2 R3 R4 R5 R6 R7 R8 R9] Eo El. split; cbn; try done; lia.
Qed.

(** The C library does not touch the devices or the rows. *)
Lemma wp_lib_keeps {A} (c : F uworld A) Q w :
  wp (lib c) Q w -> wp (lib c) (fun a w' => Q a w' /\ pc w' = pc w /\ prow w' = prow w) w.
Proof. unfold wp, lib, zoom. by destruct (c (pu w)) as [[a u]|]. Qed.

Lemma wp_lib_malloc size Q w g :
  running w0 w g ->
  (forall w', running w0 w' (add_lib 0 0 g) -> Q false w') ->
  (forall w', running w0 w' (add_lib 0 1 g) -> Q true w') -> wp (lib (malloc size)) Q w.
Proof.
  intros Hr Hbad Hgood. apply wp_zoom. unfold wp, malloc.
  destruct (malloc_ok _ _); [apply Hgood|apply Hbad]; apply running_lib; cbn; done || lia.
Qed.

Lemma wp_lib_free Q w g :
  running w0 w g -> (forall w', running w0 w' (add_lib 0 (-1) g) -> Q tt w') -> wp (lib free) Q w.
Proof. intros Hr HQ. apply wp_zoom, HQ, running_lib; cbn; done || lia. Qed.

Lemma wp_lib_fclose_if (b : bool) Q w g :
  running w0 w g -> (forall w', running w0 w' (add_lib (if b then -1 else 0) 0 g) -> Q tt w') ->
  wp (lib (fclose_if b)) Q w.
Proof.
  intros Hr HQ. apply wp_zoom. destruct b; apply HQ, running_lib; cbn; done || lia.
Qed.

Lemma wp_lib_free_if (b : bool) Q w g :
  running w0 w g -> (forall w', running w0 w' (add_lib 0 (if b then -1 else 0) g) -> Q tt w') ->
  wp (lib (free_if b)) Q w.
Proof.
  intros Hr HQ. apply wp_zoom. destruct b; apply HQ, running_lib; cbn; done || lia.
Qed.

Lemma wp_lib_open_csv path h Q w g :
  running w0 w g ->
  (forall w', running w0 w' (add_lib 0 0 g) -> Q false w') ->
  (forall w', running w0 w' (add_lib 1 0 g) -> Q true w') -> wp (lib (vpipe_open_csv path h)) Q w.
Proof.
  intros Hr Hbad Hgood. apply wp_zoom. unfold wp, vpipe_open_csv, fbind.
  pose proof (ensure_parent_run path (ufs (pu w)) (ucalls (pu w)) (ulive (pu w)) (uopen (pu w))) as E.
  destruct (pu w) as [f k v o] eqn:Eu. cbn [ufs ucalls ulive uopen] in E. rewrite E.
  assert (Hl : forall b u, ulive u = v -> uopen u = o + (if b : bool then 1 else 0) ->
    Q b (PWorld (pc w) u (prow w) (pcrc w))).
  { intros b u E1 E2. destruct b; [apply Hgood|apply Hbad]; apply running_lib; rewrite ?Eu; cbn; done || lia. }
  destruct (malloc_ok _ _); [|cbn; apply Hl; cbn; lia].
  destruct (mkdir_all _ _) as [[] f1]; cbn; [|apply Hl; cbn; lia].
  unfold fopen_wb, fwrite. cbn. destruct (fopen_write path f1) as [f2|]; cbn; [|apply Hl; cbn; lia].
  destruct h as [h|]; [|apply Hl; cbn; lia]. cbn [ufs ucalls ulive uopen]. destruct (fappend path (h ++ [10]) f2). apply Hl; cbn; lia.
Qed.

Lemma wp_lib_read_pgm path Q w g :
  running w0 w g ->
  (forall img w', running w0 w' (add_lib 0 0 g) -> pixels img = None -> Q (-1, img) w') ->
  (forall img px w', running w0 w' (add_lib 0 1 g) -> image_ok img px -> Q (0, img) w') ->
  wp (lib (vpipe_read_pgm path)) Q w.
Proof.
  intros Hr Hbad Hgood. apply wp_zoom. destruct (pu w) as [f k v o] eqn:Eu.
  destruct (fopen_read path f) as [l|] eqn:Ef.
  - destruct (read_pgm_outcome path f k v o l Ef) as (r & img & u & E & _ & Eo & Hout).
    eapply wp_of; [exact E|]. destruct Hout as [(-> & Hn & El)|(-> & Hw & Hh & Hs & El & _ & px & _ & Hp & Hl & _)].
    + apply Hbad; [|done]. apply running_lib; rewrite ?Eu; cbn; done || lia.
    + apply (Hgood img px); [|done]. apply running_lib; rewrite ?Eu; cbn; done || lia.
  - unfold wp, vpipe_read_pgm, fbind, fopen_rb. cbn [ufs]. rewrite Ef. cbn. apply Hbad; [|done].
    apply running_lib; rewrite ?Eu; cbn; done || lia.
Qed.

Lemma wp_lib_write_pgm path d x y Q w g :
  running w0 w g -> 0 <= x <= VPIPE_PGM_MAX_DIM -> 0 <= y <= VPIPE_PGM_MAX_DIM ->
  x * y <= Z.of_nat (length d) ->
  (forall r w', running w0 w' (add_lib 0 0 g) -> Q r w') ->
  wp (lib (vpipe_write_pgm path (Some d) x y)) Q w.
Proof.
  intros Hr Hx Hy Hl HQ. unfold VPIPE_PGM_MAX_DIM in *. apply wp_zoom.
  unfold wp, vpipe_write_pgm, fbind. rewrite u64_small by nia.
  pose proof (ensure_parent_run path (ufs (pu w)) (ucalls (pu w)) (ulive (pu w)) (uopen (pu w))) as E.
  destruct (pu w) as [f k v o] eqn:Eu. cbn [ufs ucalls ulive uopen] in E. rewrite E.
  assert (Hf : forall r u, ulive u = v -> uopen u = o -> Q r (PWorld (pc w) u (prow w) (pcrc w))).
  { intros r u E1 E2. apply HQ, running_lib; rewrite ?Eu; cbn; done || lia. }
  destruct (malloc_ok _ _); [|cbn; by apply Hf].
  destruct (mkdir_all _ _) as [[] f1]; cbn [Z.ltb Z.compare]; [|by apply Hf].
  unfold fopen_wb, fwrite, fclose, fret. cbn [ufs ucalls ulive uopen].
  destruct (fopen_write path f1) as [f2|]; cbn [negb]; [|by apply Hf]. cbn [ufs ucalls ulive uopen default].
  destruct (fappend path _ f2) as [n3 f3]. cbn [ufs ucalls ulive uopen].
  cbn [id]. destruct (Z.ltb_spec (Z.of_nat (length d)) (x * y)); [lia|]. cbn [ufs ucalls ulive uopen].
  destruct (fappend path (take (Z.to_nat (x * y)) d) f3) as [n4 f4].
  destruct (negb (n4 =? x * y)); apply Hf; cbn; lia.
Qed.

Lemma wp_lib_free_pgm img Q w g :
  running w0 w g ->
  (forall w', running w0 w' (add_lib 0 (match pixels img with Some _ => -1 | None => 0 end) g) ->
     Q pgm_zero w') ->
  wp (lib (vpipe_free_pgm img)) Q w.
Proof.
  intros Hr HQ. apply wp_zoom. unfold vpipe_free_pgm.
  destruct (pixels img); apply HQ, running_lib; cbn; done || lia.
Qed.
End Specs.

(** *** What the locals of a program stand for *)

(** The descriptors, mappings, streams and blocks the locals name are the ones
    held. *)
Record names (fds maps : list Z) (o l : Z) (g : ghost) : Prop := {
  n_fds : forall x, 0 <= x -> (x ∈ g_fds g <-> x ∈ fds);
  n_maps : forall a, 0 < a -> (a ∈ g_maps g <-> a ∈ maps);
  n_opens : g_opens g = o;
  n_blocks : g_blocks g = l
}.

#[global] Arguments fds_of : simpl never.
#[global] Arguments maps_of : simpl never.

(** Arrays of entries not used yet. *)
Definition blanks (n : nat) : list vpipe_mmap_buffer := replicate n (MmapBuf 0 0 (-1)).

Lemma fds_blanks n m x : 0 <= x -> (x ∈ fds_of (take n (blanks m)) <-> False).
Proof.
  intros Hx. split; [|done]. intros Hin. apply list_elem_of_fmap in Hin as (b & -> & Hin).
  apply list_elem_of_lookup in Hin as [j Hj]. apply lookup_take_Some in Hj as [Hj _].
  apply lookup_replicate in Hj as [-> _]. cbn in Hx. lia.
Qed.

Lemma maps_blanks n m a : 0 < a -> (a ∈ maps_of (take n (blanks m)) <-> False).
Proof.
  intros Hx. split; [|done]. intros Hin. apply list_elem_of_fmap in Hin as (b & -> & Hin).
  apply list_elem_of_lookup in Hin as [j Hj]. apply lookup_take_Some in Hj as [Hj _].
  apply lookup_replicate in Hj as [-> _]. cbn in Hx. lia.
Qed.

Lemma blanks_blank n m : Forall blank (take n (blanks m)).
Proof. apply Forall_take. by apply Forall_replicate. Qed.
#[export] Hint Resolve blanks_blank : core.
#[global] Arguments blanks : simpl never.

(** Membership in lists of descriptors and mappings. *)
Ltac own_in :=
  let x := fresh "x" in let Hx := fresh "Hx" in
  intros x Hx;
  repeat match goal with
         | K : forall y, 0 <= y -> _ |- _ => specialize (K x ltac:(lia))
         | K : forall y, 0 < y -> _ |- _ => specialize (K x ltac:(lia))
         end;
  repeat match goal with K : _ |- _ => progress (rewrite ?elem_of_cons, ?elem_of_app, ?elem_of_nil in K) end;
  repeat progress (rewrite ?elem_of_cons, ?elem_of_app, ?elem_of_nil);
  repeat match goal with
         | K : context [fds_of (take _ (blanks _))] |- _ => rewrite !fds_blanks in K by lia
         | K : context [maps_of (take _ (blanks _))] |- _ => rewrite !maps_blanks in K by lia
         end;
  rewrite ?fds_blanks, ?maps_blanks by lia; intuition (try lia; try congruence).

(** Everything was given back. *)
Ltac all_back Hr :=
  split; [|by rewrite (r_rows _ _ _ Hr)];
  eapply running_end; [exact Hr| | |done|done]; intros ? _; apply not_elem_of_nil.

(** [running_weaken] to what the locals of a cleanup name. *)
Ltac relist Hr g' b :=
  apply (running_weaken _ _ _ g') in Hr;
  [|cbn; try done; try own_in;
    try (repeat match goal with K : g_opens _ = _ |- _ => rewrite K | K : g_blocks _ = _ |- _ => rewrite K end;
         destruct b; lia); by intros ? ?%not_elem_of_nil..].

Ltac solve_names := split; cbn; try done; try lia; try own_in.

(** *** Automation *)

Create HintDb quiet.
#[export] Hint Resolve quiet_ret quiet_set_ctrl quiet_queue_dmabuf quiet_requeue
  quiet_streamoff quiet_sizeimage quiet_meta quiet_minflt : quiet.
#[export] Hint Extern 1 (quiet _ (vpipe_xioctl _ _)) => apply quiet_xioctl; reflexivity : quiet.

(** The queue at hand is not among those already known. *)
Ltac new_queue :=
  let b := fresh "b" in let Hin := fresh "Hin" in
  lazymatch goal with |- not_in _ _ _ => intros b Hin | |- _ => intros ? b Hin end; cbn in Hin;
  repeat match goal with
         | E : g_queues _ = _ |- _ => rewrite E in Hin
         | E : g_fmts _ = _ |- _ => rewrite E in Hin
         end;
  repeat (apply elem_of_cons in Hin as [Hin|Hin]; [try congruence|]); try (by apply not_elem_of_nil in Hin).

(** Requesting [n] buffers: the failure, then the success. *)
Ltac prequest Hok n :=
  lazymatch goal with
  | Hr : running ?w0 ?w ?g |- _ =>
      eapply (wp_sys_request w0 Hok _ _ n); [exact Hr|new_queue|unfold blanks; rewrite ?length_replicate; cbn; lia|auto| |]; clear Hr;
      [let r := fresh "r" in let bufs := fresh "bufs" in let w' := fresh "w" in
       let Hlt := fresh "Hlt" in let Hl := fresh "Hlen" in let Hd := fresh "Hdrop" in
       intros r bufs w' Hlt Hl Hd Hr; cbn [fst snd]; destruct (Z.ltb_spec r 0); [|lia]
      |let r := fresh "r" in let bufs := fresh "bufs" in let w' := fresh "w" in
       let lens := fresh "lens" in let known := fresh "known" in
       let Hge := fresh "Hge" in let Hl := fresh "Hlen" in let Hd := fresh "Hdrop" in
       let Hs := fresh "Hshows" in let Hle := fresh "Hlens" in let Hpos := fresh "Hpos" in let Hf := fresh "Hfmt" in let Hn := fresh "Hnofd" in
       let Hsm := fresh "Hsame" in
       intros r bufs w' lens known Hge Hl Hd Hr Hs [Hle Hpos] Hf Hn Hsm; cbn [fst snd];
       destruct (Z.ltb_spec r 0); [lia|]]
  end.

(** One call of a program whose locals and world are in the goal; [Hok] says
    the process it started in was in order. *)
Ltac pcall Hok :=
  let w' := fresh "w" in
  lazymatch goal with
  | Hr : running ?w0 ?w ?g |- wp (sys (open _)) _ ?w =>
      eapply (wp_sys_open w0 Hok); [exact Hr|]; clear Hr; let r := fresh "fd" in let Hn := fresh "Hnew" in intros r w' Hr Hn
  | Hr : running ?w0 ?w ?g |- wp (sys vpipe_now_monotonic_ns) _ ?w =>
      eapply (wp_sys_now w0); [exact Hr|]; clear Hr; intros w' Hr
  | Hr : running ?w0 ?w ?g |- wp (sys (read _ _)) _ ?w =>
      eapply (wp_sys_read w0); [exact Hr|]; clear Hr;
      let r := fresh "got" in let l := fresh "l" in let Hl := fresh "Hl" in let Hg := fresh "Hg" in
      intros r l w' Hr Hl Hg; cbn [fst snd]
  | Hr : running ?w0 ?w ?g |- wp (sys (vpipe_set_format _ _ _ _ _)) _ ?w =>
      eapply (wp_sys_set_format w0); [exact Hr| | |];
        [|clear Hr; intros w' Hr
         |clear Hr; let b := fresh "bpl" in let s := fresh "si" in let Hf := fresh "Hfit" in
          let Hu := fresh "Hsi" in let Hg := fresh "Hgeo" in intros w' b s Hg Hr Hf Hu; cbn in Hg]
  | Hr : running ?w0 ?w ?g |- wp (sys (dqbuf _ _ _)) _ ?w =>
      eapply (wp_sys_dqbuf w0); [exact Hr|]; clear Hr;
      let a := fresh "a" in let Ha := fresh "Ha" in let Hi := fresh "Hidx" in intros a w' Hr Hi Ha
  | Hr : running ?w0 ?w ?g |- wp (sys (vpipe_queue_mmap_buffer _ _ _ _ _)) _ ?w =>
      eapply (wp_sys_queue w0); [exact Hr|]; clear Hr;
      let r := fresh "r" in let Hq := fresh "Hq" in intros r w' Hr Hq
  | Hr : running ?w0 ?w ?g |- wp (sys (vpipe_xioctl _ (G_FMT _))) _ ?w =>
      eapply (wp_sys_g_fmt w0); [exact Hr|]; clear Hr;
      let a := fresh "a" in let Hf := fresh "Hgfmt" in intros a w' Hr Hf
  | Hr : running ?w0 ?w ?g |- wp (sys (vpipe_xioctl _ EXPORT_SRC_DMABUF)) _ ?w =>
      eapply (wp_sys_fd_ioctl w0 Hok vpipe_xioctl); [by left|exact Hr|done|]; clear Hr;
      let a := fresh "a" in intros a w' Hr
  | Hr : running ?w0 ?w ?g |- wp (sys (export_dmabuf _ _ _)) _ ?w =>
      eapply (wp_sys_export w0 Hok); [exact Hr|]; clear Hr; let x := fresh "x" in intros x w' Hr
  | Hr : running ?w0 ?w ?g |- wp (sys (dma_heap_alloc_fd _ _)) _ ?w =>
      eapply (wp_sys_heap_alloc w0 Hok); [exact Hr|]; clear Hr; let x := fresh "x" in intros x w' Hr
  | Hr : running ?w0 ?w ?g |- wp (sys (vpipe_xioctl _ (REQBUFS _ _ _))) _ ?w =>
      eapply (wp_sys_reqbufs w0); [exact Hr| |];
        [|clear Hr; let a := fresh "a" in intros a w' Hr]
  | Hr : running ?w0 ?w ?g |- wp (sys (mmap _ _ _)) _ ?w =>
      eapply (wp_sys_mmap w0 Hok); [exact Hr| |];
        [clear Hr; intros w' Hr
        |clear Hr; let m := fresh "m" in let Hm := fresh "Hm" in intros m w' Hm Hr]
  | Hr : running ?w0 ?w ?g |- wp (emit _) _ ?w =>
      eapply (wp_emit w0); [exact Hr|]; clear Hr; intros w' Hr
  | Hr : running ?w0 ?w ?g |- wp (lib (malloc _)) _ ?w =>
      eapply (wp_lib_malloc w0); [exact Hr| |]; clear Hr; intros w' Hr; cbn [negb]
  | Hr : running ?w0 ?w ?g |- wp (lib free) _ ?w =>
      eapply (wp_lib_free w0); [exact Hr|]; clear Hr; intros w' Hr
  | Hr : running ?w0 ?w ?g |- wp (lib (free_if _)) _ ?w =>
      eapply (wp_lib_free_if w0); [exact Hr|]; clear Hr; intros w' Hr
  | Hr : running ?w0 ?w ?g |- wp (lib (fclose_if _)) _ ?w =>
      eapply (wp_lib_fclose_if w0); [exact Hr|]; clear Hr; intros w' Hr
  | Hr : running ?w0 ?w ?g |- wp (lib (vpipe_open_csv _ _)) _ ?w =>
      eapply (wp_lib_open_csv w0); [exact Hr| |]; clear Hr; intros w' Hr; cbn [negb]
  | Hr : running ?w0 ?w ?g |- wp (lib (vpipe_free_pgm _)) _ ?w =>
      eapply (wp_lib_free_pgm w0); [exact Hr|]; clear Hr; intros w' Hr
  | Hr : running ?w0 ?w ?g |- wp (sys ?c) _ ?w =>
      refine ((_ : quiet w0 c) w g _ Hr _); [solve [auto with quiet]|];
      clear Hr; let a := fresh "a" in intros a w' Hr
  end.

Ltac pstep Hok :=
  lazymatch goal with
  | |- wp (fbind _ _) _ _ => apply wp_bind
  | |- wp (fret _) _ _ => apply wp_ret; cbn [fst snd]
  | |- wp (go _) _ _ => apply wp_ret; cbn [fst snd]
  | |- wp (quit _) _ _ => apply wp_ret; cbn [fst snd]
  | |- wp (let '(_, _) := ?p in _) _ _ => destruct p
  | |- wp (if ?b then _ else _) _ _ => let E := fresh "E" in destruct b eqn:E
  | |- wp (let _ := _ in _) _ _ => cbv zeta
  | |- _ => pcall Hok; cbn [fst snd]
  end.

(** *** Loops and logs *)

Lemma wp_andthen `{V4l2} `{Posix} {L} (s1 s2 : stage L) f (Q : bool * L -> pworld -> Prop) w :
  wp (s1 f) (fun r w' => if fst r : bool then wp (s2 (snd r)) Q w' else Q (false, snd r) w') w ->
  wp (andthen s1 s2 f) Q w.
Proof.
  intros Hs. unfold andthen. apply wp_bind. eapply wp_mono; [exact Hs|]. by intros [[] f'] w'.
Qed.

(** [n] rows were appended, each of them as [P] says given the ones before. *)
Definition logged (P : list (list Z) -> list Z -> Prop) (n : Z) (old new : list (list Z)) : Prop :=
  exists l, new = old ++ l /\ Z.of_nat (length l) = n /\
    forall k row, l !! k = Some row -> P (take k l) row.

Lemma logged_nil P old : logged P 0 old old.
Proof. exists []. rewrite app_nil_r. split; [done|]. split; [done|]. done. Qed.

Lemma logged_snoc P n old new row :
  logged P n old new -> (forall l, new = old ++ l -> Z.of_nat (length l) = n -> P l row) ->
  logged P (n + 1) old (new ++ [row]).
Proof.
  intros (l & El & Hl & HP) Hrow. subst new. exists (l ++ [row]). rewrite app_assoc, length_app. split; [done|].
  split; [cbn; lia|]. intros k r Hk. apply lookup_app_Some in Hk as [Hk|[Hge Hk]].
  - rewrite take_app_le by (apply lookup_lt_Some in Hk; lia). by apply HP.
  - destruct (k - length l)%nat eqn:E; cbn in Hk; [|done]. injection Hk as <-.
    rewrite take_app_length' by lia. by apply Hrow.
Qed.

(** The last of the rows whose field [b] holds [v]. *)
Fixpoint last_row (b : nat) (v : Z) (l : list (list Z)) (k : nat) : option nat :=
  match l with
  | [] => None
  | r :: l' =>
      match last_row b v l' (S k) with
      | Some j => Some j
      | None => if bool_decide (r !! b = Some v) then Some k else None
      end
  end.

Lemma last_row_snoc b v l k r :
  last_row b v (l ++ [r]) k =
    if bool_decide (r !! b = Some v) then Some (k + length l)%nat else last_row b v l k.
Proof.
  revert k. induction l as [|x l IH]; intros k; cbn.
  - rewrite Nat.add_0_r. by destruct (bool_decide _).
  - rewrite IH. destruct (bool_decide (r !! b = Some v)); [f_equal; lia|done].
Qed.

Lemma wp_for_each `{V4l2} `{Posix} {L} (I : Z -> L -> pworld -> Prop) (E : L -> pworld -> Prop) n
    (body : Z -> stage L) f w :
  0 <= n -> I 0 f w ->
  (forall i f w, 0 <= i < n -> I i f w ->
     wp (body i f) (fun r w' => if fst r : bool then I (i + 1) (snd r) w' else E (snd r) w') w) ->
  wp (for_each n body f) (fun r w' => if fst r : bool then I n (snd r) w' else E (snd r) w') w.
Proof.
  intros Hn HI Hb. unfold for_each. eapply wp_mono; [apply (wp_floop I E); [exact HI|]|].
  - intros j v s Hj. apply Hb. lia.
  - intros [[] f'] w'; cbn [fst snd]; [|done]. by rewrite Z.add_0_l, Z2Nat.id.
Qed.

(** *** A whole program

    The stages, the cleanup over the locals as the stages left them, and the
    exit status: 0 when no stage asked to quit. *)
Definition run_program `{V4l2} `{Posix} {L} (s : stage L) (cleanup : L -> F pworld unit) (f0 : L)
    : F pworld Z :=
  (r <- s f0;; cleanup (snd r);; fret (if fst r then 0 else 1)).

Section Program.
Context `{FormatLaws} `{Posix} {L : Type} (owns : L -> ghost -> Prop).

(** The locals account for everything held. *)
Definition accounted (w0 : pworld) (f : L) (w : pworld) : Prop :=
  exists g, running w0 w g /\ owns f g.

Definition gives_back (w0 : pworld) (cleanup : L -> F pworld unit) : Prop :=
  forall f w g, running w0 w g -> owns f g ->
    wp (cleanup f) (fun _ w' => balanced w0 w' /\ prow w' = g_rows g) w.

Lemma wp_program w0 (s : stage L) cleanup f0 (Done : list (list Z) -> Prop) w :
  gives_back w0 cleanup ->
  wp (s f0) (fun r w => if fst r : bool then exists g, running w0 w g /\ owns (snd r) g /\ Done (g_rows g)
                        else accounted w0 (snd r) w) w ->
  wp (run_program s cleanup f0)
     (fun rc w' => balanced w0 w' /\ (rc = 0 /\ Done (prow w') \/ rc = 1)) w.
Proof.
  intros Hcl Hs. apply wp_bind. eapply wp_mono; [exact Hs|].
  intros [[] f] w1; cbn [fst snd].
  - intros (g & Hr & Ho & Hd). apply wp_bind. eapply wp_mono; [by apply (Hcl f w1 g)|].
    intros [] w' [Hb Hp]. split; [done|]. left. by rewrite Hp.
  - intros (g & Hr & Ho). apply wp_bind. eapply wp_mono; [by apply (Hcl f w1 g)|].
    intros [] w' [Hb Hp]. split; [done|]. by right.
Qed.
End Program.

(** *** Concrete runs *)

(** A process that starts with files, standard streams and no rows. *)
Definition first_world {V : V4l2} (d : dev) (files : gmap (list Z) (list Z)) : @pworld V mem_posix :=
  PWorld (Sim.start d) (UWorld (MemFs ∅ files) 0 0 0) [] crc_state0.

Lemma first_world_ok {V : V4l2} (d : dev) files : start_ok (first_world d files).
Proof. split; [apply Sim.start_ok|apply table_ok_0]. Qed.

(** The exit status and the rows of a run. *)
Definition outcome `{V4l2} `{Posix} (c : F pworld Z) (w : pworld) : option (Z * list (list Z)) :=
  (fun r => (fst r, prow (snd r))) <$> c w.

Lemma wp_outcome `{V4l2} `{Posix} (c : F pworld Z) (Q : Z -> pworld -> Prop) w rc rows :
  wp c Q w -> outcome c w = Some (rc, rows) -> exists w', c w = Some (rc, w') /\ prow w' = rows /\ Q rc w'.
Proof.
  intros (a & w' & E & HQ)%wp_run. unfold outcome. rewrite E. cbn. intros [= <- <-]. by exists w'.
Qed.

(** The simulated devices have 640-byte lines. *)
Section SimFormats.
Context (len : Z) (cap : buf_type -> Z) (fault nomap noopen : nat -> bool) (pix : Z -> Z -> Z) (Hlen : in_u32 len).
#[local] Existing Instances Sim.sim Sim.sim_laws Sim.sim_bufs.

Definition sim_fmts : @FormatLaws (Sim.sim len cap fault nomap noopen pix) _.
Proof.
  refine {| fmt_of := (fun _ _ _ => (640, len)) : dev -> Z -> buf_type -> Z * Z;
            supported := fun x y => (x <=? 640) && (640 * y <=? len);
            geometry := fun _ _ _ => (640, len) |}; try done.
  - cbn. intros fd x y Hs. lia.
  - auto.
  - intros fd t d a d' E Ha. cbn in E. unfold Sim.sim_ioctl in E.
    destruct (Sim.interrupts _ _); [injection E as <- <-; cbn in Ha; lia|].
    destruct (fault _); [injection E as <- <-; cbn in Ha; lia|]. by injection E as <- <-.
  - intros fd t c d a d' E Ha. cbn in E. unfold Sim.sim_ioctl in E.
    destruct (Sim.interrupts _ _); [injection E as <- <-; cbn in Ha; lia|].
    destruct (fault _); [injection E as <- <-; cbn in Ha; lia|]. injection E as <- <-.
    cbn. unfold Sim.lens. cbn. rewrite lookup_insert_eq. cbn. apply Forall_fmap, Forall_replicate. cbn. lia.
Defined.

(** Their clock stops after a million seconds. *)
Definition sim_clock : @MonotonicClock (Sim.sim len cap fault nomap noopen pix).
Proof.
  assert (E : forall k, @reading (Sim.sim len cap fault nomap noopen pix) k = Z.min (Z.of_nat k) 1000000 * 1000000000).
  { intros k. change (u64 (u64 (Z.min (Z.of_nat k) 1000000 * 1000000000) + 0) = Z.min (Z.of_nat k) 1000000 * 1000000000).
    rewrite Z.add_0_r, (u64_small (_ * _)); [apply u64_small|]; lia. }
  split; intros; rewrite !E; lia.
Defined.
End SimFormats.

(** Devices with images of 16 bytes that refuse nothing. *)
Module TinySim.
#[export] Instance tiny : V4l2 :=
  Sim.sim 16 (fun _ => 32) (fun _ => false) (fun _ => false) (fun _ => false) (fun _ i => i).
#[export] Instance tiny_laws : V4l2Laws := Sim.sim_laws _ _ _ _ _ _.
#[export] Instance tiny_bufs : BufferLaws := Sim.sim_bufs _ _ _ _ _ _.
Lemma tiny_size : in_u32 16.
Proof. done. Qed.
#[export] Instance tiny_fmts : FormatLaws := sim_fmts _ _ _ _ _ _ tiny_size.
#[export] Instance tiny_clock : MonotonicClock := sim_clock _ _ _ _ _ _.

Definition tiny_world (files : gmap (list Z) (list Z)) : @pworld tiny mem_posix :=
  first_world (V := tiny) Sim.sim0 files.
End TinySim.
