(* ===== verification/Capture.v ===== *)
(** * Capture programs

    The programs that stream frames from a device and record one CSV row per
    frame. *)

From S2P Require Import Prelude Types M2m Crc32 Pgm Wp Client Process.

(** ** [user/vpipe-capture-read.c] *)

Module Read.
Section Read.
Context `{V4l2} `{Posix}.

(** The locals that [cleanup] looks at. *)
Record locals := Locals { fd : Z; buffer : bool; fp : bool }.
Definition frame_size : Z := u32 (640 * 480).

Definition setup (video csv : list Z) : stage locals := fun f =>
  (fd <- sys (open video);;
  let f := Locals fd (buffer f) (fp f) in
  if fd <? 0 then quit f
  else
    (r <- sys (vpipe_set_format fd CAPTURE 640 480 V4L2_PIX_FMT_GREY);;
    if r <? 0 then quit f
    else
      (buffer <- lib (malloc frame_size);;
      let f := Locals fd buffer (fp f) in
      if negb buffer then quit f
      else
        (fp <- lib (vpipe_open_csv csv (Some (lit
           "frame,synthetic_sequence,read_start_monotonic_ns,read_end_monotonic_ns,bytesused,crc32")));;
        let f := Locals fd buffer fp in
        if negb fp then quit f else go f)))).

(** The body of the frame loop. *)
Definition frame (i : Z) : stage locals := fun f =>
  (start_ns <- sys vpipe_now_monotonic_ns;;
  got <- sys (read (fd f) frame_size);;
  end_ns <- sys vpipe_now_monotonic_ns;;
  if fst got <? 0 then quit f
  else
    (crc <- crc32_list (snd got) (fst got);;
    emit [i; i; start_ns; end_ns; fst got; crc];;
    go f)).

Definition cleanup (f : locals) : F pworld unit :=
  (lib (fclose_if (fp f));;
  lib (free_if (buffer f));;
  sys (close_if (fd f))).

(** The exit status; [args] are the arguments after the program's name. *)
Definition main (args : list (list Z)) : F pworld Z :=
  let video := default (lit "/dev/video0") (args !! 0%nat) in
  let csv := default (lit "bench/read.csv") (args !! 1%nat) in
  match uint_arg args 2 1 UINT_MAX 600 with
  | None => fret 1
  | Some frames =>
      run_program (andthen (setup video csv) (for_each frames frame)) cleanup (Locals (-1) false false)
  end.
End Read.

Section Proofs.
Context `{V4l2Laws} `{!BufferLaws} `{!FormatLaws} `{Posix}.
Context (w0 : pworld) (Hok : start_ok w0).

Definition owns (f : locals) (g : ghost) : Prop :=
  names [fd f] [] (if fp f then 1 else 0) (if buffer f then 1 else 0) g.

Lemma read_setup_ok video csv :
  wp (setup video csv (Locals (-1) false false)) (fun r w =>
    if fst r : bool
    then exists g, running w0 w g /\ owns (snd r) g /\ g_clock g = cclock (pc w0) /\ g_rows g = prow w0
    else accounted owns w0 (snd r) w) w0.
Proof.
  pose proof (running_start w0 (st_crc _ Hok)) as Hr. destruct Hok as [Hp Hc].
  unfold setup. repeat (pstep Hp); try done.
  all: try (by new_queue).
  all: eexists; (split; [eassumption|]); try split; try split; cbn; try done; own_in.
Qed.

(** Row [k]: the frame's number twice, the clock around its [read], the bytes
    read and their checksum. *)
Definition row_ok (before : list (list Z)) (row : list Z) : Prop :=
  let k := length before in
  exists l, Forall in_u8 l /\ Z.of_nat (length l) <= frame_size /\
    row = [Z.of_nat k; Z.of_nat k; reading (cclock (pc w0) + 2 * k); reading (cclock (pc w0) + 2 * k + 1);
           Z.of_nat (length l); crc_ref l].

Definition looping (i : Z) (f : locals) (w : pworld) : Prop :=
  exists g, running w0 w g /\ owns f g /\ g_clock g = (cclock (pc w0) + 2 * Z.to_nat i)%nat /\
    logged row_ok i (prow w0) (g_rows g).

Lemma read_frame_ok i f w : 0 <= i -> looping i f w ->
  wp (frame i f) (fun r w' => if fst r : bool then looping (i + 1) (snd r) w'
                              else accounted owns w0 (snd r) w') w.
Proof.
  intros Hi (g & Hr & Ho & Hc & Hl0). destruct Hok as [Hp _]. unfold frame.
  repeat (pstep Hp).
  - eexists. split; [eassumption|]. by destruct Ho.
  - destruct Hg as [Hg|[-> Hg]]; [lia|]. eapply wp_crc32_list; [exact Hr|done|lia|].
    clear Hr. intros w' Hr. repeat (pstep Hp). rewrite Nat2Z.id, firstn_all in Hr.
    eexists. split; [exact Hr|]. split; [by destruct Ho|]. split; [cbn; lia|].
    apply logged_snoc; [done|]. intros old _ Hold. exists l. split; [done|]. split; [change frame_size with 307200 in *; lia|].
    cbn [tick g_clock]. rewrite Hc. repeat f_equal; lia.
Qed.

Lemma read_cleanup_ok : gives_back owns w0 cleanup.
Proof.
  intros f w g Hr [O1 O2 O3 O4]. destruct Hok as [Hp _]. unfold cleanup. do 4 (pstep Hp).
  eapply (wp_sys_close_if w0 Hp _ []); [exact Hr|cbn; own_in|].
  clear Hr. intros w' Hr. split; [|by rewrite (r_rows _ _ _ Hr)].
  eapply running_end; [exact Hr| |cbn..].
  - intros x _. apply not_elem_of_nil.
  - intros a Ha Hin. apply O2 in Hin; [|done]. by apply not_elem_of_nil in Hin.
  - rewrite O3. destruct (fp f); lia.
  - rewrite O4. destruct (buffer f); lia.
Qed.

Lemma read_main_ok args :
  wp (main args) (fun rc w' => balanced w0 w' /\
    ((exists frames, rc = 0 /\ uint_arg args 2 1 UINT_MAX 600 = Some frames /\
        logged row_ok frames (prow w0) (prow w')) \/ rc = 1)) w0.
Proof.
  unfold main. destruct (uint_arg args 2 1 UINT_MAX 600) as [frames|] eqn:Ef; [|apply wp_ret; auto using balanced_refl].
  apply uint_arg_in in Ef as Hf; [|done].
  eapply wp_mono; [apply (wp_program owns w0 _ _ _ (logged row_ok frames (prow w0))); [apply read_cleanup_ok|]|].
  - apply wp_andthen. eapply wp_mono; [apply read_setup_ok|]. intros [[] f] w; cbn [fst snd]; [|done].
    intros (g & Hr & Ho & Hc & Hl).
    eapply wp_mono; [apply (wp_for_each looping (accounted owns w0)); [lia| |]|].
    + exists g. rewrite Hl. split; [done|]. split; [done|]. split; [lia|apply logged_nil].
    + intros i f' w' Hi. apply read_frame_ok. lia.
    + intros [[] f'] w'; cbn [fst snd]; [|done]. intros (g' & Hr' & Ho' & _ & Hl'). eauto.
  - intros rc w' [Hb [[-> Hd]|Hd]]; (split; [done|]); [left; eauto|by right].
Qed.
End Proofs.
End Read.

(** ** Which enqueuing a row belongs to *)

(** A program that reads the clock once for each of its four buffers and then,
    from reading [c0 + 4] on, twice per frame, at the dequeuing and at the
    enqueuing: the reading when buffer [b] was last queued, given the rows
    so far (their second field is the buffer). *)
Definition enqueued `{V4l2} (c0 : nat) (before : list (list Z)) (b : nat) : Z :=
  match last_row 1 (Z.of_nat b) before 0 with
  | Some j => reading (c0 + 4 + 2 * j + 1)
  | None => reading (c0 + b)
  end.

Lemma enqueued_snoc `{V4l2} c0 l row (b b' : nat) :
  row !! 1%nat = Some (Z.of_nat b) ->
  enqueued c0 (l ++ [row]) b' =
    if decide (b' = b) then reading (c0 + 4 + 2 * length l + 1) else enqueued c0 l b'.
Proof.
  intros Hrow. unfold enqueued. rewrite last_row_snoc, Hrow. case_decide as E.
  - subst b'. by rewrite bool_decide_eq_true_2.
  - rewrite bool_decide_eq_false_2; [done|]. intros [= ?]. lia.
Qed.

(** Row [k] pairs the dequeuing of a buffer with its latest enqueuing. *)
Definition paired_row `{V4l2} (c0 : nat) (before : list (list Z)) (row : list Z) : Prop :=
  let k := length before in
  exists (b : nat) rest, (b < 4)%nat /\
    row = [Z.of_nat k; Z.of_nat b; enqueued c0 before b; reading (c0 + 4 + 2 * k)] ++ rest.

(** ** [user/vpipe-capture-mmap.c] *)

Module Mmap.
Section Mmap.
Context `{V4l2} `{Posix}.

Definition BUFFER_COUNT : Z := 4.

Record locals := Locals {
  fd : Z; buffers : list vpipe_mmap_buffer; queued_at : list Z; fp : bool
}.
Definition init : locals := Locals (-1) (replicate 4 (MmapBuf 0 0 0)) (replicate 4 0) false.

Definition setup (video csv : list Z) : stage locals := fun f =>
  (fd <- sys (open video);;
  let f := Locals fd (buffers f) (queued_at f) (fp f) in
  if fd <? 0 then quit f
  else
    (r <- sys (vpipe_set_format fd CAPTURE 640 480 V4L2_PIX_FMT_GREY);;
    if r <? 0 then quit f
    else
      (req <- sys (vpipe_request_mmap_buffers fd CAPTURE BUFFER_COUNT (buffers f));;
      let f := Locals fd (snd req) (queued_at f) (fp f) in
      if fst req <? 0 then quit f
      else
        (fp <- lib (vpipe_open_csv csv (Some (lit
           "frame,buffer_index,enqueue_monotonic_ns,dequeue_monotonic_ns,v4l2_timestamp_sec,v4l2_timestamp_usec,sequence,bytesused")));;
        let f := Locals fd (buffers f) (queued_at f) fp in
        if negb fp then quit f else go f)))).

(** The body of the loop that queues the buffers. *)
Definition enqueue (i : Z) : stage locals := fun f =>
  (now <- sys vpipe_now_monotonic_ns;;
  q <- aset (queued_at f) i now;;
  let f := Locals (fd f) (buffers f) q (fp f) in
  r <- sys (vpipe_queue_mmap_buffer (fd f) CAPTURE V4L2_MEMORY_MMAP i (-1));;
  if r <? 0 then quit f else go f).

Definition streamon : stage locals := fun f =>
  (a <- sys (vpipe_xioctl (fd f) (STREAMON CAPTURE));;
  if a_ret a <? 0 then quit f else go f).

(** The body of the frame loop. *)
Definition frame (i : Z) : stage locals := fun f =>
  (buf <- sys (dqbuf (fd f) CAPTURE V4L2_MEMORY_MMAP);;
  if a_ret buf <? 0 then quit f
  else
    (dq_ns <- sys vpipe_now_monotonic_ns;;
    q <- aget (queued_at f) (a_index buf);;
    emit [i; a_index buf; q; dq_ns; a_sec buf; a_usec buf; a_sequence buf; a_bytesused buf];;
    now <- sys vpipe_now_monotonic_ns;;
    q' <- aset (queued_at f) (a_index buf) now;;
    let f := Locals (fd f) (buffers f) q' (fp f) in
    r <- sys (requeue (fd f) CAPTURE V4L2_MEMORY_MMAP buf);;
    if r <? 0 then quit f else go f)).

(** The exit status; an error returns at once. *)
Definition main (args : list (list Z)) : F pworld Z :=
  let video := default (lit "/dev/video0") (args !! 0%nat) in
  let csv := default (lit "bench/mmap.csv") (args !! 1%nat) in
  let frames := match args !! 2%nat with Some a => u32 (strtoul0 a) | None => 600 end in
  (r <- andthen (setup video csv)
          (andthen (for_each BUFFER_COUNT enqueue) (andthen streamon (for_each frames frame))) init;;
  let f := snd r in
  if fst r
  then
    (lib fclose;;
    sys (vpipe_unmap_buffers (buffers f) BUFFER_COUNT);;
    sys (close (fd f));;
    fret 0)
  else fret 1).
End Mmap.

Section Proofs.
Context `{V4l2Laws} `{!BufferLaws} `{!FormatLaws} `{Posix}.
Context (w0 : pworld) (Hok : start_ok w0).
Let c0 := cclock (pc w0).

(** After a successful setup. *)
Record ready (lens : list Z) (f : locals) (g : ghost) : Prop := {
  rd_names : names [fd f] (maps_of (take 4 (buffers f))) 1 0 g;
  rd_fd : 0 <= fd f;
  rd_queue : (fd f, CAPTURE, lens) ∈ g_queues g;
  rd_lens : (length lens <= 4)%nat;
  rd_len : length (buffers f) = 4%nat;
  rd_dfd : forall j b, (j < length lens)%nat -> buffers f !! j = Some b -> dmabuf_fd b = -1;
  rd_at : length (queued_at f) = 4%nat
}.

Lemma mmap_setup_ok video csv :
  wp (setup video csv init) (fun r w =>
    fst r = true -> exists g lens, running w0 w g /\ ready lens (snd r) g /\
      g_clock g = c0 /\ g_rows g = prow w0) w0.
Proof.
  pose proof (running_start w0 (st_crc _ Hok)) as Hr. destruct Hok as [Hp Hc].
  unfold setup. change BUFFER_COUNT with (Z.of_nat 4). repeat (pstep Hp); try done.
  { new_queue. }
  eapply (wp_sys_request0 w0 Hp); [exact Hr|new_queue|cbn; lia|by repeat constructor| |];
    clear Hr.
  - intros r bufs w' Hlt _ _ _ Hr. cbn [fst snd]. destruct (Z.ltb_spec r 0); [|lia]. by repeat (pstep Hp).
  - intros r bufs w' lens known Hge Hl _ _ Hd _ Hr Hs [Hle _] _. cbn [fst snd]. destruct (Z.ltb_spec r 0); [lia|].
    repeat (pstep Hp); try done. intros _. eexists _, lens. split; [exact Hr|]. split; [|done].
    split; cbn; try done; try lia; try apply list_elem_of_here. solve_names.
Qed.

Record looping (lens : list Z) (i : Z) (f : locals) (g : ghost) : Prop := {
  lp_ready : ready lens f g;
  lp_clock : g_clock g = (c0 + 4 + 2 * Z.to_nat i)%nat;
  lp_all : length lens = 4%nat;
  lp_rows : exists l, g_rows g = prow w0 ++ l /\
    forall b, (b < 4)%nat -> queued_at f !! b = Some (enqueued c0 l b);
  lp_log : logged (paired_row c0) i (prow w0) (g_rows g)
}.

Lemma mmap_enqueue_ok lens i f w g :
  running w0 w g -> ready lens f g -> g_clock g = (c0 + Z.to_nat i)%nat -> g_rows g = prow w0 ->
  0 <= i < 4 -> (Z.to_nat i <= length lens)%nat ->
  (forall b, (b < Z.to_nat i)%nat -> queued_at f !! b = Some (reading (c0 + b))) ->
  wp (enqueue i f) (fun r w' => fst r = true -> exists g', running w0 w' g' /\ ready lens (snd r) g' /\
    g_clock g' = (c0 + Z.to_nat (i + 1))%nat /\ g_rows g' = prow w0 /\ (Z.to_nat (i + 1) <= length lens)%nat /\
    forall b, (b < Z.to_nat (i + 1))%nat -> queued_at (snd r) !! b = Some (reading (c0 + b))) w.
Proof.
  intros Hr Hrd Hc Hrows Hi Hlen Hq. destruct Hok as [Hp _]. pose proof (rd_at _ _ _ Hrd) as Hat.
  unfold enqueue. do 3 (pstep Hp). apply wp_aset; [lia|]. repeat (pstep Hp); [done|]. intros _.
  eexists. split; [exact Hr|]. split; [|split; [cbn; lia|]; split; [done|]; split].
  - destruct Hrd as [[N1 N2 N3 N4]]. split; try done; cbn. by rewrite length_insert.
  - destruct (Hq0 lens ltac:(lia) (rd_queue _ _ _ Hrd)) as [x Hx]. apply lookup_lt_Some in Hx. lia.
  - cbn. intros b Hb. destruct (decide (b = Z.to_nat i)) as [->|].
    + rewrite list_lookup_insert_eq by lia. by rewrite Hc.
    + rewrite list_lookup_insert_ne by done. apply Hq. lia.
Qed.

Lemma mmap_frame_ok lens i f w g :
  running w0 w g -> looping lens i f g -> 0 <= i ->
  wp (frame i f) (fun r w' => fst r = true -> exists g', running w0 w' g' /\ looping lens (i + 1) (snd r) g') w.
Proof.
  intros Hr [Hrd Hc Hall (l & Hl & Hq) Hlog] Hi. destruct Hok as [Hp _]. unfold frame.
  do 3 (pstep Hp); [by pstep Hp|]. destruct (Ha lens ltac:(lia) (rd_queue _ _ _ Hrd)) as (Hix & len & Hlen & _).
  apply lookup_lt_Some in Hlen as Hlt. set (b := Z.to_nat (a_index a)) in *.
  do 3 (pstep Hp). eapply wp_aget; [done|apply Hq; lia|]. do 5 (pstep Hp).
  apply wp_aset; [rewrite (rd_at _ _ _ Hrd); lia|]. fold b. repeat (pstep Hp); [done|]. intros _.
  pose proof Hlog as (l' & E1 & E2 & _). rewrite Hl in E1. apply app_inv_head in E1 as <-.
  assert (Eb : a_index a = Z.of_nat b) by lia.
  eexists. split; [exact Hr|]. split; cbn.
  - destruct Hrd as [[N1 N2 N3 N4] ? ? ? ? ? Hat]. split; try done; cbn. by rewrite length_insert.
  - rewrite Hc. lia.
  - done.
  - eexists. split; [rewrite Hl, <- app_assoc; reflexivity|]. intros b' Hb'.
    rewrite (enqueued_snoc _ _ _ b) by (cbn; by rewrite Eb). case_decide as E'.
    + subst b'. rewrite list_lookup_insert_eq by (rewrite (rd_at _ _ _ Hrd); lia). do 2 f_equal. lia.
    + rewrite list_lookup_insert_ne by done. by apply Hq.
  - apply logged_snoc; [done|]. intros l0 El0 Hn. rewrite Hl in El0. apply app_inv_head in El0 as <-.
    exists b, [a_sec a; a_usec a; a_sequence a; a_bytesused a]. split; [lia|]. cbn [app]. rewrite Eb, Hc.
    repeat f_equal; lia.
Qed.

Definition queued (lens : list Z) (i : Z) (f : locals) (w : pworld) : Prop :=
  exists g, running w0 w g /\ ready lens f g /\
    g_clock g = (c0 + Z.to_nat i)%nat /\ g_rows g = prow w0 /\ (Z.to_nat i <= length lens)%nat /\
    forall b, (b < Z.to_nat i)%nat -> queued_at f !! b = Some (reading (c0 + b)).

Lemma mmap_queued_all lens f w : queued lens 4 f w -> exists g, running w0 w g /\ looping lens 0 f g.
Proof.
  intros (g & Hr & Hrd & Hc & Hrows & Hlen & Hq). exists g. split; [done|].
  change (Z.to_nat 4) with 4%nat in *. pose proof (rd_lens _ _ _ Hrd). split; [done| |lia| |].
  - rewrite Hc. change (Z.to_nat 0) with 0%nat. lia.
  - exists []. split; [by rewrite app_nil_r|]. intros b Hb. by apply Hq.
  - rewrite Hrows. apply logged_nil.
Qed.

Lemma mmap_stream_ok video csv frames : 0 <= frames ->
  wp (andthen (setup video csv)
        (andthen (for_each BUFFER_COUNT enqueue) (andthen streamon (for_each frames frame))) init)
    (fun r w => fst r = true -> exists g lens, running w0 w g /\ looping lens frames (snd r) g) w0.
Proof.
  intros Hf. pose proof Hok as [Hp _]. apply wp_andthen. eapply wp_mono; [apply mmap_setup_ok|].
  intros [[] f] w Hs; [|done]. destruct (Hs eq_refl) as (g & lens & Hr & Hrd & Hc & Hrows).
  cbn [fst snd] in *. clear Hs. apply wp_andthen. eapply wp_mono.
  { apply (wp_for_each (queued lens) (fun _ _ => True)); [done| |].
    - exists g. split; [done|]. split; [done|]. split; [cbn; lia|]. split; [done|]. cbn. split; lia.
    - intros i f' w' Hi (g' & G1 & G2 & G3 & G4 & G5 & G6).
      eapply wp_mono; [by apply (mmap_enqueue_ok lens i f' w' g')|]. by intros [[] ?] ? Hk; [apply Hk|]. }
  clear Hr Hrd Hc Hrows. intros [[] f1] w1; [|done]. cbn [fst snd]. intros (g1 & Hr & Hl)%mmap_queued_all.
  apply wp_andthen. unfold streamon. repeat (pstep Hp); [done|].
  eapply wp_mono; [apply (wp_for_each (fun i f w => exists g, running w0 w g /\ looping lens i f g)
                            (fun _ _ => True)); [done|by eauto|]|].
  - intros i f' w' Hi (g' & Hr' & Hl'). eapply wp_mono; [by apply (mmap_frame_ok lens i f' w' g'); [..|lia]|].
    by intros [[] ?] ? Hk; [apply Hk|].
  - intros [[] f'] w' Hk ?; [|done]. destruct Hk as (g' & ? & ?). eauto.
Qed.

(** When it succeeds, the program wrote one row per frame and gave everything
    back. *)
Lemma mmap_main_ok args :
  let frames := match args !! 2%nat with Some a => u32 (strtoul0 a) | None => 600 end in
  wp (main args) (fun rc w' =>
    rc = 0 /\ balanced w0 w' /\ logged (paired_row c0) frames (prow w0) (prow w') \/ rc = 1) w0.
Proof.
  intros frames. unfold main. fold frames. apply wp_bind. pose proof Hok as [Hp _].
  eapply wp_mono; [apply mmap_stream_ok|].
  { unfold frames, u32. destruct (args !! 2%nat); [apply Z.mod_pos_bound|]; lia. }
  intros [[] f] w Hs; cbn [fst snd] in *; [|by right]. destruct (Hs eq_refl) as (g & lens & Hr & Hl). clear Hs.
  destruct Hl as [[[N1 N2 N3 N4] Hfd _ _ Hlen Hd _] _ Hall _ Hlog].
  apply wp_bind. eapply (wp_lib_fclose_if w0 true); [exact Hr|]. clear Hr. intros w1 Hr.
  apply (running_weaken _ _ _ (Ghost [fd f] (maps_of (take 4 (buffers f))) 0 0 [] [] [] (g_clock g) (g_rows g))) in Hr;
    [|cbn; try done; try own_in; try lia..].
  apply wp_bind. change BUFFER_COUNT with (Z.of_nat 4).
  eapply (wp_sys_unmap w0 Hp 4 _ [fd f] []); [exact Hr|done|lia| |cbn; own_in|].
  { cbn. intros x Hx. rewrite elem_of_app. split; [|auto]. intros [Hin|]; [|done]. exfalso.
    revert Hx Hin. apply (no_fd_array 4 (replicate 4 (MmapBuf 0 0 (-1)))); [by repeat constructor|].
    intros j b Hj. right. apply (Hd j); [|done]. apply lookup_lt_Some in Hj. lia. }
  clear Hr. intros w2 Hr. apply wp_bind. eapply (wp_sys_close w0 Hp _ []); [exact Hr|done|done|].
  clear Hr. intros w3 Hr. apply wp_ret. left. split; [done|]. split.
  - eapply running_end; [exact Hr|..]; try done; intros x _; apply not_elem_of_nil.
  - by rewrite (r_rows _ _ _ Hr).
Qed.
End Proofs.
End Mmap.

(** ** [user/vpipe-capture-userptr.c] *)

Module Userptr.
Section Userptr.
Context `{V4l2} `{Posix}.

(** [sysconf(_SC_PAGESIZE)]. *)
Context (pagesize : Z).

Definition BUFFER_COUNT : Z := 4.

Record locals := Locals {
  fd : Z; buffers : list Z; lengths : list Z; queued_at : list Z; qbuf_minflt : list Z;
  streaming : bool; fp : bool; aligned_len : Z
}.
Definition init : locals :=
  Locals (-1) (replicate 4 0) (replicate 4 0) (replicate 4 0) (replicate 4 0) false false 0.

Definition page_size : Z := if pagesize <=? 0 then 4096 else pagesize.
Definition align (sizeimage : Z) : Z :=
  Z.land (u64 (sizeimage + page_size - 1)) (u64 (Z.lnot (page_size - 1))).

(** Up to the length of a buffer. *)
Definition negotiate (video : list Z) : stage locals := fun f =>
  (fd <- sys (open video);;
  let f := Locals fd (buffers f) (lengths f) (queued_at f) (qbuf_minflt f) (streaming f) (fp f) 0 in
  if fd <? 0 then quit f
  else
    (r <- sys (vpipe_set_format fd CAPTURE 640 480 V4L2_PIX_FMT_GREY);;
    if r <? 0 then quit f
    else
      (sizeimage <- sys (vpipe_get_sizeimage fd CAPTURE);;
      if sizeimage =? 0 then quit f
      else if UINT_MAX <? align sizeimage then quit f
      else
        go (Locals fd (buffers f) (lengths f) (queued_at f) (qbuf_minflt f) (streaming f) (fp f)
              (align sizeimage))))).

(** The body of the loop that maps the buffers. *)
Definition map_one (i : Z) : stage locals := fun f =>
  (p <- sys (mmap (aligned_len f) (-1) 0);;
  if p =? MAP_FAILED then quit f
  else
    (bufs <- aset (buffers f) i p;;
    lens <- aset (lengths f) i (aligned_len f);;
    go (Locals (fd f) bufs lens (queued_at f) (qbuf_minflt f) (streaming f) (fp f) (aligned_len f)))).

Definition request (csv : list Z) : stage locals := fun f =>
  (a <- sys (vpipe_xioctl (fd f) (REQBUFS CAPTURE BUFFER_COUNT V4L2_MEMORY_USERPTR));;
  if a_ret a <? 0 then quit f
  else if a_count a <? BUFFER_COUNT then quit f
  else
    (fp <- lib (vpipe_open_csv csv (Some (lit
       "frame,buffer_index,enqueue_monotonic_ns,dequeue_monotonic_ns,v4l2_timestamp_sec,v4l2_timestamp_usec,sequence,bytesused,minor_faults_delta")));;
    let f := Locals (fd f) (buffers f) (lengths f) (queued_at f) (qbuf_minflt f) (streaming f) fp
               (aligned_len f) in
    if negb fp then quit f else go f)).

(** The body of the loop that queues the buffers. *)
Definition enqueue (i : Z) : stage locals := fun f =>
  (p <- aget (buffers f) i;;
  now <- sys vpipe_now_monotonic_ns;;
  q <- aset (queued_at f) i now;;
  let f := Locals (fd f) (buffers f) (lengths f) q (qbuf_minflt f) (streaming f) (fp f) (aligned_len f) in
  a <- sys (vpipe_xioctl (fd f)
         (QBUF (Qbuf CAPTURE V4L2_MEMORY_USERPTR i p 0 (u32 (aligned_len f)))));;
  if a_ret a <? 0 then quit f
  else
    (m <- aset (qbuf_minflt f) i 0;;
    go (Locals (fd f) (buffers f) (lengths f) (queued_at f) m (streaming f) (fp f) (aligned_len f)))).

Definition streamon : stage locals := fun f =>
  (a <- sys (vpipe_xioctl (fd f) (STREAMON CAPTURE));;
  if a_ret a <? 0 then quit f
  else go (Locals (fd f) (buffers f) (lengths f) (queued_at f) (qbuf_minflt f) true (fp f) (aligned_len f))).

(** Reset mode: a fresh mapping in place of the dequeued buffer's, made before
    the old one is unmapped. [munmap] of a whole mapping does not fail. *)
Definition remap (idx : Z) : stage locals := fun f =>
  (old <- aget (buffers f) idx;;
  old_len <- aget (lengths f) idx;;
  fresh <- sys (mmap (aligned_len f) (-1) 0);;
  if fresh =? MAP_FAILED then quit f
  else if fresh =? old then (sys (munmap fresh);; quit f)
  else
    (bufs <- aset (buffers f) idx fresh;;
    lens <- aset (lengths f) idx (aligned_len f);;
    sys (munmap old);;
    go (Locals (fd f) bufs lens (queued_at f) (qbuf_minflt f) (streaming f) (fp f) (aligned_len f)))).

(** Queueing the buffer again, with the faults it costs. *)
Definition resubmit (idx : Z) : stage locals := fun f =>
  (p <- aget (buffers f) idx;;
  before <- sys getrusage_minflt;;
  now <- sys vpipe_now_monotonic_ns;;
  q <- aset (queued_at f) idx now;;
  let f := Locals (fd f) (buffers f) (lengths f) q (qbuf_minflt f) (streaming f) (fp f) (aligned_len f) in
  a <- sys (vpipe_xioctl (fd f)
         (QBUF (Qbuf CAPTURE V4L2_MEMORY_USERPTR idx p 0 (u32 (aligned_len f)))));;
  if a_ret a <? 0 then quit f
  else
    (after <- sys getrusage_minflt;;
    m <- aset (qbuf_minflt f) idx (if (before <? 0) || (after <? 0) then -1 else after - before);;
    go (Locals (fd f) (buffers f) (lengths f) (queued_at f) m (streaming f) (fp f) (aligned_len f)))).

(** The body of the frame loop. *)
Definition frame (reset_between_frames : bool) (i : Z) : stage locals := fun f =>
  (buf <- sys (dqbuf (fd f) CAPTURE V4L2_MEMORY_USERPTR);;
  if a_ret buf <? 0 then quit f
  else if BUFFER_COUNT <=? a_index buf then quit f
  else
    (let idx := a_index buf in
    p <- aget (buffers f) idx;;
    if negb (a_m buf =? p) then quit f
    else
      (dq_ns <- sys vpipe_now_monotonic_ns;;
      enqueue_ns <- aget (queued_at f) idx;;
      delta <- aget (qbuf_minflt f) idx;;
      emit [i; idx; enqueue_ns; dq_ns; a_sec buf; a_usec buf; a_sequence buf; a_bytesused buf; delta];;
      andthen (if reset_between_frames then remap idx else go) (resubmit idx) f))).

Fixpoint unmap_all (l : list Z) : F cproc unit :=
  match l with
  | [] => fret tt
  | a :: l' => ((if ztrue a then munmap a else fret tt);; unmap_all l')
  end.

Definition cleanup (f : locals) : F pworld unit :=
  (sys (streamoff_if ((0 <=? fd f) && streaming f) (fd f) CAPTURE);;
  lib (fclose_if (fp f));;
  sys (unmap_all (buffers f));;
  sys (close_if (fd f))).

(** The stages of [main]. *)
Definition body (video csv : list Z) (frames : Z) (reset : bool) : stage locals :=
  andthen (negotiate video)
    (andthen (for_each BUFFER_COUNT map_one)
       (andthen (request csv)
          (andthen (for_each BUFFER_COUNT enqueue)
             (andthen streamon (for_each frames (frame reset)))))).

(** [reset], [noreset] or neither. *)
Definition mode_arg (args : list (list Z)) : option bool :=
  match args !! 3%nat with
  | None => Some true
  | Some m => if is_name m "reset" then Some true else if is_name m "noreset" then Some false else None
  end.

Definition main (args : list (list Z)) : F pworld Z :=
  let video := default (lit "/dev/video0") (args !! 0%nat) in
  let csv := default (lit "bench/userptr.csv") (args !! 1%nat) in
  match uint_arg args 2 1 UINT_MAX 600 with
  | None => fret 1
  | Some frames =>
      match mode_arg args with
      | None => fret 1
      | Some reset => run_program (body video csv frames reset) cleanup init
      end
  end.
End Userptr.

Section Proofs.
Context `{V4l2Laws} `{!BufferLaws} `{!FormatLaws} `{Posix} (pagesize : Z).
Context (w0 : pworld) (Hok : start_ok w0).
Let c0 := cclock (pc w0).

Definition owns (f : locals) (g : ghost) : Prop := names [fd f] (buffers f) (if fp f then 1 else 0) 0 g.

(** The arrays have their length, and nothing is known of queues and mappings. *)
Record shape (f : locals) (g : ghost) : Prop := {
  sh_owns : owns f g;
  sh_buffers : length (buffers f) = 4%nat;
  sh_lengths : length (lengths f) = 4%nat;
  sh_at : length (queued_at f) = 4%nat;
  sh_minflt : length (qbuf_minflt f) = 4%nat;
  sh_known : g_known g = [];
  sh_queues : g_queues g = []
}.

(** The mapping loop before entry [i]: the entries from [i] on are empty. *)
Definition mapped (i : Z) (f : locals) (w : pworld) : Prop :=
  exists g, running w0 w g /\ shape f g /\ fp f = false /\
    (forall j : nat, i <= Z.of_nat j < 4 -> buffers f !! j = Some 0) /\ g_clock g = c0 /\ g_rows g = prow w0.

Lemma userptr_negotiate_ok video :
  wp (negotiate pagesize video init) (fun r w =>
    if fst r : bool
    then mapped 0 (snd r) w
    else accounted owns w0 (snd r) w) w0.
Proof.
  pose proof (running_start w0 (st_crc _ Hok)) as Hr. destruct Hok as [Hp Hc].
  unfold negotiate. repeat (pstep Hp); try done.
  all: try (by new_queue).
  all: eexists; (split; [eassumption|]); 
    first [by solve_names|split; [split; try done; solve_names|split; [done|]; split; [|done]]].
  intros j Hj. apply lookup_replicate. split; [done|lia].
Qed.

(** A mapping in place of an empty or unmapped entry. *)
Lemma userptr_swap_ok (l : list Z) i m x :
  l !! i = Some x -> forall a, 0 < a -> a <> x -> (a ∈ <[i := m]> l <-> a = m \/ a ∈ l).
Proof.
  intros Hi a Ha Hne. pose proof (elem_fmap_insert (fun z => z) l i x m a Hi Hne) as E.
  by rewrite !list_fmap_id in E.
Qed.

Lemma userptr_map_ok i f w g :
  running w0 w g -> shape f g -> 0 <= i < 4 -> buffers f !! Z.to_nat i = Some 0 ->
  wp (map_one i f) (fun r w' =>
    if fst r : bool
    then exists g', running w0 w' g' /\ shape (snd r) g' /\
           (forall j, (j <> Z.to_nat i)%nat -> buffers (snd r) !! j = buffers f !! j) /\
           fp (snd r) = fp f /\ g_clock g' = g_clock g /\ g_rows g' = g_rows g
    else accounted owns w0 (snd r) w') w.
Proof.
  intros Hr [[N1 N2 N3 N4] S2 S3 S4 S5 S6 S7] Hi Hx. destruct Hok as [Hp _]. unfold map_one.
  do 2 (pstep Hp).
  - cbn. apply wp_ret. eexists. by split; [exact Hr|].
  - unfold MAP_FAILED. destruct (Z.eqb_spec m (-1)); [lia|]. apply wp_bind, wp_aset; [lia|].
    apply wp_bind, wp_aset; [lia|]. apply wp_ret. cbn [fst snd].
    exists (Ghost (g_fds g) (m :: g_maps g) (g_opens g) (g_blocks g) [] [] (g_fmts g) (g_clock g) (g_rows g)).
    split; [eapply running_weaken; [exact Hr|try done..]; cbn; intros ? ?%not_elem_of_nil; done|].
    split; [|split; [|done]].
    + split; cbn; rewrite ?length_insert; try done. split; cbn; try done. intros a Ha.
      rewrite (userptr_swap_ok _ _ m 0 Hx a Ha) by lia. rewrite elem_of_cons, N2 by done. done.
    + cbn. intros j Hj. by rewrite list_lookup_insert_ne.
Qed.

Lemma userptr_request_ok csv f w g :
  running w0 w g -> shape f g -> fp f = false ->
  wp (request csv f) (fun r w' =>
    if fst r : bool
    then exists g', running w0 w' g' /\ shape (snd r) g' /\ g_clock g' = g_clock g /\ g_rows g' = g_rows g
    else accounted owns w0 (snd r) w') w.
Proof.
  intros Hr Hs Hfp. pose proof Hs as [[N1 N2 N3 N4] S2 S3 S4 S5 S6 S7]. rewrite Hfp in N3.
  destruct Hok as [Hp _]. unfold request. repeat (pstep Hp).
  { rewrite S7. by intros ? ?%not_elem_of_nil. }
  all: eexists; (split; [eassumption|]).
  all: try (split; cbn; rewrite ?Hfp; done || lia).
  split; [split; try done; split; cbn; done || lia|done].
Qed.

Lemma userptr_enqueue_ok i f w g :
  running w0 w g -> shape f g -> 0 <= i < 4 ->
  wp (enqueue i f) (fun r w' =>
    if fst r : bool
    then exists g', running w0 w' g' /\ shape (snd r) g' /\
           queued_at (snd r) = <[Z.to_nat i := reading (g_clock g)]> (queued_at f) /\
           g_clock g' = S (g_clock g) /\ g_rows g' = g_rows g
    else accounted owns w0 (snd r) w') w.
Proof.
  intros Hr Hs Hi. pose proof Hs as [[N1 N2 N3 N4] S2 S3 S4 S5 S6 S7]. destruct Hok as [Hp _]. unfold enqueue.
  destruct (lookup_lt_is_Some_2 (buffers f) (Z.to_nat i)) as [x Hx]; [lia|].
  pstep Hp. eapply wp_aget; [lia|done|]. do 3 (pstep Hp). apply wp_aset; [lia|]. repeat (pstep Hp).
  - eexists. by split; [exact Hr|].
  - apply wp_aset; [cbn; lia|]. pstep Hp. eexists. split; [exact Hr|]. split; [|done].
    split; cbn; rewrite ?length_insert; done.
Qed.

Lemma userptr_remap_ok idx f w g :
  running w0 w g -> shape f g -> 0 <= idx < 4 ->
  wp (remap idx f) (fun r w' =>
    if fst r : bool
    then exists g', running w0 w' g' /\ shape (snd r) g' /\ queued_at (snd r) = queued_at f /\
           g_clock g' = g_clock g /\ g_rows g' = g_rows g
    else accounted owns w0 (snd r) w') w.
Proof.
  intros Hr Hs Hi. pose proof Hs as [[N1 N2 N3 N4] S2 S3 S4 S5 S6 S7]. destruct Hok as [Hp _]. unfold remap.
  destruct (lookup_lt_is_Some_2 (buffers f) (Z.to_nat idx)) as [old Hold]; [lia|].
  destruct (lookup_lt_is_Some_2 (lengths f) (Z.to_nat idx)) as [ol Hol]; [lia|].
  pstep Hp. eapply wp_aget; [lia|done|]. pstep Hp. eapply wp_aget; [lia|done|]. do 2 (pstep Hp).
  { cbn. apply wp_ret. eexists. by split; [exact Hr|]. }
  unfold MAP_FAILED. destruct (Z.eqb_spec m (-1)); [lia|].
  apply (running_weaken _ _ _ (Ghost (g_fds g) (m :: buffers f) (g_opens g) (g_blocks g) [] [] [] (g_clock g)
    (g_rows g))) in Hr; [|cbn; try done; try own_in; by intros ? ?%not_elem_of_nil..].
  destruct (Z.eqb_spec m old) as [->|Hne].
  - pstep Hp. eapply (wp_sys_munmap w0 Hp _ (buffers f)); [exact Hr|done|done|].
    clear Hr. intros w' Hr. apply wp_ret. eexists. split; [exact Hr|]. by split.
  - apply wp_bind, wp_aset; [lia|]. apply wp_bind, wp_aset; [lia|]. pstep Hp.
    eapply (wp_sys_munmap w0 Hp _ (<[Z.to_nat idx := m]> (buffers f))); [exact Hr|done| |].
    { cbn. intros b Hb. rewrite !elem_of_cons. destruct (decide (b = old)) as [->|Hb'].
      - split; [|auto]. intros _. right. apply list_elem_of_lookup. eauto.
      - rewrite (userptr_swap_ok _ _ m old Hold b Hb Hb'). tauto. }
    clear Hr. intros w' Hr. apply wp_ret. cbn [fst snd]. eexists. split; [exact Hr|]. split; [|done].
    split; cbn; rewrite ?length_insert; done.
Qed.

Lemma userptr_resubmit_ok idx f w g :
  running w0 w g -> shape f g -> 0 <= idx < 4 ->
  wp (resubmit idx f) (fun r w' =>
    if fst r : bool
    then exists g', running w0 w' g' /\ shape (snd r) g' /\
           queued_at (snd r) = <[Z.to_nat idx := reading (g_clock g)]> (queued_at f) /\
           g_clock g' = S (g_clock g) /\ g_rows g' = g_rows g
    else accounted owns w0 (snd r) w') w.
Proof.
  intros Hr Hs Hi. pose proof Hs as [[N1 N2 N3 N4] S2 S3 S4 S5 S6 S7]. destruct Hok as [Hp _]. unfold resubmit.
  destruct (lookup_lt_is_Some_2 (buffers f) (Z.to_nat idx)) as [x Hx]; [lia|].
  pstep Hp. eapply wp_aget; [lia|done|]. do 5 (pstep Hp). apply wp_aset; [lia|]. repeat (pstep Hp).
  - eexists. by split; [exact Hr|].
  - apply wp_aset; [cbn; lia|]. pstep Hp. eexists. split; [exact Hr|]. split; [|done].
    split; cbn; rewrite ?length_insert; done.
Qed.

(** Before frame [i]. *)
Record looping (i : Z) (f : locals) (g : ghost) : Prop := {
  lp_shape : shape f g;
  lp_clock : g_clock g = (c0 + 4 + 2 * Z.to_nat i)%nat;
  lp_rows : exists l, g_rows g = prow w0 ++ l /\ Z.of_nat (length l) = i /\
    forall b, (b < 4)%nat -> queued_at f !! b = Some (enqueued c0 l b);
  lp_log : logged (paired_row c0) i (prow w0) (g_rows g)
}.

Lemma userptr_frame_ok reset i f w g :
  running w0 w g -> looping i f g -> 0 <= i ->
  wp (frame reset i f) (fun r w' =>
    if fst r : bool then exists g', running w0 w' g' /\ looping (i + 1) (snd r) g'
    else accounted owns w0 (snd r) w') w.
Proof.
  intros Hr [Hs Hc (l & Hl & Hn & Hq) Hlog] Hi. destruct Hok as [Hp _]. unfold frame.
  assert (Hq0 : forall w', running w0 w' g -> accounted owns w0 f w').
  { intros w' Hr'. eexists. split; [exact Hr'|apply Hs]. }
  pose proof (sh_buffers _ _ Hs) as S2. pose proof (sh_minflt _ _ Hs) as S5.
  do 3 (pstep Hp); [pstep Hp; auto|]. pstep Hp; [pstep Hp; auto|]. unfold BUFFER_COUNT in *.
  specialize (Hidx ltac:(lia)). set (b := Z.to_nat (a_index a)) in *.
  assert (Eb : a_index a = Z.of_nat b) by lia. assert (Hb : (b < 4)%nat) by lia. cbv zeta. pstep Hp.
  destruct (lookup_lt_is_Some_2 (buffers f) b) as [x Hx]; [lia|]. eapply wp_aget; [done|exact Hx|].
  pstep Hp; [pstep Hp; auto|]. do 3 (pstep Hp). eapply wp_aget; [done|by apply Hq|]. pstep Hp.
  destruct (lookup_lt_is_Some_2 (qbuf_minflt f) b) as [y Hy]; [lia|]. eapply wp_aget; [done|exact Hy|].
  do 2 (pstep Hp). set (row := [i; _; _; _; _; _; _; _; _]) in Hr.
  assert (Hs1 : shape f (add_row row (tick g))) by (destruct Hs as [[]]; by split).
  apply wp_andthen.
  eapply (wp_mono _ (fun r w' => if fst r : bool
    then exists g', running w0 w' g' /\ shape (snd r) g' /\ queued_at (snd r) = queued_at f /\
           g_clock g' = S (g_clock g) /\ g_rows g' = g_rows g ++ [row]
    else accounted owns w0 (snd r) w')).
  { destruct reset; [by apply (userptr_remap_ok (a_index a) f w3 (add_row row (tick g))); [..|lia]|].
    apply wp_ret. eexists. by split; [exact Hr|]. }
  clear Hr. intros [[] f1] w4; [|done]. cbn [fst snd]. intros (g1 & Hr & Hs2 & Eq & Ec & Er).
  eapply wp_mono; [eapply userptr_resubmit_ok; [exact Hr|done|lia]|].
  intros [[] f2] w5; [|done]. cbn [fst snd]. intros (g2 & Hr2 & Hs3 & Eq2 & Ec2 & Er2).
  exists g2. split; [done|]. split; [done|lia| |].
  - exists (l ++ [row]). rewrite Er2, Er, Hl, app_assoc, length_app. split; [done|]. split; [cbn; lia|].
    intros b' Hb'. rewrite (enqueued_snoc _ _ _ b) by (cbn; by rewrite Eb). rewrite Eq2, Eq. fold b.
    case_decide as E'.
    + subst b'. rewrite list_lookup_insert_eq by (rewrite (sh_at _ _ Hs); lia). do 2 f_equal. lia.
    + rewrite list_lookup_insert_ne by done. by apply Hq.
  - rewrite Er2, Er. apply logged_snoc; [done|]. intros l0 El0 Hn0. rewrite Hl in El0.
    apply app_inv_head in El0 as <-. exists b, [a_sec a; a_usec a; a_sequence a; a_bytesused a; y].
    split; [done|]. unfold row. cbn [app]. rewrite Eb, Hc. repeat f_equal; lia.
Qed.

(** Unmapping every entry that is not null. *)
Lemma userptr_unmap_ok l w g (Q : unit -> pworld -> Prop) :
  running w0 w g -> g_known g = [] -> (forall a, 0 < a -> (a ∈ g_maps g <-> a ∈ l)) ->
  (forall w', running w0 w' (set_held (g_fds g) [] g) -> Q tt w') -> wp (sys (unmap_all l)) Q w.
Proof.
  destruct Hok as [Hp _]. revert w g. induction l as [|a l IH]; intros w g Hr Hk Hm HQ; cbn [unmap_all].
  - destruct w as [c u rw cs]. apply HQ. eapply running_weaken; [exact Hr|try done..]. cbn. own_in.
  - apply wp_sys_bind. unfold ztrue. destruct (Z.eqb_spec a 0) as [->|Hne]; cbn [negb].
    + destruct w as [c u rw cs]. apply (IH _ g); [done|done| |done]. own_in.
    + eapply (wp_sys_munmap w0 Hp a l); [exact Hr|done|own_in|]. clear Hr. intros w' Hr.
      by apply (IH w' (set_held (g_fds g) l g)).
Qed.

Lemma userptr_cleanup_ok : gives_back owns w0 cleanup.
Proof.
  intros f w g Hr [O1 O2 O3 O4]. destruct Hok as [Hp _]. unfold cleanup. do 5 (pstep Hp).
  apply (running_weaken _ _ _ (Ghost [fd f] (buffers f) 0 0 [] [] [] (g_clock g) (g_rows g))) in Hr.
  2-10: cbn; try done; try own_in; try (rewrite ?O3, ?O4; destruct (fp f); lia); by intros ? ?%not_elem_of_nil.
  eapply userptr_unmap_ok; [exact Hr|done|done|]. clear Hr. intros w' Hr. cbn in Hr.
  eapply (wp_sys_close_if w0 Hp _ []); [exact Hr|done|]. clear Hr. intros w'' Hr.
  split; [|by rewrite (r_rows _ _ _ Hr)].
  eapply running_end; [exact Hr| | |done|done]; intros x _; apply not_elem_of_nil.
Qed.

(** The queueing loop before entry [i]. *)
Definition queued (i : Z) (f : locals) (w : pworld) : Prop :=
  exists g, running w0 w g /\ shape f g /\ g_clock g = (c0 + Z.to_nat i)%nat /\ g_rows g = prow w0 /\
    forall b, (b < Z.to_nat i)%nat -> queued_at f !! b = Some (reading (c0 + b)).

Lemma userptr_mapping_ok f w : mapped 0 f w ->
  wp (for_each BUFFER_COUNT map_one f) (fun r w' =>
    if fst r : bool then mapped 4 (snd r) w' else accounted owns w0 (snd r) w') w.
Proof.
  intros Hm. apply (wp_for_each mapped (accounted owns w0)); [done|done|]. clear f w Hm.
  intros i f w Hi (g & Hr & Hs & Hfp & Hz & Hc & Hrows). change BUFFER_COUNT with 4 in Hi.
  eapply wp_mono; [apply (userptr_map_ok i f w g); [done|done|done|]|].
  - apply Hz. lia.
  - intros [[] f'] w'; [|done]. cbn [fst snd]. intros (g' & Hr' & Hs' & Hj & Ef & Ec & Er).
    exists g'. split; [done|]. split; [done|]. split; [congruence|]. split; [|split; congruence].
    intros j Hi'. rewrite Hj by lia. apply Hz. lia.
Qed.

Lemma userptr_queueing_ok f w : queued 0 f w ->
  wp (for_each BUFFER_COUNT enqueue f) (fun r w' =>
    if fst r : bool then queued 4 (snd r) w' else accounted owns w0 (snd r) w') w.
Proof.
  intros Hm. apply (wp_for_each queued (accounted owns w0)); [done|done|]. clear f w Hm.
  intros i f w Hi (g & Hr & Hs & Hc & Hrows & Hq). change BUFFER_COUNT with 4 in Hi.
  eapply wp_mono; [by apply (userptr_enqueue_ok i f w g)|]. intros [[] f'] w'; [|done]. cbn [fst snd].
  intros (g' & Hr' & Hs' & Eq & Ec & Er). exists g'. split; [done|]. split; [done|]. split; [lia|].
  split; [congruence|]. intros b Hb. rewrite Eq, Hc. destruct (decide (b = Z.to_nat i)) as [->|].
  - rewrite list_lookup_insert_eq by (rewrite (sh_at _ _ Hs); lia). done.
  - rewrite list_lookup_insert_ne by done. apply Hq. lia.
Qed.

Lemma queued_looping f w : queued 4 f w -> exists g, running w0 w g /\ looping 0 f g.
Proof.
  intros (g & Hr & Hs & Hc & Hrows & Hq). exists g. split; [done|]. split; [done| | |].
  - rewrite Hc. cbn. lia.
  - exists []. split; [by rewrite app_nil_r|]. split; [done|]. intros b Hb. by apply Hq.
  - rewrite Hrows. apply logged_nil.
Qed.

Lemma userptr_body_ok video csv frames reset : 0 <= frames ->
  wp (body pagesize video csv frames reset init) (fun r w =>
    if fst r : bool
    then exists g, running w0 w g /\ owns (snd r) g /\ logged (paired_row c0) frames (prow w0) (g_rows g)
    else accounted owns w0 (snd r) w) w0.
Proof.
  intros Hf. pose proof Hok as [Hp _]. apply wp_andthen. eapply wp_mono; [apply userptr_negotiate_ok|].
  intros [[] f] w; [|done]. cbn [fst snd]. intros Hm. apply wp_andthen.
  eapply wp_mono; [by apply userptr_mapping_ok|]. clear f w Hm. intros [[] f] w; [|done]. cbn [fst snd].
  intros (g & Hr & Hs & Hfp & _ & Hc & Hrows). apply wp_andthen.
  eapply wp_mono; [by apply (userptr_request_ok csv f w g)|]. intros [[] f1] w1; [|done]. cbn [fst snd].
  intros (g1 & Hr1 & Hs1 & Ec1 & Er1). apply wp_andthen. eapply wp_mono; [apply userptr_queueing_ok|].
  { exists g1. split; [done|]. split; [done|]. split; [cbn; lia|]. split; [congruence|]. cbn. lia. }
  intros [[] f2] w2; [|done]. cbn [fst snd]. intros (g2 & Hr2 & Hl2)%queued_looping. apply wp_andthen.
  clear Hr Hr1. unfold streamon. repeat (pstep Hp).
  { eexists. split; [exact Hr2|]. apply (sh_owns _ _ (lp_shape _ _ _ Hl2)). }
  eapply wp_mono; [apply (wp_for_each (fun i f w => exists g, running w0 w g /\ looping i f g) (accounted owns w0));
    [done| |]|].
  - exists g2. split; [done|]. destruct Hl2 as [[[] ? ? ? ? ? ?] ? ? ?]. by split.
  - intros i f' w' Hi (g' & Hr' & Hl'). by apply (userptr_frame_ok reset i f' w' g'); [..|lia].
  - intros [[] f'] w'; [|done]. cbn [fst snd]. intros (g' & Hr' & [Hs' _ _ Hlog]). exists g'.
    split; [done|]. split; [apply Hs'|done].
Qed.

Lemma userptr_main_ok args :
  wp (main pagesize args) (fun rc w' => balanced w0 w' /\
    ((exists frames, rc = 0 /\ uint_arg args 2 1 UINT_MAX 600 = Some frames /\
        logged (paired_row c0) frames (prow w0) (prow w')) \/ rc = 1)) w0.
Proof.
  unfold main. destruct (uint_arg args 2 1 UINT_MAX 600) as [frames|] eqn:Ef;
    [|apply wp_ret; auto using balanced_refl].
  destruct (mode_arg args) as [reset|]; [|apply wp_ret; auto using balanced_refl].
  apply uint_arg_in in Ef as Hf; [|done].
  eapply wp_mono; [eapply (wp_program owns w0 _ _ _ (logged (paired_row c0) frames (prow w0)));
    [apply userptr_cleanup_ok|apply userptr_body_ok; lia]|].
  intros rc w' [Hb [[-> Hd]|Hd]]; (split; [done|]); [left; eauto|by right].
Qed.
End Proofs.
End Userptr.

(** ** The theorems *)

Import TinySim.



(** the READ capture program, with any device and any arguments, gives
    back its descriptor, stream and buffer whether it fails or not, and never
    reads past its buffer. When it succeeds it has written exactly the rows
    asked for: row [k] has the frame's number, the clock before and after its
    [read], how many bytes came and the CRC-32 of those bytes. *)
Theorem capture_read_rows `{V4l2Laws} `{!BufferLaws} `{!FormatLaws} `{Posix} (w0 : pworld) args
    (Hok : start_ok w0) :
  wp (Read.main args) (fun rc w' => balanced w0 w' /\
    ((exists frames, rc = 0 /\ uint_arg args 2 1 UINT_MAX 600 = Some frames /\
        logged (Read.row_ok w0) frames (prow w0) (prow w')) \/ rc = 1)) w0.
Proof. by apply Read.read_main_ok. Qed.

Lemma capture_read_rows_witness :
  exists w', Read.main [lit "v"; lit "c"; lit "2"] (tiny_world ∅) = Some (0, w') /\
    prow w' = [[0; 0; 0; 1000000000; 16; 1612278905]; [1; 1; 2000000000; 3000000000; 16; 1612278905]] /\
    balanced (tiny_world ∅) w'.
Proof.
  pose proof (capture_read_rows (tiny_world ∅) [lit "v"; lit "c"; lit "2"] (first_world_ok _ _)) as H1.
  destruct (wp_outcome _ _ _ 0 [[0; 0; 0; 1000000000; 16; 1612278905]; [1; 1; 2000000000; 3000000000; 16; 1612278905]]
    H1) as (w' & E & Er & Hb & _); [vm_compute; reflexivity|]. exists w'. exact (conj E (conj Er Hb)).
Defined.
