(* ===== verification/CaptureM2m.v ===== *)
(** * Capture through the mem2mem device

    [vpipe-capture-m2m] and [vpipe-capture-dmabuf]: frames captured from one
    device are passed through the mem2mem device, by reference (DMABUF) or by
    a copy (MMAP), one row per frame. *)

From S2P Require Import Prelude Types M2m Crc32 Pgm Wp Client Process.

(** ** [user/vpipe-capture-m2m.c] *)

Module CapM2m.
Section CapM2m.
Context `{V4l2} `{Posix}.

Definition BUFFER_COUNT : Z := 4.

Inductive transport_mode := TRANSPORT_DMABUF | TRANSPORT_MMAP.

Definition parse_transport (value : list Z) : option transport_mode :=
  if is_name value "dmabuf" then Some TRANSPORT_DMABUF
  else if is_name value "mmap" then Some TRANSPORT_MMAP
  else None.

Definition out_memory (mode : transport_mode) : Z :=
  match mode with TRANSPORT_DMABUF => V4L2_MEMORY_DMABUF | TRANSPORT_MMAP => V4L2_MEMORY_MMAP end.

(** The locals that [cleanup] looks at. *)
Record locals := Locals {
  vivid_fd : Z; vpipe_fd : Z;
  vivid_bufs : list vpipe_mmap_buffer; vpipe_out_bufs : list vpipe_mmap_buffer;
  vpipe_bufs : list vpipe_mmap_buffer;
  vivid_streaming : bool; vpipe_cap_streaming : bool; vpipe_out_streaming : bool; fp : bool
}.
Definition init : locals :=
  Locals (-1) (-1) (blanks 4) (blanks 4) (blanks 4) false false false false.

Definition with_fds (a b : Z) (f : locals) : locals :=
  Locals a b (vivid_bufs f) (vpipe_out_bufs f) (vpipe_bufs f) (vivid_streaming f)
    (vpipe_cap_streaming f) (vpipe_out_streaming f) (fp f).
Definition with_bufs (v o p : list vpipe_mmap_buffer) (f : locals) : locals :=
  Locals (vivid_fd f) (vpipe_fd f) v o p (vivid_streaming f) (vpipe_cap_streaming f)
    (vpipe_out_streaming f) (fp f).
Definition with_streaming (v c o : bool) (f : locals) : locals :=
  Locals (vivid_fd f) (vpipe_fd f) (vivid_bufs f) (vpipe_out_bufs f) (vpipe_bufs f) v c o (fp f).
Definition with_fp (b : bool) (f : locals) : locals :=
  Locals (vivid_fd f) (vpipe_fd f) (vivid_bufs f) (vpipe_out_bufs f) (vpipe_bufs f)
    (vivid_streaming f) (vpipe_cap_streaming f) (vpipe_out_streaming f) b.

Definition open_devices (vivid vpipe : list Z) : stage locals := fun f =>
  (a <- sys (open vivid);;
  let f := with_fds a (vpipe_fd f) f in
  if a <? 0 then quit f
  else
    (b <- sys (open vpipe);;
    let f := with_fds a b f in
    if b <? 0 then quit f else go f)).

Definition negotiate : stage locals := fun f =>
  (r <- sys (vpipe_set_format (vivid_fd f) CAPTURE 640 480 V4L2_PIX_FMT_GREY);;
  if r <? 0 then quit f
  else
    (r <- sys (vpipe_set_format (vpipe_fd f) OUTPUT 640 480 V4L2_PIX_FMT_GREY);;
    if r <? 0 then quit f
    else
      (r <- sys (vpipe_set_format (vpipe_fd f) CAPTURE 640 480 V4L2_PIX_FMT_GREY);;
      if r <? 0 then quit f
      else
        (vivid_sizeimage <- sys (vpipe_get_sizeimage (vivid_fd f) CAPTURE);;
        vpipe_out_sizeimage <- sys (vpipe_get_sizeimage (vpipe_fd f) OUTPUT);;
        if (vivid_sizeimage =? 0) || (vpipe_out_sizeimage =? 0) then quit f else go f)))).

Definition request (mode : transport_mode) (csv : list Z) : stage locals := fun f =>
  (v <- sys (vpipe_request_mmap_buffers (vivid_fd f) CAPTURE BUFFER_COUNT (vivid_bufs f));;
  let f := with_bufs (snd v) (vpipe_out_bufs f) (vpipe_bufs f) f in
  if fst v <? 0 then quit f
  else
    (p <- sys (vpipe_request_mmap_buffers (vpipe_fd f) CAPTURE BUFFER_COUNT (vpipe_bufs f));;
    let f := with_bufs (vivid_bufs f) (vpipe_out_bufs f) (snd p) f in
    if fst p <? 0 then quit f
    else
      (a <- sys (vpipe_xioctl (vpipe_fd f) (REQBUFS OUTPUT BUFFER_COUNT (out_memory mode)));;
      if a_ret a <? 0 then quit f
      else
        (o <- match mode with
              | TRANSPORT_MMAP =>
                  sys (vpipe_request_mmap_buffers (vpipe_fd f) OUTPUT BUFFER_COUNT (vpipe_out_bufs f))
              | TRANSPORT_DMABUF => fret (0, vpipe_out_bufs f)
              end;;
        let f := with_bufs (vivid_bufs f) (snd o) (vpipe_bufs f) f in
        if fst o <? 0 then quit f
        else
          (fp <- lib (vpipe_open_csv csv (Some (lit
             "frame,transport,algo,vivid_sequence,vpipe_sequence,vivid_dq_monotonic_ns,vpipe_dq_monotonic_ns,vpipe_bytesused")));;
          let f := with_fp fp f in
          if negb fp then quit f else go f))))).

(** The body of the loop that exports and queues the buffers. *)
Definition enqueue (mode : transport_mode) (i : Z) : stage locals := fun f =>
  (e <- match mode with
        | TRANSPORT_DMABUF =>
            (b <- aget (vivid_bufs f) i;;
            x <- sys (export_dmabuf (vivid_fd f) CAPTURE i);;
            bufs <- aset (vivid_bufs f) i (MmapBuf (addr b) (b_length b) x);;
            fret (x, bufs))
        | TRANSPORT_MMAP => fret (0, vivid_bufs f)
        end;;
  let f := with_bufs (snd e) (vpipe_out_bufs f) (vpipe_bufs f) f in
  if fst e <? 0 then quit f
  else
    (r <- sys (vpipe_queue_mmap_buffer (vivid_fd f) CAPTURE V4L2_MEMORY_MMAP i (-1));;
    if r <? 0 then quit f
    else
      (r <- sys (vpipe_queue_mmap_buffer (vpipe_fd f) CAPTURE V4L2_MEMORY_MMAP i (-1));;
      if r <? 0 then quit f else go f))).

Definition streamon : stage locals := fun f =>
  (a <- sys (vpipe_xioctl (vivid_fd f) (STREAMON CAPTURE));;
  if a_ret a <? 0 then quit f
  else
    (let f := with_streaming true (vpipe_cap_streaming f) (vpipe_out_streaming f) f in
    a <- sys (vpipe_xioctl (vpipe_fd f) (STREAMON CAPTURE));;
    if a_ret a <? 0 then quit f
    else
      (let f := with_streaming true true (vpipe_out_streaming f) f in
      a <- sys (vpipe_xioctl (vpipe_fd f) (STREAMON OUTPUT));;
      if a_ret a <? 0 then quit f else go (with_streaming true true true f)))).

(** The OUTPUT buffer that hands a captured frame on: by descriptor, or after
    a copy cut to both buffers. *)
Definition pass_on (mode : transport_mode) (vivid_dq : answer) (f : locals) : F pworld qbuf_arg :=
  (v <- aget (vivid_bufs f) (a_index vivid_dq);;
  match mode with
  | TRANSPORT_DMABUF =>
      fret (Qbuf OUTPUT V4L2_MEMORY_DMABUF (a_index vivid_dq) (dmabuf_fd v) (a_bytesused vivid_dq)
              (b_length v))
  | TRANSPORT_MMAP =>
      (o <- aget (vpipe_out_bufs f) (a_index vivid_dq);;
      let copy_len := a_bytesused vivid_dq in
      let copy_len := if b_length v <? copy_len then b_length v else copy_len in
      let copy_len := if b_length o <? copy_len then b_length o else copy_len in
      memcpy_maps (addr o) (addr v) copy_len;;
      fret (Qbuf OUTPUT V4L2_MEMORY_MMAP (a_index vivid_dq) 0 copy_len (b_length o)))
  end).

(** The body of the frame loop. *)
Definition frame (mode : transport_mode) (algo_id threshold : Z) (i : Z) : stage locals := fun f =>
  (vivid_dq <- sys (dqbuf (vivid_fd f) CAPTURE V4L2_MEMORY_MMAP);;
  if a_ret vivid_dq <? 0 then quit f
  else
    (vivid_ns <- sys vpipe_now_monotonic_ns;;
    if BUFFER_COUNT <=? a_index vivid_dq then quit f
    else
      (r <- sys (set_ctrl (vpipe_fd f) VPIPE_CID_SRC_SEQUENCE (a_sequence vivid_dq));;
      if r <? 0 then quit f
      else
        (r <- sys (set_ctrl (vpipe_fd f) VPIPE_CID_ALGO algo_id);;
        if r <? 0 then quit f
        else
          (r <- sys (set_ctrl (vpipe_fd f) VPIPE_CID_THRESHOLD threshold);;
          if r <? 0 then quit f
          else
            (q <- pass_on mode vivid_dq f;;
            a <- sys (vpipe_xioctl (vpipe_fd f) (QBUF q));;
            if a_ret a <? 0 then quit f
            else
              (vpipe_dq <- sys (dqbuf (vpipe_fd f) CAPTURE V4L2_MEMORY_MMAP);;
              if a_ret vpipe_dq <? 0 then quit f
              else
                (vpipe_ns <- sys vpipe_now_monotonic_ns;;
                out_dq <- sys (dqbuf (vpipe_fd f) OUTPUT (out_memory mode));;
                if a_ret out_dq <? 0 then quit f
                else
                  (emit [i; out_memory mode; algo_id; a_sequence vivid_dq; a_sequence vpipe_dq;
                         vivid_ns; vpipe_ns; a_bytesused vpipe_dq];;
                  r <- sys (requeue (vpipe_fd f) CAPTURE V4L2_MEMORY_MMAP vpipe_dq);;
                  if r <? 0 then quit f
                  else
                    (r <- sys (requeue (vivid_fd f) CAPTURE V4L2_MEMORY_MMAP vivid_dq);;
                    if r <? 0 then quit f else go f)))))))))).

Definition cleanup (f : locals) : F pworld unit :=
  (sys (streamoff_if ((0 <=? vpipe_fd f) && vpipe_out_streaming f) (vpipe_fd f) OUTPUT);;
  sys (streamoff_if ((0 <=? vpipe_fd f) && vpipe_cap_streaming f) (vpipe_fd f) CAPTURE);;
  sys (streamoff_if ((0 <=? vivid_fd f) && vivid_streaming f) (vivid_fd f) CAPTURE);;
  lib (fclose_if (fp f));;
  sys (vpipe_unmap_buffers (vivid_bufs f) BUFFER_COUNT);;
  sys (vpipe_unmap_buffers (vpipe_out_bufs f) BUFFER_COUNT);;
  sys (vpipe_unmap_buffers (vpipe_bufs f) BUFFER_COUNT);;
  sys (close_if (vpipe_fd f));;
  sys (close_if (vivid_fd f))).

(** The stages of [main]. *)
Definition body (vivid vpipe csv : list Z) (mode : transport_mode) (algo_id frames threshold : Z)
    : stage locals :=
  andthen (open_devices vivid vpipe)
    (andthen negotiate
       (andthen (request mode csv)
          (andthen (for_each BUFFER_COUNT (enqueue mode))
             (andthen streamon (for_each frames (frame mode algo_id threshold)))))).

(** The exit status. *)
Definition main (args : list (list Z)) : F pworld Z :=
  let vivid := default (lit "/dev/video0") (args !! 0%nat) in
  let vpipe := default (lit "/dev/video1") (args !! 1%nat) in
  let csv := default (lit "bench/m2m.csv") (args !! 2%nat) in
  let transport_name := default (lit "dmabuf") (args !! 4%nat) in
  let algo_name := default (lit "none") (args !! 5%nat) in
  match parse_transport transport_name with
  | None => fret 1
  | Some mode =>
      match parse_algo algo_name with
      | None => fret 1
      | Some algo_id =>
          match uint_arg args 3 1 UINT_MAX 600 with
          | None => fret 1
          | Some frames =>
              match uint_arg args 6 0 255 127 with
              | None => fret 1
              | Some threshold =>
                  run_program (body vivid vpipe csv mode algo_id frames threshold) cleanup init
              end
          end
      end
  end.
End CapM2m.

Section Proofs.
Context `{V4l2Laws} `{!BufferLaws} `{!FormatLaws} `{Posix}.
Context (w0 : pworld) (Hok : start_ok w0).
Let c0 := cclock (pc w0).

Definition owns (f : locals) (g : ghost) : Prop :=
  names ([vivid_fd f; vpipe_fd f] ++ fds_of (take 4 (vivid_bufs f)) ++ fds_of (take 4 (vpipe_out_bufs f))
           ++ fds_of (take 4 (vpipe_bufs f)))
    (maps_of (take 4 (vivid_bufs f)) ++ maps_of (take 4 (vpipe_out_bufs f)) ++ maps_of (take 4 (vpipe_bufs f)))
    (if fp f then 1 else 0) 0 g.

Record lens4 (f : locals) : Prop := {
  l4_vivid : length (vivid_bufs f) = 4%nat;
  l4_out : length (vpipe_out_bufs f) = 4%nat;
  l4_vpipe : length (vpipe_bufs f) = 4%nat
}.

(** What [cleanup] needs. *)
Definition owned (f : locals) (g : ghost) : Prop := owns f g /\ lens4 f.

(** The same, the OUTPUT array being [o]. *)
Definition owned_with (o : list vpipe_mmap_buffer) (f : locals) (g : ghost) : Prop :=
  owned f g /\ vpipe_out_bufs f = o.

Lemma accounted_with o f w : accounted (owned_with o) w0 f w -> accounted owned w0 f w.
Proof. intros (g & Hr & Ho & _). by exists g. Qed.

(** Both devices are open and nothing else is held. *)
Record opened (f : locals) (g : ghost) : Prop := {
  op_init : exists a b, f = with_fds a b init /\ 0 <= a /\ 0 <= b /\ a <> b;
  op_owned : owned f g;
  op_known : g_known g = [];
  op_queues : g_queues g = [];
  op_clock : g_clock g = c0;
  op_rows : g_rows g = prow w0
}.

Lemma m2m_open_ok vivid vpipe :
  wp (open_devices vivid vpipe init) (fun r w =>
    if fst r : bool then exists g, running w0 w g /\ opened (snd r) g /\ g_fmts g = []
    else accounted (owned_with (blanks 4)) w0 (snd r) w) w0.
Proof.
  pose proof (running_start w0 (st_crc _ Hok)) as Hr. destruct Hok as [Hp Hc].
  unfold open_devices. repeat (pstep Hp); try done.
  1-2: eexists; (split; [eassumption|]); (split; [|done]); (split; [solve_names|done]).
  - eexists. split; [exact Hr|]. split; [|done]. split; try done; [|split; [solve_names|done]].
    exists fd, fd0. split; [done|]. split; [lia|]. split; [lia|].
    intros <-. eapply (Hnew0 fd); [lia|apply list_elem_of_here|done].
Qed.

Lemma m2m_negotiate_ok f w g :
  running w0 w g -> opened f g -> g_fmts g = [] ->
  wp (negotiate f) (fun r w' =>
    if fst r : bool then exists g', running w0 w' g' /\ opened (snd r) g'
    else accounted (owned_with (blanks 4)) w0 (snd r) w') w.
Proof.
  intros Hr [(a & b & -> & Ha & Hb & Hab) [Ho Hl] Hk Hq Hc Hrows] Hf. destruct Hok as [Hp _].
  unfold negotiate. repeat (pstep Hp); try done.
  all: try (cbn; rewrite ?Hf; new_queue).
  all: eexists; (split; [eassumption|]); try (by split; [split; [destruct Ho|]|]).
  split; try done; [by exists a, b|]. split; [by destruct Ho|done].
Qed.

(** The arrays mirror the queues. *)
Record ready (mode : transport_mode) (f : locals) (g : ghost) : Prop := {
  rd_owned : owned f g;
  rd_vivid : exists lens, (vivid_fd f, CAPTURE, lens) ∈ g_queues g /\ (length lens <= 4)%nat /\
    shows (vivid_bufs f) lens (g_known g);
  rd_out : mode = TRANSPORT_MMAP -> exists lens, shows (vpipe_out_bufs f) lens (g_known g) /\
    Forall (Z.le 0) lens /\
    forall j b, (length lens <= j)%nat -> vpipe_out_bufs f !! j = Some b -> b_length b = 0
}.

(** From entry [i] on no buffer has been exported. *)
Definition unexported (i : Z) (f : locals) : Prop :=
  forall j b, i <= Z.of_nat j -> vivid_bufs f !! j = Some b -> dmabuf_fd b < 0.

Lemma unexported_start f :
  length (vivid_bufs f) = 4%nat -> (forall x, 0 <= x -> x ∉ fds_of (take 4 (vivid_bufs f))) -> unexported 0 f.
Proof.
  intros Hl Hn j b _ Hb. destruct (Z.le_gt_cases 0 (dmabuf_fd b)) as [Hge|]; [|lia]. exfalso.
  apply (Hn _ Hge), list_elem_of_fmap. exists b. split; [done|]. rewrite firstn_all2 by lia.
  apply list_elem_of_lookup. eauto.
Qed.

Ltac m2m_quit :=
  repeat lazymatch goal with |- wp _ _ _ => apply wp_ret end; cbn [fst snd];
  eexists; (split; [eassumption|]); split; [solve_names|by split].

Lemma m2m_request_ok mode csv f w g :
  running w0 w g -> opened f g ->
  wp (request mode csv f) (fun r w' =>
    if fst r : bool
    then exists g', running w0 w' g' /\ ready mode (snd r) g' /\ g_clock g' = c0 /\ g_rows g' = prow w0 /\
           unexported 0 (snd r)
    else accounted owned w0 (snd r) w') w.
Proof.
  intros Hr [(a & b & -> & Ha & Hb & Hab) [[N1 N2 N3 N4] Hl] Hk Hq Hc Hrows]. destruct Hok as [Hp _].
  cbn in N1, N2, N3. unfold request. change BUFFER_COUNT with (Z.of_nat 4).
  cbn [with_fds with_bufs vivid_fd vpipe_fd init vivid_bufs vpipe_out_bufs vpipe_bufs].
  pstep Hp. prequest Hp 4%nat.
  { m2m_quit. }
  pstep Hp. prequest Hp 4%nat.
  { m2m_quit. }
  assert (Hvs : shows bufs lens (known0 ++ known)).
  { eapply shows_mono; [exact Hshows|]. intros x Hx. apply elem_of_app. by right. }
  repeat (pstep Hp); [new_queue|m2m_quit|done|m2m_quit| |].
  - eexists. split; [exact Hr|]. split; [|split; [done|]; split; [done|by apply unexported_start]].
    split; [split; [solve_names|by split]| |done].
    exists lens. split; [cbn; set_solver|]. split; [done|]. cbn. by rewrite Hk, app_nil_r.
  - prequest Hp 4%nat; [m2m_quit|]. repeat (pstep Hp); [m2m_quit|].
    eexists. split; [exact Hr|]. split; [|split; [done|]; split; [done|by apply unexported_start]].
    split; [split; [solve_names|by split]| |].
    + exists lens. split; [cbn; set_solver|]. split; [done|]. cbn. rewrite Hk, app_nil_r.
      eapply shows_mono; [exact Hvs|]. set_solver.
    + intros _. exists lens1. split; [eapply shows_mono; [exact Hshows1|]; cbn; set_solver|].
      split; [done|].
      intros j x Hj Hx. cbn in Hx. rewrite Hsame1 in Hx by done. by apply lookup_replicate in Hx as [-> _].
Qed.

(** Recording an exported descriptor. *)
Lemma owned_export f i b x g :
  vivid_bufs f !! Z.to_nat i = Some b -> dmabuf_fd b < 0 -> owned f g ->
  owned (with_bufs (<[Z.to_nat i := MmapBuf (addr b) (b_length b) x]> (vivid_bufs f)) (vpipe_out_bufs f)
           (vpipe_bufs f) f) (add_fd x g).
Proof.
  intros Hb Hd [[N1 N2 N3 N4] [L1 L2 L3]]. pose proof (lookup_lt_Some _ _ _ Hb).
  rewrite (firstn_all2 (vivid_bufs f)) in * by lia.
  set (l := <[Z.to_nat i := MmapBuf (addr b) (b_length b) x]> (vivid_bufs f)).
  assert (Hlen : length l = 4%nat) by (by unfold l; rewrite length_insert).
  split; [|by split]. split; cbn; try done; rewrite (firstn_all2 l) by lia; unfold l.
  - intros y Hy. specialize (N1 y Hy). cbn in N1. rewrite !elem_of_cons, !elem_of_app in *.
    unfold fds_of at 1. rewrite (elem_fmap_insert _ _ _ b _ y Hb) by lia. cbn [dmabuf_fd].
    change (dmabuf_fd <$> vivid_bufs f) with (fds_of (vivid_bufs f)). tauto.
  - intros a Ha. rewrite N2 by done. unfold maps_of at 4. rewrite list_fmap_insert. cbn [addr].
    rewrite list_insert_id; [done|]. by rewrite list_lookup_fmap, Hb.
Qed.

Lemma m2m_enqueue_ok mode i f w g :
  running w0 w g -> ready mode f g -> unexported i f -> 0 <= i < 4 ->
  wp (enqueue mode i f) (fun r w' =>
    if fst r : bool
    then exists g', running w0 w' g' /\ ready mode (snd r) g' /\ g_clock g' = g_clock g /\
           g_rows g' = g_rows g /\ unexported (i + 1) (snd r) /\ vpipe_out_bufs (snd r) = vpipe_out_bufs f
    else accounted (owned_with (vpipe_out_bufs f)) w0 (snd r) w') w.
Proof.
  intros Hr Hrd Hu Hi. pose proof Hrd as [Ho (lens & Hv & Hle & Hs) Hout]. destruct Hok as [Hp _].
  unfold enqueue. apply wp_bind. destruct mode.
  - destruct (lookup_lt_is_Some_2 (vivid_bufs f) (Z.to_nat i)) as [b Hb]; [rewrite (l4_vivid _ (proj2 Ho)); lia|].
    apply wp_bind. eapply wp_aget; [lia|done|]. pstep Hp. pstep Hp. apply wp_bind, wp_aset; [apply lookup_lt_Some in Hb; lia|].
    apply wp_ret. cbn [fst snd]. pose proof (owned_export f i b x g Hb (Hu (Z.to_nat i) b ltac:(lia) Hb) Ho) as Ho'.
    repeat (pstep Hp); try (eexists; split; [exact Hr|by split; [exact Ho'|]]).
    eexists. split; [exact Hr|]. split; [|split; [done|]; split; [done|]; split; [|done]].
    + split; [done| |done]. exists lens. split; [done|]. split; [done|]. cbn. intros j l Hl.
      destruct (Hs j l Hl) as (b' & Hb' & Hlb & Hk). destruct (decide (j = Z.to_nat i)) as [->|].
      * exists (MmapBuf (addr b) (b_length b) x). rewrite list_lookup_insert_eq by (by eapply lookup_lt_Some).
        replace b' with b in * by congruence. done.
      * exists b'. by rewrite list_lookup_insert_ne.
    + intros j b' Hj. cbn. rewrite list_lookup_insert_ne by lia. apply Hu. lia.
  - apply wp_ret. cbn [fst snd].
    replace (with_bufs (vivid_bufs f) (vpipe_out_bufs f) (vpipe_bufs f) f) with f by (by destruct f).
    repeat (pstep Hp); try (eexists; split; [exact Hr|by split]).
    eexists. split; [exact Hr|]. split; [done|]. split; [done|]. split; [done|].
    split; [|done]. intros j b Hj. apply Hu. lia.
Qed.

(** Only part of what is known of the program matters here. *)
Lemma owned_same f g g' :
  owned f g -> g_fds g' = g_fds g -> g_maps g' = g_maps g -> g_opens g' = g_opens g ->
  g_blocks g' = g_blocks g -> owned f g'.
Proof. intros [[N1 N2 N3 N4] Hl] E1 E2 E3 E4. split; [|done]. split; rewrite ?E1, ?E2, ?E3, ?E4; done. Qed.

Lemma ready_same mode f g g' :
  ready mode f g -> g_fds g' = g_fds g -> g_maps g' = g_maps g -> g_opens g' = g_opens g ->
  g_blocks g' = g_blocks g -> g_known g' = g_known g -> g_queues g' = g_queues g -> ready mode f g'.
Proof.
  intros [Ho Hv Hm] E1 E2 E3 E4 E5 E6. split; rewrite ?E5, ?E6; [by eapply owned_same|done|done].
Qed.

(** Handing a frame on touches only mapped memory, whatever the driver granted. *)
Lemma m2m_pass_on_ok mode dq f w g lens len (Q : qbuf_arg -> pworld -> Prop) :
  running w0 w g -> ready mode f g -> 0 <= a_index dq < 4 ->
  shows (vivid_bufs f) lens (g_known g) -> lens !! Z.to_nat (a_index dq) = Some len ->
  0 <= a_bytesused dq <= len ->
  (forall q w', running w0 w' g -> Q q w') -> wp (pass_on mode dq f) Q w.
Proof.
  intros Hr [[_ Hl4] _ Hout] Hi Hs Hlen Hb HQ. destruct (Hs _ _ Hlen) as (v & Hv & <- & Hk).
  unfold pass_on. apply wp_bind. eapply wp_aget; [lia|exact Hv|]. destruct mode; [by apply wp_ret, HQ|].
  destruct (Hout eq_refl) as (lo & Hso & Hpos & Hzero).
  destruct (lookup_lt_is_Some_2 (vpipe_out_bufs f) (Z.to_nat (a_index dq))) as [o Ho];
    [rewrite (l4_out _ Hl4); lia|].
  apply wp_bind. eapply wp_aget; [lia|exact Ho|]. cbv zeta. apply wp_bind.
  destruct (Z.ltb_spec (b_length v) (a_bytesused dq)); [lia|].
  destruct (decide (Z.to_nat (a_index dq) < length lo)%nat) as [Hlt|Hge].
  - destruct (lookup_lt_is_Some_2 lo _ Hlt) as [x Hx]. destruct (Hso _ _ Hx) as (o' & Ho' & <- & Hko).
    replace o' with o in * by congruence. apply (Forall_lookup_1 _ _ _ _ Hpos) in Hx as Hx0.
    eapply (wp_memcpy_maps w0 _ _ _ (b_length o) (b_length v)); [exact Hr| | |intros w' Hr'; by apply wp_ret, HQ];
      destruct (Z.ltb_spec (b_length o) (a_bytesused dq)); try lia; intros _; (split; [done|]); (split; [done|lia]).
  - rewrite (Hzero (Z.to_nat (a_index dq)) o ltac:(lia) Ho).
    eapply (wp_memcpy_maps w0 _ _ _ 0 0); [exact Hr| | |intros w' Hr'; by apply wp_ret, HQ];
      destruct (Z.ltb_spec 0 (a_bytesused dq)); lia.
Qed.

(** Row [k]: its number, how it was passed on and processed, the sequence
    numbers of both devices, and the clock at both dequeuings. *)
Definition row_ok (mode : transport_mode) (algo_id : Z) (before : list (list Z)) (row : list Z) : Prop :=
  let k := length before in
  exists vseq pseq bytes,
    row = [Z.of_nat k; out_memory mode; algo_id; vseq; pseq; reading (c0 + 2 * k); reading (c0 + 2 * k + 1); bytes].

Record looping (mode : transport_mode) (algo_id i : Z) (f : locals) (g : ghost) : Prop := {
  lp_ready : ready mode f g;
  lp_clock : g_clock g = (c0 + 2 * Z.to_nat i)%nat;
  lp_log : logged (row_ok mode algo_id) i (prow w0) (g_rows g)
}.

Lemma m2m_frame_ok mode algo_id threshold i f w g :
  running w0 w g -> looping mode algo_id i f g -> 0 <= i ->
  wp (frame mode algo_id threshold i f) (fun r w' =>
    if fst r : bool then exists g', running w0 w' g' /\ looping mode algo_id (i + 1) (snd r) g'
    else accounted owned w0 (snd r) w') w.
Proof.
  intros Hr [Hrd Hc Hlog] Hi. destruct Hok as [Hp _]. pose proof Hrd as [Ho (lens & Hv & Hle & Hs) Hout].
  assert (Hq : forall g' w', running w0 w' g' -> g_fds g' = g_fds g -> g_maps g' = g_maps g ->
    g_opens g' = g_opens g -> g_blocks g' = g_blocks g -> accounted owned w0 f w').
  { intros g' w' Hr' E1 E2 E3 E4. exists g'. split; [done|]. by eapply owned_same. }
  unfold frame. repeat (pstep Hp); try (by eapply Hq; [exact Hr|done..]).
  destruct (Ha lens ltac:(lia) Hv) as (Hi0 & len & Hlen & Hb). unfold BUFFER_COUNT in *.
  eapply (m2m_pass_on_ok mode a f _ (tick g) lens len); [exact Hr| |lia|exact Hs|done|by apply Hb|].
  { by eapply ready_same. }
  clear Hr. intros q w' Hr. repeat (pstep Hp); try (by eapply Hq; [exact Hr|done..]).
  eexists. split; [exact Hr|]. split; [by eapply ready_same|cbn; lia|].
  apply logged_snoc; [done|]. intros l _ Hn. eexists _, _, _. cbn. rewrite Hc. repeat f_equal; lia.
Qed.

Lemma m2m_cleanup_ok : gives_back owned w0 cleanup.
Proof.
  intros f w g Hr [[O1 O2 O3 O4] [L1 L2 L3]]. destruct Hok as [Hp _]. unfold cleanup.
  change BUFFER_COUNT with (Z.of_nat 4). do 9 (pstep Hp).
  set (fv := fds_of (take 4 (vivid_bufs f))) in *. set (fo := fds_of (take 4 (vpipe_out_bufs f))) in *.
  set (fp0 := fds_of (take 4 (vpipe_bufs f))) in *. set (mv := maps_of (take 4 (vivid_bufs f))) in *.
  set (mo := maps_of (take 4 (vpipe_out_bufs f))) in *. set (mp := maps_of (take 4 (vpipe_bufs f))) in *.
  apply (running_weaken _ _ _ (Ghost (fv ++ fo ++ fp0 ++ [vpipe_fd f; vivid_fd f]) (mv ++ mo ++ mp) 0 0
    [] [] [] (g_clock g) (g_rows g))) in Hr.
  2-10: cbn; try done; try own_in; try (rewrite ?O3, ?O4; destruct (fp f); lia); by intros ? ?%not_elem_of_nil.
  eapply (wp_sys_unmap w0 Hp 4 _ (fo ++ fp0 ++ [vpipe_fd f; vivid_fd f]) (mo ++ mp)); [exact Hr|done|lia|done|done|]. clear Hr. intros u1 Hr. pstep Hp.
  eapply (wp_sys_unmap w0 Hp 4 _ (fp0 ++ [vpipe_fd f; vivid_fd f]) mp); [exact Hr|done|lia|done|done|]. clear Hr. intros u2 Hr. pstep Hp.
  eapply (wp_sys_unmap w0 Hp 4 _ [vpipe_fd f; vivid_fd f] []); [exact Hr|done|lia|done|cbn; by rewrite app_nil_r|].
  clear Hr. intros u3 Hr. pstep Hp. eapply (wp_sys_close_if w0 Hp _ [vivid_fd f]); [exact Hr|done|]. clear Hr. intros u4 Hr.
  eapply (wp_sys_close_if w0 Hp _ []); [exact Hr|done|]. clear Hr. intros u5 Hr.
  split; [|by rewrite (r_rows _ _ _ Hr)].
  eapply running_end; [exact Hr| | |done|done]; intros x _; apply not_elem_of_nil.
Qed.

Definition exporting (mode : transport_mode) (i : Z) (f : locals) (w : pworld) : Prop :=
  exists g, running w0 w g /\ ready mode f g /\ g_clock g = c0 /\ g_rows g = prow w0 /\ unexported i f.

Lemma m2m_body_ok vivid vpipe csv mode algo_id frames threshold : 0 <= frames ->
  wp (body vivid vpipe csv mode algo_id frames threshold init) (fun r w =>
    if fst r : bool
    then exists g, running w0 w g /\ owned (snd r) g /\ logged (row_ok mode algo_id) frames (prow w0) (g_rows g)
    else accounted owned w0 (snd r) w) w0.
Proof.
  intros Hf. pose proof Hok as [Hp _]. apply wp_andthen. eapply wp_mono; [apply m2m_open_ok|].
  intros [[] f] w; [|apply accounted_with]. cbn [fst snd]. intros (g & Hr & Ho & Hg). apply wp_andthen.
  eapply wp_mono; [by apply (m2m_negotiate_ok f w g)|]. clear f w g Hr Ho Hg.
  intros [[] f] w; [|apply accounted_with]. cbn [fst snd].
  intros (g & Hr & Ho). apply wp_andthen. eapply wp_mono; [by apply (m2m_request_ok mode csv f w g)|].
  clear f w g Hr Ho. intros [[] f] w; [|done]. cbn [fst snd]. intros He. apply wp_andthen.
  eapply wp_mono; [apply (wp_for_each (exporting mode) (accounted owned w0)); [done|exact He|]|].
  { intros i f' w' Hi (g & Hr & Hrd & Hc & Hrows & Hu). eapply wp_mono; [by apply (m2m_enqueue_ok mode i f' w' g)|].
    intros [[] f1] w1; [|apply accounted_with]. cbn [fst snd]. intros (g1 & ? & ? & ? & ? & ? & _). exists g1.
    intuition congruence. }
  clear f w He. intros [[] f] w; [|done]. cbn [fst snd]. intros (g & Hr & Hrd & Hc & Hrows & _).
  assert (Ho : forall v c o, owned (with_streaming v c o f) g /\ ready mode (with_streaming v c o f) g).
  { intros v c o. destruct Hrd as [[Hn [L1 L2 L3]] Hv Hm].
    assert (owned (with_streaming v c o f) g) by (split; [exact Hn|by split]). split; [done|]. by split. }
  apply wp_andthen. unfold streamon. repeat (pstep Hp); try (eexists; split; [exact Hr|apply Ho || apply (rd_owned _ _ _ Hrd)]).
  eapply wp_mono; [apply (wp_for_each (fun i f w => exists g, running w0 w g /\ looping mode algo_id i f g)
    (accounted owned w0)); [done| |]|].
  - exists g. split; [done|]. split; [apply Ho|cbn; lia|]. rewrite Hrows. apply logged_nil.
  - intros i f' w' Hi (g' & Hr' & Hl'). by apply (m2m_frame_ok mode algo_id threshold i f' w' g'); [..|lia].
  - intros [[] f'] w'; [|done]. cbn [fst snd]. intros (g' & Hr' & [Hs' _ Hlog]). exists g'.
    split; [done|]. split; [apply Hs'|done].
Qed.

Lemma m2m_main_ok args :
  wp (main args) (fun rc w' => balanced w0 w' /\
    ((exists mode algo_id frames, rc = 0 /\ uint_arg args 3 1 UINT_MAX 600 = Some frames /\
        parse_transport (default (lit "dmabuf") (args !! 4%nat)) = Some mode /\
        parse_algo (default (lit "none") (args !! 5%nat)) = Some algo_id /\
        logged (row_ok mode algo_id) frames (prow w0) (prow w')) \/ rc = 1)) w0.
Proof.
  unfold main.
  destruct (parse_transport _) as [mode|] eqn:Em; [|apply wp_ret; auto using balanced_refl].
  destruct (parse_algo _) as [algo_id|] eqn:Ea; [|apply wp_ret; auto using balanced_refl].
  destruct (uint_arg args 3 1 UINT_MAX 600) as [frames|] eqn:Ef; [|apply wp_ret; auto using balanced_refl].
  destruct (uint_arg args 6 0 255 127) as [threshold|]; [|apply wp_ret; auto using balanced_refl].
  apply uint_arg_in in Ef as Hf; [|done].
  eapply wp_mono; [eapply (wp_program owned w0 _ _ _ (logged (row_ok mode algo_id) frames (prow w0)));
    [apply m2m_cleanup_ok|apply m2m_body_ok; lia]|].
  intros rc w' [Hb [[-> Hd]|Hd]]; (split; [done|]); [left|by right]. by exists mode, algo_id, frames.
Qed.
End Proofs.
End CapM2m.

(** ** [user/vpipe-capture-dmabuf.c]

    The opening, the negotiation, the exporting loop and the start of streaming
    are the text of [vpipe-capture-m2m] with the DMABUF transport; there is no
    OUTPUT array. *)

Module CapDmabuf.
Import CapM2m.

Section CapDmabuf.
Context `{V4l2} `{Posix}.

Definition BUFFER_COUNT : Z := 4.

Definition open_devices : list Z -> list Z -> stage locals := CapM2m.open_devices.
Definition negotiate : stage locals := CapM2m.negotiate.
Definition enqueue : Z -> stage locals := CapM2m.enqueue TRANSPORT_DMABUF.
Definition streamon : stage locals := CapM2m.streamon.

Definition request (csv : list Z) : stage locals := fun f =>
  (v <- sys (vpipe_request_mmap_buffers (vivid_fd f) CAPTURE BUFFER_COUNT (vivid_bufs f));;
  let f := with_bufs (snd v) (vpipe_out_bufs f) (vpipe_bufs f) f in
  if fst v <? 0 then quit f
  else
    (p <- sys (vpipe_request_mmap_buffers (vpipe_fd f) CAPTURE BUFFER_COUNT (vpipe_bufs f));;
    let f := with_bufs (vivid_bufs f) (vpipe_out_bufs f) (snd p) f in
    if fst p <? 0 then quit f
    else
      (a <- sys (vpipe_xioctl (vpipe_fd f) (REQBUFS OUTPUT BUFFER_COUNT V4L2_MEMORY_DMABUF));;
      if a_ret a <? 0 then quit f
      else
        (fp <- lib (vpipe_open_csv csv (Some (lit
           "frame,vivid_sequence,vpipe_sequence,vivid_buf_index,dmabuf_fd,vivid_dequeue_ns,vpipe_dequeue_ns,vpipe_bytesused")));;
        let f := with_fp fp f in
        if negb fp then quit f else go f)))).

(** The body of the frame loop. *)
Definition frame (i : Z) : stage locals := fun f =>
  (vivid_dq <- sys (dqbuf (vivid_fd f) CAPTURE V4L2_MEMORY_MMAP);;
  if a_ret vivid_dq <? 0 then quit f
  else
    (vivid_ns <- sys vpipe_now_monotonic_ns;;
    if BUFFER_COUNT <=? a_index vivid_dq then quit f
    else
      (r <- sys (set_ctrl (vpipe_fd f) VPIPE_CID_SRC_SEQUENCE (a_sequence vivid_dq));;
      if r <? 0 then quit f
      else
        (r <- sys (set_ctrl (vpipe_fd f) VPIPE_CID_ALGO VPIPE_ALGO_NONE);;
        if r <? 0 then quit f
        else
          (v <- aget (vivid_bufs f) (a_index vivid_dq);;
          a <- sys (vpipe_xioctl (vpipe_fd f)
                 (QBUF (Qbuf OUTPUT V4L2_MEMORY_DMABUF (a_index vivid_dq) (dmabuf_fd v)
                          (a_bytesused vivid_dq) (b_length v))));;
          if a_ret a <? 0 then quit f
          else
            (vpipe_dq <- sys (dqbuf (vpipe_fd f) CAPTURE V4L2_MEMORY_MMAP);;
            if a_ret vpipe_dq <? 0 then quit f
            else
              (vpipe_ns <- sys vpipe_now_monotonic_ns;;
              out_dq <- sys (dqbuf (vpipe_fd f) OUTPUT V4L2_MEMORY_DMABUF);;
              if a_ret out_dq <? 0 then quit f
              else
                (emit [i; a_sequence vivid_dq; a_sequence vpipe_dq; a_index vivid_dq; dmabuf_fd v;
                       vivid_ns; vpipe_ns; a_bytesused vpipe_dq];;
                r <- sys (requeue (vpipe_fd f) CAPTURE V4L2_MEMORY_MMAP vpipe_dq);;
                if r <? 0 then quit f
                else
                  (r <- sys (requeue (vivid_fd f) CAPTURE V4L2_MEMORY_MMAP vivid_dq);;
                  if r <? 0 then quit f else go f))))))))).

Definition cleanup (f : locals) : F pworld unit :=
  (sys (streamoff_if ((0 <=? vpipe_fd f) && vpipe_out_streaming f) (vpipe_fd f) OUTPUT);;
  sys (streamoff_if ((0 <=? vpipe_fd f) && vpipe_cap_streaming f) (vpipe_fd f) CAPTURE);;
  sys (streamoff_if ((0 <=? vivid_fd f) && vivid_streaming f) (vivid_fd f) CAPTURE);;
  lib (fclose_if (fp f));;
  sys (vpipe_unmap_buffers (vivid_bufs f) BUFFER_COUNT);;
  sys (vpipe_unmap_buffers (vpipe_bufs f) BUFFER_COUNT);;
  sys (close_if (vpipe_fd f));;
  sys (close_if (vivid_fd f))).

(** The stages of [main]. *)
Definition body (vivid vpipe csv : list Z) (frames : Z) : stage locals :=
  andthen (open_devices vivid vpipe)
    (andthen negotiate
       (andthen (request csv)
          (andthen (for_each BUFFER_COUNT enqueue) (andthen streamon (for_each frames frame))))).

(** The exit status. *)
Definition main (args : list (list Z)) : F pworld Z :=
  let vivid := default (lit "/dev/video0") (args !! 0%nat) in
  let vpipe := default (lit "/dev/video1") (args !! 1%nat) in
  let csv := default (lit "bench/dmabuf.csv") (args !! 2%nat) in
  match uint_arg args 3 1 UINT_MAX 600 with
  | None => fret 1
  | Some frames => run_program (body vivid vpipe csv frames) cleanup init
  end.
End CapDmabuf.

Section Proofs.
Context `{V4l2Laws} `{!BufferLaws} `{!FormatLaws} `{Posix}.
Context (w0 : pworld) (Hok : start_ok w0).
Let c0 := cclock (pc w0).

(** The OUTPUT array stays unused. *)
Definition owned : locals -> ghost -> Prop := owned_with (blanks 4).

Lemma dmabuf_request_ok csv f w g :
  running w0 w g -> opened w0 f g ->
  wp (request csv f) (fun r w' =>
    if fst r : bool
    then exists g', running w0 w' g' /\ ready TRANSPORT_DMABUF (snd r) g' /\ g_clock g' = c0 /\
           g_rows g' = prow w0 /\ unexported 0 (snd r) /\ vpipe_out_bufs (snd r) = blanks 4
    else accounted owned w0 (snd r) w') w.
Proof.
  intros Hr [(a & b & -> & Ha & Hb & Hab) [[N1 N2 N3 N4] Hl] Hk Hq Hc Hrows]. destruct Hok as [Hp _].
  cbn in N1, N2, N3. unfold request. change BUFFER_COUNT with (Z.of_nat 4).
  cbn [with_fds with_bufs vivid_fd vpipe_fd init vivid_bufs vpipe_out_bufs vpipe_bufs].
  pstep Hp. prequest Hp 4%nat.
  { pstep Hp. eexists. split; [exact Hr|]. split; [|done]. split; [solve_names|by split]. }
  pstep Hp. prequest Hp 4%nat.
  { pstep Hp. eexists. split; [exact Hr|]. split; [|done]. split; [solve_names|by split]. }
  repeat (pstep Hp); [new_queue| | |].
  1-2: eexists; (split; [exact Hr|]); (split; [|done]); (split; [solve_names|by split]).
  eexists. split; [exact Hr|]. split; [|split; [done|]; split; [done|]; split; [by apply unexported_start|done]].
  split; [split; [solve_names|by split]| |done]. exists lens. split; [cbn; set_solver|]. split; [done|].
  eapply shows_mono; [exact Hshows|]. cbn. set_solver.
Qed.

(** Row [k]: its number, the sequence numbers, the buffer and its descriptor,
    and the clock at both dequeuings. *)
Definition row_ok (before : list (list Z)) (row : list Z) : Prop :=
  let k := length before in
  exists vseq pseq idx dfd bytes, 0 <= idx < 4 /\
    row = [Z.of_nat k; vseq; pseq; idx; dfd; reading (c0 + 2 * k); reading (c0 + 2 * k + 1); bytes].

Record looping (i : Z) (f : locals) (g : ghost) : Prop := {
  lp_ready : ready TRANSPORT_DMABUF f g;
  lp_out : vpipe_out_bufs f = blanks 4;
  lp_clock : g_clock g = (c0 + 2 * Z.to_nat i)%nat;
  lp_log : logged row_ok i (prow w0) (g_rows g)
}.

Lemma dmabuf_frame_ok i f w g :
  running w0 w g -> looping i f g -> 0 <= i ->
  wp (frame i f) (fun r w' =>
    if fst r : bool then exists g', running w0 w' g' /\ looping (i + 1) (snd r) g'
    else accounted owned w0 (snd r) w') w.
Proof.
  intros Hr [Hrd Hob Hc Hlog] Hi. destruct Hok as [Hp _]. pose proof Hrd as [Ho (lens & Hv & Hle & Hs) _].
  assert (Hq : forall g' w', running w0 w' g' -> g_fds g' = g_fds g -> g_maps g' = g_maps g ->
    g_opens g' = g_opens g -> g_blocks g' = g_blocks g -> accounted owned w0 f w').
  { intros g' w' Hr' E1 E2 E3 E4. exists g'. split; [done|]. split; [by eapply owned_same|done]. }
  unfold frame. repeat (pstep Hp); try (by eapply Hq; [exact Hr|done..]).
  destruct (Ha lens ltac:(lia) Hv) as (Hi0 & len & Hlen & Hb). unfold BUFFER_COUNT in *.
  destruct (Hs _ _ Hlen) as (v & Hv' & _). eapply wp_aget; [lia|exact Hv'|].
  repeat (pstep Hp); try (by eapply Hq; [exact Hr|done..]).
  eexists. split; [exact Hr|]. split; [by eapply ready_same|done|cbn; lia|].
  apply logged_snoc; [done|]. intros l _ Hn. eexists _, _, (a_index a), _, _. split; [lia|].
  cbn. rewrite Hc. repeat f_equal; lia.
Qed.

Lemma dmabuf_cleanup_ok : gives_back owned w0 cleanup.
Proof.
  intros f w g Hr [[[O1 O2 O3 O4] [L1 _ L3]] Hob]. destruct Hok as [Hp _]. unfold cleanup.
  rewrite Hob in O1, O2. change BUFFER_COUNT with (Z.of_nat 4). do 9 (pstep Hp).
  set (fv := fds_of (take 4 (vivid_bufs f))) in *. set (fq := fds_of (take 4 (vpipe_bufs f))) in *.
  set (mv := maps_of (take 4 (vivid_bufs f))) in *. set (mq := maps_of (take 4 (vpipe_bufs f))) in *.
  apply (running_weaken _ _ _ (Ghost (fv ++ fq ++ [vpipe_fd f; vivid_fd f]) (mv ++ mq) 0 0
    [] [] [] (g_clock g) (g_rows g))) in Hr.
  2-10: cbn; try done; try own_in; try (rewrite ?O3, ?O4; destruct (fp f); lia); by intros ? ?%not_elem_of_nil.
  eapply (wp_sys_unmap w0 Hp 4 _ (fq ++ [vpipe_fd f; vivid_fd f]) mq); [exact Hr|done|lia|done|done|].
  clear Hr. intros u1 Hr. pstep Hp.
  eapply (wp_sys_unmap w0 Hp 4 _ [vpipe_fd f; vivid_fd f] []); [exact Hr|done|lia|done|cbn; by rewrite app_nil_r|].
  clear Hr. intros u2 Hr. pstep Hp. eapply (wp_sys_close_if w0 Hp _ [vivid_fd f]); [exact Hr|done|].
  clear Hr. intros u3 Hr. eapply (wp_sys_close_if w0 Hp _ []); [exact Hr|done|]. clear Hr. intros u4 Hr.
  split; [|by rewrite (r_rows _ _ _ Hr)].
  eapply running_end; [exact Hr| | |done|done]; intros x _; apply not_elem_of_nil.
Qed.

Definition exporting (i : Z) (f : locals) (w : pworld) : Prop :=
  exists g, running w0 w g /\ ready TRANSPORT_DMABUF f g /\ g_clock g = c0 /\ g_rows g = prow w0 /\
    unexported i f /\ vpipe_out_bufs f = blanks 4.

Lemma dmabuf_body_ok vivid vpipe csv frames : 0 <= frames ->
  wp (body vivid vpipe csv frames init) (fun r w =>
    if fst r : bool
    then exists g, running w0 w g /\ owned (snd r) g /\ logged row_ok frames (prow w0) (g_rows g)
    else accounted owned w0 (snd r) w) w0.
Proof.
  intros Hf. pose proof Hok as [Hp _]. apply wp_andthen. eapply wp_mono; [by apply m2m_open_ok|].
  intros [[] f] w; [|done]. cbn [fst snd]. intros (g & Hr & Ho & Hg). apply wp_andthen.
  eapply wp_mono; [by apply (m2m_negotiate_ok w0 Hok f w g)|]. clear f w g Hr Ho Hg.
  intros [[] f] w; [|done]. cbn [fst snd]. intros (g & Hr & Ho). apply wp_andthen.
  eapply wp_mono; [by apply (dmabuf_request_ok csv f w g)|].
  clear f w g Hr Ho. intros [[] f] w; [|done]. cbn [fst snd]. intros He. apply wp_andthen.
  eapply wp_mono; [apply (wp_for_each exporting (accounted owned w0)); [done|exact He|]|].
  { intros i f' w' Hi (g & Hr & Hrd & Hc & Hrows & Hu & Hob).
    eapply wp_mono; [by apply (m2m_enqueue_ok w0 Hok TRANSPORT_DMABUF i f' w' g)|].
    intros [[] f1] w1; cbn [fst snd]; [|by rewrite Hob]. intros (g1 & ? & ? & ? & ? & ? & ?). exists g1.
    intuition congruence. }
  clear f w He. intros [[] f] w; [|done]. cbn [fst snd]. intros (g & Hr & Hrd & Hc & Hrows & _ & Hob).
  assert (Ho : forall v c o, owned (with_streaming v c o f) g /\ ready TRANSPORT_DMABUF (with_streaming v c o f) g).
  { intros v c o. destruct Hrd as [[Hn [L1 L2 L3]] Hv Hm].
    assert (CapM2m.owned (with_streaming v c o f) g) by (split; [exact Hn|by split]). split; by split. }
  apply wp_andthen. unfold streamon, CapM2m.streamon. repeat (pstep Hp);
    try (eexists; split; [exact Hr|apply Ho || (split; [apply (rd_owned _ _ _ Hrd)|done])]).
  eapply wp_mono; [apply (wp_for_each (fun i f w => exists g, running w0 w g /\ looping i f g)
    (accounted owned w0)); [done| |]|].
  - exists g. split; [done|]. split; [apply Ho|done|cbn; lia|]. rewrite Hrows. apply logged_nil.
  - intros i f' w' Hi (g' & Hr' & Hl'). by apply (dmabuf_frame_ok i f' w' g'); [..|lia].
  - intros [[] f'] w'; [|done]. cbn [fst snd]. intros (g' & Hr' & [Hs' Hob' _ Hlog]). exists g'.
    split; [done|]. split; [split; [apply Hs'|done]|done].
Qed.

Lemma dmabuf_main_ok args :
  wp (main args) (fun rc w' => balanced w0 w' /\
    ((exists frames, rc = 0 /\ uint_arg args 3 1 UINT_MAX 600 = Some frames /\
        logged row_ok frames (prow w0) (prow w')) \/ rc = 1)) w0.
Proof.
  unfold main.
  destruct (uint_arg args 3 1 UINT_MAX 600) as [frames|] eqn:Ef; [|apply wp_ret; auto using balanced_refl].
  apply uint_arg_in in Ef as Hf; [|done].
  eapply wp_mono; [eapply (wp_program owned w0 _ _ _ (logged row_ok frames (prow w0)));
    [apply dmabuf_cleanup_ok|apply dmabuf_body_ok; lia]|].
  intros rc w' [Hb [[-> Hd]|Hd]]; (split; [done|]); [left; eauto|by right].
Qed.
End Proofs.
End CapDmabuf.

(** ** The theorem *)


Import TinySim.

