(* ===== verification/Bench.v ===== *)
(** * Benchmarks of the vcam backend

    [vpipe-vcam-bench] and [vpipe-vcam-dmabuf-bench]: frames made by the
    kernel's vcam backend pass through the device in lockstep, their transit is
    timed and their contents are checksummed. *)

From S2P Require Import Prelude Types M2m Crc32 Pgm Wp Client Process.

Definition WIDTH : Z := 640.
Definition HEIGHT : Z := 480.

(** Row [k] of a lockstep run: its number, the sequence number, the clock when
    the frame was queued and dequeued, its length and its checksum. *)
Definition timed_row `{V4l2} (c0 : nat) (before : list (list Z)) (row : list Z) : Prop :=
  let k := length before in
  exists seq l, Forall in_u8 l /\
    row = [Z.of_nat k; seq; reading (c0 + 2 * k); reading (c0 + 2 * k + 1); Z.of_nat (length l); crc_ref l].

(** ** [user/vpipe-vcam-bench.c] *)

Module VcamBench.
Section VcamBench.
Context `{V4l2} `{Posix}.

Definition BUFFER_COUNT : Z := 4.

(** The locals that [cleanup] looks at. *)
Record locals := Locals {
  fd : Z; out_bufs : list vpipe_mmap_buffer; cap_bufs : list vpipe_mmap_buffer;
  out_streaming : bool; cap_streaming : bool; fp : bool
}.

Definition setup (csv : list Z) : stage locals := fun f =>
  (a <- sys (vpipe_xioctl (fd f) (SET_BACKEND VPIPE_BACKEND_VCAM_DERIVED));;
  if a_ret a <? 0 then quit f
  else
    (r <- sys (vpipe_set_format (fd f) OUTPUT WIDTH HEIGHT V4L2_PIX_FMT_GREY);;
    if r <? 0 then quit f
    else
      (r <- sys (vpipe_set_format (fd f) CAPTURE WIDTH HEIGHT V4L2_PIX_FMT_GREY);;
      if r <? 0 then quit f
      else
        (o <- sys (vpipe_request_mmap_buffers (fd f) OUTPUT BUFFER_COUNT (out_bufs f));;
        let f := Locals (fd f) (snd o) (cap_bufs f) (out_streaming f) (cap_streaming f) (fp f) in
        if fst o <? 0 then quit f
        else
          (c <- sys (vpipe_request_mmap_buffers (fd f) CAPTURE BUFFER_COUNT (cap_bufs f));;
          let f := Locals (fd f) (out_bufs f) (snd c) (out_streaming f) (cap_streaming f) (fp f) in
          if fst c <? 0 then quit f
          else
            (r <- sys (set_ctrl (fd f) VPIPE_CID_ALGO VPIPE_ALGO_NONE);;
            if r <? 0 then quit f
            else
              (fp <- lib (vpipe_open_csv csv (Some (lit
                 "frame,src_sequence,enqueue_monotonic_ns,dequeue_monotonic_ns,bytesused,crc32")));;
              let f := Locals (fd f) (out_bufs f) (cap_bufs f) (out_streaming f) (cap_streaming f) fp in
              if negb fp then quit f else go f))))))).

(** The body of the loop that queues the CAPTURE buffers. *)
Definition enqueue (i : Z) : stage locals := fun f =>
  (r <- sys (vpipe_queue_mmap_buffer (fd f) CAPTURE V4L2_MEMORY_MMAP i (-1));;
  if r <? 0 then quit f else go f).

Definition streamon : stage locals := fun f =>
  (a <- sys (vpipe_xioctl (fd f) (STREAMON CAPTURE));;
  if a_ret a <? 0 then quit f
  else
    (let f := Locals (fd f) (out_bufs f) (cap_bufs f) (out_streaming f) true (fp f) in
    a <- sys (vpipe_xioctl (fd f) (STREAMON OUTPUT));;
    if a_ret a <? 0 then quit f
    else go (Locals (fd f) (out_bufs f) (cap_bufs f) true true (fp f)))).

(** The body of the frame loop. *)
Definition frame (i : Z) : stage locals := fun f =>
  (enqueue_ns <- sys vpipe_now_monotonic_ns;;
  r <- sys (vpipe_queue_mmap_buffer (fd f) OUTPUT V4L2_MEMORY_MMAP (i mod BUFFER_COUNT) (-1));;
  if r <? 0 then quit f
  else
    (cap_dq <- sys (dqbuf (fd f) CAPTURE V4L2_MEMORY_MMAP);;
    if a_ret cap_dq <? 0 then quit f
    else
      (dequeue_ns <- sys vpipe_now_monotonic_ns;;
      if BUFFER_COUNT <=? a_index cap_dq then quit f
      else
        (out_dq <- sys (dqbuf (fd f) OUTPUT V4L2_MEMORY_MMAP);;
        if a_ret out_dq <? 0 then quit f
        else
          (b <- aget (cap_bufs f) (a_index cap_dq);;
          crc <- crc32_at (addr b) (a_bytesused cap_dq);;
          emit [i; a_sequence cap_dq; enqueue_ns; dequeue_ns; a_bytesused cap_dq; crc];;
          r <- sys (vpipe_queue_mmap_buffer (fd f) CAPTURE V4L2_MEMORY_MMAP (a_index cap_dq) (-1));;
          if r <? 0 then quit f else go f))))).

Definition cleanup (f : locals) : F pworld unit :=
  (sys (streamoff_if (out_streaming f) (fd f) OUTPUT);;
  sys (streamoff_if (cap_streaming f) (fd f) CAPTURE);;
  lib (fclose_if (fp f));;
  sys (vpipe_unmap_buffers (out_bufs f) BUFFER_COUNT);;
  sys (vpipe_unmap_buffers (cap_bufs f) BUFFER_COUNT);;
  sys (close_if (fd f))).

(** The stages of [main] after the device is open. *)
Definition body (csv : list Z) (frames : Z) : stage locals :=
  andthen (setup csv)
    (andthen (for_each BUFFER_COUNT enqueue) (andthen streamon (for_each frames frame))).

(** The exit status. *)
Definition main (args : list (list Z)) : F pworld Z :=
  let dev := default (lit "/dev/video0") (args !! 0%nat) in
  let csv := default (lit "bench/vcam.csv") (args !! 1%nat) in
  match uint_arg args 2 1 UINT_MAX 6000 with
  | None => fret 1
  | Some frames =>
      (fd <- sys (open dev);;
      if fd <? 0 then fret 1
      else run_program (body csv frames) cleanup (Locals fd (blanks 4) (blanks 4) false false false))
  end.
End VcamBench.

Section Proofs.
Context `{V4l2Laws} `{!BufferLaws} `{!FormatLaws} `{Posix}.
Context (w0 : pworld) (Hok : start_ok w0).
Let c0 := cclock (pc w0).

Definition owns (f : locals) (g : ghost) : Prop :=
  names (fd f :: fds_of (take 4 (out_bufs f)) ++ fds_of (take 4 (cap_bufs f)))
    (maps_of (take 4 (out_bufs f)) ++ maps_of (take 4 (cap_bufs f))) (if fp f then 1 else 0) 0 g /\
  length (out_bufs f) = 4%nat /\ length (cap_bufs f) = 4%nat.

Record looping (i : Z) (f : locals) (g : ghost) : Prop := {
  lp_owns : owns f g;
  lp_cap : exists lens, (fd f, CAPTURE, lens) ∈ g_queues g /\ shows (cap_bufs f) lens (g_known g);
  lp_clock : g_clock g = (c0 + 2 * Z.to_nat i)%nat;
  lp_log : logged (timed_row c0) i (prow w0) (g_rows g)
}.

Lemma vbench_setup_ok csv fd w g :
  running w0 w g -> g = add_fd fd (nothing w0) ->
  wp (setup csv (Locals fd (blanks 4) (blanks 4) false false false)) (fun r w' =>
    if fst r : bool then exists g', running w0 w' g' /\ looping 0 (snd r) g'
    else accounted owns w0 (snd r) w') w.
Proof.
  intros Hr ->. destruct Hok as [Hp _]. unfold setup. change BUFFER_COUNT with (Z.of_nat 4).
  repeat (pstep Hp); cbn [VcamBench.fd out_bufs cap_bufs]; try new_queue; try done.
  1-3: eexists; (split; [exact Hr|]); (split; [solve_names|done]).
  prequest Hp 4%nat.
  { pstep Hp. eexists. split; [exact Hr|]. split; [solve_names|done]. }
  pstep Hp. prequest Hp 4%nat.
  { pstep Hp. eexists. split; [exact Hr|]. split; [solve_names|done]. }
  repeat (pstep Hp); cbn [VcamBench.fd out_bufs cap_bufs].
  1-2: eexists; (split; [exact Hr|]); (split; [solve_names|done]).
  eexists. split; [exact Hr|]. split; [split; [solve_names|done]| |cbn; lia|apply logged_nil].
  exists lens0. split; [cbn; set_solver|]. eapply shows_mono; [exact Hshows0|]. cbn. set_solver.
Qed.

Lemma vbench_frame_ok i f w g :
  running w0 w g -> looping i f g -> 0 <= i ->
  wp (frame i f) (fun r w' =>
    if fst r : bool then exists g', running w0 w' g' /\ looping (i + 1) (snd r) g'
    else accounted owns w0 (snd r) w') w.
Proof.
  intros Hr [[[N1 N2 N3 N4] Hl] (lens & Hv & Hs) Hc Hlog] Hi. destruct Hok as [Hp _]. unfold frame.
  repeat (pstep Hp); try (eexists; split; [exact Hr|by split]).
  destruct (Ha lens ltac:(lia) Hv) as (Hi0 & len & Hlen & Hb). destruct (Hs _ _ Hlen) as (b & Hb' & _ & Hk).
  eapply wp_aget; [lia|exact Hb'|]. pstep Hp. eapply (wp_crc32_at w0); [exact Hr|exact Hk|by apply Hb|].
  clear Hr. intros l w' Hr El Hu. rewrite <- El in *. repeat (pstep Hp); try (eexists; split; [exact Hr|by split]).
  eexists. split; [exact Hr|]. split; [by split|by exists lens|cbn; lia|].
  apply logged_snoc; [done|]. intros l' _ Hn. eexists _, l. split; [done|]. cbn. rewrite Hc. repeat f_equal; lia.
Qed.

Lemma vbench_cleanup_ok : gives_back owns w0 cleanup.
Proof.
  intros f w g Hr [[O1 O2 O3 O4] [L1 L2]]. destruct Hok as [Hp _]. unfold cleanup.
  change BUFFER_COUNT with (Z.of_nat 4). do 7 (pstep Hp).
  set (fo := fds_of (take 4 (out_bufs f))) in *. set (fc := fds_of (take 4 (cap_bufs f))) in *.
  set (mo := maps_of (take 4 (out_bufs f))) in *. set (mc := maps_of (take 4 (cap_bufs f))) in *.
  relist Hr (Ghost (fo ++ fc ++ [fd f]) (mo ++ mc) 0 0 [] [] [] (g_clock g) (g_rows g)) (fp f).
  eapply (wp_sys_unmap w0 Hp 4 _ (fc ++ [fd f]) mc); [exact Hr|done|lia|done|done|]. clear Hr. intros u1 Hr. pstep Hp.
  eapply (wp_sys_unmap w0 Hp 4 _ [fd f] []); [exact Hr|done|lia|done|cbn; by rewrite app_nil_r|].
  clear Hr. intros u2 Hr. eapply (wp_sys_close_if w0 Hp _ []); [exact Hr|done|]. clear Hr. intros u3 Hr.
  all_back Hr.
Qed.

Definition at_frame (i : Z) (f : locals) (w : pworld) : Prop := exists g, running w0 w g /\ looping i f g.

Lemma vbench_body_ok csv frames fd w g :
  0 <= frames -> running w0 w g -> g = add_fd fd (nothing w0) ->
  wp (body csv frames (Locals fd (blanks 4) (blanks 4) false false false)) (fun r w =>
    if fst r : bool
    then exists g, running w0 w g /\ owns (snd r) g /\ logged (timed_row c0) frames (prow w0) (g_rows g)
    else accounted owns w0 (snd r) w) w.
Proof.
  intros Hf Hr Hg. pose proof Hok as [Hp _]. apply wp_andthen. eapply wp_mono; [by apply (vbench_setup_ok _ _ _ g)|].
  clear w g Hr Hg. intros [[] f] w; [|done]. cbn [fst snd]. intros Hl. apply wp_andthen.
  eapply wp_mono; [apply (wp_for_each (fun _ => at_frame 0) (accounted owns w0)); [done|exact Hl|]|].
  { intros i f' w' _ (g' & Hr & Hl'). unfold enqueue. repeat (pstep Hp); eexists; (split; [exact Hr|]); [apply Hl'|done]. }
  clear f w Hl. intros [[] f] w; [|done]. cbn [fst snd]. intros (g & Hr & Hl).
  apply wp_andthen. unfold streamon.
  repeat (pstep Hp); try (eexists; split; [exact Hr|]; pose proof (lp_owns _ _ _ Hl) as [[] []]; by split).
  eapply wp_mono; [apply (wp_for_each at_frame (accounted owns w0)); [done| |]|].
  - exists g. split; [done|]. destruct Hl as [[[] []] ? ? ?]. by split.
  - intros i f' w' Hi (g' & Hr' & Hl'). by apply (vbench_frame_ok i f' w' g'); [..|lia].
  - intros [[] f'] w'; [|done]. cbn [fst snd]. intros (g' & Hr' & [Ho' _ _ Hlog]). by exists g'.
Qed.

Lemma vbench_main_ok args :
  wp (main args) (fun rc w' => balanced w0 w' /\
    ((exists frames, rc = 0 /\ uint_arg args 2 1 UINT_MAX 6000 = Some frames /\
        logged (timed_row c0) frames (prow w0) (prow w')) \/ rc = 1)) w0.
Proof.
  unfold main.
  destruct (uint_arg args 2 1 UINT_MAX 6000) as [frames|] eqn:Ef; [|apply wp_ret; auto using balanced_refl].
  apply uint_arg_in in Ef as Hf; [|done]. pose proof (running_start w0 (st_crc _ Hok)) as Hr.
  pose proof Hok as [Hp _]. repeat (pstep Hp).
  - split; [|by right]. eapply running_end; [exact Hr| | |done|done]; cbn; [|intros; apply not_elem_of_nil].
    intros x Hx. rewrite list_elem_of_singleton. lia.
  - eapply wp_mono; [eapply (wp_program owns w0 _ _ _ (logged (timed_row c0) frames (prow w0)));
      [apply vbench_cleanup_ok|eapply vbench_body_ok; [lia|exact Hr|done]]|].
    intros rc w' [Hb [[-> Hd]|Hd]]; (split; [done|]); [left; eauto|by right].
Qed.
End Proofs.
End VcamBench.

(** ** [user/vpipe-vcam-dmabuf-bench.c] *)

Module VcamDmabufBench.
Section VcamDmabufBench.
Context `{V4l2} `{Posix}.

Definition BUFFER_COUNT : Z := 4.

Record locals := Locals {
  fd : Z; cap_bufs : list vpipe_mmap_buffer; out_sizeimage : Z;
  out_streaming : bool; cap_streaming : bool; fp : bool; src_fd : Z
}.

Definition setup (csv : list Z) : stage locals := fun f =>
  (a <- sys (vpipe_xioctl (fd f) (SET_BACKEND VPIPE_BACKEND_VCAM_DERIVED));;
  if a_ret a <? 0 then quit f
  else
    (r <- sys (vpipe_set_format (fd f) OUTPUT WIDTH HEIGHT V4L2_PIX_FMT_GREY);;
    if r <? 0 then quit f
    else
      (r <- sys (vpipe_set_format (fd f) CAPTURE WIDTH HEIGHT V4L2_PIX_FMT_GREY);;
      if r <? 0 then quit f
      else
        (size <- sys (vpipe_get_sizeimage (fd f) OUTPUT);;
        let f := Locals (fd f) (cap_bufs f) size (out_streaming f) (cap_streaming f) (fp f) (src_fd f) in
        if size =? 0 then quit f
        else
          (a <- sys (vpipe_xioctl (fd f) (REQBUFS OUTPUT 1 V4L2_MEMORY_DMABUF));;
          if a_ret a <? 0 then quit f
          else
            (c <- sys (vpipe_request_mmap_buffers (fd f) CAPTURE BUFFER_COUNT (cap_bufs f));;
            let f := Locals (fd f) (snd c) (out_sizeimage f) (out_streaming f) (cap_streaming f) (fp f)
                       (src_fd f) in
            if fst c <? 0 then quit f
            else
              (r <- sys (set_ctrl (fd f) VPIPE_CID_ALGO VPIPE_ALGO_NONE);;
              if r <? 0 then quit f
              else
                (fp <- lib (vpipe_open_csv csv (Some (lit
                   "frame,src_sequence,enqueue_monotonic_ns,dequeue_monotonic_ns,bytesused,crc32")));;
                let f := Locals (fd f) (cap_bufs f) (out_sizeimage f) (out_streaming f) (cap_streaming f)
                           fp (src_fd f) in
                if negb fp then quit f else go f)))))))).

(** The body of the loop that queues the CAPTURE buffers. *)
Definition enqueue (i : Z) : stage locals := fun f =>
  (r <- sys (vpipe_queue_mmap_buffer (fd f) CAPTURE V4L2_MEMORY_MMAP i (-1));;
  if r <? 0 then quit f else go f).

(** Streaming on, and the descriptor of the source's buffer. *)
Definition start : stage locals := fun f =>
  (a <- sys (vpipe_xioctl (fd f) (STREAMON CAPTURE));;
  if a_ret a <? 0 then quit f
  else
    (let f := Locals (fd f) (cap_bufs f) (out_sizeimage f) (out_streaming f) true (fp f) (src_fd f) in
    a <- sys (vpipe_xioctl (fd f) (STREAMON OUTPUT));;
    if a_ret a <? 0 then quit f
    else
      (let f := Locals (fd f) (cap_bufs f) (out_sizeimage f) true true (fp f) (src_fd f) in
      a <- sys (vpipe_xioctl (fd f) EXPORT_SRC_DMABUF);;
      if a_ret a <? 0 then quit f
      else
        (let f := Locals (fd f) (cap_bufs f) (out_sizeimage f) true true (fp f) (a_m a) in
        if a_m a <? 0 then quit f else go f)))).

(** The body of the frame loop. *)
Definition frame (i : Z) : stage locals := fun f =>
  (enqueue_ns <- sys vpipe_now_monotonic_ns;;
  a <- sys (vpipe_xioctl (fd f)
         (QBUF (Qbuf OUTPUT V4L2_MEMORY_DMABUF 0 (src_fd f) (u32 (out_sizeimage f)) (u32 (out_sizeimage f)))));;
  if a_ret a <? 0 then quit f
  else
    (cap_dq <- sys (dqbuf (fd f) CAPTURE V4L2_MEMORY_MMAP);;
    if a_ret cap_dq <? 0 then quit f
    else
      (dequeue_ns <- sys vpipe_now_monotonic_ns;;
      if BUFFER_COUNT <=? a_index cap_dq then quit f
      else
        (out_dq <- sys (dqbuf (fd f) OUTPUT V4L2_MEMORY_DMABUF);;
        if a_ret out_dq <? 0 then quit f
        else
          (b <- aget (cap_bufs f) (a_index cap_dq);;
          crc <- crc32_at (addr b) (a_bytesused cap_dq);;
          emit [i; a_sequence cap_dq; enqueue_ns; dequeue_ns; a_bytesused cap_dq; crc];;
          r <- sys (vpipe_queue_mmap_buffer (fd f) CAPTURE V4L2_MEMORY_MMAP (a_index cap_dq) (-1));;
          if r <? 0 then quit f else go f))))).

Definition cleanup (f : locals) : F pworld unit :=
  (sys (streamoff_if (out_streaming f) (fd f) OUTPUT);;
  sys (streamoff_if (cap_streaming f) (fd f) CAPTURE);;
  lib (fclose_if (fp f));;
  sys (close_if (src_fd f));;
  sys (vpipe_unmap_buffers (cap_bufs f) BUFFER_COUNT);;
  sys (close_if (fd f))).

(** The stages of [main] after the device is open. *)
Definition body (csv : list Z) (frames : Z) : stage locals :=
  andthen (setup csv)
    (andthen (for_each BUFFER_COUNT enqueue) (andthen start (for_each frames frame))).

(** The exit status. *)
Definition main (args : list (list Z)) : F pworld Z :=
  let dev := default (lit "/dev/video0") (args !! 0%nat) in
  let csv := default (lit "bench/vcam-dmabuf.csv") (args !! 1%nat) in
  match uint_arg args 2 1 UINT_MAX 6000 with
  | None => fret 1
  | Some frames =>
      (fd <- sys (open dev);;
      if fd <? 0 then fret 1
      else run_program (body csv frames) cleanup (Locals fd (blanks 4) 0 false false false (-1)))
  end.
End VcamDmabufBench.

Section Proofs.
Context `{V4l2Laws} `{!BufferLaws} `{!FormatLaws} `{Posix}.
Context (w0 : pworld) (Hok : start_ok w0).
Let c0 := cclock (pc w0).

Definition owns (f : locals) (g : ghost) : Prop :=
  names (fd f :: src_fd f :: fds_of (take 4 (cap_bufs f))) (maps_of (take 4 (cap_bufs f)))
    (if fp f then 1 else 0) 0 g /\
  length (cap_bufs f) = 4%nat.

Record looping (i : Z) (f : locals) (g : ghost) : Prop := {
  lp_owns : owns f g;
  lp_cap : exists lens, (fd f, CAPTURE, lens) ∈ g_queues g /\ shows (cap_bufs f) lens (g_known g);
  lp_clock : g_clock g = (c0 + 2 * Z.to_nat i)%nat;
  lp_log : logged (timed_row c0) i (prow w0) (g_rows g)
}.

(** Before the source's buffer is exported. *)
Definition at_start (f : locals) (w : pworld) : Prop :=
  exists g, running w0 w g /\ looping 0 f g /\ src_fd f = -1.

Lemma vdbench_setup_ok csv fd w g :
  running w0 w g -> g = add_fd fd (nothing w0) ->
  wp (setup csv (Locals fd (blanks 4) 0 false false false (-1))) (fun r w' =>
    if fst r : bool then at_start (snd r) w' else accounted owns w0 (snd r) w') w.
Proof.
  intros Hr ->. destruct Hok as [Hp _]. unfold setup. change BUFFER_COUNT with (Z.of_nat 4).
  repeat (pstep Hp); cbn [VcamDmabufBench.fd cap_bufs]; try new_queue; try done.
  1-5: eexists; (split; [exact Hr|]); (split; [solve_names|done]).
  prequest Hp 4%nat.
  { pstep Hp. eexists. split; [exact Hr|]. split; [solve_names|done]. }
  repeat (pstep Hp); cbn [VcamDmabufBench.fd cap_bufs].
  1-2: eexists; (split; [exact Hr|]); (split; [solve_names|done]).
  eexists. split; [exact Hr|]. split; [|done]. split; [split; [solve_names|done]| |cbn; lia|apply logged_nil].
  exists lens. split; [cbn; set_solver|]. eapply shows_mono; [exact Hshows|]. cbn. set_solver.
Qed.

Lemma vdbench_frame_ok i f w g :
  running w0 w g -> looping i f g -> 0 <= i ->
  wp (frame i f) (fun r w' =>
    if fst r : bool then exists g', running w0 w' g' /\ looping (i + 1) (snd r) g'
    else accounted owns w0 (snd r) w') w.
Proof.
  intros Hr [[[N1 N2 N3 N4] Hl] (lens & Hv & Hs) Hc Hlog] Hi. destruct Hok as [Hp _]. unfold frame.
  repeat (pstep Hp); try (eexists; split; [exact Hr|by split]).
  destruct (Ha lens ltac:(lia) Hv) as (Hi0 & len & Hlen & Hb). destruct (Hs _ _ Hlen) as (b & Hb' & _ & Hk).
  eapply wp_aget; [lia|exact Hb'|]. pstep Hp. eapply (wp_crc32_at w0); [exact Hr|exact Hk|by apply Hb|].
  clear Hr. intros l w' Hr El Hu. rewrite <- El in *. repeat (pstep Hp); try (eexists; split; [exact Hr|by split]).
  eexists. split; [exact Hr|]. split; [by split|by exists lens|cbn; lia|].
  apply logged_snoc; [done|]. intros l' _ Hn. eexists _, l. split; [done|]. cbn. rewrite Hc. repeat f_equal; lia.
Qed.

Lemma vdbench_cleanup_ok : gives_back owns w0 cleanup.
Proof.
  intros f w g Hr [[O1 O2 O3 O4] L1]. destruct Hok as [Hp _]. unfold cleanup.
  change BUFFER_COUNT with (Z.of_nat 4). do 7 (pstep Hp).
  set (fc := fds_of (take 4 (cap_bufs f))) in *. set (mc := maps_of (take 4 (cap_bufs f))) in *.
  relist Hr (Ghost (src_fd f :: fc ++ [fd f]) mc 0 0 [] [] [] (g_clock g) (g_rows g)) (fp f).
  eapply (wp_sys_close_if w0 Hp _ (fc ++ [fd f])); [exact Hr|done|]. clear Hr. intros u1 Hr. pstep Hp.
  eapply (wp_sys_unmap w0 Hp 4 _ [fd f] []); [exact Hr|done|lia|done|cbn; by rewrite app_nil_r|].
  clear Hr. intros u2 Hr. eapply (wp_sys_close_if w0 Hp _ []); [exact Hr|done|]. clear Hr. intros u3 Hr.
  all_back Hr.
Qed.

Definition at_frame (i : Z) (f : locals) (w : pworld) : Prop := exists g, running w0 w g /\ looping i f g.

Lemma vdbench_body_ok csv frames fd w g :
  0 <= frames -> running w0 w g -> g = add_fd fd (nothing w0) ->
  wp (body csv frames (Locals fd (blanks 4) 0 false false false (-1))) (fun r w =>
    if fst r : bool
    then exists g, running w0 w g /\ owns (snd r) g /\ logged (timed_row c0) frames (prow w0) (g_rows g)
    else accounted owns w0 (snd r) w) w.
Proof.
  intros Hf Hr Hg. pose proof Hok as [Hp _]. apply wp_andthen. eapply wp_mono; [by apply (vdbench_setup_ok _ _ _ g)|].
  clear w g Hr Hg. intros [[] f] w; [|done]. cbn [fst snd]. intros Hl. apply wp_andthen.
  eapply wp_mono; [apply (wp_for_each (fun _ => at_start) (accounted owns w0)); [done|exact Hl|]|].
  { intros i f' w' _ (g' & Hr & Hl' & Hsrc). unfold enqueue.
    repeat (pstep Hp); eexists; (split; [exact Hr|]); [apply Hl'|done]. }
  clear f w Hl. intros [[] f] w; [|done]. cbn [fst snd]. intros (g & Hr & [[[N1 N2 N3 N4] Hl] Hcap Hc Hlog] & Hsrc).
  rewrite Hsrc in N1. apply wp_andthen. unfold start. repeat (pstep Hp); cbn [fst snd].
  1-4: eexists; (split; [exact Hr|]); (split; [solve_names|done]).
  eapply wp_mono; [apply (wp_for_each at_frame (accounted owns w0)); [done| |]|].
  - eexists. split; [exact Hr|]. split; [split; [solve_names|done]|done|done|done].
  - intros i f' w' Hi (g' & Hr' & Hl'). by apply (vdbench_frame_ok i f' w' g'); [..|lia].
  - intros [[] f'] w'; [|done]. cbn [fst snd]. intros (g' & Hr' & [Ho1 _ _ Hlog1]). by exists g'.
Qed.

Lemma vdbench_main_ok args :
  wp (main args) (fun rc w' => balanced w0 w' /\
    ((exists frames, rc = 0 /\ uint_arg args 2 1 UINT_MAX 6000 = Some frames /\
        logged (timed_row c0) frames (prow w0) (prow w')) \/ rc = 1)) w0.
Proof.
  unfold main.
  destruct (uint_arg args 2 1 UINT_MAX 6000) as [frames|] eqn:Ef; [|apply wp_ret; auto using balanced_refl].
  apply uint_arg_in in Ef as Hf; [|done]. pose proof (running_start w0 (st_crc _ Hok)) as Hr.
  pose proof Hok as [Hp _]. repeat (pstep Hp).
  - split; [|by right]. eapply running_end; [exact Hr| | |done|done]; cbn; [|intros; apply not_elem_of_nil].
    intros x Hx. rewrite list_elem_of_singleton. lia.
  - eapply wp_mono; [eapply (wp_program owns w0 _ _ _ (logged (timed_row c0) frames (prow w0)));
      [apply vdbench_cleanup_ok|eapply vdbench_body_ok; [lia|exact Hr|done]]|].
    intros rc w' [Hb [[-> Hd]|Hd]]; (split; [done|]); [left; eauto|by right].
Qed.
End Proofs.
End VcamDmabufBench.

(** ** The theorem *)


Import TinySim.

