(* ===== verification/VcamTest.v ===== *)
(** * The gradient check and [user/vpipe-vcam-dmabuf-test.c]

    The vcam backend paints a gradient whose offset is its first pixel; the
    programs check it. The frames that pass are exactly the gradients, and
    what the kernel paints passes. *)

From S2P Require Import Prelude Types Cv Kernel Source Backends M2m M2mSpec Crc32 Pgm Wp Client Process Bench.

(** ** Gradients *)

(** The frame [l] of the given size and line length is a gradient. *)
Definition gradient_frame (w h stride : Z) (l : list Z) : Prop :=
  exists o, l !! 0%nat = Some o /\
    forall x y, 0 <= x < w -> 0 <= y < h -> l !! Z.to_nat (y * stride + x) = Some ((x + y + o) mod 256).

(** ** The check *)

Module DmabufTest.

(** The body of the inner loop; reading outside the frame faults. *)
Definition check_px (pix : list Z) (stride offset y x mismatches : Z) : option Z :=
  let expected := u8 (Z.land (u32 (u32 (x + y) + offset)) 0xFF) in
  match pix !! Z.to_nat (u32 (u32 (y * stride) + x)) with
  | None => None
  | Some v => Some (if negb (v =? expected) then u64 (mismatches + 1) else mismatches)
  end.

Definition verify_gradient (pix : list Z) (width height stride : Z) : option Z :=
  match pix !! 0%nat with
  | None => None
  | Some offset =>
      for_range 0 height (fun y => for_range 0 width (fun x => check_px pix stride offset y x)) 0
  end.

(** *** The check is exact *)

Section Verify.
Context (pix : list Z) (w h stride o : Z).
Context (Hw : 0 < w <= stride) (Hh : 0 < h) (Hlim : h * stride < 4294967296)
        (Hlen : h * stride <= Z.of_nat (length pix)) (Ho : pix !! 0%nat = Some o).

Definition matches (y x : Z) : Prop := pix !! Z.to_nat (y * stride + x) = Some ((x + y + o) mod 256).

Lemma check_px_ok y x m :
  0 <= y < h -> 0 <= x < w -> 0 <= m < 18446744073709551615 ->
  exists m', check_px pix stride o y x m = Some m' /\
    (matches y x /\ m' = m \/ ~ matches y x /\ m' = m + 1).
Proof.
  intros Hy Hx Hm. unfold check_px. cbv zeta. rewrite (u32_small (y * stride)), u32_small by nia.
  destruct (lookup_lt_is_Some_2 pix (Z.to_nat (y * stride + x))) as [v Hv]; [nia|]. rewrite Hv.
  pose proof (gradient_px_mod x y o) as Hg. unfold gradient_px in Hg. rewrite Hg.
  eexists. split; [reflexivity|]. unfold matches. rewrite Hv.
  destruct (Z.eqb_spec v ((x + y + o) mod 256)) as [->|Hne]; cbn [negb]; [by left|right].
  split; [congruence|]. rewrite u64_small by lia. done.
Qed.

Lemma check_row_ok y m0 :
  0 <= y < h -> 0 <= m0 <= y * w ->
  exists m', for_range 0 w (fun x => check_px pix stride o y x) m0 = Some m' /\
    m0 <= m' <= m0 + w /\ (m' = m0 <-> forall x, 0 <= x < w -> matches y x).
Proof.
  intros Hy Hm0.
  destruct (for_range_inv (fun x m => m0 <= m <= m0 + x /\ (m = m0 <-> forall x', 0 <= x' < x -> matches y x'))
    0 w (fun x => check_px pix stride o y x) m0) as (m' & Hm' & Hp); [lia|split; [lia|split; [lia|done]]| |by eauto].
  intros x m Hx (Hr & He). destruct (check_px_ok y x m Hy Hx ltac:(nia)) as (m' & -> & [[Hmt ->]|[Hmt ->]]);
    eexists; (split; [reflexivity|]); (split; [lia|]).
  - rewrite He. split; intros Hall x' Hx'; [|apply Hall; lia].
    destruct (Z.eq_dec x' x) as [->|]; [done|apply Hall; lia].
  - split; [lia|]. intros Hall. exfalso. apply Hmt, Hall. lia.
Qed.

Lemma verify_ok :
  exists n, verify_gradient pix w h stride = Some n /\ 0 <= n /\ (n = 0 <-> gradient_frame w h stride pix).
Proof.
  unfold verify_gradient. rewrite Ho.
  destruct (for_range_inv (fun y m => 0 <= m <= y * w /\
      (m = 0 <-> forall y', 0 <= y' < y -> forall x, 0 <= x < w -> matches y' x))
    0 h (fun y => for_range 0 w (fun x => check_px pix stride o y x)) 0) as (n & Hn & Hr & He);
    [lia|split; [lia|split; [lia|done]]| |].
  - intros y m Hy (Hr & He). destruct (check_row_ok y m Hy ltac:(lia)) as (m' & Hm' & Hr' & He').
    exists m'. split; [done|]. split; [lia|]. split.
    + intros -> y' Hy' x Hx. destruct (Z.eq_dec y' y) as [->|].
      * apply He'; [lia|done].
      * apply He; [lia|lia|done].
    + intros Hall. assert (m = 0) by (apply He; intros y' Hy'; apply Hall; lia). subst m.
      apply He'. intros x Hx. apply Hall; [lia|done].
  - exists n. split; [done|]. split; [lia|]. rewrite He. split.
    + intros Hall. exists o. split; [done|]. intros x y Hx Hy. by apply Hall.
    + intros (o' & Ho' & Hall) y Hy x Hx. unfold matches. assert (o = o') as -> by congruence. by apply Hall.
Qed.
End Verify.

Section DmabufTest.
Context `{V4l2} `{Posix}.

Definition BUFFER_COUNT : Z := 4.

(** The locals that [cleanup] and the check look at. *)
Record locals := Locals {
  fd : Z; out_bufs : list vpipe_mmap_buffer; cap_bufs : list vpipe_mmap_buffer;
  stride : Z; sizeimage : Z; out_streaming : bool; cap_streaming : bool; map : Z; dbuf_fd : Z
}.

Definition setup : stage locals := fun f =>
  (a <- sys (vpipe_xioctl (fd f) (SET_BACKEND VPIPE_BACKEND_VCAM_DERIVED));;
  if a_ret a <? 0 then quit f
  else
    (r <- sys (vpipe_set_format (fd f) OUTPUT WIDTH HEIGHT V4L2_PIX_FMT_GREY);;
    if r <? 0 then quit f
    else
      (r <- sys (vpipe_set_format (fd f) CAPTURE WIDTH HEIGHT V4L2_PIX_FMT_GREY);;
      if r <? 0 then quit f
      else
        (fmt <- sys (vpipe_xioctl (fd f) (G_FMT OUTPUT));;
        if a_ret fmt <? 0 then quit f
        else
          (let f := Locals (fd f) (out_bufs f) (cap_bufs f) (a_bytesperline fmt) (a_sizeimage fmt)
                      (out_streaming f) (cap_streaming f) (map f) (dbuf_fd f) in
          if (stride f =? 0) || (sizeimage f =? 0) then quit f
          else
            (o <- sys (vpipe_request_mmap_buffers (fd f) OUTPUT BUFFER_COUNT (out_bufs f));;
            let f := Locals (fd f) (snd o) (cap_bufs f) (stride f) (sizeimage f)
                       (out_streaming f) (cap_streaming f) (map f) (dbuf_fd f) in
            if fst o <? 0 then quit f
            else
              (c <- sys (vpipe_request_mmap_buffers (fd f) CAPTURE BUFFER_COUNT (cap_bufs f));;
              let f := Locals (fd f) (out_bufs f) (snd c) (stride f) (sizeimage f)
                         (out_streaming f) (cap_streaming f) (map f) (dbuf_fd f) in
              if fst c <? 0 then quit f
              else
                (r <- sys (set_ctrl (fd f) VPIPE_CID_ALGO VPIPE_ALGO_NONE);;
                if r <? 0 then quit f else go f)))))))).

(** The body of the loop that queues the CAPTURE buffers. *)
Definition enqueue (i : Z) : stage locals := fun f =>
  (r <- sys (vpipe_queue_mmap_buffer (fd f) CAPTURE V4L2_MEMORY_MMAP i (-1));;
  if r <? 0 then quit f else go f).

Definition streamon : stage locals := fun f =>
  (a <- sys (vpipe_xioctl (fd f) (STREAMON CAPTURE));;
  if a_ret a <? 0 then quit f
  else
    (let f := Locals (fd f) (out_bufs f) (cap_bufs f) (stride f) (sizeimage f)
                (out_streaming f) true (map f) (dbuf_fd f) in
    a <- sys (vpipe_xioctl (fd f) (STREAMON OUTPUT));;
    if a_ret a <? 0 then quit f
    else go (Locals (fd f) (out_bufs f) (cap_bufs f) (stride f) (sizeimage f) true true (map f)
               (dbuf_fd f)))).

(** The body of the frame loop. *)
Definition frame (i : Z) : stage locals := fun f =>
  (r <- sys (vpipe_queue_mmap_buffer (fd f) OUTPUT V4L2_MEMORY_MMAP (i mod BUFFER_COUNT) (-1));;
  if r <? 0 then quit f
  else
    (cap_dq <- sys (dqbuf (fd f) CAPTURE V4L2_MEMORY_MMAP);;
    if a_ret cap_dq <? 0 then quit f
    else
      (out_dq <- sys (dqbuf (fd f) OUTPUT V4L2_MEMORY_MMAP);;
      if a_ret out_dq <? 0 then quit f
      else
        (r <- sys (vpipe_queue_mmap_buffer (fd f) CAPTURE V4L2_MEMORY_MMAP (a_index cap_dq) (-1));;
        if r <? 0 then quit f else go f)))).

(** The exported frame is mapped and compared; the report is one line. *)
Definition check (frames : Z) : stage locals := fun f =>
  (a <- sys (vpipe_xioctl (fd f) EXPORT_SRC_DMABUF);;
  if a_ret a <? 0 then quit f
  else
    (let f := Locals (fd f) (out_bufs f) (cap_bufs f) (stride f) (sizeimage f) (out_streaming f)
                (cap_streaming f) (map f) (a_m a) in
    if dbuf_fd f <? 0 then quit f
    else
      (m <- sys (mmap (sizeimage f) (dbuf_fd f) 0);;
      let f := Locals (fd f) (out_bufs f) (cap_bufs f) (stride f) (sizeimage f) (out_streaming f)
                 (cap_streaming f) m (dbuf_fd f) in
      if m =? MAP_FAILED then quit f
      else
        (pix <- sys (load_bytes m (sizeimage f));;
        mismatches <- flift (verify_gradient pix WIDTH HEIGHT (stride f));;
        crc <- crc32_list pix (sizeimage f);;
        p0 <- aget pix 0;;
        emit [frames; p0; stride f; sizeimage f; crc];;
        if ztrue mismatches then quit f else go f)))).

Definition cleanup (f : locals) : F pworld unit :=
  (sys (if negb (map f =? MAP_FAILED) then munmap (map f) else fret tt);;
  sys (close_if (dbuf_fd f));;
  sys (streamoff_if (out_streaming f) (fd f) OUTPUT);;
  sys (streamoff_if (cap_streaming f) (fd f) CAPTURE);;
  sys (vpipe_unmap_buffers (out_bufs f) BUFFER_COUNT);;
  sys (vpipe_unmap_buffers (cap_bufs f) BUFFER_COUNT);;
  sys (close_if (fd f))).

(** The stages of [main] after the device is open. *)
Definition body (frames : Z) : stage locals :=
  andthen setup
    (andthen (for_each BUFFER_COUNT enqueue)
       (andthen streamon (andthen (for_each frames frame) (check frames)))).

(** The exit status. *)
Definition main (args : list (list Z)) : F pworld Z :=
  let dev := default (lit "/dev/video0") (args !! 0%nat) in
  match uint_arg args 1 1 UINT_MAX 16 with
  | None => fret 1
  | Some frames =>
      (fd <- sys (open dev);;
      if fd <? 0 then fret 1
      else run_program (body frames) cleanup
             (Locals fd (blanks 4) (blanks 4) 0 0 false false MAP_FAILED (-1)))
  end.
End DmabufTest.

Section Proofs.
Context `{V4l2Laws} `{!BufferLaws} `{!FormatLaws} `{Posix}.
Context (w0 : pworld) (Hok : start_ok w0) (Hsup : supported WIDTH HEIGHT = true).

Definition owns (f : locals) (g : ghost) : Prop :=
  names (fd f :: dbuf_fd f :: fds_of (take 4 (out_bufs f)) ++ fds_of (take 4 (cap_bufs f)))
    (map f :: maps_of (take 4 (out_bufs f)) ++ maps_of (take 4 (cap_bufs f))) 0 0 g /\
  length (out_bufs f) = 4%nat /\ length (cap_bufs f) = 4%nat.

(** Between the setup and the check. *)
Record streaming (f : locals) (g : ghost) : Prop := {
  sm_owns : owns f g;
  sm_stride : WIDTH <= stride f;
  sm_size : stride f * HEIGHT <= sizeimage f;
  sm_lim : in_u32 (sizeimage f);
  sm_map : map f = MAP_FAILED;
  sm_dbuf : dbuf_fd f = -1;
  sm_rows : g_rows g = prow w0
}.

Lemma vtest_setup_ok fd w g :
  running w0 w g -> g = add_fd fd (nothing w0) ->
  wp (setup (Locals fd (blanks 4) (blanks 4) 0 0 false false MAP_FAILED (-1))) (fun r w' =>
    if fst r : bool then exists g', running w0 w' g' /\ streaming (snd r) g'
    else accounted owns w0 (snd r) w') w.
Proof.
  intros Hr ->. destruct Hok as [Hp _]. unfold setup, MAP_FAILED. change BUFFER_COUNT with (Z.of_nat 4).
  repeat (pstep Hp); cbn [DmabufTest.fd out_bufs cap_bufs stride sizeimage]; try new_queue; try done.
  1-5: eexists; (split; [exact Hr|]); (split; [solve_names|done]).
  pose proof (Hgfmt (bpl, si) ltac:(lia) ltac:(cbn; set_solver)) as [= -> ->].
  destruct (Hfit Hsup) as [Hbpl Hsz].
  prequest Hp 4%nat.
  { pstep Hp. eexists. split; [exact Hr|]. split; [solve_names|done]. }
  pstep Hp. prequest Hp 4%nat.
  { pstep Hp. eexists. split; [exact Hr|]. split; [solve_names|done]. }
  repeat (pstep Hp); cbn [DmabufTest.fd out_bufs cap_bufs stride sizeimage].
  { eexists. split; [exact Hr|]. split; [solve_names|done]. }
  eexists. split; [exact Hr|]. split; try done. split; [solve_names|done].
Qed.

Lemma vtest_frame_ok i f w g :
  running w0 w g -> streaming f g ->
  wp (frame i f) (fun r w' =>
    if fst r : bool then exists g', running w0 w' g' /\ streaming (snd r) g'
    else accounted owns w0 (snd r) w') w.
Proof.
  intros Hr Hs. destruct Hok as [Hp _]. pose proof (sm_owns _ _ Hs) as Ho. unfold frame.
  repeat (pstep Hp); eexists; (split; [exact Hr|done]).
Qed.

(** The report: the frame is a gradient, and this is its checksum. *)
Definition report_ok (frames : Z) (before : list (list Z)) (row : list Z) : Prop :=
  exists stride l, gradient_frame WIDTH HEIGHT stride l /\
    row = [frames; default 0 (l !! 0%nat); stride; Z.of_nat (length l); crc_ref l].

Lemma vtest_check_ok frames f w g :
  running w0 w g -> streaming f g ->
  wp (check frames f) (fun r w' =>
    if fst r : bool
    then exists g', running w0 w' g' /\ owns (snd r) g' /\ logged (report_ok frames) 1 (prow w0) (g_rows g')
    else accounted owns w0 (snd r) w') w.
Proof.
  intros Hr [[[N1 N2 N3 N4] Hl] Hst Hsz Hlim Hm Hd Hrows]. destruct Hok as [Hp _].
  rewrite Hd in N1. rewrite Hm in N2. unfold WIDTH, HEIGHT, MAP_FAILED, in_u32 in *.
  unfold check. repeat (pstep Hp); [| | |done|unfold MAP_FAILED in *; lia|].
  1-3: eexists; (split; [exact Hr|]); (split; [cbn; rewrite ?Hd, ?Hm; solve_names|done]).
  cbn [DmabufTest.sizeimage DmabufTest.stride] in *.
  eapply (wp_sys_load w0); [exact Hr|apply list_elem_of_here|lia|]. clear Hr. intros pix w' Hr Hlen Hu. pstep Hp.
  destruct (lookup_lt_is_Some_2 pix 0%nat) as [o Ho0]; [lia|].
  destruct (verify_ok pix 640 480 (stride f) o) as (n & En & Hn & Hgrad); [lia|lia|lia|lia|done|].
  eapply wp_of; [unfold WIDTH, HEIGHT, flift; by rewrite En|]. pstep Hp.
  eapply (wp_crc32_list w0); [exact Hr|done|lia|]. clear Hr. intros u2 Hr.
  rewrite firstn_all2 by lia. pstep Hp. eapply wp_aget; [lia|exact Ho0|].
  repeat (pstep Hp); (eexists; split; [exact Hr|]).
  - split; [solve_names|done].
  - split; [split; [solve_names|done]|]. cbn. rewrite Hrows.
    apply (logged_snoc _ 0); [apply logged_nil|]. intros l _ _. exists (stride f), pix.
    split; [apply Hgrad; unfold ztrue in *; lia|]. rewrite Ho0. cbn. repeat f_equal. lia.
Qed.

Lemma vtest_cleanup_ok : gives_back owns w0 cleanup.
Proof.
  intros f w g Hr [[O1 O2 O3 O4] [L1 L2]]. destruct Hok as [Hp _]. unfold cleanup.
  change BUFFER_COUNT with (Z.of_nat 4). pstep Hp.
  set (fo := fds_of (take 4 (out_bufs f))) in *. set (fc := fds_of (take 4 (cap_bufs f))) in *.
  set (mo := maps_of (take 4 (out_bufs f))) in *. set (mc := maps_of (take 4 (cap_bufs f))) in *.
  relist Hr (Ghost (dbuf_fd f :: fo ++ fc ++ [fd f]) (map f :: mo ++ mc) 0 0 [] [] [] (g_clock g) (g_rows g)) true.
  eapply (wp_mono _ (fun _ w' => running w0 w' (Ghost (dbuf_fd f :: fo ++ fc ++ [fd f]) (mo ++ mc) 0 0 [] [] []
    (g_clock g) (g_rows g)))).
  { unfold MAP_FAILED. destruct (Z.eqb_spec (map f) (-1)) as [Em|]; cbn [negb].
    - destruct w as [c u rw cs]. rewrite Em in Hr.
      eapply running_weaken; [exact Hr|try done..]. cbn. own_in.
    - by eapply (wp_sys_munmap w0 Hp _ (mo ++ mc)). }
  clear Hr w. intros [] w Hr. pstep Hp.
  eapply (wp_sys_close_if w0 Hp _ (fo ++ fc ++ [fd f])); [exact Hr|done|]. clear Hr. intros u1 Hr. do 5 (pstep Hp).
  eapply (wp_sys_unmap w0 Hp 4 _ (fc ++ [fd f]) mc); [exact Hr|done|lia|done|done|]. clear Hr. intros u2 Hr. pstep Hp.
  eapply (wp_sys_unmap w0 Hp 4 _ [fd f] []); [exact Hr|done|lia|done|cbn; by rewrite app_nil_r|].
  clear Hr. intros u3 Hr. eapply (wp_sys_close_if w0 Hp _ []); [exact Hr|done|]. clear Hr. intros u4 Hr.
  all_back Hr.
Qed.

Definition at_frame (i : Z) (f : locals) (w : pworld) : Prop := exists g, running w0 w g /\ streaming f g.

Lemma vtest_body_ok frames fd w g :
  0 <= frames -> running w0 w g -> g = add_fd fd (nothing w0) ->
  wp (body frames (Locals fd (blanks 4) (blanks 4) 0 0 false false MAP_FAILED (-1))) (fun r w =>
    if fst r : bool
    then exists g, running w0 w g /\ owns (snd r) g /\ logged (report_ok frames) 1 (prow w0) (g_rows g)
    else accounted owns w0 (snd r) w) w.
Proof.
  intros Hf Hr Hg. pose proof Hok as [Hp _]. apply wp_andthen. eapply wp_mono; [by apply (vtest_setup_ok _ _ g)|].
  clear w g Hr Hg. intros [[] f] w; [|done]. cbn [fst snd]. intros Hl. apply wp_andthen.
  eapply wp_mono; [apply (wp_for_each at_frame (accounted owns w0)); [done|exact Hl|]|].
  { intros i f' w' _ (g' & Hr & Hl'). unfold enqueue. repeat (pstep Hp); eexists; (split; [exact Hr|]); [apply Hl'|done]. }
  clear f w Hl. intros [[] f] w; [|done]. cbn [fst snd]. intros (g & Hr & Hl).
  apply wp_andthen. unfold streamon.
  repeat (pstep Hp); try (eexists; split; [exact Hr|]; pose proof (sm_owns _ _ Hl) as [[] []]; by split).
  apply wp_andthen. eapply wp_mono; [apply (wp_for_each at_frame (accounted owns w0)); [done| |]|].
  - exists g. split; [done|]. destruct Hl as [[[] []] ? ? ? ? ? ?]. by split.
  - intros i f' w' Hi (g' & Hr' & Hl'). by apply (vtest_frame_ok i f' w' g').
  - clear Hr Hl. intros [[] f'] w'; [|done]. cbn [fst snd]. intros (g' & Hr' & Hl'). by eapply vtest_check_ok.
Qed.

Lemma vtest_main_ok args :
  wp (main args) (fun rc w' => balanced w0 w' /\
    ((exists frames, rc = 0 /\ uint_arg args 1 1 UINT_MAX 16 = Some frames /\
        logged (report_ok frames) 1 (prow w0) (prow w')) \/ rc = 1)) w0.
Proof.
  unfold main.
  destruct (uint_arg args 1 1 UINT_MAX 16) as [frames|] eqn:Ef; [|apply wp_ret; auto using balanced_refl].
  apply uint_arg_in in Ef as Hf; [|done]. pose proof (running_start w0 (st_crc _ Hok)) as Hr.
  pose proof Hok as [Hp _]. repeat (pstep Hp).
  - split; [|by right]. eapply running_end; [exact Hr| | |done|done]; cbn; [|intros; apply not_elem_of_nil].
    intros x Hx. rewrite list_elem_of_singleton. lia.
  - eapply wp_mono; [eapply (wp_program owns w0 _ _ _ (logged (report_ok frames) 1 (prow w0)));
      [apply vtest_cleanup_ok|eapply vtest_body_ok; [lia|exact Hr|done]]|].
    intros rc w' [Hb [[-> Hd]|Hd]]; (split; [done|]); [left; eauto|by right].
Qed.
End Proofs.
End DmabufTest.

(** ** What the kernel paints passes *)

(** The bytes of a frame the vcam backend has painted form a gradient. *)
Lemma vcam_paints_gradient m d w h st offset size bytes m' :
  fits m d w h st -> 0 < w -> 0 < h -> h * st <= size -> p_off d + size <= blen m (p_blk d) ->
  vcam_fill_gradient d w h st offset m = Some m' -> read_bytes m' d size = Some bytes ->
  gradient_frame w h st bytes.
Proof.
  intros Hfit Hw Hh Hsz Hb Hfill Hread.
  destruct (vcam_fill_gradient_ok m d w h st offset Hfit Hw Hh) as (m1 & Hm1 & Hp).
  assert (m1 = m') as -> by congruence. destruct Hfit as (Hws & _ & _ & Hoff & _).
  destruct (read_bytes_ok m' d size) as (l & Hl & _ & Hpx); [nia|lia|by rewrite (pt_blen _ _ _ _ _ Hp)|].
  assert (l = bytes) as -> by congruence.
  assert (Hat : forall x y, 0 <= x < w -> 0 <= y < h ->
    bytes !! Z.to_nat (y * st + x) = Some (gradient_px x y offset)).
  { intros x y Hx Hy. rewrite Hpx by nia. apply (pt_in _ _ _ _ _ Hp). unfold in_frame. cbn. lia. }
  exists (gradient_px 0 0 offset). split.
  - specialize (Hat 0 0 ltac:(lia) ltac:(lia)). by rewrite Z.mul_0_l in Hat.
  - intros x y Hx Hy. rewrite (Hat x y) by done. f_equal. rewrite !gradient_px_mod, ?Z.add_0_l.
    by rewrite Zplus_mod_idemp_r.
Qed.

(** ** The theorem *)

(** the DMABUF test, with any device whose driver supports 640x480 and any
    arguments, reads only mapped memory and gives back every descriptor (the
    exported one included), mapping and block on every path. When it reports
    success, the frame it looked at is a gradient over all its 640x480 pixels,
    and the report has its length and its CRC-32. *)
Theorem dmabuf_test_reports `{V4l2Laws} `{!BufferLaws} `{!FormatLaws} `{Posix} (w0 : pworld) args
    (Hok : start_ok w0) (Hsup : supported WIDTH HEIGHT = true) :
  wp (DmabufTest.main args) (fun rc w' => balanced w0 w' /\
    ((exists frames, rc = 0 /\ uint_arg args 1 1 UINT_MAX 16 = Some frames /\
        logged (DmabufTest.report_ok frames) 1 (prow w0) (prow w')) \/ rc = 1)) w0.
Proof. by apply DmabufTest.vtest_main_ok. Qed.

(** Devices whose buffers hold 640x480 pixels; request 20 is refused. *)
#[local] Instance large : V4l2 :=
  Sim.sim 307200 (fun _ => 32) (Nat.eqb 20) (fun _ => false) (fun _ => false) (fun _ i => i).
#[local] Instance large_laws : V4l2Laws := Sim.sim_laws _ _ _ _ _ _.
#[local] Instance large_bufs : BufferLaws := Sim.sim_bufs _ _ _ _ _ _.
Lemma large_size : in_u32 307200.
Proof. done. Qed.
#[local] Instance large_fmts : FormatLaws := sim_fmts _ _ _ _ _ _ large_size.

Lemma dmabuf_test_reports_witness :
  let w0 := first_world (V := large) Sim.sim0 ∅ in
  exists w', DmabufTest.main [lit "v"; lit "4"] w0 = Some (1, w') /\ prow w' = [] /\ balanced w0 w'.
Proof.
  intros w0. pose proof (dmabuf_test_reports w0 [lit "v"; lit "4"] (first_world_ok _ _) eq_refl) as H1.
  destruct (wp_outcome _ _ _ 1 [] H1) as (w' & E & Er & Hb & _); [vm_compute; reflexivity|].
  exists w'. exact (conj E (conj Er Hb)).
Defined.
