(* ===== verification/FixtureBench.v ===== *)
(** * The fixture benchmark

    [user/vpipe-bench-fixture.c]: a PGM image is copied into two dma-heap
    buffers, which go through the mem2mem device in turn; one row per frame,
    and the first frame can be written out. *)

From S2P Require Import Prelude Types M2m Crc32 Pgm Wp Client Process.

Module BenchFixture.

(** [struct fixture_dmabuf]. *)
Record fixture_dmabuf := FixtureBuf { f_fd : Z; f_addr : Z; f_length : Z }.

Section BenchFixture.
Context `{V4l2} `{Posix}.

Definition BUFFER_COUNT : Z := 2.

(** The locals that [cleanup] and the loops look at. *)
Record locals := Locals {
  fd : Z; src : vpipe_pgm_image; capture_bufs : list vpipe_mmap_buffer; output_bufs : list fixture_dmabuf;
  out_sizeimage : Z; capture_streaming : bool; output_streaming : bool; fp : bool
}.
Definition init (img : vpipe_pgm_image) : locals :=
  Locals (-1) img (blanks 2) (replicate 2 (FixtureBuf (-1) MAP_FAILED 0)) 0 false false false.

Definition with_fd (x : Z) (f : locals) : locals :=
  Locals x (src f) (capture_bufs f) (output_bufs f) (out_sizeimage f) (capture_streaming f)
    (output_streaming f) (fp f).
Definition with_capture (l : list vpipe_mmap_buffer) (f : locals) : locals :=
  Locals (fd f) (src f) l (output_bufs f) (out_sizeimage f) (capture_streaming f) (output_streaming f) (fp f).
Definition with_output (l : list fixture_dmabuf) (f : locals) : locals :=
  Locals (fd f) (src f) (capture_bufs f) l (out_sizeimage f) (capture_streaming f) (output_streaming f) (fp f).
Definition with_size (n : Z) (f : locals) : locals :=
  Locals (fd f) (src f) (capture_bufs f) (output_bufs f) n (capture_streaming f) (output_streaming f) (fp f).
Definition with_streaming (c o : bool) (f : locals) : locals :=
  Locals (fd f) (src f) (capture_bufs f) (output_bufs f) (out_sizeimage f) c o (fp f).
Definition with_fp (b : bool) (f : locals) : locals :=
  Locals (fd f) (src f) (capture_bufs f) (output_bufs f) (out_sizeimage f) (capture_streaming f)
    (output_streaming f) b.

Definition negotiate (video : list Z) : stage locals := fun f =>
  (x <- sys (open video);;
  let f := with_fd x f in
  if x <? 0 then quit f
  else
    (r <- sys (vpipe_set_format (fd f) OUTPUT (i_width (src f)) (i_height (src f)) V4L2_PIX_FMT_GREY);;
    if r <? 0 then quit f
    else
      (r <- sys (vpipe_set_format (fd f) CAPTURE (i_width (src f)) (i_height (src f)) V4L2_PIX_FMT_GREY);;
      if r <? 0 then quit f
      else
        (size <- sys (vpipe_get_sizeimage (fd f) OUTPUT);;
        let f := with_size size f in
        if size =? 0 then quit f else if size <? i_size (src f) then quit f else go f)))).

Definition request : stage locals := fun f =>
  (a <- sys (vpipe_xioctl (fd f) (REQBUFS OUTPUT BUFFER_COUNT V4L2_MEMORY_DMABUF));;
  if a_ret a <? 0 then quit f
  else
    (c <- sys (vpipe_request_mmap_buffers (fd f) CAPTURE BUFFER_COUNT (capture_bufs f));;
    let f := with_capture (snd c) f in
    if fst c <? 0 then quit f else go f)).

(** [memcpy(dst, src.pixels, src.size)]. *)
Definition copy_pixels (dst : Z) (img : vpipe_pgm_image) : F pworld unit :=
  match pixels img with
  | Some px => if Z.of_nat (length px) <? i_size img then ffail
               else sys (store_bytes dst (take (Z.to_nat (i_size img)) px))
  | None => ffail
  end.

(** The body of the loop that fills the OUTPUT buffers. *)
Definition populate (heap_path : list Z) (i : Z) : stage locals := fun f =>
  (b <- aget (output_bufs f) i;;
  x <- sys (dma_heap_alloc_fd heap_path (out_sizeimage f));;
  l <- aset (output_bufs f) i (FixtureBuf x (f_addr b) (f_length b));;
  let f := with_output l f in
  if x <? 0 then quit f
  else
    (m <- sys (mmap (out_sizeimage f) x 0);;
    l <- aset (output_bufs f) i (FixtureBuf x m (out_sizeimage f));;
    let f := with_output l f in
    if m =? MAP_FAILED then quit f else (copy_pixels m (src f);; go f))).

Definition configure (csv : list Z) (algo_id threshold : Z) : stage locals := fun f =>
  (r <- sys (set_ctrl (fd f) VPIPE_CID_ALGO algo_id);;
  if r <? 0 then quit f
  else
    (r <- sys (set_ctrl (fd f) VPIPE_CID_THRESHOLD threshold);;
    if r <? 0 then quit f
    else
      (b <- lib (vpipe_open_csv csv (Some (lit
         "frame,output_index,enqueue_monotonic_ns,dequeue_monotonic_ns,vpipe_sequence,bytesused,algo")));;
      let f := with_fp b f in
      if negb b then quit f else go f))).

(** The body of the loop that queues the CAPTURE buffers. *)
Definition enqueue (i : Z) : stage locals := fun f =>
  (r <- sys (vpipe_queue_mmap_buffer (fd f) CAPTURE V4L2_MEMORY_MMAP i (-1));;
  if r <? 0 then quit f else go f).

Definition streamon : stage locals := fun f =>
  (a <- sys (vpipe_xioctl (fd f) (STREAMON CAPTURE));;
  if a_ret a <? 0 then quit f
  else
    (let f := with_streaming true (output_streaming f) f in
    a <- sys (vpipe_xioctl (fd f) (STREAMON OUTPUT));;
    if a_ret a <? 0 then quit f else go (with_streaming true true f))).

(** [vpipe_write_pgm(out_path, addr, width, height)] of a mapping: reading past
    its end faults. *)
Definition write_frame (out_path : list Z) (a width height : Z) : F pworld Z :=
  (data <- sys (load_bytes a (width * height));; lib (vpipe_write_pgm out_path (Some data) width height)).

(** The body of the frame loop; the row's last field stands for the name of
    the algorithm. *)
Definition frame (out_path : option (list Z)) (algo_id : Z) (i : Z) : stage locals := fun f =>
  (let index := i mod BUFFER_COUNT in
  o <- aget (output_bufs f) index;;
  enqueue_ns <- sys vpipe_now_monotonic_ns;;
  r <- sys (queue_dmabuf (fd f) index (f_fd o) (i_size (src f)) (f_length o));;
  if r <? 0 then quit f
  else
    (cap_dq <- sys (dqbuf (fd f) CAPTURE V4L2_MEMORY_MMAP);;
    if a_ret cap_dq <? 0 then quit f
    else
      (dequeue_ns <- sys vpipe_now_monotonic_ns;;
      if BUFFER_COUNT <=? a_index cap_dq then quit f
      else
        (out_dq <- sys (dqbuf (fd f) OUTPUT V4L2_MEMORY_DMABUF);;
        if a_ret out_dq <? 0 then quit f
        else
          (r <- match out_path with
               | Some p =>
                   if i =? 0
                   then (b <- aget (capture_bufs f) (a_index cap_dq);;
                        write_frame p (addr b) (i_width (src f)) (i_height (src f)))
                   else fret 0
               | None => fret 0
               end;;
          if r <? 0 then quit f
          else
            (emit [i; index; enqueue_ns; dequeue_ns; a_sequence cap_dq; a_bytesused cap_dq; algo_id];;
            r <- sys (requeue (fd f) CAPTURE V4L2_MEMORY_MMAP cap_dq);;
            if r <? 0 then quit f else go f)))))).

(** The loop of [cleanup] over the OUTPUT buffers. *)
Fixpoint release_outputs (l : list fixture_dmabuf) : F pworld unit :=
  match l with
  | [] => fret tt
  | b :: l' =>
      (sys (if negb (f_addr b =? MAP_FAILED) && ztrue (f_length b) then munmap (f_addr b) else fret tt);;
      sys (close_if (f_fd b));;
      release_outputs l')
  end.

Definition cleanup (f : locals) : F pworld unit :=
  (sys (streamoff_if ((0 <=? fd f) && output_streaming f) (fd f) OUTPUT);;
  sys (streamoff_if ((0 <=? fd f) && capture_streaming f) (fd f) CAPTURE);;
  lib (fclose_if (fp f));;
  release_outputs (output_bufs f);;
  sys (vpipe_unmap_buffers (capture_bufs f) BUFFER_COUNT);;
  lib (vpipe_free_pgm (src f));;
  sys (close_if (fd f))).

(** The stages of [main] after the fixture is read. *)
Definition body (video heap_path csv : list Z) (out_path : option (list Z)) (algo_id frames threshold : Z)
    : stage locals :=
  andthen (negotiate video)
    (andthen request
       (andthen (for_each BUFFER_COUNT (populate heap_path))
          (andthen (configure csv algo_id threshold)
             (andthen (for_each BUFFER_COUNT enqueue)
                (andthen streamon (for_each frames (frame out_path algo_id))))))).

(** The exit status. *)
Definition main (args : list (list Z)) : F pworld Z :=
  let video := default (lit "/dev/video0") (args !! 0%nat) in
  let heap_path := default (lit "/dev/dma_heap/system") (args !! 1%nat) in
  let fixture := default (lit "tests/fixtures/ramp.pgm") (args !! 2%nat) in
  let csv := default (lit "bench/fixture.csv") (args !! 3%nat) in
  let algo_name := default (lit "none") (args !! 5%nat) in
  let out_path := args !! 7%nat in
  match uint_arg args 4 1 UINT_MAX 600 with
  | None => fret 1
  | Some frames =>
      match uint_arg args 6 0 255 127 with
      | None => fret 1
      | Some threshold =>
          match parse_algo algo_name with
          | None => fret 1
          | Some algo_id =>
              (p <- lib (vpipe_read_pgm fixture);;
              if fst p <? 0 then fret 1
              else
                run_program (body video heap_path csv out_path algo_id frames threshold) cleanup
                  (init (snd p)))
          end
      end
  end.
End BenchFixture.

Section Proofs.
Context `{V4l2Laws} `{!BufferLaws} `{!FormatLaws} `{Posix}.
Context (w0 : pworld) (Hok : start_ok w0).
Let c0 := cclock (pc w0).

Definition block_of (img : vpipe_pgm_image) : Z := match pixels img with Some _ => 1 | None => 0 end.

#[local] Arguments block_of : simpl never.

(** A mapped buffer has a length, so that [cleanup] unmaps it. *)
Definition releasable (b : fixture_dmabuf) : Prop := f_addr b = MAP_FAILED \/ f_length b <> 0.

Record owns (f : locals) (g : ghost) : Prop := {
  ow_names : names (fd f :: (f_fd <$> output_bufs f) ++ fds_of (take 2 (capture_bufs f)))
    ((f_addr <$> output_bufs f) ++ maps_of (take 2 (capture_bufs f)))
    (if fp f then 1 else 0) (block_of (src f)) g;
  ow_cap : length (capture_bufs f) = 2%nat;
  ow_out : length (output_bufs f) = 2%nat;
  ow_rel : Forall releasable (output_bufs f)
}.

Lemma release_outputs_ok l fds maps Q w g :
  running w0 w g -> g_known g = [] -> Forall releasable l ->
  (forall x, 0 <= x -> (x ∈ (f_fd <$> l) ++ fds <-> x ∈ g_fds g)) ->
  (forall a, 0 < a -> (a ∈ (f_addr <$> l) ++ maps <-> a ∈ g_maps g)) ->
  (forall w', running w0 w' (set_held fds maps g) -> Q tt w') -> wp (release_outputs l) Q w.
Proof.
  pose proof Hok as [Hp _]. intros Hr Hk Hl. revert w g Hr Hk.
  induction Hl as [|b l Hb Hl IH]; intros w g Hr Hk Hf Hm HQ; cbn [release_outputs].
  { apply wp_ret, HQ. by eapply running_weaken. }
  apply wp_bind.
  assert (Hun : forall u, running w0 u (set_held (g_fds g) ((f_addr <$> l) ++ maps) g) ->
    wp (sys (close_if (f_fd b));; release_outputs l) Q u).
  { intros u Hr'. apply wp_bind. eapply (wp_sys_close_if w0 Hp _ ((f_fd <$> l) ++ fds)); [exact Hr'|done|].
    clear Hr Hr'. intros u' Hr. by eapply IH; [exact Hr|..]. }
  destruct (Z.eqb_spec (f_addr b) MAP_FAILED) as [Ea|Ea]; cbn [negb andb].
  - destruct w as [c u rw cs]. apply Hun. eapply running_weaken; [exact Hr|try done..]. cbn. intros a Ha.
    rewrite <- Hm by done. rewrite !fmap_cons. cbn. rewrite elem_of_cons, Ea. unfold MAP_FAILED. intuition lia.
  - destruct Hb as [Hb|Hb]; [done|]. unfold ztrue. destruct (Z.eqb_spec (f_length b) 0); [done|]. cbn [negb].
    eapply (wp_sys_munmap w0 Hp _ ((f_addr <$> l) ++ maps)); [exact Hr|done|done|]. done.
Qed.

Lemma bfix_cleanup_ok : gives_back owns w0 cleanup.
Proof.
  intros f w g Hr [[O1 O2 O3 O4] L1 L2 HL]. destruct Hok as [Hp _]. unfold cleanup.
  change BUFFER_COUNT with (Z.of_nat 2). do 7 (pstep Hp).
  set (fc := fds_of (take 2 (capture_bufs f))) in *. set (mc := maps_of (take 2 (capture_bufs f))) in *.
  set (fo := f_fd <$> output_bufs f) in *. set (mo := f_addr <$> output_bufs f) in *.
  relist Hr (Ghost (fo ++ fc ++ [fd f]) (mo ++ mc) 0 (block_of (src f)) [] [] [] (g_clock g) (g_rows g)) (fp f).
  eapply (release_outputs_ok _ (fc ++ [fd f]) mc); [exact Hr|done|done|done|done|]. clear Hr. intros u1 Hr. pstep Hp.
  eapply (wp_sys_unmap w0 Hp 2 _ [fd f] []); [exact Hr|done|lia|done|cbn; by rewrite app_nil_r|].
  clear Hr. intros u2 Hr. pstep Hp. pcall Hp. unfold block_of in Hr.
  eapply (wp_sys_close_if w0 Hp _ []); [exact Hr|done|]. clear Hr. intros u3 Hr.
  split; [|by rewrite (r_rows _ _ _ Hr)].
  eapply running_end; [exact Hr| | |done|cbn; by destruct (pixels (src f))]; intros ? _; apply not_elem_of_nil.
Qed.

Section Run.
Context (img : vpipe_pgm_image) (px : list Z) (Himg : image_ok img px).

(** Both queues have the fixture's format, and an image of it fits. *)
Record opened (f : locals) (g : ghost) : Prop := {
  op_init : exists x n, f = with_size n (with_fd x (init img)) /\ n <> 0 /\ i_size img <= n /\
    exists b, (x, CAPTURE, (b, n)) ∈ g_fmts g;
  op_owns : owns f g;
  op_known : g_known g = [];
  op_queues : g_queues g = [];
  op_clock : g_clock g = c0;
  op_rows : g_rows g = prow w0
}.

Ltac bfix_names := split; cbn; unfold MAP_FAILED; try done; try lia; try own_in.
Ltac give_up_here := eexists; (split; [eassumption|]); split; [bfix_names|done|done|by repeat constructor].

Lemma bfix_negotiate_ok video w :
  running w0 w (add_lib 0 1 (nothing w0)) ->
  wp (negotiate video (init img)) (fun r w' =>
    if fst r : bool then exists g, running w0 w' g /\ opened (snd r) g
    else accounted owns w0 (snd r) w') w.
Proof.
  intros Hr. pose proof (im_px _ _ Himg) as Hpx. destruct Hok as [Hp _]. unfold negotiate.
  assert (Hb : block_of img = 1) by (unfold block_of; by rewrite Hpx).
  repeat lazymatch goal with |- wp (sys (vpipe_get_sizeimage _ _)) _ _ => fail | |- _ => pstep Hp end;
    cbn [fd with_fd src init] in *; try new_queue; try done; try (by give_up_here).
  assert (bpl0 = bpl /\ si0 = si) as [-> ->] by (split; congruence).
  eapply (wp_sys_sizeimage w0); [exact Hr|apply list_elem_of_further, list_elem_of_here| |]; clear Hr; intros u Hr.
  { repeat (pstep Hp); [|done|done]. give_up_here. }
  repeat (pstep Hp); try (by give_up_here).
  eexists. split; [exact Hr|]. split; try done; [|split; [bfix_names|done|done|by repeat constructor]].
  eexists fd0, _. split; [done|]. split; [cbn in *; lia|]. split; [cbn in *; lia|].
  exists bpl. apply list_elem_of_here.
Qed.

(** From the requested buffers on. *)
Record ready (f : locals) (g : ghost) : Prop := {
  rd_owns : owns f g;
  rd_src : src f = img;
  rd_fp : fp f = false;
  rd_size : out_sizeimage f <> 0 /\ i_size img <= out_sizeimage f;
  rd_cap : exists lens, (fd f, CAPTURE, lens) ∈ g_queues g /\ shows (capture_bufs f) lens (g_known g) /\
    Forall (fun len => i_size img <= len) lens;
  rd_clock : g_clock g = c0;
  rd_rows : g_rows g = prow w0
}.

(** From buffer [i] on the OUTPUT buffers are unused. *)
Definition unused (i : Z) (f : locals) : Prop :=
  forall j b, i <= Z.of_nat j -> output_bufs f !! j = Some b -> f_fd b < 0 /\ f_addr b = MAP_FAILED.

Lemma bfix_request_ok f w g :
  running w0 w g -> opened f g ->
  wp (request f) (fun r w' =>
    if fst r : bool then exists g', running w0 w' g' /\ ready (snd r) g' /\ unused 0 (snd r)
    else accounted owns w0 (snd r) w') w.
Proof.
  intros Hr [(x & n & -> & Hn & Hsz & b & Hb) [[N1 N2 N3 N4] Hl1 Hl2 HL] Hk Hq Hc Hrows]. destruct Hok as [Hp _].
  cbn in N1, N2, N3, N4. unfold MAP_FAILED in *. unfold request. change BUFFER_COUNT with (Z.of_nat 2).
  repeat (pstep Hp); cbn [fd capture_bufs with_size with_fd init] in *; [new_queue|by give_up_here|].
  prequest Hp 2%nat.
  { pstep Hp. give_up_here. }
  repeat (pstep Hp). eexists. split; [exact Hr|]. split.
  - split; cbn; [split; [bfix_names|done|done|by repeat constructor]|done|done|done| |done|done].
    exists lens. split; [apply list_elem_of_here|]. split; [|eapply Forall_impl; [|by apply (Hfmt (b, n))]; cbn; lia].
    eapply shows_mono; [exact Hshows|]. set_solver.
  - intros j e _ He. by apply lookup_replicate in He as [-> _].
Qed.

(** An OUTPUT buffer that was unused gets a descriptor and a mapping. *)
Lemma bfix_output f i b x a len g :
  owns f g -> output_bufs f !! i = Some b -> f_fd b < 0 -> f_addr b = MAP_FAILED ->
  (a = MAP_FAILED /\ owns (with_output (<[i := FixtureBuf x a len]> (output_bufs f)) f) (add_fd x g)) \/
  (a <> MAP_FAILED /\ (len <> 0 ->
     owns (with_output (<[i := FixtureBuf x a len]> (output_bufs f)) f) (add_map a len (add_fd x g)))).
Proof.
  intros [[N1 N2 N3 N4] L1 L2 HL] Hb Hf Ha.
  assert (Hfds : forall y, 0 <= y -> (y ∈ f_fd <$> <[i := FixtureBuf x a len]> (output_bufs f) <->
    y = x \/ y ∈ f_fd <$> output_bufs f)).
  { intros y Hy. rewrite (elem_fmap_insert _ _ _ b _ y Hb) by lia. done. }
  assert (Hmaps : forall y, 0 < y -> (y ∈ f_addr <$> <[i := FixtureBuf x a len]> (output_bufs f) <->
    y = a \/ y ∈ f_addr <$> output_bufs f)).
  { intros y Hy. rewrite (elem_fmap_insert _ _ _ b _ y Hb) by (rewrite Ha; unfold MAP_FAILED; lia). done. }
  destruct (Z.eq_dec a MAP_FAILED) as [->|Hne]; [left|right]; (split; [done|]); [|intros Hlen].
  all: split; cbn; [split; cbn; try done| |rewrite length_insert; done|]; try done.
  all: try (apply Forall_insert; [done|unfold releasable; cbn; auto]).
  all: intros y Hy; specialize (N1 y ltac:(lia)); specialize (N2 y); rewrite ?elem_of_cons, ?elem_of_app in *;
    rewrite ?Hfds, ?Hmaps by done; unfold MAP_FAILED in *; intuition (try lia).
Qed.

Lemma bfix_populate_ok heap i f w g :
  running w0 w g -> ready f g -> unused i f -> 0 <= i < 2 ->
  wp (populate heap i f) (fun r w' =>
    if fst r : bool then exists g', running w0 w' g' /\ ready (snd r) g' /\ unused (i + 1) (snd r)
    else accounted owns w0 (snd r) w') w.
Proof.
  intros Hr [Ho Hsrc Hfp [Hn0 Hn] (lens & Hq & Hs & Hfit) Hc Hrows] Hu Hi. destruct Hok as [Hp _]. pose proof (ow_out _ _ Ho) as Hl.
  destruct (lookup_lt_is_Some_2 (output_bufs f) (Z.to_nat i)) as [b Hb]; [lia|].
  destruct (Hu (Z.to_nat i) b ltac:(lia) Hb) as [Hfd Ha].
  unfold populate. apply wp_bind. eapply wp_aget; [lia|exact Hb|]. pstep Hp. pstep Hp. apply wp_bind, wp_aset; [lia|].
  rewrite Ha. destruct (bfix_output f _ b x MAP_FAILED (f_length b) g Ho Hb Hfd Ha) as [[_ Ho1]|[? _]]; [|done].
  pstep Hp; [pstep Hp; by eexists|]. pstep Hp.
  assert (Hset : forall m u Q, Q (<[Z.to_nat i := FixtureBuf x m (out_sizeimage f)]> (output_bufs f)) u ->
    wp (aset (<[Z.to_nat i := FixtureBuf x MAP_FAILED (f_length b)]> (output_bufs f)) i
          (FixtureBuf x m (out_sizeimage f))) Q u).
  { intros m u Q HQ. apply wp_aset; [rewrite length_insert; lia|]. by rewrite list_insert_insert_eq. }
  pcall Hp; apply wp_bind; cbn [out_sizeimage with_output output_bufs]; apply Hset.
  - destruct (bfix_output f _ b x MAP_FAILED (out_sizeimage f) g Ho Hb Hfd Ha) as [[_ Ho2]|[? _]]; [|done].
    rewrite Z.eqb_refl. pstep Hp. by eexists.
  - destruct (bfix_output f _ b x m (out_sizeimage f) g Ho Hb Hfd Ha) as [[-> _]|[Hne Ho2]]; [by unfold MAP_FAILED in Hm|].
    destruct (Z.eqb_spec m MAP_FAILED); [done|]. cbn [src with_output]. rewrite Hsrc. apply wp_bind.
    destruct Himg as [Hpx Hsz Hlen _ _]. unfold copy_pixels. rewrite Hpx, Hlen, Z.ltb_irrefl.
    eapply (wp_sys_store w0); [exact Hr|apply list_elem_of_here|rewrite length_take; cbn; lia|]. clear Hr. intros u Hr.
    pstep Hp. eexists. split; [exact Hr|]. split.
    + split; cbn; [by apply Ho2|done|done|done| |done|done]. exists lens. split; [done|]. split; [|done].
      eapply shows_mono; [exact Hs|]. set_solver.
    + intros k e Hk. cbn. rewrite list_lookup_insert_ne by lia. apply Hu. lia.
Qed.

(** Row [k]: the buffers take turns, and the clock was read around the frame. *)
Definition row_ok (algo_id : Z) (before : list (list Z)) (row : list Z) : Prop :=
  let k := length before in
  exists seq used, row = [Z.of_nat k; Z.of_nat (k mod 2); reading (c0 + 2 * k); reading (c0 + 2 * k + 1);
                          seq; used; algo_id].

Record looping (algo_id i : Z) (f : locals) (g : ghost) : Prop := {
  lp_owns : owns f g;
  lp_src : src f = img;
  lp_cap : exists lens, (fd f, CAPTURE, lens) ∈ g_queues g /\ shows (capture_bufs f) lens (g_known g) /\
    Forall (fun len => i_size img <= len) lens;
  lp_clock : g_clock g = (c0 + 2 * Z.to_nat i)%nat;
  lp_log : logged (row_ok algo_id) i (prow w0) (g_rows g)
}.

Lemma bfix_configure_ok csv algo_id threshold f w g :
  running w0 w g -> ready f g ->
  wp (configure csv algo_id threshold f) (fun r w' =>
    if fst r : bool then exists g', running w0 w' g' /\ looping algo_id 0 (snd r) g'
    else accounted owns w0 (snd r) w') w.
Proof.
  intros Hr [[[N1 N2 N3 N4] L1 L2 HL] Hsrc Hfp _ Hcap Hc Hrows]. destruct Hok as [Hp _]. rewrite Hfp in N3.
  unfold configure. repeat (pstep Hp).
  1-3: eexists; (split; [exact Hr|]); split; try done; split; cbn; rewrite ?Hfp; done || lia.
  eexists. split; [exact Hr|]. split; cbn; [|done|done|lia|rewrite Hrows; apply logged_nil].
  split; try done. split; cbn; done || lia.
Qed.

Lemma bfix_frame_ok out_path algo_id i f w g :
  running w0 w g -> looping algo_id i f g -> 0 <= i ->
  wp (frame out_path algo_id i f) (fun r w' =>
    if fst r : bool then exists g', running w0 w' g' /\ looping algo_id (i + 1) (snd r) g'
    else accounted owns w0 (snd r) w') w.
Proof.
  intros Hr [Ho Hsrc (lens & Hv & Hs & Hfit) Hc Hlog] Hi. pose proof Ho as [[N1 N2 N3 N4] L1 L2 HL].
  destruct Hok as [Hp _]. unfold frame. change BUFFER_COUNT with 2.
  pose proof (Z.mod_pos_bound i 2 ltac:(lia)) as Hmod.
  destruct (lookup_lt_is_Some_2 (output_bufs f) (Z.to_nat (i mod 2))) as [o Hob]; [lia|].
  apply wp_bind. eapply wp_aget; [lia|exact Hob|].
  assert (Hq : forall u g', running w0 u g' -> names (fd f :: (f_fd <$> output_bufs f) ++ fds_of (take 2 (capture_bufs f)))
    ((f_addr <$> output_bufs f) ++ maps_of (take 2 (capture_bufs f)))
    (if fp f then 1 else 0) (block_of (src f)) g' -> accounted owns w0 f u)
    by (intros u g' Hr' Hn; exists g'; by split).
  do 14 (pstep Hp; try (by eapply Hq; [exact Hr|])).
  apply wp_bind.
  eapply (wp_mono _ (fun _ w' => running w0 w' (add_lib 0 0 (tick (tick g))))).
  { destruct out_path as [p|]; [destruct (i =? 0)|]; [|apply wp_ret..];
      [|(eapply running_weaken; [exact Hr|cbn; done || lia..])..].
    destruct (Ha lens ltac:(lia) Hv) as (Hi0 & len & Hlen & Hb). destruct (Hs _ _ Hlen) as (b & Hb' & _ & Hk).
    apply wp_bind. eapply wp_aget; [lia|exact Hb'|]. unfold write_frame. rewrite Hsrc. apply wp_bind.
    destruct Himg as [_ Hsz _ Hw Hh]. rewrite <- Hsz. unfold VPIPE_PGM_MAX_DIM in *.
    pose proof (Forall_lookup_1 _ _ _ _ Hfit Hlen) as Hle. cbn in Hle.
    eapply (wp_sys_load w0); [exact Hr|exact Hk|nia|]. clear Hr. intros l w' Hr El Hu.
    eapply (wp_lib_write_pgm w0); [exact Hr|unfold VPIPE_PGM_MAX_DIM; lia..| |done]. nia. }
  clear Hr. intros r w' Hr. repeat (pstep Hp; try (by eapply Hq; [exact Hr|split; cbn; done || lia])).
  eexists. split; [exact Hr|]. split; cbn; [split; try done; split; cbn; done || lia|done|by exists lens|lia|].
  apply logged_snoc; [done|]. intros l' _ Hn. eexists _, _. cbn [g_clock tick]. rewrite Hc.
  rewrite Nat2Z.inj_mod, Hn. repeat f_equal; lia.
Qed.

Definition at_frame (algo_id i : Z) (f : locals) (w : pworld) : Prop :=
  exists g, running w0 w g /\ looping algo_id i f g.

Lemma bfix_stream_ok out_path algo_id frames f w :
  0 <= frames -> at_frame algo_id 0 f w ->
  wp (andthen (for_each BUFFER_COUNT enqueue) (andthen streamon (for_each frames (frame out_path algo_id))) f)
    (fun r w' => if fst r : bool then at_frame algo_id frames (snd r) w' else accounted owns w0 (snd r) w') w.
Proof.
  intros Hn Hl. pose proof Hok as [Hp _]. apply wp_andthen.
  eapply wp_mono; [apply (wp_for_each (fun _ => at_frame algo_id 0) (accounted owns w0)); [done|exact Hl|]|].
  { intros i f' w' _ (g' & Hr & Hl'). unfold enqueue.
    repeat (pstep Hp); eexists; (split; [exact Hr|]); [apply Hl'|done]. }
  clear f w Hl. intros [[] f] w; [|done]. cbn [fst snd]. intros (g & Hr & [Ho Hsrc Hcap Hc Hlog]). pose proof Ho as [N1 L1 L2 HL].
  apply wp_andthen. unfold streamon. repeat (pstep Hp); cbn [fst snd].
  1-2: eexists; (split; [exact Hr|by split]).
  apply (wp_for_each (at_frame algo_id) (accounted owns w0)); [done| |].
  - eexists. split; [exact Hr|]. by split; [split|..].
  - intros i f' w' Hi (g' & Hr' & Hl'). apply (bfix_frame_ok _ _ i f' w' g'); [done|done|lia].
Qed.

Lemma bfix_body_ok video heap csv out_path algo_id frames threshold w :
  0 <= frames -> running w0 w (add_lib 0 1 (nothing w0)) ->
  wp (body video heap csv out_path algo_id frames threshold (init img)) (fun r w' =>
    if fst r : bool
    then exists g, running w0 w' g /\ owns (snd r) g /\ logged (row_ok algo_id) frames (prow w0) (g_rows g)
    else accounted owns w0 (snd r) w') w.
Proof.
  intros Hf Hr. apply wp_andthen. eapply wp_mono; [by apply bfix_negotiate_ok|].
  clear w Hr. intros [[] f] w; [|done]. cbn [fst snd]. intros (g & Hr & Ho). apply wp_andthen.
  eapply wp_mono; [by apply (bfix_request_ok f w g)|]. clear f w g Hr Ho.
  intros [[] f] w; [|done]. cbn [fst snd]. intros Hl. apply wp_andthen.
  eapply wp_mono; [apply (wp_for_each (fun i f w => exists g, running w0 w g /\ ready f g /\ unused i f) (accounted owns w0));
    [done|exact Hl|]|].
  { intros i f' w' Hi (g & Hr & Hrd & Hu). by apply (bfix_populate_ok heap i f' w' g). }
  clear f w Hl. intros [[] f] w; [|done]. cbn [fst snd]. intros (g & Hr & Hrd & _). apply wp_andthen.
  eapply wp_mono; [by apply (bfix_configure_ok csv algo_id threshold f w g)|]. clear f w g Hr Hrd.
  intros [[] f] w; [|done]. cbn [fst snd]. intros Hl. eapply wp_mono; [by apply bfix_stream_ok|].
  clear f w Hl. intros [[] f] w; [|done]. cbn [fst snd]. intros (g & Hr & [Ho _ _ _ Hlog]). by exists g.
Qed.
End Run.

Lemma bfix_main_ok args :
  wp (main args) (fun rc w' => balanced w0 w' /\
    ((exists algo_id frames, rc = 0 /\ uint_arg args 4 1 UINT_MAX 600 = Some frames /\
        parse_algo (default (lit "none") (args !! 5%nat)) = Some algo_id /\
        logged (row_ok algo_id) frames (prow w0) (prow w')) \/ rc = 1)) w0.
Proof.
  unfold main.
  destruct (uint_arg args 4 1 UINT_MAX 600) as [frames|] eqn:Ef; [|apply wp_ret; auto using balanced_refl].
  destruct (uint_arg args 6 0 255 127) as [threshold|]; [|apply wp_ret; auto using balanced_refl].
  destruct (parse_algo _) as [algo_id|] eqn:Ea; [|apply wp_ret; auto using balanced_refl].
  apply uint_arg_in in Ef as Hf; [|done]. pose proof (running_start w0 (st_crc _ Hok)) as Hr.
  apply wp_bind. eapply (wp_lib_read_pgm w0); [exact Hr|..]; clear Hr.
  - intros img w Hr _. cbn. split; [|by right].
    eapply running_end; [exact Hr| | |done|done]; intros ? _; apply not_elem_of_nil.
  - intros img px w Hr Himg. cbn [fst snd Z.ltb Z.compare].
    eapply wp_mono; [eapply (wp_program owns w0 _ _ _ (logged (row_ok algo_id) frames (prow w0)));
      [apply bfix_cleanup_ok|eapply bfix_body_ok; [done|lia|done]]|].
    intros rc w' [Hb [[-> Hd]|Hd]]; (split; [done|]); [left; by exists algo_id, frames|by right].
Qed.
End Proofs.
End BenchFixture.

(** ** The theorem *)

(** C22: the fixture benchmark, with any fixture file, any device that derives
    the format of both queues from the size asked for, and any arguments,
    writes the fixture only into mapped buffers that hold it, reads only mapped
    memory when it writes a frame out, and gives back every descriptor,
    mapping, stream and heap block on every path. When it succeeds it has
    written exactly the rows asked for: row [k] went through OUTPUT buffer
    [k mod 2] and has the clock just before it was queued and just after it
    was dequeued. *)
Theorem fixture_benchmark `{V4l2Laws} `{!BufferLaws} `{!FormatLaws} `{Posix} (w0 : pworld) args
    (Hok : start_ok w0) :
  wp (BenchFixture.main args) (fun rc w' => balanced w0 w' /\
    ((exists algo_id frames, rc = 0 /\ uint_arg args 4 1 UINT_MAX 600 = Some frames /\
        parse_algo (default (lit "none") (args !! 5%nat)) = Some algo_id /\
        logged (BenchFixture.row_ok w0 algo_id) frames (prow w0) (prow w')) \/ rc = 1)) w0.
Proof. by apply BenchFixture.bfix_main_ok. Qed.

Import TinySim.

(** A 4x2 image, three frames, the first written out. *)
Definition tiny_fixture : gmap (list Z) (list Z) :=
  {[lit "f" := pgm_header 4 2 ++ [1; 2; 3; 4; 5; 6; 7; 8]]}.

Lemma fixture_benchmark_witness :
  let args := [lit "v"; lit "h"; lit "f"; lit "c"; lit "3"; lit "none"; lit "127"; lit "o"] in
  exists w', BenchFixture.main args (tiny_world tiny_fixture) = Some (0, w') /\
    prow w' = [[0; 0; 0; 1000000000; 16; 16; 0]; [1; 1; 2000000000; 3000000000; 20; 16; 0];
               [2; 0; 4000000000; 5000000000; 24; 16; 0]] /\
    balanced (tiny_world tiny_fixture) w'.
Proof.
  intros args. pose proof (fixture_benchmark (tiny_world tiny_fixture) args (first_world_ok _ _)) as H1.
  destruct (wp_outcome _ _ _ 0 [[0; 0; 0; 1000000000; 16; 16; 0]; [1; 1; 2000000000; 3000000000; 20; 16; 0];
    [2; 0; 4000000000; 5000000000; 24; 16; 0]] H1) as (w' & E & Er & Hb & _); [vm_compute; reflexivity|].
  exists w'. exact (conj E (conj Er Hb)).
Defined.
