(* ===== verification/Feed.v ===== *)
(** * The fixture feeder

    [user/vpipe-fixture-feed.c]: one PGM image goes through the mem2mem device
    with the threshold operation, and the result is written as a PGM image. An
    error ends the process without a cleanup. *)

From S2P Require Import Prelude Types M2m Crc32 Pgm Wp Client Process FixtureBench.

Module FixtureFeed.
Section FixtureFeed.
Context `{V4l2} `{Posix}.

Definition BUFFER_COUNT : Z := 2.

Record locals := Locals {
  fd : Z; src : vpipe_pgm_image; capture_bufs : list vpipe_mmap_buffer;
  out_sizeimage : Z; dmabuf_fd : Z; dmabuf_map : Z
}.

(** [capture_bufs] starts as zeros. *)
Definition init (img : vpipe_pgm_image) : locals :=
  Locals (-1) img (replicate 2 (MmapBuf 0 0 0)) 0 (-1) MAP_FAILED.

Definition negotiate (video : list Z) : stage locals := fun f =>
  (x <- sys (open video);;
  let f := Locals x (src f) (capture_bufs f) (out_sizeimage f) (dmabuf_fd f) (dmabuf_map f) in
  if x <? 0 then quit f
  else
    (r <- sys (vpipe_set_format (fd f) OUTPUT (i_width (src f)) (i_height (src f)) V4L2_PIX_FMT_GREY);;
    if r <? 0 then quit f
    else
      (r <- sys (vpipe_set_format (fd f) CAPTURE (i_width (src f)) (i_height (src f)) V4L2_PIX_FMT_GREY);;
      if r <? 0 then quit f
      else
        (size <- sys (vpipe_get_sizeimage (fd f) OUTPUT);;
        let f := Locals (fd f) (src f) (capture_bufs f) size (dmabuf_fd f) (dmabuf_map f) in
        if size =? 0 then quit f else if size <? i_size (src f) then quit f else go f)))).

Definition request : stage locals := fun f =>
  (a <- sys (vpipe_xioctl (fd f) (REQBUFS OUTPUT BUFFER_COUNT V4L2_MEMORY_DMABUF));;
  if a_ret a <? 0 then quit f
  else
    (c <- sys (vpipe_request_mmap_buffers (fd f) CAPTURE BUFFER_COUNT (capture_bufs f));;
    let f := Locals (fd f) (src f) (snd c) (out_sizeimage f) (dmabuf_fd f) (dmabuf_map f) in
    if fst c <? 0 then quit f else go f)).

(** The one copy of the fixture into a dma-heap buffer. *)
Definition populate (heap_path : list Z) : stage locals := fun f =>
  (x <- sys (dma_heap_alloc_fd heap_path (out_sizeimage f));;
  let f := Locals (fd f) (src f) (capture_bufs f) (out_sizeimage f) x (dmabuf_map f) in
  if x <? 0 then quit f
  else
    (m <- sys (mmap (out_sizeimage f) x 0);;
    let f := Locals (fd f) (src f) (capture_bufs f) (out_sizeimage f) x m in
    if m =? MAP_FAILED then quit f else (BenchFixture.copy_pixels m (src f);; go f))).

Definition start : stage locals := fun f =>
  (r <- sys (set_ctrl (fd f) VPIPE_CID_ALGO VPIPE_ALGO_THRESHOLD);;
  if r <? 0 then quit f
  else
    (r <- sys (set_ctrl (fd f) VPIPE_CID_THRESHOLD 127);;
    if r <? 0 then quit f
    else
      (r <- sys (vpipe_queue_mmap_buffer (fd f) CAPTURE V4L2_MEMORY_MMAP 0 (-1));;
      if r <? 0 then quit f
      else
        (r <- sys (queue_dmabuf (fd f) 0 (dmabuf_fd f) (i_size (src f)) (out_sizeimage f));;
        if r <? 0 then quit f
        else
          (a <- sys (vpipe_xioctl (fd f) (STREAMON CAPTURE));;
          if a_ret a <? 0 then quit f
          else
            (a <- sys (vpipe_xioctl (fd f) (STREAMON OUTPUT));;
            if a_ret a <? 0 then quit f else go f)))))).

(** The index of the dequeued buffer is not checked. *)
Definition collect (out_path : list Z) : stage locals := fun f =>
  (cap_dq <- sys (dqbuf (fd f) CAPTURE V4L2_MEMORY_MMAP);;
  if a_ret cap_dq <? 0 then quit f
  else
    (b <- aget (capture_bufs f) (a_index cap_dq);;
    r <- BenchFixture.write_frame out_path (addr b) (i_width (src f)) (i_height (src f));;
    if r <? 0 then quit f else go f)).

Definition teardown (f : locals) : F pworld unit :=
  (sys (munmap (dmabuf_map f));;
  sys (close (dmabuf_fd f));;
  lib (vpipe_free_pgm (src f));;
  sys (vpipe_unmap_buffers (capture_bufs f) BUFFER_COUNT);;
  sys (close (fd f))).

(** The exit status. *)
Definition main (args : list (list Z)) : F pworld Z :=
  let video := default (lit "/dev/video0") (args !! 0%nat) in
  let heap_path := default (lit "/dev/dma_heap/system") (args !! 1%nat) in
  let fixture := default (lit "tests/fixtures/ramp.pgm") (args !! 2%nat) in
  let out_path := default (lit "bench/ramp.kernel.pgm") (args !! 3%nat) in
  (p <- lib (vpipe_read_pgm fixture);;
  if fst p <? 0 then fret 1
  else
    (r <- andthen (negotiate video)
            (andthen request (andthen (populate heap_path) (andthen start (collect out_path))))
            (init (snd p));;
    if fst r then (teardown (snd r);; fret 0) else fret 1)).
End FixtureFeed.

Section Proofs.
Context `{V4l2Laws} `{!BufferLaws} `{!FormatLaws} `{Posix}.
Context (w0 : pworld) (Hok : start_ok w0).

(** The descriptors left at the end, when the device granted [n] CAPTURE
    buffers: an entry that was not granted still has descriptor 0. *)
Definition fds_after (n : nat) : gset Z :=
  if decide (n < 2)%nat then cfds (pc w0) ∖ {[0]} else cfds (pc w0).

Section Run.
Context (img : vpipe_pgm_image) (px : list Z) (Himg : image_ok img px).


(** A run so far without an error: [lens] are the CAPTURE buffers granted. *)
Record ready (f : locals) (g : ghost) (lens : list Z) : Prop := {
  rd_names : names [fd f; dmabuf_fd f] (dmabuf_map f :: maps_of (take 2 (capture_bufs f))) 0 1 g;
  rd_src : src f = img;
  rd_fd : 0 <= fd f;
  rd_size : out_sizeimage f <> 0 /\ i_size img <= out_sizeimage f;
  rd_queue : (fd f, CAPTURE, lens) ∈ g_queues g;
  rd_lens : (length lens <= 2)%nat /\ Forall (fun len => i_size img <= len) lens;
  rd_shows : shows (capture_bufs f) lens (g_known g);
  rd_len : length (capture_bufs f) = 2%nat;
  rd_dfd : forall j b, (j < length lens)%nat -> capture_bufs f !! j = Some b -> Client.dmabuf_fd b = -1;
  rd_rest : forall j, (length lens <= j < 2)%nat -> capture_bufs f !! j = Some (MmapBuf 0 0 0);
  rd_rows : g_rows g = prow w0
}.

Lemma feed_negotiate_ok video w :
  running w0 w (add_lib 0 1 (nothing w0)) ->
  wp (negotiate video (init img)) (fun r w' => fst r = true ->
    exists x n b g, snd r = Locals x img (replicate 2 (MmapBuf 0 0 0)) n (-1) MAP_FAILED /\
      running w0 w' g /\ 0 <= x /\ n <> 0 /\ i_size img <= n /\
      g = add_fmt (x, CAPTURE, (b, n)) (add_fmt (x, OUTPUT, (b, n)) (add_fd x (add_lib 0 1 (nothing w0))))) w.
Proof.
  intros Hr. destruct Hok as [Hp _]. unfold negotiate.
  repeat lazymatch goal with |- wp (sys (vpipe_get_sizeimage _ _)) _ _ => fail | |- _ => pstep Hp end;
    cbn [fd src init] in *; try new_queue; try done.
  assert (bpl0 = bpl /\ si0 = si) as [-> ->] by (split; congruence).
  eapply (wp_sys_sizeimage w0); [exact Hr|apply list_elem_of_further, list_elem_of_here| |]; clear Hr; intros u Hr.
  { repeat (pstep Hp); done. }
  repeat (pstep Hp); try done. intros _. cbn in *. eexists _, _, _, _. split; [done|]. split; [exact Hr|].
  split; [lia|]. split; [lia|]. split; [lia|done].
Qed.

Lemma feed_request_ok x n b w :
  let g := add_fmt (x, CAPTURE, (b, n)) (add_fmt (x, OUTPUT, (b, n)) (add_fd x (add_lib 0 1 (nothing w0)))) in
  running w0 w g -> 0 <= x -> n <> 0 -> i_size img <= n ->
  wp (request (Locals x img (replicate 2 (MmapBuf 0 0 0)) n (-1) MAP_FAILED)) (fun r w' => fst r = true ->
    exists g' lens, running w0 w' g' /\ ready (snd r) g' lens /\ dmabuf_fd (snd r) = -1 /\
      dmabuf_map (snd r) = MAP_FAILED) w.
Proof.
  intros g Hr Hx Hn Hsz. destruct Hok as [Hp _]. unfold request. change BUFFER_COUNT with (Z.of_nat 2).
  repeat (pstep Hp); cbn [fd capture_bufs]; [new_queue|done|].
  eapply (wp_sys_request0 w0 Hp _ _ 2); [exact Hr|new_queue|cbn; lia|by repeat constructor|..]; clear Hr.
  - intros r bufs u Hlt _ _ _ Hr. cbn [fst snd]. destruct (Z.ltb_spec r 0); [|lia]. by apply wp_ret.
  - intros r bufs u lens known Hge Hl Hd Hf Hdf Hsm Hr Hs [Hle Hpos] Hfm. cbn [fst snd].
    destruct (Z.ltb_spec r 0); [lia|]. apply wp_ret. intros _. cbn [snd]. eexists _, lens. split; [exact Hr|].
    split; [|done]. split; cbn; try done.
    + solve_names; unfold MAP_FAILED in *; lia.
    + apply list_elem_of_here.
    + split; [done|]. eapply Forall_impl; [|apply (Hfm (b, n)), list_elem_of_here]. cbn. lia.
    + eapply shows_mono; [exact Hs|]. set_solver.
    + intros j Hj. rewrite Hsm by lia. destruct j as [|[|]]; done || lia.
Qed.

Lemma feed_populate_ok heap f w g lens :
  running w0 w g -> ready f g lens -> dmabuf_fd f = -1 -> dmabuf_map f = MAP_FAILED ->
  wp (populate heap f) (fun r w' => fst r = true ->
    exists g', running w0 w' g' /\ ready (snd r) g' lens /\ 0 <= dmabuf_fd (snd r) /\ 0 < dmabuf_map (snd r)) w.
Proof.
  intros Hr [[N1 N2 N3 N4] Hsrc Hfd [Hz Hn] Hq [Hle Hfit] Hs Hl Hd Hrest Hrows] Ed Em. destruct Hok as [Hp _].
  rewrite Ed in N1. rewrite Em in N2. unfold MAP_FAILED in *. unfold populate. repeat (pstep Hp); try done.
  cbn [src]. rewrite Hsrc. destruct Himg as [Hpx Hsz Hlen _ _].
  unfold BenchFixture.copy_pixels. rewrite Hpx, Hlen, Z.ltb_irrefl. cbn [out_sizeimage] in *.
  eapply (wp_sys_store w0); [exact Hr|apply list_elem_of_here|rewrite length_take; cbn; lia|]. clear Hr. intros u Hr.
  pstep Hp. intros _. cbn [snd]. eexists. split; [exact Hr|]. cbn. split; [|lia].
  split; cbn; try done.
  - solve_names.
  - eapply shows_mono; [exact Hs|]. set_solver.
Qed.

Lemma feed_start_ok f w g lens :
  running w0 w g -> ready f g lens ->
  wp (start f) (fun r w' => fst r = true ->
    snd r = f /\ exists g', running w0 w' g' /\ ready f g' lens /\ (1 <= length lens)%nat) w.
Proof.
  intros Hr Hrd. destruct Hok as [Hp _]. unfold start. repeat (pstep Hp); try done.
  intros _. split; [done|]. exists g. split; [done|]. split; [done|].
  destruct (Hq lens) as [l Hl]; [lia|apply Hrd|]. by apply lookup_lt_Some in Hl.
Qed.

Lemma feed_collect_ok out_path f w g lens :
  running w0 w g -> ready f g lens ->
  wp (collect out_path f) (fun r w' => fst r = true ->
    snd r = f /\ exists g', running w0 w' g' /\ ready f g' lens) w.
Proof.
  intros Hr [[N1 N2 N3 N4] Hsrc Hfd Hn Hq [Hle Hfit] Hs Hl Hd Hrest Hrows]. destruct Hok as [Hp _].
  unfold collect. repeat (pstep Hp); [done|].
  destruct (Ha lens ltac:(lia) Hq) as (Hi0 & len & Hlen & Hb). destruct (Hs _ _ Hlen) as (b & Hb' & _ & Hk).
  eapply wp_aget; [lia|exact Hb'|]. unfold BenchFixture.write_frame. rewrite Hsrc. apply wp_bind, wp_bind.
  destruct Himg as [_ Hsz _ Hw Hh]. unfold VPIPE_PGM_MAX_DIM in *.
  pose proof (Forall_lookup_1 _ _ _ _ Hfit Hlen) as Hle'. cbn in Hle'.
  eapply (wp_sys_load w0); [exact Hr|exact Hk|nia|]. clear Hr. intros l w' Hr El Hu.
  eapply (wp_lib_write_pgm w0); [exact Hr|unfold VPIPE_PGM_MAX_DIM; lia..|nia|]. clear Hr. intros r u Hr.
  repeat (pstep Hp); [done|]. intros _. split; [done|]. eexists. split; [exact Hr|]. split; cbn; try done.
  split; cbn; done || lia.
Qed.

(** What the end of a successful run leaves. *)
Record ended (n : nat) (w : pworld) : Prop := {
  en_fds : cfds (pc w) = fds_after n;
  en_maps : cmaps (pc w) = cmaps (pc w0);
  en_open : uopen (pu w) = uopen (pu w0);
  en_live : ulive (pu w) = ulive (pu w0);
  en_rows : prow w = prow w0
}.

(** One buffer granted: the second entry's descriptor 0 is closed. *)
Lemma feed_unmap_one b x w g (Q : unit -> pworld -> Prop) :
  running w0 w g -> g_known g = [] -> Client.dmabuf_fd b = -1 -> 0 <= x ->
  (forall y, 0 <= y -> (y ∈ [x] <-> y ∈ g_fds g)) -> (forall a, 0 < a -> (a ∈ [addr b] <-> a ∈ g_maps g)) ->
  g_opens g = 0 -> g_blocks g = 0 -> g_rows g = prow w0 ->
  (forall w', ended 1 w' -> Q tt w') ->
  wp (sys (vpipe_unmap_buffers [b; MmapBuf 0 0 0] 2);; sys (close x)) Q w.
Proof.
  intros Hr Hk Hb Hx Hf Hm Ho Hbl Hrows HQ. destruct Hok as [Hp _].
  apply wp_bind, (wp_eq _ (sys (fbind (vpipe_unmap_buffers [b] (Z.of_nat 1)) (fun _ => close 0)))).
  { unfold sys, zoom, vpipe_unmap_buffers, fbind. change (Z.to_nat 2) with 2%nat.
    change (Z.to_nat (Z.of_nat 1)) with 1%nat. cbn [unmap_loop]. change (Z.to_nat 0) with 0%nat.
    change (Z.to_nat (0 + 1)) with 1%nat. cbn [lookup list_lookup]. unfold fbind, unmap_one, fret, fbind, munmap, close.
    destruct (ztrue (addr b) && negb (addr b =? MAP_FAILED)); by destruct (0 <=? Client.dmabuf_fd b). }
  apply wp_sys_bind.
  eapply (wp_sys_unmap w0 Hp 1 [b] [x] []); [exact Hr|done|done|..].
  { cbn. intros y Hy. rewrite <- Hf by done. unfold fds_of. cbn. rewrite Hb, elem_of_cons. intuition lia. }
  { cbn. intros a Ha. rewrite <- Hm by done. done. }
  clear Hr. intros w' [[R1a R1b R1c R1d R1e R1f] R2 R3 _ _ _ _ R8 _].
  cbn in R1a, R1b, R1d, R2, R3, R8.
  apply wp_zoom. unfold wp at 1, close at 1. apply wp_zoom. unfold wp, close. cbn. apply HQ.
  split; cbn; [|apply map_eq; intros a; apply R1d; by intros [_ ?%not_elem_of_nil]|lia|lia|congruence].
  unfold fds_after. rewrite decide_True by lia. apply set_eq. intros y.
  rewrite !elem_of_difference, !elem_of_singleton.
  destruct (Z.eq_dec y x) as [->|Hne]; [|rewrite R1a by (intros [_ ?%list_elem_of_singleton]; done); tauto].
  split; [tauto|]. intros [Hin _]. pose proof (po_fds _ Hp _ Hin).
  destruct (R1b x) as [? _]; [|lia]. split; [done|by apply list_elem_of_singleton].
Qed.

Lemma feed_teardown_ok f w g lens :
  running w0 w g -> ready f g lens -> 0 <= dmabuf_fd f -> 0 < dmabuf_map f -> (1 <= length lens)%nat ->
  wp (teardown f) (fun _ w' => ended (length lens) w') w.
Proof.
  intros Hr [[N1 N2 N3 N4] Hsrc Hfd Hn Hq [Hle Hfit] Hs Hl Hd Hrest Hrows] Hdf Hdm Hge. pose proof Hok as [Hp _].
  destruct (capture_bufs f) as [|b0 [|b1 [|]]] eqn:Eb; try done. unfold teardown. rewrite Eb.
  apply (running_weaken _ _ _ (Ghost [fd f; dmabuf_fd f] (dmabuf_map f :: maps_of [b0; b1]) 0 1 [] [] []
    (g_clock g) (prow w0))) in Hr;
    [|cbn; try done; try lia; try (intros; symmetry; by apply N1 || by apply N2); by intros ? ?%not_elem_of_nil..].
  pstep Hp. eapply (wp_sys_munmap w0 Hp _ (maps_of [b0; b1])); [exact Hr|done|done|]. clear Hr. intros u1 Hr.
  pstep Hp. eapply (wp_sys_close w0 Hp _ [fd f]); [exact Hr|done|cbn; intros x _; rewrite !elem_of_cons; tauto|].
  clear Hr. intros u2 Hr. pstep Hp. pcall Hp. rewrite Hsrc, (im_px _ _ Himg) in Hr.
  assert (Hlens : length lens = 1%nat \/ length lens = 2%nat) by lia. destruct Hlens as [E1|E2].
  - pose proof (Hrest 1%nat ltac:(lia)) as Hb1. injection Hb1 as ->. rewrite E1.
    eapply (feed_unmap_one b0 (fd f)); [exact Hr|done|apply (Hd 0%nat); [lia|done]|done|done| |done|done|done|done].
    cbn. intros a Ha. unfold maps_of. cbn. rewrite !elem_of_cons, elem_of_nil. intuition lia.
  - pstep Hp. change BUFFER_COUNT with (Z.of_nat 2).
    eapply (wp_sys_unmap w0 Hp 2 _ [fd f] []); [exact Hr|done|done| |cbn; by rewrite app_nil_r|].
    { cbn. intros x Hx. rewrite elem_of_app. split; [|auto]. intros [Hin|]; [|done]. unfold fds_of in Hin. cbn in Hin.
      rewrite (Hd 0%nat b0), (Hd 1%nat b1), !elem_of_cons, elem_of_nil in Hin by (done || lia). lia. }
    clear Hr. intros u4 Hr. eapply (wp_sys_close w0 Hp _ []); [exact Hr|done|done|]. clear Hr. intros u5 Hr.
    destruct (running_end w0 u5 _ Hr) as [B1 B2 B3 B4]; [intros ? _; apply not_elem_of_nil..|done|done|].
    split; try done; [|by rewrite (r_rows _ _ _ Hr)]. unfold fds_after. by rewrite decide_False by lia.
Qed.

Lemma feed_stages_ok video heap out_path w :
  running w0 w (add_lib 0 1 (nothing w0)) ->
  wp (andthen (negotiate video)
        (andthen request (andthen (populate heap) (andthen start (collect out_path)))) (init img))
     (fun r w' => fst r = true -> exists g lens, running w0 w' g /\ ready (snd r) g lens /\
        0 <= dmabuf_fd (snd r) /\ 0 < dmabuf_map (snd r) /\ (1 <= length lens)%nat) w.
Proof.
  intros Hr. apply wp_andthen. eapply wp_mono; [by apply feed_negotiate_ok|]. clear w Hr.
  intros [[] f] w Hs; [|done]. destruct (Hs eq_refl) as (x & n & b & g & Ef & Hr & Hx & Hn & Hsz & ->).
  cbn [fst snd] in *. subst f. clear Hs. apply wp_andthen. eapply wp_mono; [by apply (feed_request_ok x n b)|].
  clear w Hr. intros [[] f] w Hs; [|done]. destruct (Hs eq_refl) as (g & lens & Hr & Hrd & Ed & Em).
  cbn [fst snd] in *. clear Hs. apply wp_andthen. eapply wp_mono; [by apply (feed_populate_ok heap f w g lens)|].
  clear f w g Hr Hrd Ed Em. intros [[] f] w Hs; [|done]. destruct (Hs eq_refl) as (g & Hr & Hrd & Hd & Hm).
  cbn [fst snd] in *. clear Hs. apply wp_andthen. eapply wp_mono; [by apply (feed_start_ok f w g lens)|].
  clear w g Hr Hrd. intros [[] f'] w Hs; [|done]. destruct (Hs eq_refl) as (Ef & g & Hr & Hrd & Hge).
  cbn [fst snd] in *. subst f'. clear Hs. eapply wp_mono; [by apply (feed_collect_ok out_path f w g lens)|].
  clear w g Hr Hrd. intros [[] f'] w Hs E; [|done]. destruct (Hs E) as (Ef & g & Hr & Hrd).
  cbn [fst snd] in *. subst f'. by exists g, lens.
Qed.
End Run.

Lemma feed_main_ok args :
  wp (main args) (fun rc w' => rc = 0 /\ (exists n, (1 <= n <= 2)%nat /\ ended n w') \/ rc = 1) w0.
Proof.
  unfold main. pose proof (running_start w0 (st_crc _ Hok)) as Hr. apply wp_bind.
  eapply (wp_lib_read_pgm w0); [exact Hr|..]; clear Hr.
  - intros img w Hr _. by right.
  - intros img px w Hr Himg. cbn [fst snd Z.ltb Z.compare]. apply wp_bind.
    eapply wp_mono; [by apply (feed_stages_ok img px Himg)|]. clear w Hr.
    intros [[] f] w Hs; [|by right]. destruct (Hs eq_refl) as (g & lens & Hr & Hrd & Hd & Hm & Hge).
    cbn [fst snd] in *. apply wp_bind. eapply wp_mono; [by apply (feed_teardown_ok img px Himg f w g lens)|].
    intros ? w' He. left. split; [done|]. exists (length lens). split; [|done]. split; [done|apply Hrd].
Qed.
End Proofs.
End FixtureFeed.

(** ** The theorem *)


Import TinySim.

(** A device that grants one buffer. *)
#[local] Instance scarce : V4l2 :=
  Sim.sim 16 (fun _ => 1) (fun _ => false) (fun _ => false) (fun _ => false) (fun _ i => i).
#[local] Instance scarce_laws : V4l2Laws := Sim.sim_laws _ _ _ _ _ _.
#[local] Instance scarce_bufs : BufferLaws := Sim.sim_bufs _ _ _ _ _ _.
#[local] Instance scarce_fmts : FormatLaws := sim_fmts _ _ _ _ _ _ tiny_size.

