(* ===== verification/MetaDrain.v ===== *)
(** * The metadata drain

    [user/vpipe-meta-drain.c] copies the entries it reads from the metadata
    device into a CSV file. [Node] puts it on the device of [Meta]: what it
    writes is then tied to what the driver publishes. *)

From S2P Require Import Prelude Types Meta M2m Crc32 Pgm Wp Client Process.

Module MetaDrain.
Section MetaDrain.
Context `{V4l2} `{Posix}.

(** The fields of a row in the order of the header. *)
Definition meta_row (e : vpipe_meta_entry) : list Z :=
  [seq e; src_v4l2_sequence e; buffer_index e; source_timestamp_ns e; qbuf_timestamp_ns e;
   capture_done_ns e; dqbuf_timestamp_ns e; bytesused e; crc32 e; algo_id e; algo_status e;
   roi_left e; roi_top e; roi_width e; roi_height e; algo_value0 e; algo_value1 e;
   source_backend e; buffer_type e; queue_depth e; cpu_id e; flags e].

(** The body of the loop; it works on the exit status. *)
Definition drain_one (fd : Z) (i : Z) : stage Z := fun rc =>
  (r <- sys (read_meta_entry fd);;
  let '(got, entry) := r in
  if got <? 0 then quit 1
  else if got =? 0 then quit rc
  else (emit (meta_row entry);; go rc)).

(** The exit status; on an error nothing is closed. *)
Definition main (args : list (list Z)) : F pworld Z :=
  let path := default (lit "/dev/vpipe-meta") (args !! 0%nat) in
  let csv := default (lit "bench/meta.csv") (args !! 1%nat) in
  let frames := match args !! 2%nat with Some a => u32 (strtoul0 a) | None => 600 end in
  (fd <- sys (open path);;
  if fd <? 0 then fret 1
  else
    (fp <- lib (vpipe_open_csv csv (Some (lit
       "seq,src_v4l2_sequence,buffer_index,source_timestamp_ns,qbuf_timestamp_ns,capture_done_ns,dqbuf_timestamp_ns,bytesused,crc32,algo_id,algo_status,roi_left,roi_top,roi_width,roi_height,algo_value0,algo_value1,source_backend,buffer_type,queue_depth,cpu_id,flags")));;
    if negb fp then fret 1
    else
      (r <- for_each frames (drain_one fd) 0;;
      if snd r =? 1 then fret 1
      else (lib fclose;; sys (close fd);; fret 0)))).

(** What [n] turns of the loop get from the device, and whether a read failed. *)
Fixpoint drained (n : nat) (fd : Z) (d : dev) : list vpipe_meta_entry * bool * dev :=
  match n with
  | O => ([], false, d)
  | S n' =>
      let '((got, e), d1) := read_entry fd d in
      if got <? 0 then ([], true, d1)
      else if got =? 0 then ([], false, d1)
      else let '(es, failed, d2) := drained n' fd d1 in (e :: es, failed, d2)
  end.
End MetaDrain.

Section Proofs.
Context `{V4l2Laws} `{!BufferLaws} `{!FormatLaws} `{Posix}.

Lemma drain_loop_ok n i fd w :
  wp (floop n i (drain_one fd) 0) (fun r w' =>
    let '(es, failed, d) := drained n fd (cdev (pc w)) in
    snd r = (if failed then 1 else 0) /\
    w' = PWorld (set_cdev d (pc w)) (pu w) (prow w ++ (meta_row <$> es)) (pcrc w)) w.
Proof.
  revert i w. induction n as [|n IH]; intros i [p u rw cs]; cbn [floop drained pc].
  { apply wp_ret. split; [done|]. cbn. rewrite app_nil_r. by destruct p. }
  unfold drain_one at 1. apply wp_bind, wp_bind, wp_zoom. cbn [pc]. unfold wp at 1, read_meta_entry.
  destruct (read_entry fd (cdev p)) as [[got e] d1]. cbn [pu prow pcrc].
  destruct (got <? 0) eqn:E1; [apply wp_ret; cbn; by rewrite app_nil_r|].
  destruct (got =? 0) eqn:E2; [apply wp_ret; cbn; by rewrite app_nil_r|].
  apply wp_bind, wp_ret. cbn [fst snd]. eapply wp_mono; [apply IH|]. cbn [pc cdev set_cdev pu prow pcrc].
  destruct (drained n fd d1) as [[es failed] d]. intros r w' [Hs ->]. split; [done|].
  cbn [fmap list_fmap]. by rewrite <- app_assoc.
Qed.

(** The whole program, on any device. *)
Lemma drain_main_ok w0 args :
  start_ok w0 ->
  let frames := match args !! 2%nat with Some a => u32 (strtoul0 a) | None => 600 end in
  let '(es, failed, d) := drained (Z.to_nat frames) (cfdn (pc w0)) (cdev (pc w0)) in
  wp (main args) (fun rc w' =>
    rc = 1 /\ prow w' = prow w0 \/
    rc = (if failed then 1 else 0) /\ prow w' = prow w0 ++ (meta_row <$> es) /\
    (failed = false -> balanced w0 w')) w0.
Proof.
  intros [Hp Hc] frames. destruct (drained _ _ _) as [[es failed] d] eqn:Ed. unfold main. fold frames.
  apply wp_bind, wp_zoom. unfold wp at 1, open. destruct (open_ok _ _); [|by left].
  pose proof (po_fdn _ Hp) as Hn. destruct (Z.ltb_spec (cfdn (pc w0)) 0); [lia|].
  set (w1 := PWorld _ (pu w0) (prow w0) (pcrc w0)).
  assert (Hr : running w0 w1 (add_fd (cfdn (pc w0)) (nothing w0))).
  { pose proof (running_start w0 Hc) as [R1 R2 R3 R4 R5 R6 R7 R8 R9].
    split; cbn; try done. apply held_newfd; [done|apply Hp]. }
  apply wp_bind. eapply wp_mono; [apply wp_lib_keeps, (wp_lib_open_csv w0 _ _
    (fun (b : bool) w => b = true -> running w0 w (add_lib 1 0 (add_fd (cfdn (pc w0)) (nothing w0)))) _ _ Hr); done|].
  clear Hr. intros [] w (Hr & Epc & Erows); [|by left]. specialize (Hr eq_refl). cbn [negb]. apply wp_bind.
  assert (Ed1 : cdev (pc w) = cdev (pc w0)) by (by rewrite Epc). replace (prow w1) with (prow w0) in Erows by done.
  eapply wp_mono; [apply drain_loop_ok|]. intros [b r] w'. rewrite Ed1, Ed. clear w1 Epc.
  intros [Hs ->]. cbn [snd] in Hs. subst r. rewrite Erows. destruct failed; [by right|].
  assert (Hr' : running w0 (PWorld (set_cdev d (pc w)) (pu w) (prow w0 ++ (meta_row <$> es)) (pcrc w))
    (Ghost [cfdn (pc w0)] [] 1 0 [] [] [] (cclock (pc w0)) (prow w0 ++ (meta_row <$> es)))).
  { destruct Hr as [R1 R2 R3 R4 R5 R6 R7 R8 R9]. split; cbn in *; try done; try (by intros * ?%not_elem_of_nil).
    eapply held_frame; [exact R1|done..]. }
  clear Hr. apply wp_bind. eapply (wp_lib_fclose_if w0 true); [exact Hr'|]. clear Hr'. intros u1 Hr. apply wp_bind.
  eapply (wp_sys_close w0 Hp _ []); [exact Hr|done|done|]. clear Hr. intros u2 Hr. apply wp_ret. right.
  split; [done|]. split; [by rewrite (r_rows _ _ _ Hr)|]. intros _.
  eapply running_end; [exact Hr|..]; try done; intros x _; apply not_elem_of_nil.
Qed.
End Proofs.
End MetaDrain.

(** ** The drain on the driver's metadata device *)

Module Node.
Import Log LogRun MetaDrain.

(** The device, the cursor of the drain's file, what the driver publishes, in
    batches of which one precedes each call of [read], and whether the module
    is removed in the end, when nothing is left to read. *)
Record node := MkNode {
  n_dev : vpipe_meta_dev; n_file : vpipe_meta_file; n_plan : list (list vpipe_meta_entry); n_exit : bool
}.

Definition publish_all (es : list vpipe_meta_entry) (g : vpipe_meta_dev) : vpipe_meta_dev :=
  foldl (fun g e => vpipe_meta_publish e g) g es.

(** A blocking [read] of one entry: it sleeps over the batches that bring
    nothing; after the last one the removal of the module or a signal ends
    it. *)
Fixpoint node_read (g : vpipe_meta_dev) (ctx : vpipe_meta_file) (plan : list (list vpipe_meta_entry))
    (ex : bool) : (Z * vpipe_meta_entry) * node :=
  match plan with
  | [] =>
      let g' := if ex && negb (read_ready g ctx) then vpipe_meta_exit g else g in
      match vpipe_meta_read g' ctx false sizeof_meta_entry true false with
      | Some (ReadReturns r ctx' out) => ((r, default meta_zero out), MkNode g' ctx' [] ex)
      | _ => ((-1, meta_zero), MkNode g' ctx [] ex)
      end
  | batch :: plan' =>
      let g' := publish_all batch g in
      match vpipe_meta_read g' ctx false sizeof_meta_entry false false with
      | Some (ReadReturns r ctx' out) => ((r, default meta_zero out), MkNode g' ctx' plan' ex)
      | _ => node_read g' ctx plan' ex
      end
  end.

#[local] Instance meta_node : V4l2 := {
  dev := node;
  ioctl _ _ d := (Answer (-1) ENOTTY 0 0 0 0 0 0 0 0 0 0, d);
  read_dev _ _ d := ((-1, []), d);
  read_entry _ d := node_read (n_dev d) (n_file d) (n_plan d) (n_exit d);
  byte_at _ _ _ := 0;
  poke _ _ d := d;
  open_ok _ _ := true;
  mmap_ok _ _ _ _ := false;
  now k := (Z.of_nat k, 0);
  minflt _ := 0;
  eintr_max := 0
}.

#[local] Instance node_laws : V4l2Laws.
Proof. constructor. intros fd r d. exists 0%nat. split; [done|]. done. Qed.

#[local] Instance node_bufs : BufferLaws.
Proof.
  refine {| bufs_of := (fun _ _ _ => []) : dev -> Z -> buf_type -> list Z |}; try done;
    intros; match goal with E : ioctl _ _ _ = _ |- _ => injection E as <- <- end; cbn in *; lia.
Qed.

#[local] Instance node_fmts : FormatLaws.
Proof.
  refine {| fmt_of := (fun _ _ _ => (0, 0)) : dev -> Z -> buf_type -> Z * Z;
            supported := fun _ _ => false; geometry := fun _ _ _ => (0, 0) |}; try done;
    intros; match goal with E : ioctl _ _ _ = _ |- _ => injection E as <- <- end; cbn in *; lia.
Qed.

Lemma publish_all_log es g log :
  ring_log g log -> dying g = false -> Z.of_nat (length (log ++ es)) < 18446744073709551616 ->
  ring_log (publish_all es g) (log ++ es) /\ dying (publish_all es g) = false.
Proof.
  revert g log. induction es as [|e es IH]; intros g log Hr Hd Hlim; [by rewrite app_nil_r|].
  rewrite length_app in Hlim. cbn [length] in Hlim. rewrite cons_middle, app_assoc. cbn.
  apply IH; [apply ring_log_publish; [done|lia]|done|]. rewrite !length_app. cbn. lia.
Qed.

(** One call: the next entry of the log, or the log is exhausted. *)
Lemma node_read_ok plan ex : forall g log t,
  ring_log g log -> dying g = false -> 0 <= t <= Z.of_nat (length log) ->
  Z.of_nat (length (log ++ concat plan)) < 18446744073709551616 ->
  (exists g' log' plan' e, log' ++ concat plan' = log ++ concat plan /\ ring_log g' log' /\ dying g' = false /\
     t < Z.of_nat (length log') /\ entry_at log' t = Some e /\
     node_read g (MetaFile t) plan ex
       = ((sizeof_meta_entry, e), MkNode g' (MetaFile (take_pos log' t + 1)) plan' ex)) \/
  (t = Z.of_nat (length (log ++ concat plan)) /\
   exists r e d, node_read g (MetaFile t) plan ex = ((r, e), d) /\ if ex then r = 0 else r < 0).
Proof.
  assert (Hgot : forall g log t sg, ring_log g log -> dying g = false -> 0 <= t < Z.of_nat (length log) ->
    Z.of_nat (length log) < 18446744073709551616 -> exists e, entry_at log t = Some e /\
    vpipe_meta_read g (MetaFile t) false sizeof_meta_entry sg false
      = Some (ReadReturns sizeof_meta_entry (MetaFile (take_pos log t + 1)) (Some e))).
  { intros g log t sg Hr Hd Ht Hlim. rewrite (meta_read_log g log t) by (done || lia). unfold LogRun.read.
    destruct (Z.eqb_spec t (Z.of_nat (length log))); [lia|]. cbn.
    destruct (entry_at log t) as [e|] eqn:Ee; [by eauto|].
    exfalso. unfold entry_at in Ee. apply fmap_None, lookup_ge_None in Ee. unfold take_pos, oldest in Ee. lia. }
  induction plan as [|batch plan IH]; intros g log t Hr Hd Ht Hlim; cbn [node_read concat] in *.
  - rewrite app_nil_r in *. destruct (Z.eq_dec t (Z.of_nat (length log))) as [->|Hne].
    + right. split; [done|]. unfold read_ready. rewrite Hd, (rl_head _ _ Hr). cbn [tail orb]. rewrite Z.eqb_refl.
      destruct ex; cbn [andb negb].
      * by eexists _, _, _.
      * rewrite (meta_read_log g log) by (done || lia). unfold LogRun.read. rewrite Z.eqb_refl. by eexists _, _, _.
    + left. destruct (Hgot g log t true Hr Hd ltac:(lia) Hlim) as (e & He & Hread).
      exists g, log, [], e. rewrite app_nil_r. split; [done|]. split; [done|]. split; [done|]. split; [lia|].
      split; [done|]. unfold read_ready. rewrite Hd, (rl_head _ _ Hr). cbn [tail orb].
      destruct (Z.eqb_spec (Z.of_nat (length log)) t); [lia|]. cbn [negb]. by rewrite andb_false_r, Hread.
  - rewrite app_assoc in *. assert (Hlb : Z.of_nat (length (log ++ batch)) < 18446744073709551616)
      by (rewrite length_app in Hlim; lia).
    destruct (publish_all_log batch g log Hr Hd Hlb) as [Hr' Hd'].
    destruct (Z.eq_dec t (Z.of_nat (length (log ++ batch)))) as [->|Hne].
    + rewrite (meta_read_log _ (log ++ batch)) by (done || lia). unfold LogRun.read. rewrite Z.eqb_refl. cbn.
      apply IH; done || lia.
    + rewrite length_app in Hne. destruct (Hgot _ _ t false Hr' Hd') as (e & He & Hread); [rewrite length_app; lia|done|].
      left. exists (publish_all batch g), (log ++ batch), plan, e. split; [done|]. split; [done|]. split; [done|].
      split; [rewrite length_app; lia|]. split; [done|]. by rewrite Hread.
Qed.

(** Where the cursor stands after the positions [ps]. *)
Definition cursor (t : Z) (ps : list (Z * bool)) : Z := foldl (fun _ pm => pm.1 + 1) t ps.

(** What the loop gets: entries of the log in order, none twice, gaps marked;
    if it gets fewer than asked for, it is because the log is exhausted. *)
Lemma node_drained n fd ex : forall g log t plan,
  ring_log g log -> dying g = false -> 0 <= t <= Z.of_nat (length log) ->
  Z.of_nat (length (log ++ concat plan)) < 18446744073709551616 ->
  let '(es, failed, _) := drained n fd (MkNode g (MetaFile t) plan ex : dev) in
  exists ps, chain t ps /\ Some <$> es = seen (log ++ concat plan) <$> ps /\
    (length es = n /\ failed = false \/
     (length es < n)%nat /\ failed = negb ex /\ cursor t ps = Z.of_nat (length (log ++ concat plan))).
Proof.
  induction n as [|n IH]; intros g log t plan Hr Hd Ht Hlim; cbn [drained].
  { exists []. split; [done|]. split; [done|]. by left. }
  cbn [read_entry meta_node n_dev n_file n_plan n_exit].
  destruct (node_read_ok plan ex g log t Hr Hd Ht Hlim) as
    [(g' & log' & plan' & e & Elog & Hr' & Hd' & Hlt & He & ->)|(Et & r & e & d & -> & Hx)].
  - assert (Hp : 0 <= take_pos log' t < Z.of_nat (length log')) by (unfold take_pos, oldest; lia).
    cbn [sizeof_meta_entry Z.ltb Z.eqb Z.compare]. 
    specialize (IH g' log' (take_pos log' t + 1) plan' Hr' Hd' ltac:(lia)). rewrite Elog in IH. specialize (IH Hlim).
    change (sizeof_meta_entry <? 0) with false. change (sizeof_meta_entry =? 0) with false. cbv iota.
    destruct (drained n fd _) as [[es failed] d]. destruct IH as (ps & Hch & Hes & Hend).
    exists ((take_pos log' t, overrun log' t) :: ps). split; [|split].
    + split; [unfold overrun, take_pos; zbool; lia|done].
    + cbn [fmap list_fmap]. rewrite Hes, <- Elog, seen_prefix by done.
      by replace (seen log' (take_pos log' t, overrun log' t)) with (entry_at log' t) by done; rewrite He.
    + cbn [length cursor foldl]. destruct Hend as [[-> ->]|(Hl & -> & Hc)]; [by left|]. right. split; [lia|]. done.
  - destruct ex; [subst r|destruct (Z.ltb_spec r 0); [|lia]]; exists []; (split; [done|]); (split; [done|]);
      right; cbn; (split; [lia|]); by subst t.
Qed.


(** 300 entries come before the first read, the module goes after them. *)
Definition busy_plan : list (list vpipe_meta_entry) := [ex_entry <$> seqZ 0 300; [ex_entry 300]].
Definition busy_node : @dev meta_node := MkNode g_meta0 (MetaFile 0) busy_plan true.

End Node.
