(* ===== verification/Double.v ===== *)
(** * Binary64 arithmetic

    The C type [double] of the benchmark runner, as the standard library's
    specification of IEEE arithmetic with 53-bit mantissas, rounding to nearest
    even. The lemmas give each operation on non-negative finite numbers its
    value: the exact result rounded by a monotone function that leaves every
    representable value alone. Values are integers, in units of [2^-1074] (the
    least positive double) or, for products, [2^-2148]. *)

From Stdlib Require Import SpecFloat.
From S2P Require Import Prelude.

(** ** The operations *)

Definition double : Type := spec_float.
Definition dadd : double -> double -> double := SFadd 53 1024.
Definition dsub : double -> double -> double := SFsub 53 1024.
Definition dmul : double -> double -> double := SFmul 53 1024.
Definition ddiv : double -> double -> double := SFdiv 53 1024.
(** [a < b]. *)
Definition dltb : double -> double -> bool := SFltb.

(** [(double) z] of an unsigned integer. *)
Definition of_int (z : Z) : double := binary_normalize 53 1024 z 0 false.

(** [(uint64_t) f]: the fraction is dropped; a value outside the type is
    undefined behaviour. *)
Definition to_u64 (f : double) : option Z :=
  match f with
  | S754_zero _ => Some 0
  | S754_finite false m e =>
      let v := Z.shiftl (Zpos m) e in if v <? 18446744073709551616 then Some v else None
  | S754_finite true m e => if Z.shiftl (Zpos m) e =? 0 then Some 0 else None
  | _ => None
  end.

(** ** Rounding to nearest even on integers *)

(** [M / 2^n], rounded. *)
Definition rne (M n : Z) : Z :=
  let q := M / 2 ^ n in
  let r := 2 * (M mod 2 ^ n) in
  if r <? 2 ^ n then q
  else if r =? 2 ^ n then (if Z.even q then q else q + 1)
  else q + 1.

Lemma rne_between M n : 0 <= n -> M / 2 ^ n <= rne M n <= M / 2 ^ n + 1.
Proof. intros Hn. unfold rne. repeat case_match; lia. Qed.

Lemma rne_mono M M' n : 0 <= n -> M <= M' -> rne M n <= rne M' n.
Proof.
  intros Hn HM. assert (Hp : 0 < 2 ^ n) by (by apply Z.pow_pos_nonneg).
  pose proof (Z.div_le_mono M M' (2 ^ n) Hp HM) as Hq.
  destruct (Z.eq_dec (M / 2 ^ n) (M' / 2 ^ n)) as [E|Hne].
  - pose proof (Z.div_mod M (2 ^ n) ltac:(lia)). pose proof (Z.div_mod M' (2 ^ n) ltac:(lia)).
    unfold rne. rewrite <- E in *. zbool; repeat case_match; nia.
  - pose proof (rne_between M n Hn). pose proof (rne_between M' n Hn). lia.
Qed.

Lemma rne_exact q n : 0 <= n -> rne (q * 2 ^ n) n = q.
Proof.
  intros Hn. assert (Hp : 0 < 2 ^ n) by (by apply Z.pow_pos_nonneg). unfold rne.
  rewrite Z.mod_mul, Z.div_mul by lia. destruct (Z.ltb_spec (2 * 0) (2 ^ n)); [done|lia].
Qed.

(** The exponent of the last place kept of [X] in units of [2^-q]. *)
Definition place (q X : Z) : Z := Z.max (Z.log2 X - 52) (q - 1074).

(** [X] rounded to a double, in the same units. *)
Definition rnd (q X : Z) : Z := if X =? 0 then 0 else rne X (place q X) * 2 ^ place q X.

(** The values a double can have. *)
Definition representable (q X : Z) : Prop :=
  exists m t, X = m * 2 ^ t /\ 0 <= m <= 2 ^ 53 /\ q - 1074 <= t.

Lemma place_nonneg q X : 1074 <= q -> 0 <= place q X.
Proof. unfold place. lia. Qed.

Lemma pow_split a b : 0 <= a <= b -> 2 ^ b = 2 ^ (b - a) * 2 ^ a.
Proof. intros. rewrite <- Z.pow_add_r by lia. f_equal. lia. Qed.

Lemma rnd_representable_id q X : 1074 <= q -> representable q X -> rnd q X = X.
Proof.
  intros Hq (m & t & -> & Hm & Ht). unfold rnd. destruct (Z.eqb_spec (m * 2 ^ t) 0) as [->|Hne]; [done|].
  assert (Hp : 0 < 2 ^ t) by (apply Z.pow_pos_nonneg; lia). assert (0 < m) by nia.
  set (s := place q (m * 2 ^ t)). assert (Hs : 0 <= s) by (by apply place_nonneg).
  enough (exists c, m * 2 ^ t = c * 2 ^ s) as [c ->] by (by rewrite rne_exact).
  assert (Hl : Z.log2 (m * 2 ^ t) = Z.log2 m + t) by (rewrite Z.log2_mul_pow2; lia).
  destruct (Z.eq_dec m (2 ^ 53)) as [->|Hm'].
  - exists (2 ^ (53 + t - s)). rewrite <- !Z.pow_add_r; try lia; [f_equal; lia|].
    unfold s, place. rewrite Hl, Z.log2_pow2 by lia. lia.
  - assert (Z.log2 m < 53) by (apply Z.log2_lt_pow2; lia).
    exists (m * 2 ^ (t - s)). rewrite <- Z.mul_assoc, <- Z.pow_add_r; [f_equal; f_equal; lia| |lia].
    unfold s, place. rewrite Hl. lia.
Qed.

Lemma rnd_nonneg q X : 1074 <= q -> 0 <= X -> 0 <= rnd q X.
Proof.
  intros Hq HX. unfold rnd. case_match; [lia|]. pose proof (place_nonneg q X Hq) as Hs.
  pose proof (rne_between X (place q X) Hs). pose proof (Z.pow_pos_nonneg 2 (place q X)).
  pose proof (Z.div_pos X (2 ^ place q X)). nia.
Qed.

Lemma rnd_mono q X Y : 1074 <= q -> 0 <= X <= Y -> rnd q X <= rnd q Y.
Proof.
  intros Hq HXY. destruct (Z.eq_dec X 0) as [->|HX]; [by apply rnd_nonneg; [|lia]|].
  unfold rnd. destruct (Z.eqb_spec X 0), (Z.eqb_spec Y 0); try lia.
  pose proof (place_nonneg q X Hq) as HsX. pose proof (place_nonneg q Y Hq) as HsY.
  pose proof (Z.log2_le_mono X Y ltac:(lia)) as Hlog.
  destruct (Z.eq_dec (place q X) (place q Y)) as [E|Hne].
  - rewrite E. pose proof (Z.pow_pos_nonneg 2 (place q Y)). pose proof (rne_mono X Y (place q Y) HsY). nia.
  - assert (Hlt : Z.log2 X < Z.log2 Y /\ place q X < Z.log2 Y /\ place q Y <= Z.log2 Y).
    { unfold place in *. pose proof (Z.log2_nonneg Y). lia. }
    assert (HB : X < 2 ^ Z.log2 Y <= Y).
    { split; [apply Z.log2_lt_pow2; lia|apply Z.log2_spec; lia]. }
    etransitivity; [|etransitivity].
    + apply (Z.mul_le_mono_nonneg_r _ (2 ^ (Z.log2 Y - place q X))); [lia|].
      rewrite <- (rne_exact (2 ^ (Z.log2 Y - place q X)) (place q X)) by done.
      apply rne_mono; [done|]. rewrite <- pow_split by lia. lia.
    + apply Z.eq_le_incl. rewrite <- pow_split by lia. reflexivity.
    + rewrite (pow_split (place q Y) (Z.log2 Y)) by lia. apply Z.mul_le_mono_nonneg_r; [lia|].
      rewrite <- (rne_exact (2 ^ (Z.log2 Y - place q Y)) (place q Y)) at 1 by done.
      apply rne_mono; [done|]. rewrite <- pow_split by lia. lia.
Qed.

(** A representable bound survives rounding. *)
Lemma rnd_le q X Y : 1074 <= q -> 0 <= X <= Y -> representable q Y -> rnd q X <= Y.
Proof. intros. rewrite <- (rnd_representable_id q Y) by done. by apply rnd_mono. Qed.
Lemma rnd_ge q X Y : 1074 <= q -> 0 <= Y <= X -> representable q Y -> Y <= rnd q X.
Proof. intros. rewrite <- (rnd_representable_id q Y) at 1 by done. by apply rnd_mono. Qed.

(** ** The specification rounds this way *)

Lemma iter_pos_inv {A} (f : A -> A) (P : Z -> A -> Prop) p n x :
  (forall n x, P n x -> P (n + 1) (f x)) -> P n x -> P (n + Zpos p) (SpecFloat.iter_pos f p x).
Proof.
  intros Hf. revert n x. induction p as [p IH|p IH|]; intros n x Hx; cbn [SpecFloat.iter_pos].
  - replace (n + Zpos p~1) with (n + 1 + Zpos p + Zpos p) by lia. auto.
  - replace (n + Zpos p~0) with (n + Zpos p + Zpos p) by lia. auto.
  - auto.
Qed.

(** [M] shifted right by [n]: the quotient, the bit below it, and whether
    anything lies below that. *)
Definition shifted (M n : Z) (x : shr_record) : Prop :=
  0 <= n /\ 0 <= shr_m x /\ exists rest, 0 <= rest < 2 ^ n /\
    2 * M = (2 * shr_m x + Z.b2z (shr_r x)) * 2 ^ n + rest /\ shr_s x = negb (rest =? 0).

Lemma shr_1_spec x : 0 <= shr_m x ->
  shr_m (shr_1 x) = shr_m x / 2 /\ shr_r (shr_1 x) = Z.odd (shr_m x) /\ shr_s (shr_1 x) = shr_r x || shr_s x.
Proof.
  destruct x as [m r s]. cbn [shr_m shr_r shr_s]. intros Hm. destruct m as [|[p|p|]|p]; cbn; try done; try lia.
  - split; [|done]. rewrite Pos2Z.inj_xI. apply (Z.div_unique _ 2 _ 1); lia.
  - split; [|done]. rewrite Pos2Z.inj_xO. apply (Z.div_unique _ 2 _ 0); lia.
Qed.

Lemma shifted_step M n x : shifted M n x -> shifted M (n + 1) (shr_1 x).
Proof.
  intros (Hn & Hm & rest & Hr & E & Hs). destruct (shr_1_spec x Hm) as (E1 & E2 & E3). unfold shifted.
  rewrite E1, E2, E3, Z.pow_add_r by lia. split; [lia|]. split; [apply Z.div_pos; lia|].
  pose proof (Z.div_mod (shr_m x) 2 ltac:(lia)) as Hd. rewrite <- Z.bit0_odd, Z.bit0_mod.
  exists (Z.b2z (shr_r x) * 2 ^ n + rest). pose proof (Z.pow_pos_nonneg 2 n).
  split; [destruct (shr_r x); cbn; lia|]. split; [nia|].
  rewrite Hs. destruct (shr_r x); cbn [Z.b2z orb]; zbool; try done; lia.
Qed.

Lemma round_shifted M n x :
  shifted M n x -> round_nearest_even (shr_m x) (loc_of_shr_record x) = rne M n.
Proof.
  intros (Hn & Hm & rest & Hr & E & Hs). pose proof (Z.pow_pos_nonneg 2 n ltac:(lia) Hn) as Hp.
  set (r := Z.b2z (shr_r x)) in *. assert (Hb : 0 <= r <= 1) by (unfold r; destruct (shr_r x); cbn; lia).
  assert (Hq : M / 2 ^ n = shr_m x) by (symmetry; apply (Z.div_unique _ _ _ (M - shr_m x * 2 ^ n)); nia).
  assert (H2 : 2 * (M mod 2 ^ n) = r * 2 ^ n + rest) by (rewrite Z.mod_eq, Hq by lia; nia).
  unfold rne. rewrite Hq, H2. unfold r in *. destruct x as [m [] []]; cbn [shr_m shr_r shr_s loc_of_shr_record Z.b2z] in *;
    cbn [round_nearest_even]; zbool; try done; lia.
Qed.

Lemma rne_scale M n c : 0 <= n -> 0 <= c -> rne (M * 2 ^ c) (n + c) = rne M n.
Proof.
  intros Hn Hc. pose proof (Z.pow_pos_nonneg 2 n ltac:(lia) Hn). pose proof (Z.pow_pos_nonneg 2 c ltac:(lia) Hc).
  unfold rne. rewrite Z.pow_add_r, Z.div_mul_cancel_r, Z.mul_mod_distr_r by lia. zbool; try done; nia.
Qed.

Lemma digits_log2 p : Zpos (digits2_pos p) = Z.log2 (Zpos p) + 1.
Proof.
  induction p as [p IH|p IH|]; cbn [digits2_pos]; [| |done]; rewrite Pos2Z.inj_succ, IH.
  - rewrite Pos2Z.inj_xI, Z.log2_succ_double; lia.
  - rewrite Pos2Z.inj_xO, Z.log2_double; lia.
Qed.

(** A non-negative finite number and its value in units of [2^-q]. *)
Definition nonneg (f : double) : Prop :=
  match f with
  | S754_zero false => True
  | S754_finite false _ e => -1074 <= e
  | _ => False
  end.
Definition value (q : Z) (f : double) : Z :=
  match f with S754_finite _ m e => Zpos m * 2 ^ (e + q) | _ => 0 end.

(** The last step: a mantissa that grew to 54 bits is shifted once more. *)
Lemma renormalize q m e :
  1074 <= q -> 0 <= m <= 2 ^ 53 -> -1074 <= e <= 900 ->
  let '(x, e') := shr_fexp 53 1024 m e loc_Exact in
  0 <= shr_m x /\ e <= e' <= e + 1 /\ shr_m x * 2 ^ (e' + q) = m * 2 ^ (e + q).
Proof.
  intros Hq Hm He. unfold shr_fexp. cbn [shr_record_of_loc].
  destruct (Z.eq_dec m (2 ^ 53)) as [->|Hne].
  - change (Zdigits2 (2 ^ 53)) with 54. unfold fexp, emin.
    replace (Z.max (54 + e - 53) (3 - 1024 - 53) - e) with 1 by lia. cbn [shr SpecFloat.iter_pos].
    destruct (shr_1_spec {| shr_m := 2 ^ 53; shr_r := false; shr_s := false |} ltac:(cbn; lia)) as (-> & _).
    cbn [shr_m]. split; [by apply Z.div_pos|]. split; [lia|].
    replace (e + 1 + q) with (1 + (e + q)) by lia. rewrite Z.pow_add_r by lia. rewrite Z.mul_assoc. reflexivity.
  - assert (Hd : Zdigits2 m <= 53).
    { destruct m as [|p|p]; [cbn; lia| |lia]. cbn [Zdigits2]. rewrite digits_log2.
      assert (Z.log2 (Zpos p) < 53) by (apply Z.log2_lt_pow2; lia). lia. }
    unfold shr. destruct (fexp 53 1024 (Zdigits2 m + e) - e) eqn:E; [cbn; lia| |cbn; lia].
    unfold fexp, emin in E. lia.
Qed.

(** The mantissa rounded to its last place, before the last step. *)
Lemma first_round q m e :
  1074 <= q -> - q <= e -> Zpos m * 2 ^ (e + q) < 2 ^ (q + 800) ->
  let '(x, e') := shr_fexp 53 1024 (Zpos m) e loc_Exact in
  let m' := round_nearest_even (shr_m x) (loc_of_shr_record x) in
  0 <= m' <= 2 ^ 53 /\ -1074 <= e' <= 900 /\ m' * 2 ^ (e' + q) = rnd q (Zpos m * 2 ^ (e + q)).
Proof.
  intros Hq He HX. set (X := Zpos m * 2 ^ (e + q)) in *.
  assert (Hp : 0 < 2 ^ (e + q)) by (apply Z.pow_pos_nonneg; lia). assert (HX0 : 0 < X) by (unfold X; nia).
  assert (Hl : Z.log2 X = Z.log2 (Zpos m) + (e + q)) by (unfold X; rewrite Z.log2_mul_pow2; lia).
  assert (Hl' : Z.log2 X < q + 800) by (apply Z.log2_lt_pow2; lia).
  assert (Hpl : place q X = fexp 53 1024 (Zpos (digits2_pos m) + e) + q).
  { unfold place, fexp, emin. rewrite digits_log2, Hl. lia. }
  unfold shr_fexp. cbn [Zdigits2 shr_record_of_loc].
  set (k := fexp 53 1024 (Zpos (digits2_pos m) + e) - e) in *.
  pose proof (Z.log2_nonneg (Zpos m)) as Hlm. pose proof (place_nonneg q X Hq) as Hs.
  assert (Hk : k = place q X - (e + q)) by lia. clearbody k.
  assert (Hbig : Zpos m < 2 ^ (Z.log2 (Zpos m) + 1)) by (apply Z.log2_lt_pow2; lia).
  unfold rnd. destruct (Z.eqb_spec X 0) as [|_]; [lia|].
  assert (Hsmall : k <= 0 -> Zpos m <= 2 ^ 53 /\ -1074 <= e <= 900 /\ Zpos m * 2 ^ (e + q) = rne X (place q X) * 2 ^ place q X).
  { intros Hk0. assert (Zpos m < 2 ^ 53).
    { eapply Z.lt_le_trans; [exact Hbig|]. apply Z.pow_le_mono_r; [lia|]. unfold place in Hk. lia. }
    split; [lia|]. split; [unfold place in *; lia|].
    fold X. pose proof (rnd_representable_id q X Hq) as Hid. unfold rnd in Hid.
    destruct (Z.eqb_spec X 0); [lia|]. symmetry. apply Hid. exists (Zpos m), (e + q). split; [done|].
    split; [lia|]. unfold place in *. lia. }
  unfold shr. destruct k as [|p|p].
  - destruct (Hsmall ltac:(lia)) as (H1 & H2 & H3). cbn. auto with lia.
  - clear Hsmall.
    assert (Hsh : shifted (Zpos m) (0 + Zpos p) (SpecFloat.iter_pos shr_1 p {| shr_m := Zpos m; shr_r := false; shr_s := false |})).
    { apply iter_pos_inv; [apply shifted_step|]. split; [done|]. split; [done|]. exists 0. cbn. lia. }
    rewrite Z.add_0_l in Hsh. rewrite (round_shifted _ _ _ Hsh).
    assert (Epl : place q X = Zpos p + (e + q)) by lia.
    assert (Hr : rne X (place q X) = rne (Zpos m) (Zpos p)) by (rewrite Epl; apply rne_scale; lia).
    assert (Hd : Zpos m / 2 ^ Zpos p < 2 ^ 53).
    { apply Z.div_lt_upper_bound; [lia|]. rewrite <- Z.pow_add_r by lia. eapply Z.lt_le_trans; [exact Hbig|].
      apply Z.pow_le_mono_r; [lia|]. unfold place in Epl. lia. }
    pose proof (rne_between (Zpos m) (Zpos p) ltac:(lia)). pose proof (Z.div_pos (Zpos m) (2 ^ Zpos p)).
    split; [lia|]. split; [unfold place in Epl; lia|]. rewrite Hr, Epl. do 2 f_equal. lia.
  - destruct (Hsmall ltac:(lia)) as (H1 & H2 & H3). cbn. auto with lia.
Qed.

Lemma round_aux_spec q m e :
  1074 <= q -> - q <= e -> Zpos m * 2 ^ (e + q) < 2 ^ (q + 800) ->
  let f := binary_round_aux 53 1024 false (Zpos m) e loc_Exact in
  nonneg f /\ value q f = rnd q (Zpos m * 2 ^ (e + q)).
Proof.
  intros Hq He HX. pose proof (first_round q m e Hq He HX) as H1. unfold binary_round_aux.
  destruct (shr_fexp 53 1024 (Zpos m) e loc_Exact) as [x e']. cbv zeta in H1. destruct H1 as (Hm & He' & <-).
  pose proof (renormalize q _ e' Hq Hm He') as H2.
  destruct (shr_fexp 53 1024 _ e' loc_Exact) as [y e'']. destruct H2 as (Hy & He'' & <-).
  destruct (shr_m y) as [|p|p]; [by split| |lia]. destruct (Z.leb_spec e'' (1024 - 53)); [|lia].
  split; [cbn; lia|done].
Qed.

(** ** The operations, as values *)

Lemma iter_xO m d : Zpos (Pos.iter xO m d) = Zpos m * 2 ^ Zpos d.
Proof.
  induction d as [|d IH] using Pos.peano_ind; [cbn; lia|].
  rewrite Pos.iter_succ, Pos2Z.inj_xO, IH, Pos2Z.inj_succ, Z.pow_succ_r by lia. lia.
Qed.

Lemma shl_align_spec q m e e' :
  - q <= e -> - q <= e' ->
  let '(mz, ez) := shl_align m e e' in
  ez = Z.min e e' /\ Zpos mz * 2 ^ (ez + q) = Zpos m * 2 ^ (e + q).
Proof.
  intros He He'. unfold shl_align. destruct (e' - e) as [|d|d] eqn:E; [lia|lia|]. split; [lia|].
  rewrite iter_xO, <- Z.mul_assoc, <- Z.pow_add_r by lia. do 2 f_equal. lia.
Qed.

Lemma fexp_min e : -1074 <= fexp 53 1024 e.
Proof. unfold fexp, emin. lia. Qed.

Lemma binary_round_spec q m e :
  1074 <= q -> - q <= e -> Zpos m * 2 ^ (e + q) < 2 ^ (q + 800) ->
  let f := binary_round 53 1024 false m e in
  nonneg f /\ value q f = rnd q (Zpos m * 2 ^ (e + q)).
Proof.
  intros Hq He HX. unfold binary_round. pose proof (fexp_min (Zpos (digits2_pos m) + e)) as Hf.
  pose proof (shl_align_spec q m e (fexp 53 1024 (Zpos (digits2_pos m) + e)) He ltac:(lia)) as Ha.
  destruct (shl_align _ _ _) as [mz ez]. destruct Ha as [Ez Ev]. rewrite <- Ev. apply round_aux_spec; lia.
Qed.

Lemma normalize_spec q z e :
  1074 <= q -> - q <= e -> 0 <= z -> z * 2 ^ (e + q) < 2 ^ (q + 800) ->
  let f := binary_normalize 53 1024 z e false in
  nonneg f /\ value q f = rnd q (z * 2 ^ (e + q)).
Proof.
  intros Hq He Hz HX. destruct z as [|m|m]; [by split| |lia]. by apply binary_round_spec.
Qed.

(** The value in the finest units. *)
Abbreviation units := (value 1074).

Lemma units_nonneg f : nonneg f -> 0 <= units f.
Proof. destruct f as [[]| | |[] m e]; cbn; try done; lia. Qed.

Lemma of_int_spec z :
  0 <= z < 2 ^ 64 -> nonneg (of_int z) /\ units (of_int z) = rnd 1074 (z * 2 ^ 1074).
Proof.
  intros Hz. apply (normalize_spec 1074 z 0); [lia..|]. rewrite Z.add_0_l.
  apply (Z.lt_trans _ (2 ^ 64 * 2 ^ 1074)); [nia|]. reflexivity.
Qed.

Lemma of_int_exact z : 0 <= z <= 2 ^ 53 -> nonneg (of_int z) /\ units (of_int z) = z * 2 ^ 1074.
Proof.
  intros Hz. destruct (of_int_spec z) as [Hn ->]; [lia|]. split; [done|].
  apply rnd_representable_id; [lia|]. by exists z, 1074.
Qed.

(** A sum or difference, aligned to the smaller exponent. *)
Lemma aligned q sx mx ex ez :
  - q <= ez <= ex -> Zpos (fst (shl_align mx ex ez)) * 2 ^ (ez + q) = value q (S754_finite sx mx ex).
Proof.
  intros He. pose proof (shl_align_spec q mx ex ez ltac:(lia) ltac:(lia)) as Ha.
  destruct (shl_align mx ex ez) as [mz e']. destruct Ha as [-> E]. cbn [fst value]. rewrite <- E.
  by rewrite Z.min_r by lia.
Qed.

Lemma rnd_0 q : rnd q 0 = 0.
Proof. done. Qed.

Lemma representable_units f : nonneg f -> valid_binary 53 1024 f = true -> representable 1074 (units f).
Proof.
  destruct f as [[]| | |[] m e]; cbn -[Z.pow]; try done; intros Hn Hv.
  - exists 0, 0. split; [done|]. lia.
  - exists (Zpos m), (e + 1074). split; [done|]. split; [|lia].
    apply andb_true_iff in Hv as [Hc _]. apply Z.eqb_eq in Hc. unfold fexp in Hc. rewrite digits_log2 in Hc.
    assert (Z.log2 (Zpos m) < 53) by lia. assert (Zpos m < 2 ^ 53) by (apply Z.log2_lt_pow2; lia). lia.
Qed.

Lemma rnd_representable q X : 1074 <= q -> 0 <= X -> representable q (rnd q X).
Proof.
  intros Hq HX. unfold rnd. destruct (Z.eqb_spec X 0) as [|Hne].
  - exists 0, (q - 1074). lia.
  - exists (rne X (place q X)), (place q X). split; [done|]. split; [|unfold place; lia].
    pose proof (place_nonneg q X Hq) as Hs. pose proof (rne_between X (place q X) Hs).
    pose proof (Z.div_pos X (2 ^ place q X) HX ltac:(lia)).
    assert (X / 2 ^ place q X < 2 ^ 53); [|lia]. apply Z.div_lt_upper_bound; [lia|].
    rewrite <- Z.pow_add_r by lia. apply Z.log2_lt_pow2; [lia|]. unfold place. lia.
Qed.

(** A non-negative finite double. *)
Definition dbl (f : double) : Prop := nonneg f /\ representable 1074 (units f).

Lemma value_scale f : nonneg f -> value 2148 f = units f * 2 ^ 1074.
Proof.
  destruct f as [[]| | |[] m e]; cbn -[Z.pow]; try done. intros He.
  rewrite <- Z.mul_assoc, <- Z.pow_add_r by lia. do 2 f_equal. lia.
Qed.

Lemma dbl_of_rnd f X : nonneg f -> 0 <= X -> units f = rnd 1074 X -> dbl f /\ units f = rnd 1074 X.
Proof. intros Hn HX E. split; [|done]. split; [done|]. rewrite E. by apply rnd_representable. Qed.

Lemma of_int_dbl z : 0 <= z < 2 ^ 64 -> dbl (of_int z) /\ units (of_int z) = rnd 1074 (z * 2 ^ 1074).
Proof. intros Hz. destruct (of_int_spec z Hz) as [Hn E]. apply dbl_of_rnd; [done|lia|done]. Qed.

Lemma of_int_small z : 0 <= z <= 2 ^ 53 -> dbl (of_int z) /\ units (of_int z) = z * 2 ^ 1074.
Proof.
  intros Hz. destruct (of_int_exact z Hz) as [Hn E]. split; [|done]. split; [done|]. rewrite E. by exists z, 1074.
Qed.

Lemma dadd_spec a b :
  dbl a -> dbl b -> units a + units b < 2 ^ 1874 ->
  dbl (dadd a b) /\ units (dadd a b) = rnd 1074 (units a + units b).
Proof.
  intros [Ha Ra] [Hb Rb] Hs. pose proof (units_nonneg a Ha). pose proof (units_nonneg b Hb).
  destruct a as [[]| | |[] ma ea]; try done; destruct b as [[]| | |[] mb eb]; try done.
  - cbn [dadd SFadd]. change (units (S754_zero false)) with 0. rewrite Z.add_0_l, rnd_representable_id by (done || lia).
    by split.
  - cbn [dadd SFadd]. change (units (S754_zero false)) with 0. rewrite Z.add_0_r, rnd_representable_id by (done || lia).
    by split.
  - cbn in Ha, Hb. set (ez := Z.min ea eb).
    rewrite <- (aligned 1074 false ma ea ez), <- (aligned 1074 false mb eb ez), <- Z.mul_add_distr_r in * by lia.
    destruct (normalize_spec 1074 _ ez ltac:(lia) ltac:(lia) (Pos2Z.is_nonneg (_ + _)) Hs) as [Hn E].
    by apply dbl_of_rnd; [exact Hn|lia|exact E].
Qed.

Lemma dsub_spec a b :
  dbl a -> dbl b -> units b <= units a < 2 ^ 1874 ->
  dbl (dsub a b) /\ units (dsub a b) = rnd 1074 (units a - units b).
Proof.
  intros [Ha Ra] [Hb Rb] Hs. pose proof (units_nonneg a Ha). pose proof (units_nonneg b Hb).
  destruct a as [[]| | |[] ma ea]; try done; destruct b as [[]| | |[] mb eb]; try done.
  - exfalso. cbn -[Z.pow] in *. pose proof (Z.pow_pos_nonneg 2 (eb + 1074) ltac:(lia) ltac:(lia)). nia.
  - cbn [dsub SFsub]. change (units (S754_zero false)) with 0. rewrite Z.sub_0_r, rnd_representable_id by (done || lia).
    by split.
  - cbn in Ha, Hb. set (ez := Z.min ea eb).
    pose proof (Z.pow_pos_nonneg 2 (ez + 1074) ltac:(lia) ltac:(lia)) as Hp.
    rewrite <- (aligned 1074 false ma ea ez), <- (aligned 1074 false mb eb ez), <- Z.mul_sub_distr_r in * by lia.
    destruct (normalize_spec 1074 (Zpos (fst (shl_align ma ea ez)) - Zpos (fst (shl_align mb eb ez))) ez) as [Hn E];
      [lia|lia|nia|nia|]. by apply dbl_of_rnd; [exact Hn|nia|exact E].
Qed.

Lemma dmul_spec a b :
  dbl a -> dbl b -> units a * units b < 2 ^ 2948 ->
  dbl (dmul a b) /\ units (dmul a b) * 2 ^ 1074 = rnd 2148 (units a * units b).
Proof.
  intros [Ha _] [Hb _] Hs. pose proof (units_nonneg a Ha). pose proof (units_nonneg b Hb).
  assert (Hv : nonneg (dmul a b) /\ value 2148 (dmul a b) = rnd 2148 (units a * units b)).
  { destruct a as [[]| | |[] ma ea]; try done; destruct b as [[]| | |[] mb eb]; try done;
      try (cbn [value]; rewrite ?Z.mul_0_l, ?Z.mul_0_r; done).
    cbn in Ha, Hb. cbn [dmul SFmul xorb].
    assert (E : units (S754_finite false ma ea) * units (S754_finite false mb eb) = Zpos (ma * mb) * 2 ^ (ea + eb + 2148)).
    { cbn [value]. rewrite Pos2Z.inj_mul. replace (ea + eb + 2148) with ((ea + 1074) + (eb + 1074)) by lia.
      rewrite (Z.pow_add_r 2 (ea + 1074) (eb + 1074)) by lia. ring. }
    rewrite E in *. apply round_aux_spec; lia. }
  destruct Hv as [Hn E]. rewrite value_scale in E by done. split; [|done]. split; [done|].
  destruct (rnd_representable 2148 (units a * units b)) as (m & t & E' & Hm & Ht); [lia|nia|].
  exists m, (t - 1074). split; [|lia]. rewrite <- E in E'.
  rewrite (pow_split 1074 t) in E' by lia. pose proof (Z.pow_pos_nonneg 2 1074). nia.
Qed.

(** ** Canonical results and comparison *)

Lemma finite_valid m e :
  fexp 53 1024 (Zpos (digits2_pos m) + e) = e -> e <= 971 -> valid_binary 53 1024 (S754_finite false m e) = true.
Proof. intros E He. cbn. unfold bounded, canonical_mantissa. rewrite E. lia. Qed.

Lemma round_aux_valid m e :
  e <= fexp 53 1024 (Zpos (digits2_pos m) + e) -> Zpos (digits2_pos m) + e <= 900 ->
  valid_binary 53 1024 (binary_round_aux 53 1024 false (Zpos m) e loc_Exact) = true.
Proof.
  intros He HD. unfold binary_round_aux. unfold shr_fexp at 1. cbn [Zdigits2 shr_record_of_loc].
  pose proof (fexp_min (Zpos (digits2_pos m) + e)) as Hmin. rewrite digits_log2 in *.
  set (e' := fexp 53 1024 (Z.log2 (Zpos m) + 1 + e)) in *.
  assert (Hsh : let '(x, e1) := shr {| shr_m := Zpos m; shr_r := false; shr_s := false |} e (e' - e) in
    e1 = e' /\ round_nearest_even (shr_m x) (loc_of_shr_record x) = rne (Zpos m) (e' - e)).
  { unfold shr. destruct (e' - e) as [|p|p] eqn:Ek; [| |lia].
    - split; [lia|]. unfold rne. rewrite Z.pow_0_r, Z.mod_1_r, Z.div_1_r. done.
    - split; [lia|]. apply round_shifted.
      replace (Zpos p) with (0 + Zpos p) by lia. apply iter_pos_inv; [apply shifted_step|].
      split; [done|]. split; [done|]. exists 0. cbn. lia. }
  destruct (shr _ e (e' - e)) as [x e1]. destruct Hsh as [-> ->].
  pose proof (rne_between (Zpos m) (e' - e) ltac:(lia)) as Hr. pose proof (Z.log2_spec (Zpos m) ltac:(lia)) as [Hl1 Hl2].
  pose proof (Z.log2_nonneg (Zpos m)) as Hl0.
  assert (Hle : e' <= 900 /\ Z.log2 (Zpos m) - 52 <= e' - e) by (unfold e', fexp, emin in *; lia).
  assert (Hd1 : 0 <= Zpos m / 2 ^ (e' - e) < 2 ^ 53).
  { split; [by apply Z.div_pos; lia|]. apply Z.div_lt_upper_bound; [lia|]. rewrite <- Z.pow_add_r by lia.
    eapply Z.lt_le_trans; [exact Hl2|]. apply Z.pow_le_mono_r; lia. }
  assert (Hd2 : -1074 < e' -> 2 ^ 52 <= Zpos m / 2 ^ (e' - e)).
  { intros Hgt. assert (Z.log2 (Zpos m) = e' - e + 52) as E by (unfold e', fexp, emin in *; lia).
    apply Z.div_le_lower_bound; [lia|]. rewrite <- Z.pow_add_r by lia. by rewrite <- E. }
  set (m' := rne (Zpos m) (e' - e)) in *. clearbody m'. unfold shr_fexp. cbn [shr_record_of_loc].
  destruct (Z.eq_dec m' (2 ^ 53)) as [->|Hne].
  - change (Zdigits2 (2 ^ 53)) with 54. replace (fexp 53 1024 (54 + e') - e') with 1 by (unfold fexp, emin; lia).
    cbn [shr SpecFloat.iter_pos]. change (shr_m _) with (2 ^ 52).
    destruct (Z.leb_spec (e' + 1) (1024 - 53)); [|done]. apply (finite_valid (2 ^ 52)); [|lia].
    change (Zpos (digits2_pos (2 ^ 52))) with 53. unfold fexp, emin. lia.
  - destruct m' as [|p|p]; [|cbn [Zdigits2]; rewrite digits_log2|lia].
    { cbn [Zdigits2]. replace (shr _ e' _) with ({| shr_m := 0; shr_r := false; shr_s := false |}, e');
        [done|]. unfold shr. destruct (fexp 53 1024 (0 + e') - e') eqn:E; try done. unfold fexp, emin in E. lia. }
    assert (Hp1 : Z.log2 (Zpos p) < 53) by (apply Z.log2_lt_pow2; lia).
    assert (Hp2 : -1074 < e' -> Z.log2 (Zpos p) = 52).
    { intros Hgt. specialize (Hd2 Hgt). assert (52 <= Z.log2 (Zpos p)); [|lia].
      apply Z.log2_le_pow2; lia. }
    assert (Hfx : fexp 53 1024 (Z.log2 (Zpos p) + 1 + e') = e') by (unfold fexp, emin; lia).
    rewrite Hfx, Z.sub_diag. cbn [shr shr_m]. destruct (Z.leb_spec e' (1024 - 53)); [|done].
    apply finite_valid; [by rewrite digits_log2|lia].
Qed.

Lemma binary_round_valid m e :
  Zpos (digits2_pos m) + e <= 900 -> valid_binary 53 1024 (binary_round 53 1024 false m e) = true.
Proof.
  intros HD. unfold binary_round. set (t := fexp 53 1024 (Zpos (digits2_pos m) + e)).
  pose proof (shl_align_spec (Z.abs e + Z.abs t) m e t ltac:(lia) ltac:(lia)) as Ha.
  destruct (shl_align m e t) as [mz ez]. destruct Ha as [-> E].
  assert (HDz : Zpos (digits2_pos mz) + Z.min e t = Zpos (digits2_pos m) + e).
  { apply (f_equal Z.log2) in E. rewrite !Z.log2_mul_pow2 in E by lia. rewrite !digits_log2. lia. }
  apply round_aux_valid; rewrite HDz; [|done]. fold t. lia.
Qed.

Lemma of_int_valid z : 0 <= z < 2 ^ 64 -> valid_binary 53 1024 (of_int z) = true.
Proof.
  intros Hz. destruct z as [|m|m]; [done| |lia]. apply binary_round_valid. rewrite digits_log2.
  assert (Z.log2 (Zpos m) < 64) by (apply Z.log2_lt_pow2; lia). lia.
Qed.

(** The product of two normal numbers. *)
Lemma dmul_valid ma ea mb eb :
  2 ^ 52 <= Zpos ma < 2 ^ 53 -> 2 ^ 52 <= Zpos mb < 2 ^ 53 -> ea + eb <= 700 ->
  valid_binary 53 1024 (dmul (S754_finite false ma ea) (S754_finite false mb eb)) = true.
Proof.
  intros Ha Hb He. cbn [dmul SFmul xorb]. apply round_aux_valid; rewrite digits_log2, Pos2Z.inj_mul.
  - assert (104 <= Z.log2 (Zpos ma * Zpos mb)); [|unfold fexp; lia]. apply Z.log2_le_pow2; nia.
  - assert (Z.log2 (Zpos ma * Zpos mb) < 106); [|lia]. apply Z.log2_lt_pow2; nia.
Qed.

Lemma valid_mantissa m e :
  valid_binary 53 1024 (S754_finite false m e) = true ->
  Zpos m < 2 ^ 53 /\ -1074 <= e /\ (-1074 < e -> 2 ^ 52 <= Zpos m).
Proof.
  cbn. unfold bounded, canonical_mantissa. intros [Hc _]%andb_true_iff. apply Z.eqb_eq in Hc.
  unfold fexp, emin in Hc. rewrite digits_log2 in Hc. pose proof (Z.log2_spec (Zpos m) ltac:(lia)) as [H1 H2].
  split; [|split; [lia|]].
  - apply Z.log2_lt_pow2; lia.
  - intros Hgt. by replace 52 with (Z.log2 (Zpos m)) by lia.
Qed.

Lemma lt_of_exponents m1 e1 m2 e2 :
  valid_binary 53 1024 (S754_finite false m1 e1) = true -> valid_binary 53 1024 (S754_finite false m2 e2) = true ->
  e1 < e2 -> units (S754_finite false m1 e1) < units (S754_finite false m2 e2).
Proof.
  intros (H1 & H2 & _)%valid_mantissa (_ & _ & H3)%valid_mantissa He. specialize (H3 ltac:(lia)). cbn [value].
  replace (e2 + 1074) with ((e2 - e1) + (e1 + 1074)) by lia.
  pose proof (Z.pow_pos_nonneg 2 (e1 + 1074) ltac:(lia) ltac:(lia)).
  rewrite (Z.pow_add_r 2 (e2 - e1) (e1 + 1074)) by lia.
  assert (2 <= 2 ^ (e2 - e1)) by (change 2 with (2 ^ 1) at 1; apply Z.pow_le_mono_r; lia).
  assert (Zpos m1 < Zpos m2 * 2 ^ (e2 - e1)) by nia. nia.
Qed.

Lemma dltb_spec a b :
  nonneg a -> nonneg b -> valid_binary 53 1024 a = true -> valid_binary 53 1024 b = true ->
  dltb a b = (units a <? units b).
Proof.
  intros Ha Hb Va Vb. destruct a as [[]| | |[] ma ea]; try done; destruct b as [[]| | |[] mb eb]; try done.
  - cbn -[Z.pow]. symmetry. apply Z.ltb_lt. apply Z.mul_pos_pos; [lia|]. apply Z.pow_pos_nonneg; cbn in *; lia.
  - cbn -[Z.pow]. symmetry. apply Z.ltb_ge. lia.
  - unfold dltb, SFltb, SFcompare. destruct (Z.compare_spec ea eb) as [->|Hlt|Hgt].
    + change (Pos.compare_cont Eq ma mb) with (Pos.compare ma mb). cbn [value].
      assert (0 < 2 ^ (eb + 1074)) by (apply Z.pow_pos_nonneg; cbn in *; lia).
      destruct (Pos.compare_spec ma mb) as [->|H1|H1]; symmetry; [apply Z.ltb_irrefl|apply Z.ltb_lt|apply Z.ltb_ge]; nia.
    + symmetry. apply Z.ltb_lt. by apply lt_of_exponents.
    + symmetry. apply Z.ltb_ge. apply Z.lt_le_incl. by apply lt_of_exponents.
Qed.

(** A number has one representation. *)
Lemma units_inj a b :
  nonneg a -> nonneg b -> valid_binary 53 1024 a = true -> valid_binary 53 1024 b = true -> units a = units b -> a = b.
Proof.
  intros Ha Hb Va Vb E. assert (Hpos : forall m e, -1074 <= e -> 0 < units (S754_finite false m e)).
  { intros m e He. cbn [value]. apply Z.mul_pos_pos; [lia|]. apply Z.pow_pos_nonneg; lia. }
  destruct a as [[]| | |[] ma ea]; try done; destruct b as [[]| | |[] mb eb]; try done.
  - pose proof (Hpos mb eb Hb). rewrite <- E in *. done.
  - pose proof (Hpos ma ea Ha). rewrite E in *. done.
  - destruct (Z.lt_trichotomy ea eb) as [Hlt|[->|Hlt]].
    + pose proof (lt_of_exponents _ _ _ _ Va Vb Hlt). lia.
    + cbn [value] in E. apply Z.mul_reg_r in E; [by injection E as ->|].
      apply Z.pow_nonzero; [done|]. cbn in Ha. lia.
    + pose proof (lt_of_exponents _ _ _ _ Vb Va Hlt). lia.
Qed.

Lemma dadd_valid a b :
  nonneg a -> nonneg b -> valid_binary 53 1024 a = true -> valid_binary 53 1024 b = true ->
  units a + units b < 2 ^ 1874 -> valid_binary 53 1024 (dadd a b) = true.
Proof.
  intros Ha Hb Va Vb Hs. destruct a as [[]| | |[] ma ea]; try done; destruct b as [[]| | |[] mb eb]; try done.
  cbn in Ha, Hb. set (ez := Z.min ea eb).
  rewrite <- (aligned 1074 false ma ea ez), <- (aligned 1074 false mb eb ez), <- Z.mul_add_distr_r in Hs by lia.
  cbn [dadd SFadd]. fold ez. set (p := (fst (shl_align ma ea ez) + fst (shl_align mb eb ez))%positive).
  change (Zpos (fst (shl_align ma ea ez)) + Zpos (fst (shl_align mb eb ez))) with (Zpos p) in Hs |- *. apply binary_round_valid. rewrite digits_log2.
  assert (Hl : Z.log2 (Zpos p) + (ez + 1074) < 1874).
  { rewrite (Z.add_comm (Z.log2 _)), <- Z.log2_mul_pow2 by lia. apply Z.log2_lt_pow2; [|exact Hs]. apply Z.mul_pos_pos; [lia|]. apply Z.pow_pos_nonneg; lia. }
  fold p. lia.
Qed.

(** Sums of integers are exact up to [2^53]. *)
Lemma dadd_ints a b : 0 <= a -> 0 <= b -> a + b <= 2 ^ 53 -> dadd (of_int a) (of_int b) = of_int (a + b).
Proof.
  intros Ha Hb Hs. destruct (of_int_small a) as [Da Ea]; [lia|]. destruct (of_int_small b) as [Db Eb]; [lia|].
  destruct (of_int_small (a + b)) as [Ds Es]; [lia|].
  assert (Hsum : units (of_int a) + units (of_int b) < 2 ^ 1874).
  { rewrite Ea, Eb, <- Z.mul_add_distr_r. apply (Z.le_lt_trans _ (2 ^ 53 * 2 ^ 1074)); [|done].
    apply Z.mul_le_mono_nonneg_r; lia. }
  destruct (dadd_spec _ _ Da Db Hsum) as [Dd Ed]. apply units_inj; [apply Dd|apply Ds| |apply of_int_valid; lia|].
  - apply dadd_valid; [apply Da|apply Db|apply of_int_valid; lia..|done].
  - rewrite Ed, Ea, Eb, Es, <- Z.mul_add_distr_r. apply rnd_representable_id; [lia|]. exists (a + b), 1074. lia.
Qed.

(** ** Truncation *)

Lemma to_u64_spec f :
  nonneg f -> units f < 18446744073709551616 * 2 ^ 1074 -> to_u64 f = Some (units f / 2 ^ 1074).
Proof.
  intros Hn Hb. destruct f as [[]| | |[] m e]; try done. cbn [to_u64 nonneg] in *.
  assert (E : Z.shiftl (Zpos m) e = units (S754_finite false m e) / 2 ^ 1074).
  { cbn [value]. destruct (Z.leb_spec 0 e).
    - rewrite Z.shiftl_mul_pow2, Z.pow_add_r, Z.mul_assoc, Z.div_mul by lia. done.
    - replace e with (- (- e)) at 1 by lia. rewrite Z.shiftl_opp_r, Z.shiftr_div_pow2 by lia.
      rewrite (pow_split (e + 1074) 1074), Z.div_mul_cancel_r by lia. do 2 f_equal. lia. }
  rewrite E. destruct (Z.ltb_spec (units (S754_finite false m e) / 2 ^ 1074) 18446744073709551616) as [|Hge]; [done|].
  pose proof (Z.div_lt_upper_bound (units (S754_finite false m e)) (2 ^ 1074) 18446744073709551616). lia.
Qed.
