(* ===== verification/Latency.v ===== *)
(** * Latency percentiles: [user/vpipe-vcam-runner.c], lines 171-203

    The runner sorts its latency samples and interpolates percentiles in
    [double]. Proved: the samples used are inside the array, the result lies
    between them, and a higher percentile is never smaller. *)

From stdpp Require Import sorting.
From Stdlib Require Import SpecFloat.
From S2P Require Import Prelude Double.

Module Latency.

(** ** The code *)

Definition cmp_u64 (x y : Z) : Z := (if y <? x then 1 else 0) - (if x <? y then 1 else 0).

(** [qsort] of the samples with [cmp_u64]: the array in the order of the
    comparison. Equal keys are equal values, so there is one such array. *)
Definition before (x y : Z) : Prop := cmp_u64 x y <= 0.
#[export] Instance before_dec : RelDecision before.
Proof. intros x y. apply Z_le_dec. Defined.
Definition qsort (l : list Z) : list Z := merge_sort before l.

(** [(double) a + ((double) b - (double) a) * frac]. *)
Definition interpolate (a b : Z) (frac : double) : double :=
  dadd (of_int a) (dmul (dsub (of_int b) (of_int a)) frac).

(** [None] is an access outside the array or an undefined conversion. *)
Definition percentile (sorted : list Z) (n : Z) (pct : double) : option Z :=
  if n =? 0 then Some 0
  else if n =? 1 then sorted !! 0%nat
  else
    let rank := dmul (of_int (n - 1)) pct in
    match to_u64 rank with
    | None => None
    | Some lo =>
        let hi := if dltb (of_int lo) rank then u64 (lo + 1) else lo in
        let hi := if n <=? hi then n - 1 else hi in
        let frac := dsub rank (of_int lo) in
        match sorted !! Z.to_nat lo, sorted !! Z.to_nat hi with
        | Some a, Some b => to_u64 (interpolate a b frac)
        | _, _ => None
        end
    end.

(** The literals [0.5], [0.95] and [0.99]: the nearest doubles. *)
Definition fraction (m : positive) : double := S754_finite false m (-53).
Definition p50 : double := fraction 4503599627370496.
Definition p95 : double := fraction 8556839292003942.
Definition p99 : double := fraction 8917127262193582.

Lemma literals_nearest :
  p50 = ddiv (of_int 5) (of_int 10) /\ p95 = ddiv (of_int 95) (of_int 100) /\ p99 = ddiv (of_int 99) (of_int 100).
Proof. vm_compute. done. Qed.

(** ** Sorting *)

Lemma before_le x y : before x y <-> x <= y.
Proof. unfold before, cmp_u64. zbool; lia. Qed.

#[local] Instance before_total : Total before.
Proof. intros x y. rewrite !before_le. lia. Qed.
#[local] Instance before_trans : Transitive before.
Proof. intros x y z. rewrite !before_le. lia. Qed.

Lemma qsort_perm l : qsort l ≡ₚ l.
Proof. apply merge_sort_Permutation. Qed.

(** Ascending, by positions. *)
Definition ascending (l : list Z) : Prop :=
  forall i j x y, (i <= j)%nat -> l !! i = Some x -> l !! j = Some y -> x <= y.

Lemma strongly_ascending l : StronglySorted before l -> ascending l.
Proof.
  induction 1 as [|a l Hs IH Ha]; intros [|i] [|j] x y Hij Hx Hy; try done; cbn in Hx, Hy; try lia.
  - injection Hx as ->. injection Hy as ->. lia.
  - injection Hx as ->. apply before_le. rewrite Forall_lookup in Ha. by eapply Ha.
  - eapply (IH i j); [lia|done|done].
Qed.

Lemma qsort_ascending l : ascending (qsort l).
Proof. apply strongly_ascending, StronglySorted_merge_sort; apply _. Qed.

(** ** The interpolation

    Everything is in units of [2^-1074]. *)

Local Abbreviation K := (2 ^ 1074).

Lemma K_pos : 0 < K.
Proof. by apply Z.pow_pos_nonneg. Qed.

(** A representable number of whole units. *)
Lemma whole_representable z : 0 <= z <= 2 ^ 53 -> representable 1074 (z * K).
Proof. intros Hz. by exists z, 1074. Qed.

Lemma fraction_dbl m : 2 ^ 52 <= Zpos m < 2 ^ 53 -> dbl (fraction m) /\ 0 <= units (fraction m) <= K.
Proof.
  intros Hm. assert (E : units (fraction m) = Zpos m * 2 ^ 1021) by done. rewrite E. split.
  - split; [done|]. rewrite E. exists (Zpos m), 1021. lia.
  - split; [lia|]. change K with (2 ^ 53 * 2 ^ 1021). apply Z.mul_le_mono_nonneg_r; lia.
Qed.

(** A factor of at most one. *)
Lemma scaled_spec x f :
  dbl x -> dbl f -> units x < 2 ^ 64 * K -> 0 <= units f <= K ->
  dbl (dmul x f) /\ units (dmul x f) * K = rnd 2148 (units x * units f) /\ 0 <= units (dmul x f) <= units x.
Proof.
  intros Hx Hf Hb HF. pose proof K_pos. pose proof (units_nonneg x (proj1 Hx)) as Hx0.
  destruct (dmul_spec x f Hx Hf) as [Hd E].
  { apply (Z.lt_le_trans _ (2 ^ 64 * K * K)); [nia|]. by compute. }
  split; [done|]. split; [done|]. split; [apply units_nonneg, Hd|].
  enough (units (dmul x f) * K <= units x * K) by nia. rewrite E. apply rnd_le; [lia|nia|].
  destruct Hx as [_ (m & t & -> & Hm & Ht)]. exists m, (t + 1074).
  rewrite Z.pow_add_r by lia. lia.
Qed.

Lemma scaled_mono x f g :
  dbl x -> dbl f -> dbl g -> units x < 2 ^ 64 * K -> units f <= units g <= K ->
  units (dmul x f) <= units (dmul x g).
Proof.
  intros Hx Hf Hg Hb Hfg. pose proof K_pos. pose proof (units_nonneg x (proj1 Hx)).
  pose proof (units_nonneg f (proj1 Hf)).
  destruct (scaled_spec x f Hx Hf Hb) as (_ & E1 & _); [lia|]. destruct (scaled_spec x g Hx Hg Hb) as (_ & E2 & _); [lia|].
  enough (units (dmul x f) * K <= units (dmul x g) * K) by nia. rewrite E1, E2. apply rnd_mono; [lia|nia].
Qed.

Lemma of_int_mono a b : 0 <= a <= b -> b <= 2 ^ 62 ->
  dbl (of_int a) /\ dbl (of_int b) /\ units (of_int a) <= units (of_int b) <= 2 ^ 62 * K.
Proof.
  intros Ha Hb. pose proof K_pos. destruct (of_int_dbl a) as [Da ->]; [lia|]. destruct (of_int_dbl b) as [Db ->]; [lia|].
  split; [done|]. split; [done|]. split; [apply rnd_mono; nia|]. apply rnd_le; [lia|nia|]. exists 1, (62 + 1074). lia.
Qed.

Section Interpolate.
Context (a b : Z) (Ha : 0 <= a <= b) (Hb : b <= 2 ^ 62).

Lemma difference_ok :
  let x := dsub (of_int b) (of_int a) in
  dbl x /\ units x = rnd 1074 (units (of_int b) - units (of_int a)) /\ units x <= 2 ^ 62 * K.
Proof.
  destruct (of_int_mono a b Ha Hb) as (Da & Db & Hle). pose proof (units_nonneg _ (proj1 Da)).
  destruct (dsub_spec (of_int b) (of_int a) Db Da) as [D E].
  { split; [lia|]. eapply Z.le_lt_trans; [apply Hle|]. by compute. }
  split; [done|]. split; [done|]. rewrite E. apply rnd_le; [lia|lia|]. exists 1, (62 + 1074). lia.
Qed.

Lemma interpolate_ok f :
  dbl f -> 0 <= units f <= K ->
  dbl (interpolate a b f) /\ units (interpolate a b f) <= 2 ^ 63 * K /\
  units (interpolate a b f) = rnd 1074 (units (of_int a) + units (dmul (dsub (of_int b) (of_int a)) f)).
Proof.
  intros Hf HF. destruct (of_int_mono a b Ha Hb) as (Da & Db & Hle). destruct difference_ok as (D & _ & HD).
  pose proof K_pos. destruct (scaled_spec _ f D Hf) as (G & _ & HG); [lia|done|].
  pose proof (units_nonneg _ (proj1 Da)).
  destruct (dadd_spec _ _ Da G) as [S E].
  { apply (Z.le_lt_trans _ (2 ^ 63 * K)); [lia|]. by compute. }
  split; [done|]. split; [|done]. unfold interpolate. rewrite E. apply rnd_le; [lia|lia|]. exists 1, (63 + 1074). lia.
Qed.

Lemma interpolate_defined f :
  dbl f -> 0 <= units f <= K -> to_u64 (interpolate a b f) = Some (units (interpolate a b f) / K).
Proof.
  intros Hf HF. pose proof K_pos. destruct (interpolate_ok f Hf HF) as ([Hn _] & Hle & _). apply to_u64_spec; [done|lia].
Qed.

Lemma interpolate_mono f g :
  dbl f -> dbl g -> 0 <= units f <= units g -> units g <= K ->
  units (interpolate a b f) / K <= units (interpolate a b g) / K.
Proof.
  intros Hf Hg HF HG. pose proof K_pos. destruct (of_int_mono a b Ha Hb) as (Da & _). destruct difference_ok as (D & _ & HD).
  pose proof (units_nonneg _ (proj1 Da)). destruct (scaled_spec _ f D Hf) as (_ & _ & HP); [lia|lia|].
  apply Z.div_le_mono; [done|]. destruct (interpolate_ok f Hf) as (_ & _ & ->); [lia|].
  destruct (interpolate_ok g Hg) as (_ & _ & ->); [lia|]. apply rnd_mono; [lia|]. split; [lia|].
  apply Z.add_le_mono_l, scaled_mono; done || lia.
Qed.

(** Exact samples: the result lies between them. *)
Lemma interpolate_between f :
  b <= 2 ^ 53 -> dbl f -> 0 <= units f <= K -> a <= units (interpolate a b f) / K <= b.
Proof.
  intros Hb' Hf HF. pose proof K_pos. destruct difference_ok as (D & E & HD).
  destruct (of_int_small a) as [_ Ea]; [lia|]. destruct (of_int_small b) as [_ Eb]; [lia|].
  rewrite Ea, Eb, <- Z.mul_sub_distr_r in E. rewrite rnd_representable_id in E by (lia || apply whole_representable; lia).
  destruct (scaled_spec _ f D Hf) as (_ & _ & HG); [lia|done|]. rewrite E in HG.
  destruct (interpolate_ok f Hf HF) as (_ & _ & ->). rewrite Ea.
  set (G := units (dmul _ f)) in *. clearbody G. split.
  - apply Z.div_le_lower_bound; [done|]. rewrite Z.mul_comm. apply rnd_ge; [lia|nia|]. apply whole_representable. lia.
  - rewrite <- (Z.div_mul b K) by lia. apply Z.div_le_mono; [done|]. apply rnd_le; [lia|nia|]. apply whole_representable. lia.
Qed.
End Interpolate.

(** ** The rank *)

Section Rank.
Context (N : Z) (HN : 1 <= N <= 2 ^ 32) (m : positive) (Hm : 2 ^ 52 <= Zpos m < 2 ^ 53).
Let rank : double := dmul (of_int N) (fraction m).

Lemma rank_ok : dbl rank /\ 0 <= units rank <= N * K.
Proof.
  pose proof K_pos. destruct (fraction_dbl m Hm) as [Df Hf]. destruct (of_int_small N) as [Dn En]; [lia|].
  destruct (scaled_spec _ _ Dn Df) as (Dr & _ & Hr); [nia|done|]. by rewrite En in Hr.
Qed.

Lemma rank_valid : valid_binary 53 1024 rank = true.
Proof.
  pose proof (of_int_valid N ltac:(lia)) as Hv. unfold rank. destruct (of_int_small N) as [[Dn _] En]; [lia|].
  destruct (of_int N) as [[]| | |[] mn en] eqn:E; try done.
  - apply dmul_valid; [|done|].
    + apply valid_mantissa in Hv as (H1 & H2 & H3). split; [|done]. apply H3.
      destruct (Z.eq_dec en (-1074)) as [->|]; [|lia]. cbn -[Z.pow] in En. pose proof K_pos. nia.
    + apply valid_mantissa in Hv as (H1 & H2 & H3). destruct (Z.leb_spec en 60); [lia|]. exfalso.
      cbn -[Z.pow] in En. specialize (H3 ltac:(lia)). pose proof K_pos.
      assert (2 ^ (60 + 1074) <= 2 ^ (en + 1074)) by (apply Z.pow_le_mono_r; lia).
      rewrite Z.pow_add_r in * by lia. nia.
Qed.

(** The sample below the rank, the one above it, and the position between. *)
Lemma rank_split :
  exists lo, to_u64 rank = Some lo /\ lo = units rank / K /\ 0 <= lo <= N /\
    dltb (of_int lo) rank = (lo * K <? units rank) /\
    dbl (dsub rank (of_int lo)) /\ units (dsub rank (of_int lo)) = rnd 1074 (units rank - lo * K) /\
    0 <= units (dsub rank (of_int lo)) <= K.
Proof.
  pose proof K_pos as HK. destruct rank_ok as [Dr Hr]. exists (units rank / K). set (lo := units rank / K).
  pose proof (Z.div_mod (units rank) K ltac:(lia)) as Hdm. fold lo in Hdm. pose proof (Z.mod_pos_bound (units rank) K HK) as Hmod.
  assert (Hlo : 0 <= lo <= N) by (split; [apply Z.div_pos; [apply Hr|exact HK]|]; apply Z.div_le_upper_bound; lia).
  assert (Hbig : units rank <= 2 ^ 32 * K).
  { etransitivity; [apply Hr|]. apply Z.mul_le_mono_nonneg_r; lia. }
  destruct (of_int_small lo) as [Dl El]; [lia|].
  split; [apply to_u64_spec; [apply Dr|lia]|]. split; [done|]. split; [done|].
  split; [rewrite <- El; apply dltb_spec; [apply Dl|apply Dr|apply of_int_valid; lia|apply rank_valid]|].
  destruct (dsub_spec rank (of_int lo) Dr Dl) as [Ds Es].
  { rewrite El. split; [lia|]. eapply Z.le_lt_trans; [exact Hbig|]. by compute. }
  split; [done|]. rewrite <- El. split; [done|]. split; [apply units_nonneg, Ds|]. rewrite Es, El.
  apply rnd_le; [lia|lia|]. rewrite <- (Z.mul_1_l K). apply whole_representable. lia.
Qed.
End Rank.

(** ** Percentiles of sorted samples *)

Section Percentile.
Context (l : list Z) (Hup : ascending l) (Hlen : (1 <= length l)%nat) (Hmax : Z.of_nat (length l) <= 2 ^ 32).
Let n : Z := Z.of_nat (length l).

(** The sample at a rank of the array. *)
Definition sample (i : Z) (x : Z) : Prop := 0 <= i < n /\ l !! Z.to_nat i = Some x.

Lemma sample_le i j x y : sample i x -> sample j y -> i <= j -> x <= y.
Proof. intros [Hi Hx] [Hj Hy] Hij. eapply (Hup (Z.to_nat i) (Z.to_nat j)); [lia|done|done]. Qed.

Lemma sample_at i : 0 <= i < n -> exists x, sample i x.
Proof.
  intros Hi. destruct (lookup_lt_is_Some_2 l (Z.to_nat i)) as [x Hx]; [unfold n in Hi; lia|]. by exists x.
Qed.

Definition rank_of (m : positive) : double := dmul (of_int (n - 1)) (fraction m).

(** Neighbouring samples, or twice the same, and the position between them. *)
Record located (m : positive) (lo hi a b : Z) (f : double) : Prop := {
  lc_lo : lo = units (rank_of m) / K;
  lc_hi : hi = if lo * K <? units (rank_of m) then lo + 1 else lo;
  lc_a : sample lo a;
  lc_b : sample hi b;
  lc_frac : dbl f /\ 0 <= units f <= K /\ units f = rnd 1074 (units (rank_of m) - lo * K)
}.

Lemma located_step (c : bool) lo hi : hi = (if c then lo + 1 else lo) -> lo <= hi <= lo + 1.
Proof. destruct c; lia. Qed.

Lemma percentile_located m :
  2 ^ 52 <= Zpos m < 2 ^ 53 -> 2 <= n ->
  exists lo hi a b f, located m lo hi a b f /\ percentile l n (fraction m) = to_u64 (interpolate a b f).
Proof.
  intros Hm Hn. destruct (rank_split (n - 1) ltac:(unfold n in *; lia) m Hm) as (lo & E & Elo & Hlo & Ecmp & Df & Ef & Hf).
  pose proof (rank_ok (n - 1) ltac:(unfold n in *; lia) m Hm) as [_ Hr]. fold (rank_of m) in *. pose proof K_pos as HK.
  set (hi := if lo * K <? units (rank_of m) then lo + 1 else lo).
  assert (Hhi : lo <= hi < n) by (unfold hi; destruct (Z.ltb_spec (lo * K) (units (rank_of m))); [nia|lia]).
  destruct (sample_at lo) as [a Ha]; [lia|]. destruct (sample_at hi) as [b Hb]; [lia|].
  exists lo, hi, a, b, (dsub (rank_of m) (of_int lo)). split; [by split|].
  unfold percentile. destruct (Z.eqb_spec n 0); [lia|]. destruct (Z.eqb_spec n 1); [lia|]. cbv zeta.
  fold (rank_of m). rewrite E, Ecmp.
  replace (if lo * K <? units (rank_of m) then u64 (lo + 1) else lo) with hi
    by (unfold hi; case_match; [rewrite u64_small; [done|unfold n in *; lia]|done]).
  destruct (Z.leb_spec n hi); [lia|]. destruct Ha as [_ ->], Hb as [_ ->]. done.
Qed.

(** No access outside the array and no undefined conversion. *)
Lemma percentile_defined m :
  2 ^ 52 <= Zpos m < 2 ^ 53 -> Forall (fun x => 0 <= x <= 2 ^ 62) l -> is_Some (percentile l n (fraction m)).
Proof.
  intros Hm Hl. destruct (Z.eq_dec n 1) as [E|E].
  - destruct (sample_at 0) as [x [_ Hx]]; [lia|]. unfold percentile. rewrite E. by exists x.
  - destruct (percentile_located m Hm) as (lo & hi & a & b & f & [_ Ehi Ha Hb (Df & Hf & _)] & ->); [unfold n in *; lia|].
    pose proof (located_step _ _ _ Ehi) as Hstep. pose proof (sample_le _ _ _ _ Ha Hb ltac:(lia)). destruct Ha as [_ Ha], Hb as [_ Hb].
    pose proof (Forall_lookup_1 _ _ _ _ Hl Ha). pose proof (Forall_lookup_1 _ _ _ _ Hl Hb). cbn in *.
    rewrite interpolate_defined; [done|lia|lia|done|done].
Qed.

Context (Hexact : Forall (fun x => 0 <= x <= 2 ^ 53) l).

Lemma sample_range i x : sample i x -> 0 <= x <= 2 ^ 53.
Proof. intros [_ Hx]. exact (Forall_lookup_1 _ _ _ _ Hexact Hx). Qed.

Lemma percentile_between m :
  2 ^ 52 <= Zpos m < 2 ^ 53 ->
  exists lo hi a b r, percentile l n (fraction m) = Some r /\ sample lo a /\ sample hi b /\
    lo <= hi <= lo + 1 /\ a <= r <= b.
Proof.
  intros Hm. destruct (Z.eq_dec n 1) as [E|E].
  - destruct (sample_at 0) as [x Hx]; [lia|]. exists 0, 0, x, x, x. split; [|by auto with lia].
    unfold percentile. rewrite E. apply Hx.
  - destruct (percentile_located m Hm) as (lo & hi & a & b & f & [_ Ehi Ha Hb (Df & Hf & _)] & E2); [unfold n in *; lia|].
    pose proof (located_step _ _ _ Ehi) as Hstep. pose proof (sample_le _ _ _ _ Ha Hb ltac:(lia)). pose proof (sample_range _ _ Ha). pose proof (sample_range _ _ Hb).
    exists lo, hi, a, b, (units (interpolate a b f) / K). rewrite E2.
    split; [apply interpolate_defined; done || lia|]. split; [done|]. split; [done|].
    split; [lia|]. apply interpolate_between; done || lia.
Qed.

Lemma rank_mono m m' :
  2 ^ 52 <= Zpos m <= Zpos m' -> Zpos m' < 2 ^ 53 -> units (rank_of m) <= units (rank_of m').
Proof.
  intros Hm Hm'. destruct (fraction_dbl m) as [D1 H1]; [lia|]. destruct (fraction_dbl m') as [D2 H2]; [lia|].
  destruct (of_int_small (n - 1)) as [Dn En]; [unfold n in *; lia|]. pose proof K_pos.
  apply scaled_mono; [done..| |]; [rewrite En; apply Z.mul_lt_mono_pos_r; [done|unfold n in *; lia]|].
  split; [|lia]. apply Z.mul_le_mono_nonneg_r; lia.
Qed.

(** A higher percentile is not smaller. *)
Lemma percentile_mono m m' r r' :
  2 ^ 52 <= Zpos m <= Zpos m' -> Zpos m' < 2 ^ 53 ->
  percentile l n (fraction m) = Some r -> percentile l n (fraction m') = Some r' -> r <= r'.
Proof.
  intros Hm Hm' Er Er'. destruct (Z.eq_dec n 1) as [E|E].
  { unfold percentile in *. rewrite E in *. cbn in *. assert (r = r') by congruence. lia. }
  destruct (percentile_located m) as (lo & hi & a & b & f & [Elo Ehi Ha Hb (Df & Hf & Ef)] & E1); [lia|unfold n in *; lia|].
  destruct (percentile_located m') as (lo' & hi' & a' & b' & f' & [Elo' Ehi' Ha' Hb' (Df' & Hf' & Ef')] & E1');
    [lia|unfold n in *; lia|].
  pose proof (rank_mono m m' Hm Hm') as HR. pose proof K_pos as HK.
  pose proof (Z.div_le_mono _ _ K HK HR) as Hll. rewrite <- Elo, <- Elo' in Hll.
  pose proof (located_step _ _ _ Ehi) as Hstep. pose proof (sample_le _ _ _ _ Ha Hb ltac:(lia)) as Hab.
  pose proof (located_step _ _ _ Ehi') as Hstep'. pose proof (sample_le _ _ _ _ Ha' Hb' ltac:(lia)) as Hab'.
  pose proof (sample_range _ _ Ha). pose proof (sample_range _ _ Hb).
  pose proof (sample_range _ _ Ha'). pose proof (sample_range _ _ Hb').
  rewrite E1, (interpolate_defined a b) in Er by (done || lia). injection Er as <-.
  rewrite E1', (interpolate_defined a' b') in Er' by (done || lia). injection Er' as <-.
  pose proof (interpolate_between a b ltac:(lia) ltac:(lia) f ltac:(lia) Df Hf) as Hi.
  pose proof (interpolate_between a' b' ltac:(lia) ltac:(lia) f' ltac:(lia) Df' Hf') as Hi'.
  destruct (Z.eq_dec lo lo') as [<-|Hne].
  - assert (a' = a) as -> by (destruct Ha as [_ Ha], Ha' as [_ Ha']; congruence).
    rewrite Ehi, Ehi' in *. destruct (Z.ltb_spec (lo * K) (units (rank_of m))) as [Hlt|Hge].
    + destruct (Z.ltb_spec (lo * K) (units (rank_of m'))); [|lia].
      assert (b' = b) as -> by (destruct Hb as [_ Hb], Hb' as [_ Hb']; congruence).
      apply interpolate_mono; [lia|lia|done|done| |lia]. rewrite Ef, Ef'. split; [apply rnd_nonneg; lia|]. apply rnd_mono; lia.
    + assert (b = a) by (destruct Ha as [_ Ha], Hb as [_ Hb]; congruence). lia.
  - assert (b <= a'); [|lia]. apply (sample_le _ _ _ _ Hb Ha'). lia.
Qed.
End Percentile.

(** ** The samples of a run *)

Lemma qsort_Forall (P : Z -> Prop) l : Forall P l -> Forall P (qsort l).
Proof. intros Hl. by rewrite (qsort_perm l). Qed.

Lemma length_qsort l : length (qsort l) = length l.
Proof. apply Permutation_length, qsort_perm. Qed.

Lemma percentile_of_samples lat m :
  2 ^ 52 <= Zpos m < 2 ^ 53 -> 1 <= Z.of_nat (length lat) <= 2 ^ 32 -> Forall (fun x => 0 <= x <= 2 ^ 62) lat ->
  is_Some (percentile (qsort lat) (Z.of_nat (length lat)) (fraction m)).
Proof.
  intros Hm Hn Hl. rewrite <- (length_qsort lat) in *.
  apply percentile_defined; [apply qsort_ascending|lia|lia|done|by apply qsort_Forall].
Qed.

(** The three percentiles of a run are in order. *)
Lemma percentiles_le lat r50 r95 r99 :
  1 <= Z.of_nat (length lat) <= 2 ^ 32 -> Forall (fun x => 0 <= x <= 2 ^ 53) lat ->
  percentile (qsort lat) (Z.of_nat (length lat)) p50 = Some r50 ->
  percentile (qsort lat) (Z.of_nat (length lat)) p95 = Some r95 ->
  percentile (qsort lat) (Z.of_nat (length lat)) p99 = Some r99 -> r50 <= r95 <= r99.
Proof.
  intros Hn Hl E1 E2 E3. apply qsort_Forall in Hl. rewrite <- (length_qsort lat) in *.
  split; (eapply (percentile_mono (qsort lat) (qsort_ascending lat) ltac:(lia) ltac:(lia) Hl); [| |eassumption..]); lia.
Qed.

(** C20: the latencies a run reports, for up to [2^32] samples below [2^53] ns
    (104 days). The sorted array is a permutation of the samples; the median,
    the 95th and the 99th percentile are computed without an access outside it
    and without overflow; each lies between two neighbouring samples of it, and
    lowest sample <= median <= p95 <= p99 <= highest sample, whatever the
    rounding of the [double] arithmetic did. *)
Theorem percentiles_ordered lat (Hn : 1 <= Z.of_nat (length lat) <= 2 ^ 32)
    (Hlat : Forall (fun x => 0 <= x <= 2 ^ 53) lat) :
  let s := qsort lat in
  let n := Z.of_nat (length lat) in
  s ≡ₚ lat /\
  exists r50 r95 r99, percentile s n p50 = Some r50 /\ percentile s n p95 = Some r95 /\ percentile s n p99 = Some r99 /\
    r50 <= r95 <= r99 /\ (exists x, x ∈ lat /\ Forall (Z.le x) lat /\ x <= r50) /\
    (exists x, x ∈ lat /\ Forall (fun y => y <= x) lat /\ r99 <= x) /\
    forall r, r ∈ [r50; r95; r99] -> exists i j a b, s !! i = Some a /\ s !! j = Some b /\
      (i <= j <= S i)%nat /\ a <= r <= b.
Proof.
  intros s n. split; [apply qsort_perm|]. pose proof (qsort_ascending lat) as Hup. pose proof (length_qsort lat) as El. fold s in Hup, El.
  assert (Hs : Forall (fun x => 0 <= x <= 2 ^ 53) s) by (by apply qsort_Forall). unfold n in *. clear n. rewrite <- El in *.
  destruct (percentile_between s Hup ltac:(lia) ltac:(lia) Hs 4503599627370496 ltac:(by split)) as (l1 & h1 & a1 & b1 & r1 & E1 & P1).
  destruct (percentile_between s Hup ltac:(lia) ltac:(lia) Hs 8556839292003942 ltac:(by split)) as (l2 & h2 & a2 & b2 & r2 & E2 & P2).
  destruct (percentile_between s Hup ltac:(lia) ltac:(lia) Hs 8917127262193582 ltac:(by split)) as (l3 & h3 & a3 & b3 & r3 & E3 & P3).
  exists r1, r2, r3. split; [exact E1|]. split; [exact E2|]. split; [exact E3|]. split.
  - rewrite El in E1, E2, E3. eapply (percentiles_le lat); [lia|done|done..].
  - split; [|split].
    + destruct (lookup_lt_is_Some_2 s 0%nat) as [x Hx]; [lia|]. exists x. split; [rewrite <- (qsort_perm lat); by eapply list_elem_of_lookup_2|].
      split; [|destruct P1 as ([_ Pa] & _ & _ & Hr); specialize (Hup 0%nat _ _ _ ltac:(lia) Hx Pa); lia].
      rewrite <- (qsort_perm lat). apply Forall_lookup. intros i y Hy. by apply (Hup 0%nat i); [lia|..].
    + destruct (lookup_lt_is_Some_2 s (length s - 1)) as [x Hx]; [lia|]. exists x. split; [rewrite <- (qsort_perm lat); by eapply list_elem_of_lookup_2|].
      split; [|destruct P3 as (_ & [Hi Pb] & _ & Hr); specialize (Hup (Z.to_nat h3) (length s - 1)%nat _ _ ltac:(lia) Pb Hx); lia].
      rewrite <- (qsort_perm lat). apply Forall_lookup. intros i y Hy. fold s in Hy.
      pose proof (lookup_lt_Some _ _ _ Hy). by apply (Hup i (length s - 1)%nat); [lia|..].
    + assert (Hnear : forall lo hi a b r, sample s lo a /\ sample s hi b /\ lo <= hi <= lo + 1 /\ a <= r <= b ->
        exists i j a b, s !! i = Some a /\ s !! j = Some b /\ (i <= j <= S i)%nat /\ a <= r <= b).
      { intros lo hi a b r ([Hlo Ha] & [Hhi Hb] & Hstep & Hr). exists (Z.to_nat lo), (Z.to_nat hi), a, b. by auto with lia. }
      intros r Hr. repeat (apply elem_of_cons in Hr as [->|Hr]); [by eapply Hnear..|by apply not_elem_of_nil in Hr].
Qed.

Lemma percentiles_ordered_witness :
  percentile (qsort [30; 10; 50; 20; 40]) 5 p50 = Some 30 /\
  percentile (qsort [30; 10; 50; 20; 40]) 5 p95 = Some 48 /\
  percentile (qsort [30; 10; 50; 20; 40]) 5 p99 = Some 49 /\
  exists r50 r95 r99, percentile (qsort [30; 10; 50; 20; 40]) 5 p50 = Some r50 /\
    percentile (qsort [30; 10; 50; 20; 40]) 5 p95 = Some r95 /\
    percentile (qsort [30; 10; 50; 20; 40]) 5 p99 = Some r99 /\ r50 <= r95 <= r99.
Proof.
  do 3 (split; [vm_compute; reflexivity|]).
  assert (Hn : 1 <= Z.of_nat (length [30; 10; 50; 20; 40]) <= 2 ^ 32) by (split; discriminate).
  assert (Hl : Forall (fun x => 0 <= x <= 2 ^ 53) [30; 10; 50; 20; 40]) by (repeat constructor; discriminate).
  destruct (percentiles_ordered [30; 10; 50; 20; 40] Hn Hl) as (_ & r50 & r95 & r99 & E1 & E2 & E3 & Hord & _).
  exists r50, r95, r99. exact (conj E1 (conj E2 (conj E3 Hord))).
Defined.
End Latency.
