(* ===== verification/Runner.v ===== *)
(** * The benchmark runner

    [user/vpipe-vcam-runner.c]: frames go through the mem2mem device with up to
    [out_depth] OUTPUT buffers in flight; a ring keyed by submission order
    keeps the time each frame was queued, one row per completed frame.

    At the end the latencies are sorted and summarised, and the summary is
    printed: standard output is the list of the calls of [printf], with their
    formats as in the source and their arguments. The messages on standard
    error are left out. *)

From Stdlib Require Import Ascii.
From S2P Require Import Prelude Types Cv Kernel Source Backends Lifecycle M2m M2mSpec Crc32 Pgm Wp Client Process VcamTest Double Latency.
Import Latency.

Module Runner.

Definition WIDTH : Z := 640.
Definition HEIGHT : Z := 480.
Definition STRIDE : Z := WIDTH.
Definition VPIPE_MAX_QUEUE_DEPTH : Z := 32.

Inductive source_kind := SRC_FIXTURE | SRC_VCAM.
Inductive buffer_kind := BUF_MMAP | BUF_DMABUF.
#[export] Instance source_kind_eq_dec : EqDecision source_kind.
Proof. solve_decision. Defined.
#[export] Instance buffer_kind_eq_dec : EqDecision buffer_kind.
Proof. solve_decision. Defined.

Record config := Config {
  frames : Z; fps : Z; queue_depth : Z; source : source_kind; verify_pattern : bool;
  device : list Z; csv : list Z
}.

Record run_stats := Stats {
  ok : bool; st_buffer : buffer_kind; st_source : source_kind; st_frames : Z; st_fps : Z;
  st_queue_depth : Z; out_inflight : Z; lat_median_ns : Z; lat_p95_ns : Z; lat_p99_ns : Z;
  meta_available : bool; occ_mean : double; occ_max : Z; dropped : Z;
  csum_checked : Z; csum_pass : Z; verify_checked : Z; verify_pass : Z
}.

(** ** Printing *)

Inductive arg := AU (n : Z) | AS (s : string) | AF (x : double).
#[export] Instance arg_eq_dec : EqDecision arg.
Proof. unfold EqDecision. unfold double. intros. unfold Decision. repeat decide equality. Defined.
Definition printf_call : Type := string * list arg.
Definition printf (format : string) (args : list arg) : printf_call := (format, args).

Definition source_name (s : source_kind) : string := match s with SRC_VCAM => "vcam" | SRC_FIXTURE => "fixture" end%string.
Definition buffer_name (b : buffer_kind) : string := match b with BUF_DMABUF => "dmabuf" | BUF_MMAP => "mmap" end%string.

(** [n / 1000.0]. *)
Definition to_us (n : Z) : double := ddiv (of_int n) (of_int 1000).
Definition verdict (b : bool) : arg := AS (if b then "PASS" else "FAIL")%string.

Definition print_summary (st : run_stats) : list printf_call :=
  ([(printf "frames=%u source=%s buffer=%s fps=%u queue_depth=%u inflight=%u\n"
      [AU (st_frames st); AS (source_name (st_source st)); AS (buffer_name (st_buffer st)); AU (st_fps st);
      AU (st_queue_depth st); AU (out_inflight st)]);
    (printf "latency_us   median=%.3f p95=%.3f p99=%.3f\n"
      [AF (to_us (lat_median_ns st)); AF (to_us (lat_p95_ns st)); AF (to_us (lat_p99_ns st))]);
    (printf "occupancy    mean=%.2f max=%u (in-flight)\n" [AF (occ_mean st); AU (occ_max st)])] ++
   (if meta_available st
    then [(printf "dropped      %u\n" [AU (dropped st)]);
          (printf "checksum     %s (%u/%u match)\n"
            [verdict (ztrue (csum_checked st) && (csum_pass st =? csum_checked st));
            AU (csum_pass st); AU (csum_checked st)])]
    else [(printf "dropped      n/a (no /dev/vpipe-meta)\n" []); (printf "checksum     n/a (no /dev/vpipe-meta)\n" [])]) ++
   (if ztrue (verify_checked st)
    then [(printf "pattern      %s (%u/%u match)\n"
            [verdict (verify_pass st =? verify_checked st); AU (verify_pass st); AU (verify_checked st)])]
    else [])).

Definition print_delta_us (label : string) (a_ns b_ns : Z) : list printf_call :=
  let a := to_us a_ns in
  let b := to_us b_ns in
  ([(printf "%-16s %-11.3f %-11.3f " [AS label; AF a; AF b])] ++
   (if ztrue a_ns then [(printf "%+.0f%%\n" [AF (dmul (ddiv (dsub b a) a) (of_int 100))])] else [(printf "n/a\n" [])])).

Definition print_comparison (mmap_st dmabuf_st : run_stats) : list printf_call :=
  (if negb (ok mmap_st) || negb (ok dmabuf_st)
   then [(printf "comparison unavailable: %s run failed\n" [AS (if negb (ok mmap_st) then "mmap" else "dmabuf")%string])]
   else
     [(printf "\nMMAP vs DMA-BUF (source=%s frames=%u fps=%u, lockstep in-flight=1 for fair transport)\n"
        [AS (source_name (st_source mmap_st)); AU (st_frames mmap_st); AU (st_fps mmap_st)]);
      (printf "%-16s %-11s %-11s %s\n" [AS "metric"; AS "mmap"; AS "dmabuf"; AS "delta"])] ++
     print_delta_us "median_lat_us" (lat_median_ns mmap_st) (lat_median_ns dmabuf_st) ++
     print_delta_us "p95_lat_us" (lat_p95_ns mmap_st) (lat_p95_ns dmabuf_st) ++
     print_delta_us "p99_lat_us" (lat_p99_ns mmap_st) (lat_p99_ns dmabuf_st) ++
     [(printf "%-16s %-11.2f %-11.2f\n" [AS "occupancy_mean"; AF (occ_mean mmap_st); AF (occ_mean dmabuf_st)])] ++
     (if meta_available mmap_st && meta_available dmabuf_st
      then [(printf "%-16s %-11u %-11u\n" [AS "dropped"; AU (dropped mmap_st); AU (dropped dmabuf_st)]);
            (printf "%-16s %-11s %-11s\n" [AS "checksum"; verdict (csum_pass mmap_st =? csum_checked mmap_st);
              verdict (csum_pass dmabuf_st =? csum_checked dmabuf_st)])]
      else [])).

Record pacer := Pacer { next_ns : Z; interval_ns : Z }.

(** [parse_uint]: [None] is the result -1. *)
Definition parse_uint (s : list Z) (min max : Z) : option Z := u32 <$> parse_uint_range s min max.

(** ** The pattern *)

(** What a loop over [i], [i + 1], ... writes, [g i] at each turn. *)
Fixpoint written (n : nat) (i : Z) (g : Z -> list Z) : list Z :=
  match n with O => [] | S n' => g i ++ written n' (i + 1) g end.

Definition pattern_row (offset y : Z) : list Z :=
  written (Z.to_nat WIDTH) 0 (fun x => [u8 (Z.land (u32 (u32 (x + y) + offset)) 0xFF)]).

(** The frame [fill_gradient] writes. *)
Definition gradient_bytes (offset : Z) : list Z :=
  <[0%nat := u8 (Z.land offset 0xFF)]> (written (Z.to_nat HEIGHT) 0 (pattern_row offset)).

(** [for (i = lo; n more turns; i++) if (!f(i)) return false], [None] being a
    fault. *)
Fixpoint scan (n : nat) (i : Z) (f : Z -> option bool) : option bool :=
  match n with
  | O => Some true
  | S n' => match f i with Some true => scan n' (i + 1) f | r => r end
  end.

Definition verify_px (cap : list Z) (offset y x : Z) : option bool :=
  (fun v => v =? u8 (Z.land (u32 (u32 (x + y) + offset)) 0xFF)) <$> cap !! Z.to_nat (y * STRIDE + x).

Definition verify_gradient (cap : list Z) : option bool :=
  match cap !! 0%nat with
  | None => None
  | Some offset => scan (Z.to_nat HEIGHT) 0 (fun y => scan (Z.to_nat WIDTH) 0 (verify_px cap offset y))
  end.

Section Runner.
Context `{V4l2} `{Posix}.

Definition fill_gradient (dst offset : Z) : F pworld unit := sys (store_bytes dst (gradient_bytes offset)).

(** ** Helpers *)

(** The sleep until the deadline is left out. *)
Definition pace (p : pacer) : F cproc pacer :=
  if negb (ztrue (interval_ns p)) then fret p
  else
    (next <- (if negb (ztrue (next_ns p)) then vpipe_now_monotonic_ns else fret (next_ns p));;
    fret (Pacer (u64 (next + interval_ns p)) (interval_ns p))).

Definition set_backend (fd backend : Z) : F cproc Z :=
  (a <- vpipe_xioctl fd (SET_BACKEND backend);; fret (a_ret a)).

Definition set_algo_none (fd : Z) : F cproc Z :=
  (a <- vpipe_xioctl fd (S_CTRL VPIPE_CID_ALGO VPIPE_ALGO_NONE);; fret (a_ret a)).

Definition queue_output_dmabuf (fd dmabuf_fd size : Z) : F cproc Z :=
  (a <- vpipe_xioctl fd (QBUF (Qbuf OUTPUT V4L2_MEMORY_DMABUF 0 dmabuf_fd (u32 size) (u32 size)));;
  fret (a_ret a)).

(** The entry is filled in when the result is 0. *)
Definition read_meta (meta_fd : Z) : F cproc (option vpipe_meta_entry) :=
  if meta_fd <? 0 then fret None
  else
    (r <- read_meta_entry meta_fd;;
    fret (if fst r =? sizeof_meta_entry then Some (snd r) else None)).

(** ** One run *)

(** What the run holds and what it keeps track of. *)
Record locals := Locals {
  fd : Z; meta_fd : Z; src_fd : Z;
  cap_bufs : list vpipe_mmap_buffer; out_bufs : list vpipe_mmap_buffer;
  out_streaming : bool; cap_streaming : bool; fp : bool; out_sizeimage : Z;
  qbuf_ring : list Z; lat : list Z; pacing : pacer; submitted : Z; completed : Z; st : run_stats;
  occ_sum : double
}.

Definition with_fds (a b c : Z) (f : locals) : locals :=
  Locals a b c (cap_bufs f) (out_bufs f) (out_streaming f) (cap_streaming f) (fp f) (out_sizeimage f)
    (qbuf_ring f) (lat f) (pacing f) (submitted f) (completed f) (st f) (occ_sum f).
Definition with_bufs (c o : list vpipe_mmap_buffer) (f : locals) : locals :=
  Locals (fd f) (meta_fd f) (src_fd f) c o (out_streaming f) (cap_streaming f) (fp f) (out_sizeimage f)
    (qbuf_ring f) (lat f) (pacing f) (submitted f) (completed f) (st f) (occ_sum f).
Definition with_streaming (o c : bool) (f : locals) : locals :=
  Locals (fd f) (meta_fd f) (src_fd f) (cap_bufs f) (out_bufs f) o c (fp f) (out_sizeimage f)
    (qbuf_ring f) (lat f) (pacing f) (submitted f) (completed f) (st f) (occ_sum f).
Definition with_fp (b : bool) (f : locals) : locals :=
  Locals (fd f) (meta_fd f) (src_fd f) (cap_bufs f) (out_bufs f) (out_streaming f) (cap_streaming f) b
    (out_sizeimage f) (qbuf_ring f) (lat f) (pacing f) (submitted f) (completed f) (st f) (occ_sum f).
Definition with_size (n : Z) (f : locals) : locals :=
  Locals (fd f) (meta_fd f) (src_fd f) (cap_bufs f) (out_bufs f) (out_streaming f) (cap_streaming f) (fp f) n
    (qbuf_ring f) (lat f) (pacing f) (submitted f) (completed f) (st f) (occ_sum f).
Definition with_track (ring l : list Z) (p : pacer) (sub com : Z) (s : run_stats) (f : locals) : locals :=
  Locals (fd f) (meta_fd f) (src_fd f) (cap_bufs f) (out_bufs f) (out_streaming f) (cap_streaming f) (fp f)
    (out_sizeimage f) ring l p sub com s (occ_sum f).
Definition with_occ (o : double) (f : locals) : locals :=
  Locals (fd f) (meta_fd f) (src_fd f) (cap_bufs f) (out_bufs f) (out_streaming f) (cap_streaming f) (fp f)
    (out_sizeimage f) (qbuf_ring f) (lat f) (pacing f) (submitted f) (completed f) (st f) o.

Section Run.
Context (cfg : config) (buffer : buffer_kind).

(** The arrays have 32 entries; the descriptors of the first [queue_depth] are
    set to -1. *)
Definition initial_bufs : list vpipe_mmap_buffer :=
  replicate (Z.to_nat (queue_depth cfg)) (MmapBuf 0 0 (-1)) ++
  replicate (32 - Z.to_nat (queue_depth cfg)) (MmapBuf 0 0 0).

Definition out_depth (inflight : Z) : Z :=
  let d := match buffer with BUF_DMABUF => 1 | BUF_MMAP => inflight end in
  let d := if queue_depth cfg <? d then queue_depth cfg else d in
  if d <? 1 then 1 else d.

Definition initial_stats (depth : Z) : run_stats :=
  Stats false buffer (source cfg) (frames cfg) (fps cfg) (queue_depth cfg) depth 0 0 0 false (of_int 0) 0 0 0 0 0 0.

Definition init (depth : Z) : locals :=
  Locals (-1) (-1) (-1) initial_bufs initial_bufs false false false 0 (replicate 32 0)
    (replicate (Z.to_nat (frames cfg)) 0) (Pacer 0 0) 0 0 (initial_stats depth) (of_int 0).

Definition negotiate : stage locals := fun f =>
  (x <- sys (open (device cfg));;
  let f := with_fds x (meta_fd f) (src_fd f) f in
  if x <? 0 then quit f
  else
    (r <- sys (set_backend (fd f) (match source cfg with
                                   | SRC_VCAM => VPIPE_BACKEND_VCAM_DERIVED
                                   | SRC_FIXTURE => VPIPE_BACKEND_FIXTURE
                                   end));;
    if r <? 0 then quit f
    else
      (r <- sys (vpipe_set_format (fd f) OUTPUT WIDTH HEIGHT V4L2_PIX_FMT_GREY);;
      if r <? 0 then quit f
      else
        (r <- sys (vpipe_set_format (fd f) CAPTURE WIDTH HEIGHT V4L2_PIX_FMT_GREY);;
        if r <? 0 then quit f
        else
          (size <- sys (vpipe_get_sizeimage (fd f) OUTPUT);;
          let f := with_size size f in
          if size =? 0 then quit f else go f))))).

Definition request : stage locals := fun f =>
  (o <- match buffer with
        | BUF_DMABUF =>
            (a <- sys (vpipe_xioctl (fd f) (REQBUFS OUTPUT 1 V4L2_MEMORY_DMABUF));; fret (a_ret a, out_bufs f))
        | BUF_MMAP => sys (vpipe_request_mmap_buffers (fd f) OUTPUT (queue_depth cfg) (out_bufs f))
        end;;
  let f := with_bufs (cap_bufs f) (snd o) f in
  if fst o <? 0 then quit f
  else
    (c <- sys (vpipe_request_mmap_buffers (fd f) CAPTURE (queue_depth cfg) (cap_bufs f));;
    let f := with_bufs (snd c) (out_bufs f) f in
    if fst c <? 0 then quit f else go f)).

Definition with_meta (b : bool) (s : run_stats) : run_stats :=
  Stats (ok s) (st_buffer s) (st_source s) (st_frames s) (st_fps s) (st_queue_depth s) (out_inflight s)
    (lat_median_ns s) (lat_p95_ns s) (lat_p99_ns s) b (occ_mean s) (occ_max s) (dropped s) (csum_checked s) (csum_pass s) (verify_checked s) (verify_pass s).

Definition prepare (csv : list Z) : stage locals := fun f =>
  (r <- sys (set_algo_none (fd f));;
  if r <? 0 then quit f
  else
    (b <- lib (vpipe_open_csv csv (Some (lit
       "frame,buffer_type,us_qbuf_ns,us_dqbuf_ns,us_latency_ns,meta_seq,source_ts_ns,qbuf_ts_ns,capture_done_ns,dqbuf_ts_ns,queue_depth,cpu_id,crc32_kernel,crc32_user,dropped,flags")));;
    let f := with_fp b f in
    if negb b then quit f
    else
      (m <- sys (open (lit "/dev/vpipe-meta"));;
      go (with_track (qbuf_ring f) (lat f) (pacing f) (submitted f) (completed f)
            (with_meta (0 <=? m) (st f)) (with_fds (fd f) m (src_fd f) f))))).

(** The body of the loop that queues the CAPTURE buffers. *)
Definition enqueue (i : Z) : stage locals := fun f =>
  (r <- sys (vpipe_queue_mmap_buffer (fd f) CAPTURE V4L2_MEMORY_MMAP i (-1));;
  if r <? 0 then quit f else go f).

(** Streaming on, the exported buffer, and the pacer. *)
Definition start : stage locals := fun f =>
  (a <- sys (vpipe_xioctl (fd f) (STREAMON CAPTURE));;
  if a_ret a <? 0 then quit f
  else
    (let f := with_streaming (out_streaming f) true f in
    a <- sys (vpipe_xioctl (fd f) (STREAMON OUTPUT));;
    if a_ret a <? 0 then quit f
    else
      (let f := with_streaming true true f in
      x <- match buffer with
           | BUF_DMABUF =>
               (a <- sys (vpipe_xioctl (fd f) EXPORT_SRC_DMABUF);;
               fret (if a_ret a <? 0 then None else Some (a_m a)))
           | BUF_MMAP => fret (Some (src_fd f))
           end;;
      match x with
      | None => quit f
      | Some x =>
          let f := with_fds (fd f) (meta_fd f) x f in
          if bool_decide (buffer = BUF_DMABUF) && (x <? 0) then quit f
          else
            let p := Pacer (next_ns (pacing f)) (if ztrue (fps cfg) then 1000000000 / fps cfg else 0) in
            go (with_track (qbuf_ring f) (lat f) p (submitted f) (completed f) (st f) f)
      end))).

(** The result of the queuing call, and the ring and pacer. *)
Definition submit_output (f : locals) (frame_no mmap_index : Z) : F pworld (Z * list Z * pacer) :=
  (p <- sys (pace (pacing f));;
  now <- sys vpipe_now_monotonic_ns;;
  ring <- aset (qbuf_ring f) (frame_no mod queue_depth cfg) now;;
  r <- match buffer with
       | BUF_DMABUF => sys (queue_output_dmabuf (fd f) (src_fd f) (out_sizeimage f))
       | BUF_MMAP =>
           (match source cfg with
            | SRC_FIXTURE => (b <- aget (out_bufs f) mmap_index;; fill_gradient (addr b) frame_no)
            | SRC_VCAM => fret tt
            end;;
           sys (vpipe_queue_mmap_buffer (fd f) OUTPUT V4L2_MEMORY_MMAP mmap_index (-1)))
       end;;
  fret (r, ring, p)).

(** Submit frame [submitted] from buffer [mmap_index]. *)
Definition submit (mmap_index : Z) : stage locals := fun f =>
  (s <- submit_output f (submitted f) mmap_index;;
  let '(r, ring, p) := s in
  if r <? 0 then quit (with_track ring (lat f) p (submitted f) (completed f) (st f) f)
  else go (with_track ring (lat f) p (u32 (submitted f + 1)) (completed f) (st f) f)).

(** The body of the loop that fills the pipeline. *)
Definition fill_one (i : Z) : stage locals := fun f => submit (submitted f) f.

(** The frames in flight at the top of the loop: their sum and maximum. *)
Definition gauge (f : locals) : locals :=
  let inflight := u32 (submitted f - completed f) in
  let s := st f in
  with_track (qbuf_ring f) (lat f) (pacing f) (submitted f) (completed f)
    (Stats (ok s) (st_buffer s) (st_source s) (st_frames s) (st_fps s) (st_queue_depth s) (out_inflight s)
       (lat_median_ns s) (lat_p95_ns s) (lat_p99_ns s) (meta_available s) (occ_mean s) (if occ_max s <? inflight then inflight else occ_max s) (dropped s) (csum_checked s)
       (csum_pass s) (verify_checked s) (verify_pass s)) (with_occ (dadd (occ_sum f) (of_int inflight)) f).

(** The statistics of a completed frame. *)
Definition count_frame (m : option vpipe_meta_entry) (crc_user : Z) (drop : bool)
    (verified : option bool) (s : run_stats) : run_stats :=
  Stats (ok s) (st_buffer s) (st_source s) (st_frames s) (st_fps s) (st_queue_depth s) (out_inflight s)
    (lat_median_ns s) (lat_p95_ns s) (lat_p99_ns s) (meta_available s) (occ_mean s) (occ_max s)
    (if drop then u32 (dropped s + 1) else dropped s)
    (match m with Some _ => u32 (csum_checked s + 1) | None => csum_checked s end)
    (match m with
     | Some m => if crc_user =? crc32 m then u32 (csum_pass s + 1) else csum_pass s
     | None => csum_pass s
     end)
    (match verified with Some _ => u32 (verify_checked s + 1) | None => verify_checked s end)
    (match verified with Some true => u32 (verify_pass s + 1) | _ => verify_pass s end).

(** The row of frame [k]. *)
Definition frame_row (k qbuf_ns t_dq : Z) (m : option vpipe_meta_entry) (crc_user : Z) (drop : bool) : list Z :=
  let field (g : vpipe_meta_entry -> Z) : Z := match m with Some m => g m | None => 0 end in
  [k; field buffer_type; qbuf_ns; t_dq; u64 (t_dq - qbuf_ns); field seq; field source_timestamp_ns;
   field qbuf_timestamp_ns; field capture_done_ns; field dqbuf_timestamp_ns; field Types.queue_depth;
   field cpu_id; field crc32; crc_user; (if drop then 1 else 0); field flags].

(** The part of the loop's body up to the row. *)
Definition complete (f : locals) (cap_dq : answer) (t_dq : Z) : F pworld locals :=
  (b <- aget (cap_bufs f) (a_index cap_dq);;
  crc_user <- crc32_at (addr b) (a_bytesused cap_dq);;
  m <- sys (read_meta (meta_fd f));;
  q <- aget (qbuf_ring f) (completed f mod queue_depth cfg);;
  lat' <- aset (lat f) (completed f) (u64 (t_dq - q));;
  let drop := match m with Some m => ztrue (Z.land (flags m) VPIPE_META_F_DROPPED) | None => false end in
  v <- (if verify_pattern cfg && bool_decide (source cfg = SRC_VCAM) && negb drop
        then (cap <- sys (load_bytes (addr b) (b_length b));;
             r <- flift (verify_gradient cap);; fret (Some r))
        else fret None);;
  emit (frame_row (completed f) q t_dq m crc_user drop);;
  fret (with_track (qbuf_ring f) lat' (pacing f) (submitted f) (u32 (completed f + 1))
          (count_frame m crc_user drop v (st f)) f)).

(** The body of the loop over the frames. *)
Definition frame (i : Z) : stage locals := fun f =>
  (let f := gauge f in
  cap_dq <- sys (dqbuf (fd f) CAPTURE V4L2_MEMORY_MMAP);;
  if a_ret cap_dq <? 0 then quit f
  else
    (t_dq <- sys vpipe_now_monotonic_ns;;
    if queue_depth cfg <=? a_index cap_dq then quit f
    else
      (f <- complete f cap_dq t_dq;;
      r <- sys (vpipe_queue_mmap_buffer (fd f) CAPTURE V4L2_MEMORY_MMAP (a_index cap_dq) (-1));;
      if r <? 0 then quit f
      else
        (out_dq <- sys (dqbuf (fd f) OUTPUT
                          (match buffer with BUF_DMABUF => V4L2_MEMORY_DMABUF | BUF_MMAP => V4L2_MEMORY_MMAP end));;
        if a_ret out_dq <? 0 then quit f
        else if submitted f <? frames cfg then submit (a_index out_dq) f
        else go f)))).

Definition with_summary (median p95 p99 : Z) (mean : double) (s : run_stats) : run_stats :=
  Stats (ok s) (st_buffer s) (st_source s) (st_frames s) (st_fps s) (st_queue_depth s) (out_inflight s)
    median p95 p99 (meta_available s) mean (occ_max s) (dropped s) (csum_checked s) (csum_pass s)
    (verify_checked s) (verify_pass s).

(** After the loop. *)
Definition summarize : stage locals := fun f =>
  (let sorted := qsort (lat f) in
  median <- flift (percentile sorted (frames cfg) p50);;
  q95 <- flift (percentile sorted (frames cfg) p95);;
  q99 <- flift (percentile sorted (frames cfg) p99);;
  let mean := if ztrue (frames cfg) then ddiv (occ_sum f) (of_int (frames cfg)) else occ_mean (st f) in
  go (with_track (qbuf_ring f) sorted (pacing f) (submitted f) (completed f)
        (with_summary median q95 q99 mean (st f)) f)).

Definition cleanup (f : locals) : F pworld unit :=
  (sys (streamoff_if (out_streaming f) (fd f) OUTPUT);;
  sys (streamoff_if (cap_streaming f) (fd f) CAPTURE);;
  lib (fclose_if (fp f));;
  sys (close_if (meta_fd f));;
  sys (close_if (src_fd f));;
  sys (match buffer with
       | BUF_MMAP => vpipe_unmap_buffers (out_bufs f) (queue_depth cfg)
       | BUF_DMABUF => fret tt
       end);;
  sys (vpipe_unmap_buffers (cap_bufs f) (queue_depth cfg));;
  sys (close_if (fd f));;
  lib free).

(** The stages of a run. *)
Definition body (csv : list Z) (depth : Z) : stage locals :=
  andthen negotiate
    (andthen request
       (andthen (prepare csv)
          (andthen (for_each (queue_depth cfg) enqueue)
             (andthen start
                (andthen (for_each (Z.min (frames cfg) depth) fill_one)
                   (andthen (for_each (frames cfg) frame) summarize)))))).

Definition set_ok (b : bool) (s : run_stats) : run_stats :=
  Stats b (st_buffer s) (st_source s) (st_frames s) (st_fps s) (st_queue_depth s) (out_inflight s)
    (lat_median_ns s) (lat_p95_ns s) (lat_p99_ns s) (meta_available s) (occ_mean s) (occ_max s) (dropped s) (csum_checked s) (csum_pass s) (verify_checked s) (verify_pass s).

Definition run_one (csv : list Z) (inflight : Z) : F pworld run_stats :=
  (let depth := out_depth inflight in
  m <- lib (malloc (u64 (frames cfg * 8)));;
  if negb m then fret (initial_stats depth)
  else
    (r <- body csv depth (init depth);;
    cleanup (snd r);;
    fret (set_ok (fst r) (st (snd r))))).
End Run.

(** ** The command line *)

(** The options as [getopt_long] reports them: a letter and an argument. *)
Definition parsed : Type := list (ascii * list Z).

Record options := Options { o_cfg : config; o_buffer : buffer_kind; o_compare : bool }.
Definition defaults : options :=
  Options (Config 300 0 4 SRC_VCAM false (lit "/dev/video0") (lit "out.csv")) BUF_MMAP false.

Definition set_cfg (g : config -> config) (o : options) : options :=
  Options (g (o_cfg o)) (o_buffer o) (o_compare o).

(** The body of the option loop: an exit status, or the options so far. *)
Definition apply_option (opt : ascii) (optarg : list Z) (o : options) : Z + options :=
  let number (r : option Z) (g : Z -> config -> config) : Z + options :=
    match r with Some v => inr (set_cfg (g v) o) | None => inl 2 end in
  if (opt =? "f")%char then
    number (parse_uint optarg 1 UINT_MAX)
      (fun v c => Config v (fps c) (queue_depth c) (source c) (verify_pattern c) (device c) (csv c))
  else if (opt =? "r")%char then
    number (parse_uint optarg 0 1000)
      (fun v c => Config (frames c) v (queue_depth c) (source c) (verify_pattern c) (device c) (csv c))
  else if (opt =? "q")%char then
    number (parse_uint optarg 2 VPIPE_MAX_QUEUE_DEPTH)
      (fun v c => Config (frames c) (fps c) v (source c) (verify_pattern c) (device c) (csv c))
  else if (opt =? "b")%char then
    if is_name optarg "mmap" then inr (Options (o_cfg o) BUF_MMAP (o_compare o))
    else if is_name optarg "dmabuf" then inr (Options (o_cfg o) BUF_DMABUF (o_compare o))
    else inl 2
  else if (opt =? "s")%char then
    let set s := set_cfg (fun c => Config (frames c) (fps c) (queue_depth c) s (verify_pattern c) (device c) (csv c)) o in
    if is_name optarg "fixture" then inr (set SRC_FIXTURE)
    else if is_name optarg "vcam" then inr (set SRC_VCAM)
    else inl 2
  else if (opt =? "c")%char then
    inr (set_cfg (fun c => Config (frames c) (fps c) (queue_depth c) (source c) (verify_pattern c) (device c) optarg) o)
  else if (opt =? "d")%char then
    inr (set_cfg (fun c => Config (frames c) (fps c) (queue_depth c) (source c) (verify_pattern c) optarg (csv c)) o)
  else if (opt =? "C")%char then inr (Options (o_cfg o) (o_buffer o) true)
  else if (opt =? "V")%char then
    inr (set_cfg (fun c => Config (frames c) (fps c) (queue_depth c) (source c) true (device c) (csv c)) o)
  else if (opt =? "h")%char then inl 0
  else inl 2.

Fixpoint parse_options (l : parsed) (o : options) : Z + options :=
  match l with
  | [] => inr o
  | (opt, optarg) :: l' =>
      match apply_option opt optarg o with
      | inl rc => inl rc
      | inr o' => parse_options l' o'
      end
  end.

Definition PATH_MAX : Z := 4096.

(** [snprintf(buf, PATH_MAX, "%s<suffix>", s)]. *)
Definition csv_path (s : list Z) (suffix : string) : list Z := take (Z.to_nat (PATH_MAX - 1)) (s ++ lit suffix).

(** What is printed, and the exit status. *)
Definition main_out (args : parsed) : F pworld (list printf_call * Z) :=
  match parse_options args defaults with
  | inl rc => fret ([], rc)
  | inr (Options cfg buffer compare) =>
      if bool_decide (source cfg = SRC_FIXTURE) && (bool_decide (buffer = BUF_DMABUF) || compare)
      then fret ([], 2)
      else if compare then
        (mmap_st <- run_one cfg BUF_MMAP (csv_path (csv cfg) ".mmap.csv") 1;;
        dmabuf_st <- run_one cfg BUF_DMABUF (csv_path (csv cfg) ".dmabuf.csv") 1;;
        fret (print_summary mmap_st ++ [printf "\n" []] ++ print_summary dmabuf_st ++
                print_comparison mmap_st dmabuf_st,
              if ok mmap_st && ok dmabuf_st then 0 else 1))
      else
        (st <- run_one cfg buffer (csv cfg) (queue_depth cfg);;
        fret (print_summary st, if ok st then 0 else 1))
  end.

Definition main (args : parsed) : F pworld Z := (r <- main_out args;; fret (snd r)).
End Runner.

(** ** The pattern is checked exactly *)

Lemma scan_ok n f : forall i,
  (forall j, i <= j < i + Z.of_nat n -> is_Some (f j)) ->
  exists b, scan n i f = Some b /\ (b = true <-> forall j, i <= j < i + Z.of_nat n -> f j = Some true).
Proof.
  induction n as [|n IH]; intros i Hf; cbn [scan]; [exists true; split; [done|]; split; [lia|done]|].
  destruct (Hf i ltac:(lia)) as [b Hb]. rewrite Hb. destruct b.
  - destruct (IH (i + 1)) as (b & Hs & Hall); [intros j Hj; apply Hf; lia|]. exists b. split; [done|].
    rewrite Hall. split; intros Hj j Hr; [|apply Hj; lia]. destruct (Z.eq_dec j i) as [->|]; [done|]. apply Hj. lia.
  - exists false. split; [done|]. split; [done|]. intros Hj. rewrite Hj in Hb by lia. done.
Qed.

(** The value both checks compare with. *)
Lemma pattern_px x y o : 0 <= x -> 0 <= y -> x + y < 4294967296 ->
  u8 (Z.land (u32 (u32 (x + y) + o)) 0xFF) = (x + y + o) mod 256.
Proof.
  intros Hx Hy Hs. change 0xFF with (Z.ones 8). rewrite Z.land_ones by lia. unfold u8, u32.
  rewrite (Z.mod_small (x + y)) by lia. change (2 ^ 8) with 256. rewrite Z.mod_mod by lia.
  apply Z.mod_mod_divide. by exists 16777216.
Qed.

Lemma verify_exact cap :
  WIDTH * HEIGHT <= Z.of_nat (length cap) ->
  exists b, verify_gradient cap = Some b /\ (b = true <-> gradient_frame WIDTH HEIGHT STRIDE cap).
Proof.
  unfold WIDTH, HEIGHT, STRIDE. intros Hlen. unfold verify_gradient.
  destruct (lookup_lt_is_Some_2 cap 0%nat) as [o Ho]; [lia|]. rewrite Ho.
  assert (Hpx : forall y x, 0 <= y < 480 -> 0 <= x < 640 -> exists v, cap !! Z.to_nat (y * 640 + x) = Some v /\
    verify_px cap o y x = Some (v =? (x + y + o) mod 256)).
  { intros y x Hy Hx. destruct (lookup_lt_is_Some_2 cap (Z.to_nat (y * 640 + x))) as [v Hv]; [lia|]. exists v.
    split; [done|]. unfold verify_px, STRIDE, WIDTH. rewrite Hv. cbn [fmap option_fmap option_map].
    by rewrite pattern_px by lia. }
  assert (Hrow : forall y, 0 <= y < 480 -> exists b, scan (Z.to_nat WIDTH) 0 (verify_px cap o y) = Some b /\
    (b = true <-> forall x, 0 <= x < 640 -> cap !! Z.to_nat (y * 640 + x) = Some ((x + y + o) mod 256))).
  { intros y Hy. destruct (scan_ok (Z.to_nat WIDTH) (verify_px cap o y) 0) as (b & Hs & Hb).
    { intros x Hx. destruct (Hpx y x Hy) as (v & _ & ->); [unfold WIDTH in Hx; lia|done]. }
    exists b. split; [done|]. rewrite Hb. unfold WIDTH. split; intros Hall x Hx.
    - destruct (Hpx y x Hy ltac:(lia)) as (v & Hv & Hvp). rewrite Hall in Hvp by lia. rewrite Hv. f_equal.
      injection Hvp as Hvp. lia.
    - destruct (Hpx y x Hy ltac:(lia)) as (v & Hv & ->). rewrite Hall in Hv by lia. injection Hv as <-.
      by rewrite Z.eqb_refl. }
  destruct (scan_ok (Z.to_nat HEIGHT) (fun y => scan (Z.to_nat WIDTH) 0 (verify_px cap o y)) 0) as (b & Hs & Hb).
  { intros y Hy. destruct (Hrow y) as (b & -> & _); [unfold HEIGHT in Hy; lia|done]. }
  exists b. split; [done|]. rewrite Hb. unfold HEIGHT, gradient_frame. split.
  - intros Hall. exists o. split; [done|]. intros x y Hx Hy. destruct (Hrow y Hy) as (b' & Hs' & Hb').
    rewrite Hall in Hs' by lia. injection Hs' as <-. by apply Hb'.
  - intros (o' & Ho' & Hall) y Hy. assert (o' = o) as -> by congruence.
    destruct (Hrow y ltac:(lia)) as (b' & -> & Hb'). f_equal. apply Hb'. intros x Hx. apply Hall; lia.
Qed.

Lemma written_lookup (g : Z -> list Z) (k n : nat) : forall i y x,
  (forall y, length (g y) = k) -> (x < k)%nat -> (y < n)%nat ->
  written n i g !! (y * k + x)%nat = g (i + Z.of_nat y) !! x.
Proof.
  induction n as [|n IH]; intros i y x Hg Hx Hy; [lia|]. cbn [written]. destruct y as [|y].
  - rewrite lookup_app_l by (rewrite Hg; lia). by rewrite Z.add_0_r.
  - rewrite lookup_app_r by (rewrite Hg; lia). rewrite Hg. replace (S y * k + x - k)%nat with (y * k + x)%nat by lia.
    rewrite (IH (i + 1) y x Hg Hx) by lia. do 2 f_equal. lia.
Qed.

Lemma length_written (g : Z -> list Z) (k n : nat) : forall i,
  (forall y, length (g y) = k) -> length (written n i g) = (n * k)%nat.
Proof.
  induction n as [|n IH]; intros i Hg; [done|]. cbn [written]. rewrite length_app, Hg, IH by done. lia.
Qed.

(** The frames [fill_gradient] writes are gradients of the size of an image. *)
Lemma length_pattern_row offset y : length (pattern_row offset y) = 640%nat.
Proof. unfold pattern_row. rewrite (length_written _ 1); [unfold WIDTH; lia|done]. Qed.

Lemma pattern_row_lookup offset x y : 0 <= x < WIDTH -> 0 <= y < HEIGHT ->
  pattern_row offset y !! Z.to_nat x = Some ((x + y + offset) mod 256).
Proof.
  unfold WIDTH, HEIGHT. intros Hx Hy. unfold pattern_row, WIDTH.
  replace (Z.to_nat x) with (Z.to_nat x * 1 + 0)%nat by lia. rewrite (written_lookup _ 1) by (done || lia).
  rewrite Z.add_0_l, Z2Nat.id by lia. cbn [lookup list_lookup]. by rewrite pattern_px by lia.
Qed.

Lemma gradient_bytes_ok offset :
  Z.of_nat (length (gradient_bytes offset)) = WIDTH * HEIGHT /\
  gradient_frame WIDTH HEIGHT STRIDE (gradient_bytes offset).
Proof.
  pose proof (length_written (pattern_row offset) 640 (Z.to_nat HEIGHT) 0 (length_pattern_row offset)) as Hlen.
  assert (Hh : Z.to_nat HEIGHT = 480%nat) by (unfold HEIGHT; lia). rewrite Hh in Hlen.
  unfold gradient_bytes. rewrite Hh. split; [rewrite length_insert, Hlen; unfold WIDTH, HEIGHT; lia|].
  assert (Hz : u8 (Z.land offset 0xFF) = offset mod 256).
  { change 0xFF with (Z.ones 8). rewrite Z.land_ones by lia. unfold u8. change (2 ^ 8) with 256. apply Z.mod_mod. lia. }
  exists (offset mod 256). split.
  - rewrite list_lookup_insert_eq; [by rewrite Hz|]. rewrite Hlen. lia.
  - intros x y Hx Hy. rewrite Zplus_mod_idemp_r. unfold STRIDE, WIDTH, HEIGHT in *.
    destruct (decide (Z.to_nat (y * 640 + x) = 0%nat)) as [E|E].
    + rewrite E, list_lookup_insert_eq by (rewrite Hlen; lia). rewrite Hz. do 2 f_equal. lia.
    + rewrite list_lookup_insert_ne by done.
      replace (Z.to_nat (y * 640 + x)) with (Z.to_nat y * 640 + Z.to_nat x)%nat by lia.
      rewrite (written_lookup (pattern_row offset) 640 480 0) by (apply length_pattern_row || lia).
      rewrite Z.add_0_l, Z2Nat.id by lia.
      by apply pattern_row_lookup.
Qed.

(** ** When frames were queued and dequeued

    [subs] and [dqs] are the readings of the clock at which the frames were
    submitted and completed, [c] the readings taken so far. *)
Record timeline (depth c0 c : nat) (subs dqs : list nat) : Prop := {
  tl_subs : forall i j a b, (i < j)%nat -> subs !! i = Some a -> subs !! j = Some b -> (a < b)%nat;
  tl_dqs : forall i j a b, (i < j)%nat -> dqs !! i = Some a -> dqs !! j = Some b -> (a < b)%nat;
  tl_order : forall k a b, subs !! k = Some a -> dqs !! k = Some b -> (a < b)%nat;
  tl_depth : forall k a b, dqs !! k = Some a -> subs !! (k + depth)%nat = Some b -> (a < b)%nat;
  tl_range : Forall (fun t => c0 <= t < c)%nat (subs ++ dqs)
}.

Lemma snoc_lookup {A} (l : list A) x k y :
  (l ++ [x]) !! k = Some y -> l !! k = Some y \/ k = length l /\ y = x.
Proof.
  intros Hk. apply lookup_app_Some in Hk as [Hk|[Hge Hk]]; [by left|]. right.
  apply list_lookup_singleton_Some in Hk as [Hk ->]. split; [lia|done].
Qed.

Section Timeline.
Context (depth c0 c : nat) (subs dqs : list nat) (Ht : timeline depth c0 c subs dqs).

Lemma timeline_nil c1 : timeline depth c0 c1 [] [].
Proof. by split. Qed.

Lemma timeline_before k a : subs !! k = Some a \/ dqs !! k = Some a -> (c0 <= a < c)%nat.
Proof.
  pose proof (tl_range _ _ _ _ _ Ht) as Hf. apply Forall_app in Hf as [Hs Hd].
  intros [Hk|Hk]; [apply (Forall_lookup_1 _ _ _ _ Hs Hk)|apply (Forall_lookup_1 _ _ _ _ Hd Hk)].
Qed.

Lemma timeline_later c' t : (c <= t < c')%nat -> (c0 <= c)%nat -> Forall (fun x => c0 <= x < c')%nat (t :: subs ++ dqs).
Proof.
  intros Hc H0. constructor; [lia|]. eapply Forall_impl; [|apply (tl_range _ _ _ _ _ Ht)]. cbn. lia.
Qed.

Lemma timeline_sub c' t :
  (c <= t < c')%nat -> (c0 <= c)%nat -> (length dqs <= length subs)%nat -> timeline depth c0 c' (subs ++ [t]) dqs.
Proof.
  intros Hc H0 Hl. pose proof (timeline_later c' t Hc H0) as Hf. destruct Ht as [T1 T2 T3 T4 T5]. split.
  - intros i j a b Hij Ha Hb. apply snoc_lookup in Ha as [Ha|[-> ->]]; apply snoc_lookup in Hb as [Hb|[-> ->]].
    + by eapply T1.
    + pose proof (timeline_before i a (or_introl Ha)). lia.
    + apply lookup_lt_Some in Hb. lia.
    + lia.
  - done.
  - intros k a b Ha Hb. apply snoc_lookup in Ha as [Ha|[-> ->]]; [by eapply T3|]. apply lookup_lt_Some in Hb. lia.
  - intros k a b Ha Hb. apply snoc_lookup in Hb as [Hb|[_ ->]]; [by eapply T4|].
    pose proof (timeline_before k a (or_intror Ha)). lia.
  - apply Forall_cons_1 in Hf as [Hh Hf]. apply Forall_app in Hf as [Hs Hd].
    apply Forall_app; split; [|done]. apply Forall_app; split; [done|]. constructor; [lia|done].
Qed.

Lemma timeline_dq c' t :
  (c <= t < c')%nat -> (c0 <= c)%nat -> (length subs <= length dqs + depth)%nat -> timeline depth c0 c' subs (dqs ++ [t]).
Proof.
  intros Hc H0 Hl. pose proof (timeline_later c' t Hc H0) as Hf. destruct Ht as [T1 T2 T3 T4 T5]. split.
  - done.
  - intros i j a b Hij Ha Hb. apply snoc_lookup in Ha as [Ha|[-> ->]]; apply snoc_lookup in Hb as [Hb|[-> ->]].
    + by eapply T2.
    + pose proof (timeline_before i a (or_intror Ha)). lia.
    + apply lookup_lt_Some in Hb. lia.
    + lia.
  - intros k a b Ha Hb. apply snoc_lookup in Hb as [Hb|[-> ->]]; [by eapply T3|].
    pose proof (timeline_before _ a (or_introl Ha)). lia.
  - intros k a b Ha Hb. apply snoc_lookup in Ha as [Ha|[-> ->]]; [by eapply T4|]. apply lookup_lt_Some in Hb. lia.
  - apply Forall_cons_1 in Hf as [Hh Hf]. apply Forall_app in Hf as [Hs Hd].
    apply Forall_app; split; [done|]. apply Forall_app; split; [done|]. constructor; [lia|done].
Qed.
End Timeline.

(** ** What the statistics count *)

(** The rows that report a dropped frame. *)
Definition drops (l : list (list Z)) : Z := Z.of_nat (length (filter (fun row => row !! 14%nat = Some 1) l)).

Lemma drops_snoc l k q t m crc (drop : bool) :
  drops (l ++ [frame_row k q t m crc drop]) = drops l + if drop then 1 else 0.
Proof.
  unfold drops. rewrite list.filter_app, length_app, Nat2Z.inj_add. f_equal. cbn. destruct drop; cbn; by case_decide.
Qed.

Lemma drops_le l : 0 <= drops l <= Z.of_nat (length l).
Proof. unfold drops. pose proof (list.length_filter (fun row : list Z => row !! 14%nat = Some 1) l). lia. Qed.

(** The rows [l] of a run and its statistics. *)
Record stats_ok (check : bool) (depth : Z) (l : list (list Z)) (s : run_stats) : Prop := {
  so_occ : 0 <= occ_max s <= depth;
  so_dropped : dropped s = drops l;
  so_csum : 0 <= csum_pass s <= csum_checked s /\ csum_checked s <= Z.of_nat (length l);
  so_pass : csum_pass s = csum_checked s ->
    Forall (fun row => row !! 12%nat = Some 0 \/ row !! 12%nat = row !! 13%nat) l;
  so_verify : 0 <= verify_pass s <= verify_checked s /\
    verify_checked s = if check then Z.of_nat (length l) - dropped s else 0
}.

Lemma stats_ok_nil check depth b cfg buffer :
  0 <= depth -> stats_ok check depth [] (with_meta b (initial_stats cfg buffer depth)).
Proof. intros Hd. split; cbn; try done; try lia. by destruct check. Qed.

Lemma stats_ok_gauge check depth l f :
  stats_ok check depth l (st f) -> 0 <= u32 (submitted f - completed f) <= depth ->
  stats_ok check depth l (st (gauge f)).
Proof.
  intros [S1 S2 S3 S4 S5] Hi. split; [|done..]. cbn. destruct (Z.ltb_spec (occ_max (st f)) (u32 (submitted f - completed f))); lia.
Qed.

Lemma stats_ok_snoc check depth l s m crc drop v k q t :
  stats_ok check depth l s -> Z.of_nat (length l) < UINT_MAX ->
  (is_Some v <-> check && negb drop = true) ->
  stats_ok check depth (l ++ [frame_row k q t m crc drop]) (count_frame m crc drop v s).
Proof.
  intros [S1 S2 S3 S4 S5] Hl Hv. unfold UINT_MAX in Hl.
  pose proof (drops_le l) as Hle.
  split; cbn [count_frame occ_max dropped csum_pass csum_checked verify_pass verify_checked].
  - done.
  - rewrite drops_snoc. destruct drop; [rewrite u32_small by lia|]; lia.
  - rewrite length_app. cbn [length]. destruct m as [m|]; [|lia].
    destruct (crc =? crc32 m); rewrite ?u32_small by lia; lia.
  - intros He. apply Forall_app. split.
    + apply S4. destruct m as [m|]; [|done].
      destruct (crc =? crc32 m); rewrite ?u32_small in He by lia; lia.
    + apply Forall_singleton. destruct m as [m|]; [right|by left]. cbn.
      destruct (Z.eqb_spec crc (crc32 m)) as [->|]; [done|].
      rewrite u32_small in He by lia. lia.
  - rewrite length_app. cbn [length]. destruct check, drop; cbn in Hv; destruct v as [[]|];
      try (by discriminate (proj1 Hv ltac:(by eexists))); try (by destruct (proj2 Hv eq_refl));
      rewrite ?u32_small by lia; lia.
Qed.

(** The latencies the rows report, and how the run is summarised: percentiles
    of them, in order when all are below [2^53] ns, and the mean of the frames
    in flight at the top of each turn. *)
Definition latencies (l : list (list Z)) : list Z := (fun row => default 0 (row !! 4%nat)) <$> l.

Record summarised (depth n : Z) (l : list (list Z)) (s : run_stats) : Prop := {
  su_median : percentile (qsort (latencies l)) n p50 = Some (lat_median_ns s);
  su_p95 : percentile (qsort (latencies l)) n p95 = Some (lat_p95_ns s);
  su_p99 : percentile (qsort (latencies l)) n p99 = Some (lat_p99_ns s);
  su_order : Forall (fun x => x <= 2 ^ 53) (latencies l) -> lat_median_ns s <= lat_p95_ns s <= lat_p99_ns s;
  su_mean : exists total, n <= total <= depth * n /\ occ_mean s = ddiv (of_int total) (of_int n)
}.

(** ** What a printed verdict means *)

(** Standard output claims that the checksums match: in the summary, or for
    both transports in the comparison. *)
Definition claims_match (compare : bool) (out : list printf_call) : Prop :=
  if compare then printf "%-16s %-11s %-11s\n" [AS "checksum"; AS "PASS"; AS "PASS"] ∈ out
  else exists args, printf "checksum     %s (%u/%u match)\n" (AS "PASS" :: args) ∈ out.

Definition all_pass (s : run_stats) : Prop := csum_pass s = csum_checked s.

Ltac printed_in H :=
  repeat first
    [apply elem_of_cons in H as [H|H]; [unfold printf in H; try discriminate H|]
    |apply elem_of_app in H as [H|H]
    |by apply not_elem_of_nil in H].

Lemma verdict_pass (b : bool) : (if b then "PASS" else "FAIL")%string = "PASS"%string -> b = true.
Proof. by destruct b. Qed.

Lemma summary_claims s : claims_match false (print_summary s) -> csum_checked s <> 0 /\ all_pass s.
Proof.
  intros (args & Hin). unfold print_summary in Hin. destruct (meta_available s), (ztrue (verify_checked s)); cbn [app] in Hin;
    printed_in Hin; injection Hin as Hin _; symmetry in Hin; apply verdict_pass, andb_true_iff in Hin as [H1 H2];
    unfold all_pass, ztrue in *; lia.
Qed.

Lemma comparison_claims s1 s2 :
  claims_match true (print_summary s1 ++ [printf "\n" []] ++ print_summary s2 ++ print_comparison s1 s2) ->
  all_pass s1 /\ all_pass s2.
Proof.
  unfold claims_match. intros Hin. apply elem_of_app in Hin as [Hin|Hin]; [exfalso|apply elem_of_app in Hin as [Hin|Hin];
    [exfalso; printed_in Hin|apply elem_of_app in Hin as [Hin|Hin]; [exfalso|]]].
  1-2: unfold print_summary in Hin; repeat case_match; cbn [app] in Hin; printed_in Hin.
  unfold print_comparison, print_delta_us in Hin. repeat case_match; cbn [app] in Hin; printed_in Hin;
    injection Hin as E1 E2; symmetry in E1, E2; apply verdict_pass in E1, E2; unfold all_pass; lia.
Qed.

(** ** The pattern: the theorem *)

(** C18: the two user-space checks of the vcam pattern and the two painters agree.
    On a frame of 640x480 bytes neither check reads outside it; the runner's
    accepts, and the DMABUF test counts no mismatch, exactly when every pixel
    is [(x + y + o) mod 256] for the value [o] of the first; the frames the
    runner paints pass, and so do the frames the kernel's vcam backend paints,
    whatever the offset. *)
Theorem gradient_checks_agree cap (Hcap : WIDTH * HEIGHT <= Z.of_nat (length cap)) :
  (exists b k, verify_gradient cap = Some b /\ DmabufTest.verify_gradient cap WIDTH HEIGHT STRIDE = Some k /\
     (b = true <-> gradient_frame WIDTH HEIGHT STRIDE cap) /\ (k = 0 <-> gradient_frame WIDTH HEIGHT STRIDE cap)) /\
  (forall offset, verify_gradient (gradient_bytes offset) = Some true) /\
  (forall m d offset m', fits m d WIDTH HEIGHT STRIDE -> p_off d + WIDTH * HEIGHT <= blen m (p_blk d) ->
     vcam_fill_gradient d WIDTH HEIGHT STRIDE offset m = Some m' -> read_bytes m' d (WIDTH * HEIGHT) = Some cap ->
     verify_gradient cap = Some true /\ DmabufTest.verify_gradient cap WIDTH HEIGHT STRIDE = Some 0).
Proof.
  destruct (verify_exact cap Hcap) as (b & Hb & Hbg).
  assert (Ht : exists k, DmabufTest.verify_gradient cap WIDTH HEIGHT STRIDE = Some k /\
    (k = 0 <-> gradient_frame WIDTH HEIGHT STRIDE cap)).
  { unfold STRIDE, WIDTH, HEIGHT in *. destruct (lookup_lt_is_Some_2 cap 0%nat) as [o Ho]; [lia|].
    destruct (DmabufTest.verify_ok cap 640 480 640 o) as (k & Hk & _ & Hkg); [lia|lia|lia|lia|done|]. by exists k. }
  destruct Ht as (k & Hk & Hkg). split; [by exists b, k|]. split.
  - intros offset. destruct (gradient_bytes_ok offset) as [Hl Hg].
    destruct (verify_exact (gradient_bytes offset)) as (b' & -> & Hb'); [lia|]. f_equal. by apply Hb'.
  - intros m d offset m' Hfit Hm Hp Hr. rewrite Hb, Hk.
    assert (Hg : gradient_frame WIDTH HEIGHT STRIDE cap)
      by (eapply (vcam_paints_gradient m d WIDTH HEIGHT STRIDE offset (WIDTH * HEIGHT)); done).
    split; f_equal; [by apply Hbg|by apply Hkg].
Qed.

Lemma gradient_checks_agree_witness :
  verify_gradient (gradient_bytes 7) = Some true /\
  exists k, DmabufTest.verify_gradient (gradient_bytes 7) WIDTH HEIGHT STRIDE = Some k /\ k = 0.
Proof.
  destruct (gradient_bytes_ok 7) as [Hl Hg].
  destruct (gradient_checks_agree (gradient_bytes 7)) as ((b & k & _ & Hk & _ & Hkg) & Hall & _); [lia|].
  split; [exact (Hall 7)|]. exists k. split; [exact Hk|]. apply Hkg, Hg.
Defined.
End Runner.
