(* ===== verification/RunnerRun.v ===== *)
(** * The benchmark runner: its runs

    What a run of [Runner.run_one] and the whole program [Runner.main] do:
    nothing is touched outside mapped memory and arrays, everything is given
    back on every path, and the rows pair each frame's queuing with its
    dequeuing. *)

From Stdlib Require Import Ascii.
From S2P Require Import Prelude Types Cv Backends M2m Crc32 Pgm Wp Client Process VcamTest Double Latency Runner.
Import Latency Runner.

Module RunnerRun.

(** ** One run *)

Section Quiet.
Context `{V4l2Laws} `{!BufferLaws} `{!FormatLaws} `{Posix} (w0 : pworld).

Lemma quiet_set_backend fd b : quiet w0 (set_backend fd b).
Proof. apply quiet_bind; [by apply quiet_xioctl|]. intros a. apply quiet_ret. Qed.
Lemma quiet_set_algo_none fd : quiet w0 (set_algo_none fd).
Proof. apply quiet_bind; [by apply quiet_xioctl|]. intros a. apply quiet_ret. Qed.
Lemma quiet_queue_output fd x size : quiet w0 (queue_output_dmabuf fd x size).
Proof. apply quiet_bind; [by apply quiet_xioctl|]. intros a. apply quiet_ret. Qed.
Lemma quiet_read_meta fd : quiet w0 (read_meta fd).
Proof.
  unfold read_meta. destruct (fd <? 0); [apply quiet_ret|]. apply quiet_bind; [apply quiet_meta|].
  intros r. apply quiet_ret.
Qed.
End Quiet.
#[local] Hint Resolve quiet_set_backend quiet_set_algo_none quiet_queue_output quiet_read_meta : quiet.

(** [VIDIOC_REQBUFS] grants as many buffers as it is asked for. *)
Definition grants_all `{V4l2} : Prop :=
  forall fd t c m d a d', ioctl fd (REQBUFS t c m) d = (a, d') -> 0 <= a_ret a -> c <= a_count a.

Section Proofs.
Context `{V4l2Laws} `{!BufferLaws} `{!FormatLaws} `{!MonotonicClock} `{Posix}.
Context (w0 : pworld) (Hok : start_ok w0) (cfg : config) (buffer : buffer_kind).
Context (Hframes : 1 <= frames cfg <= UINT_MAX) (Hdepth : 2 <= queue_depth cfg <= 32).
Context (Hsup : verify_pattern cfg = true \/ source cfg = SRC_FIXTURE -> supported WIDTH HEIGHT = true).
Context (Hgrant : source cfg = SRC_FIXTURE -> grants_all).
Let n := Z.to_nat (queue_depth cfg).
Let c0 := cclock (pc w0).

Record owns (f : locals) (g : ghost) : Prop := {
  ow_names : names ([fd f; meta_fd f; src_fd f] ++ fds_of (take n (out_bufs f)) ++ fds_of (take n (cap_bufs f)))
    (maps_of (take n (out_bufs f)) ++ maps_of (take n (cap_bufs f))) (if fp f then 1 else 0) 1 g;
  ow_out : length (out_bufs f) = 32%nat;
  ow_cap : length (cap_bufs f) = 32%nat;
  ow_dmabuf : buffer = BUF_DMABUF -> out_bufs f = initial_bufs cfg
}.

Lemma take_initial : take n (initial_bufs cfg) = take n (blanks n).
Proof. unfold initial_bufs, blanks. fold n. rewrite take_app_length' by (by rewrite length_replicate). by rewrite firstn_all2 by (rewrite length_replicate; lia). Qed.

Lemma length_initial : length (initial_bufs cfg) = 32%nat.
Proof. unfold initial_bufs. rewrite length_app, !length_replicate. lia. Qed.

Lemma runner_cleanup_ok f w g :
  running w0 w g -> owns f g ->
  wp (cleanup cfg buffer f) (fun _ w' => balanced w0 w' /\ start_ok w' /\ prow w' = g_rows g) w.
Proof.
  intros Hr [[O1 O2 O3 O4] L1 L2 Hi]. destruct Hok as [Hp _]. unfold cleanup.
  replace (queue_depth cfg) with (Z.of_nat n) by lia. do 7 (pstep Hp).
  set (fc := fds_of (take n (cap_bufs f))) in *. set (mc := maps_of (take n (cap_bufs f))) in *.
  set (fo := fds_of (take n (out_bufs f))) in *. set (mo := maps_of (take n (out_bufs f))) in *.
  relist Hr (Ghost (meta_fd f :: src_fd f :: fo ++ fc ++ [fd f]) (mo ++ mc) 0 1 [] [] [] (g_clock g) (g_rows g)) (fp f).
  eapply (wp_sys_close_if w0 Hp _ (src_fd f :: fo ++ fc ++ [fd f])); [exact Hr|done|]. clear Hr. intros u1 Hr. pstep Hp.
  eapply (wp_sys_close_if w0 Hp _ (fo ++ fc ++ [fd f])); [exact Hr|done|]. clear Hr. intros u2 Hr. pstep Hp.
  assert (Hout : forall Q, (forall u, running w0 u (Ghost (fc ++ [fd f]) mc 0 1 [] [] [] (g_clock g) (g_rows g)) -> Q tt u) ->
    wp (sys (match buffer with BUF_MMAP => vpipe_unmap_buffers (out_bufs f) (Z.of_nat n) | BUF_DMABUF => fret tt end)) Q u2).
  { intros Q HQ. destruct buffer.
    - eapply (wp_sys_unmap w0 Hp n _ (fc ++ [fd f]) mc); [exact Hr|done|lia|done|done|]. done.
    - destruct u2 as [c u rw cs]. apply HQ. eapply running_weaken; [exact Hr|try done..]; cbn;
        unfold fo, mo; rewrite (Hi eq_refl), take_initial; own_in. }
  apply Hout. clear Hr Hout. intros u3 Hr. pstep Hp.
  eapply (wp_sys_unmap w0 Hp n _ [fd f] []); [exact Hr|done|lia|done|cbn; by rewrite app_nil_r|].
  clear Hr. intros u4 Hr. pstep Hp. eapply (wp_sys_close_if w0 Hp _ []); [exact Hr|done|]. clear Hr. intros u5 Hr.
  pcall Hp. split; [|split; [|by rewrite (r_rows _ _ _ Hr)]].
  - eapply running_end; [exact Hr| | |done|done]; intros ? _; apply not_elem_of_nil.
  - eapply (running_restart w0 Hp); [exact Hr|..]; intros ? _; apply not_elem_of_nil.
Qed.

(** The device is open and both queues have the format. *)
Record opened (depth : Z) (f : locals) (g : ghost) : Prop := {
  op_init : exists x z, f = with_size z (with_fds x (-1) (-1) (init cfg buffer depth)) /\ 0 <= x;
  op_owns : owns f g;
  op_fmt : exists b si, (fd f, OUTPUT, (b, si)) ∈ g_fmts g /\ (fd f, CAPTURE, (b, si)) ∈ g_fmts g /\
    (supported WIDTH HEIGHT = true -> WIDTH * HEIGHT <= si);
  op_known : g_known g = [];
  op_queues : g_queues g = [];
  op_clock : g_clock g = c0;
  op_rows : g_rows g = prow w0
}.

Ltac runner_owns :=
  split; [split; cbn; rewrite ?take_initial; try done; try lia; try own_in|cbn; rewrite ?length_initial; done..|done].
Ltac give_up_here := eexists; (split; [eassumption|]); runner_owns.

Lemma runner_negotiate_ok depth w :
  running w0 w (add_lib 0 1 (nothing w0)) ->
  wp (negotiate cfg (init cfg buffer depth)) (fun r w' =>
    if fst r : bool then exists g, running w0 w' g /\ opened depth (snd r) g
    else accounted owns w0 (snd r) w') w.
Proof.
  intros Hr. destruct Hok as [Hp _]. unfold negotiate. repeat (pstep Hp); try done; try (cbn in *; new_queue).
  1-5: give_up_here.
  eexists. split; [exact Hr|]. split; try done; [|runner_owns|].
  - exists fd0, a0. split; [done|]. lia.
  - cbn in *. assert (bpl0 = bpl /\ si0 = si) as [-> ->] by (split; congruence). exists bpl, si.
    split; [set_solver|]. split; [set_solver|]. intros Hs. specialize (Hfit Hs). unfold WIDTH, HEIGHT in *. nia.
Qed.

(** From the requested buffers on. *)
Record ready (f : locals) (g : ghost) : Prop := {
  rd_owns : owns f g;
  rd_cap : exists lens, (fd f, CAPTURE, lens) ∈ g_queues g /\ shows (cap_bufs f) lens (g_known g) /\
    (verify_pattern cfg = true -> Forall (fun len => WIDTH * HEIGHT <= len) lens);
  rd_out : source cfg = SRC_FIXTURE -> buffer = BUF_MMAP -> exists lens, (fd f, OUTPUT, lens) ∈ g_queues g /\
    shows (out_bufs f) lens (g_known g) /\ Forall (fun len => WIDTH * HEIGHT <= len) lens /\
    queue_depth cfg <= Z.of_nat (length lens)
}.

(** All the buffers asked for are there when the device grants them all. *)
Lemma request_grants fd t bufs w :
  grants_all -> (n <= length bufs)%nat -> 
  wp (sys (vpipe_request_mmap_buffers fd t (Z.of_nat n) bufs)) (fun r w' =>
    0 <= fst r -> Z.of_nat n <= Z.of_nat (length (bufs_of (cdev (pc w')) fd t))) w.
Proof.
  intros Hg Hl. apply wp_zoom. unfold vpipe_request_mmap_buffers. apply wp_bind, wp_xioctl; [done|]. intros a d' Ha.
  destruct (Z.ltb_spec (a_ret a) 0) as [|Hge]; [apply wp_ret; cbn; lia|].
  destruct (answers_reqbufs _ _ _ _ _ _ _ Ha) as [Hc _]. destruct (Hc Hge) as [Hcount Hle].
  assert (Hall : Z.of_nat n <= a_count a).
  { clear Hc Hcount Hle. remember (REQBUFS t (Z.of_nat n) V4L2_MEMORY_MMAP) as r eqn:Er.
    induction Ha as [d a d' E _|d a0 d1 a d' E Hi _ IH]; subst r; [by eapply Hg|by apply IH]. }
  apply wp_bind. eapply wp_mono; [apply request_loop_fmt; lia|].
  cbn [set_cdev cdev]. intros r p' [_ E2]. destruct (fst r <? 0); apply wp_ret; cbn; rewrite E2; lia.
Qed.

(** One of the two arrays of buffers. *)
Lemma runner_array_ok fd t w g :
  running w0 w g -> not_in fd t (g_queues g) ->
  wp (sys (vpipe_request_mmap_buffers fd t (queue_depth cfg) (initial_bufs cfg))) (fun r w' =>
    length (snd r) = 32%nat /\
    if fst r <? 0 then running w0 w' (own_array n (snd r) g)
    else exists lens known, running w0 w' (add_queue (fd, t, lens) known (own_array n (snd r) g)) /\
      shows (snd r) lens known /\
      (forall f, (fd, t, f) ∈ g_fmts g -> Forall (fun len => snd f <= len) lens) /\
      (source cfg = SRC_FIXTURE -> queue_depth cfg <= Z.of_nat (length lens))) w.
Proof.
  intros Hr Hni. destruct Hok as [Hp _]. pose proof length_initial as Hl.
  replace (queue_depth cfg) with (Z.of_nat n) by lia.
  set (P := fun (r : Z * list vpipe_mmap_buffer) w' => length (snd r) = 32%nat /\
    if fst r <? 0 then running w0 w' (own_array n (snd r) g)
    else exists lens known, running w0 w' (add_queue (fd, t, lens) known (own_array n (snd r) g)) /\
      shows (snd r) lens known /\ (forall f, (fd, t, f) ∈ g_fmts g -> Forall (fun len => snd f <= len) lens)).
  assert (HP : wp (sys (vpipe_request_mmap_buffers fd t (Z.of_nat n) (initial_bufs cfg))) P w).
  { eapply (wp_sys_request w0 Hp _ _ n); [exact Hr|done|lia|rewrite take_initial; apply blanks_blank|..].
    - intros r bufs w' Hlt Hlen _ Hr'. split; [cbn; lia|]. cbn. by destruct (Z.ltb_spec r 0); [|lia].
    - intros r bufs w' lens known Hge Hlen _ Hr' Hs _ Hf _ _. split; [cbn; lia|]. cbn.
      destruct (Z.ltb_spec r 0); [lia|]. by exists lens, known. }
  eapply wp_mono.
  { apply wp_conj; [exact HP|]. instantiate (1 := fun r w' => source cfg = SRC_FIXTURE -> 0 <= fst r ->
      Z.of_nat n <= Z.of_nat (length (bufs_of (cdev (pc w')) fd t))).
    destruct (decide (source cfg = SRC_FIXTURE)) as [E|E].
    - eapply wp_mono; [apply (request_grants fd t (initial_bufs cfg)); [by apply Hgrant|lia]|]. auto.
    - eapply wp_mono; [exact HP|]. done. }
  intros [r bufs] w' [[Hlen Hres] Hall]. split; [done|]. cbn [fst snd] in *.
  destruct (Z.ltb_spec r 0); [done|]. destruct Hres as (lens & known & Hr' & Hs & Hf). exists lens, known.
  do 3 (split; [done|]). intros E. rewrite <- (r_queues _ _ _ Hr' fd t lens); [by apply Hall|apply list_elem_of_here].
Qed.

Lemma runner_request_ok depth f w g :
  running w0 w g -> opened depth f g ->
  wp (request cfg buffer f) (fun r w' =>
    if fst r : bool
    then exists g', running w0 w' g' /\ ready (snd r) g' /\ g_clock g' = c0 /\ g_rows g' = prow w0 /\
      (exists x z c o, snd r = with_bufs c o (with_size z (with_fds x (-1) (-1) (init cfg buffer depth))))
    else accounted owns w0 (snd r) w') w.
Proof.
  intros Hr [(x & z & -> & Hx) [[N1 N2 N3 N4] _ _ _] (b & si & Hfo & Hfc & Hsi) Hk Hq Hc Hrows]. pose proof Hok as [Hp _].
  cbn in N1, N2, N3. rewrite take_initial in N1, N2. pose proof length_initial as Hl. unfold request.
  cbn [fd out_bufs cap_bufs with_size with_fds init]. apply wp_bind.
  assert (Hcap : forall u g' o, running w0 u g' -> not_in x CAPTURE (g_queues g') ->
    names ([x; -1; -1] ++ fds_of (take n o) ++ fds_of (take n (blanks n)))
      (maps_of (take n o) ++ maps_of (take n (blanks n))) 0 1 g' ->
    length o = 32%nat -> (buffer = BUF_DMABUF -> o = initial_bufs cfg) ->
    (x, CAPTURE, (b, si)) ∈ g_fmts g' -> g_clock g' = c0 -> g_rows g' = prow w0 ->
    (source cfg = SRC_FIXTURE -> buffer = BUF_MMAP -> exists lens, (x, OUTPUT, lens) ∈ g_queues g' /\
      shows o lens (g_known g') /\ Forall (fun len => WIDTH * HEIGHT <= len) lens /\ queue_depth cfg <= Z.of_nat (length lens)) ->
    wp (c <- sys (vpipe_request_mmap_buffers x CAPTURE (queue_depth cfg) (initial_bufs cfg));;
        let f := with_bufs (snd c) o (with_size z (with_fds x (-1) (-1) (init cfg buffer depth))) in
        if fst c <? 0 then quit f else go f) (fun r w' =>
    if fst r : bool
    then exists g', running w0 w' g' /\ ready (snd r) g' /\ g_clock g' = c0 /\ g_rows g' = prow w0 /\
      (exists x z c o, snd r = with_bufs c o (with_size z (with_fds x (-1) (-1) (init cfg buffer depth))))
    else accounted owns w0 (snd r) w') u).
  { intros u g' o Hr' Hni [M1 M2 M3 M4] Hlo Hdm Hf Hc' Hrow Hout. cbn in M1. apply wp_bind. eapply wp_mono; [by apply runner_array_ok|].
    intros [r bufs] u' [Hlen Hres]. cbn [fst snd] in *. destruct (Z.ltb_spec r 0); apply wp_ret; cbn [fst snd].
    - eexists. split; [exact Hres|]. split; [solve_names|done|done|done].
    - destruct Hres as (lens & known & Hr2 & Hs & Hfit & _). eexists. split; [exact Hr2|]. split; [|by eauto 10].
      split; cbn; [split; [solve_names|done|done|done]| |].
      + exists lens. split; [apply list_elem_of_here|]. split; [eapply shows_mono; [exact Hs|]; set_solver|].
        intros Hv. eapply Forall_impl; [|by apply (Hfit (b, si))]. cbn. intros len Hle.
        pose proof (Hsi (Hsup (or_introl Hv))). lia.
      + intros E1 E2. destruct (Hout E1 E2) as (lo & Ho1 & Ho2 & Ho3 & Ho4). exists lo.
        split; [set_solver|]. split; [eapply shows_mono; [exact Ho2|]; set_solver|done]. }
  destruct buffer eqn:Ebuf.
  - eapply wp_mono; [apply runner_array_ok; [exact Hr|new_queue]|]. intros [r bufs] u [Hlen Hres]. cbn [fst snd] in *.
    destruct (Z.ltb_spec r 0).
    + apply wp_ret. cbn [fst snd]. eexists. split; [exact Hres|]. split; cbn; rewrite ?take_initial; [solve_names|done || exact Hl..|congruence].
    + destruct Hres as (lens & known & Hr2 & Hs & Hfit & Hall). apply (Hcap u _ bufs Hr2); try done; [new_queue|cbn; solve_names|].
      cbn. intros Ef _. exists lens. split; [apply list_elem_of_here|]. split; [eapply shows_mono; [exact Hs|]; set_solver|].
      split; [|by apply Hall]. eapply Forall_impl; [|by apply (Hfit (b, si))]. cbn. intros len Hle.
      pose proof (Hsi (Hsup (or_intror Ef))). lia.
  - apply wp_bind. pcall Hp; [new_queue|]. apply wp_ret. cbn [fst snd]. destruct (a_ret a <? 0).
    + apply wp_ret. eexists. split; [exact Hr|]. split; cbn; rewrite ?take_initial; [solve_names|done || exact Hl..|done].
    + apply (Hcap _ g (initial_bufs cfg) Hr); try done; [new_queue|]. rewrite take_initial. cbn. solve_names.
Qed.

(** Nothing submitted yet. *)
Record fresh (depth : Z) (f : locals) : Prop := {
  fr_ring : qbuf_ring f = replicate 32 0;
  fr_lat : length (lat f) = Z.to_nat (frames cfg);
  fr_sub : submitted f = 0;
  fr_com : completed f = 0;
  fr_st : exists b, st f = with_meta b (initial_stats cfg buffer depth);
  fr_occ : occ_sum f = of_int 0
}.

Definition prepared (depth : Z) (f : locals) (w : pworld) : Prop :=
  exists g, running w0 w g /\ ready f g /\ fresh depth f /\ src_fd f = -1 /\ g_clock g = c0 /\ g_rows g = prow w0.

Lemma runner_prepare_ok depth path f w g :
  running w0 w g -> ready f g -> g_clock g = c0 -> g_rows g = prow w0 ->
  (exists x z c o, f = with_bufs c o (with_size z (with_fds x (-1) (-1) (init cfg buffer depth)))) ->
  wp (prepare path f) (fun r w' =>
    if fst r : bool then prepared depth (snd r) w' else accounted owns w0 (snd r) w') w.
Proof.
  intros Hr [[[N1 N2 N3 N4] L1 L2 Hd] Hcap Hout] Hc Hrows (x & z & c & o & ->). pose proof Hok as [Hp _].
  unfold prepare. cbn in N1, N2, N3, N4, L1, L2. repeat (pstep Hp).
  1-2: eexists; (split; [exact Hr|]); split; cbn; [solve_names|done..].
  eexists. split; [exact Hr|]. split; [|split; [|done]].
  - split; cbn; [split; cbn; [solve_names|done..]|done|done].
  - split; cbn; try done; [apply length_replicate|by eexists].
Qed.

(** The descriptors of a run may change, its buffers stay. *)
Lemma ready_fds f f' g g' :
  ready f g -> cap_bufs f' = cap_bufs f -> out_bufs f' = out_bufs f -> fd f' = fd f ->
  g_queues g' = g_queues g -> g_known g' = g_known g ->
  names ([fd f'; meta_fd f'; src_fd f'] ++ fds_of (take n (out_bufs f)) ++ fds_of (take n (cap_bufs f)))
    (maps_of (take n (out_bufs f)) ++ maps_of (take n (cap_bufs f))) (if fp f' then 1 else 0) 1 g' ->
  ready f' g'.
Proof.
  intros [[_ L1 L2 Hd] Hcap Hout] E1 E2 E3 E4 E5 Hn.
  split; rewrite ?E1, ?E2, ?E3, ?E4, ?E5; [split; rewrite ?E1, ?E2; done|done|done].
Qed.

Lemma ready_track f g g' ring l p sub com s :
  ready f g -> g_fds g' = g_fds g -> g_maps g' = g_maps g -> g_opens g' = g_opens g -> g_blocks g' = g_blocks g ->
  g_queues g' = g_queues g -> g_known g' = g_known g -> ready (with_track ring l p sub com s f) g'.
Proof.
  intros Hrd E1 E2 E3 E4 E5 E6. eapply ready_fds; [exact Hrd|done..|].
  destruct (ow_names _ _ (rd_owns _ _ Hrd)) as [N1 N2 N3 N4]. split; rewrite ?E1, ?E2, ?E3, ?E4; done.
Qed.

Lemma runner_start_ok depth f w :
  prepared depth f w ->
  wp (start cfg buffer f) (fun r w' =>
    if fst r : bool
    then exists g, running w0 w' g /\ ready (snd r) g /\ fresh depth (snd r) /\ g_clock g = c0 /\ g_rows g = prow w0
    else accounted owns w0 (snd r) w') w.
Proof.
  intros (g & Hr & Hrd & Hfr & Hs & Hc & Hrows). pose proof Hok as [Hp _].
  pose proof (ow_names _ _ (rd_owns _ _ Hrd)) as [N1 N2 N3 N4]. rewrite Hs in N1.
  assert (Hbad : forall f' u g', running w0 u g' -> ready f' g' -> accounted owns w0 f' u)
    by (intros f' u g' Hr' [Ho _ _]; by exists g').
  unfold start.
  repeat lazymatch goal with |- wp (fbind (match buffer with _ => _ end) _) _ _ => fail | |- _ => pstep Hp end.
  1-2: eapply Hbad; [exact Hr|]; eapply ready_fds; [exact Hrd|done..|]; cbn; rewrite Hs; by split.
  apply wp_bind. destruct buffer eqn:Eb.
  - apply wp_ret. rewrite bool_decide_eq_false_2 by done. cbn [andb]. apply wp_ret. cbn [fst snd].
    exists g. split; [exact Hr|]. split; [|split; [by destruct Hfr; split|done]].
    eapply ready_fds; [exact Hrd|done..|]. cbn. rewrite Hs. by split.
  - pstep Hp. pcall Hp. apply wp_ret. destruct (a_ret a1 <? 0).
    + pstep Hp. eapply Hbad; [exact Hr|]. eapply ready_fds; [exact Hrd|done..|]. cbn. rewrite Hs. solve_names.
    + rewrite bool_decide_eq_true_2 by done. cbn [andb].
      destruct (a_m a1 <? 0); apply wp_ret; cbn [fst snd];
        [eapply Hbad; [exact Hr|]|eexists; split; [exact Hr|]; split; [|split; [by destruct Hfr; split|done]]];
        (eapply ready_fds; [exact Hrd|done..|]); cbn; solve_names.
Qed.

(** *** The ring *)

(** Row [k] pairs the readings at which frame [k] was queued and dequeued, and
    has the checksum of the bytes dequeued. *)
Definition paired (subs dqs : list nat) (k : nat) (row : list Z) : Prop :=
  exists s d m l drop, subs !! k = Some s /\ dqs !! k = Some d /\ Forall in_u8 l /\
    row = frame_row (Z.of_nat k) (reading s) (reading d) m (crc_ref l) drop.

Definition checking : bool := verify_pattern cfg && bool_decide (source cfg = SRC_VCAM).

(** The rows written so far and the statistics. *)
Definition reported (depth : Z) (subs dqs : list nat) (s : run_stats) (rows : list (list Z)) : Prop :=
  exists l, rows = prow w0 ++ l /\ length l = length dqs /\
    (forall k row, l !! k = Some row -> paired subs dqs k row) /\ stats_ok checking depth l s.

(** The frames in flight at the top of the first [k] turns, added up. *)
Definition occupied (depth k : Z) (f : locals) : Prop :=
  exists total, occ_sum f = of_int total /\ k <= total <= depth * k.

(** [k] turns of the loop were begun. *)
Record tracked (depth : Z) (subs dqs : list nat) (k : Z) (f : locals) (g : ghost) : Prop := {
  tk_time : timeline (Z.to_nat depth) c0 (g_clock g) subs dqs;
  tk_clock : (c0 <= g_clock g)%nat;
  tk_sub : submitted f = Z.of_nat (length subs);
  tk_com : completed f = Z.of_nat (length dqs);
  tk_window : Z.of_nat (length dqs) <= Z.of_nat (length subs) <= Z.of_nat (length dqs) + depth;
  tk_frames : Z.of_nat (length subs) <= frames cfg;
  tk_ring : length (qbuf_ring f) = 32%nat;
  tk_lat : length (lat f) = Z.to_nat (frames cfg);
  tk_times : forall j s, (length dqs <= j)%nat -> subs !! j = Some s ->
    qbuf_ring f !! Z.to_nat (Z.of_nat j mod queue_depth cfg) = Some (reading s);
  tk_rows : reported depth subs dqs (st f) (g_rows g);
  tk_samples : forall j s d, subs !! j = Some s -> dqs !! j = Some d ->
    lat f !! j = Some (u64 (reading d - reading s));
  tk_occ : occupied depth k f
}.

Lemma wp_pace p Q w g :
  running w0 w g ->
  (forall p' c w', (g_clock g <= c)%nat -> running w0 w' (at_clock c g) -> Q p' w') ->
  wp (sys (pace p)) Q w.
Proof.
  intros Hr HQ. assert (Hsame : running w0 w (at_clock (g_clock g) g)) by (by destruct g).
  unfold pace. destruct w as [c u rw cs]. destruct (negb _); [by apply (HQ _ (g_clock g))|].
  apply wp_sys_bind. destruct (negb _); [|by apply (HQ _ (g_clock g))].
  eapply (wp_sys_now w0); [exact Hr|]. intros [c' u' rw' cs'] Hr'. by apply (HQ _ (S (g_clock g))); [lia|].
Qed.

(** Submitting a frame: the ring gets the clock at its slot. *)
Lemma runner_submit_output_ok f k i w g (Q : Z * list Z * pacer -> pworld -> Prop) :
  running w0 w g -> ready f g -> 0 <= k -> length (qbuf_ring f) = 32%nat ->
  (source cfg = SRC_FIXTURE -> buffer = BUF_MMAP -> forall lens, (fd f, OUTPUT, lens) ∈ g_queues g ->
     0 <= i /\ is_Some (lens !! Z.to_nat i)) ->
  (forall r p t w', (g_clock g <= t)%nat -> running w0 w' (at_clock (S t) g) ->
     Q (r, <[Z.to_nat (k mod queue_depth cfg) := reading t]> (qbuf_ring f), p) w') ->
  wp (submit_output cfg buffer f k i) Q w.
Proof.
  intros Hr Hrd Hk Hring Hi HQ. pose proof Hok as [Hp _]. unfold submit_output. apply wp_bind.
  eapply wp_pace; [exact Hr|]. clear Hr. intros p t w1 Ht Hr. apply wp_bind. pcall Hp.
  pose proof (Z.mod_pos_bound k (queue_depth cfg) ltac:(lia)) as Hm.
  apply wp_bind, wp_aset; [lia|]. apply wp_bind. change (tick (at_clock t g)) with (at_clock (S t) g) in Hr.
  change (g_clock (at_clock t g)) with t.
  destruct buffer eqn:Eb; [|pcall Hp; by apply wp_ret, (HQ _ _ t)].
  apply wp_bind. assert (Hq : forall u, running w0 u (at_clock (S t) g) ->
    wp (sys (vpipe_queue_mmap_buffer (fd f) OUTPUT V4L2_MEMORY_MMAP i (-1)))
      (fun a => wp (fret (a, <[Z.to_nat (k mod queue_depth cfg) := reading t]> (qbuf_ring f), p)) Q) u).
  { intros u Hr'. pcall Hp. by apply wp_ret, (HQ _ _ t). }
  destruct (source cfg) eqn:Es; [|by apply wp_ret, Hq].
  destruct (rd_out _ _ Hrd Es Eb) as (lens & Ho & Hs & Hfit & _). destruct (Hi eq_refl eq_refl lens Ho) as (Hi0 & len & Hlen).
  destruct (Hs _ _ Hlen) as (b & Hb & _ & Hkn). apply wp_bind. eapply wp_aget; [lia|exact Hb|].
  unfold fill_gradient. destruct (gradient_bytes_ok k) as [Hgl _].
  pose proof (Forall_lookup_1 _ _ _ _ Hfit Hlen) as Hle. cbn in Hle.
  eapply (wp_sys_store w0); [exact Hr|exact Hkn|by rewrite Hgl|]. intros u Hr'. by apply Hq.
Qed.

Lemma slots_differ a b q : 0 < b - a < q -> a mod q <> b mod q.
Proof.
  intros Hd E. assert (E2 : (b - a) mod q = 0) by (rewrite Zminus_mod, E, Z.sub_diag; apply Z.mod_0_l; lia).
  rewrite Z.mod_small in E2; lia.
Qed.

Lemma paired_mono subs dqs s' d' k row : paired subs dqs k row -> paired (subs ++ s') (dqs ++ d') k row.
Proof.
  intros (s & d & m & l & drop & Hs & Hd & Hl & ->). exists s, d, m, l, drop.
  by rewrite !(lookup_app_l_Some _ _ _ _ Hs), !(lookup_app_l_Some _ _ _ _ Hd).
Qed.

(** The device's OUTPUT buffers the fixture source may fill. *)
Definition fillable (i : Z) (f : locals) (g : ghost) : Prop :=
  source cfg = SRC_FIXTURE -> buffer = BUF_MMAP -> forall lens, (fd f, OUTPUT, lens) ∈ g_queues g ->
    0 <= i /\ is_Some (lens !! Z.to_nat i).

Lemma runner_submit_ok depth subs dqs k f w g i :
  running w0 w g -> ready f g -> tracked depth subs dqs k f g -> depth <= queue_depth cfg ->
  Z.of_nat (length subs) < frames cfg -> Z.of_nat (length subs) < Z.of_nat (length dqs) + depth ->
  fillable i f g ->
  wp (submit cfg buffer i f) (fun r w' =>
    if fst r : bool
    then exists g' t, running w0 w' g' /\ ready (snd r) g' /\ tracked depth (subs ++ [t]) dqs k (snd r) g'
    else accounted owns w0 (snd r) w') w.
Proof.
  intros Hr Hrd [T1 T2 T3 T4 T5 T6 T7 T8 T9 T10 T11 T12] Hdq Hf Hw Hi. unfold submit, UINT_MAX in *. apply wp_bind.
  eapply runner_submit_output_ok; [exact Hr|done|lia|done|done|]. clear Hr. intros r p t w' Ht Hr.
  assert (Hrd' : forall ring sub com s', ready (with_track ring (lat f) p sub com s' f) (at_clock (S t) g)).
  { intros. by eapply ready_track. }
  destruct (r <? 0); apply wp_ret; cbn [fst snd].
  { eexists. split; [exact Hr|]. apply Hrd'. }
  exists (at_clock (S t) g), t. split; [done|]. split; [apply Hrd'|].
  split; cbn [with_track submitted completed qbuf_ring lat st at_clock g_clock g_rows]; rewrite ?length_app; cbn [length].
  - eapply timeline_sub; [exact T1|lia|lia|lia].
  - lia.
  - rewrite u32_small by lia. lia.
  - done.
  - lia.
  - lia.
  - by rewrite length_insert.
  - done.
  - intros j s' Hj Hs. pose proof (Z.mod_pos_bound (submitted f) (queue_depth cfg) ltac:(lia)).
    apply snoc_lookup in Hs as [Hs|[-> ->]].
    + rewrite list_lookup_insert_ne; [by apply T9|]. apply lookup_lt_Some in Hs as Hlt.
      pose proof (Z.mod_pos_bound (Z.of_nat j) (queue_depth cfg) ltac:(lia)).
      pose proof (slots_differ (Z.of_nat j) (submitted f) (queue_depth cfg) ltac:(lia)). lia.
    + rewrite T3. apply list_lookup_insert_eq. rewrite T7. rewrite <- T3. lia.
  - destruct T10 as (l & -> & Hl & Hp & Hst). exists l. split; [done|]. split; [done|]. split; [|done].
    intros j row Hk. rewrite <- (app_nil_r dqs). by apply paired_mono, Hp.
  - intros j s' d Hs Hd. apply snoc_lookup in Hs as [Hs|[-> ->]]; [by apply T11|]. apply lookup_lt_Some in Hd. lia.
  - done.
Qed.

(** The check of the pattern reads only the mapped buffer. *)
Lemma runner_verify_ok b len (c : bool) w g (Q : option bool -> pworld -> Prop) :
  running w0 w g -> (addr b, len) ∈ g_known g -> b_length b = len -> 0 <= len -> (c = true -> WIDTH * HEIGHT <= len) ->
  (forall v w', running w0 w' g -> (is_Some v <-> c = true) -> Q v w') ->
  wp (if c then (cap <- sys (load_bytes (addr b) (b_length b));;
                 r <- flift (verify_gradient cap);; fret (Some r))
      else fret None) Q w.
Proof.
  intros Hr Hk Ebl Hpos Hlen HQ. rewrite Ebl. destruct c.
  - apply wp_bind. eapply (wp_sys_load w0); [exact Hr|exact Hk|lia|].
    specialize (Hlen eq_refl). clear Hr. intros l w' Hr El _. apply wp_bind.
    destruct (verify_exact l) as (v & Hv & _); [unfold STRIDE, WIDTH, HEIGHT in *; lia|].
    eapply wp_of; [unfold flift; by rewrite Hv|]. apply wp_ret, HQ; [done|]. split; [done|by eexists].
  - apply wp_ret, HQ; [done|]. split; [by intros []|done].
Qed.

Lemma runner_complete_ok depth subs dqs turns f w g dq lens len :
  running w0 w (tick g) -> ready f g -> tracked depth subs dqs turns f g ->
  (length dqs < length subs)%nat -> 0 <= a_index dq ->
  shows (cap_bufs f) lens (g_known g) -> lens !! Z.to_nat (a_index dq) = Some len -> 0 <= a_bytesused dq <= len ->
  (verify_pattern cfg = true -> Forall (fun len => WIDTH * HEIGHT <= len) lens) ->
  wp (complete cfg f dq (reading (g_clock g))) (fun f' w' =>
    exists g' p, running w0 w' g' /\ ready f' g' /\ tracked depth subs (dqs ++ [g_clock g]) turns f' g' /\
      g_queues g' = g_queues g /\ exists ring l s, f' = with_track ring l p (submitted f) (u32 (completed f + 1)) s f) w.
Proof.
  intros Hr Hrd [T1 T2 T3 T4 T5 T6 T7 T8 T9 T10 T11 T12] Hlt Hi Hs Hlen Hb Hver. pose proof Hok as [Hp _]. unfold UINT_MAX in *.
  destruct (Hs _ _ Hlen) as (b & Hb' & Ebl & Hk). unfold complete. cbv zeta. apply wp_bind. eapply wp_aget; [lia|exact Hb'|].
  apply wp_bind. eapply (wp_crc32_at w0); [exact Hr|exact Hk|done|]. clear Hr. intros l w1 Hr El Hu.
  apply wp_bind. pcall Hp. rename a into m. apply wp_bind.
  pose proof (Z.mod_pos_bound (completed f) (queue_depth cfg) ltac:(lia)) as Hm.
  destruct (lookup_lt_is_Some_2 subs (length dqs) Hlt) as [t Ht].
  eapply wp_aget; [lia|rewrite T4; by apply T9|]. apply wp_bind, wp_aset; [rewrite T4, T8; lia|].
  apply wp_bind. set (drop := match m with Some m => ztrue (Z.land (flags m) VPIPE_META_F_DROPPED) | None => false end).
  eapply (runner_verify_ok b len); [exact Hr|exact Hk|exact Ebl|lia| |].
  { intros Hc. apply andb_true_iff in Hc as [[Hv _]%andb_true_iff _].
    exact (Forall_lookup_1 _ _ _ _ (Hver Hv) Hlen). }
  clear Hr. intros v w3 Hr Hv. apply wp_bind. pcall Hp. apply wp_ret.
  eexists _, (pacing f). split; [exact Hr|]. split; [by eapply ready_track|]. split; [|by eauto 10].
  split; cbn [with_track submitted completed qbuf_ring lat st tick add_row g_clock g_rows]; rewrite ?length_app; cbn [length].
  - eapply timeline_dq; [exact T1|lia|lia|lia].
  - lia.
  - done.
  - rewrite u32_small by lia. lia.
  - lia.
  - done.
  - done.
  - by rewrite length_insert.
  - intros j s' Hj. apply T9. lia.
  - destruct T10 as (rows & Er & Hl & Hpr & Hst). exists (rows ++ [frame_row (completed f) (reading t)
      (reading (g_clock g)) m (crc_ref l) drop]).
    rewrite Er, <- app_assoc. split; [done|]. split; [rewrite !length_app; cbn; lia|]. split.
    + intros k row Hk'. apply snoc_lookup in Hk' as [Hk'|[-> ->]].
      * rewrite <- (app_nil_r subs). by apply paired_mono, Hpr.
      * exists t, (g_clock g), m, l, drop. rewrite Hl. split; [done|]. split; [by apply list_lookup_middle|].
        split; [done|]. by rewrite T4.
    + apply stats_ok_snoc; [done|unfold UINT_MAX; lia|done].
  - intros j s' d' Hs' Hd'. rewrite T4, Nat2Z.id. apply snoc_lookup in Hd' as [Hd'|[-> ->]].
    + pose proof (lookup_lt_Some _ _ _ Hd'). rewrite list_lookup_insert_ne by lia. by apply T11.
    + rewrite list_lookup_insert_eq by lia. congruence.
  - done.
Qed.

(** [i] frames are completed and [k] turns of the loop begun; between two turns
    the two agree. *)
Definition turning (depth i k : Z) (f : locals) (w : pworld) : Prop :=
  exists g subs dqs, running w0 w g /\ ready f g /\ tracked depth subs dqs k f g /\
    Z.of_nat (length dqs) = i /\ Z.of_nat (length subs) = Z.min (frames cfg) (i + depth).
Definition looping (depth i : Z) (f : locals) (w : pworld) : Prop :=
  turning depth i i f w.

Lemma occupied_gauge depth i f :
  0 <= i < frames cfg -> 1 <= u32 (submitted f - completed f) <= depth -> depth <= 32 ->
  occupied depth i f -> occupied depth (i + 1) (gauge f).
Proof.
  intros Hi Hin Hd (total & E & Ht). exists (total + u32 (submitted f - completed f)). unfold UINT_MAX in *.
  cbn [gauge with_track with_occ occ_sum]. rewrite E. split; [apply dadd_ints; nia|nia].
Qed.

Lemma looping_gauge depth i f w :
  1 <= depth <= queue_depth cfg -> 0 <= i < frames cfg -> looping depth i f w -> turning depth i (i + 1) (gauge f) w.
Proof.
  intros Hdep Hi (g & subs & dqs & Hr & Hrd & [T1 T2 T3 T4 T5 T6 T7 T8 T9 (rows & Er & Hl & Hp & Hst) T11 T12] & Hd & Hs).
  unfold UINT_MAX in *. assert (Hin : 1 <= u32 (submitted f - completed f) <= depth) by (rewrite T3, T4, u32_small; lia).
  exists g, subs, dqs. split; [done|]. split; [by eapply ready_fds; [exact Hrd|done..|apply Hrd]|]. split; [|done]. split; try done.
  - exists rows. do 3 (split; [done|]). apply stats_ok_gauge; [done|lia].
  - apply occupied_gauge; [done|done|lia|done].
Qed.

Lemma runner_frame_ok depth i f w :
  1 <= depth <= queue_depth cfg -> 0 <= i < frames cfg -> looping depth i f w ->
  wp (frame cfg buffer i f) (fun r w' =>
    if fst r : bool then looping depth (i + 1) (snd r) w' else accounted owns w0 (snd r) w') w.
Proof.
  intros Hdep Hi Hl. apply looping_gauge in Hl; [|done|done]. pose proof Hok as [Hp _]. unfold frame. cbv zeta.
  revert Hl. generalize (gauge f). clear f. intros f (g & subs & dqs & Hr & Hrd & Htk & Hnd & Hns).
  destruct (rd_cap _ _ Hrd) as (lens & Hq & Hs & Hver). apply wp_bind. pcall Hp.
  destruct (Z.ltb_spec (a_ret a) 0) as [|Hge]; [apply wp_ret; eexists; split; [exact Hr|apply Hrd]|].
  destruct (Ha lens Hge Hq) as (Hi0 & len & Hlen & Hb). apply wp_bind. pcall Hp.
  destruct (queue_depth cfg <=? a_index a).
  { apply wp_ret. eexists. split; [exact Hr|]. destruct (rd_owns _ _ Hrd) as [[N1 N2 N3 N4] L1 L2 Hd]. by split. }
  apply wp_bind. eapply wp_mono; [eapply (runner_complete_ok depth subs dqs (i + 1) f _ g a lens len); try done; [lia|by apply Hb]|].
  clear Hr Ha. intros f' w3 (g' & p & Hr & Hrd' & Htk' & Eq & ring & l & s' & Ef).
  assert (Hfd : fd f' = fd f) by (by subst f'). apply wp_bind. pcall Hp.
  destruct (r <? 0); [apply wp_ret; eexists; split; [exact Hr|apply Hrd']|].
  apply wp_bind. pcall Hp. destruct (Z.ltb_spec (a_ret a0) 0) as [|Hge0]; [apply wp_ret; eexists; split; [exact Hr|apply Hrd']|].
  assert (Hsub : submitted f' = Z.of_nat (length subs)) by apply Htk'.
  destruct (Z.ltb_spec (submitted f') (frames cfg)) as [Hlt|Hdone].
  - eapply wp_mono; [eapply (runner_submit_ok depth subs (dqs ++ [g_clock g]) (i + 1) f' _ g'); try done; [lia|lia| |]|].
    + rewrite length_app. cbn. lia.
    + intros _ Eb lo Hlo. destruct (Ha lo Hge0 Hlo) as (Hj & len' & Hl' & _). split; [done|by eexists].
    + intros [[] f2] w9; cbn [fst snd]; [|done]. intros (g2 & t & Hr2 & Hrd2 & Htk2).
      exists g2, (subs ++ [t]), (dqs ++ [g_clock g]). do 3 (split; [done|]). rewrite !length_app. cbn. lia.
  - apply wp_ret. cbn [fst snd]. exists g', subs, (dqs ++ [g_clock g]). do 3 (split; [done|]). rewrite !length_app. cbn. lia.
Qed.

(** The pipeline is filled first. *)
Definition filling (depth i : Z) (f : locals) (w : pworld) : Prop :=
  exists g subs, running w0 w g /\ ready f g /\ tracked depth subs [] 0 f g /\ Z.of_nat (length subs) = i.

Lemma runner_fill_ok depth i f w :
  1 <= depth <= queue_depth cfg -> 0 <= i < Z.min (frames cfg) depth -> filling depth i f w ->
  wp (fill_one cfg buffer i f) (fun r w' =>
    if fst r : bool then filling depth (i + 1) (snd r) w' else accounted owns w0 (snd r) w') w.
Proof.
  intros Hdep Hi (g & subs & Hr & Hrd & Htk & Hns). unfold fill_one.
  eapply wp_mono; [eapply (runner_submit_ok depth subs [] 0 f w g); try done; [lia|lia|cbn; lia|]|].
  - intros Es Eb lens Hl. destruct (rd_out _ _ Hrd Es Eb) as (lens' & Hl' & _ & _ & Hall).
    assert (lens' = lens) as ->.
    { pose proof (r_queues _ _ _ Hr _ _ _ Hl). pose proof (r_queues _ _ _ Hr _ _ _ Hl'). congruence. }
    rewrite (tk_sub _ _ _ _ _ _ Htk). split; [lia|]. apply lookup_lt_is_Some_2. lia.
  - intros [[] f2] w2; cbn [fst snd]; [|done]. intros (g2 & t & Hr2 & Hrd2 & Htk2). exists g2, (subs ++ [t]).
    do 3 (split; [done|]). rewrite length_app. cbn. lia.
Qed.

(** *** The summary *)

(** Every frame was submitted and completed, and the statistics say so. *)
Definition finished (depth : Z) (s : run_stats) (rows : list (list Z)) : Prop :=
  exists c subs dqs l, timeline (Z.to_nat depth) c0 c subs dqs /\
    Z.of_nat (length subs) = frames cfg /\ Z.of_nat (length dqs) = frames cfg /\
    rows = prow w0 ++ l /\ length l = length dqs /\
    (forall k row, l !! k = Some row -> paired subs dqs k row) /\ stats_ok checking depth l s /\
    summarised depth (frames cfg) l s.

Definition ended (depth : Z) (f : locals) (w : pworld) : Prop :=
  exists g, running w0 w g /\ ready f g /\ finished depth (st f) (g_rows g).

(** What was measured is what the rows show. *)
Lemma samples_are_rows subs dqs (lats : list Z) l :
  (forall k row, l !! k = Some row -> paired subs dqs k row) ->
  (forall j s d, subs !! j = Some s -> dqs !! j = Some d -> lats !! j = Some (u64 (reading d - reading s))) ->
  length lats = length l -> lats = latencies l.
Proof.
  intros Hp Hs Hl. apply list_eq_same_length with (length l); [unfold latencies; by rewrite length_fmap|done|].
  intros k x y Hk Hx Hy. unfold latencies in Hy. apply list_lookup_fmap_Some_1 in Hy as (row & -> & Hrow).
  destruct (Hp k row Hrow) as (s & d & m & bs & drop & Es & Ed & _ & ->). rewrite (Hs k s d Es Ed) in Hx.
  by injection Hx as <-.
Qed.

(** A later reading of the clock gives a latency in range. *)
Lemma latency_range s d : (s < d)%nat -> 0 <= u64 (reading d - reading s) <= 2 ^ 62.
Proof.
  intros Hsd. pose proof (reading_mono s d ltac:(lia)). pose proof (reading_range s). pose proof (reading_range d).
  rewrite u64_small; lia.
Qed.

Lemma samples_range dep c subs dqs l :
  timeline dep c0 c subs dqs -> (forall k row, l !! k = Some row -> paired subs dqs k row) ->
  Forall (fun x => 0 <= x <= 2 ^ 62) (latencies l).
Proof.
  intros Ht Hp. apply Forall_fmap, Forall_lookup. intros k row Hrow.
  destruct (Hp k row Hrow) as (s & d & m & bs & drop & Es & Ed & _ & ->). cbn.
  apply latency_range. by eapply (tl_order _ _ _ _ _ Ht).
Qed.

Lemma runner_summarize_ok depth f w :
  looping depth (frames cfg) f w ->
  wp (summarize cfg f) (fun r w' =>
    if fst r : bool then ended depth (snd r) w' else accounted owns w0 (snd r) w') w.
Proof.
  intros (g & subs & dqs & Hr & Hrd & [T1 T2 T3 T4 T5 T6 T7 T8 T9 (rows & Er & Hl & Hp & Hst) T11 (total & Eo & Ht)] & Hd & Hs).
  pose proof (samples_are_rows subs dqs (lat f) rows Hp T11 ltac:(lia)) as El.
  pose proof (samples_range _ _ _ _ _ T1 Hp) as Hrange. rewrite <- El in Hrange. unfold UINT_MAX in *.
  assert (En : frames cfg = Z.of_nat (length (lat f))) by lia.
  assert (Hdef : forall m, 2 ^ 52 <= Zpos m < 2 ^ 53 -> is_Some (percentile (qsort (lat f)) (frames cfg) (fraction m))).
  { intros m Hm. rewrite En. apply percentile_of_samples; [done|lia|done]. }
  destruct (Hdef 4503599627370496%positive ltac:(by split)) as [r50 E50]. fold p50 in E50.
  destruct (Hdef 8556839292003942%positive ltac:(by split)) as [r95 E95]. fold p95 in E95.
  destruct (Hdef 8917127262193582%positive ltac:(by split)) as [r99 E99]. fold p99 in E99. clear Hdef.
  unfold summarize. cbv zeta. rewrite E50, E95, E99. do 3 (apply wp_bind; eapply wp_of; [reflexivity|]).
  apply wp_ret. cbn [fst snd]. exists g. split; [done|]. split; [by eapply ready_track|].
  exists (g_clock g), subs, dqs, rows. split; [done|]. split; [lia|]. do 4 (split; [done|]).
  split; [destruct Hst; by split|]. cbn [with_track st]. rewrite El in E50, E95, E99.
  split; cbn [with_summary lat_median_ns lat_p95_ns lat_p99_ns occ_mean]; [exact E50|exact E95|exact E99| |].
  - intros Hle. rewrite <- El in Hle, E50, E95, E99. rewrite En in E50, E95, E99.
    eapply (percentiles_le (lat f)); [lia| |exact E50|exact E95|exact E99].
    rewrite Forall_forall in *. intros x Hx. pose proof (Hle x Hx). pose proof (Hrange x Hx). lia.
  - exists total. split; [done|]. rewrite Eo. destruct (Z.eqb_spec (frames cfg) 0); [lia|].
    unfold ztrue. by destruct (Z.eqb_spec (frames cfg) 0).
Qed.

Lemma runner_stream_ok depth f w :
  1 <= depth <= queue_depth cfg -> prepared depth f w ->
  wp (andthen (for_each (queue_depth cfg) enqueue)
        (andthen (start cfg buffer)
           (andthen (for_each (Z.min (frames cfg) depth) (fill_one cfg buffer))
              (andthen (for_each (frames cfg) (frame cfg buffer)) (summarize cfg)))) f)
    (fun r w' => if fst r : bool then ended depth (snd r) w' else accounted owns w0 (snd r) w') w.
Proof.
  intros Hdep Hpr. pose proof Hok as [Hp _]. apply wp_andthen.
  eapply wp_mono; [apply (wp_for_each (fun _ => prepared depth) (accounted owns w0)); [lia|exact Hpr|]|].
  { intros i f' w' _ (g & Hr & Hrd & Hrest). unfold enqueue. repeat (pstep Hp); [eexists; split; [exact Hr|apply Hrd]|].
    exists g. by split. }
  clear f w Hpr. intros [[] f] w; [|done]. cbn [fst snd]. intros Hpr. apply wp_andthen.
  eapply wp_mono; [by apply runner_start_ok|]. clear f w Hpr. intros [[] f] w; [|done]. cbn [fst snd].
  intros (g & Hr & Hrd & [F1 F2 F3 F4 (b & F5) F6] & Hc & Hrows). apply wp_andthen.
  eapply wp_mono; [apply (wp_for_each (filling depth) (accounted owns w0)); [lia| |]|].
  - exists g, []. split; [done|]. split; [done|]. split; [|done].
    split; cbn; try done; try lia; [by rewrite F1|..].
    + exists []. rewrite app_nil_r, F5. do 3 (split; [done|]). apply stats_ok_nil. lia.
    + exists 0. by rewrite F6, Z.mul_0_r.
  - intros i f' w' Hi. by apply runner_fill_ok.
  - clear f w g Hr Hrd F1 F2 F3 F4 b F5 F6 Hc Hrows. intros [[] f] w; [|done]. cbn [fst snd].
    intros (g & subs & Hr & Hrd & Htk & Hns). apply wp_andthen.
    eapply wp_mono; [apply (wp_for_each (looping depth) (accounted owns w0)); [lia| |]|].
    + exists g, subs, []. do 4 (split; [done|]). lia.
    + intros i f' w' Hi. by apply runner_frame_ok.
    + intros [[] f'] w'; [|done]. cbn [fst snd]. by apply runner_summarize_ok.
Qed.

Lemma out_depth_range inflight : 1 <= out_depth cfg buffer inflight <= queue_depth cfg.
Proof. unfold out_depth. destruct buffer; zbool; lia. Qed.

Lemma finished_ok depth s rows b : finished depth s rows -> finished depth (set_ok b s) rows.
Proof.
  intros (c & subs & dqs & l & Ht & Hs & Hd & Er & Hl & Hp & [S1 S2 S3 S4 S5] & [U1 U2 U3 U4 U5]).
  exists c, subs, dqs, l. do 6 (split; [done|]). by split.
Qed.

Lemma runner_run_one_ok path inflight :
  wp (run_one cfg buffer path inflight) (fun s w' =>
    balanced w0 w' /\ start_ok w' /\
    (ok s = true -> finished (out_depth cfg buffer inflight) s (prow w'))) w0.
Proof.
  pose proof (out_depth_range inflight) as Hdep. set (depth := out_depth cfg buffer inflight) in *.
  pose proof (running_start w0 (st_crc _ Hok)) as Hr. pose proof Hok as [Hp _]. unfold run_one. fold depth. cbv zeta.
  apply wp_bind. pcall Hp.
  { apply wp_ret. split; [|split; [|done]].
    - eapply running_end; [exact Hr| | |done|done]; intros ? _; apply not_elem_of_nil.
    - eapply (running_restart w0 Hp); [exact Hr|..]; intros ? _; apply not_elem_of_nil. }
  apply wp_bind.
  assert (Hbody : wp (body cfg buffer path depth (init cfg buffer depth)) (fun r w' =>
    if fst r : bool then ended depth (snd r) w' else accounted owns w0 (snd r) w') w).
  { apply wp_andthen. eapply wp_mono; [by apply runner_negotiate_ok|]. clear w Hr.
    intros [[] f] w; [|done]. cbn [fst snd]. intros (g & Hr & Ho). apply wp_andthen.
    eapply wp_mono; [by apply (runner_request_ok depth f w g)|]. clear f w g Hr Ho.
    intros [[] f] w; [|done]. cbn [fst snd]. intros (g & Hr & Hrd & Hc & Hrows & Hf). apply wp_andthen.
    eapply wp_mono; [by apply (runner_prepare_ok depth path f w g)|]. clear f w g Hr Hrd Hc Hrows Hf.
    intros [[] f] w; [|done]. cbn [fst snd]. intros Hpr. by apply runner_stream_ok. }
  eapply wp_mono; [exact Hbody|]. clear w Hr Hbody. intros [b f] w Hres. cbn [fst snd] in *. apply wp_bind.
  assert (Hacc : exists g, running w0 w g /\ owns f g /\ (b = true -> finished depth (st f) (g_rows g))).
  { destruct b; [destruct Hres as (g & Hr & Hrd & Hf)|destruct Hres as (g & Hr & Ho)]; exists g.
    - split; [done|]. by split; [apply Hrd|].
    - by split. }
  destruct Hacc as (g & Hr & Ho & Hf). eapply wp_mono; [by apply (runner_cleanup_ok f w g)|].
  intros ? w' (Hbal & Hst & Hrows). apply wp_ret. split; [done|]. split; [done|]. cbn [ok set_ok]. intros ->.
  rewrite Hrows. by apply finished_ok, Hf.
Qed.
End Proofs.

(** ** The command line *)

Definition options_ok (o : options) : Prop :=
  1 <= frames (o_cfg o) <= UINT_MAX /\ 2 <= queue_depth (o_cfg o) <= 32 /\ 0 <= fps (o_cfg o) <= 1000.

Lemma parse_uint_in s min max v :
  parse_uint s min max = Some v -> 0 <= min -> max <= UINT_MAX -> min <= v <= max.
Proof.
  unfold parse_uint, UINT_MAX. intros (x & Hx & ->)%fmap_Some Hmin Hmax. apply parse_uint_range_in in Hx.
  rewrite u32_small by lia. lia.
Qed.

Lemma apply_option_ok opt arg o o' : options_ok o -> apply_option opt arg o = inr o' -> options_ok o'.
Proof.
  intros (H1 & H2 & H3). unfold apply_option, VPIPE_MAX_QUEUE_DEPTH.
  repeat case_match; intros [= <-]; try done;
    match goal with E : parse_uint _ _ _ = Some _ |- _ => apply parse_uint_in in E; [|done|done] end;
    unfold options_ok; cbn; lia.
Qed.

Lemma parse_options_ok l : forall o o', options_ok o -> parse_options l o = inr o' -> options_ok o'.
Proof.
  induction l as [|[opt arg] l IH]; intros o o' Ho; cbn; [by intros [= <-]|].
  destruct (apply_option opt arg o) as [rc|o1] eqn:E; [done|]. apply IH. by eapply apply_option_ok.
Qed.

Section Main.
Context `{V4l2Laws} `{!BufferLaws} `{!FormatLaws} `{!MonotonicClock} `{Posix}.

Lemma balanced_trans w1 w2 w3 : balanced w1 w2 -> balanced w2 w3 -> balanced w1 w3.
Proof. intros [] []. split; congruence. Qed.

(** The kernel checksums the rows report are those of the bytes dequeued. *)
Definition checksums_agree (l : list (list Z)) : Prop :=
  Forall (fun row => row !! 12%nat = Some 0 \/ row !! 12%nat = row !! 13%nat) l.

Definition runner_post (w0 : pworld) (args : parsed) (r : list printf_call * Z) (w' : pworld) : Prop :=
  balanced w0 w' /\
  match parse_options args defaults with
  | inl e => r = ([], e)
  | inr o =>
      r = ([], 2) /\ source (o_cfg o) = SRC_FIXTURE \/ snd r = 1 \/
      snd r = 0 /\ exists l, prow w' = prow w0 ++ l /\
        Z.of_nat (length l) = (if o_compare o then 2 * frames (o_cfg o) else frames (o_cfg o)) /\
        (claims_match (o_compare o) (fst r) -> checksums_agree l)
  end.

(** What a completed run adds to the rows. *)
Lemma finished_rows w0 cfg depth s rows :
  finished w0 cfg depth s rows ->
  exists l, rows = prow w0 ++ l /\ Z.of_nat (length l) = frames cfg /\ (all_pass s -> checksums_agree l).
Proof.
  intros (c & subs & dqs & l & _ & _ & Hd & Hl & Hn & _ & Hst & _). exists l. split; [done|]. split; [lia|].
  apply (so_pass _ _ _ _ Hst).
Qed.

Lemma runner_main_ok w0 args :
  start_ok w0 -> supported WIDTH HEIGHT = true ->
  (forall o, parse_options args defaults = inr o -> source (o_cfg o) = SRC_FIXTURE -> grants_all) ->
  wp (main_out args) (runner_post w0 args) w0.
Proof.
  intros Hok Hsup Hgr. unfold main_out, runner_post. destruct (parse_options args defaults) as [e|o] eqn:Eo.
  { apply wp_ret. by split; [apply balanced_refl|]. }
  assert (Ho : options_ok o) by (eapply parse_options_ok; [|exact Eo]; by split; [|split]).
  specialize (Hgr o eq_refl). destruct o as [cfg buffer compare]. destruct Ho as (Hf & Hq & _). cbn [o_cfg o_buffer o_compare] in *.
  destruct (bool_decide (source cfg = SRC_FIXTURE) && _) eqn:E1.
  { apply andb_true_iff in E1 as [E1%bool_decide_eq_true_1 _]. apply wp_ret. split; [apply balanced_refl|by left]. }
  destruct compare.
  - apply wp_bind. eapply wp_mono; [by apply (runner_run_one_ok w0 Hok cfg BUF_MMAP)|]. intros s1 w1 (Hb1 & Hs1 & Hd1).
    apply wp_bind. eapply wp_mono; [by apply (runner_run_one_ok w1 Hs1 cfg BUF_DMABUF)|]. intros s2 w2 (Hb2 & _ & Hd2).
    apply wp_ret. split; [by eapply balanced_trans|]. right. cbn [fst snd].
    destruct (ok s1 && ok s2) eqn:E; [right|by left]. split; [done|]. apply andb_true_iff in E as [E2 E3].
    destruct (finished_rows _ _ _ _ _ (Hd1 E2)) as (l1 & Er1 & Hl1 & Hp1).
    destruct (finished_rows _ _ _ _ _ (Hd2 E3)) as (l2 & Er2 & Hl2 & Hp2).
    exists (l1 ++ l2). rewrite Er2, Er1, app_assoc, length_app. split; [done|]. split; [lia|].
    intros [P1 P2]%comparison_claims. apply Forall_app. by split; [apply Hp1|apply Hp2].
  - apply wp_bind. eapply wp_mono; [by apply (runner_run_one_ok w0 Hok cfg buffer)|]. intros s1 w1 (Hb1 & _ & Hd1).
    apply wp_ret. split; [done|]. right. cbn [fst snd]. destruct (ok s1); [right|by left]. split; [done|].
    destruct (finished_rows _ _ _ _ _ (Hd1 eq_refl)) as (l & Er & Hl & Hp). exists l. split; [done|]. split; [done|].
    intros [_ P]%summary_claims. by apply Hp.
Qed.

(** The exit status alone. *)
Lemma main_status args (Q : list printf_call * Z -> pworld -> Prop) w :
  wp (main_out args) Q w -> wp (main args) (fun rc w' => exists out, Q (out, rc) w') w.
Proof. intros Hm. apply wp_bind. eapply wp_mono; [exact Hm|]. intros [out rc] w' HQ. apply wp_ret. by exists out. Qed.
End Main.

(** ** The theorems *)


Import TinySim.

(** Five frames, three slots, three in flight. *)
Definition tiny_config : config := Config 5 0 3 SRC_VCAM false (lit "v") (lit "c").


(** the runner as a program, with any options and any device whose driver
    supports 640x480 (and, when frames are painted in user space, grants the
    buffers asked for): it never faults, gives everything back on every path,
    exits with the status of a bad option or 2 for a combination it does not
    support, printing nothing, and when it exits with 0 after running it has
    written one row per frame asked for, for each of the two transports when
    comparing; and if it printed that the checksums match, then every kernel
    checksum in those rows is that of the bytes dequeued. *)
Theorem runner_exits `{V4l2Laws} `{!BufferLaws} `{!FormatLaws} `{!MonotonicClock} `{Posix} (w0 : pworld) args
    (Hok : start_ok w0) (Hsup : supported WIDTH HEIGHT = true)
    (Hgrant : forall o, parse_options args defaults = inr o -> source (o_cfg o) = SRC_FIXTURE -> grants_all) :
  wp (main_out args) (fun r w' => balanced w0 w' /\
    match parse_options args defaults with
    | inl e => r = ([], e)
    | inr o =>
        r = ([], 2) /\ source (o_cfg o) = SRC_FIXTURE \/ snd r = 1 \/
        snd r = 0 /\ exists l, prow w' = prow w0 ++ l /\
          Z.of_nat (length l) = (if o_compare o then 2 * frames (o_cfg o) else frames (o_cfg o)) /\
          (claims_match (o_compare o) (fst r) -> checksums_agree l)
    end) w0.
Proof. by apply runner_main_ok. Qed.

(** Devices whose buffers hold 640x480 pixels: one refuses request 17, the other
    grants a single OUTPUT buffer. *)
#[local] Instance stubborn : V4l2 :=
  Sim.sim 307200 (fun _ => 32) (Nat.eqb 17) (fun _ => false) (fun _ => false) (fun _ i => i).
#[local] Instance stubborn_laws : V4l2Laws := Sim.sim_laws _ _ _ _ _ _.
#[local] Instance stubborn_bufs : BufferLaws := Sim.sim_bufs _ _ _ _ _ _.
Lemma image_size : in_u32 307200.
Proof. done. Qed.
#[local] Instance stubborn_fmts : FormatLaws := sim_fmts _ _ _ _ _ _ image_size.
#[local] Instance stubborn_clock : MonotonicClock := sim_clock _ _ _ _ _ _.

Lemma runner_exits_witness :
  let w0 := first_world (V := stubborn) Sim.sim0 ∅ in
  exists w', main [("f"%char, lit "3"); ("q"%char, lit "2")] w0 = Some (1, w') /\ balanced w0 w'.
Proof.
  intros w0.
  assert (Hg : forall o, parse_options [("f"%char, lit "3"); ("q"%char, lit "2")] defaults = inr o ->
    source (o_cfg o) = SRC_FIXTURE -> grants_all) by (intros o E; vm_compute in E; injection E as <-; discriminate).
  pose proof (runner_exits w0 [("f"%char, lit "3"); ("q"%char, lit "2")] (first_world_ok _ _) eq_refl Hg) as H1.
  destruct (wp_outcome _ _ _ 1 [] (main_status _ _ _ H1)) as (w' & E & _ & out & Hb & _); [vm_compute; reflexivity|].
  exists w'. exact (conj E Hb).
Defined.

#[local] Instance single : V4l2 :=
  Sim.sim 307200 (fun t => match t with OUTPUT => 1 | CAPTURE => 32 end) (fun _ => false) (fun _ => false) (fun _ => false) (fun _ i => i).
#[local] Instance single_laws : V4l2Laws := Sim.sim_laws _ _ _ _ _ _.
#[local] Instance single_bufs : BufferLaws := Sim.sim_bufs _ _ _ _ _ _.
#[local] Instance single_fmts : FormatLaws := sim_fmts _ _ _ _ _ _ image_size.
#[local] Instance single_clock : MonotonicClock := sim_clock _ _ _ _ _ _.

Definition refuses_none : @pworld single mem_posix := first_world (V := single) Sim.sim0 ∅.


(** The small device, with a metadata node that answers no entry. *)
Definition silent : V4l2 :=
  Build_V4l2 (@dev tiny) (@ioctl tiny) (@read_dev tiny) (fun _ d => ((-1, meta_zero), d)) (@byte_at tiny) (@poke tiny)
    (@open_ok tiny) (@mmap_ok tiny) (@now tiny) (@minflt tiny) (@eintr_max tiny).

(** The comparison says the checksums pass when none was checked. A
    metadata device that can be opened but answers no entry leaves both counts
    at 0: the two summaries print FAIL, the comparison prints PASS for both, and
    the program exits with 0. *)
Theorem comparison_passes_unchecked :
  exists out w', main_out (H := silent) [("C"%char, []); ("f"%char, lit "2"); ("q"%char, lit "2")]
      (first_world (V := silent) Sim.sim0 ∅) = Some ((out, 0), w') /\
    printf "checksum     %s (%u/%u match)\n" [AS "FAIL"; AU 0; AU 0] ∈ out /\
    printf "%-16s %-11s %-11s\n" [AS "checksum"; AS "PASS"; AS "PASS"] ∈ out.
Proof.
  set (c1 := printf "checksum     %s (%u/%u match)\n" [AS "FAIL"; AU 0; AU 0]).
  set (c2 := printf "%-16s %-11s %-11s\n" [AS "checksum"; AS "PASS"; AS "PASS"]).
  assert (Ec : (fun r => (snd (fst r), bool_decide (c1 ∈ fst (fst r)), bool_decide (c2 ∈ fst (fst r)))) <$>
    main_out (H := silent) [("C"%char, []); ("f"%char, lit "2"); ("q"%char, lit "2")] (first_world (V := silent) Sim.sim0 ∅)
    = Some (0, true, true)) by (vm_compute; reflexivity).
  destruct (main_out _ (first_world _ _)) as [[[out rc] w']|]; [|done]. cbn in Ec. injection Ec as -> E1 E2.
  exists out, w'. split; [done|]. by split; [apply bool_decide_eq_true_1 in E1|apply bool_decide_eq_true_1 in E2].
Qed.
End RunnerRun.
