(* ===== verification/Core.v ===== *)
(** * The driver behind the programs

    The programs of [user/] are verified against [FormatLaws], what they rely
    on when they negotiate a size. Here those laws are derived from the handlers
    of [kmod/vpipe-m2m.c] for any V4L2 core that dispatches the ioctls of
    [vpipe_ioctl_ops] to them: the formats of a file change only through
    [vpipe_s_fmt], every other callback leaves them alone, and every state a
    file can reach since [vpipe_open] carries one legal format on both queues.
    The programs that use no other video device (the benchmark runner and the
    DMABUF test) then run on the driver with no assumption on the formats. *)

From Stdlib Require Import Ascii.
From S2P Require Import Prelude Types Cv Meta Kernel Source Backends M2m M2mSpec Pipeline Device Pgm Wp Client Process Bench VcamTest Runner RunnerRun.

Section Files.
Context `{KernelEnv} `{OpsTable} `{OpenEnv} `{DriverEnv}.

(** ** What changes a format *)

Definition formats (s : vsys) : option (vpipe_q_data * vpipe_q_data) :=
  (fun c => (out_q c, cap_q c)) <$> vctx s.

(** From a state with the formats [f], [c] ends in one with the same formats. *)
Definition steady (f : option (vpipe_q_data * vpipe_q_data)) {A} (c : F vsys A) : Prop :=
  forall s a s', formats s = f -> c s = Some (a, s') -> formats s' = f.

Lemma steady_bind f {A B} (c : F vsys A) (k : A -> F vsys B) :
  steady f c -> (forall a, steady f (k a)) -> steady f (fbind c k).
Proof.
  intros Hc Hk s b s' Hs. unfold fbind. destruct (c s) as [[a s1]|] eqn:E; [|done].
  apply Hk. by eapply Hc.
Qed.

Lemma steady_ret f {A} (a : A) : steady f (fret a).
Proof. by intros s b s' Hs [= _ <-]. Qed.

Lemma steady_lift f {A} (o : option A) : steady f (flift o).
Proof. intros s b s' Hs. unfold flift. destruct o; [|done]. by intros [= _ <-]. Qed.

Lemma steady_get f : steady f fget.
Proof. by intros s b s' Hs [= _ <-]. Qed.

Lemma steady_modify f (g : vsys -> vsys) : (forall s, vctx (g s) = vctx s) -> steady f (fmodify g).
Proof. intros Hg s b s' Hs [= _ <-]. unfold formats. by rewrite Hg. Qed.

Lemma steady_kern f {A} (c : F kworld A) : steady f (kern c).
Proof. intros s b s' Hs. unfold kern. destruct (c (vk s)) as [[a w]|]; [|done]. by intros [= _ <-]. Qed.

Lemma steady_m2m f g : steady f (on_m2m g).
Proof. by apply steady_modify. Qed.

Lemma steady_get_buf f b : steady f (get_buf b).
Proof. intros s x s' Hs. unfold get_buf. destruct (_ !! b); [|done]. by intros [= _ <-]. Qed.

Lemma steady_put_buf f b x : steady f (put_buf b x).
Proof. intros s y s' Hs. unfold put_buf. destruct (_ !! b); [|done]. by intros [= _ <-]. Qed.

Lemma steady_remove f t : steady f (v4l2_m2m_buf_remove t).
Proof. intros s o s' Hs. unfold v4l2_m2m_buf_remove. destruct (m2m_buf_remove _ _). by intros [= _ <-]. Qed.

Lemma steady_cv f job a t r : steady f (run_cv job a t r).
Proof.
  intros s o s' Hs. unfold run_cv. destruct (vpipe_cv_process _ _ _ _ _) as [[[m x] ret]|]; [|done].
  by intros [= _ <-].
Qed.

(** A handler that reads the context may put back one with the same formats. *)
Lemma steady_ctx f {A} (k : vpipe_ctx -> F vsys A) :
  (forall c, f = Some (out_q c, cap_q c) -> steady f (k c)) -> steady f (fbind get_ctx k).
Proof.
  intros Hk s b s' Hs. unfold fbind, get_ctx. destruct (vctx s) as [c|] eqn:Ec; [|done].
  apply Hk; [|done]. rewrite <- Hs. unfold formats. by rewrite Ec.
Qed.

Lemma steady_put f c : f = Some (out_q c, cap_q c) -> steady f (put_ctx c).
Proof. by intros -> s b s' Hs [= _ <-]. Qed.
End Files.

Create HintDb steady.
#[export] Hint Resolve steady_ret steady_lift steady_get steady_kern steady_m2m steady_get_buf
  steady_put_buf steady_remove steady_cv : steady.

(** Walks through a handler. *)
Ltac steady :=
  repeat first
    [ solve [auto with steady]
    | solve [apply steady_put; done]
    | solve [apply steady_modify; done]
    | apply steady_ctx; intros ? ?
    | apply steady_bind; [|intros ?]
    | case_match ].

Section Handlers.
Context `{KernelEnv} `{OpsTable} `{OpenEnv} `{DriverEnv}.

Lemma steady_done f b st : steady f (v4l2_m2m_buf_done b st).
Proof. unfold v4l2_m2m_buf_done. steady. Qed.
#[local] Hint Resolve steady_done : steady.

Lemma steady_state f b st : steady f (set_state b st).
Proof. unfold set_state. steady. Qed.
#[local] Hint Resolve steady_state : steady.

Lemma steady_return_all f t : steady f (vpipe_return_all_buffers t).
Proof.
  assert (Hl : forall n, steady f (return_all_loop n t)).
  { induction n as [|n IH]; cbn [return_all_loop]; [done|]. steady. }
  intros s a s' Hs E. by eapply Hl.
Qed.
#[local] Hint Resolve steady_return_all : steady.

Lemma steady_fail_job f : steady f fail_job.
Proof. unfold fail_job. steady. Qed.
#[local] Hint Resolve steady_fail_job : steady.

Lemma steady_run f : steady f vpipe_device_run.
Proof. unfold vpipe_device_run. steady. Qed.

Lemma steady_default f cmd : steady f (vpipe_default_ioctl cmd).
Proof. unfold vpipe_default_ioctl. steady. Qed.
#[local] Hint Resolve steady_run steady_default : steady.

(** The callbacks other than [vpipe_s_fmt]. *)
Definition sets_format (e : event) : bool := match e with EvSFmt _ _ => true | _ => false end.

Lemma steady_exec f e : sets_format e = false -> steady f (exec e).
Proof.
  destruct e; intros He; try done; cbn [exec]; unfold vpipe_s_ctrl, vpipe_buf_prepare, vpipe_buf_queue,
    vpipe_buf_finish, vpipe_start_streaming, vpipe_stop_streaming; steady.
Qed.
End Handlers.

(** ** The life of a file *)

Section Life.
Context `{KernelEnv} `{OpsTable} `{OpenEnv} `{DriverEnv}.

(** What happens to an open file other than [VIDIOC_S_FMT]: a callback, a
    private ioctl, or the bookkeeping of the frameworks and of the other files,
    which may change anything but the file's own context. *)
Inductive driver_step : vsys -> vsys -> Prop :=
| step_event e s s' : sets_format e = false -> exec e s = Some (tt, s') -> driver_step s s'
| step_ioctl cmd r s s' : vpipe_default_ioctl cmd s = Some (r, s') -> driver_step s s'
| step_frameworks s s' : vctx s' = vctx s -> driver_step s s'.

(** The states of the files that [vpipe_open] opened. *)
Inductive lives : vsys -> Prop :=
| lives_open f f' : vpipe_open f = Some (0, f') -> lives (fsys f')
| lives_s_fmt t pix r s s' : lives s -> vpipe_s_fmt t pix s = Some (r, s') -> lives s'
| lives_step s s' : lives s -> driver_step s s' -> lives s'.

Lemma step_formats s s' : driver_step s s' -> formats s' = formats s.
Proof.
  intros Hs. destruct Hs as [e s s' He E|cmd r s s' E|s s' E].
  - by eapply steady_exec.
  - by eapply steady_default.
  - unfold formats. by rewrite E.
Qed.

Lemma steps_formats s s' : rtc driver_step s s' -> formats s' = formats s.
Proof. induction 1 as [|x y z Hxy _ IH]; [done|]. by rewrite IH, (step_formats x y). Qed.

(** What [VIDIOC_S_FMT] does to the formats. *)
Lemma s_fmt_formats t pix r pix' s s' :
  vpipe_s_fmt t pix s = Some ((r, pix'), s') ->
  r = - EBUSY /\ formats s' = formats s \/
  r = 0 /\ formats s' = Some (pix_q (vpipe_try_fmt pix).2, pix_q (vpipe_try_fmt pix).2).
Proof.
  unfold vpipe_s_fmt, fbind, fget, get_ctx. destruct (vctx s) as [c|] eqn:Ec; [|done].
  destruct (vb2_is_busy _ _); [intros [= <- _ <-]; by left|]. intros E. right.
  destruct t; by injection E as <- _ <-.
Qed.

Lemma create_err id w e w' : vpipe_source_create id w = Some (ErrPtr e, w') -> e < 0.
Proof.
  unfold vpipe_source_create, fbind, fret. intros E. repeat case_match; simplify_eq; done.
Qed.

Lemma customs_fsys cfgs : forall f r f', new_customs cfgs f = Some (r, f') -> fsys f' = fsys f.
Proof.
  induction cfgs as [|cfg cfgs IH]; intros f r f'; cbn [new_customs]; [by intros [= _ <-]|].
  destruct (f_handler f); [|done]. destruct (_ =? 0); [|by intros [= _ <-]]. intros E. by apply IH in E.
Qed.

(** A sequence of cleanups ends with the code after them. *)
Definition returns {S A} (r : A) (c : F S A) : Prop := forall s a s', c s = Some (a, s') -> a = r.

Lemma returns_ret {S A} (r : A) : returns r (@fret S A r).
Proof. by intros s a s' [= <- _]. Qed.

Lemma returns_then {S A B} (r : A) (c : F S B) (k : F S A) : returns r k -> returns r (c;; k).
Proof. intros Hk s a s' (b & s1 & _ & E)%fbind_Some. by eapply Hk. Qed.

Lemma returns_eq {S A} (r a : A) (c : F S A) s s' : c s = Some (a, s') -> returns r c -> a = r.
Proof. intros E Hr. by eapply Hr. Qed.
Ltac ends_with E := eapply returns_eq in E; [|repeat apply returns_then; apply returns_ret].

(** A file is opened with the default format on both queues. *)
Lemma open_formats f f' :
  vpipe_open f = Some (0, f') -> formats (fsys f') = Some (out_q ctx_default, out_q ctx_default).
Proof.
  unfold vpipe_open. intros (ok & f1 & E1 & E)%fbind_Some.
  unfold drv, ctx_alloc in E1. injection E1 as E1 <-.
  destruct ok; [|done]. cbn [negb] in E. rewrite E1 in E.
  apply fbind_Some in E as (u2 & f2 & E2 & (err & f3 & E3 & E)%fbind_Some).
  assert (Hc3 : vctx (fsys f3) = Some ctx_default).
  { rewrite (customs_fsys _ _ _ _ E3). unfold v4l2_ctrl_handler_init in E2. cbn [f_handler] in E2.
    destruct (f_handler f); [done|]. by injection E2 as _ <-. }
  destruct (ztrue err) eqn:Ze; [by ends_with E; subst|].
  apply fbind_Some in E as (u4 & f4 & E4 & E).
  assert (Hc4 : vctx (fsys f4) = Some ctx_default).
  { unfold v4l2_fh_init_add in E4. destruct (_ || _); [done|]. by injection E4 as _ <-. }
  destruct (m2m_ctx_init _) as [code q]. destruct (ztrue code) eqn:Zc; [by ends_with E; subst|].
  apply fbind_Some in E as (u5 & f5 & [= _ <-] & (o & f6 & E6 & E)%fbind_Some).
  unfold drv, kern in E6. destruct (vpipe_source_create _ _) as [[o' w']|] eqn:Eo; [|done].
  injection E6 as -> <-. destruct o as [p|e].
  - unfold drv, fbind, get_ctx, put_ctx, fmodify, fret in E. cbn in E. rewrite Hc4 in E.
    cbn in E. by injection E as <-.
  - apply create_err in Eo. ends_with E. lia.
Qed.

Definition one_format (o : option (vpipe_q_data * vpipe_q_data)) : Prop :=
  exists q, fmt_ok q /\ o = Some (q, q).

(** Every file carries one legal format on both queues, whatever happened to it. *)
Lemma lives_format s : lives s -> one_format (formats s).
Proof.
  induction 1 as [f f' E|t pix [r pix'] s s' _ IH E|s s' _ IH E].
  - exists (out_q ctx_default). split; [by split|]. by apply (open_formats f).
  - destruct (s_fmt_formats _ _ _ _ _ _ E) as [[_ ->]|[_ ->]]; [done|].
    eexists. split; [apply fill_pix_ok|done].
  - by rewrite (step_formats s).
Qed.
End Life.

(** ** The core *)

(** The format a program asks for: the other members are zero. *)
Definition asked (x y px fl : Z) : v4l2_pix_format := Pix x y px fl 0 0 0 0 0 0 0 0.

(** Every open file made some steps; none was opened or closed. *)
Definition files_run `{KernelEnv} `{OpsTable} `{OpenEnv} `{DriverEnv} : relation (gmap Z vsys) :=
  map_Forall2 (fun _ => rtc driver_step).

(** A V4L2 core over the driver: [core_files] are the open files of the node by
    descriptor. [VIDIOC_S_FMT], [VIDIOC_G_FMT] and the allocation of MMAP buffers
    reach the handlers of [vpipe_ioctl_ops] and [vpipe_qops], unless the core
    refuses them itself; other descriptors have no formats or buffers to set; whatever else a
    program does lets the driver make its steps. *)
Class DriverCore `{KernelEnv} `{OpsTable} `{OpenEnv} `{DriverEnv} `{BufferLaws} := {
  core_files : dev -> gmap Z vsys;
  core_lives d fd s : core_files d !! fd = Some s -> lives s;
  core_s_fmt fd t x y px fl d a d' :
    ioctl fd (S_FMT t x y px fl) d = (a, d') ->
    a_ret a < 0 /\ files_run (core_files d) (core_files d') \/
    exists s r pix' s', core_files d !! fd = Some s /\
      vpipe_s_fmt t (asked x y px fl) s = Some ((r, pix'), s') /\
      (a_ret a < 0 <-> r < 0) /\ files_run (<[fd := s']> (core_files d)) (core_files d');
  core_g_fmt fd t d a d' :
    ioctl fd (G_FMT t) d = (a, d') -> 0 <= a_ret a ->
    exists s pix pix' s', core_files d !! fd = Some s /\
      vpipe_g_fmt t pix s = Some ((0, pix'), s') /\
      a_bytesperline a = pix_bytesperline pix' /\ a_sizeimage a = pix_sizeimage pix';
  core_reqbufs fd t c d a d' :
    ioctl fd (REQBUFS t c V4L2_MEMORY_MMAP) d = (a, d') -> 0 <= a_ret a ->
    exists s n np size s', core_files d !! fd = Some s /\
      vpipe_queue_setup t c 0 0 s = Some ((0, (n, np, size)), s') /\
      Forall (Z.le size) (bufs_of d' fd t);
  core_runs fd r d a d' :
    match r with S_FMT _ _ _ _ _ => False | _ => True end -> ioctl fd r d = (a, d') ->
    files_run (core_files d) (core_files d');
  core_poke x l d : files_run (core_files d) (core_files (poke x l d));
  core_read fd n d : files_run (core_files d) (core_files (snd (read_dev fd n d)));
  core_entry fd d : files_run (core_files d) (core_files (snd (read_entry fd d)))
}.

Section Formats.
Context `{DriverCore}.

(** The formats of the open files. *)
Definition file_formats (d : dev) : gmap Z (option (vpipe_q_data * vpipe_q_data)) :=
  formats <$> core_files d.

(** The line length and the image size of a queue of a descriptor. *)
Definition queue_format (d : dev) (fd : Z) (t : buf_type) : Z * Z :=
  match file_formats d !! fd with
  | Some (Some (o, c)) =>
      let q := match t with OUTPUT => o | CAPTURE => c end in (bytesperline q, sizeimage q)
  | _ => (0, 0)
  end.

Lemma file_format d fd s :
  core_files d !! fd = Some s ->
  exists q, fmt_ok q /\ (fun c => (out_q c, cap_q c)) <$> vctx s = Some (q, q) /\
    forall t, queue_format d fd t = (bytesperline q, sizeimage q).
Proof.
  intros E. destruct (lives_format s (core_lives d fd s E)) as (q & Hq & Ef). exists q.
  split; [done|]. split; [done|]. intros t. unfold queue_format, file_formats.
  rewrite lookup_fmap, E. cbn. rewrite Ef. by destruct t.
Qed.

Lemma files_run_formats (m m' : gmap Z vsys) : files_run m m' -> formats <$> m' = formats <$> m.
Proof.
  intros Hr. apply map_eq. intros fd. rewrite !lookup_fmap. specialize (Hr fd).
  destruct Hr as [s s' Hr|]; [|done]. cbn. by rewrite (steps_formats s s').
Qed.

Lemma run_queue_format d d' : files_run (core_files d) (core_files d') -> queue_format d' = queue_format d.
Proof. intros Hr. unfold queue_format, file_formats. by rewrite (files_run_formats _ _ Hr). Qed.

(** What a driver grants when it is asked for [x] by [y]. *)
Definition granted (x y : Z) : Z * Z :=
  let q := pix_q (vpipe_try_fmt (asked x y V4L2_PIX_FMT_GREY V4L2_FIELD_NONE)).2 in
  (bytesperline q, sizeimage q).

Lemma s_fmt_changes fd t x y px fl d a d' :
  ioctl fd (S_FMT t x y px fl) d = (a, d') ->
  (a_ret a < 0 /\ queue_format d' = queue_format d) \/
  (0 <= a_ret a /\ forall fd' t', queue_format d' fd' t' = if fd' =? fd then granted x y else queue_format d fd' t').
Proof.
  intros [[Ha Hr]|(s & r & pix' & s' & Es & E & Hret & Hr)]%core_s_fmt.
  { left. split; [done|]. by apply run_queue_format. }
  apply files_run_formats in Hr. rewrite fmap_insert in Hr.
  destruct (s_fmt_formats _ _ _ _ _ _ E) as [[-> Ef]|[-> Ef]].
  - left. split; [by apply Hret|]. unfold queue_format, file_formats. rewrite Hr, Ef.
    rewrite insert_id; [done|]. by rewrite lookup_fmap, Es.
  - right. split; [lia|]. intros fd' t'. unfold queue_format, file_formats. rewrite Hr, Ef.
    destruct (Z.eqb_spec fd' fd) as [->|Hne].
    + rewrite lookup_insert_eq. by destruct t'.
    + by rewrite lookup_insert_ne.
Qed.

Lemma queue_format_u32 d fd t : in_u32 (snd (queue_format d fd t)).
Proof.
  destruct (core_files d !! fd) as [s|] eqn:Es.
  - destruct (file_format d fd s Es) as (q & [Hw Hh _ Hz _] & _ & ->). cbn. rewrite Hz. unfold in_u32. nia.
  - unfold queue_format, file_formats. by rewrite lookup_fmap, Es.
Qed.

Lemma g_fmt_answer fd t d a d' :
  ioctl fd (G_FMT t) d = (a, d') -> 0 <= a_ret a -> (a_bytesperline a, a_sizeimage a) = queue_format d fd t.
Proof.
  intros E Ha. destruct (core_g_fmt _ _ _ _ _ E Ha) as (s & pix & pix' & s' & Es & Eg & -> & ->).
  destruct (file_format d fd s Es) as (q & Hq & Ef & ->).
  unfold vpipe_g_fmt, fbind, get_ctx in Eg. destruct (vctx s) as [c|]; [|done].
  injection Ef as Ho Hc. injection Eg as <- _.
  replace (vpipe_get_q_data c t) with q by (by destruct t). destruct Hq as [Hw Hh Hl Hz _].
  pose proof (fill_pix_id pix (q_width q) (q_height q) Hw Hh) as Hp.
  apply (f_equal (fun q => (bytesperline q, sizeimage q))) in Hp. rewrite Hl, Hz. exact Hp.
Qed.

Lemma reqbufs_long fd t c d a d' :
  ioctl fd (REQBUFS t c V4L2_MEMORY_MMAP) d = (a, d') -> 0 <= a_ret a ->
  Forall (fun len => snd (queue_format d fd t) <= len) (bufs_of d' fd t).
Proof.
  intros E Ha. destruct (core_reqbufs _ _ _ _ _ _ E Ha) as (s & n & np & size & s' & Es & Eq & Hlen).
  destruct (file_format d fd s Es) as (q & _ & Ef & ->).
  unfold vpipe_queue_setup, fbind, get_ctx in Eq. destruct (vctx s) as [c0|]; [|done].
  injection Ef as Ho Hc. injection Eq as _ _ Hs _. revert Hlen. subst size.
  by replace (vpipe_get_q_data c0 t) with q by (by destruct t).
Qed.
End Formats.

Definition legal_size (x y : Z) : bool := (1 <=? x) && (x <=? 4096) && (1 <=? y) && (y <=? 4096).

Lemma granted_legal x y : legal_size x y = true -> granted x y = (x, x * y).
Proof.
  unfold legal_size. intros Hl. unfold granted. cbn [vpipe_try_fmt snd asked pix_width pix_height].
  rewrite fill_pix_id by lia. done.
Qed.

(** The laws the programs rely on hold on the driver. *)
#[export] Instance driver_formats `{DriverCore} : FormatLaws.
Proof.
  refine {| fmt_of := queue_format; supported := legal_size; geometry := fun _ => granted |}.
  - apply queue_format_u32.
  - intros fd x y Hl. rewrite (granted_legal _ _ Hl). cbn. lia.
  - intros fd t x y d a d' E Ha. destruct (s_fmt_changes _ _ _ _ _ _ _ _ _ E) as [[? _]|[_ Hq]]; [lia|].
    split; [|intros t'; right]; by rewrite Hq, Z.eqb_refl.
  - apply g_fmt_answer.
  - apply reqbufs_long.
  - intros fd t x y px fl d a d' E fd' t' Hor. destruct (s_fmt_changes _ _ _ _ _ _ _ _ _ E) as [[_ ->]|[Ha Hq]]; [done|].
    rewrite Hq. destruct (Z.eqb_spec fd' fd) as [->|_]; [|done]. destruct Hor; [done|lia].
  - intros fd r d a d' Hr E. by eapply run_queue_format, core_runs.
  - intros x l d. apply run_queue_format, core_poke.
  - intros fd n d. apply run_queue_format, core_read.
  - intros fd d. apply run_queue_format, core_entry.
Defined.

(** ** A core

    One file of the driver, opened as descriptor 3 on a machine where every
    allocation succeeds, under the simulated buffers. *)
Module SimCore.
#[local] Existing Instances env_ok vpipe_ops_table fifo_framework Device.open_ok env_sum.

Record live := Live { file : vsys; alive : lives file }.

Definition file0 : vfile :=
  match vpipe_open idle_file with Some (_, f') => f' | None => idle_file end.

Lemma file0_opened : vpipe_open idle_file = Some (0, file0).
Proof. vm_compute. reflexivity. Qed.

Definition live0 : live := Live (fsys file0) (lives_open idle_file file0 file0_opened).

(** [VIDIOC_S_FMT] on the file. *)
Definition s_fmt_live (t : buf_type) (pix : v4l2_pix_format) (l : live) : option (Z * live) :=
  match vpipe_s_fmt t pix (file l) as o return vpipe_s_fmt t pix (file l) = o -> option (Z * live) with
  | Some (r, s') => fun E => Some (fst r, Live s' (lives_s_fmt t pix r (file l) s' (alive l) E))
  | None => fun _ => None
  end eq_refl.

Lemma s_fmt_live_run t pix l r l' :
  s_fmt_live t pix l = Some (r, l') ->
  exists pix', vpipe_s_fmt t pix (file l) = Some ((r, pix'), file l').
Proof.
  unfold s_fmt_live. generalize (eq_refl (vpipe_s_fmt t pix (file l))).
  generalize (vpipe_s_fmt t pix (file l)) at 2 3.
  intros [[[r0 p] s']|] e; [|done]. intros [= <- <-]. by exists p.
Qed.

Definition NODE : Z := 3.
Definition image : Z := 307200.

Section Core.
Context (fault : nat -> bool).
Let sim_ioctl := Sim.sim_ioctl image (fun _ => 32) fault.

(** What the core refuses before the driver sees it: formats and buffers of
    another descriptor, and images longer than its buffers. *)
Definition refuses (fd : Z) (r : request) (l : live) : bool :=
  match r with
  | S_FMT _ _ _ _ _ | G_FMT _ => negb (fd =? NODE)
  | REQBUFS t c _ =>
      negb (fd =? NODE) ||
      match vpipe_queue_setup t c 0 0 (file l) with
      | Some ((0, (_, _, size)), _) => negb (size <=? image)
      | _ => true
      end
  | _ => false
  end.

Definition core_ioctl (fd : Z) (r : request) (p : simdev * live) : answer * (simdev * live) :=
  let '(d, l) := p in
  if refuses fd r l then (Sim.wrong ENOTTY, p)
  else
    let '(a, d') := sim_ioctl fd r d in
    if a_ret a <? 0 then (a, (d', l))
    else
      match r with
      | S_FMT t x y px fl =>
          match s_fmt_live t (asked x y px fl) l with
          | Some (rc, l') => if rc <? 0 then (Sim.wrong (- rc), (d', l')) else (a, (d', l'))
          | None => (Sim.wrong ENOTTY, (d', l))
          end
      | G_FMT t =>
          match vpipe_g_fmt t (asked 0 0 0 0) (file l) with
          | Some ((0, pix), _) =>
              (Answer 0 0 (pix_sizeimage pix) (pix_bytesperline pix) 0 0 0 0 0 0 0 0, (d', l))
          | _ => (Sim.wrong ENOTTY, (d', l))
          end
      | _ => (a, (d', l))
      end.

#[local] Instance core : V4l2 := {
  dev := simdev * live;
  ioctl := core_ioctl;
  read_dev _ _ d := ((-1, []), d);
  read_entry _ d := ((-1, meta_zero), d);
  byte_at _ _ i := i;
  poke _ _ d := d;
  open_ok _ _ := true;
  mmap_ok _ _ _ _ := true;
  now k := (Z.min (Z.of_nat k) 1000000, 0);
  minflt _ := 0;
  eintr_max := 1
}.

(** The core answers as the simulation does, but for formats and refusals. *)
Lemma core_sim fd r d l a d' l' :
  core_ioctl fd r (d, l) = (a, (d', l')) ->
  (a_ret a < 0 /\ d' = d /\ l' = l /\ refuses fd r l = true /\ interrupted a = false) \/
  (refuses fd r l = false /\ exists a0, sim_ioctl fd r d = (a0, d') /\
     match r with
     | S_FMT _ _ _ _ _ | G_FMT _ => a_ret a0 < 0 -> a = a0 /\ l' = l
     | _ => a = a0 /\ l' = l
     end).
Proof.
  unfold core_ioctl. destruct (refuses fd r l); [intros [= <- <- <-]; by left|]. intros E. right. split; [done|].
  destruct (sim_ioctl fd r d) as [a0 d0]. exists a0.
  destruct (Z.ltb_spec (a_ret a0) 0) as [Hlt|Hge]; [injection E as <- <- <-; by destruct r|].
  destruct r; try (by injection E as <- <- <-); repeat case_match; simplify_eq; (split; [done|lia]).
Qed.

Lemma core_done fd r d l :
  Sim.interrupts r d = false \/ refuses fd r l = true -> interrupted (fst (core_ioctl fd r (d, l))) = false.
Proof.
  intros Hor. unfold core_ioctl. destruct (refuses fd r l); [done|]. destruct Hor as [Hi|]; [|done].
  assert (Hs : interrupted (fst (sim_ioctl fd r d)) = false).
  { unfold sim_ioctl, Sim.sim_ioctl. rewrite Hi. destruct (fault _); [done|apply Sim.answer_to_done]. }
  destruct (sim_ioctl fd r d) as [a0 d0]. destruct (a_ret a0 <? 0); [done|].
  destruct r; try done.
  - destruct (s_fmt_live _ _ l) as [[rc l']|] eqn:E; [|done]. apply s_fmt_live_run in E as [pix' E].
    by destruct (s_fmt_formats _ _ _ _ _ _ E) as [[-> _]|[-> _]].
  - repeat case_match; done.
Qed.

Lemma core_laws : V4l2Laws.
Proof.
  constructor. intros fd r [d l]. destruct (Sim.interrupts r d) eqn:Ei; [exists 1%nat|exists 0%nat].
  - split; [done|]. cbn [after_attempts ioctl core]. destruct (core_ioctl fd r (d, l)) as [a [d' l']] eqn:E. cbn [snd].
    apply core_done. destruct (core_sim _ _ _ _ _ _ _ E) as [(_ & -> & -> & Hr & _)|[_ (a0 & E0 & _)]]; [by right|left].
    unfold sim_ioctl, Sim.sim_ioctl in E0. rewrite Ei in E0. injection E0 as _ <-. by destruct r.
  - split; [lia|]. apply core_done. by left.
Qed.

Let sim := Sim.sim_bufs image (fun _ => 32) fault (fun _ => false) (fun _ => false) (fun _ i => i).

#[local] Instance core_bufs : BufferLaws.
Proof.
  refine {| bufs_of := (fun p => Sim.lens (fst p)) : dev -> Z -> buf_type -> list Z |}; try done.
  - intros [d l] fd t. apply (bufs_unsigned (BufferLaws := sim) d).
  - intros fd t c m [d l] a [d' l'] E Ha. destruct (core_sim _ _ _ _ _ _ _ E) as [[? _]|[_ (a0 & E0 & -> & _)]]; [lia|].
    by apply (reqbufs_grants (BufferLaws := sim) fd t c m d).
  - intros fd t c m [d l] a [d' l'] E. destruct (core_sim _ _ _ _ _ _ _ E) as [(_ & -> & _)|[_ (a0 & E0 & -> & _)]]; [done|].
    by apply (reqbufs_other (BufferLaws := sim) fd t c m d).
  - intros fd t i m [d l] a [d' l'] E Ha. destruct (core_sim _ _ _ _ _ _ _ E) as [[? _]|[_ (a0 & E0 & -> & _)]]; [lia|].
    by apply (querybuf_length (BufferLaws := sim) fd t i m d a0 d').
  - intros fd t m [d l] a [d' l'] E Ha. destruct (core_sim _ _ _ _ _ _ _ E) as [[? _]|[_ (a0 & E0 & -> & _)]]; [lia|].
    by apply (dqbuf_index (BufferLaws := sim) fd t m d a0 d').
  - intros fd b [d l] a [d' l'] E Ha. destruct (core_sim _ _ _ _ _ _ _ E) as [[? _]|[_ (a0 & E0 & -> & _)]]; [lia|].
    by apply (qbuf_index (BufferLaws := sim) fd b d a0 d').
  - intros fd r [d l] a [d' l'] Hr E. destruct (core_sim _ _ _ _ _ _ _ E) as [(_ & -> & _)|[_ (a0 & E0 & _)]]; [done|].
    by apply (ioctl_keeps (BufferLaws := sim) fd r d a0 d').
Defined.

Lemma core_clock : MonotonicClock.
Proof.
  pose proof (sim_clock image (fun _ => 32) fault (fun _ => false) (fun _ => false) (fun _ i => i)) as [Hm Hr].
  by split.
Qed.

Lemma image_u32 : in_u32 image.
Proof. done. Qed.

Lemma runs_refl m : files_run m m.
Proof. intros fd. destruct (m !! fd); by constructor. Qed.

Lemma reqbufs_setup fd t c d l a d' l' :
  core_ioctl fd (REQBUFS t c V4L2_MEMORY_MMAP) (d, l) = (a, (d', l')) -> 0 <= a_ret a ->
  fd = NODE /\ exists n np size s', vpipe_queue_setup t c 0 0 (file l) = Some ((0, (n, np, size)), s') /\
    Forall (Z.le size) (Sim.lens d' fd t).
Proof.
  intros E Ha. destruct (core_sim _ _ _ _ _ _ _ E) as [[? _]|[Hr (a0 & E0 & -> & _)]]; [lia|].
  cbn [refuses] in Hr. apply orb_false_iff in Hr as [Hfd Hsz]. split; [lia|].
  destruct (vpipe_queue_setup _ _ _ _ _) as [[[[] [[n np] size]] s']|]; try done.
  exists n, np, size, s'. split; [done|].
  eapply Forall_impl; [|exact (reqbufs_holds (FormatLaws := sim_fmts image (fun _ => 32) fault (fun _ => false)
    (fun _ => false) (fun _ i => i) image_u32) fd t c d a0 d' E0 Ha)].
  cbn. lia.
Qed.

Lemma s_fmt_dispatched fd t x y px fl d l a d' l' :
  core_ioctl fd (S_FMT t x y px fl) (d, l) = (a, (d', l')) ->
  a_ret a < 0 /\ l' = l \/
  fd = NODE /\ exists r pix', vpipe_s_fmt t (asked x y px fl) (file l) = Some ((r, pix'), file l') /\
    (a_ret a < 0 <-> r < 0).
Proof.
  unfold core_ioctl. cbn [refuses]. destruct (Z.eqb_spec fd NODE) as [->|]; cbn [negb]; [|intros [= <- _ <-]; by left].
  destruct (sim_ioctl _ _ d) as [a0 d0]. destruct (Z.ltb_spec (a_ret a0) 0) as [Hlt|Hge]; [intros [= <- _ <-]; by left|].
  destruct (s_fmt_live _ _ l) as [[rc l1]|] eqn:El; [|intros [= <- _ <-]; by left].
  apply s_fmt_live_run in El as [pix' El].
  destruct (Z.ltb_spec rc 0); intros [= <- _ <-]; right; (split; [done|]); exists rc, pix'; (split; [done|]); [done|lia].
Qed.

Lemma g_fmt_dispatched fd t d l a d' l' :
  core_ioctl fd (G_FMT t) (d, l) = (a, (d', l')) ->
  l' = l /\ (0 <= a_ret a -> fd = NODE /\ exists pix' s',
    vpipe_g_fmt t (asked 0 0 0 0) (file l) = Some ((0, pix'), s') /\
    a_bytesperline a = pix_bytesperline pix' /\ a_sizeimage a = pix_sizeimage pix').
Proof.
  unfold core_ioctl. cbn [refuses]. destruct (Z.eqb_spec fd NODE) as [->|]; cbn [negb]; [|by intros [= <- _ <-]].
  destruct (sim_ioctl _ _ d) as [a0 d0]. destruct (Z.ltb_spec (a_ret a0) 0) as [Hlt|Hge].
  { intros [= <- _ <-]. split; [done|lia]. }
  destruct (vpipe_g_fmt _ _ _) as [[[[] pix'] s']|]; intros [= <- _ <-]; split; try done.
  intros _. split; [done|]. by exists pix', s'.
Qed.

Lemma other_keeps fd r d l a d' l' :
  match r with S_FMT _ _ _ _ _ => False | _ => True end ->
  core_ioctl fd r (d, l) = (a, (d', l')) -> l' = l.
Proof.
  intros Hr E. destruct r; try done; try (by apply g_fmt_dispatched in E as [-> _]);
    by destruct (core_sim _ _ _ _ _ _ _ E) as [(_ & _ & -> & _)|(_ & a0 & _ & _ & ->)].
Qed.

#[local] Instance core_driver : DriverCore.
Proof.
  refine {| core_files := (fun p => {[NODE := file (snd p)]}) : dev -> gmap Z vsys |};
    try (intros; apply runs_refl).
  - intros [d l] fd s [_ <-]%lookup_singleton_Some. apply alive.
  - intros fd t x y px fl [d l] a [d' l'] [[Ha ->]|(-> & r & pix' & E & Hret)]%s_fmt_dispatched; cbn [snd].
    + left. split; [done|apply runs_refl].
    + right. exists (file l), r, pix', (file l'). rewrite lookup_singleton_eq, insert_singleton_eq.
      split; [done|]. split; [done|]. split; [done|apply runs_refl].
  - intros fd t [d l] a [d' l'] [_ Hg]%g_fmt_dispatched Ha. destruct (Hg Ha) as (-> & pix' & s' & E & Eb & Es).
    exists (file l), (asked 0 0 0 0), pix', s'. by rewrite lookup_singleton_eq.
  - intros fd t c [d l] a [d' l'] E Ha. destruct (reqbufs_setup _ _ _ _ _ _ _ _ E Ha) as (-> & n & np & size & s' & Eq & Hl).
    exists (file l), n, np, size, s'. by rewrite lookup_singleton_eq.
  - intros fd r [d l] a [d' l'] Hr E. apply other_keeps in E as ->; [apply runs_refl|done].
Defined.
End Core.
End SimCore.

(** ** The theorems *)

(** C13: the driver implements the interface the programs are verified against.
    For any V4L2 core that hands the format and allocation requests to the
    handlers of [kmod/vpipe-m2m.c], with any other callbacks, jobs and backend
    changes in between, the laws of [FormatLaws] hold of the formats in the
    contexts of its open files: every size from 1x1 to 4096x4096 is granted as
    asked, with packed lines and an exact image size, and stays until the next
    successful [VIDIOC_S_FMT]. *)
Theorem driver_implements_formats `{DriverCore} :
  exists L : FormatLaws,
    (forall d fd t s c, core_files d !! fd = Some s -> vctx s = Some c ->
       fmt_of (FormatLaws := L) d fd t
         = (bytesperline (vpipe_get_q_data c t), sizeimage (vpipe_get_q_data c t))) /\
    (forall fd x y, 1 <= x <= 4096 -> 1 <= y <= 4096 ->
       supported (FormatLaws := L) x y = true /\ geometry (FormatLaws := L) fd x y = (x, x * y)).
Proof.
  exists driver_formats. split.
  - intros d fd t s c Es Ec. cbn. unfold queue_format, file_formats. rewrite lookup_fmap, Es.
    cbn. unfold formats. rewrite Ec. by destruct t.
  - intros fd x y Hx Hy. assert (Hl : legal_size x y = true) by (unfold legal_size; lia).
    split; [exact Hl|exact (granted_legal x y Hl)].
Qed.

(** The file of the core is opened with 640x480. *)
Lemma driver_implements_formats_witness :
  let core := SimCore.core (fun _ => false) in
  exists L : @FormatLaws core (SimCore.core_bufs _),
    fmt_of (FormatLaws := L) (Sim.sim0, SimCore.live0) 3 CAPTURE = (640, 307200) /\
    geometry (FormatLaws := L) 3 1280 720 = (1280, 921600).
Proof.
  intros core.
  destruct (@driver_implements_formats _ _ _ _ _ _ _ (SimCore.core_driver (fun _ => false))) as (L & Hf & Hs).
  exists L. split; [|exact (proj2 (Hs 3 1280 720 ltac:(lia) ltac:(lia)))].
  destruct (vctx (SimCore.file SimCore.live0)) as [c|] eqn:Ec; [|vm_compute in Ec; discriminate].
  pose proof (Hf (Sim.sim0, SimCore.live0) 3 CAPTURE _ c eq_refl Ec) as Hw.
  vm_compute in Ec. injection Ec as <-. exact Hw.
Defined.

(** ** The programs on the driver *)

Import Runner RunnerRun.


